(* ===== verification/_CoqProject ===== *)
-Q . S2P
Prelude.v
Platform.v
Heap.v
Lck.v
CLayout.v
ProtoConsts.v
ProtoTypes.v
ProtoCheck.v
Proto.v
ProtoFacts.v
ProtoProps.v
SrpcQueue.v
Srpc.v
SrpcCall.v
SrpcFacts.v
SrpcProps.v
SrpcPack.v
SrpcPackFacts.v
SrpcGetData.v
SrpcGetDataFacts.v
SrpcGetDataProps.v
SrpcAsync.v
SrpcAsyncClient.v
SrpcAsyncProps.v
SrpcChunks.v
SrpcPackProps.v
ExtValue.v
ExtValueProps.v
ExtDetails.v
Crc.v
Crc16.v
Device.v
DeviceFacts.v
Storage.v
StorageFacts.v
StorageProps.v
StorageThms.v
StateStorage.v
StateStorageFacts.v
SimpleState.v
WlByte.v
WlByteFacts.v
WlByteRun.v
WlByteBoot.v
WlByteSave.v
WlByteProps.v
WlByteCrash.v
WlByteThms.v
SimpleThms.v
KeyValue.v
KeyValueProps.v
Config.v
ConfigProps.v
DeviceConsts.v
Events.v
Float64.v
Correction.v
ChannelTypes.v
Channel.v
ChannelValues.v
Tools.v
ToolsProps.v
