(* ===== verification/Prelude.v ===== *)
(** * A verification library of supla-device

    supla-device is the library with which Arduino, ESP and Linux devices talk to a SUPLA
    server.  Its core in C is [src/src/supla-common]: a framed binary protocol over a byte
    stream (proto.h, proto.c), a remote-call engine on top of it (srpc.c, srpc.h) that both
    ends of a connection run, and a lock (lck.c).  The C++ classes of [src/src/supla]
    (channels, sensors, controls, storage, network) are clients of that core.  This
    library models the core as it is written and proves what its clients rely on.

    ** How the parts interact

    A client calls a function such as [srpc_ds_async_registerdevice_g] with an object; it
    computes how many bytes of the object are in use and calls [srpc_async_call], which
    makes a packet with the next identifier and queues or writes it.  At the other end
    [srpc_iterate] or [srpc_iterate_device] reads bytes, appends them to the input buffer,
    cuts packets out of it and calls the user's [on_remote_call_received]; the user calls
    [srpc_getdata], which checks the size of the data for the call, allocates a typed
    object, and copies the data into it, and [srpc_rd_free], which releases it.

    ** Files

    - Prelude: C integers with their wrap-around ([uN], [sN]), checked memory accesses
      ([peek], [poke]), the monad [M] whose [None] is undefined behaviour, weakest
      preconditions [wp] and the tactics.
    - Platform: the preprocessor configuration as the class [Platform], its laws
      [PlatformLaws], and the seven builds of the repository.  Everything below is stated
      for every build unless it names one.
    - Heap: malloc, calloc, realloc and free over an oracle that decides which request is
      refused; the bytes of fresh memory are arbitrary; errno.
    - Lck: lck.c, the recursive lock as a counter.
    - CLayout, ProtoConsts, ProtoTypes, ProtoCheck: the packed structures of proto.h as
      data, with sizes, offsets and member access; the assertions of proto_check.cpp.
    - Proto: proto.c.  ProtoFacts has its invariant [spd_ok], ProtoProps its theorems,
      stated against the abstract parser [pop_in_spec] and the byte queues [in_contents]
      and [out_contents].
    - SrpcQueue, Srpc, SrpcCall: the packet queues, the engine and its calls, over a
      [world]: the engine, the allocator, what the peer will send, and the trace of what
      was written and reported.  SrpcFacts has the invariant [world_ok] and the contract
      [ParamsLaws] of the user's callbacks; SrpcProps the theorems.
    - SrpcPack: packs of items with captions.  SrpcPackFacts has the abstract unpacker
      [pack_of], SrpcPackProps the abstract packer [cut_items] and the round trip.
    - SrpcGetData: the switch of [srpc_getdata] as tables of rules in the order of the
      source.  SrpcGetDataFacts defines which data a rule accepts ([accepted]) and which
      object it makes ([object_is]); SrpcGetDataProps has the theorems.
    - SrpcAsync, SrpcAsyncClient: one definition per [srpc_*_async_*] function.
      SrpcAsyncProps relates the senders to the rules of the receiver, SrpcChunks treats
      the registration that is written in pieces.
    - ExtValue: the [srpc_evtool_*] functions.  ExtValueProps shows that a container is a
      list of values, ExtDetails that details come out as they went in.
    - Tools, ToolsProps: the checksum, hexadecimal text and random identifiers of tools.c.

    ** What the theorems show

    - End to end: what is sent arrives, whole and in order, however the stream is cut
      ([calls_reach_the_peer], [device_reassembles_stream]); a typed object that is sent
      is the object that is handed over ([sent_object_is_received], [pack_is_unpacked]);
      every sender has a receiver and the builds agree on the layouts
      ([senders_have_receivers], [device_shapes_agree]).
    - Safety on hostile input: no bytes from the network, no refusal of the allocator and
      no lawful callback make the engine leave its objects ([iterate_safe],
      [iterate_device_total], [getdata_safe], [rd_free_once]); a user's callback that
      reads and frees the data is lawful ([reading_callback_lawful]).
    - Refinement: the frame layer implements its abstract parser and byte queues
      ([pop_refines_spec], [in_append_is_queue_append]), the packet queues and the
      containers implement lists ([queue_is_a_list], [values_are_a_list]).
    - Sizes: counts are within their maxima and match the data ([counts_match_data]),
      identifiers do not repeat ([rr_ids_distinct]), layouts have the sizes the
      assertions say ([proto_check_holds]).
    - Helpers: the checksum is the CRC-32 computed bit by bit and detects every error
      within four consecutive bytes ([crc32_detects_bursts]).
    - Corners where the code does something its author did not mean, each on a concrete
      input: [pop_size_check_wraps], [out_append_not_atomic], [stale_errno_use_after_free],
      [iterate_out_drops_packet], [avr_result_of_sent_call_is_zero],
      [relation_count_wraps], [compat_ping_needs_memory], [missing_channel_breaks_stream],
      [chunks_leave_oversized_packet], [caption_size_wraps], [value_get_size_wraps].

    ** Fuel

    Two definitions are bounded.  [pop_loop] of [srpc_iterate_device] runs on fuel;
    [iterate_device_total] shows that the bound of the input buffer is enough, since each
    packet that is popped shortens the buffer.  [value_add] calls itself at most once and
    has depth two; [values_are_a_list] shows that this is never exhausted.  Everything
    else is structurally recursive: [value_get_loop] in the position that is asked for,
    because the loop of the source stops there.

    ** Conventions

    An object is its bytes; a pointer is null, live with its bytes, or dangling.  A
    function that reads or writes outside an object, or through a pointer that is not
    live, yields [None], so that a theorem that a function yields [Some] is a theorem of
    memory safety.  Callbacks are functions over the [world] and may call back into the
    engine, which their contract allows.

    ** What is not modelled

    Logging; the event handler eh.c (descriptors and epoll; the engine's use of it is the
    event [EvRaise]); the helpers of tools.c for signals, processes, files, clocks and
    cryptography, and those that compute with floating point; preemption between threads (the lock is a counter, and each
    function is a sequence of steps between callbacks); the C++ device classes, the
    vendored modbus stack, the tests and the examples.

    ** Plan

    Next: the event handler as a state machine over an abstract kernel, and theorems on
    the conversions between meter versions; then the C++ classes next to the core: the
    registration and the callbacks of supla_srpc.cpp, the channel values, and the storage
    with its wear levelling. *)
From Stdlib Require Export ZArith Lia Bool.
From coqutil Require Export Byte Word.LittleEndianList.
From stdpp Require Export base list numbers strings option.

#[global] Open Scope Z_scope.

(** ** C integers: a w-bit integer is a [Z] with its wrap-around written out *)

Abbreviation bytes := (list Init.Byte.byte).

#[export] Instance byte_eq_dec : EqDecision Init.Byte.byte := Byte.byte_eq_dec.

(** Conversion to an unsigned w-bit type. *)
Definition uN (w z : Z) : Z := z mod 2 ^ w.

(** Conversion to a signed (two's complement) w-bit type. *)
Definition sN (w z : Z) : Z := (z + 2 ^ (w - 1)) mod 2 ^ w - 2 ^ (w - 1).

Abbreviation u8 := (uN 8).
Abbreviation u16 := (uN 16).
Abbreviation u32 := (uN 32).
Abbreviation u64 := (uN 64).
Abbreviation i8 := (sN 8).
Abbreviation i16 := (sN 16).
Abbreviation i32 := (sN 32).
Abbreviation i64 := (sN 64).

(** Length of a list as an integer. *)
Definition Zlen {A} (l : list A) : Z := Z.of_nat (length l).

(** [n] bytes of value zero, as [memset (p, 0, n)] and [calloc] leave them. *)
Definition zeros (n : Z) : bytes := replicate (Z.to_nat n) Byte.x00.

(** ** Checked memory accesses: [None] is an access outside the object *)

Definition peek (off n : Z) (l : bytes) : option bytes :=
  if (0 <=? off) && (0 <=? n) && (off + n <=? Zlen l)
  then Some (take (Z.to_nat n) (drop (Z.to_nat off) l))
  else None.

Definition poke (off : Z) (d l : bytes) : option bytes :=
  if (0 <=? off) && (off + Zlen d <=? Zlen l)
  then Some (take (Z.to_nat off) l ++ d ++ drop (Z.to_nat (off + Zlen d)) l)
  else None.

(** ** A state monad with undefined behaviour

    [M S A] is a C function over the state [S] that returns an [A]; [None] is
    undefined behaviour (an access outside an object, a use after free).  A
    theorem that a function returns [Some] is a memory-safety theorem. *)

Definition M (S A : Type) : Type := S -> option (A * S).

Definition mret {S A} (a : A) : M S A := fun s => Some (a, s).

Definition mbnd {S A B} (m : M S A) (k : A -> M S B) : M S B :=
  fun s => match m s with Some (a, s') => k a s' | None => None end.

Definition mget {S} : M S S := fun s => Some (s, s).

Definition mput {S} (s : S) : M S unit := fun _ => Some (tt, s).

Definition mmod {S} (f : S -> S) : M S unit := fun s => Some (tt, f s).

(** A partial access: [None] is undefined behaviour of the whole call. *)
Definition mopt {S A} (o : option A) : M S A :=
  fun s => match o with Some a => Some (a, s) | None => None end.

Declare Scope supla_scope.
Delimit Scope supla_scope with supla.
Notation "'let!' x ':=' m 'in' k" := (mbnd m (fun x => k))
  (at level 10, x pattern, m at level 100, k at level 200) : supla_scope.
Notation "m ';;;' k" := (mbnd m (fun _ => k))
  (at level 100, k at level 200, right associativity) : supla_scope.
#[global] Open Scope supla_scope.

(** Weakest precondition: the call is defined and its result satisfies [Q]. *)
Definition wp {S A} (m : M S A) (Q : A -> S -> Prop) (s : S) : Prop :=
  match m s with Some (a, s') => Q a s' | None => False end.

(** ** Lemmas on C integers *)

Lemma uN_range w z : 0 <= w -> 0 <= uN w z < 2 ^ w.
Proof. intros. apply Z.mod_pos_bound. lia. Qed.

Lemma uN_small w z : 0 <= z < 2 ^ w -> uN w z = z.
Proof. apply Z.mod_small. Qed.

Lemma uN_idemp w z : uN w (uN w z) = uN w z.
Proof. apply Zmod_mod. Qed.

Lemma sN_small w z : 0 < w -> - 2 ^ (w - 1) <= z < 2 ^ (w - 1) -> sN w z = z.
Proof.
  intros Hw Hz. unfold sN.
  assert (2 ^ w = 2 * 2 ^ (w - 1)) as ->.
  { rewrite <-Z.pow_succ_r by lia. f_equal. lia. }
  rewrite Z.mod_small; lia.
Qed.

Lemma sN_range w z : 0 < w -> - 2 ^ (w - 1) <= sN w z < 2 ^ (w - 1).
Proof.
  intros Hw. unfold sN.
  assert (2 ^ w = 2 * 2 ^ (w - 1)) as ->.
  { rewrite <-Z.pow_succ_r by lia. f_equal. lia. }
  pose proof (Z.mod_pos_bound (z + 2 ^ (w - 1)) (2 * 2 ^ (w - 1))). lia.
Qed.

(** ** Lemmas on lengths *)

Lemma Zlen_nonneg {A} (l : list A) : 0 <= Zlen l.
Proof. unfold Zlen. lia. Qed.

Lemma Zlen_app {A} (l k : list A) : Zlen (l ++ k) = Zlen l + Zlen k.
Proof. unfold Zlen. rewrite length_app. lia. Qed.

Lemma Zlen_cons {A} (x : A) l : Zlen (x :: l) = 1 + Zlen l.
Proof. unfold Zlen. cbn [length]. lia. Qed.

Lemma Zlen_nil {A} : Zlen (@nil A) = 0.
Proof. reflexivity. Qed.

Lemma Zlen_take {A} n (l : list A) : Zlen (take n l) = Z.min (Z.of_nat n) (Zlen l).
Proof. unfold Zlen. rewrite length_take. lia. Qed.

Lemma Zlen_drop {A} n (l : list A) : Zlen (drop n l) = Z.max 0 (Zlen l - Z.of_nat n).
Proof. unfold Zlen. rewrite length_drop. lia. Qed.

Lemma Zlen_replicate {A} n (x : A) : Zlen (replicate n x) = Z.of_nat n.
Proof. unfold Zlen. by rewrite length_replicate. Qed.

Lemma Zlen_zeros n : 0 <= n -> Zlen (zeros n) = n.
Proof. intros. unfold zeros. rewrite Zlen_replicate. lia. Qed.

Lemma Zlen_le_split n z : Zlen (le_split n z) = Z.of_nat n.
Proof. unfold Zlen. by rewrite length_le_split. Qed.

Lemma Zlen_length {A} (l : list A) : Z.to_nat (Zlen l) = length l.
Proof. unfold Zlen. lia. Qed.

Lemma Zlen_0_nil {A} (l : list A) : Zlen l = 0 -> l = [].
Proof. destruct l; [done|]. rewrite Zlen_cons. pose proof (Zlen_nonneg l). lia. Qed.

Create HintDb zlen.
#[export] Hint Rewrite @Zlen_app @Zlen_cons @Zlen_nil @Zlen_take @Zlen_drop
  @Zlen_replicate Zlen_le_split : zlen.
#[export] Hint Rewrite Zlen_zeros using lia : zlen.

(** Linear arithmetic over lengths: each list in sight has a non-negative length. *)
Ltac zlen_pose :=
  repeat match goal with
  | |- context [Zlen ?l] => lazymatch goal with
      | _ : 0 <= Zlen l |- _ => fail | _ => pose proof (Zlen_nonneg l) end
  | H : context [Zlen ?l] |- _ => lazymatch goal with
      | _ : 0 <= Zlen l |- _ => fail | _ => pose proof (Zlen_nonneg l) end
  end.
Ltac zlen := autorewrite with zlen in *; zlen_pose; lia.

(** Boolean comparisons of a guard as propositions. *)
Ltac bools :=
  repeat match goal with
  | H : (_ && _)%bool = true |- _ => apply andb_true_iff in H; destruct H
  | H : (_ || _)%bool = false |- _ => apply orb_false_iff in H; destruct H
  | H : negb _ = true |- _ => apply negb_true_iff in H
  | H : negb _ = false |- _ => apply negb_false_iff in H
  | H : (_ <=? _) = true |- _ => apply Z.leb_le in H
  | H : (_ <=? _) = false |- _ => apply Z.leb_gt in H
  | H : (_ <? _) = true |- _ => apply Z.ltb_lt in H
  | H : (_ <? _) = false |- _ => apply Z.ltb_ge in H
  | H : (_ =? _) = true |- _ => apply Z.eqb_eq in H
  | H : (_ =? _) = false |- _ => apply Z.eqb_neq in H
  end.

(** Case analysis on the guard of the innermost [if]. *)
Ltac case_if :=
  match goal with
  | |- context [if ?b then _ else _] =>
      lazymatch b with context [if _ then _ else _] => fail | _ => idtac end;
      let E := fresh "E" in destruct b eqn:E
  end.

(** ** Lemmas on checked accesses *)

Lemma peek_Some off n l :
  0 <= off -> 0 <= n -> off + n <= Zlen l ->
  peek off n l = Some (take (Z.to_nat n) (drop (Z.to_nat off) l)).
Proof.
  intros. unfold peek.
  rewrite !(proj2 (Z.leb_le _ _)) by lia. done.
Qed.

Lemma peek_inv off n l r :
  peek off n l = Some r ->
  0 <= off /\ 0 <= n /\ off + n <= Zlen l /\ Zlen r = n
  /\ r = take (Z.to_nat n) (drop (Z.to_nat off) l).
Proof.
  unfold peek. case_if; [|done]. intros [= <-]. bools. repeat split; zlen.
Qed.

Lemma peek_0 n l : 0 <= n <= Zlen l -> peek 0 n l = Some (take (Z.to_nat n) l).
Proof. intros. rewrite peek_Some by lia. by rewrite drop_0. Qed.

Lemma poke_Some off d l :
  0 <= off -> off + Zlen d <= Zlen l ->
  poke off d l = Some (take (Z.to_nat off) l ++ d ++ drop (Z.to_nat (off + Zlen d)) l).
Proof.
  intros. unfold poke.
  rewrite !(proj2 (Z.leb_le _ _)) by lia. done.
Qed.

Lemma poke_inv off d l r :
  poke off d l = Some r ->
  0 <= off /\ off + Zlen d <= Zlen l /\ Zlen r = Zlen l.
Proof.
  unfold poke. case_if; [|done]. intros [= <-]. bools. repeat split; zlen.
Qed.

Lemma take_Zlen_app {A} (l k : list A) n : n = Zlen l -> take (Z.to_nat n) (l ++ k) = l.
Proof. intros ->. rewrite Zlen_length. by rewrite take_app_length. Qed.

Lemma drop_Zlen_app {A} (l k : list A) n : n = Zlen l -> drop (Z.to_nat n) (l ++ k) = k.
Proof. intros ->. rewrite Zlen_length. by rewrite drop_app_length. Qed.

Lemma take_all {A} (l : list A) n : Zlen l <= n -> take (Z.to_nat n) l = l.
Proof. intros. apply take_ge. unfold Zlen in *. lia. Qed.

(** Overwriting the middle of a concatenation. *)
Lemma poke_app p m s d off : off = Zlen p -> Zlen m = Zlen d ->
  poke off d (p ++ m ++ s) = Some (p ++ d ++ s).
Proof.
  intros -> Hm. rewrite poke_Some by zlen. rewrite take_Zlen_app by done. do 2 f_equal.
  rewrite app_assoc, drop_Zlen_app by zlen. done.
Qed.

(** ** Lemmas on the monad *)

Lemma wp_ret {S A} (a : A) (Q : A -> S -> Prop) s : Q a s -> wp (mret a) Q s.
Proof. done. Qed.

Lemma wp_bnd {S A B} (m : M S A) (k : A -> M S B) Q s :
  wp m (fun a => wp (k a) Q) s -> wp (mbnd m k) Q s.
Proof. unfold wp, mbnd. by destruct (m s) as [[a s']|]. Qed.

Lemma wp_get {S} (Q : S -> S -> Prop) s : Q s s -> wp mget Q s.
Proof. done. Qed.

Lemma wp_put {S} (s' : S) (Q : unit -> S -> Prop) s : Q tt s' -> wp (mput s') Q s.
Proof. done. Qed.

Lemma wp_mod {S} (f : S -> S) (Q : unit -> S -> Prop) s : Q tt (f s) -> wp (mmod f) Q s.
Proof. done. Qed.

Lemma wp_opt {S A} (o : option A) (Q : A -> S -> Prop) s a :
  o = Some a -> Q a s -> wp (mopt o) Q s.
Proof. intros ->. done. Qed.

Lemma wp_eq {S A} (m : M S A) (Q : A -> S -> Prop) s a s' :
  m s = Some (a, s') -> Q a s' -> wp m Q s.
Proof. unfold wp. by intros ->. Qed.

Lemma wp_mono {S A} (m : M S A) (P Q : A -> S -> Prop) s :
  wp m P s -> (forall a s', P a s' -> Q a s') -> wp m Q s.
Proof. unfold wp. destruct (m s) as [[a s']|]; auto. Qed.

Lemma wp_and {S A} (m : M S A) (P Q : A -> S -> Prop) s :
  wp m P s -> wp m Q s -> wp m (fun a s' => P a s' /\ Q a s') s.
Proof. unfold wp. by destruct (m s) as [[a s']|]. Qed.

Lemma wp_if {S A} (b : bool) (m n : M S A) Q s :
  (b = true -> wp m Q s) -> (b = false -> wp n Q s) -> wp (if b then m else n) Q s.
Proof. destruct b; auto. Qed.

Lemma wp_run {S A} (m : M S A) Q s : wp m Q s <-> exists a s', m s = Some (a, s') /\ Q a s'.
Proof.
  unfold wp. split.
  - destruct (m s) as [[a s']|]; [eauto|done].
  - by intros (a & s' & -> & ?).
Qed.

(** Symbolic execution of the monadic operations at the head of a goal. *)
Ltac wp_step :=
  lazymatch goal with
  | |- wp (mbnd _ _) _ _ => apply wp_bnd
  | |- wp mget _ _ => apply wp_get
  | |- wp (mput _) _ _ => apply wp_put
  | |- wp (mmod _) _ _ => apply wp_mod
  | |- wp (mret _) _ _ => apply wp_ret
  | |- _ => progress cbn beta iota
  end.
Ltac wp_steps := repeat wp_step.

(** A call whose result an equation gives. *)
Tactic Notation "step" uconstr(H) "by" tactic3(tac) :=
  apply wp_bnd; eapply wp_eq; [apply H; tac|].

(** Remove the wrap-around of 32-bit sums that do not wrap, from the inside out. *)
Ltac u32s :=
  repeat match goal with
  | |- context [uN 32 ?z] =>
      lazymatch z with context [uN 32 _] => fail | _ => idtac end;
      rewrite (uN_small 32 z) by lia
  end.

(** Spell out the elements of every list whose length is a numeral. *)
Ltac list_of_length :=
  repeat match goal with
  | H : length ?l = ?n |- _ =>
      is_var l;
      destruct l as [|? l]; cbn [length] in H; try discriminate H;
      first [apply (f_equal Nat.pred) in H; cbn [Nat.pred] in H | clear H]
  end.
