(* ===== verification/Platform.v ===== *)
(** * Build configurations

    The preprocessor symbols that select code and sizes in [src/src/supla-common]
    (proto.h, proto.c, srpc.c, srpc.h) as one record, its laws, and the
    configurations the repository's build files produce. *)
From S2P Require Import Prelude.

(** The compile-time constants of a target. *)
Class Platform := {
  size_t_bits : Z;                     (* width of size_t *)
  char_signed : bool;                  (* signedness of plain char *)
  SUPLA_MAX_DATA_SIZE : Z;
  SUPLA_CHANNELEXTENDEDVALUE_SIZE : Z;
  EM_MEASUREMENT_COUNT : Z;
  BUFFER_MIN_SIZE : Z;
  BUFFER_MAX_SIZE : Z;
  SRPC_BUFFER_SIZE : Z;
  SRPC_QUEUE_SIZE : Z;
  SRPC_QUEUE_MIN_ALLOC_COUNT : Z;
  SPROTO_WITHOUT_OUT_BUFFER : bool;
  SRPC_WITHOUT_IN_QUEUE : bool;
  SRPC_WITHOUT_OUT_QUEUE : bool;
  PACKET_INTEGRITY_BUFFER_DISABLED : bool;
  SRPC_EXCLUDE_DEVICE : bool;
  SRPC_EXCLUDE_CLIENT : bool;
  EH_DISABLED : bool;                  (* __EH_DISABLED *)
  ERRNO_CHECKED : bool;                (* proto.c tests errno after realloc *)
  AVR : bool;                          (* __AVR__ *)
  SINGLE_THREAD : bool                 (* __SINGLE_THREAD of lck.c *)
}.

(** What every configuration satisfies. *)
Class PlatformLaws (P : Platform) := {
  size_t_bits_range : 16 <= size_t_bits <= 64;
  max_data_range : 600 <= SUPLA_MAX_DATA_SIZE <= 10240;
  extvalue_range : 256 <= SUPLA_CHANNELEXTENDEDVALUE_SIZE <= 1024;
  em_count_range : 1 <= EM_MEASUREMENT_COUNT <= 5;
  buffer_min_range : 0 <= BUFFER_MIN_SIZE < BUFFER_MAX_SIZE;
  buffer_max_range : BUFFER_MAX_SIZE <= 131072;
  srpc_buffer_range : 1 <= SRPC_BUFFER_SIZE <= 32768;
  queue_size_range : 1 <= SRPC_QUEUE_SIZE <= 10;
  min_alloc_range : 0 <= SRPC_QUEUE_MIN_ALLOC_COUNT <= SRPC_QUEUE_SIZE;
  reassembly_fits : SUPLA_MAX_DATA_SIZE + 23 + SRPC_BUFFER_SIZE < BUFFER_MAX_SIZE
}.

(** ** Common sizes of proto.h (the same on every target) *)

Definition SUPLA_TAG_SIZE : Z := 5.
Definition SUPLA_PROTO_VERSION : Z := 28.
Definition SUPLA_PROTO_VERSION_MIN : Z := 1.

(** SUPLA_RESULT_* *)
Definition SUPLA_RESULT_DATA_TOO_LARGE : Z := -4.
Definition SUPLA_RESULT_BUFFER_OVERFLOW : Z := -3.
Definition SUPLA_RESULT_DATA_ERROR : Z := -2.
Definition SUPLA_RESULT_VERSION_ERROR : Z := -1.
Definition SUPLA_RESULT_FALSE : Z := 0.
Definition SUPLA_RESULT_TRUE : Z := 1.

(** Conversion of an [int] to plain [char]. *)
Definition to_char `{Platform} (z : Z) : Z := if char_signed then i8 z else u8 z.

(** Conversion to [int], 16 bits wide on AVR. *)
Definition to_int `{Platform} (z : Z) : Z := if AVR then i16 z else i32 z.

(** ** The configurations *)

(** Linux (sd4linux): cmake/SuplaDeviceSources.cmake defines SUPLA_DEVICE, x86_64. *)
Definition linux_device : Platform := {|
  size_t_bits := 64; char_signed := true; SUPLA_MAX_DATA_SIZE := 600;
  SUPLA_CHANNELEXTENDEDVALUE_SIZE := 256; EM_MEASUREMENT_COUNT := 1;
  BUFFER_MIN_SIZE := 512; BUFFER_MAX_SIZE := 2048; SRPC_BUFFER_SIZE := 1024;
  SRPC_QUEUE_SIZE := 10; SRPC_QUEUE_MIN_ALLOC_COUNT := 0;
  SPROTO_WITHOUT_OUT_BUFFER := false; SRPC_WITHOUT_IN_QUEUE := true;
  SRPC_WITHOUT_OUT_QUEUE := true; PACKET_INTEGRITY_BUFFER_DISABLED := true;
  SRPC_EXCLUDE_DEVICE := false; SRPC_EXCLUDE_CLIENT := true; EH_DISABLED := true;
  ERRNO_CHECKED := false; AVR := false; SINGLE_THREAD := true |}.

(** ESP-IDF on ESP32: ESP_PLATFORM and SUPLA_DEVICE. *)
Definition esp_idf : Platform := {|
  size_t_bits := 32; char_signed := false; SUPLA_MAX_DATA_SIZE := 600;
  SUPLA_CHANNELEXTENDEDVALUE_SIZE := 256; EM_MEASUREMENT_COUNT := 1;
  BUFFER_MIN_SIZE := 512; BUFFER_MAX_SIZE := 2048; SRPC_BUFFER_SIZE := 1024;
  SRPC_QUEUE_SIZE := 10; SRPC_QUEUE_MIN_ALLOC_COUNT := 0;
  SPROTO_WITHOUT_OUT_BUFFER := true; SRPC_WITHOUT_IN_QUEUE := true;
  SRPC_WITHOUT_OUT_QUEUE := true; PACKET_INTEGRITY_BUFFER_DISABLED := true;
  SRPC_EXCLUDE_DEVICE := false; SRPC_EXCLUDE_CLIENT := true; EH_DISABLED := true;
  ERRNO_CHECKED := false; AVR := false; SINGLE_THREAD := true |}.

(** Arduino on ESP32 / ESP8266: ESP32 or ESP8266, and ARDUINO. *)
Definition arduino_esp : Platform := {|
  size_t_bits := 32; char_signed := false; SUPLA_MAX_DATA_SIZE := 600;
  SUPLA_CHANNELEXTENDEDVALUE_SIZE := 256; EM_MEASUREMENT_COUNT := 1;
  BUFFER_MIN_SIZE := 512; BUFFER_MAX_SIZE := 2048; SRPC_BUFFER_SIZE := 256;
  SRPC_QUEUE_SIZE := 2; SRPC_QUEUE_MIN_ALLOC_COUNT := 2;
  SPROTO_WITHOUT_OUT_BUFFER := true; SRPC_WITHOUT_IN_QUEUE := true;
  SRPC_WITHOUT_OUT_QUEUE := true; PACKET_INTEGRITY_BUFFER_DISABLED := true;
  SRPC_EXCLUDE_DEVICE := false; SRPC_EXCLUDE_CLIENT := true; EH_DISABLED := true;
  ERRNO_CHECKED := false; AVR := false; SINGLE_THREAD := true |}.

(** Arduino Mega: __AVR__ and ARDUINO. *)
Definition arduino_mega : Platform := {|
  size_t_bits := 16; char_signed := true; SUPLA_MAX_DATA_SIZE := 600;
  SUPLA_CHANNELEXTENDEDVALUE_SIZE := 256; EM_MEASUREMENT_COUNT := 1;
  BUFFER_MIN_SIZE := 32; BUFFER_MAX_SIZE := 1024; SRPC_BUFFER_SIZE := 32;
  SRPC_QUEUE_SIZE := 1; SRPC_QUEUE_MIN_ALLOC_COUNT := 1;
  SPROTO_WITHOUT_OUT_BUFFER := true; SRPC_WITHOUT_IN_QUEUE := true;
  SRPC_WITHOUT_OUT_QUEUE := true; PACKET_INTEGRITY_BUFFER_DISABLED := true;
  SRPC_EXCLUDE_DEVICE := false; SRPC_EXCLUDE_CLIENT := true; EH_DISABLED := true;
  ERRNO_CHECKED := false; AVR := true; SINGLE_THREAD := true |}.

(** ESP8266 NONOS SDK: only ESP8266; both queues are compiled in. *)
Definition esp8266_nonos : Platform := {|
  size_t_bits := 32; char_signed := false; SUPLA_MAX_DATA_SIZE := 1536;
  SUPLA_CHANNELEXTENDEDVALUE_SIZE := 256; EM_MEASUREMENT_COUNT := 1;
  BUFFER_MIN_SIZE := 512; BUFFER_MAX_SIZE := 2048; SRPC_BUFFER_SIZE := 256;
  SRPC_QUEUE_SIZE := 2; SRPC_QUEUE_MIN_ALLOC_COUNT := 2;
  SPROTO_WITHOUT_OUT_BUFFER := false; SRPC_WITHOUT_IN_QUEUE := false;
  SRPC_WITHOUT_OUT_QUEUE := false; PACKET_INTEGRITY_BUFFER_DISABLED := false;
  SRPC_EXCLUDE_DEVICE := false; SRPC_EXCLUDE_CLIENT := true; EH_DISABLED := true;
  ERRNO_CHECKED := false; AVR := false; SINGLE_THREAD := false |}.

(** The generic build (server and client applications): no target symbol, x86_64. *)
Definition generic64 : Platform := {|
  size_t_bits := 64; char_signed := true; SUPLA_MAX_DATA_SIZE := 10240;
  SUPLA_CHANNELEXTENDEDVALUE_SIZE := 1024; EM_MEASUREMENT_COUNT := 5;
  BUFFER_MIN_SIZE := 0; BUFFER_MAX_SIZE := 131072; SRPC_BUFFER_SIZE := 32768;
  SRPC_QUEUE_SIZE := 10; SRPC_QUEUE_MIN_ALLOC_COUNT := 0;
  SPROTO_WITHOUT_OUT_BUFFER := false; SRPC_WITHOUT_IN_QUEUE := false;
  SRPC_WITHOUT_OUT_QUEUE := false; PACKET_INTEGRITY_BUFFER_DISABLED := false;
  SRPC_EXCLUDE_DEVICE := false; SRPC_EXCLUDE_CLIENT := false; EH_DISABLED := false;
  ERRNO_CHECKED := true; AVR := false; SINGLE_THREAD := false |}.

(** The generic build on a 32-bit ARM. *)
Definition generic_arm32 : Platform := {|
  size_t_bits := 32; char_signed := false; SUPLA_MAX_DATA_SIZE := 10240;
  SUPLA_CHANNELEXTENDEDVALUE_SIZE := 1024; EM_MEASUREMENT_COUNT := 5;
  BUFFER_MIN_SIZE := 0; BUFFER_MAX_SIZE := 131072; SRPC_BUFFER_SIZE := 32768;
  SRPC_QUEUE_SIZE := 10; SRPC_QUEUE_MIN_ALLOC_COUNT := 0;
  SPROTO_WITHOUT_OUT_BUFFER := false; SRPC_WITHOUT_IN_QUEUE := false;
  SRPC_WITHOUT_OUT_QUEUE := false; PACKET_INTEGRITY_BUFFER_DISABLED := false;
  SRPC_EXCLUDE_DEVICE := false; SRPC_EXCLUDE_CLIENT := false; EH_DISABLED := false;
  ERRNO_CHECKED := true; AVR := false; SINGLE_THREAD := false |}.

Ltac platform_laws := constructor; cbn; lia.

#[export] Instance linux_device_laws : PlatformLaws linux_device.
Proof. platform_laws. Qed.
#[export] Instance esp_idf_laws : PlatformLaws esp_idf.
Proof. platform_laws. Qed.
#[export] Instance arduino_esp_laws : PlatformLaws arduino_esp.
Proof. platform_laws. Qed.
#[export] Instance arduino_mega_laws : PlatformLaws arduino_mega.
Proof. platform_laws. Qed.
#[export] Instance esp8266_nonos_laws : PlatformLaws esp8266_nonos.
Proof. platform_laws. Qed.
#[export] Instance generic64_laws : PlatformLaws generic64.
Proof. platform_laws. Qed.
#[export] Instance generic_arm32_laws : PlatformLaws generic_arm32.
Proof. platform_laws. Qed.

(** Bring the laws of the platform in scope into the context. *)
Ltac platform :=
  lazymatch goal with
  | L : PlatformLaws _ |- _ =>
      pose proof (@size_t_bits_range _ L); pose proof (@max_data_range _ L);
      pose proof (@extvalue_range _ L); pose proof (@em_count_range _ L);
      pose proof (@buffer_min_range _ L); pose proof (@buffer_max_range _ L);
      pose proof (@srpc_buffer_range _ L); pose proof (@queue_size_range _ L);
      pose proof (@min_alloc_range _ L); pose proof (@reassembly_fits _ L)
  end.

(** The result codes survive the conversion to [char] and stay distinct. *)
Lemma to_char_0 `{Platform} : to_char 0 = 0.
Proof. unfold to_char. by destruct char_signed. Qed.

Lemma to_char_1 `{Platform} : to_char 1 = 1.
Proof. unfold to_char. by destruct char_signed. Qed.

Lemma to_char_idemp `{Platform} z : to_char (to_char z) = to_char z.
Proof.
  unfold to_char. destruct char_signed; [|apply uN_idemp].
  apply sN_small; [lia|]. apply sN_range. lia.
Qed.

Lemma to_char_u8 `{Platform} z : to_char (u8 z) = to_char z.
Proof.
  unfold to_char. destruct char_signed; [|apply uN_idemp].
  unfold sN, uN. by rewrite Zplus_mod_idemp_l.
Qed.

#[export] Hint Rewrite @to_char_0 @to_char_1 @to_char_idemp @to_char_u8 : char.
