(* ===== verification/Heap.v ===== *)
(** * Heap objects

    The allocations of the C runtime the sources use: [malloc], [calloc] and
    [realloc] over an allocator that may refuse any request and hands out
    indeterminate bytes, and checked accesses through a pointer. *)
From S2P Require Import Prelude.

(** A pointer to (the start of) a heap object its holder owns: null, an object
    with its bytes, or a pointer whose object has been freed. *)
Inductive ptr :=
| PNull
| PLive (b : bytes)
| PDangling.

(** The allocator: [h_oom] says which of the coming requests fail (none once it is
    exhausted), [h_junk] gives the indeterminate contents of fresh memory. *)
Record heap := {
  h_oom : list bool;
  h_errno : Z;
  h_junk : nat -> Init.Byte.byte
}.

Definition ENOMEM : Z := 12.

(** The outcome of the next request: [true] when it is refused. *)
Definition next_request : M heap bool := fun h =>
  match h_oom h with
  | [] => Some (false, h)
  | true :: l => Some (true, {| h_oom := l; h_errno := ENOMEM; h_junk := h_junk h |})
  | false :: l => Some (false, {| h_oom := l; h_errno := h_errno h; h_junk := h_junk h |})
  end.

(** [n] indeterminate bytes. *)
Definition junk (h : heap) (n : Z) : bytes := map (h_junk h) (seq 0 (Z.to_nat n)).

Definition malloc (n : Z) : M heap ptr :=
  let! refused := next_request in
  let! h := mget in
  mret (if refused then PNull else PLive (junk h n)).

Definition calloc (n : Z) : M heap ptr :=
  let! refused := next_request in
  mret (if refused then PNull else PLive (zeros n)).

(** The holder's copy of a pointer whose object the runtime has released. *)
Definition freed (p : ptr) : ptr :=
  match p with PNull => PNull | _ => PDangling end.

(** [realloc (p, n)]: the result, and what the old pointer has become.  Asking for
    zero bytes frees the object and returns null, as glibc and newlib do. *)
Definition realloc (p : ptr) (n : Z) : M heap (ptr * ptr) :=
  match p with
  | PDangling => mopt None
  | PNull =>
      let! refused := next_request in
      let! h := mget in
      mret (if refused then (PNull, PNull) else (PLive (junk h n), PNull))
  | PLive b =>
      if n =? 0 then mret (PNull, PDangling)
      else
        let! refused := next_request in
        let! h := mget in
        mret (if refused then (PNull, p)
              else (PLive (take (Z.to_nat n) b ++ junk h (n - Zlen b)), PDangling))
  end.

(** [free (p)]: freeing an object twice is undefined. *)
Definition free (p : ptr) : M heap ptr :=
  match p with
  | PDangling => mopt None
  | _ => mret (freed p)
  end.

Definition is_null (p : ptr) : bool := match p with PNull => true | _ => false end.

(** Reading and writing [n] bytes at an offset; a length of zero touches nothing. *)
Definition ptr_read (p : ptr) (off n : Z) : option bytes :=
  match p with
  | PLive b => peek off n b
  | PNull => if (off =? 0) && (n =? 0) then Some [] else None
  | PDangling => None
  end.

Definition ptr_write (p : ptr) (off : Z) (d : bytes) : option ptr :=
  match p with
  | PLive b => match poke off d b with Some b => Some (PLive b) | None => None end
  | PNull => if (off =? 0) && (Zlen d =? 0) then Some PNull else None
  | PDangling => None
  end.

(** ** Lemmas *)

Lemma Zlen_junk h n : Zlen (junk h n) = Z.max 0 n.
Proof. unfold Zlen, junk. rewrite length_map, length_seq. lia. Qed.

Lemma junk_neg h n : n <= 0 -> junk h n = [].
Proof. intros. unfold junk. by replace (Z.to_nat n) with 0%nat by lia. Qed.

#[export] Hint Rewrite Zlen_junk : zlen.

(** The object bytes of a pointer that is null or live. *)
Definition pbytes (p : ptr) : bytes := match p with PLive b => b | _ => [] end.

(** A pointer to an object of [n] bytes; null stands for the empty object. *)
Definition owns (p : ptr) (n : Z) : Prop :=
  match p with PLive b => Zlen b = n | PNull => n = 0 | PDangling => False end.

Lemma owns_nonneg p n : owns p n -> 0 <= n.
Proof. destruct p; cbn; try done; intros <-; zlen_pose; lia. Qed.

Lemma owns_Zlen p n : owns p n -> Zlen (pbytes p) = n.
Proof. destruct p; cbn; try done; intros; subst; done. Qed.

Lemma ptr_read_owns p n off k :
  owns p n -> 0 <= off -> 0 <= k -> off + k <= n ->
  ptr_read p off k = Some (take (Z.to_nat k) (drop (Z.to_nat off) (pbytes p))).
Proof.
  destruct p; cbn; try done; intros Hn ???.
  - subst. rewrite !(proj2 (Z.eqb_eq _ _)) by lia. cbn.
    by replace (Z.to_nat k) with 0%nat by lia.
  - subst. by apply peek_Some.
Qed.

Lemma ptr_write_owns p n off d :
  owns p n -> 0 <= off -> off + Zlen d <= n ->
  exists p', ptr_write p off d = Some p' /\ owns p' n /\
    pbytes p' = take (Z.to_nat off) (pbytes p) ++ d
                ++ drop (Z.to_nat (off + Zlen d)) (pbytes p).
Proof.
  destruct p; cbn; try done; intros Hn ??.
  - assert (off = 0 /\ Zlen d = 0) as [-> Hd] by zlen.
    rewrite Hd. exists PNull. repeat split; [done|].
    by rewrite (Zlen_0_nil d Hd).
  - subst. rewrite poke_Some by lia. eexists; repeat split; cbn. zlen.
Qed.

(** [next_request] changes nothing but the allocator's own state. *)
Lemma wp_next_request Q h :
  (forall r h', (r = true -> h_errno h' = ENOMEM) ->
     (r = false -> h_errno h' = h_errno h) ->
     (exists k, h_oom h' = drop k (h_oom h)) ->
     (Forall (eq false) (h_oom h) -> r = false) -> Q r h') ->
  wp next_request Q h.
Proof.
  intros HQ. unfold wp, next_request.
  destruct (h_oom h) as [|[] l] eqn:E; apply HQ; cbn; try done.
  - by exists 0%nat.
  - by exists 1%nat.
  - intros HF. by inversion HF.
  - by exists 1%nat.
Qed.
