(* ===== verification/Lck.v ===== *)
(** * lck.c: the lock

    A lock object of [src/src/supla-common/lck.c] is null (single-threaded builds, or no
    memory) or a recursive mutex, of which one thread sees the number of times it
    holds it.  Releasing a mutex that is not held is undefined. *)
From S2P Require Import Prelude Platform Heap.

(** [None] is a null lock, [Some d] a mutex held [d] times. *)
Abbreviation lck_t := (option Z).

Section Lck.
Context `{Platform}.

Definition lck_init : M heap lck_t :=
  if SINGLE_THREAD then mret None
  else
    let! refused := next_request in
    mret (if refused then None else Some 0).

Definition lck_lock (lck : lck_t) : option lck_t :=
  if SINGLE_THREAD then Some lck
  else match lck with
       | None => Some None
       | Some d => Some (Some (d + 1))
       end.

Definition lck_unlock (lck : lck_t) : option lck_t :=
  if SINGLE_THREAD then Some lck
  else match lck with
       | None => Some None
       | Some d => if 0 <? d then Some (Some (d - 1)) else None
       end.

(** [int lck_unlock_r (void *lck, int result)] *)
Definition lck_unlock_r (lck : lck_t) (result : Z) : option (Z * lck_t) :=
  match (if SINGLE_THREAD then Some lck else lck_unlock lck) with
  | Some lck => Some (to_int result, lck)
  | None => None
  end.

Definition lck_free (lck : lck_t) : lck_t :=
  if SINGLE_THREAD then lck else None.

(** ** Lemmas *)

(** The number of times the lock is held; null locks are never held. *)
Definition lck_depth (lck : lck_t) : Z := match lck with Some d => d | None => 0 end.

Definition lck_ok (lck : lck_t) : Prop := 0 <= lck_depth lck.

(** The state inside a region that begins with [lck_lock]. *)
Definition held (lck : lck_t) : lck_t :=
  if SINGLE_THREAD then lck else match lck with Some d => Some (d + 1) | None => None end.

Lemma lck_lock_held lck : lck_lock lck = Some (held lck).
Proof. unfold lck_lock, held. by destruct SINGLE_THREAD, lck. Qed.

Lemma lck_unlock_held lck : lck_ok lck -> lck_unlock (held lck) = Some lck.
Proof.
  unfold lck_ok, lck_unlock, held. destruct SINGLE_THREAD, lck as [d|]; cbn; try done.
  intros. rewrite (proj2 (Z.ltb_lt _ _)) by lia. do 2 f_equal. lia.
Qed.

Lemma lck_unlock_r_held lck r : lck_ok lck -> lck_unlock_r (held lck) r = Some (to_int r, lck).
Proof.
  intros. unfold lck_unlock_r. destruct SINGLE_THREAD eqn:E.
  - unfold held. by rewrite E.
  - by rewrite lck_unlock_held.
Qed.

Lemma held_ok lck : lck_ok lck -> lck_ok (held lck).
Proof. unfold lck_ok, held. destruct SINGLE_THREAD, lck; cbn; lia. Qed.

End Lck.
