(* ===== verification/CLayout.v ===== *)
(** * C struct layouts

    The packed C types of proto.h as data: the size of a type, the offset of a
    member, and reading or writing a scalar member in the bytes of an object. *)
From S2P Require Import Prelude.

(** Types under [#pragma pack(push, 1)]: members follow each other with no
    padding.  A bit-field run occupies the bytes its bits need. *)
Inductive ctype :=
| TInt (signed : bool) (n : Z)                (* scalar of [n] bytes *)
| TArr (t : ctype) (n : Z)
| TStruct (fs : list (string * ctype))
| TUnion (fs : list (string * ctype))
| TBits (bs : list (string * Z)).

(** [unsigned char], [signed char] and the [_supla_int*_t] types. *)
Definition uchar := TInt false 1.
Definition schar := TInt true 1.
Definition supla_int16_t := TInt true 2.
Definition supla_uint16_t := TInt false 2.
Definition supla_int_t := TInt true 4.
Definition supla_uint_t := TInt false 4.
Definition supla_int64_t := TInt true 8.
Definition supla_uint64_t := TInt false 8.

Fixpoint sizeof (t : ctype) : Z :=
  match t with
  | TInt _ n => n
  | TArr t n => sizeof t * n
  | TStruct fs =>
      (fix go (fs : list (string * ctype)) : Z :=
         match fs with [] => 0 | (_, t) :: fs => sizeof t + go fs end) fs
  | TUnion fs =>
      (fix go (fs : list (string * ctype)) : Z :=
         match fs with [] => 0 | (_, t) :: fs => Z.max (sizeof t) (go fs) end) fs
  | TBits bs => (fold_right (fun b a => b.2 + a) 0 bs + 7) / 8
  end.

(** The total size of a member list. *)
Definition sizeof_fields (fs : list (string * ctype)) : Z := sizeof (TStruct fs).

(** Offset and type of a named member of a struct or union. *)
Fixpoint field_in (fs : list (string * ctype)) (name : string) (off : Z) : option (Z * ctype) :=
  match fs with
  | [] => None
  | (x, t) :: fs =>
      if String.eqb x name then Some (off, t) else field_in fs name (off + sizeof t)
  end.

Definition field (t : ctype) (name : string) : option (Z * ctype) :=
  match t with
  | TStruct fs => field_in fs name 0
  | TUnion fs =>
      match find (fun f => String.eqb f.1 name) fs with
      | Some (_, t) => Some (0, t)
      | None => None
      end
  | _ => None
  end.

(** Offset and type of the member a path such as [Token.TokenSize] names. *)
Fixpoint member (t : ctype) (path : list string) : option (Z * ctype) :=
  match path with
  | [] => Some (0, t)
  | x :: path =>
      match field t x with
      | Some (o, t') =>
          match member t' path with
          | Some (o', t'') => Some (o + o', t'')
          | None => None
          end
      | None => None
      end
  end.

(** The value of the scalar of type [t] whose bytes are [bs]. *)
Definition scalar (t : ctype) (bs : bytes) : option Z :=
  match t with
  | TInt true n => Some (sN (8 * n) (le_combine bs))
  | TInt false _ => Some (le_combine bs)
  | _ => None
  end.

(** [((T * )p)->path] for the object bytes [bs]; [None] when the member is not a
    scalar or lies outside the object. *)
Definition read_member (t : ctype) (path : list string) (bs : bytes) : option Z :=
  match member t path with
  | Some (o, ft) =>
      match peek o (sizeof ft) bs with
      | Some fb => scalar ft fb
      | None => None
      end
  | None => None
  end.

(** [((T * )p)->path = v] *)
Definition write_member (t : ctype) (path : list string) (v : Z) (bs : bytes) : option bytes :=
  match member t path with
  | Some (o, ft) => poke o (le_split (Z.to_nat (sizeof ft)) v) bs
  | None => None
  end.

(** Bytes of an array member: [memcpy (dst, p->path, sizeof (p->path))]. *)
Definition read_bytes (t : ctype) (path : list string) (bs : bytes) : option bytes :=
  match member t path with
  | Some (o, ft) => peek o (sizeof ft) bs
  | None => None
  end.

(** Sizes are not negative. *)
Fixpoint wf_ctype (t : ctype) : bool :=
  match t with
  | TInt _ n => 0 <=? n
  | TArr t n => wf_ctype t && (0 <=? n)
  | TStruct fs | TUnion fs =>
      (fix go (fs : list (string * ctype)) : bool :=
         match fs with [] => true | (_, t) :: fs => wf_ctype t && go fs end) fs
  | TBits bs => forallb (fun b => 0 <=? b.2) bs
  end.

(** ** Lemmas *)

Lemma sizeof_struct_nil : sizeof (TStruct []) = 0.
Proof. reflexivity. Qed.

Lemma sizeof_struct_cons x t fs : sizeof (TStruct ((x, t) :: fs)) = sizeof t + sizeof (TStruct fs).
Proof. reflexivity. Qed.

Lemma sizeof_struct_app fs gs :
  sizeof (TStruct (fs ++ gs)) = sizeof (TStruct fs) + sizeof (TStruct gs).
Proof.
  induction fs as [|[x t] fs IH]; [done|].
  rewrite <-app_comm_cons, !sizeof_struct_cons, IH. lia.
Qed.

#[export] Hint Rewrite sizeof_struct_nil sizeof_struct_cons sizeof_struct_app : sizeof.

Fixpoint ctype_size (t : ctype) : nat :=
  match t with
  | TInt _ _ | TBits _ => 1
  | TArr t _ => S (ctype_size t)
  | TStruct fs | TUnion fs =>
      S ((fix go (fs : list (string * ctype)) : nat :=
         match fs with [] => O | (_, t) :: fs => (ctype_size t + go fs)%nat end) fs)
  end.

Lemma sizeof_nonneg t : wf_ctype t = true -> 0 <= sizeof t.
Proof.
  induction t as [t IH] using (induction_ltof1 _ ctype_size). unfold ltof in IH.
  destruct t as [? n|t n|fs|fs|bs]; cbn; intros H; bools.
  - done.
  - pose proof (IH t ltac:(cbn; lia) H). lia.
  - revert IH H. induction fs as [|[x t] fs IHfs]; [done|]. cbn. intros IH H. bools.
    pose proof (IH t ltac:(cbn; lia) ltac:(done)).
    enough (0 <= sizeof (TStruct fs)) by (cbn in *; lia).
    apply IHfs; [|done]. intros t' Ht'. apply IH. cbn in *. lia.
  - revert IH H. induction fs as [|[x t] fs IHfs]; [done|]. cbn. intros IH H. bools.
    pose proof (IH t ltac:(cbn; lia) ltac:(done)). lia.
  - assert (0 <= fold_right (fun b a => b.2 + a) 0 bs) as ?.
    { induction bs as [|[x b] bs IHb]; cbn in *; [done|]. bools.
      pose proof (IHb ltac:(intros t' Ht'; apply (IH t'); cbn in *; lia) ltac:(done)). lia. }
    apply Z.div_pos; lia.
Qed.

(** Reading a scalar back after writing it gives the value wrapped to its width. *)
Lemma read_write_member_unsigned t path o n v bs bs' :
  member t path = Some (o, TInt false n) -> 0 <= n ->
  write_member t path v bs = Some bs' ->
  read_member t path bs' = Some (uN (8 * n) v).
Proof.
  intros Hm Hn. unfold write_member, read_member. rewrite Hm. cbn [sizeof scalar].
  intros Hp. pose proof Hp as Hp'. apply poke_inv in Hp' as (Ho & Hlen & Hl).
  rewrite Zlen_le_split, Z2Nat.id in Hlen by lia.
  rewrite poke_Some in Hp by (rewrite ?Zlen_le_split; lia). injection Hp as <-.
  rewrite peek_Some; [|lia|lia|].
  2:{ rewrite Hl. lia. }
  rewrite drop_Zlen_app by zlen.
  rewrite take_Zlen_app by zlen.
  rewrite le_combine_split. unfold uN. do 3 f_equal. lia.
Qed.
