(* ===== verification/ProtoTypes.v ===== *)
(** * Structures of proto.h

    Every structure of [src/src/supla-common/proto.h] that travels on the wire, as a
    packed layout ([CLayout.ctype]) under its C name, member by member. *)
From S2P Require Import Prelude Platform CLayout ProtoConsts.

Section ProtoTypes.
Context `{Platform}.

Definition char_t : ctype := TInt char_signed 1.

(** [unsigned int]: two bytes on AVR. *)
Definition c_uint : ctype := TInt false (if AVR then 2 else 4).

(** [struct _supla_timeval]: two 64-bit members (two [long]s each on AVR). *)
Definition supla_timeval : ctype :=
  TStruct [("tv_sec", supla_int64_t); ("tv_usec", supla_int64_t)].

Definition TSuplaDataPacket : ctype :=
  TStruct [("tag", TArr char_t SUPLA_TAG_SIZE);
     ("version", uchar);
     ("rr_id", supla_uint_t);
     ("call_id", supla_uint_t);
     ("data_size", supla_uint_t);
     ("data", TArr char_t SUPLA_MAX_DATA_SIZE)].

Definition TSDC_SuplaGetVersionResult : ctype :=
  TStruct [("proto_version_min", uchar);
     ("proto_version", uchar);
     ("SoftVer", TArr char_t SUPLA_SOFTVER_MAXSIZE)].

Definition TSDC_SuplaVersionError : ctype :=
  TStruct [("server_version_min", uchar);
     ("server_version", uchar)].

Definition TDCS_SuplaPingServer : ctype :=
  TStruct [("now", supla_timeval)].

Definition timeval_compat : ctype :=
  TStruct [("tv_sec", supla_int_t);
     ("tv_usec", supla_int_t)].

Definition TDCS_SuplaPingServer_COMPAT : ctype :=
  TStruct [("now", timeval_compat)].

Definition TSDC_SuplaPingServerResult : ctype :=
  TStruct [("now", supla_timeval)].

Definition TDCS_SuplaSetActivityTimeout : ctype :=
  TStruct [("activity_timeout", uchar)].

Definition TSDC_SuplaSetActivityTimeoutResult : ctype :=
  TStruct [("activity_timeout", uchar);
     ("min", uchar);
     ("max", uchar)].

Definition TSuplaChannelValue : ctype :=
  TStruct [("value", TArr char_t SUPLA_CHANNELVALUE_SIZE);
     ("sub_value", TArr char_t SUPLA_CHANNELVALUE_SIZE)].

Definition TSuplaChannelValue_B : ctype :=
  TStruct [("value", TArr char_t SUPLA_CHANNELVALUE_SIZE);
     ("sub_value", TArr char_t SUPLA_CHANNELVALUE_SIZE);
     ("sub_value_type", char_t)].

Definition TSuplaChannelExtendedValue : ctype :=
  TStruct [("type", char_t);
     ("size", supla_uint_t);
     ("value", TArr char_t SUPLA_CHANNELEXTENDEDVALUE_SIZE)].

Definition TSC_SuplaLocation : ctype :=
  TStruct [("EOL", char_t);
     ("Id", supla_int_t);
     ("CaptionSize", supla_uint_t);
     ("Caption", TArr char_t SUPLA_LOCATION_CAPTION_MAXSIZE)].

Definition TSC_SuplaLocationPack : ctype :=
  TStruct [("count", supla_int_t);
     ("total_left", supla_int_t);
     ("items", TArr TSC_SuplaLocation SUPLA_LOCATIONPACK_MAXCOUNT)].

Definition TDS_SuplaDeviceChannel : ctype :=
  TStruct [("Number", uchar);
     ("Type", supla_int_t);
     ("value", TArr char_t SUPLA_CHANNELVALUE_SIZE)].

Definition TDS_SuplaRegisterDevice : ctype :=
  TStruct [("LocationID", supla_int_t);
     ("LocationPWD", TArr char_t SUPLA_LOCATION_PWD_MAXSIZE);
     ("GUID", TArr char_t SUPLA_GUID_SIZE);
     ("Name", TArr char_t SUPLA_DEVICE_NAME_MAXSIZE);
     ("SoftVer", TArr char_t SUPLA_SOFTVER_MAXSIZE);
     ("channel_count", uchar);
     ("channels", TArr TDS_SuplaDeviceChannel SUPLA_CHANNELMAXCOUNT)].

Definition TDS_SuplaDeviceChannel_B : ctype :=
  TStruct [("Number", uchar);
     ("Type", supla_int_t);
     ("FuncList", supla_int_t);
     ("Default", supla_int_t);
     ("value", TArr char_t SUPLA_CHANNELVALUE_SIZE)].

Definition TActionTriggerProperties : ctype :=
  TStruct [("relatedChannelNumber", uchar);
     ("disablesLocalOperation", supla_uint_t)].

Definition THVACValue : ctype :=
  TStruct [("IsOn", uchar);
     ("Mode", uchar);
     ("SetpointTemperatureHeat", supla_int16_t);
     ("SetpointTemperatureCool", supla_int16_t);
     ("Flags", supla_uint16_t)].

Definition TDS_SuplaDeviceChannel_C : ctype :=
  TStruct [("Number", uchar);
     ("Type", supla_int_t);
     ("", TUnion [("FuncList", supla_int_t);
     ("ActionTriggerCaps", supla_uint_t)]);
     ("Default", supla_int_t);
     ("Flags", supla_int_t);
     ("", TUnion [("value", TArr char_t SUPLA_CHANNELVALUE_SIZE);
     ("actionTriggerProperties", TActionTriggerProperties);
     ("hvacValue", THVACValue)])].

Definition TDS_SuplaDeviceChannel_D : ctype :=
  TStruct [("Number", uchar);
     ("Type", supla_int_t);
     ("", TUnion [("FuncList", supla_int_t);
     ("ActionTriggerCaps", supla_uint_t)]);
     ("Default", supla_int_t);
     ("Flags", supla_int64_t);
     ("Offline", uchar);
     ("ValueValidityTimeSec", supla_uint_t);
     ("", TUnion [("value", TArr char_t SUPLA_CHANNELVALUE_SIZE);
     ("actionTriggerProperties", TActionTriggerProperties);
     ("hvacValue", THVACValue)]);
     ("DefaultIcon", uchar)].

Definition TDS_SuplaDeviceChannel_E : ctype :=
  TStruct [("Number", uchar);
     ("Type", supla_int_t);
     ("", TUnion [("FuncList", supla_int_t);
     ("ActionTriggerCaps", supla_uint_t);
     ("RGBW_FuncList", supla_uint_t)]);
     ("Default", supla_int_t);
     ("Flags", supla_int64_t);
     ("Offline", uchar);
     ("ValueValidityTimeSec", supla_uint_t);
     ("", TUnion [("value", TArr char_t SUPLA_CHANNELVALUE_SIZE);
     ("actionTriggerProperties", TActionTriggerProperties);
     ("hvacValue", THVACValue)]);
     ("DefaultIcon", uchar);
     ("SubDeviceId", uchar)].

Definition TDS_SuplaRegisterDevice_B : ctype :=
  TStruct [("LocationID", supla_int_t);
     ("LocationPWD", TArr char_t SUPLA_LOCATION_PWD_MAXSIZE);
     ("GUID", TArr char_t SUPLA_GUID_SIZE);
     ("Name", TArr char_t SUPLA_DEVICE_NAME_MAXSIZE);
     ("SoftVer", TArr char_t SUPLA_SOFTVER_MAXSIZE);
     ("channel_count", uchar);
     ("channels", TArr TDS_SuplaDeviceChannel_B SUPLA_CHANNELMAXCOUNT)].

Definition TDS_SuplaRegisterDevice_C : ctype :=
  TStruct [("LocationID", supla_int_t);
     ("LocationPWD", TArr char_t SUPLA_LOCATION_PWD_MAXSIZE);
     ("GUID", TArr char_t SUPLA_GUID_SIZE);
     ("Name", TArr char_t SUPLA_DEVICE_NAME_MAXSIZE);
     ("SoftVer", TArr char_t SUPLA_SOFTVER_MAXSIZE);
     ("ServerName", TArr char_t SUPLA_SERVER_NAME_MAXSIZE);
     ("channel_count", uchar);
     ("channels", TArr TDS_SuplaDeviceChannel_B SUPLA_CHANNELMAXCOUNT)].

Definition TDS_SuplaRegisterDevice_D : ctype :=
  TStruct [("Email", TArr char_t SUPLA_EMAIL_MAXSIZE);
     ("AuthKey", TArr char_t SUPLA_AUTHKEY_SIZE);
     ("GUID", TArr char_t SUPLA_GUID_SIZE);
     ("Name", TArr char_t SUPLA_DEVICE_NAME_MAXSIZE);
     ("SoftVer", TArr char_t SUPLA_SOFTVER_MAXSIZE);
     ("ServerName", TArr char_t SUPLA_SERVER_NAME_MAXSIZE);
     ("channel_count", uchar);
     ("channels", TArr TDS_SuplaDeviceChannel_B SUPLA_CHANNELMAXCOUNT)].

Definition TDS_SuplaRegisterDevice_E : ctype :=
  TStruct [("Email", TArr char_t SUPLA_EMAIL_MAXSIZE);
     ("AuthKey", TArr char_t SUPLA_AUTHKEY_SIZE);
     ("GUID", TArr char_t SUPLA_GUID_SIZE);
     ("Name", TArr char_t SUPLA_DEVICE_NAME_MAXSIZE);
     ("SoftVer", TArr char_t SUPLA_SOFTVER_MAXSIZE);
     ("ServerName", TArr char_t SUPLA_SERVER_NAME_MAXSIZE);
     ("Flags", supla_int_t);
     ("ManufacturerID", supla_int16_t);
     ("ProductID", supla_int16_t);
     ("channel_count", uchar);
     ("channels", TArr TDS_SuplaDeviceChannel_C SUPLA_CHANNELMAXCOUNT)].

Definition TDS_SuplaRegisterDeviceHeader : ctype :=
  TStruct [("Email", TArr char_t SUPLA_EMAIL_MAXSIZE);
     ("AuthKey", TArr char_t SUPLA_AUTHKEY_SIZE);
     ("GUID", TArr char_t SUPLA_GUID_SIZE);
     ("Name", TArr char_t SUPLA_DEVICE_NAME_MAXSIZE);
     ("SoftVer", TArr char_t SUPLA_SOFTVER_MAXSIZE);
     ("ServerName", TArr char_t SUPLA_SERVER_NAME_MAXSIZE);
     ("Flags", supla_int_t);
     ("ManufacturerID", supla_int16_t);
     ("ProductID", supla_int16_t);
     ("channel_count", uchar)].

Definition TDS_SuplaRegisterDevice_F : ctype :=
  TStruct [("Email", TArr char_t SUPLA_EMAIL_MAXSIZE);
     ("AuthKey", TArr char_t SUPLA_AUTHKEY_SIZE);
     ("GUID", TArr char_t SUPLA_GUID_SIZE);
     ("Name", TArr char_t SUPLA_DEVICE_NAME_MAXSIZE);
     ("SoftVer", TArr char_t SUPLA_SOFTVER_MAXSIZE);
     ("ServerName", TArr char_t SUPLA_SERVER_NAME_MAXSIZE);
     ("Flags", supla_int_t);
     ("ManufacturerID", supla_int16_t);
     ("ProductID", supla_int16_t);
     ("channel_count", uchar);
     ("channels", TArr TDS_SuplaDeviceChannel_D SUPLA_CHANNELMAXCOUNT)].

Definition TDS_SuplaRegisterDevice_G : ctype :=
  TStruct [("Email", TArr char_t SUPLA_EMAIL_MAXSIZE);
     ("AuthKey", TArr char_t SUPLA_AUTHKEY_SIZE);
     ("GUID", TArr char_t SUPLA_GUID_SIZE);
     ("Name", TArr char_t SUPLA_DEVICE_NAME_MAXSIZE);
     ("SoftVer", TArr char_t SUPLA_SOFTVER_MAXSIZE);
     ("ServerName", TArr char_t SUPLA_SERVER_NAME_MAXSIZE);
     ("Flags", supla_int_t);
     ("ManufacturerID", supla_int16_t);
     ("ProductID", supla_int16_t);
     ("channel_count", uchar);
     ("channels", TArr TDS_SuplaDeviceChannel_E SUPLA_CHANNELMAXCOUNT)].

Definition TSD_SuplaRegisterDeviceResult : ctype :=
  TStruct [("result_code", supla_int_t);
     ("activity_timeout", uchar);
     ("version", uchar);
     ("version_min", uchar)].

Definition TSD_SuplaRegisterDeviceResult_B : ctype :=
  TStruct [("result_code", supla_int_t);
     ("activity_timeout", uchar);
     ("version", uchar);
     ("version_min", uchar);
     ("channel_report_size", supla_uint16_t);
     ("channel_report", TArr uchar CHANNEL_REPORT_MAXSIZE)].

Definition TDS_SuplaDeviceChannelValue : ctype :=
  TStruct [("ChannelNumber", uchar);
     ("value", TArr char_t SUPLA_CHANNELVALUE_SIZE)].

Definition TDS_SuplaDeviceChannelValue_B : ctype :=
  TStruct [("ChannelNumber", uchar);
     ("Offline", uchar);
     ("value", TArr char_t SUPLA_CHANNELVALUE_SIZE)].

Definition TDS_SuplaDeviceChannelValue_C : ctype :=
  TStruct [("ChannelNumber", uchar);
     ("Offline", uchar);
     ("ValidityTimeSec", supla_uint_t);
     ("value", TArr char_t SUPLA_CHANNELVALUE_SIZE)].

Definition TDS_SuplaDeviceChannelExtendedValue : ctype :=
  TStruct [("ChannelNumber", uchar);
     ("value", TSuplaChannelExtendedValue)].

Definition TSD_SuplaChannelNewValue : ctype :=
  TStruct [("SenderID", supla_int_t);
     ("ChannelNumber", uchar);
     ("", TUnion [("DurationMS", supla_uint_t);
     ("DurationSec", supla_uint_t)]);
     ("value", TArr char_t SUPLA_CHANNELVALUE_SIZE)].

Definition TSD_SuplaChannelGroupNewValue : ctype :=
  TStruct [("SenderID", supla_int_t);
     ("GroupID", supla_int_t);
     ("EOL", uchar);
     ("ChannelNumber", uchar);
     ("", TUnion [("DurationMS", supla_uint_t);
     ("DurationSec", supla_uint_t)]);
     ("value", TArr char_t SUPLA_CHANNELVALUE_SIZE)].

Definition TDS_SuplaChannelNewValueResult : ctype :=
  TStruct [("ChannelNumber", uchar);
     ("SenderID", supla_int_t);
     ("Success", char_t)].

Definition TSC_SuplaChannelValue : ctype :=
  TStruct [("EOL", char_t);
     ("Id", supla_int_t);
     ("online", char_t);
     ("value", TSuplaChannelValue)].

Definition TSC_SuplaChannelValue_B : ctype :=
  TStruct [("EOL", char_t);
     ("Id", supla_int_t);
     ("online", char_t);
     ("value", TSuplaChannelValue_B)].

Definition TSC_SuplaChannelExtendedValue : ctype :=
  TStruct [("Id", supla_int_t);
     ("value", TSuplaChannelExtendedValue)].

Definition TSC_SuplaChannelValuePack : ctype :=
  TStruct [("count", supla_int_t);
     ("total_left", supla_int_t);
     ("items", TArr TSC_SuplaChannelValue SUPLA_CHANNELVALUE_PACK_MAXCOUNT)].

Definition TSC_SuplaChannelValuePack_B : ctype :=
  TStruct [("count", supla_int_t);
     ("total_left", supla_int_t);
     ("items", TArr TSC_SuplaChannelValue_B SUPLA_CHANNELVALUE_PACK_MAXCOUNT)].

Definition TSC_SuplaChannelExtendedValuePack : ctype :=
  TStruct [("count", supla_int_t);
     ("total_left", supla_int_t);
     ("pack_size", supla_uint_t);
     ("pack", TArr char_t SUPLA_CHANNELEXTENDEDVALUE_PACK_MAXDATASIZE)].

Definition TSC_SuplaChannel : ctype :=
  TStruct [("EOL", char_t);
     ("Id", supla_int_t);
     ("LocationID", supla_int_t);
     ("Func", supla_int_t);
     ("online", char_t);
     ("value", TSuplaChannelValue);
     ("CaptionSize", supla_uint_t);
     ("Caption", TArr char_t SUPLA_CHANNEL_CAPTION_MAXSIZE)].

Definition TSC_SuplaChannelPack : ctype :=
  TStruct [("count", supla_int_t);
     ("total_left", supla_int_t);
     ("items", TArr TSC_SuplaChannel SUPLA_CHANNELPACK_MAXCOUNT)].

Definition TSC_SuplaChannel_B : ctype :=
  TStruct [("EOL", char_t);
     ("Id", supla_int_t);
     ("LocationID", supla_int_t);
     ("Func", supla_int_t);
     ("AltIcon", supla_int_t);
     ("Flags", supla_uint_t);
     ("ProtocolVersion", uchar);
     ("online", char_t);
     ("value", TSuplaChannelValue);
     ("CaptionSize", supla_uint_t);
     ("Caption", TArr char_t SUPLA_CHANNEL_CAPTION_MAXSIZE)].

Definition TSC_SuplaChannelPack_B : ctype :=
  TStruct [("count", supla_int_t);
     ("total_left", supla_int_t);
     ("items", TArr TSC_SuplaChannel_B SUPLA_CHANNELPACK_MAXCOUNT)].

Definition TSC_SuplaChannel_C : ctype :=
  TStruct [("EOL", char_t);
     ("Id", supla_int_t);
     ("DeviceID", supla_int_t);
     ("LocationID", supla_int_t);
     ("Type", supla_int_t);
     ("Func", supla_int_t);
     ("AltIcon", supla_int_t);
     ("UserIcon", supla_int_t);
     ("ManufacturerID", supla_int16_t);
     ("ProductID", supla_int16_t);
     ("Flags", supla_uint_t);
     ("ProtocolVersion", uchar);
     ("online", char_t);
     ("value", TSuplaChannelValue);
     ("CaptionSize", supla_uint_t);
     ("Caption", TArr char_t SUPLA_CHANNEL_CAPTION_MAXSIZE)].

Definition TSC_SuplaChannel_D : ctype :=
  TStruct [("EOL", char_t);
     ("Id", supla_int_t);
     ("DeviceID", supla_int_t);
     ("LocationID", supla_int_t);
     ("Type", supla_int_t);
     ("Func", supla_int_t);
     ("AltIcon", supla_int_t);
     ("UserIcon", supla_int_t);
     ("ManufacturerID", supla_int16_t);
     ("ProductID", supla_int16_t);
     ("Flags", supla_uint_t);
     ("ProtocolVersion", uchar);
     ("online", char_t);
     ("value", TSuplaChannelValue_B);
     ("CaptionSize", supla_uint_t);
     ("Caption", TArr char_t SUPLA_CHANNEL_CAPTION_MAXSIZE)].

Definition TSC_SuplaChannel_E : ctype :=
  TStruct [("EOL", char_t);
     ("Id", supla_int_t);
     ("DeviceID", supla_int_t);
     ("LocationID", supla_int_t);
     ("Type", supla_int_t);
     ("Func", supla_int_t);
     ("AltIcon", supla_int_t);
     ("UserIcon", supla_int_t);
     ("ManufacturerID", supla_int16_t);
     ("ProductID", supla_int16_t);
     ("DefaultConfigCRC32", supla_uint_t);
     ("Flags", supla_uint64_t);
     ("ProtocolVersion", uchar);
     ("online", char_t);
     ("value", TSuplaChannelValue_B);
     ("CaptionSize", supla_uint_t);
     ("Caption", TArr char_t SUPLA_CHANNEL_CAPTION_MAXSIZE)].

Definition TSC_SuplaChannelPack_C : ctype :=
  TStruct [("count", supla_int_t);
     ("total_left", supla_int_t);
     ("items", TArr TSC_SuplaChannel_C SUPLA_CHANNELPACK_MAXCOUNT)].

Definition TSC_SuplaChannelPack_D : ctype :=
  TStruct [("count", supla_int_t);
     ("total_left", supla_int_t);
     ("items", TArr TSC_SuplaChannel_D SUPLA_CHANNELPACK_MAXCOUNT)].

Definition TSC_SuplaChannelPack_E : ctype :=
  TStruct [("count", supla_int_t);
     ("total_left", supla_int_t);
     ("items", TArr TSC_SuplaChannel_E SUPLA_CHANNELPACK_MAXCOUNT)].

Definition TSC_SuplaChannelGroup : ctype :=
  TStruct [("EOL", char_t);
     ("Id", supla_int_t);
     ("LocationID", supla_int_t);
     ("Func", supla_int_t);
     ("AltIcon", supla_int_t);
     ("Flags", supla_uint_t);
     ("CaptionSize", supla_uint_t);
     ("Caption", TArr char_t SUPLA_CHANNELGROUP_CAPTION_MAXSIZE)].

Definition TSC_SuplaChannelGroup_B : ctype :=
  TStruct [("EOL", char_t);
     ("Id", supla_int_t);
     ("LocationID", supla_int_t);
     ("Func", supla_int_t);
     ("AltIcon", supla_int_t);
     ("UserIcon", supla_int_t);
     ("Flags", supla_uint_t);
     ("CaptionSize", supla_uint_t);
     ("Caption", TArr char_t SUPLA_CHANNELGROUP_CAPTION_MAXSIZE)].

Definition TSC_SuplaChannelGroupPack : ctype :=
  TStruct [("count", supla_int_t);
     ("total_left", supla_int_t);
     ("items", TArr TSC_SuplaChannelGroup SUPLA_CHANNELGROUP_PACK_MAXCOUNT)].

Definition TSC_SuplaChannelGroupPack_B : ctype :=
  TStruct [("count", supla_int_t);
     ("total_left", supla_int_t);
     ("items", TArr TSC_SuplaChannelGroup_B SUPLA_CHANNELGROUP_PACK_MAXCOUNT)].

Definition TSC_SuplaChannelGroupRelation : ctype :=
  TStruct [("EOL", char_t);
     ("ChannelGroupID", supla_int_t);
     ("ChannelID", supla_int_t)].

Definition TSC_SuplaChannelGroupRelationPack : ctype :=
  TStruct [("count", supla_int_t);
     ("total_left", supla_int_t);
     ("items", TArr TSC_SuplaChannelGroupRelation SUPLA_CHANNELGROUP_RELATION_PACK_MAXCOUNT)].

Definition TSC_SuplaChannelRelation : ctype :=
  TStruct [("EOL", char_t);
     ("Id", supla_int_t);
     ("ParentId", supla_int_t);
     ("Type", supla_int16_t)].

Definition TSC_SuplaChannelRelationPack : ctype :=
  TStruct [("count", supla_int_t);
     ("total_left", supla_int_t);
     ("items", TArr TSC_SuplaChannelRelation SUPLA_CHANNEL_RELATION_PACK_MAXCOUNT)].

Definition TSC_SuplaScene : ctype :=
  TStruct [("EOL", char_t);
     ("Id", supla_int_t);
     ("LocationId", supla_int_t);
     ("AltIcon", supla_int_t);
     ("UserIcon", supla_int_t);
     ("CaptionSize", supla_uint16_t);
     ("Caption", TArr char_t SUPLA_SCENE_CAPTION_MAXSIZE)].

Definition TSC_SuplaScenePack : ctype :=
  TStruct [("count", supla_int_t);
     ("total_left", supla_int_t);
     ("items", TArr TSC_SuplaScene SUPLA_SCENE_PACK_MAXCOUNT)].

Definition TSC_SuplaSceneState : ctype :=
  TStruct [("EOL", char_t);
     ("SceneId", supla_int_t);
     ("MillisecondsFromStart", supla_uint_t);
     ("MillisecondsLeft", supla_uint_t);
     ("InitiatorId", supla_int_t);
     ("InitiatorNameSize", supla_uint16_t);
     ("InitiatorName", TArr char_t SUPLA_INITIATOR_NAME_MAXSIZE)].

Definition TSC_SuplaSceneStatePack : ctype :=
  TStruct [("count", supla_int_t);
     ("total_left", supla_int_t);
     ("items", TArr TSC_SuplaSceneState SUPLA_SCENE_STATE_PACK_MAXCOUNT)].

Definition TAction_ShadingSystem_Parameters : ctype :=
  TStruct [("Percentage", char_t);
     ("Flags", uchar);
     ("Tilt", schar);
     ("Reserved", TArr char_t 13)].

Definition TAction_RGBW_Parameters : ctype :=
  TStruct [("Brightness", char_t);
     ("ColorBrightness", char_t);
     ("Color", supla_uint_t);
     ("ColorRandom", char_t);
     ("OnOff", char_t);
     ("Command", char_t);
     ("WhiteTemperature", char_t);
     ("Reserved", TArr char_t 6)].

Definition TAction_HVAC_Parameters : ctype :=
  TStruct [("DurationSec", supla_uint_t);
     ("Mode", uchar);
     ("SetpointTemperatureHeat", supla_int16_t);
     ("SetpointTemperatureCool", supla_int16_t);
     ("Flags", supla_uint16_t)].

Definition TCS_Action : ctype :=
  TStruct [("ActionId", supla_int_t);
     ("SubjectId", supla_int_t);
     ("SubjectType", uchar);
     ("ParamSize", supla_uint16_t);
     ("Param", TArr char_t SUPLA_ACTION_PARAM_MAXSIZE)].

Definition TCS_ClientAuthorizationDetails : ctype :=
  TStruct [("AccessID", supla_int_t);
     ("AccessIDpwd", TArr char_t SUPLA_ACCESSID_PWD_MAXSIZE);
     ("Email", TArr char_t SUPLA_EMAIL_MAXSIZE);
     ("AuthKey", TArr char_t SUPLA_AUTHKEY_SIZE);
     ("GUID", TArr char_t SUPLA_GUID_SIZE);
     ("ServerName", TArr char_t SUPLA_SERVER_NAME_MAXSIZE)].

Definition TCS_ActionWithAuth : ctype :=
  TStruct [("Auth", TCS_ClientAuthorizationDetails);
     ("Action", TCS_Action)].

Definition TSC_ActionExecutionResult : ctype :=
  TStruct [("ResultCode", uchar);
     ("ActionId", supla_int_t);
     ("SubjectId", supla_int_t);
     ("SubjectType", supla_int_t)].

Definition TSC_GetChannelValueResult : ctype :=
  TStruct [("ResultCode", uchar);
     ("ChannelId", supla_int_t);
     ("Function", supla_int_t);
     ("Value", TSuplaChannelValue_B);
     ("ExtendedValue", TSuplaChannelExtendedValue)].

Definition TCS_GetChannelValueWithAuth : ctype :=
  TStruct [("Auth", TCS_ClientAuthorizationDetails);
     ("ChannelId", supla_int_t)].

Definition TCS_SuplaRegisterClient : ctype :=
  TStruct [("AccessID", supla_int_t);
     ("AccessIDpwd", TArr char_t SUPLA_ACCESSID_PWD_MAXSIZE);
     ("GUID", TArr char_t SUPLA_GUID_SIZE);
     ("Name", TArr char_t SUPLA_CLIENT_NAME_MAXSIZE);
     ("SoftVer", TArr char_t SUPLA_SOFTVER_MAXSIZE)].

Definition TCS_SuplaRegisterClient_B : ctype :=
  TStruct [("AccessID", supla_int_t);
     ("AccessIDpwd", TArr char_t SUPLA_ACCESSID_PWD_MAXSIZE);
     ("GUID", TArr char_t SUPLA_GUID_SIZE);
     ("Name", TArr char_t SUPLA_CLIENT_NAME_MAXSIZE);
     ("SoftVer", TArr char_t SUPLA_SOFTVER_MAXSIZE);
     ("ServerName", TArr char_t SUPLA_SERVER_NAME_MAXSIZE)].

Definition TCS_SuplaRegisterClient_C : ctype :=
  TStruct [("Email", TArr char_t SUPLA_EMAIL_MAXSIZE);
     ("AuthKey", TArr char_t SUPLA_AUTHKEY_SIZE);
     ("GUID", TArr char_t SUPLA_GUID_SIZE);
     ("Name", TArr char_t SUPLA_CLIENT_NAME_MAXSIZE);
     ("SoftVer", TArr char_t SUPLA_SOFTVER_MAXSIZE);
     ("ServerName", TArr char_t SUPLA_SERVER_NAME_MAXSIZE)].

Definition TCS_SuplaRegisterClient_D : ctype :=
  TStruct [("Email", TArr char_t SUPLA_EMAIL_MAXSIZE);
     ("Password", TArr char_t SUPLA_PASSWORD_MAXSIZE);
     ("AuthKey", TArr char_t SUPLA_AUTHKEY_SIZE);
     ("GUID", TArr char_t SUPLA_GUID_SIZE);
     ("Name", TArr char_t SUPLA_CLIENT_NAME_MAXSIZE);
     ("SoftVer", TArr char_t SUPLA_SOFTVER_MAXSIZE);
     ("ServerName", TArr char_t SUPLA_SERVER_NAME_MAXSIZE)].

Definition TSC_SuplaRegisterClientResult : ctype :=
  TStruct [("result_code", supla_int_t);
     ("ClientID", supla_int_t);
     ("LocationCount", supla_int_t);
     ("ChannelCount", supla_int_t);
     ("activity_timeout", uchar);
     ("version", uchar);
     ("version_min", uchar)].

Definition TSC_SuplaRegisterClientResult_B : ctype :=
  TStruct [("result_code", supla_int_t);
     ("ClientID", supla_int_t);
     ("LocationCount", supla_int_t);
     ("ChannelCount", supla_int_t);
     ("ChannelGroupCount", supla_int_t);
     ("Flags", supla_int_t);
     ("activity_timeout", uchar);
     ("version", uchar);
     ("version_min", uchar)].

Definition TSC_SuplaRegisterClientResult_C : ctype :=
  TStruct [("result_code", supla_int_t);
     ("ClientID", supla_int_t);
     ("LocationCount", supla_int_t);
     ("ChannelCount", supla_int_t);
     ("ChannelGroupCount", supla_int_t);
     ("Flags", supla_int_t);
     ("activity_timeout", uchar);
     ("version", uchar);
     ("version_min", uchar);
     ("serverUnixTimestamp", supla_uint_t)].

Definition TSC_SuplaRegisterClientResult_D : ctype :=
  TStruct [("result_code", supla_int_t);
     ("ClientID", supla_int_t);
     ("LocationCount", supla_int16_t);
     ("ChannelCount", supla_int16_t);
     ("ChannelGroupCount", supla_int16_t);
     ("SceneCount", supla_int16_t);
     ("Flags", supla_int_t);
     ("activity_timeout", uchar);
     ("version", uchar);
     ("version_min", uchar);
     ("serverUnixTimestamp", supla_uint_t)].

Definition TCS_SuplaChannelNewValue : ctype :=
  TStruct [("ChannelId", uchar);
     ("value", TArr char_t SUPLA_CHANNELVALUE_SIZE)].

Definition TCS_SuplaChannelNewValue_B : ctype :=
  TStruct [("ChannelId", supla_int_t);
     ("value", TArr char_t SUPLA_CHANNELVALUE_SIZE)].

Definition TCS_SuplaNewValue : ctype :=
  TStruct [("Id", supla_int_t);
     ("Target", char_t);
     ("value", TArr char_t SUPLA_CHANNELVALUE_SIZE)].

Definition TSC_SuplaEvent : ctype :=
  TStruct [("Event", supla_int_t);
     ("ChannelID", supla_int_t);
     ("DurationMS", supla_uint_t);
     ("SenderID", supla_int_t);
     ("SenderNameSize", supla_uint_t);
     ("SenderName", TArr char_t SUPLA_SENDER_NAME_MAXSIZE)].

Definition TDS_FirmwareUpdateParams : ctype :=
  TStruct [("Platform", char_t);
     ("Param1", supla_int_t);
     ("Param2", supla_int_t);
     ("Param3", supla_int_t);
     ("Param4", supla_int_t)].

Definition TSD_FirmwareUpdate_Url : ctype :=
  TStruct [("available_protocols", char_t);
     ("host", TArr char_t SUPLA_URL_HOST_MAXSIZE);
     ("port", supla_int_t);
     ("path", TArr char_t SUPLA_URL_PATH_MAXSIZE)].

Definition TSD_FirmwareUpdate_UrlResult : ctype :=
  TStruct [("exists", char_t);
     ("url", TSD_FirmwareUpdate_Url)].

Definition TSDC_RegistrationEnabled : ctype :=
  TStruct [("client_timestamp", supla_uint_t);
     ("iodevice_timestamp", supla_uint_t)].

Definition TSC_OAuthToken : ctype :=
  TStruct [("ExpiresIn", supla_uint_t);
     ("TokenSize", supla_uint_t);
     ("Token", TArr char_t SUPLA_OAUTH_TOKEN_MAXSIZE)].

Definition TSC_OAuthTokenRequestResult : ctype :=
  TStruct [("ResultCode", uchar);
     ("Token", TSC_OAuthToken)].

Definition TElectricityMeter_Measurement : ctype :=
  TStruct [("freq", supla_uint16_t);
     ("voltage", TArr supla_uint16_t 3);
     ("current", TArr supla_uint16_t 3);
     ("power_active", TArr supla_int_t 3);
     ("power_reactive", TArr supla_int_t 3);
     ("power_apparent", TArr supla_int_t 3);
     ("power_factor", TArr supla_int16_t 3);
     ("phase_angle", TArr supla_int16_t 3)].

Definition TElectricityMeter_ExtendedValue : ctype :=
  TStruct [("total_forward_active_energy", TArr supla_uint64_t 3);
     ("total_reverse_active_energy", TArr supla_uint64_t 3);
     ("total_forward_reactive_energy", TArr supla_uint64_t 3);
     ("total_reverse_reactive_energy", TArr supla_uint64_t 3);
     ("total_cost", supla_int_t);
     ("price_per_unit", supla_int_t);
     ("currency", TArr char_t 3);
     ("measured_values", supla_int_t);
     ("period", supla_int_t);
     ("m_count", supla_int_t);
     ("m", TArr TElectricityMeter_Measurement EM_MEASUREMENT_COUNT)].

Definition TElectricityMeter_ExtendedValue_V2 : ctype :=
  TStruct [("total_forward_active_energy", TArr supla_uint64_t 3);
     ("total_reverse_active_energy", TArr supla_uint64_t 3);
     ("total_forward_reactive_energy", TArr supla_uint64_t 3);
     ("total_reverse_reactive_energy", TArr supla_uint64_t 3);
     ("total_forward_active_energy_balanced", supla_uint64_t);
     ("total_reverse_active_energy_balanced", supla_uint64_t);
     ("total_cost", supla_int_t);
     ("total_cost_balanced", supla_int_t);
     ("price_per_unit", supla_int_t);
     ("currency", TArr char_t 3);
     ("measured_values", supla_int_t);
     ("period", supla_int_t);
     ("m_count", supla_int_t);
     ("m", TArr TElectricityMeter_Measurement EM_MEASUREMENT_COUNT)].

Definition TElectricityMeter_ExtendedValue_V3 : ctype :=
  TStruct [("total_forward_active_energy", TArr supla_uint64_t 3);
     ("total_reverse_active_energy", TArr supla_uint64_t 3);
     ("total_forward_reactive_energy", TArr supla_uint64_t 3);
     ("total_reverse_reactive_energy", TArr supla_uint64_t 3);
     ("total_forward_active_energy_balanced", supla_uint64_t);
     ("total_reverse_active_energy_balanced", supla_uint64_t);
     ("voltage_phase_angle_12", supla_uint16_t);
     ("voltage_phase_angle_13", supla_uint16_t);
     ("phase_sequence", uchar);
     ("total_cost", supla_int_t);
     ("total_cost_balanced", supla_int_t);
     ("price_per_unit", supla_int_t);
     ("currency", TArr char_t 3);
     ("measured_values", supla_int_t);
     ("period", supla_int_t);
     ("m_count", supla_int_t);
     ("m", TArr TElectricityMeter_Measurement EM_MEASUREMENT_COUNT)].

Definition TElectricityMeter_Value : ctype :=
  TStruct [("flags", char_t);
     ("total_forward_active_energy", supla_uint_t)].

Definition TSC_ImpulseCounter_ExtendedValue : ctype :=
  TStruct [("total_cost", supla_int_t);
     ("price_per_unit", supla_int_t);
     ("currency", TArr char_t 3);
     ("custom_unit", TArr char_t 9);
     ("impulses_per_unit", supla_int_t);
     ("counter", supla_uint64_t);
     ("calculated_value", supla_int64_t)].

Definition TDS_ImpulseCounter_Value : ctype :=
  TStruct [("counter", supla_uint64_t)].

Definition TDSC_RollerShutterValue : ctype :=
  TStruct [("position", schar);
     ("reserved1", char_t);
     ("bottom_position", schar);
     ("flags", supla_int16_t);
     ("reserved2", char_t);
     ("reserved3", char_t);
     ("reserved4", char_t)].

Definition TDSC_TerraceAwningValue : ctype :=
  TDSC_RollerShutterValue.

Definition TDSC_ProjectorScreen : ctype :=
  TDSC_RollerShutterValue.

Definition TDSC_CurtainValue : ctype :=
  TDSC_RollerShutterValue.

Definition TDSC_RollerGarageDoor : ctype :=
  TDSC_RollerShutterValue.

Definition TCSD_RollerShutterValue : ctype :=
  TStruct [("position", schar);
     ("reserved", TArr char_t 7)].

Definition TCSD_TerraceAwningValue : ctype :=
  TCSD_RollerShutterValue.

Definition TCSD_ProjectorScreen : ctype :=
  TCSD_RollerShutterValue.

Definition TCSD_CurtainValue : ctype :=
  TCSD_RollerShutterValue.

Definition TCSD_RollerGarageDoor : ctype :=
  TCSD_RollerShutterValue.

Definition TDSC_FacadeBlindValue : ctype :=
  TStruct [("position", schar);
     ("tilt", schar);
     ("reserved", char_t);
     ("flags", supla_int16_t);
     ("reserved2", TArr char_t 3)].

Definition TDSC_VerticalBlindValue : ctype :=
  TDSC_FacadeBlindValue.

Definition TCSD_FacadeBlindValue : ctype :=
  TStruct [("position", schar);
     ("tilt", schar);
     ("reserved", TArr char_t 6)].

Definition TCSD_VerticalBlindValue : ctype :=
  TCSD_FacadeBlindValue.

Definition TSC_ImpulseCounter_Value : ctype :=
  TStruct [("calculated_value", supla_uint64_t)].

Definition TCS_SuperUserAuthorizationRequest : ctype :=
  TStruct [("Email", TArr char_t SUPLA_EMAIL_MAXSIZE);
     ("Password", TArr char_t SUPLA_PASSWORD_MAXSIZE)].

Definition TSC_SuperUserAuthorizationResult : ctype :=
  TStruct [("Result", supla_int_t)].

Definition TCalCfg_ZWave_Node : ctype :=
  TStruct [("Id", uchar);
     ("Flags", uchar);
     ("", TUnion [("ChannelNumber", uchar);
     ("ChannelID", supla_int_t)]);
     ("ScreenType", uchar);
     ("NameSize", uchar);
     ("Name", TArr char_t ZWAVE_NODE_NAME_MAXSIZE)].

Definition TCalCfg_ZWave_WakeupSettingsReport : ctype :=
  TStruct [("", TBits [("MinimumSec", 24); ("MaximumSec", 24); ("ValueSec", 24); ("IntervalStepSec", 24)])].

Definition TCalCfg_ZWave_WakeUpTime : ctype :=
  TStruct [("", TBits [("TimeSec", 24)])].

Definition TCalCfg_ProgressReport : ctype :=
  TStruct [("Command", supla_int_t);
     ("Progress", uchar)].

Definition TCalCfg_LightSourceLifespan : ctype :=
  TStruct [("ResetCounter", uchar);
     ("SetTime", uchar);
     ("LightSourceLifespan", supla_uint16_t)].

Definition TCalCfg_SubdevicePairingResult : ctype :=
  TStruct [("ElapsedTimeSec", supla_uint16_t);
     ("MaximumDurationSec", supla_uint16_t);
     ("PairingResult", uchar);
     ("NameSize", uchar);
     ("Name", TArr char_t SUPLA_CALCFG_SUBDEVICE_NAME_MAXSIZE)].

Definition TCS_DeviceCalCfgRequest : ctype :=
  TStruct [("ChannelID", supla_int_t);
     ("Command", supla_int_t);
     ("DataType", supla_int_t);
     ("DataSize", supla_uint_t);
     ("Data", TArr char_t SUPLA_CALCFG_DATA_MAXSIZE)].

Definition TCS_DeviceCalCfgRequest_B : ctype :=
  TStruct [("Id", supla_int_t);
     ("Target", char_t);
     ("Command", supla_int_t);
     ("DataType", supla_int_t);
     ("DataSize", supla_uint_t);
     ("Data", TArr char_t SUPLA_CALCFG_DATA_MAXSIZE)].

Definition TSC_DeviceCalCfgResult : ctype :=
  TStruct [("ChannelID", supla_int_t);
     ("Command", supla_int_t);
     ("Result", supla_int_t);
     ("DataSize", supla_uint_t);
     ("Data", TArr char_t SUPLA_CALCFG_DATA_MAXSIZE)].

Definition TSD_DeviceCalCfgRequest : ctype :=
  TStruct [("SenderID", supla_int_t);
     ("ChannelNumber", supla_int_t);
     ("Command", supla_int_t);
     ("SuperUserAuthorized", char_t);
     ("DataType", supla_int_t);
     ("DataSize", supla_uint_t);
     ("Data", TArr char_t SUPLA_CALCFG_DATA_MAXSIZE)].

Definition TDS_DeviceCalCfgResult : ctype :=
  TStruct [("ReceiverID", supla_int_t);
     ("ChannelNumber", supla_int_t);
     ("Command", supla_int_t);
     ("Result", supla_int_t);
     ("DataSize", supla_uint_t);
     ("Data", TArr char_t SUPLA_CALCFG_DATA_MAXSIZE)].

Definition TCalCfg_RollerShutterSettings : ctype :=
  TStruct [("FullOpeningTimeMS", supla_int_t);
     ("FullClosingTimeMS", supla_int_t)].

Definition TCalCfg_FirmwareCheckResult : ctype :=
  TStruct [("Result", uchar);
     ("SoftVer", TArr char_t SUPLA_SOFTVER_MAXSIZE);
     ("ChangelogUrl", TArr char_t SUPLA_URL_PATH_MAXSIZE)].

Definition TCalCfg_SetCfgModePassword : ctype :=
  TStruct [("NewPassword", TArr char_t SUPLA_PASSWORD_MAXSIZE)].

Definition TRGBW_Value : ctype :=
  TStruct [("brightness", char_t);
     ("colorBrightness", char_t);
     ("B", uchar);
     ("G", uchar);
     ("R", uchar);
     ("onOff", char_t);
     ("command", char_t);
     ("whiteTemperature", char_t)].

Definition TRelayChannel_Value : ctype :=
  TStruct [("hi", char_t);
     ("flags", supla_uint16_t)].

Definition TDigiglass_Value : ctype :=
  TStruct [("flags", uchar);
     ("sectionCount", uchar);
     ("mask", supla_uint16_t)].

Definition TCSD_Digiglass_NewValue : ctype :=
  TStruct [("mask", supla_uint16_t);
     ("active_bits", supla_uint16_t)].

Definition TContainerChannel_Value : ctype :=
  TStruct [("level", uchar);
     ("flags", supla_uint16_t)].

Definition TThermostat_Time : ctype :=
  TStruct [("sec", uchar);
     ("min", uchar);
     ("hour", uchar);
     ("dayOfWeek", uchar)].

Definition TThermostat_Schedule : ctype :=
  TStruct [("ValueType", uchar);
     ("HourValue", TArr (TArr char_t 24) 7)].

Definition TThermostatValueGroup : ctype :=
  TStruct [("ValueType", uchar);
     ("WeekDays", uchar);
     ("HourValue", TArr char_t 24)].

Definition TThermostat_ScheduleCfg : ctype :=
  TStruct [("Group", TArr TThermostatValueGroup 4)].

Definition TThermostatTemperatureCfg : ctype :=
  TStruct [("Index", supla_int16_t);
     ("Temperature", TArr supla_uint16_t 10)].

Definition THVACTemperatureCfg : ctype :=
  TStruct [("Index", supla_uint_t);
     ("Temperature", TArr supla_int16_t 24)].

Definition TThermostat_ExtendedValue : ctype :=
  TStruct [("Fields", uchar);
     ("MeasuredTemperature", TArr supla_int16_t 10);
     ("PresetTemperature", TArr supla_int16_t 10);
     ("Flags", TArr supla_int16_t 8);
     ("Values", TArr supla_int16_t 8);
     ("Time", TThermostat_Time);
     ("Schedule", TThermostat_Schedule)].

Definition TThermostat_Value : ctype :=
  TStruct [("IsOn", uchar);
     ("Flags", uchar);
     ("MeasuredTemperature", supla_int16_t);
     ("PresetTemperature", supla_int16_t)].

Definition TSDC_UserLocalTimeResult : ctype :=
  TStruct [("year", supla_uint16_t);
     ("month", uchar);
     ("day", uchar);
     ("dayOfWeek", uchar);
     ("hour", uchar);
     ("min", uchar);
     ("sec", uchar);
     ("timezoneSize", supla_uint_t);
     ("timezone", TArr char_t SUPLA_TIMEZONE_MAXSIZE)].

Definition TCSD_ChannelStateRequest : ctype :=
  TStruct [("SenderID", supla_int_t);
     ("", TUnion [("ChannelID", supla_int_t);
     ("ChannelNumber", uchar)])].

Definition TDSC_ChannelState : ctype :=
  TStruct [("ReceiverID", supla_int_t);
     ("", TUnion [("ChannelID", supla_int_t);
     ("ChannelNumber", uchar)]);
     ("Fields", supla_int_t);
     ("", TUnion [("defaultIconField", supla_int_t);
     ("SwitchCycleCount", supla_uint_t)]);
     ("IPv4", supla_uint_t);
     ("MAC", TArr uchar 6);
     ("BatteryLevel", uchar);
     ("BatteryPowered", uchar);
     ("WiFiRSSI", char_t);
     ("WiFiSignalStrength", uchar);
     ("BridgeNodeOnline", uchar);
     ("BridgeNodeSignalStrength", uchar);
     ("Uptime", supla_uint_t);
     ("ConnectionUptime", supla_uint_t);
     ("BatteryHealth", uchar);
     ("LastConnectionResetCause", uchar);
     ("LightSourceLifespan", supla_uint16_t);
     ("", TUnion [("LightSourceLifespanLeft", supla_int16_t);
     ("LightSourceOperatingTime", supla_int_t);
     ("OperatingTime", supla_uint_t)]);
     ("EOL", char_t);
     ("EmptySpace", TArr char_t 1)].

Definition TCS_ChannelBasicCfgRequest : ctype :=
  TStruct [("ChannelID", supla_int_t)].

Definition TTimerState_ExtendedValue : ctype :=
  TStruct [("", TUnion [("RemainingTimeMs", supla_uint_t);
     ("RemainingTimeS", supla_uint_t);
     ("CountdownEndsAt", supla_uint_t)]);
     ("TargetValue", TArr uchar SUPLA_CHANNELVALUE_SIZE);
     ("SenderID", supla_int_t);
     ("SenderNameSize", supla_uint_t);
     ("SenderName", TArr char_t SUPLA_SENDER_NAME_MAXSIZE)].

Definition TChannelAndTimerState_ExtendedValue : ctype :=
  TStruct [("Channel", TDSC_ChannelState);
     ("Timer", TTimerState_ExtendedValue)].

Definition TSC_ChannelBasicCfg : ctype :=
  TStruct [("DeviceName", TArr char_t SUPLA_DEVICE_NAME_MAXSIZE);
     ("DeviceSoftVer", TArr char_t SUPLA_SOFTVER_MAXSIZE);
     ("DeviceID", supla_int_t);
     ("DeviceFlags", supla_int_t);
     ("ManufacturerID", supla_int16_t);
     ("ProductID", supla_int16_t);
     ("ID", supla_int_t);
     ("Number", uchar);
     ("Type", supla_int_t);
     ("Func", supla_int_t);
     ("FuncList", supla_int_t);
     ("ChannelFlags", supla_uint_t);
     ("CaptionSize", supla_uint_t);
     ("Caption", TArr char_t SUPLA_CHANNEL_CAPTION_MAXSIZE)].

Definition TCS_SetChannelFunction : ctype :=
  TStruct [("ChannelID", supla_int_t);
     ("Func", supla_int_t)].

Definition TSC_SetChannelFunctionResult : ctype :=
  TStruct [("ChannelID", supla_int_t);
     ("Func", supla_int_t);
     ("ResultCode", uchar)].

Definition TDCS_SetCaption : ctype :=
  TStruct [("", TUnion [("ChannelNumber", uchar);
     ("ID", supla_int_t)]);
     ("CaptionSize", supla_uint_t);
     ("Caption", TArr char_t SUPLA_CAPTION_MAXSIZE)].

Definition TSCD_SetCaptionResult : ctype :=
  TStruct [("", TUnion [("ChannelNumber", uchar);
     ("ID", supla_int_t)]);
     ("ResultCode", uchar);
     ("CaptionSize", supla_uint_t);
     ("Caption", TArr char_t SUPLA_CAPTION_MAXSIZE)].

Definition TSC_ClientsReconnectRequestResult : ctype :=
  TStruct [("ResultCode", uchar)].

Definition TCS_SetRegistrationEnabled : ctype :=
  TStruct [("IODeviceRegistrationTimeSec", supla_int_t);
     ("ClientRegistrationTimeSec", supla_int_t)].

Definition TSC_SetRegistrationEnabledResult : ctype :=
  TStruct [("ResultCode", uchar)].

Definition TCS_DeviceReconnectRequest : ctype :=
  TStruct [("DeviceID", supla_int_t)].

Definition TSC_DeviceReconnectRequestResult : ctype :=
  TStruct [("DeviceID", supla_int_t);
     ("ResultCode", uchar)].

Definition TSD_ChannelFunctions : ctype :=
  TStruct [("ChannelCount", uchar);
     ("Functions", TArr supla_int_t SUPLA_CHANNELMAXCOUNT)].

Definition TDS_GetChannelIntParamsRequest : ctype :=
  TStruct [("ChannelNumber", uchar)].

Definition TSD_ChannelIntParams : ctype :=
  TStruct [("ChannelNumber", uchar);
     ("Param1", supla_int_t);
     ("Param2", supla_int_t);
     ("Param3", supla_int_t)].

Definition TSDS_SetDeviceConfig : ctype :=
  TStruct [("EndOfDataFlag", uchar);
     ("zero", TArr uchar 8);
     ("AvailableFields", supla_uint64_t);
     ("Fields", supla_uint64_t);
     ("ConfigSize", supla_uint16_t);
     ("Config", TArr char_t SUPLA_DEVICE_CONFIG_MAXSIZE)].

Definition TSDS_SetDeviceConfigResult : ctype :=
  TStruct [("Result", uchar);
     ("zero", TArr uchar 9)].

Definition TSCS_DeviceConfig : ctype :=
  TStruct [("DeviceId", supla_int_t);
     ("EndOfDataFlag", uchar);
     ("zero", TArr uchar 8);
     ("AvailableFields", supla_uint64_t);
     ("Fields", supla_uint64_t);
     ("ConfigSize", supla_uint16_t);
     ("Config", TArr char_t SUPLA_DEVICE_CONFIG_MAXSIZE)].

Definition TSC_DeviceConfigUpdateOrResult : ctype :=
  TStruct [("Result", uchar);
     ("Config", TSCS_DeviceConfig)].

Definition TCS_GetDeviceConfigRequest : ctype :=
  TStruct [("DeviceId", supla_int_t);
     ("Fields", supla_uint64_t);
     ("zero", TArr uchar 8)].

Definition TDeviceConfig_StatusLed : ctype :=
  TStruct [("StatusLedType", uchar)].

Definition TDeviceConfig_PowerStatusLed : ctype :=
  TStruct [("Disabled", uchar)].

Definition TDeviceConfig_ScreenBrightness : ctype :=
  TStruct [("ScreenBrightness", uchar);
     ("Automatic", uchar);
     ("AdjustmentForAutomatic", schar)].

Definition TDeviceConfig_ButtonVolume : ctype :=
  TStruct [("Volume", uchar)].

Definition TDeviceConfig_DisableUserInterface : ctype :=
  TStruct [("DisableUserInterface", uchar);
     ("minAllowedTemperatureSetpointFromLocalUI", supla_uint16_t);
     ("maxAllowedTemperatureSetpointFromLocalUI", supla_uint16_t)].

Definition TDeviceConfig_AutomaticTimeSync : ctype :=
  TStruct [("AutomaticTimeSync", uchar)].

Definition TDeviceConfig_HomeScreenOffDelay : ctype :=
  TStruct [("HomeScreenOffDelayS", supla_uint16_t)].

Definition TDeviceConfig_HomeScreenOffDelayType : ctype :=
  TStruct [("HomeScreenOffDelayType", uchar)].

Definition TDeviceConfig_HomeScreenContent : ctype :=
  TStruct [("ContentAvailable", supla_uint64_t);
     ("HomeScreenContent", supla_uint64_t)].

Definition ModbusSerialConfig : ctype :=
  TStruct [("Mode", uchar);
     ("Baudrate", supla_int_t);
     ("StopBits", uchar);
     ("Reserved", TArr uchar 20)].

Definition ModbusNetworkConfig : ctype :=
  TStruct [("Mode", uchar);
     ("Port", c_uint);
     ("Reserved", TArr uchar 20)].

Definition ModbusConfigProperties : ctype :=
  TStruct [("Protocol", TStruct [("", TBits [("Master", 1); ("Slave", 1); ("Rtu", 1); ("Ascii", 1); ("Tcp", 1); ("Udp", 1); ("Reserved", 2); ("Reserved2", 8)])]);
     ("Baudrate", TStruct [("", TBits [("B4800", 1); ("B9600", 1); ("B19200", 1); ("B38400", 1); ("B57600", 1); ("B115200", 1); ("Reserved", 2); ("Reserved2", 8)])]);
     ("StopBits", TStruct [("", TBits [("One", 1); ("OneAndHalf", 1); ("Two", 1); ("Reserved", 5)])]);
     ("Reserved", TArr uchar 20)].

Definition TDeviceConfig_Modbus : ctype :=
  TStruct [("Role", uchar);
     ("ModbusAddress", uchar);
     ("SlaveTimeoutMs", supla_uint_t);
     ("SerialConfig", ModbusSerialConfig);
     ("NetworkConfig", ModbusNetworkConfig);
     ("Properties", ModbusConfigProperties);
     ("Reserved", TArr uchar 20)].

Definition TDeviceConfig_FirmwareUpdate : ctype :=
  TStruct [("Policy", uchar);
     ("Reserved", TArr uchar 20)].

Definition TCS_GetChannelConfigRequest : ctype :=
  TStruct [("ChannelId", supla_int_t);
     ("ConfigType", uchar);
     ("Flags", supla_uint_t)].

Definition TSCS_ChannelConfig : ctype :=
  TStruct [("ChannelId", supla_int_t);
     ("Func", supla_int_t);
     ("ConfigType", uchar);
     ("ConfigSize", supla_uint16_t);
     ("Config", TArr char_t SUPLA_CHANNEL_CONFIG_MAXSIZE)].

Definition TSC_ChannelConfigUpdateOrResult : ctype :=
  TStruct [("Result", uchar);
     ("Config", TSCS_ChannelConfig)].

Definition TDS_GetChannelConfigRequest : ctype :=
  TStruct [("ChannelNumber", uchar);
     ("ConfigType", uchar);
     ("Flags", supla_uint_t)].

Definition TSD_ChannelConfig : ctype :=
  TStruct [("ChannelNumber", uchar);
     ("Func", supla_int_t);
     ("ConfigType", uchar);
     ("ConfigSize", supla_uint16_t);
     ("Config", TArr char_t SUPLA_CHANNEL_CONFIG_MAXSIZE)].

Definition TSDS_SetChannelConfig : ctype :=
  TSD_ChannelConfig.

Definition TSDS_SetChannelConfigResult : ctype :=
  TStruct [("Result", uchar);
     ("ConfigType", uchar);
     ("ChannelNumber", uchar)].

Definition TSD_ChannelConfigFinished : ctype :=
  TStruct [("ChannelNumber", uchar)].

Definition TChannelConfig_StaircaseTimer : ctype :=
  TStruct [("TimeMS", supla_int_t)].

Definition TChannelConfig_RollerShutter : ctype :=
  TStruct [("ClosingTimeMS", supla_int_t);
     ("OpeningTimeMS", supla_int_t);
     ("MotorUpsideDown", uchar);
     ("ButtonsUpsideDown", uchar);
     ("TimeMargin", schar);
     ("VisualizationType", uchar);
     ("Reserved", TArr uchar 32)].

Definition TChannelConfig_TerraceAwning : ctype :=
  TChannelConfig_RollerShutter.

Definition TChannelConfig_ProjectorScreen : ctype :=
  TChannelConfig_RollerShutter.

Definition TChannelConfig_Curtain : ctype :=
  TChannelConfig_RollerShutter.

Definition TChannelConfig_RollerGarageDoor : ctype :=
  TChannelConfig_RollerShutter.

Definition TChannelConfig_FacadeBlind : ctype :=
  TStruct [("ClosingTimeMS", supla_int_t);
     ("OpeningTimeMS", supla_int_t);
     ("TiltingTimeMS", supla_int_t);
     ("MotorUpsideDown", uchar);
     ("ButtonsUpsideDown", uchar);
     ("TimeMargin", schar);
     ("Tilt0Angle", supla_uint16_t);
     ("Tilt100Angle", supla_uint16_t);
     ("TiltControlType", uchar);
     ("VisualizationType", uchar);
     ("Reserved", TArr uchar 32)].

Definition TChannelConfig_VerticalBlind : ctype :=
  TChannelConfig_FacadeBlind.

Definition TChannelConfig_ActionTrigger : ctype :=
  TStruct [("ActiveActions", supla_uint_t)].

Definition TWeeklyScheduleProgram : ctype :=
  TStruct [("Mode", uchar);
     ("", TUnion [("SetpointTemperatureHeat", supla_int16_t);
     ("Value1", supla_int16_t)]);
     ("", TUnion [("SetpointTemperatureCool", supla_int16_t);
     ("Value2", supla_int16_t)])].

Definition TChannelConfig_WeeklySchedule : ctype :=
  TStruct [("Program", TArr TWeeklyScheduleProgram SUPLA_WEEKLY_SCHEDULE_PROGRAMS_MAX_SIZE);
     ("Quarters", TArr uchar (SUPLA_WEEKLY_SCHEDULE_VALUES_SIZE / 2))].

Definition TChannelConfig_TemperatureAndHumidity : ctype :=
  TStruct [("TemperatureAdjustment", supla_int16_t);
     ("HumidityAdjustment", supla_int16_t);
     ("AdjustmentAppliedByDevice", uchar);
     ("MinTemperatureAdjustment", supla_int16_t);
     ("MaxTemperatureAdjustment", supla_int16_t);
     ("MinHumidityAdjustment", supla_int16_t);
     ("MaxHumidityAdjustment", supla_int16_t);
     ("Reserved", TArr uchar (27 - 4 * sizeof supla_int16_t))].

Definition TChannelConfig_BinarySensor : ctype :=
  TStruct [("InvertedLogic", uchar);
     ("FilteringTimeMs", supla_uint16_t);
     ("Timeout", supla_uint16_t);
     ("Sensitivity", uchar);
     ("Reserved", TArr uchar (29 - sizeof uchar - sizeof supla_uint16_t))].

Definition HvacParameterFlags : ctype :=
  TStruct [("", TBits [("MainThermometerChannelNoReadonly", 1); ("MainThermometerChannelNoHidden", 1); ("AuxThermometerChannelNoReadonly", 1); ("AuxThermometerChannelNoHidden", 1); ("BinarySensorChannelNoReadonly", 1); ("BinarySensorChannelNoHidden", 1); ("AuxThermometerTypeReadonly", 1); ("AuxThermometerTypeHidden", 1); ("AntiFreezeAndOverheatProtectionEnabledReadonly", 1); ("AntiFreezeAndOverheatProtectionEnabledHidden", 1); ("UsedAlgorithmReadonly", 1); ("UsedAlgorithmHidden", 1); ("MinOnTimeSReadonly", 1); ("MinOnTimeSHidden", 1); ("MinOffTimeSReadonly", 1); ("MinOffTimeSHidden", 1); ("OutputValueOnErrorReadonly", 1); ("OutputValueOnErrorHidden", 1); ("SubfunctionReadonly", 1); ("SubfunctionHidden", 1); ("TemperatureSetpointChangeSwitchesToManualModeReadonly", 1); ("TemperatureSetpointChangeSwitchesToManualModeHidden", 1); ("AuxMinMaxSetpointEnabledReadonly", 1); ("AuxMinMaxSetpointEnabledHidden", 1); ("UseSeparateHeatCoolOutputsReadonly", 1); ("UseSeparateHeatCoolOutputsHidden", 1); ("TemperaturesFreezeProtectionReadonly", 1); ("TemperaturesFreezeProtectionHidden", 1); ("TemperaturesEcoReadonly", 1); ("TemperaturesEcoHidden", 1); ("TemperaturesComfortReadonly", 1); ("TemperaturesComfortHidden", 1); ("TemperaturesBoostReadonly", 1); ("TemperaturesBoostHidden", 1); ("TemperaturesHeatProtectionReadonly", 1); ("TemperaturesHeatProtectionHidden", 1); ("TemperaturesHisteresisReadonly", 1); ("TemperaturesHisteresisHidden", 1); ("TemperaturesBelowAlarmReadonly", 1); ("TemperaturesBelowAlarmHidden", 1); ("TemperaturesAboveAlarmReadonly", 1); ("TemperaturesAboveAlarmHidden", 1); ("TemperaturesAuxMinSetpointReadonly", 1); ("TemperaturesAuxMinSetpointHidden", 1); ("TemperaturesAuxMaxSetpointReadonly", 1); ("TemperaturesAuxMaxSetpointHidden", 1); ("MasterThermostatChannelNoReadonly", 1); ("MasterThermostatChannelNoHidden", 1); ("HeatOrColdSourceSwitchReadonly", 1); ("HeatOrColdSourceSwitchHidden", 1); ("PumpSwitchReadonly", 1); ("PumpSwitchHidden", 1); ("TemperaturesAuxHisteresisReadonly", 1); ("TemperaturesAuxHisteresisHidden", 1); ("Reserved", 10)])].

Definition TChannelConfig_HVAC : ctype :=
  TStruct [("", TUnion [("MainThermometerChannelId", supla_int_t);
     ("MainThermometerChannelNo", uchar)]);
     ("", TUnion [("AuxThermometerChannelId", supla_int_t);
     ("AuxThermometerChannelNo", uchar)]);
     ("", TUnion [("BinarySensorChannelId", supla_int_t);
     ("BinarySensorChannelNo", uchar)]);
     ("AuxThermometerType", uchar);
     ("AntiFreezeAndOverheatProtectionEnabled", uchar);
     ("AvailableAlgorithms", supla_uint16_t);
     ("UsedAlgorithm", supla_uint16_t);
     ("MinOnTimeS", supla_uint16_t);
     ("MinOffTimeS", supla_uint16_t);
     ("OutputValueOnError", schar);
     ("Subfunction", uchar);
     ("TemperatureSetpointChangeSwitchesToManualMode", uchar);
     ("AuxMinMaxSetpointEnabled", uchar);
     ("UseSeparateHeatCoolOutputs", uchar);
     ("ParameterFlags", HvacParameterFlags);
     ("", TUnion [("MasterThermostatChannelId", supla_int_t);
     ("", TStruct [("MasterThermostatIsSet", uchar);
     ("MasterThermostatChannelNo", uchar)])]);
     ("", TUnion [("HeatOrColdSourceSwitchChannelId", supla_int_t);
     ("", TStruct [("HeatOrColdSourceSwitchIsSet", uchar);
     ("HeatOrColdSourceSwitchChannelNo", uchar)])]);
     ("", TUnion [("PumpSwitchChannelId", supla_int_t);
     ("", TStruct [("PumpSwitchIsSet", uchar);
     ("PumpSwitchChannelNo", uchar)])]);
     ("TemperatureControlType", uchar);
     ("LocalUILockingCapabilities", uchar);
     ("LocalUILock", uchar);
     ("MinAllowedTemperatureSetpointFromLocalUI", supla_int16_t);
     ("MaxAllowedTemperatureSetpointFromLocalUI", supla_int16_t);
     ("Reserved", TArr uchar (48 - sizeof HvacParameterFlags - sizeof supla_int_t - sizeof supla_int_t - sizeof supla_int_t - sizeof uchar - sizeof uchar - sizeof uchar - sizeof supla_int16_t - sizeof supla_int16_t));
     ("Temperatures", THVACTemperatureCfg)].

Definition TChannelConfig_GeneralPurposeMeasurement : ctype :=
  TStruct [("ValueDivider", supla_int_t);
     ("ValueMultiplier", supla_int_t);
     ("ValueAdded", supla_int64_t);
     ("ValuePrecision", uchar);
     ("UnitBeforeValue", TArr char_t SUPLA_GENERAL_PURPOSE_UNIT_SIZE);
     ("UnitAfterValue", TArr char_t SUPLA_GENERAL_PURPOSE_UNIT_SIZE);
     ("NoSpaceBeforeValue", uchar);
     ("NoSpaceAfterValue", uchar);
     ("KeepHistory", uchar);
     ("ChartType", uchar);
     ("RefreshIntervalMs", supla_uint16_t);
     ("DefaultValueDivider", supla_int_t);
     ("DefaultValueMultiplier", supla_int_t);
     ("DefaultValueAdded", supla_int64_t);
     ("DefaultValuePrecision", uchar);
     ("DefaultUnitBeforeValue", TArr char_t SUPLA_GENERAL_PURPOSE_UNIT_SIZE);
     ("DefaultUnitAfterValue", TArr char_t SUPLA_GENERAL_PURPOSE_UNIT_SIZE);
     ("Reserved", TArr uchar 8)].

Definition TChannelConfig_GeneralPurposeMeter : ctype :=
  TStruct [("CounterType", uchar);
     ("ValueDivider", supla_int_t);
     ("ValueMultiplier", supla_int_t);
     ("ValueAdded", supla_int64_t);
     ("ValuePrecision", uchar);
     ("UnitBeforeValue", TArr char_t SUPLA_GENERAL_PURPOSE_UNIT_SIZE);
     ("UnitAfterValue", TArr char_t SUPLA_GENERAL_PURPOSE_UNIT_SIZE);
     ("NoSpaceBeforeValue", uchar);
     ("NoSpaceAfterValue", uchar);
     ("KeepHistory", uchar);
     ("ChartType", uchar);
     ("IncludeValueAddedInHistory", uchar);
     ("FillMissingData", uchar);
     ("RefreshIntervalMs", supla_uint16_t);
     ("DefaultValueDivider", supla_int_t);
     ("DefaultValueMultiplier", supla_int_t);
     ("DefaultValueAdded", supla_int64_t);
     ("DefaultValuePrecision", uchar);
     ("DefaultUnitBeforeValue", TArr char_t SUPLA_GENERAL_PURPOSE_UNIT_SIZE);
     ("DefaultUnitAfterValue", TArr char_t SUPLA_GENERAL_PURPOSE_UNIT_SIZE);
     ("Reserved", TArr uchar 8)].

Definition TChannelConfig_ElectricityMeter : ctype :=
  TStruct [("UsedCTType", supla_uint64_t);
     ("UsedPhaseLedType", supla_uint64_t);
     ("PhaseLedParam1", supla_int_t);
     ("PhaseLedParam2", supla_int_t);
     ("AvailableCTTypes", supla_uint64_t);
     ("AvailablePhaseLedTypes", supla_uint64_t);
     ("Reserved", TArr uchar 32)].

Definition TChannelConfig_ImpulseCounter : ctype :=
  TStruct [("PricePerUnit", supla_int_t);
     ("Currency", TArr char_t 3);
     ("CustomUnit", TArr char_t 9);
     ("ImpulsesPerUnit", supla_int_t);
     ("InitialValue", supla_int64_t);
     ("AddToHistory", uchar);
     ("Reserved", TArr uchar 32)].

Definition TContainer_SensorInfo : ctype :=
  TStruct [("FillLevel", uchar);
     ("", TUnion [("ChannelId", supla_int_t);
     ("", TStruct [("IsSet", uchar);
     ("ChannelNo", uchar)])])].

Definition TChannelConfig_Container : ctype :=
  TStruct [("WarningAboveLevel", uchar);
     ("AlarmAboveLevel", uchar);
     ("WarningBelowLevel", uchar);
     ("AlarmBelowLevel", uchar);
     ("MuteAlarmSoundWithoutAdditionalAuth", uchar);
     ("SensorInfo", TArr TContainer_SensorInfo 10);
     ("Reserved", TArr uchar 32)].

Definition TValve_SensorInfo : ctype :=
  TStruct [("", TUnion [("ChannelId", supla_int_t);
     ("", TStruct [("IsSet", uchar);
     ("ChannelNo", uchar)])])].

Definition TChannelConfig_Valve : ctype :=
  TStruct [("SensorInfo", TArr TValve_SensorInfo 20);
     ("CloseValveOnFloodType", uchar);
     ("Reserved", TArr uchar 31)].

Definition TChannelConfig_OCR : ctype :=
  TStruct [("AuthKey", TArr char_t SUPLA_OCR_AUTHKEY_SIZE);
     ("Host", TArr char_t SUPLA_URL_HOST_MAXSIZE);
     ("PhotoIntervalSec", supla_uint_t);
     ("LightingMode", supla_uint64_t);
     ("LightingLevel", uchar);
     ("MaximumIncrement", supla_uint64_t);
     ("AvailableLightingModes", supla_uint64_t);
     ("Reserved", TArr uchar 128)].

Definition TChannelConfig_PowerSwitch : ctype :=
  TStruct [("OvercurrentThreshold", supla_uint_t);
     ("OvercurrentMaxAllowed", supla_uint_t);
     ("DefaultRelatedMeterIsSet", uchar);
     ("DefaultRelatedMeterChannelNo", uchar);
     ("Reserved", TArr uchar 32)].

Definition TChannelConfig_LightSwitch : ctype :=
  TChannelConfig_PowerSwitch.

Definition TChannelConfig_StaircaseTimer_Ext : ctype :=
  TChannelConfig_PowerSwitch.

Definition TCS_TimerArmRequest : ctype :=
  TStruct [("ChannelID", supla_int_t);
     ("", TUnion [("DurationMS", supla_uint_t);
     ("DurationSec", supla_uint_t)]);
     ("On", uchar)].

Definition TValve_Value : ctype :=
  TStruct [("", TUnion [("closed", uchar);
     ("closed_percent", uchar)]);
     ("flags", uchar)].

Definition TCSD_Valve : ctype :=
  TStruct [("command", uchar);
     ("reserved", TArr char_t 7)].

Definition TDS_ActionTrigger : ctype :=
  TStruct [("ChannelNumber", uchar);
     ("ActionTrigger", supla_int_t);
     ("zero", TArr uchar 10)].

Definition TDS_RegisterPushNotification : ctype :=
  TStruct [("ServerManagedFields", uchar);
     ("Context", supla_int16_t);
     ("Reserved", TArr schar 8)].

Definition TDS_PushNotification : ctype :=
  TStruct [("Context", supla_int16_t);
     ("Reserved", TArr schar 32);
     ("SoundId", supla_int_t);
     ("TitleSize", supla_uint16_t);
     ("BodySize", supla_uint16_t);
     ("TitleAndBody", TArr schar (SUPLA_PN_TITLE_MAXSIZE + SUPLA_PN_BODY_MAXSIZE))].

Definition TDS_SubdeviceDetails : ctype :=
  TStruct [("SubDeviceId", uchar);
     ("Name", TArr char_t SUPLA_DEVICE_NAME_MAXSIZE);
     ("SoftVer", TArr char_t SUPLA_SOFTVER_MAXSIZE);
     ("ProductCode", TArr char_t SUPLA_SUBDEVICE_PRODUCT_CODE_MAXSIZE);
     ("SerialNumber", TArr char_t SUPLA_SUBDEVICE_SERIAL_NUMBER_MAXSIZE)].

Definition TCS_PnClientToken : ctype :=
  TStruct [("DevelopmentEnv", uchar);
     ("Platform", supla_int_t);
     ("AppId", supla_int_t);
     ("ProfileName", TArr schar SUPLA_PN_PROFILE_NAME_MAXSIZE);
     ("RealTokenSize", supla_uint16_t);
     ("TokenSize", supla_uint16_t);
     ("Token", TArr schar SUPLA_PN_CLIENT_TOKEN_MAXSIZE)].

Definition TCS_RegisterPnClientToken : ctype :=
  TStruct [("Auth", TCS_ClientAuthorizationDetails);
     ("Token", TCS_PnClientToken)].

Definition TSC_RegisterPnClientTokenResult : ctype :=
  TStruct [("ResultCode", supla_int_t)].

Definition TSC_SuplaChannelStatePack : ctype :=
  TStruct [("count", supla_int_t);
     ("total_left", supla_int_t);
     ("items", TArr TDSC_ChannelState SUPLA_CHANNEL_STATE_PACK_MAXCOUNT)].

End ProtoTypes.
