(* ===== verification/ProtoCheck.v ===== *)
(** * proto_check.cpp: the compile-time size checks

    [src/src/supla-common/proto_check.cpp] states the sizes the protocol relies on as
    static assertions; here they are checked on the layouts of ProtoTypes. *)
From S2P Require Import Prelude Platform CLayout ProtoConsts ProtoTypes.

Section ProtoCheck.
Context `{Platform}.

Definition proto_check_1 : list bool :=
  [sizeof supla_int16_t =? 2;
   sizeof supla_int_t =? 4;
   sizeof supla_int64_t =? 8;
   sizeof supla_uint16_t =? 2;
   sizeof supla_uint_t =? 4;
   sizeof supla_uint64_t =? 8;
   sizeof HvacParameterFlags =? 8;
   16 =? sizeof supla_timeval;
   23 =? sizeof TSDC_SuplaGetVersionResult;
   2 =? sizeof TSDC_SuplaVersionError;
   16 =? sizeof TDCS_SuplaPingServer;
   8 =? sizeof TDCS_SuplaPingServer_COMPAT;
   16 =? sizeof TSDC_SuplaPingServerResult;
   1 =? sizeof TDCS_SuplaSetActivityTimeout;
   3 =? sizeof TSDC_SuplaSetActivityTimeoutResult;
   16 =? sizeof TSuplaChannelValue;
   17 =? sizeof TSuplaChannelValue_B;
   410 =? sizeof TSC_SuplaLocation;
   8208 =? sizeof TSC_SuplaLocationPack;
   13 =? sizeof TDS_SuplaDeviceChannel;
   1940 =? sizeof TDS_SuplaRegisterDevice;
   21 =? sizeof TDS_SuplaDeviceChannel_B;
   25 =? sizeof TDS_SuplaDeviceChannel_C;
   35 =? sizeof TDS_SuplaDeviceChannel_D;
   2964 =? sizeof TDS_SuplaRegisterDevice_B;
   3029 =? sizeof TDS_SuplaRegisterDevice_C;
   3264 =? sizeof TDS_SuplaRegisterDevice_D;
   3784 =? sizeof TDS_SuplaRegisterDevice_E;
   5064 =? sizeof TDS_SuplaRegisterDevice_F;
   5192 =? sizeof TDS_SuplaRegisterDevice_G;
   7 =? sizeof TSD_SuplaRegisterDeviceResult;
   265 =? sizeof TSD_SuplaRegisterDeviceResult_B;
   9 =? sizeof TDS_SuplaDeviceChannelValue;
   10 =? sizeof TDS_SuplaDeviceChannelValue_B;
   14 =? sizeof TDS_SuplaDeviceChannelValue_C;
   sizeof TSuplaChannelExtendedValue + 1 =? sizeof TDS_SuplaDeviceChannelExtendedValue;
   17 =? sizeof TSD_SuplaChannelNewValue;
   22 =? sizeof TSD_SuplaChannelGroupNewValue;
   6 =? sizeof TDS_SuplaChannelNewValueResult;
   22 =? sizeof TSC_SuplaChannelValue;
   23 =? sizeof TSC_SuplaChannelValue_B;
   sizeof TSuplaChannelExtendedValue + 4 =? sizeof TSC_SuplaChannelExtendedValue;
   448 =? sizeof TSC_SuplaChannelValuePack;
   468 =? sizeof TSC_SuplaChannelValuePack_B;
   435 =? sizeof TSC_SuplaChannel;
   8708 =? sizeof TSC_SuplaChannelPack;
   444 =? sizeof TSC_SuplaChannel_B;
   8888 =? sizeof TSC_SuplaChannelPack_B;
   460 =? sizeof TSC_SuplaChannel_C;
   461 =? sizeof TSC_SuplaChannel_D;
   469 =? sizeof TSC_SuplaChannel_E;
   9208 =? sizeof TSC_SuplaChannelPack_C;
   9228 =? sizeof TSC_SuplaChannelPack_D;
   9388 =? sizeof TSC_SuplaChannelPack_E;
   426 =? sizeof TSC_SuplaChannelGroup;
   8528 =? sizeof TSC_SuplaChannelGroupPack;
   430 =? sizeof TSC_SuplaChannelGroup_B;
   8608 =? sizeof TSC_SuplaChannelGroupPack_B;
   9 =? sizeof TSC_SuplaChannelGroupRelation;
   908 =? sizeof TSC_SuplaChannelGroupRelationPack;
   1108 =? sizeof TSC_SuplaChannelRelationPack;
   275 =? sizeof TCS_SuplaRegisterClient;
   340 =? sizeof TCS_SuplaRegisterClient_B;
   575 =? sizeof TCS_SuplaRegisterClient_C;
   639 =? sizeof TCS_SuplaRegisterClient_D;
   19 =? sizeof TSC_SuplaRegisterClientResult;
   27 =? sizeof TSC_SuplaRegisterClientResult_B;
   31 =? sizeof TSC_SuplaRegisterClientResult_C;
   27 =? sizeof TSC_SuplaRegisterClientResult_D;
   9 =? sizeof TCS_SuplaChannelNewValue;
   12 =? sizeof TCS_SuplaChannelNewValue_B;
   13 =? sizeof TCS_SuplaNewValue;
   221 =? sizeof TSC_SuplaEvent;
   17 =? sizeof TDS_FirmwareUpdateParams;
   207 =? sizeof TSD_FirmwareUpdate_Url;
   208 =? sizeof TSD_FirmwareUpdate_UrlResult;
   8 =? sizeof TSDC_RegistrationEnabled;
   264 =? sizeof TSC_OAuthToken;
   265 =? sizeof TSC_OAuthTokenRequestResult;
   62 =? sizeof TElectricityMeter_Measurement;
   (144 + sizeof TElectricityMeter_Measurement * EM_MEASUREMENT_COUNT) =? sizeof TElectricityMeter_ExtendedValue_V3;
   5 =? sizeof TElectricityMeter_Value;
   40 =? sizeof TSC_ImpulseCounter_ExtendedValue;
   8 =? sizeof TSC_ImpulseCounter_Value;
   320 =? sizeof TCS_SuperUserAuthorizationRequest;
   144 =? sizeof TCS_DeviceCalCfgRequest;
   145 =? sizeof TCS_DeviceCalCfgRequest_B;
   144 =? sizeof TSC_DeviceCalCfgResult;
   149 =? sizeof TSD_DeviceCalCfgRequest;
   148 =? sizeof TDS_DeviceCalCfgResult;
   9 =? sizeof TCS_TimerArmRequest;
   sizeof TDS_ImpulseCounter_Value <=? SUPLA_CHANNELVALUE_SIZE;
   sizeof TSC_ImpulseCounter_ExtendedValue <=? SUPLA_CHANNELEXTENDEDVALUE_SIZE;
   sizeof TElectricityMeter_Value <=? SUPLA_CHANNELVALUE_SIZE;
   sizeof TElectricityMeter_ExtendedValue_V3 <=? SUPLA_CHANNELEXTENDEDVALUE_SIZE;
   4 =? sizeof TThermostat_Time;
   246 =? sizeof TThermostat_ExtendedValue;
   6 =? sizeof TThermostat_Value;
   169 =? sizeof TThermostat_Schedule;
   104 =? sizeof TThermostat_ScheduleCfg;
   22 =? sizeof TThermostatTemperatureCfg;
   sizeof TThermostat_ExtendedValue <=? SUPLA_CHANNELEXTENDEDVALUE_SIZE;
   sizeof TThermostat_Value <=? SUPLA_CHANNELVALUE_SIZE;
   sizeof TThermostat_ScheduleCfg <=? SUPLA_CALCFG_DATA_MAXSIZE;
   sizeof TThermostatTemperatureCfg <=? SUPLA_CALCFG_DATA_MAXSIZE;
   63 =? sizeof TSDC_UserLocalTimeResult;
   50 =? sizeof TDSC_ChannelState;
   1008 =? sizeof TSC_SuplaChannelStatePack;
   sizeof TDSC_ChannelState <=? SUPLA_CHANNELEXTENDEDVALUE_SIZE;
   8 =? sizeof TCSD_ChannelStateRequest;
   8 =? sizeof TCS_SetChannelFunction;
   9 =? sizeof TSC_SetChannelFunctionResult;
   660 =? sizeof TSC_ChannelBasicCfg;
   4 =? sizeof TCS_ChannelBasicCfgRequest;
   1 =? sizeof TSC_ClientsReconnectRequestResult].

Definition proto_check_2 : list bool :=
  [8 =? sizeof TCS_SetRegistrationEnabled;
   1 =? sizeof TSC_SetRegistrationEnabledResult;
   4 =? sizeof TCS_DeviceReconnectRequest;
   5 =? sizeof TSC_DeviceReconnectRequestResult;
   409 =? sizeof TDCS_SetCaption;
   410 =? sizeof TSCD_SetCaptionResult;
   513 =? sizeof TSD_ChannelFunctions;
   58 =? sizeof TCalCfg_ZWave_Node;
   sizeof TCalCfg_ZWave_Node <=? SUPLA_CALCFG_DATA_MAXSIZE;
   sizeof uchar <=? SUPLA_CALCFG_DATA_MAXSIZE;
   sizeof TCalCfg_ProgressReport <=? SUPLA_CALCFG_DATA_MAXSIZE;
   221 =? sizeof TTimerState_ExtendedValue;
   271 =? sizeof TChannelAndTimerState_ExtendedValue;
   sizeof TTimerState_ExtendedValue <=? SUPLA_CHANNELEXTENDEDVALUE_SIZE;
   4 =? sizeof TCalCfg_LightSourceLifespan;
   sizeof TCalCfg_LightSourceLifespan <=? SUPLA_CALCFG_DATA_MAXSIZE;
   sizeof TDigiglass_Value <=? SUPLA_CHANNELVALUE_SIZE;
   sizeof TCSD_Digiglass_NewValue <=? SUPLA_CHANNELVALUE_SIZE;
   12 =? sizeof TCalCfg_ZWave_WakeupSettingsReport;
   sizeof TCalCfg_ZWave_WakeupSettingsReport <=? SUPLA_CALCFG_DATA_MAXSIZE;
   3 =? sizeof TCalCfg_ZWave_WakeUpTime;
   sizeof TCalCfg_ZWave_WakeUpTime <=? SUPLA_CALCFG_DATA_MAXSIZE;
   123 =? sizeof TCalCfg_FirmwareCheckResult;
   sizeof TCalCfg_FirmwareCheckResult <=? SUPLA_CALCFG_DATA_MAXSIZE;
   64 =? sizeof TCalCfg_SetCfgModePassword;
   sizeof TCalCfg_SetCfgModePassword <=? SUPLA_CALCFG_DATA_MAXSIZE;
   13 =? sizeof TSD_ChannelIntParams;
   1 =? sizeof TDS_GetChannelIntParamsRequest;
   3 =? sizeof TRelayChannel_Value;
   sizeof TRelayChannel_Value <=? SUPLA_CHANNELVALUE_SIZE;
   6 =? sizeof TDS_GetChannelConfigRequest;
   520 =? sizeof TSD_ChannelConfig;
   520 =? sizeof TSDS_SetChannelConfig;
   3 =? sizeof TSDS_SetChannelConfigResult;
   sizeof TChannelConfig_StaircaseTimer =? 4;
   sizeof TChannelConfig_StaircaseTimer <=? SUPLA_CHANNEL_CONFIG_MAXSIZE;
   sizeof TChannelConfig_RollerShutter =? 44;
   sizeof TChannelConfig_RollerShutter <=? SUPLA_CHANNEL_CONFIG_MAXSIZE;
   sizeof TChannelConfig_ActionTrigger =? 4;
   sizeof TChannelConfig_ActionTrigger <=? SUPLA_CHANNEL_CONFIG_MAXSIZE;
   539 =? sizeof TSDS_SetDeviceConfig;
   10 =? sizeof TSDS_SetDeviceConfigResult;
   sizeof TDeviceConfig_StatusLed <=? SUPLA_DEVICE_CONFIG_MAXSIZE;
   sizeof TDeviceConfig_ScreenBrightness <=? SUPLA_DEVICE_CONFIG_MAXSIZE;
   sizeof TDeviceConfig_ButtonVolume <=? SUPLA_DEVICE_CONFIG_MAXSIZE;
   sizeof TDeviceConfig_DisableUserInterface <=? SUPLA_DEVICE_CONFIG_MAXSIZE;
   sizeof TDeviceConfig_AutomaticTimeSync <=? SUPLA_DEVICE_CONFIG_MAXSIZE;
   sizeof TDeviceConfig_HomeScreenOffDelay <=? SUPLA_DEVICE_CONFIG_MAXSIZE;
   sizeof TDeviceConfig_HomeScreenContent <=? SUPLA_DEVICE_CONFIG_MAXSIZE;
   8 =? sizeof TCalCfg_RollerShutterSettings;
   sizeof TCalCfg_RollerShutterSettings <=? SUPLA_CHANNEL_CONFIG_MAXSIZE;
   53 =? sizeof TChannelConfig_FacadeBlind;
   sizeof TChannelConfig_FacadeBlind <=? SUPLA_CHANNEL_CONFIG_MAXSIZE;
   sizeof TDSC_RollerShutterValue <=? SUPLA_CHANNELVALUE_SIZE;
   sizeof TCSD_RollerShutterValue <=? SUPLA_CHANNELVALUE_SIZE;
   sizeof TDSC_FacadeBlindValue <=? SUPLA_CHANNELVALUE_SIZE;
   sizeof TCSD_FacadeBlindValue <=? SUPLA_CHANNELVALUE_SIZE;
   15 =? sizeof TDS_ActionTrigger;
   420 =? sizeof TSC_SuplaScene;
   8408 =? sizeof TSC_SuplaScenePack;
   220 =? sizeof TSC_SuplaSceneState;
   4408 =? sizeof TSC_SuplaSceneStatePack;
   511 =? sizeof TCS_Action;
   390 =? sizeof TCS_ClientAuthorizationDetails;
   901 =? sizeof TCS_ActionWithAuth;
   13 =? sizeof TSC_ActionExecutionResult;
   16 =? sizeof TAction_ShadingSystem_Parameters;
   16 =? sizeof TAction_RGBW_Parameters;
   sizeof TAction_ShadingSystem_Parameters <=? SUPLA_ACTION_PARAM_MAXSIZE;
   sizeof TAction_RGBW_Parameters <=? SUPLA_ACTION_PARAM_MAXSIZE;
   sizeof TCS_GetChannelValueWithAuth =? 394;
   sizeof TDS_RegisterPushNotification =? 11;
   sizeof TDS_PushNotification =? 399;
   sizeof TCS_RegisterPnClientToken =? 710;
   sizeof TSC_RegisterPnClientTokenResult =? 4;
   sizeof TDS_SubdeviceDetails =? 325;
   sizeof THVACValue =? 8;
   sizeof THVACValue <=? SUPLA_CHANNELVALUE_SIZE;
   sizeof TChannelConfig_HVAC =? 127;
   sizeof TChannelConfig_HVAC <=? SUPLA_CHANNEL_CONFIG_MAXSIZE;
   sizeof TChannelConfig_WeeklySchedule =? 356;
   sizeof TChannelConfig_WeeklySchedule <=? SUPLA_CHANNEL_CONFIG_MAXSIZE;
   544 =? sizeof TSC_DeviceConfigUpdateOrResult;
   20 =? sizeof TCS_GetDeviceConfigRequest;
   9 =? sizeof TCS_GetChannelConfigRequest;
   523 =? sizeof TSCS_ChannelConfig;
   524 =? sizeof TSC_ChannelConfigUpdateOrResult;
   sizeof TChannelConfig_BinarySensor =? 32;
   sizeof TChannelConfig_BinarySensor <=? SUPLA_CHANNEL_CONFIG_MAXSIZE;
   sizeof TChannelConfig_TemperatureAndHumidity =? 32;
   sizeof TChannelConfig_TemperatureAndHumidity <=? SUPLA_CHANNEL_CONFIG_MAXSIZE;
   sizeof TChannelConfig_GeneralPurposeMeasurement =? 108;
   sizeof TChannelConfig_GeneralPurposeMeasurement <=? SUPLA_CHANNEL_CONFIG_MAXSIZE;
   sizeof TChannelConfig_GeneralPurposeMeter =? 111;
   sizeof TChannelConfig_GeneralPurposeMeter <=? SUPLA_CHANNEL_CONFIG_MAXSIZE;
   sizeof TChannelConfig_OCR =? 291;
   sizeof TChannelConfig_OCR <=? SUPLA_CHANNEL_CONFIG_MAXSIZE;
   sizeof TChannelConfig_ImpulseCounter =? 61;
   sizeof TChannelConfig_ImpulseCounter <=? SUPLA_CHANNEL_CONFIG_MAXSIZE;
   sizeof TChannelConfig_ElectricityMeter =? 72;
   sizeof TChannelConfig_ElectricityMeter <=? SUPLA_CHANNEL_CONFIG_MAXSIZE;
   sizeof TChannelConfig_PowerSwitch =? 42;
   sizeof TChannelConfig_PowerSwitch <=? SUPLA_CHANNEL_CONFIG_MAXSIZE;
   sizeof TContainerChannel_Value =? 3;
   sizeof TContainerChannel_Value <=? SUPLA_CHANNELVALUE_SIZE;
   sizeof TContainer_SensorInfo =? 5;
   sizeof TChannelConfig_Container =? 87;
   sizeof TChannelConfig_Container <=? SUPLA_CHANNEL_CONFIG_MAXSIZE;
   sizeof TValve_SensorInfo =? 4;
   sizeof TChannelConfig_Valve =? 112;
   sizeof TChannelConfig_Container <=? SUPLA_CHANNEL_CONFIG_MAXSIZE;
   sizeof TValve_Value <=? SUPLA_CHANNELVALUE_SIZE;
   sizeof TCSD_Valve <=? SUPLA_CHANNELVALUE_SIZE;
   SUPLA_CHANNEL_CAPTION_MAXSIZE =? SUPLA_CAPTION_MAXSIZE;
   SUPLA_LOCATION_CAPTION_MAXSIZE =? SUPLA_CAPTION_MAXSIZE;
   SUPLA_SCENE_CAPTION_MAXSIZE =? SUPLA_CAPTION_MAXSIZE].

(** The assertions that depend on the target, in the branches the preprocessor takes. *)
Definition proto_check_platform (arduino_or_device esp8266 small_target : bool) : list bool :=
  (if arduino_or_device then
     [SUPLA_MAX_DATA_SIZE =? 600; 618 =? sizeof TSuplaDataPacket]
   else if esp8266 then
     [SUPLA_MAX_DATA_SIZE =? 1536; 1554 =? sizeof TSuplaDataPacket]
   else
     [SUPLA_MAX_DATA_SIZE =? 10240; 10258 =? sizeof TSuplaDataPacket]) ++
  (if small_target then
     [SUPLA_CHANNELEXTENDEDVALUE_SIZE =? 256; 261 =? sizeof TSuplaChannelExtendedValue]
   else
     [SUPLA_CHANNELEXTENDEDVALUE_SIZE =? 1024; 1029 =? sizeof TSuplaChannelExtendedValue]) ++
  (if small_target then []
   else
     [10202 =? sizeof TSC_SuplaChannelExtendedValuePack;
      sizeof TChannelAndTimerState_ExtendedValue <=? SUPLA_CHANNELEXTENDEDVALUE_SIZE;
      sizeof TSC_GetChannelValueResult =? 1055]).

Definition proto_check (arduino_or_device esp8266 small_target : bool) : bool :=
  forallb id (proto_check_1 ++ proto_check_2
              ++ proto_check_platform arduino_or_device esp8266 small_target).

End ProtoCheck.

(** The target symbols that select the platform assertions of a configuration. *)
Inductive target := TargetDevice | TargetEsp8266 | TargetGeneric.

(** The sizes proto.h defines under each target symbol. *)
Definition target_sizes (t : target) (P : Platform) : Prop :=
  match t with
  | TargetDevice => SUPLA_MAX_DATA_SIZE = 600 /\ SUPLA_CHANNELEXTENDEDVALUE_SIZE = 256
                    /\ EM_MEASUREMENT_COUNT = 1
  | TargetEsp8266 => SUPLA_MAX_DATA_SIZE = 1536 /\ SUPLA_CHANNELEXTENDEDVALUE_SIZE = 256
                     /\ EM_MEASUREMENT_COUNT = 1
  | TargetGeneric => SUPLA_MAX_DATA_SIZE = 10240 /\ SUPLA_CHANNELEXTENDEDVALUE_SIZE = 1024
                     /\ EM_MEASUREMENT_COUNT = 5
  end.

Definition target_check (t : target) (P : Platform) : bool :=
  match t with
  | TargetDevice => @proto_check P true false true
  | TargetEsp8266 => @proto_check P false true true
  | TargetGeneric => @proto_check P false false false
  end.

(** C23: every size assertion of proto_check.cpp holds of the layouts this development
    uses, on each of the three families of targets, whatever the signedness of [char],
    the width of [size_t] and the width of [unsigned int] (16 bits on AVR). *)
Theorem proto_check_holds t P : target_sizes t P -> target_check t P = true.
Proof.
  destruct P as [w cs d e m ? ? ? ? ? ? ? ? ? ? ? ? ? avr ?].
  destruct t; cbn [target_sizes SUPLA_MAX_DATA_SIZE SUPLA_CHANNELEXTENDEDVALUE_SIZE
    EM_MEASUREMENT_COUNT]; intros (-> & -> & ->); destruct cs, avr; vm_compute; reflexivity.
Qed.

Lemma proto_check_holds_witness :
  target_sizes TargetDevice arduino_mega /\ target_check TargetDevice arduino_mega = true.
Proof.
  split; [cbn; lia|]. apply (proto_check_holds TargetDevice arduino_mega). cbn; lia.
Defined.
