(* ===== verification/Proto.v ===== *)
(** * proto.c: framing

    The frame layer of [src/src/supla-common/proto.c]: the input and output byte
    buffers with their sizes and reallocations, splitting the input into data
    packets, and building packets.  Every access to a buffer is checked, so a
    theorem that a call returns a result also says that it stays inside its objects.

    - [TSuplaProtoData] and its two buffers are the C structures; a buffer is a
      pointer ([Heap.ptr]) with the sizes the code keeps beside it.
    - A data packet is the record [sdp_t]; [sdp_encode] lays it out as the packed
      structure [ProtoTypes.TSuplaDataPacket].
    - [in_contents] and [out_contents] are the abstract queues of bytes;
      [pop_in_spec] is the parser the input side implements. *)
From S2P Require Import Prelude Platform Heap CLayout ProtoConsts ProtoTypes.

(** ['S', 'U', 'P', 'L', 'A'] *)
Definition sproto_tag : bytes := [Byte.x53; Byte.x55; Byte.x50; Byte.x4c; Byte.x41].

(** ** Data packets *)

Record sdp_t := {
  sdp_tag : bytes;
  sdp_version : Z;
  sdp_rr_id : Z;
  sdp_call_id : Z;
  sdp_data_size : Z;
  sdp_data : bytes
}.

Definition sdp_encode (p : sdp_t) : bytes :=
  sdp_tag p ++ le_split 1 (sdp_version p) ++ le_split 4 (sdp_rr_id p)
  ++ le_split 4 (sdp_call_id p) ++ le_split 4 (sdp_data_size p) ++ sdp_data p.

Definition sdp_decode (b : bytes) : sdp_t := {|
  sdp_tag := take 5 b;
  sdp_version := le_combine (take 1 (drop 5 b));
  sdp_rr_id := le_combine (take 4 (drop 6 b));
  sdp_call_id := le_combine (take 4 (drop 10 b));
  sdp_data_size := le_combine (take 4 (drop 14 b));
  sdp_data := drop 18 b
|}.

(** ** State *)

Record TSuplaProtoInBuffer := {
  in_begin_tag : Z;
  in_size : Z;
  in_data_size : Z;
  in_buffer : ptr
}.

Record TSuplaProtoOutBuffer := {
  out_size : Z;
  out_data_size : Z;
  out_buffer : ptr
}.

Record TSuplaProtoData := {
  next_rr_id : Z;
  spd_version : Z;
  spd_in : TSuplaProtoInBuffer;
  spd_out : TSuplaProtoOutBuffer
}.

Definition set_in (spd : TSuplaProtoData) (i : TSuplaProtoInBuffer) : TSuplaProtoData :=
  {| next_rr_id := next_rr_id spd; spd_version := spd_version spd;
     spd_in := i; spd_out := spd_out spd |}.

Definition set_out (spd : TSuplaProtoData) (o : TSuplaProtoOutBuffer) : TSuplaProtoData :=
  {| next_rr_id := next_rr_id spd; spd_version := spd_version spd;
     spd_in := spd_in spd; spd_out := o |}.

Section Proto.
Context `{Platform}.

Definition sproto_init : M heap (option TSuplaProtoData) :=
  let! refused := next_request in
  if refused then mret None
  else mret (Some {| next_rr_id := 0; spd_version := SUPLA_PROTO_VERSION;
    spd_in := {| in_begin_tag := 0; in_size := 0; in_data_size := 0; in_buffer := PNull |};
    spd_out := {| out_size := 0; out_data_size := 0; out_buffer := PNull |} |}).

Definition sproto_free (spd : option TSuplaProtoData) : M heap unit :=
  match spd with
  | None => mret tt
  | Some spd =>
      free (in_buffer (spd_in spd)) ;;;
      (if SPROTO_WITHOUT_OUT_BUFFER then mret PNull else free (out_buffer (spd_out spd))) ;;;
      mret tt
  end.

(** ** Buffers *)

(** The growing part of [sproto_buffer_append]: the size the buffer needs. *)
Definition append_size (buffer_size buffer_data_size data_size : Z) : Z :=
  let size := if buffer_size <? BUFFER_MIN_SIZE then BUFFER_MIN_SIZE else buffer_size in
  if u32 (size - buffer_data_size) <? data_size
  then u32 (size + (data_size - u32 (size - buffer_data_size))) else size.

(** Result code, then the new [*buffer], [*buffer_size] and [*buffer_data_size]. *)
Definition sproto_buffer_append (buffer : ptr) (buffer_size buffer_data_size : Z)
    (data : bytes) (data_size : Z) : M heap (Z * (ptr * Z * Z)) :=
  let size := append_size buffer_size buffer_data_size data_size in
  if BUFFER_MAX_SIZE <=? size
  then mret (u8 SUPLA_RESULT_BUFFER_OVERFLOW, (buffer, buffer_size, buffer_data_size))
  else
    let! (ok, buffer) :=
      (if size =? buffer_size then mret (true, buffer)
       else
         let! (new_buffer, old_buffer) := realloc buffer size in
         if (0 <? size) && is_null new_buffer then mret (false, old_buffer)
         else
           let! h := mget in
           if ERRNO_CHECKED && (h_errno h =? ENOMEM) then mret (false, old_buffer)
           else mret (true, new_buffer)) in
    if negb ok then mret (SUPLA_RESULT_FALSE, (buffer, buffer_size, buffer_data_size))
    else
      let! d := mopt (peek 0 data_size data) in
      let! buffer := mopt (ptr_write buffer buffer_data_size d) in
      mret (SUPLA_RESULT_TRUE, (buffer, size, u32 (buffer_data_size + data_size))).

Definition sproto_in_buffer_append (spd : TSuplaProtoData) (data : bytes) (data_size : Z)
    : M heap (Z * TSuplaProtoData) :=
  let i := spd_in spd in
  let! (r, (b, s, d)) :=
    sproto_buffer_append (in_buffer i) (in_size i) (in_data_size i) data data_size in
  mret (to_char r, set_in spd
    {| in_begin_tag := in_begin_tag i; in_size := s; in_data_size := d; in_buffer := b |}).

(** [sproto_buffer_append] on the output buffer of [spd]. *)
Definition out_append (spd : TSuplaProtoData) (data : bytes) (data_size : Z)
    : M heap (Z * TSuplaProtoData) :=
  let o := spd_out spd in
  let! (r, (b, s, d)) :=
    sproto_buffer_append (out_buffer o) (out_size o) (out_data_size o) data data_size in
  mret (r, set_out spd {| out_size := s; out_data_size := d; out_buffer := b |}).

Definition sproto_out_buffer_append (spd : TSuplaProtoData) (sdp : sdp_t)
    : M heap (Z * TSuplaProtoData) :=
  let sdp_size := sizeof TSuplaDataPacket in
  let packet_size := u32 (sdp_size - SUPLA_MAX_DATA_SIZE + sdp_data_size sdp) in
  if sdp_size <? packet_size then mret (to_char SUPLA_RESULT_DATA_TOO_LARGE, spd)
  else
    let! (r, spd) := out_append spd (sdp_encode sdp) packet_size in
    if r =? SUPLA_RESULT_TRUE then
      let! (r, spd) := out_append spd sproto_tag SUPLA_TAG_SIZE in
      mret (to_char r, spd)
    else mret (SUPLA_RESULT_FALSE, spd).

(** The loop [for (a = size; a < data_size; a++) { buffer[b] = buffer[a]; b++; }],
    [k] being the iterations left. *)
Fixpoint shift_down (k : nat) (a b : Z) (p : ptr) : option ptr :=
  match k with
  | O => Some p
  | S k =>
      match ptr_read p a 1 with
      | Some c =>
          match ptr_write p b c with
          | Some p => shift_down k (u32 (a + 1)) (u32 (b + 1)) p
          | None => None
          end
      | None => None
      end
  end.

(** The common end of the two consumers: drop [n] bytes, then give the memory back.
    The result is the new [data_size], [size] and [buffer]. *)
Definition buffer_consume (buffer : ptr) (size data_size n : Z) : M heap (Z * Z * ptr) :=
  let! buffer := mopt (shift_down (Z.to_nat (data_size - n)) n 0 buffer) in
  let data_size := u32 (data_size - n) in
  if data_size <? size then
    let new_size := if data_size <? BUFFER_MIN_SIZE then BUFFER_MIN_SIZE else data_size in
    if size =? new_size then mret (data_size, new_size, buffer)
    else
      let! (new_buffer, old_buffer) := realloc buffer new_size in
      if is_null new_buffer && (0 <? new_size)
      then mret (data_size, size, old_buffer)
      else mret (data_size, new_size, new_buffer)
  else mret (data_size, size, buffer).

(** [buffer] is null or the caller's object; the result is the number of bytes
    copied and the object's new bytes. *)
Definition sproto_pop_out_data (spd : TSuplaProtoData) (buffer : option bytes)
    (buffer_size : Z) : M heap (Z * option bytes * TSuplaProtoData) :=
  let o := spd_out spd in
  match buffer with
  | None => mret (0, None, spd)
  | Some buf =>
      if (out_data_size o <=? 0) || (buffer_size =? 0) then mret (0, Some buf, spd)
      else
        let n := if out_data_size o <? buffer_size then out_data_size o else buffer_size in
        let! d := mopt (ptr_read (out_buffer o) 0 n) in
        let! buf := mopt (poke 0 d buf) in
        let! (ds, s, b) := buffer_consume (out_buffer o) (out_size o) (out_data_size o) n in
        mret (n, Some buf, set_out spd {| out_size := s; out_data_size := ds; out_buffer := b |})
  end.

Definition sproto_out_dataexists (spd : TSuplaProtoData) : Z :=
  if SPROTO_WITHOUT_OUT_BUFFER then SUPLA_RESULT_FALSE
  else if 0 <? out_data_size (spd_out spd) then SUPLA_RESULT_TRUE else SUPLA_RESULT_FALSE.

Definition sproto_in_dataexists (spd : TSuplaProtoData) : Z :=
  if 0 <? in_data_size (spd_in spd) then SUPLA_RESULT_TRUE else SUPLA_RESULT_FALSE.

Definition sproto_shrink_in_buffer (i : TSuplaProtoInBuffer) (size : Z)
    : M heap TSuplaProtoInBuffer :=
  let size := if in_data_size i <? size then in_data_size i else size in
  let! (ds, s, b) := buffer_consume (in_buffer i) (in_size i) (in_data_size i) size in
  mret {| in_begin_tag := 0; in_size := s; in_data_size := ds; in_buffer := b |}.

(** [sproto_shrink_in_buffer (&spd->in, size); return r;] *)
Definition shrink_ret (spd : TSuplaProtoData) (size r : Z) (sdp : sdp_t)
    : M heap (Z * sdp_t * TSuplaProtoData) :=
  let! i := sproto_shrink_in_buffer (spd_in spd) size in
  mret (to_char r, sdp, set_in spd i).

(** A scalar member of the packet header that starts the buffer. *)
Definition header_member (p : ptr) (name : string) : option Z :=
  match p with PLive b => read_member TSuplaDataPacket [name] b | _ => None end.

(** The part of [sproto_pop_in_sdp] that runs once the begin tag has been seen. *)
Definition pop_tagged (spd : TSuplaProtoData) (sdp : sdp_t)
    : M heap (Z * sdp_t * TSuplaProtoData) :=
  let i := spd_in spd in
  let header_size := sizeof TSuplaDataPacket - SUPLA_MAX_DATA_SIZE in
  if header_size <=? u32 (in_data_size i - SUPLA_TAG_SIZE) then
    let! version := mopt (header_member (in_buffer i) "version") in
    if (SUPLA_PROTO_VERSION <? version) || (version <? SUPLA_PROTO_VERSION_MIN) then
      shrink_ret spd (in_data_size i) SUPLA_RESULT_VERSION_ERROR
        {| sdp_tag := sdp_tag sdp; sdp_version := version; sdp_rr_id := sdp_rr_id sdp;
           sdp_call_id := sdp_call_id sdp; sdp_data_size := sdp_data_size sdp;
           sdp_data := sdp_data sdp |}
    else
      let! data_size := mopt (header_member (in_buffer i) "data_size") in
      let n := u32 (header_size + data_size) in
      if sizeof TSuplaDataPacket <? n then
        shrink_ret spd (in_data_size i) SUPLA_RESULT_DATA_ERROR sdp
      else if in_data_size i <? u32 (n + SUPLA_TAG_SIZE) then
        mret (SUPLA_RESULT_FALSE, sdp, spd)
      else
        let! bad_tag :=
          (if in_size i <=? n then mret true
           else
             let! t := mopt (ptr_read (in_buffer i) n SUPLA_TAG_SIZE) in
             mret (bool_decide (t <> sproto_tag))) in
        if bad_tag then shrink_ret spd (in_data_size i) SUPLA_RESULT_DATA_ERROR sdp
        else
          let! b := mopt (ptr_read (in_buffer i) 0 n) in
          let! sdp := mopt (match poke 0 b (sdp_encode sdp) with
                            | Some b => Some (sdp_decode b) | None => None end) in
          shrink_ret spd (u32 (n + SUPLA_TAG_SIZE)) SUPLA_RESULT_TRUE sdp
  else mret (SUPLA_RESULT_FALSE, sdp, spd).

Definition set_begin_tag (spd : TSuplaProtoData) (t : Z) : TSuplaProtoData :=
  let i := spd_in spd in
  set_in spd {| in_begin_tag := t; in_size := in_size i; in_data_size := in_data_size i;
                in_buffer := in_buffer i |}.

Definition sproto_pop_in_sdp (spd : TSuplaProtoData) (sdp : sdp_t)
    : M heap (Z * sdp_t * TSuplaProtoData) :=
  let i := spd_in spd in
  if (in_begin_tag i =? 0) && (SUPLA_TAG_SIZE <=? in_data_size i) then
    let! t := mopt (ptr_read (in_buffer i) 0 SUPLA_TAG_SIZE) in
    if bool_decide (t = sproto_tag) then pop_tagged (set_begin_tag spd 1) sdp
    else shrink_ret spd (in_data_size i) SUPLA_RESULT_DATA_ERROR sdp
  else if in_begin_tag i =? 1 then pop_tagged spd sdp
  else mret (SUPLA_RESULT_FALSE, sdp, spd).

(** ** Versions and packets *)

Definition sproto_set_version (spd : TSuplaProtoData) (version : Z) : TSuplaProtoData :=
  {| next_rr_id := next_rr_id spd;
     spd_version := if (SUPLA_PROTO_VERSION_MIN <=? version) && (version <=? SUPLA_PROTO_VERSION)
                    then version else SUPLA_PROTO_VERSION;
     spd_in := spd_in spd; spd_out := spd_out spd |}.

Definition sproto_get_version (spd : TSuplaProtoData) : Z := spd_version spd.

Definition sproto_sdp_init (spd : TSuplaProtoData) : sdp_t * TSuplaProtoData :=
  let n := u32 (next_rr_id spd + 1) in
  let n := if n =? 0 then u32 (n + 1) else n in
  ({| sdp_tag := sproto_tag; sdp_version := spd_version spd; sdp_rr_id := n;
      sdp_call_id := 0; sdp_data_size := 0; sdp_data := zeros SUPLA_MAX_DATA_SIZE |},
   {| next_rr_id := n; spd_version := spd_version spd;
      spd_in := spd_in spd; spd_out := spd_out spd |}).

Definition sproto_sdp_malloc (spd : TSuplaProtoData) : M heap (option sdp_t * TSuplaProtoData) :=
  let! refused := next_request in
  if refused then mret (None, spd)
  else let (sdp, spd) := sproto_sdp_init spd in mret (Some sdp, spd).

(** [data] is null ([None]) or an object of at least [data_size] bytes. *)
Definition sproto_set_data (sdp : sdp_t) (data : option bytes) (data_size call_id : Z)
    : option (Z * sdp_t) :=
  if (SUPLA_MAX_DATA_SIZE <? data_size)
     || ((0 <? data_size) && match data with None => true | _ => false end)
  then Some (SUPLA_RESULT_FALSE, sdp)
  else
    match (match data with
           | Some data => if 0 <? data_size
                          then match peek 0 data_size data with
                               | Some d => poke 0 d (sdp_data sdp) | None => None end
                          else Some (sdp_data sdp)
           | None => Some (sdp_data sdp)
           end) with
    | None => None
    | Some d =>
        Some (SUPLA_RESULT_TRUE,
          {| sdp_tag := sdp_tag sdp; sdp_version := sdp_version sdp;
             sdp_rr_id := sdp_rr_id sdp; sdp_call_id := call_id;
             sdp_data_size := data_size; sdp_data := d |})
    end.

(** [snprintf (dest, max_size, "%s", src)] where [src] is the string before its
    terminator: at most [max_size - 1] characters, then a zero. *)
Definition snprintf_s (src dest : bytes) (max_size : Z) : option bytes :=
  poke 0 (take (Z.to_nat (max_size - 1)) src ++ [Byte.x00]) dest.

(** [strnlen (s, n)] *)
Fixpoint strnlen (s : bytes) (n : nat) : Z :=
  match n, s with
  | S n, c :: s => if Byte.eqb c Byte.x00 then 0 else 1 + strnlen s n
  | _, _ => 0
  end.

(** [dest] and the 16-bit size are null or objects; the result holds their new values. *)
Definition sproto__set_null_terminated_string (src : option bytes) (dest : option bytes)
    (dest_size : option Z) (max_size : Z) : option (option bytes * option Z) :=
  if max_size =? 0 then Some (dest, dest_size)
  else
    match dest, dest_size with
    | Some d, Some _ =>
        match src with
        | Some s =>
            match snprintf_s s d max_size with
            | Some d => Some (Some d, Some (u16 (strnlen d (Z.to_nat (max_size - 1)) + 1)))
            | None => None
            end
        | None =>
            match poke 0 [Byte.x00] d with
            | Some d => Some (Some d, Some 1) | None => None end
        end
    | Some d, None =>
        match poke 0 [Byte.x00] d with
        | Some d => Some (Some d, None) | None => None end
    | None, Some _ => Some (None, Some 0)
    | None, None => Some (None, None)
    end.

Definition sproto_set_null_terminated_string (src : option bytes) (dest : option bytes)
    (max_size : Z) : option (option bytes * Z) :=
  match sproto__set_null_terminated_string src dest (Some 0) max_size with
  | Some (d, Some n) => Some (d, n)
  | _ => None
  end.

End Proto.
