(* ===== verification/ProtoFacts.v ===== *)
(** * proto.c: theorems

    The buffers refine byte queues ([append_ok], [consume_ok], [pop_refines]); the
    input parser inverts the wire format of packets; error branches; bounds. *)
From S2P Require Import Prelude Platform Heap CLayout ProtoConsts ProtoTypes Proto.

(** ** Lists *)

Lemma take_drop_take {A} (l : list A) off k n :
  (off + k <= n)%nat -> take k (drop off (take n l)) = take k (drop off l).
Proof.
  intros. rewrite skipn_firstn_comm, take_take. f_equal. lia.
Qed.

Lemma read_in_take (l : bytes) off k n :
  0 <= off -> 0 <= k -> off + k <= n ->
  take (Z.to_nat k) (drop (Z.to_nat off) (take (Z.to_nat n) l))
  = take (Z.to_nat k) (drop (Z.to_nat off) l).
Proof. intros. apply take_drop_take. lia. Qed.

(** ** Packets *)

Section Packets.
Context `{PL : PlatformLaws}.

Lemma sizeof_sdp : sizeof TSuplaDataPacket = 18 + SUPLA_MAX_DATA_SIZE.
Proof. cbn [sizeof TSuplaDataPacket]. cbn. unfold SUPLA_TAG_SIZE. lia. Qed.

Record sdp_wf (p : sdp_t) : Prop := {
  wf_tag : sdp_tag p = sproto_tag;
  wf_version : 0 <= sdp_version p < 2 ^ 8;
  wf_rr_id : 0 <= sdp_rr_id p < 2 ^ 32;
  wf_call_id : 0 <= sdp_call_id p < 2 ^ 32;
  wf_data_size : 0 <= sdp_data_size p < 2 ^ 32;
  wf_data : Zlen (sdp_data p) = SUPLA_MAX_DATA_SIZE
}.

Lemma Zlen_sdp_encode p : Zlen (sdp_encode p) = Zlen (sdp_tag p) + 13 + Zlen (sdp_data p).
Proof. unfold sdp_encode. zlen. Qed.

Lemma le_combine_split_small n z : 0 <= z < 2 ^ (Z.of_nat n * 8) -> le_combine (le_split n z) = z.
Proof. intros. rewrite le_combine_split. by apply Z.mod_small. Qed.

(** The fields of the first eighteen bytes of any object laid out like a packet. *)
Lemma decode_header tag v rr call ds rest :
  length tag = 5%nat -> 0 <= v < 2 ^ 8 -> 0 <= rr < 2 ^ 32 -> 0 <= call < 2 ^ 32 ->
  0 <= ds < 2 ^ 32 ->
  sdp_decode (tag ++ le_split 1 v ++ le_split 4 rr ++ le_split 4 call ++ le_split 4 ds ++ rest)
  = {| sdp_tag := tag; sdp_version := v; sdp_rr_id := rr; sdp_call_id := call;
       sdp_data_size := ds; sdp_data := rest |}.
Proof.
  intros Ht Hv Hr Hc Hd.
  rewrite <-(le_combine_split_small 1 v) at 2 by lia.
  rewrite <-(le_combine_split_small 4 rr) at 2 by lia.
  rewrite <-(le_combine_split_small 4 call) at 2 by lia.
  rewrite <-(le_combine_split_small 4 ds) at 2 by lia.
  pose proof (length_le_split 1 v); pose proof (length_le_split 4 rr);
    pose proof (length_le_split 4 call); pose proof (length_le_split 4 ds).
  generalize dependent (le_split 1 v); generalize dependent (le_split 4 rr);
    generalize dependent (le_split 4 call); generalize dependent (le_split 4 ds).
  intros. list_of_length. reflexivity.
Qed.

Lemma sdp_decode_encode p : sdp_wf p -> sdp_decode (sdp_encode p) = p.
Proof.
  intros [Ht ? ? ? ? ?]. unfold sdp_encode.
  rewrite decode_header by (try done; by rewrite Ht). by destruct p.
Qed.

Lemma sdp_encode_decode b : 18 <= Zlen b -> sdp_encode (sdp_decode b) = b.
Proof.
  intros Hb. do 18 (destruct b as [|? b]; [unfold Zlen in Hb; cbn in Hb; lia|]).
  unfold sdp_encode, sdp_decode. cbn [drop take sdp_tag sdp_version sdp_rr_id sdp_call_id
    sdp_data_size sdp_data].
  rewrite (split_le_combine [_]), !(split_le_combine [_; _; _; _]). reflexivity.
Qed.

End Packets.

(** ** Buffers *)

Section Buffers.
Context `{PL : PlatformLaws}.

(** An allocator under which a failed request is noticed.  Where proto.c tests
    [errno] after [realloc] that needs an allocator that never refuses; see
    [stale_errno_dangles]. *)
Definition heap_ok (h : heap) : Prop :=
  ERRNO_CHECKED = false \/ (h_errno h <> ENOMEM /\ Forall (eq false) (h_oom h)).

(** An allocator that grants every request. *)
Definition never_refuses (h : heap) : Prop :=
  h_errno h <> ENOMEM /\ Forall (eq false) (h_oom h).

(** The invariant of a buffer with its two sizes. *)
Definition buf_ok (p : ptr) (size data_size : Z) : Prop :=
  owns p size /\ 0 <= data_size <= size /\ size < BUFFER_MAX_SIZE.

(** The bytes a buffer holds. *)
Definition contents (p : ptr) (data_size : Z) : bytes := take (Z.to_nat data_size) (pbytes p).

Lemma Zlen_contents p s d : buf_ok p s d -> Zlen (contents p d) = d.
Proof.
  intros (Hp & ? & ?). apply owns_Zlen in Hp. unfold contents. zlen.
Qed.

(** [realloc] keeps the common prefix; a refused request leaves the object alone. *)
Lemma wp_realloc p m n Q h :
  heap_ok h -> owns p m -> 0 <= n ->
  (forall h', heap_ok h' -> ~ never_refuses h -> 0 < n -> ERRNO_CHECKED = false ->
     Q (PNull, p) h') ->
  (forall new h', heap_ok h' -> (never_refuses h -> never_refuses h') -> owns new n ->
     take (Z.to_nat (Z.min n m)) (pbytes new) = take (Z.to_nat n) (pbytes p) ->
     Q (new, freed p) h') ->
  wp (realloc p n) Q h.
Proof.
  intros Hh Hp Hn Hrefused Hgranted.
  assert (Hstep : forall K : bool -> M heap (ptr * ptr), forall h,
    heap_ok h ->
    (forall h', heap_ok h' -> (never_refuses h -> never_refuses h') -> wp (K false) Q h') ->
    (forall h', heap_ok h' -> ~ never_refuses h -> ERRNO_CHECKED = false -> wp (K true) Q h') ->
    wp (mbnd next_request K) Q h).
  { clear. intros K h Hh Hf Ht. apply wp_bnd, wp_next_request.
    intros [] h' He1 He2 [k Hk] Hno.
    - apply Ht.
      + destruct Hh as [Hh|[_ Hh]]; [by left|]. by specialize (Hno Hh).
      + intros [_ Hr]. by specialize (Hno Hr).
      + destruct Hh as [Hh|[_ Hh]]; [done|]. by specialize (Hno Hh).
    - assert (never_refuses h -> never_refuses h') as Hnr.
      { intros [? ?]. split; [by rewrite He2|]. rewrite Hk. by apply Forall_drop. }
      apply Hf; [|done]. destruct Hh as [Hh|Hh]; [by left|right]. by apply Hnr. }
  destruct p as [|b|]; cbn [owns] in Hp; [| |done]; unfold realloc.
  - subst m. apply Hstep; [done|..].
    + intros h' ? ?. wp_steps. apply (Hgranted (PLive _)); cbn; try done; [zlen|].
      by rewrite Z.min_r, firstn_nil by lia.
    + intros h' ? Hnr ?. wp_steps. destruct (decide (0 < n)); [auto|].
      apply (Hgranted PNull); cbn; try done; [lia|]. by rewrite !firstn_nil.
  - destruct (Z.eqb_spec n 0) as [->|Hn0].
    + wp_steps. apply (Hgranted PNull); try done. cbn. by rewrite firstn_nil.
    + apply Hstep; [done|..].
      * intros h' ? ?. wp_steps. apply (Hgranted (PLive _)); cbn; try done.
        -- subst m. zlen.
        -- subst m. destruct (Z.le_gt_cases n (Zlen b)).
           ++ rewrite Z.min_l, junk_neg, app_nil_r, take_take by lia. f_equal. lia.
           ++ rewrite Z.min_r by lia. rewrite (take_all b n) by lia.
              by rewrite take_Zlen_app.
      * intros h' ? Hnr ?. wp_steps. apply Hrefused; auto; lia.
Qed.

(** The size arithmetic of [sproto_buffer_append] does not wrap. *)
Lemma append_size_eq s d n :
  0 <= d <= s -> s < BUFFER_MAX_SIZE -> 0 <= n -> d + n < 2 ^ 32 ->
  append_size s d n = Z.max (Z.max s BUFFER_MIN_SIZE) (d + n).
Proof.
  platform. intros ????. unfold append_size.
  set (m := if s <? BUFFER_MIN_SIZE then BUFFER_MIN_SIZE else s).
  assert (m = Z.max s BUFFER_MIN_SIZE) as -> by (unfold m; case_if; bools; lia).
  rewrite (uN_small 32 (_ - d)) by lia.
  case_if; bools; [rewrite uN_small; lia|lia].
Qed.

(** Appending [n] bytes: the outcome, and that the invariant is kept. *)
Lemma wp_append p s d data n h :
  heap_ok h -> buf_ok p s d -> 0 <= n <= Zlen data -> d + n < 2 ^ 32 ->
  wp (sproto_buffer_append p s d data n) (fun r h' =>
    let '(r, (p', s', d')) := r in
    heap_ok h' /\ (never_refuses h -> never_refuses h') /\ buf_ok p' s' d' /\
    if BUFFER_MAX_SIZE <=? Z.max (Z.max s BUFFER_MIN_SIZE) (d + n)
    then r = u8 SUPLA_RESULT_BUFFER_OVERFLOW /\ (p', s', d') = (p, s, d)
    else (r = SUPLA_RESULT_TRUE /\ d' = d + n
          /\ contents p' d' = contents p d ++ take (Z.to_nat n) data)
      \/ (r = SUPLA_RESULT_FALSE /\ (p', s', d') = (p, s, d)
          /\ ~ never_refuses h)) h.
Proof.
  intros Hh Hp Hn Hd. pose proof Hp as (Ho & Hds & Hs). unfold sproto_buffer_append.
  rewrite append_size_eq by lia. remember (Z.max (Z.max s BUFFER_MIN_SIZE) (d + n)) as m eqn:Em.
  case_if; bools; [apply wp_ret; auto|].
  pose proof (owns_nonneg _ _ Ho). platform.
  (* the copy into a buffer of [m] bytes that starts with the old contents *)
  assert (Hcopy : forall q h', heap_ok h' -> (never_refuses h -> never_refuses h') ->
    owns q m -> contents q d = contents p d ->
    wp (let! d0 := mopt (peek 0 n data) in
        let! buffer := mopt (ptr_write q d d0) in
        mret (SUPLA_RESULT_TRUE, (buffer, m, u32 (d + n))))
      (fun r h' => let '(r, (p', s', d')) := r in
        heap_ok h' /\ (never_refuses h -> never_refuses h') /\ buf_ok p' s' d' /\
        ((r = SUPLA_RESULT_TRUE /\ d' = d + n
          /\ contents p' d' = contents p d ++ take (Z.to_nat n) data)
         \/ (r = SUPLA_RESULT_FALSE /\ (p', s', d') = (p, s, d) /\ ~ never_refuses h))) h').
  { intros q h' ? ? Hq Hc. wp_steps. eapply wp_opt; [by apply peek_0|].
    destruct (ptr_write_owns q m d (take (Z.to_nat n) data)) as (q' & Ew & Hq' & Eq);
      [done|lia|zlen|].
    wp_steps. eapply wp_opt; [done|]. wp_steps. rewrite uN_small by lia.
    split_and!; [done|done|split; [done|lia]|]. left. split_and!; [done..|].
    pose proof (owns_Zlen _ _ Hq).
    unfold contents in *. rewrite Eq, app_assoc, Hc. apply take_Zlen_app.
    rewrite Zlen_app, <-Hc. zlen. }
  apply wp_bnd. case_if; bools.
  - apply wp_ret. cbn. apply Hcopy; [done|auto| |done]. by rewrite E0.
  - apply wp_bnd, (wp_realloc p s); [done|done|lia|..].
    + intros h' ? ? ? ?. cbn [is_null]. rewrite (proj2 (Z.ltb_lt 0 m)) by lia.
      cbn. wp_steps. split_and!; [done|done|done|by right].
    + intros q h' Hh' Hnr Hq Hpre. rewrite Z.min_r in Hpre by lia.
      assert (Hc : contents q d = contents p d).
      { apply owns_Zlen in Ho. rewrite (take_all (pbytes p)) in Hpre by lia.
        unfold contents. rewrite <-Hpre, take_take. f_equal. lia. }
      destruct ((0 <? m) && is_null q) eqn:En.
      { bools. destruct q; cbn in *; try done. lia. }
      apply wp_bnd, wp_get.
      assert (ERRNO_CHECKED && (h_errno h' =? ENOMEM) = false) as ->.
      { destruct Hh' as [->|[He _]]; [done|]. destruct ERRNO_CHECKED; [|done]. by apply Z.eqb_neq. }
      apply wp_ret. cbn. by apply Hcopy.
Qed.

(** A fresh object: refused only by an allocator that refuses. *)
Definition alloc_step (h : heap) (h' : heap) : Prop :=
  heap_ok h' /\ (never_refuses h -> never_refuses h').

Lemma alloc_step_refl h : heap_ok h -> alloc_step h h.
Proof. by split. Qed.

Lemma wp_request {A} (K : bool -> M heap A) Q h :
  heap_ok h ->
  (forall h', alloc_step h h' -> wp (K false) Q h') ->
  (forall h', alloc_step h h' -> ~ never_refuses h -> wp (K true) Q h') ->
  wp (mbnd next_request K) Q h.
Proof.
  intros Hh Hf Ht. apply wp_bnd, wp_next_request. intros r h' He1 He2 [k Hk] Hno.
  assert (Hnr : never_refuses h -> never_refuses h').
  { intros [? Ho]. split; [by rewrite He2 by auto|]. rewrite Hk. by apply Forall_drop. }
  assert (Hok : heap_ok h') by (destruct Hh as [Hh|Hh]; [by left|right; by apply Hnr]).
  destruct r; [apply Ht; [by split|]|by apply Hf].
  intros [_ Ho]. by specialize (Hno Ho).
Qed.

Lemma wp_malloc n Q h : heap_ok h ->
  (forall h' b, alloc_step h h' -> Zlen b = Z.max 0 n -> Q (PLive b) h') ->
  (forall h', alloc_step h h' -> ~ never_refuses h -> Q PNull h') ->
  wp (malloc n) Q h.
Proof.
  intros Hh Hl Hn. apply wp_request; [done|..]; intros; apply wp_bnd, wp_get, wp_ret.
  - apply Hl; [done|]. apply Zlen_junk.
  - by apply Hn.
Qed.

Lemma wp_calloc n Q h : heap_ok h ->
  (forall h', alloc_step h h' -> Q (PLive (zeros n)) h') ->
  (forall h', alloc_step h h' -> ~ never_refuses h -> Q PNull h') ->
  wp (calloc n) Q h.
Proof. intros Hh Hl Hn. apply wp_request; [done|..]; intros; apply wp_ret; auto. Qed.

(** The shift loop moves the tail of the buffer to its start. *)
Lemma shift_down_ok k : forall a b p n,
  owns p n -> 0 <= b <= a -> a + Z.of_nat k <= n -> n < 2 ^ 32 ->
  exists p', shift_down k a b p = Some p' /\ owns p' n /\
    pbytes p' = take (Z.to_nat b) (pbytes p) ++ take k (drop (Z.to_nat a) (pbytes p))
                ++ drop (Z.to_nat b + k) (pbytes p).
Proof.
  induction k as [|k IH]; intros a b p n Hp Hb Ha Hn; cbn [shift_down].
  { exists p. repeat split; [done|]. by rewrite Nat.add_0_r, firstn_O, app_nil_l, take_drop. }
  pose proof (owns_Zlen _ _ Hp) as Hl.
  rewrite (ptr_read_owns p n) by (done || lia).
  destruct (drop (Z.to_nat a) (pbytes p)) as [|c t] eqn:Ec.
  { apply (f_equal Zlen) in Ec. zlen. }
  change (take (Z.to_nat 1) (c :: t)) with [c].
  destruct (ptr_write_owns p n b [c]) as (q & -> & Hq & Eq); [done|lia|zlen|].
  rewrite !uN_small by lia.
  destruct (IH (a + 1) (b + 1) q n) as (r & -> & Hr & Er); [done|lia..|].
  exists r. repeat split; [done|]. rewrite Er, Eq. clear r IH Hr Er.
  change (Zlen [c]) with 1.
  assert (Et : t = drop (Z.to_nat (a + 1)) (pbytes p)).
  { replace (Z.to_nat (a + 1)) with (Z.to_nat a + 1)%nat by lia.
    by rewrite <-drop_drop, Ec. }
  assert (Hb' : Zlen (take (Z.to_nat b) (pbytes p)) = b) by zlen.
  rewrite (app_assoc (take (Z.to_nat b) (pbytes p)) [c]), take_Zlen_app by zlen.
  rewrite !drop_app_ge by (unfold Zlen in *; rewrite ?length_app; cbn; lia).
  rewrite !drop_drop, !length_app. cbn [length].
  assert (length (take (Z.to_nat b) (pbytes p)) = Z.to_nat b) as -> by (unfold Zlen in *; lia).
  rewrite <-app_assoc, Et. cbn [app firstn].
  do 2 f_equal; f_equal; [do 2 f_equal|f_equal]; lia.
Qed.

(** Dropping the first [n] bytes of a buffer, whatever the allocator answers. *)
Lemma wp_consume p s d n h :
  heap_ok h -> buf_ok p s d -> 0 <= n <= d ->
  wp (buffer_consume p s d n) (fun r h' =>
    let '(d', s', p') := r in
    heap_ok h' /\ (never_refuses h -> never_refuses h') /\ buf_ok p' s' d' /\
    d' = d - n /\ contents p' d' = drop (Z.to_nat n) (contents p d)) h.
Proof.
  intros Hh Hp Hn. pose proof Hp as (Ho & Hds & Hs). platform.
  pose proof (owns_Zlen _ _ Ho) as Hl. unfold buffer_consume.
  destruct (shift_down_ok (Z.to_nat (d - n)) n 0 p s) as (q & E & Hq & Eq); [done|lia..|].
  apply wp_bnd. eapply wp_opt; [done|].
  rewrite (uN_small 32 (d - n)) by lia.
  assert (Hc : contents q (d - n) = drop (Z.to_nat n) (contents p d)).
  { unfold contents. rewrite Eq. change (take (Z.to_nat 0) (pbytes p)) with (@nil Init.Byte.byte).
    cbn [app]. rewrite take_Zlen_app by zlen.
    rewrite skipn_firstn_comm. f_equal. lia. }
  set (m := if d - n <? BUFFER_MIN_SIZE then BUFFER_MIN_SIZE else d - n).
  assert (m = Z.max (d - n) BUFFER_MIN_SIZE) as -> by (unfold m; case_if; bools; lia).
  remember (Z.max (d - n) BUFFER_MIN_SIZE) as m eqn:Em.
  case_if; bools; [case_if; bools|].
  - apply wp_ret. split_and!; [done|done|split; [congruence|lia]|done|done].
  - apply wp_bnd, (wp_realloc q s); [done|done|lia|..].
    + intros h' ? ? ? ?. cbn [is_null]. rewrite (proj2 (Z.ltb_lt 0 m)) by lia.
      cbn. wp_steps. split_and!; [done|done|split; [done|lia]|done|done].
    + intros r h' Hh' Hnr Hr Hpre.
      assert (Hc' : contents r (d - n) = contents q (d - n)).
      { unfold contents. apply (f_equal (take (Z.to_nat (d - n)))) in Hpre.
        rewrite !take_take in Hpre.
        replace (Z.to_nat (d - n) `min` Z.to_nat (m `min` s))%nat with (Z.to_nat (d - n)) in Hpre by lia.
        by replace (Z.to_nat (d - n) `min` Z.to_nat m)%nat with (Z.to_nat (d - n)) in Hpre by lia. }
      destruct (is_null r && (0 <? m)) eqn:En.
      { bools. destruct r; cbn in *; try done. lia. }
      wp_steps. split_and!; [done|auto|split; [done|lia]|done|congruence].
  - apply wp_ret. split_and!; [done|done|split; [done|lia]|done|done].
Qed.

End Buffers.

(** ** The input side as a parser over a queue of bytes *)

Section Input.
Context `{PL : PlatformLaws}.

Definition in_contents (spd : TSuplaProtoData) : bytes :=
  contents (in_buffer (spd_in spd)) (in_data_size (spd_in spd)).

Definition out_contents (spd : TSuplaProtoData) : bytes :=
  contents (out_buffer (spd_out spd)) (out_data_size (spd_out spd)).

Definition in_ok (i : TSuplaProtoInBuffer) : Prop :=
  buf_ok (in_buffer i) (in_size i) (in_data_size i) /\
  (in_begin_tag i = 0 \/
   in_begin_tag i = 1 /\ take 5 (contents (in_buffer i) (in_data_size i)) = sproto_tag).

Definition out_ok (o : TSuplaProtoOutBuffer) : Prop :=
  buf_ok (out_buffer o) (out_size o) (out_data_size o).

(** The invariant of the frame layer. *)
Record spd_ok (spd : TSuplaProtoData) : Prop := {
  ok_in : in_ok (spd_in spd);
  ok_out : out_ok (spd_out spd);
  ok_version : SUPLA_PROTO_VERSION_MIN <= spd_version spd <= SUPLA_PROTO_VERSION;
  ok_rr_id : 0 <= next_rr_id spd < 2 ^ 32
}.

(** The header of the packet that starts a queue. *)
Definition header (c : bytes) : sdp_t := sdp_decode c.

Definition with_version (sdp : sdp_t) (v : Z) : sdp_t :=
  {| sdp_tag := sdp_tag sdp; sdp_version := v; sdp_rr_id := sdp_rr_id sdp;
     sdp_call_id := sdp_call_id sdp; sdp_data_size := sdp_data_size sdp;
     sdp_data := sdp_data sdp |}.

(** The caller's packet after its first [n] bytes were overwritten by those of [c]. *)
Definition overlay (n : Z) (c : bytes) (sdp : sdp_t) : sdp_t :=
  sdp_decode (take (Z.to_nat n) c ++ drop (Z.to_nat n) (sdp_encode sdp)).

(** What [sproto_pop_in_sdp] computes from the queued bytes: the result, the caller's
    packet, and the bytes that stay queued. *)
Definition pop_in_spec (c : bytes) (sdp : sdp_t) : Z * sdp_t * bytes :=
  let n := u32 (18 + sdp_data_size (header c)) in
  if Zlen c <? SUPLA_TAG_SIZE then (SUPLA_RESULT_FALSE, sdp, c)
  else if bool_decide (take 5 c <> sproto_tag) then (SUPLA_RESULT_DATA_ERROR, sdp, [])
  else if Zlen c <? 23 then (SUPLA_RESULT_FALSE, sdp, c)
  else if (SUPLA_PROTO_VERSION <? sdp_version (header c))
          || (sdp_version (header c) <? SUPLA_PROTO_VERSION_MIN)
  then (SUPLA_RESULT_VERSION_ERROR, with_version sdp (sdp_version (header c)), [])
  else if 18 + SUPLA_MAX_DATA_SIZE <? n then (SUPLA_RESULT_DATA_ERROR, sdp, [])
  else if Zlen c <? n + 5 then (SUPLA_RESULT_FALSE, sdp, c)
  else if bool_decide (take 5 (drop (Z.to_nat n) c) <> sproto_tag)
  then (SUPLA_RESULT_DATA_ERROR, sdp, [])
  else (SUPLA_RESULT_TRUE, overlay n c sdp, drop (Z.to_nat (n + 5)) c).

(** The packet object a caller passes: the values a [TSuplaDataPacket] can have. *)
Record sdp_shape (sdp : sdp_t) : Prop := {
  shape_tag : Zlen (sdp_tag sdp) = 5;
  shape_version : 0 <= sdp_version sdp < 2 ^ 8;
  shape_rr_id : 0 <= sdp_rr_id sdp < 2 ^ 32;
  shape_call_id : 0 <= sdp_call_id sdp < 2 ^ 32;
  shape_data_size : 0 <= sdp_data_size sdp < 2 ^ 32;
  shape_data : Zlen (sdp_data sdp) = SUPLA_MAX_DATA_SIZE
}.

Lemma Zlen_sdp_shape sdp : sdp_shape sdp -> Zlen (sdp_encode sdp) = 18 + SUPLA_MAX_DATA_SIZE.
Proof. intros [? ? ? ? ? ?]. rewrite Zlen_sdp_encode. lia. Qed.

Lemma sdp_wf_shape sdp : sdp_wf sdp -> sdp_shape sdp.
Proof. intros [Ht ? ? ? ? ?]. by constructor; rewrite ?Ht. Qed.

Lemma le_combine_range (b : bytes) k : length b = k -> 0 <= le_combine b < 2 ^ (8 * Z.of_nat k).
Proof. intros <-. apply le_combine_bound. Qed.

Lemma sdp_decode_shape b : Zlen b = 18 + SUPLA_MAX_DATA_SIZE -> sdp_shape (sdp_decode b).
Proof.
  platform. intros Hb.
  assert (Hr : forall off k, (off + k <= length b)%nat ->
    0 <= le_combine (take k (drop off b)) < 2 ^ (8 * Z.of_nat k)).
  { intros. apply le_combine_range. rewrite length_take, length_drop. lia. }
  constructor; unfold sdp_decode;
    cbn [sdp_tag sdp_version sdp_rr_id sdp_call_id sdp_data_size sdp_data]; [zlen|..|zlen].
  - apply (Hr 5%nat 1%nat). unfold Zlen in Hb. lia.
  - apply (Hr 6%nat 4%nat). unfold Zlen in Hb. lia.
  - apply (Hr 10%nat 4%nat). unfold Zlen in Hb. lia.
  - apply (Hr 14%nat 4%nat). unfold Zlen in Hb. lia.
Qed.

Lemma sdp_decode_encode_shape sdp : sdp_shape sdp -> sdp_decode (sdp_encode sdp) = sdp.
Proof.
  intros [Ht ? ? ? ? ?]. unfold sdp_encode.
  rewrite decode_header by (done || (unfold Zlen in Ht; lia)). by destruct sdp.
Qed.

(** Consuming input keeps the invariant and drops the queued bytes. *)
Lemma wp_shrink spd size h :
  heap_ok h -> spd_ok spd -> 0 <= size ->
  wp (sproto_shrink_in_buffer (spd_in spd) size) (fun i h' =>
    heap_ok h' /\ (never_refuses h -> never_refuses h') /\ spd_ok (set_in spd i) /\
    in_contents (set_in spd i) = drop (Z.to_nat size) (in_contents spd)) h.
Proof.
  intros Hh [[Hb Ht] Ho Hv Hr] Hs. unfold sproto_shrink_in_buffer.
  remember (if in_data_size (spd_in spd) <? size then _ else _) as n eqn:En.
  pose proof (proj1 (proj2 Hb)).
  assert (n = Z.min size (in_data_size (spd_in spd))) by (subst n; case_if; bools; lia).
  apply wp_bnd. eapply wp_mono; [apply wp_consume; [done|done|lia]|].
  intros [[d' s'] p'] h' (Hh' & Hnr & Hb' & Hd' & Hc'). wp_steps.
  pose proof (Zlen_contents _ _ _ Hb) as Hl.
  unfold in_contents in *; cbn [spd_in set_in in_buffer in_data_size].
  split_and!; [done|done| |].
  - constructor; cbn; try done. split; cbn; [done|by left].
  - rewrite Hc'. destruct (Z.le_gt_cases size (in_data_size (spd_in spd))).
    + f_equal. lia.
    + rewrite !drop_ge by (unfold Zlen in *; lia). done.
Qed.

(** The header members read through the buffer are those of the queued bytes. *)
Lemma header_version p s d :
  buf_ok p s d -> 18 <= d ->
  header_member p "version" = Some (sdp_version (header (contents p d))).
Proof.
  intros Hb Hd. pose proof Hb as (Ho & Hds & _). pose proof (owns_Zlen _ _ Ho).
  destruct p as [|b|]; cbn [owns pbytes] in *; [lia| |done].
  unfold header_member, read_member. change (member TSuplaDataPacket ["version"]) with (Some (5, uchar)).
  cbn [sizeof uchar]. rewrite peek_Some by lia. cbn [scalar]. unfold header, contents, sdp_decode.
  cbn [sdp_version]. change (take (Z.to_nat 1)) with (take (A:=Init.Byte.byte) 1).
  change (drop (Z.to_nat 5)) with (drop (A:=Init.Byte.byte) 5). cbn [pbytes].
  by rewrite take_drop_take by lia.
Qed.

Lemma header_data_size p s d :
  buf_ok p s d -> 18 <= d ->
  header_member p "data_size" = Some (sdp_data_size (header (contents p d))).
Proof.
  intros Hb Hd. pose proof Hb as (Ho & Hds & _). pose proof (owns_Zlen _ _ Ho).
  destruct p as [|b|]; cbn [owns pbytes] in *; [lia| |done].
  unfold header_member, read_member.
  change (member TSuplaDataPacket ["data_size"]) with (Some (14, supla_uint_t)).
  cbn [sizeof supla_uint_t]. rewrite peek_Some by lia. cbn [scalar].
  unfold header, contents, sdp_decode.
  cbn [sdp_data_size]. change (take (Z.to_nat 4)) with (take (A:=Init.Byte.byte) 4).
  change (drop (Z.to_nat 14)) with (drop (A:=Init.Byte.byte) 14). cbn [pbytes].
  by rewrite take_drop_take by lia.
Qed.

(** What a pop leaves untouched. *)
Definition same_output (spd spd' : TSuplaProtoData) : Prop :=
  spd_out spd' = spd_out spd /\ spd_version spd' = spd_version spd
  /\ next_rr_id spd' = next_rr_id spd.

(** The state after a pop that leaves [c] queued. *)
Definition popped (spd : TSuplaProtoData) (h : heap) (r : Z) (sdp : sdp_t) (c : bytes)
    (res : Z * sdp_t * TSuplaProtoData) (h' : heap) : Prop :=
  let '(r', sdp', spd') := res in
  r' = to_char r /\ sdp' = sdp /\ in_contents spd' = c /\
  heap_ok h' /\ (never_refuses h -> never_refuses h') /\ spd_ok spd' /\ same_output spd spd'.

Lemma wp_shrink_ret spd size r sdp h :
  heap_ok h -> spd_ok spd -> 0 <= size ->
  wp (shrink_ret spd size r sdp)
     (popped spd h r sdp (drop (Z.to_nat size) (in_contents spd))) h.
Proof.
  intros. unfold shrink_ret. apply wp_bnd.
  eapply wp_mono; [by apply wp_shrink|]. intros i h' (? & ? & ? & ?).
  wp_steps. unfold popped. by split_and!.
Qed.

Lemma in_contents_all spd : spd_ok spd ->
  drop (Z.to_nat (in_data_size (spd_in spd))) (in_contents spd) = [].
Proof.
  intros [[Hb _] _ _ _]. apply Zlen_contents in Hb. unfold in_contents.
  apply drop_ge. unfold Zlen in Hb. lia.
Qed.

(** Discarding everything that is queued. *)
Lemma wp_discard spd r sdp h :
  heap_ok h -> spd_ok spd ->
  wp (shrink_ret spd (in_data_size (spd_in spd)) r sdp) (popped spd h r sdp []) h.
Proof.
  intros Hh Hok. pose proof (proj1 (proj2 (proj1 (ok_in _ Hok)))).
  rewrite <-(in_contents_all spd) by done. apply wp_shrink_ret; [done..|lia].
Qed.

Lemma to_char_false : to_char SUPLA_RESULT_FALSE = SUPLA_RESULT_FALSE.
Proof. apply to_char_0. Qed.

Lemma to_char_true : to_char SUPLA_RESULT_TRUE = SUPLA_RESULT_TRUE.
Proof. apply to_char_1. Qed.

(** Nothing changes while a packet is incomplete. *)
Lemma wp_incomplete spd sdp h :
  heap_ok h -> spd_ok spd ->
  wp (mret (SUPLA_RESULT_FALSE, sdp, spd))
     (popped spd h SUPLA_RESULT_FALSE sdp (in_contents spd)) h.
Proof. intros. apply wp_ret. unfold popped, same_output. by split_and!; rewrite ?to_char_false. Qed.

(** The specification once the begin tag is known to be there. *)
Lemma wp_pop_tagged spd sdp h :
  heap_ok h -> spd_ok spd -> sdp_shape sdp -> in_begin_tag (spd_in spd) = 1 ->
  wp (pop_tagged spd sdp)
     (let '(r, sdp', c') := pop_in_spec (in_contents spd) sdp in popped spd h r sdp' c') h.
Proof.
  intros Hh Hok Hs Ht. pose proof Hok as [[Hb [Ht'|[_ Htag]]] Ho Hv Hr]; [lia|].
  pose proof Hb as (How & Hds & Hmax). pose proof (Zlen_contents _ _ _ Hb) as Hl.
  platform. unfold pop_tagged, pop_in_spec. rewrite sizeof_sdp.
  unfold in_contents in Hl |- *. fold (in_contents spd) in Hl |- *.
  assert (Hge : 5 <= in_data_size (spd_in spd)).
  { apply (f_equal Zlen) in Htag. fold (in_contents spd) in Htag. unfold sproto_tag in Htag. zlen. }
  rewrite (proj2 (Z.ltb_ge (Zlen _) SUPLA_TAG_SIZE)) by (unfold SUPLA_TAG_SIZE in *; lia).
  rewrite bool_decide_false by (intros E; by apply E).
  rewrite (uN_small 32 (_ - SUPLA_TAG_SIZE)) by (unfold SUPLA_TAG_SIZE; lia).
  destruct (18 + SUPLA_MAX_DATA_SIZE - SUPLA_MAX_DATA_SIZE <=? _) eqn:E1; unfold SUPLA_TAG_SIZE in E1;
    [rewrite (proj2 (Z.ltb_ge (Zlen _) 23)) by (bools; lia)
    |rewrite (proj2 (Z.ltb_lt (Zlen _) 23)) by (bools; lia); by apply wp_incomplete].
  bools. wp_steps. eapply wp_opt; [apply header_version with (1 := Hb); lia|].
  fold (in_contents spd). case_if; [by apply wp_discard|].
  wp_steps. eapply wp_opt; [apply header_data_size with (1 := Hb); lia|].
  fold (in_contents spd).
  replace (18 + SUPLA_MAX_DATA_SIZE - SUPLA_MAX_DATA_SIZE) with 18 by lia.
  remember (u32 (18 + _)) as n eqn:En.
  assert (Hn : 0 <= n < 2 ^ 32) by (subst n; apply uN_range; lia).
  case_if; [by apply wp_discard|]. bools.
  rewrite (uN_small 32 (n + SUPLA_TAG_SIZE)) by (unfold SUPLA_TAG_SIZE; lia).
  rewrite Hl. change SUPLA_TAG_SIZE with 5. case_if; [by apply wp_incomplete|]. bools.
  rewrite (proj2 (Z.leb_gt (in_size (spd_in spd)) n)) by lia.
  wp_steps. eapply wp_opt; [apply (ptr_read_owns _ _ _ _ How); lia|]. wp_steps.
  rewrite <-(read_in_take (pbytes _) n 5 (in_data_size (spd_in spd))) by lia.
  change (Z.to_nat 5) with 5%nat. fold (contents (in_buffer (spd_in spd)) (in_data_size (spd_in spd))).
  fold (in_contents spd). case_if; [by apply wp_discard|].
  wp_steps. eapply wp_opt; [apply (ptr_read_owns _ _ _ _ How); lia|].
  rewrite <-(read_in_take (pbytes _) 0 n (in_data_size (spd_in spd))) by lia.
  change (Z.to_nat 0) with 0%nat. fold (contents (in_buffer (spd_in spd)) (in_data_size (spd_in spd))).
  fold (in_contents spd). rewrite drop_0.
  assert (Hln : Zlen (take (Z.to_nat n) (in_contents spd)) = n) by zlen.
  wp_steps. rewrite poke_Some by (rewrite ?Hln, ?Zlen_sdp_shape by done; lia).
  rewrite Hln, Z.add_0_l. cbn [take Z.to_nat app].
  eapply wp_opt; [reflexivity|]. apply wp_shrink_ret; [done..|lia].
Qed.

(** [sproto_pop_in_sdp] computes [pop_in_spec]. *)
Lemma wp_pop spd sdp h :
  heap_ok h -> spd_ok spd -> sdp_shape sdp ->
  wp (sproto_pop_in_sdp spd sdp)
     (let '(r, sdp', c') := pop_in_spec (in_contents spd) sdp in popped spd h r sdp' c') h.
Proof.
  intros Hh Hok Hs. pose proof Hok as [[Hb Ht] Ho Hv Hr].
  pose proof Hb as (How & Hds & Hmax). pose proof (Zlen_contents _ _ _ Hb) as Hl.
  fold (in_contents spd) in Hl, Ht. unfold sproto_pop_in_sdp. change SUPLA_TAG_SIZE with 5.
  destruct Ht as [Ht|[Ht Htag]].
  - rewrite Ht. cbn [Z.eqb andb]. case_if; bools.
    + wp_steps. eapply wp_opt; [apply (ptr_read_owns _ _ _ _ How); lia|].
      rewrite <-(read_in_take (pbytes _) 0 5 (in_data_size (spd_in spd))) by lia.
      change (Z.to_nat 5) with 5%nat. change (Z.to_nat 0) with 0%nat. rewrite drop_0.
      fold (contents (in_buffer (spd_in spd)) (in_data_size (spd_in spd))).
      fold (in_contents spd). case_if.
      * apply bool_decide_eq_true in E0.
        assert (Hok' : spd_ok (set_begin_tag spd 1)) by (constructor; try done; split; [done|by right]).
        apply (wp_pop_tagged (set_begin_tag spd 1)); done.
      * apply bool_decide_eq_false in E0. unfold pop_in_spec. change SUPLA_TAG_SIZE with 5.
        rewrite (proj2 (Z.ltb_ge _ _)), bool_decide_true by (done || lia).
        by apply wp_discard.
    + unfold pop_in_spec. change SUPLA_TAG_SIZE with 5.
      rewrite (proj2 (Z.ltb_lt _ _)) by lia. by apply wp_incomplete.
  - rewrite Ht. cbn [Z.eqb andb Pos.eqb]. by apply wp_pop_tagged.
Qed.

End Input.

(** ** The wire format *)

Section Wire.
Context `{PL : PlatformLaws}.

(** A packet as it travels: header, [data_size] bytes of data, end tag. *)
Definition wire (p : sdp_t) : bytes :=
  take (Z.to_nat (18 + sdp_data_size p)) (sdp_encode p) ++ sproto_tag.

(** The packets the protocol carries. *)
Record sendable (p : sdp_t) : Prop := {
  send_wf : sdp_wf p;
  send_version : SUPLA_PROTO_VERSION_MIN <= sdp_version p <= SUPLA_PROTO_VERSION;
  send_size : sdp_data_size p <= SUPLA_MAX_DATA_SIZE
}.

(** [sdp] after the packet [p] was received into it. *)
Definition received (p sdp : sdp_t) : sdp_t :=
  {| sdp_tag := sdp_tag p; sdp_version := sdp_version p; sdp_rr_id := sdp_rr_id p;
     sdp_call_id := sdp_call_id p; sdp_data_size := sdp_data_size p;
     sdp_data := take (Z.to_nat (sdp_data_size p)) (sdp_data p)
                 ++ drop (Z.to_nat (sdp_data_size p)) (sdp_data sdp) |}.

Definition encode_header (p : sdp_t) : bytes :=
  sdp_tag p ++ le_split 1 (sdp_version p) ++ le_split 4 (sdp_rr_id p)
  ++ le_split 4 (sdp_call_id p) ++ le_split 4 (sdp_data_size p).

Lemma encode_split p : sdp_encode p = encode_header p ++ sdp_data p.
Proof. unfold sdp_encode, encode_header. by rewrite <-!app_assoc. Qed.

Lemma Zlen_encode_header p : Zlen (sdp_tag p) = 5 -> Zlen (encode_header p) = 18.
Proof. intros. unfold encode_header. zlen. Qed.

Lemma take_encode p k : Zlen (sdp_tag p) = 5 -> 0 <= k ->
  take (Z.to_nat (18 + k)) (sdp_encode p) = encode_header p ++ take (Z.to_nat k) (sdp_data p).
Proof.
  intros Ht ?. apply Zlen_encode_header in Ht. rewrite encode_split, take_app_ge.
  - do 2 f_equal. unfold Zlen in Ht. lia.
  - unfold Zlen in Ht. lia.
Qed.

Lemma drop_encode p k : Zlen (sdp_tag p) = 5 -> 0 <= k ->
  drop (Z.to_nat (18 + k)) (sdp_encode p) = drop (Z.to_nat k) (sdp_data p).
Proof.
  intros Ht ?. apply Zlen_encode_header in Ht. rewrite encode_split, drop_app_ge.
  - f_equal. unfold Zlen in Ht. lia.
  - unfold Zlen in Ht. lia.
Qed.

Lemma wire_split p : sendable p ->
  wire p = encode_header p ++ take (Z.to_nat (sdp_data_size p)) (sdp_data p) ++ sproto_tag.
Proof.
  intros [Hw _ _]. pose proof (shape_tag _ (sdp_wf_shape _ Hw)). destruct Hw.
  unfold wire. rewrite take_encode by lia. by rewrite <-app_assoc.
Qed.

Lemma Zlen_wire p : sendable p -> Zlen (wire p) = 23 + sdp_data_size p.
Proof.
  intros Hp. rewrite wire_split by done. destruct Hp as [Hw ? ?].
  pose proof (shape_tag _ (sdp_wf_shape _ Hw)). destruct Hw.
  rewrite !Zlen_app, Zlen_encode_header by done. change (Zlen sproto_tag) with 5. zlen.
Qed.

(** The header of a queue that starts with the header of [p]. *)
Lemma header_encode p rest : sdp_wf p ->
  header (encode_header p ++ rest)
  = {| sdp_tag := sdp_tag p; sdp_version := sdp_version p; sdp_rr_id := sdp_rr_id p;
       sdp_call_id := sdp_call_id p; sdp_data_size := sdp_data_size p; sdp_data := rest |}.
Proof.
  intros [Ht ? ? ? ? ?]. unfold encode_header, header. rewrite <-!app_assoc.
  by apply decode_header; rewrite ?Ht.
Qed.

Lemma overlay_wire p sdp rest : sendable p -> sdp_shape sdp ->
  overlay (18 + sdp_data_size p) (wire p ++ rest) sdp = received p sdp.
Proof.
  intros Hp [Ht _ _ _ _ _]. pose proof Hp as [Hw _ _].
  pose proof (shape_tag _ (sdp_wf_shape _ Hw)) as Ht'.
  pose proof (shape_data _ (sdp_wf_shape _ Hw)) as Hd'.
  unfold overlay. rewrite wire_split by done.
  pose proof (wf_data_size _ Hw) as Hs. pose proof (send_size _ Hp).
  rewrite drop_encode by lia. rewrite <-!app_assoc, (app_assoc (encode_header p)).
  rewrite take_Zlen_app.
  - rewrite <-app_assoc. by apply header_encode.
  - rewrite Zlen_app, Zlen_encode_header by done. zlen.
Qed.

Lemma take5_encode p rest : sdp_wf p -> take 5 (encode_header p ++ rest) = sproto_tag.
Proof.
  intros [Ht ? ? ? ? ?]. unfold encode_header. rewrite <-!app_assoc, Ht.
  change 5%nat with (length sproto_tag). apply take_app_length.
Qed.

(** The parser inverts the wire format. *)
Lemma pop_in_spec_wire p sdp rest : sendable p -> sdp_shape sdp ->
  pop_in_spec (wire p ++ rest) sdp = (SUPLA_RESULT_TRUE, received p sdp, rest).
Proof.
  intros Hp Hs. pose proof Hp as [Hw Hv Hd]. platform. pose proof (wf_data_size _ Hw).
  pose proof (Zlen_wire _ Hp) as Hl. pose proof (Zlen_nonneg rest).
  assert (Hh : header (wire p ++ rest) = {| sdp_tag := sdp_tag p; sdp_version := sdp_version p;
     sdp_rr_id := sdp_rr_id p; sdp_call_id := sdp_call_id p; sdp_data_size := sdp_data_size p;
     sdp_data := take (Z.to_nat (sdp_data_size p)) (sdp_data p) ++ sproto_tag ++ rest |}).
  { rewrite wire_split by done. rewrite <-!app_assoc. by apply header_encode. }
  unfold pop_in_spec. rewrite Hh. cbn [sdp_data_size sdp_version].
  rewrite uN_small by lia. rewrite Zlen_app, Hl.
  rewrite !(proj2 (Z.ltb_ge _ _)) by (unfold SUPLA_TAG_SIZE; lia). cbn [orb].
  rewrite bool_decide_false; [|intros E; apply E; rewrite wire_split by done;
    rewrite <-!app_assoc; by apply take5_encode].
  assert (Hpre : Zlen (take (Z.to_nat (18 + sdp_data_size p)) (sdp_encode p)) = 18 + sdp_data_size p).
  { rewrite Zlen_take, Zlen_sdp_encode, (wf_data _ Hw), (wf_tag _ Hw). change (Zlen sproto_tag) with 5. lia. }
  rewrite bool_decide_false.
  2:{ intros E; apply E. unfold wire. rewrite <-app_assoc, drop_Zlen_app by done.
      change 5%nat with (length sproto_tag). apply take_app_length. }
  rewrite overlay_wire by done. do 2 f_equal.
  rewrite drop_Zlen_app; [done|]. lia.
Qed.

(** A proper prefix of a packet is left alone. *)
Lemma pop_in_spec_prefix p sdp c rest : sendable p -> wire p = c ++ rest -> rest <> [] ->
  pop_in_spec c sdp = (SUPLA_RESULT_FALSE, sdp, c).
Proof.
  intros Hp Hc Hr. pose proof Hp as [Hw Hv Hd]. platform. pose proof (wf_data_size _ Hw).
  pose proof (Zlen_wire _ Hp) as Hl.
  assert (1 <= Zlen rest) as Hr1.
  { destruct rest; [done|]. rewrite Zlen_cons. pose proof (Zlen_nonneg rest). lia. }
  rewrite Hc, Zlen_app in Hl. rewrite wire_split in Hc by done.
  unfold pop_in_spec. case_if; [done|]. bools. change SUPLA_TAG_SIZE with 5 in *.
  assert (H5tag : take 5 c = sproto_tag).
  { rewrite <-(take5_encode p (take (Z.to_nat (sdp_data_size p)) (sdp_data p) ++ sproto_tag)) by done.
    rewrite Hc, take_app_le; [done|]. unfold Zlen in *. lia. }
  rewrite bool_decide_false by (intros E1; by apply E1).
  case_if; [done|]. bools.
  assert (Hh : exists d, c = encode_header p ++ d).
  { exists (drop 18 c). rewrite <-(take_drop 18 c) at 1. f_equal.
    pose proof (Zlen_encode_header p) as H18. rewrite (wf_tag _ Hw) in H18.
    specialize (H18 eq_refl).
    rewrite <-(take_app_le c rest 18), <-Hc by (unfold Zlen in *; lia).
    replace 18%nat with (length (encode_header p)) by (unfold Zlen in *; lia).
    apply take_app_length. }
  destruct Hh as [d ->]. rewrite header_encode by done. cbn [sdp_data_size sdp_version].
  rewrite uN_small by lia. rewrite !(proj2 (Z.ltb_ge _ _)) by lia. cbn [orb].
  by rewrite (proj2 (Z.ltb_lt _ _)) by lia.
Qed.

End Wire.

(** ** What the parser accepts *)

Section Accepts.
Context `{PL : PlatformLaws}.

(** The packet whose wire form an accepted queue starts with. *)
Definition accepted (c : bytes) : sdp_t :=
  let ds := sdp_data_size (header c) in
  {| sdp_tag := sproto_tag; sdp_version := sdp_version (header c);
     sdp_rr_id := sdp_rr_id (header c); sdp_call_id := sdp_call_id (header c);
     sdp_data_size := ds;
     sdp_data := take (Z.to_nat ds) (drop 18 c) ++ zeros (SUPLA_MAX_DATA_SIZE - ds) |}.

Lemma accepted_wire c :
  take 5 c = sproto_tag -> 23 + sdp_data_size (header c) <= Zlen c ->
  sdp_data_size (header c) <= SUPLA_MAX_DATA_SIZE ->
  SUPLA_PROTO_VERSION_MIN <= sdp_version (header c) <= SUPLA_PROTO_VERSION ->
  take 5 (drop (Z.to_nat (18 + sdp_data_size (header c))) c) = sproto_tag ->
  sendable (accepted c) /\
  c = wire (accepted c) ++ drop (Z.to_nat (23 + sdp_data_size (header c))) c.
Proof.
  intros Ht Hl Hm Hv He. platform.
  assert (Hr : forall off k, (off + k <= length c)%nat ->
    0 <= le_combine (take k (drop off c)) < 2 ^ (8 * Z.of_nat k)).
  { intros. apply le_combine_range. rewrite length_take, length_drop. lia. }
  assert (H18 : 18 <= Zlen c).
  { destruct (Z.le_gt_cases 18 (Zlen c)); [done|]. exfalso.
    assert (0 <= sdp_data_size (header c)); [|lia].
    unfold header, sdp_decode. cbn [sdp_data_size].
    pose proof (le_combine_bound (take 4 (drop 14 c))). lia. }
  assert (Hds : 0 <= sdp_data_size (header c) < 2 ^ 32).
  { apply (Hr 14%nat 4%nat). unfold Zlen in H18. lia. }
  assert (Hsend : sendable (accepted c)).
  { constructor; [constructor|done|done]; unfold accepted;
      cbn [sdp_tag sdp_version sdp_rr_id sdp_call_id sdp_data_size sdp_data]; try done.
    - apply (Hr 5%nat 1%nat). unfold Zlen in H18. lia.
    - apply (Hr 6%nat 4%nat). unfold Zlen in H18. lia.
    - apply (Hr 10%nat 4%nat). unfold Zlen in H18. lia.
    - zlen. }
  split; [done|]. rewrite wire_split by done.
  assert (Hhd : c = encode_header (accepted c) ++ drop 18 c).
  { rewrite <-(sdp_encode_decode c) at 1 by done. rewrite encode_split. f_equal.
    unfold encode_header, accepted. cbn [sdp_tag sdp_version sdp_rr_id sdp_call_id sdp_data_size].
    fold (header c). by rewrite <-Ht. }
  rewrite Hhd at 1. rewrite <-app_assoc. f_equal.
  rewrite <-(take_drop (Z.to_nat (sdp_data_size (header c))) (drop 18 c)) at 1.
  rewrite drop_drop.
  replace (18 + Z.to_nat (sdp_data_size (header c)))%nat
    with (Z.to_nat (18 + sdp_data_size (header c))) by lia.
  rewrite <-app_assoc. f_equal.
  - unfold accepted. cbn [sdp_data_size sdp_data]. rewrite take_app_le, take_take.
    + f_equal. lia.
    + rewrite length_take, length_drop. unfold Zlen in *. lia.
  - rewrite <-He. rewrite <-(take_drop 5 (drop (Z.to_nat (18 + _)) c)) at 1.
    f_equal. rewrite drop_drop. f_equal. lia.
Qed.

(** A success of the parser, with a size that does not wrap, comes from a packet. *)
Lemma pop_in_spec_accepts c sdp sdp' rest :
  sdp_shape sdp -> pop_in_spec c sdp = (SUPLA_RESULT_TRUE, sdp', rest) ->
  sdp_data_size (header c) < 2 ^ 32 - 18 ->
  exists p, sendable p /\ c = wire p ++ rest /\ sdp' = received p sdp.
Proof.
  intros Hs. platform. unfold pop_in_spec.
  do 7 (case_if; [done|]).
  intros [= <- <-] Hds. bools.
  repeat match goal with
  | H : bool_decide (_ <> _) = false |- _ => apply bool_decide_eq_false, dec_stable in H
  end.
  assert (0 <= sdp_data_size (header c)).
  { unfold header, sdp_decode. cbn [sdp_data_size].
    pose proof (le_combine_bound (take 4 (drop 14 c))). lia. }
  assert (Hu : u32 (18 + sdp_data_size (header c)) = 18 + sdp_data_size (header c))
    by (apply uN_small; lia).
  change (le_combine (take 4 (drop 14 c))) with (sdp_data_size (header c)).
  rewrite Hu in *. clear Hu.
  destruct (accepted_wire c) as [Hsend Hc]; [done|lia|lia|lia|done|].
  exists (accepted c). split_and!; [done| |].
  - rewrite Hc at 1. do 2 f_equal. lia.
  - rewrite <-(overlay_wire (accepted c) sdp (drop (Z.to_nat (23 + sdp_data_size (header c))) c)) by done.
    by rewrite <-Hc.
Qed.

(** The sizes for which [header_size + data_size] wraps to an empty packet. *)
Lemma pop_in_spec_wrap c sdp :
  sdp_shape sdp -> 23 <= Zlen c -> take 5 c = sproto_tag ->
  SUPLA_PROTO_VERSION_MIN <= sdp_version (header c) <= SUPLA_PROTO_VERSION ->
  sdp_data_size (header c) = 2 ^ 32 - 18 ->
  pop_in_spec c sdp = (SUPLA_RESULT_TRUE, sdp, drop 5 c).
Proof.
  intros Hs Hl Ht Hv Hds. platform. unfold pop_in_spec. rewrite Hds.
  change (u32 (18 + (2 ^ 32 - 18))) with 0. rewrite !(proj2 (Z.ltb_ge _ _)) by (unfold SUPLA_TAG_SIZE; lia).
  cbn [orb Z.to_nat]. rewrite drop_0, bool_decide_false by (intros E; by apply E).
  change (Z.to_nat (0 + 5)) with 5%nat. unfold overlay. cbn [Z.to_nat].
  rewrite firstn_O, drop_0, app_nil_l. by rewrite sdp_decode_encode_shape.
Qed.

(** A packet object whose declared size its data can hold. *)
Definition sdp_fits (sdp : sdp_t) : Prop :=
  sdp_shape sdp /\ sdp_data_size sdp <= SUPLA_MAX_DATA_SIZE.

Lemma sdp_wf_fits sdp : sdp_wf sdp -> sdp_data_size sdp <= SUPLA_MAX_DATA_SIZE -> sdp_fits sdp.
Proof. intros. split; [by apply sdp_wf_shape|done]. Qed.

Lemma le_combine_cons b l : le_combine (b :: l) = byte.unsigned b + 256 * le_combine l.
Proof.
  pose proof (byte.unsigned_range b).
  assert (Hm : le_combine (b :: l) mod 2 ^ 8 = byte.unsigned b).
  { change (2 ^ 8) with (2 ^ (8 * 1)). rewrite <-(le_combine_firstn 1).
    cbn [List.firstn]. apply le_combine_1. }
  assert (Hd : le_combine (b :: l) / 2 ^ 8 = le_combine l).
  { rewrite <-Z.shiftr_div_pow2 by lia.
    change (le_combine (b :: l)) with (Z.lor (byte.unsigned b) (Z.shiftl (le_combine l) 8)).
    rewrite Z.shiftr_lor, Z.shiftr_shiftl_l, Z.sub_diag, Z.shiftl_0_r by lia.
    rewrite Z.shiftr_div_pow2, Z.div_small by lia. apply Z.lor_0_l. }
  rewrite (Z.div_mod (le_combine (b :: l)) (2 ^ 8)), Hm, Hd by lia. lia.
Qed.

(** An end tag cannot lie within a length field that wraps the size of the packet. *)
Lemma wrapped_tag c n :
  15 <= n <= 17 -> 2 ^ 32 - 18 <= le_combine (take 4 (drop 14 c)) ->
  take 5 (drop (Z.to_nat n) c) = sproto_tag -> False.
Proof.
  intros Hn Hv Ht. pose proof (f_equal length Ht) as Hl.
  rewrite length_take, length_drop in Hl. change (length sproto_tag) with 5%nat in Hl.
  do 18 (destruct c as [|? c]; [cbn [length] in Hl; lia|]).
  cbn [take drop] in Hv. rewrite !le_combine_cons in Hv.
  change (le_combine (take 0 c)) with 0 in Hv.
  pose proof (byte.unsigned_range b13). pose proof (byte.unsigned_range b14).
  pose proof (byte.unsigned_range b15). pose proof (byte.unsigned_range b16).
  apply (f_equal (take 1)) in Ht. change (take 1 sproto_tag) with [Byte.x53] in Ht.
  assert (n = 15 \/ n = 16 \/ n = 17) as [->|[->| ->]] by lia; cbn in Ht;
    injection Ht as ->; change (byte.unsigned Byte.x53) with 83 in *; lia.
Qed.

(** Popping leaves the caller a packet whose size its data can hold. *)
Lemma pop_in_spec_fits c sdp r sdp' c' :
  sdp_fits sdp -> pop_in_spec c sdp = (r, sdp', c') -> sdp_data_size sdp' <= SUPLA_MAX_DATA_SIZE.
Proof.
  intros [Hs Hm]. platform.
  destruct (Z.lt_ge_cases (sdp_data_size (header c)) (2 ^ 32 - 18)) as [Hds|Hds].
  - destruct (Z.eq_dec r SUPLA_RESULT_TRUE) as [->|Hr].
    + intros E. destruct (pop_in_spec_accepts _ _ _ _ Hs E Hds) as (p & [_ _ ?] & _ & ->). done.
    + unfold pop_in_spec. repeat case_if; intros [= <- <- <-]; done.
  - unfold pop_in_spec. set (n := u32 (18 + sdp_data_size (header c))).
    repeat case_if; intros [= <- <- <-]; try done. bools.
    match goal with H : bool_decide (_ <> _) = false |- _ =>
      apply bool_decide_eq_false, dec_stable in H; rename H into Htag end.
    assert (Hr : 0 <= sdp_data_size (header c) < 2 ^ 32).
    { pose proof (le_combine_bound (take 4 (drop 14 c))) as Hb.
      change (le_combine (take 4 (drop 14 c))) with (sdp_data_size (header c)) in Hb.
      rewrite length_take, length_drop in Hb. unfold Zlen in *.
      replace (4 `min` (length c - 14))%nat with 4%nat in Hb by lia. exact Hb. }
    assert (Hn : n = 18 + sdp_data_size (header c) - 2 ^ 32).
    { unfold n, uN. symmetry. apply (Z.mod_unique_pos _ _ 1); lia. }
    assert (Hn14 : n <= 14).
    { destruct (Z.le_gt_cases n 14); [done|]. exfalso.
      apply (wrapped_tag c n); [lia|exact Hds|done]. }
    rewrite <-(sdp_decode_encode_shape sdp Hs) in Hm. revert Hm. unfold overlay, sdp_decode.
    cbn [sdp_data_size]. rewrite drop_app_ge by (rewrite length_take; lia).
    rewrite drop_drop, length_take. unfold Zlen in *.
    by replace (Z.to_nat n + (14 - Z.to_nat n `min` length c))%nat with 14%nat by lia.
Qed.

End Accepts.

(** ** Appending and popping at the level of [TSuplaProtoData] *)

Section Queues.
Context `{PL : PlatformLaws}.

(** What an operation on the input side leaves untouched. *)
Definition spd_step (h : heap) (spd spd' : TSuplaProtoData) (h' : heap) : Prop :=
  heap_ok h' /\ (never_refuses h -> never_refuses h') /\ spd_ok spd' /\
  spd_version spd' = spd_version spd /\ next_rr_id spd' = next_rr_id spd.

Lemma append_fits s d n :
  s < BUFFER_MAX_SIZE ->
  (BUFFER_MAX_SIZE <=? Z.max (Z.max s BUFFER_MIN_SIZE) (d + n)) = (BUFFER_MAX_SIZE <=? d + n).
Proof.
  platform. intros. destruct (Z.leb_spec BUFFER_MAX_SIZE (d + n)).
  - apply Z.leb_le. lia.
  - apply Z.leb_gt. lia.
Qed.

Lemma take5_app (l k : bytes) : take 5 l = sproto_tag -> take 5 (l ++ k) = sproto_tag.
Proof.
  intros E. rewrite take_app_le; [done|]. apply (f_equal length) in E.
  rewrite length_take in E. change (length sproto_tag) with 5%nat in E. lia.
Qed.

Lemma wp_in_append spd data n h :
  heap_ok h -> spd_ok spd -> 0 <= n <= Zlen data -> Zlen (in_contents spd) + n < 2 ^ 32 ->
  wp (sproto_in_buffer_append spd data n) (fun r h' =>
    let '(r, spd') := r in
    spd_step h spd spd' h' /\ spd_out spd' = spd_out spd /\
    if BUFFER_MAX_SIZE <=? Zlen (in_contents spd) + n
    then r = to_char SUPLA_RESULT_BUFFER_OVERFLOW /\ in_contents spd' = in_contents spd
    else (r = SUPLA_RESULT_TRUE /\ in_contents spd' = in_contents spd ++ take (Z.to_nat n) data)
      \/ (r = SUPLA_RESULT_FALSE /\ in_contents spd' = in_contents spd /\ ~ never_refuses h)) h.
Proof.
  intros Hh [[Hb Ht] Ho Hv Hr] Hn Hd. unfold in_contents in Hd |- *.
  rewrite (Zlen_contents _ _ _ Hb) in *. unfold sproto_in_buffer_append. apply wp_bnd.
  eapply wp_mono; [by apply wp_append|]. pose proof Hb as (_ & _ & Hs).
  rewrite append_fits by done.
  intros [r [[p' s'] d']] h' (Hh' & Hnr & Hb' & Hc). apply wp_ret. unfold spd_step.
  assert (Hcases : contents p' d' = contents (in_buffer (spd_in spd)) (in_data_size (spd_in spd))
    \/ exists k, contents p' d' = contents (in_buffer (spd_in spd)) (in_data_size (spd_in spd)) ++ k).
  { destruct (_ <=? _); [destruct Hc as [_ [= -> -> ->]]; by left|].
    destruct Hc as [(_ & _ & E)|(_ & [= -> -> ->] & _)]; [right; eauto|by left]. }
  split_and!; cbn [set_in spd_in spd_out spd_version next_rr_id in_buffer in_data_size]; try done.
  - constructor; try done. split; cbn; [done|]. destruct Ht as [Ht|[Ht Htag]]; [by left|right].
    split; [done|]. destruct Hcases as [->|[k ->]]; [done|]. by apply take5_app.
  - destruct (_ <=? _).
    + destruct Hc as [-> [= -> -> ->]]. split; [apply to_char_u8|done].
    + destruct Hc as [(-> & _ & E)|(-> & [= -> -> ->] & ?)].
      * left. by rewrite to_char_true.
      * right. by rewrite to_char_false.
Qed.

(** The same for the output buffer; the result is not yet converted to [char]. *)
Lemma wp_out_append1 spd data n h :
  heap_ok h -> spd_ok spd -> 0 <= n <= Zlen data -> Zlen (out_contents spd) + n < 2 ^ 32 ->
  wp (out_append spd data n) (fun r h' =>
    let '(r, spd') := r in
    spd_step h spd spd' h' /\ spd_in spd' = spd_in spd /\
    if BUFFER_MAX_SIZE <=? Zlen (out_contents spd) + n
    then r = u8 SUPLA_RESULT_BUFFER_OVERFLOW /\ out_contents spd' = out_contents spd
    else (r = SUPLA_RESULT_TRUE /\ out_contents spd' = out_contents spd ++ take (Z.to_nat n) data)
      \/ (r = SUPLA_RESULT_FALSE /\ out_contents spd' = out_contents spd /\ ~ never_refuses h)) h.
Proof.
  intros Hh [Hi Hb Hv Hr] Hn Hd. unfold out_contents in Hd |- *. unfold out_ok in Hb.
  rewrite (Zlen_contents _ _ _ Hb) in *. unfold out_append. apply wp_bnd.
  eapply wp_mono; [by apply wp_append|]. pose proof Hb as (_ & _ & Hs).
  rewrite append_fits by done.
  intros [r [[p' s'] d']] h' (Hh' & Hnr & Hb' & Hc). apply wp_ret. unfold spd_step.
  split_and!; cbn [set_out spd_in spd_out spd_version next_rr_id out_buffer out_data_size]; try done.
  destruct (_ <=? _).
  - destruct Hc as [-> [= -> -> ->]]. by split.
  - destruct Hc as [(-> & _ & E)|(-> & [= -> -> ->] & ?)]; [by left|by right].
Qed.

Lemma spd_step_trans h spd spd' h' spd'' h'' :
  spd_step h spd spd' h' -> spd_step h' spd' spd'' h'' -> spd_step h spd spd'' h''.
Proof.
  intros (? & ? & ? & ? & ?) (? & ? & ? & ? & ?). unfold spd_step. split_and!; auto; congruence.
Qed.

Lemma spd_step_refl h spd : heap_ok h -> spd_ok spd -> spd_step h spd spd h.
Proof. intros. unfold spd_step. by split_and!. Qed.

(** The packet without its end tag, as [sproto_out_buffer_append] first appends it. *)
Definition wire_body (p : sdp_t) : bytes := take (Z.to_nat (18 + sdp_data_size p)) (sdp_encode p).

Lemma wire_body_tag p : wire p = wire_body p ++ sproto_tag.
Proof. done. Qed.

(** Queuing a packet for output: on success its wire form is appended; where only the
    end tag does not fit, the packet is left queued without it. *)
Lemma wp_out_append spd p h :
  heap_ok h -> spd_ok spd -> sdp_wf p -> sdp_data_size p <= SUPLA_MAX_DATA_SIZE ->
  wp (sproto_out_buffer_append spd p) (fun r h' =>
    let '(r, spd') := r in
    spd_step h spd spd' h' /\ spd_in spd' = spd_in spd /\
    let used := Zlen (out_contents spd) + 18 + sdp_data_size p in
    if BUFFER_MAX_SIZE <=? used
    then r = SUPLA_RESULT_FALSE /\ out_contents spd' = out_contents spd
    else (r = SUPLA_RESULT_FALSE /\ out_contents spd' = out_contents spd /\ ~ never_refuses h)
      \/ if BUFFER_MAX_SIZE <=? used + 5
         then r = to_char SUPLA_RESULT_BUFFER_OVERFLOW
              /\ out_contents spd' = out_contents spd ++ wire_body p
         else (r = SUPLA_RESULT_TRUE /\ out_contents spd' = out_contents spd ++ wire p)
           \/ (r = SUPLA_RESULT_FALSE /\ out_contents spd' = out_contents spd ++ wire_body p
               /\ ~ never_refuses h)) h.
Proof.
  intros Hh Hok Hw Hd. platform. pose proof (wf_data_size _ Hw) as Hd0.
  pose proof (Zlen_contents _ _ _ (ok_out _ Hok)) as Hl. fold (out_contents spd) in Hl.
  pose proof (ok_out _ Hok) as (_ & Hds & Hs). pose proof (sdp_wf_shape _ Hw) as Hsh.
  unfold sproto_out_buffer_append. rewrite sizeof_sdp.
  replace (18 + SUPLA_MAX_DATA_SIZE - SUPLA_MAX_DATA_SIZE + sdp_data_size p)
    with (18 + sdp_data_size p) by lia.
  rewrite uN_small, (proj2 (Z.ltb_ge _ _)) by lia.
  apply wp_bnd. eapply wp_mono; [apply wp_out_append1; rewrite ?Zlen_sdp_shape by done; done || lia|].
  intros [r1 spd1] h1 (Hs1 & Hi1 & Hr1). cbv zeta. rewrite Z.add_assoc in Hr1.
  destruct (BUFFER_MAX_SIZE <=? Zlen (out_contents spd) + 18 + sdp_data_size p) eqn:E; bools.
  { destruct Hr1 as [-> ?]. rewrite (proj2 (Z.eqb_neq _ _)) by (vm_compute; done).
    by apply wp_ret. }
  destruct Hr1 as [[-> Hc1]|(-> & Hc1 & Hnr)]; cbn [Z.eqb SUPLA_RESULT_TRUE SUPLA_RESULT_FALSE Pos.eqb].
  2:{ apply wp_ret. split_and!; auto. }
  fold (wire_body p) in Hc1. pose proof Hs1 as (Hh1 & Hnr1 & Hok1 & _).
  assert (Hlb : Zlen (wire_body p) = 18 + sdp_data_size p).
  { unfold wire_body. rewrite Zlen_take, Zlen_sdp_shape by done. lia. }
  apply wp_bnd. eapply wp_mono.
  { apply wp_out_append1; [done|done|done|]. rewrite Hc1, Zlen_app. change SUPLA_TAG_SIZE with 5. lia. }
  intros [r2 spd2] h2 (Hs2 & Hi2 & Hr2). apply wp_ret.
  split_and!; [by eapply spd_step_trans|congruence|]. right.
  rewrite Hc1, Zlen_app, Hlb in Hr2. change SUPLA_TAG_SIZE with 5 in Hr2. rewrite Z.add_assoc in Hr2.
  destruct (BUFFER_MAX_SIZE <=? Zlen (out_contents spd) + 18 + sdp_data_size p + 5).
  - destruct Hr2 as [-> ->]. split; [apply to_char_u8|done].
  - destruct Hr2 as [[-> ->]|(-> & -> & ?)]; [left|right].
    + rewrite wire_body_tag, <-app_assoc. by rewrite to_char_true.
    + rewrite to_char_false. split_and!; [done|done|tauto].
Qed.

(** Taking bytes from the output queue. *)
Lemma wp_pop_out spd buf n h :
  heap_ok h -> spd_ok spd -> 0 <= n <= Zlen buf ->
  wp (sproto_pop_out_data spd (Some buf) n) (fun r h' =>
    let '(k, buf', spd') := r in
    spd_step h spd spd' h' /\ spd_in spd' = spd_in spd /\
    k = Z.min n (Zlen (out_contents spd)) /\
    buf' = Some (take (Z.to_nat k) (out_contents spd) ++ drop (Z.to_nat k) buf) /\
    out_contents spd' = drop (Z.to_nat k) (out_contents spd)) h.
Proof.
  intros Hh Hok Hn. pose proof (ok_out _ Hok) as Hb. pose proof Hb as (Ho & Hds & Hs).
  pose proof (Zlen_contents _ _ _ Hb) as Hl. fold (out_contents spd) in Hl.
  unfold sproto_pop_out_data. case_if.
  { apply wp_ret. assert (Z.min n (Zlen (out_contents spd)) = 0) as ->.
    { apply orb_true_iff in E as [E|E]; bools; lia. }
    cbn. rewrite drop_0. split_and!; try done. }
  bools. remember (if _ <? _ then _ else _) as k eqn:Ek.
  assert (k = Z.min n (Zlen (out_contents spd))) as Hk by (rewrite Hl; subst k; case_if; bools; lia).
  clear Ek. apply wp_bnd.
  eapply wp_opt; [apply (ptr_read_owns _ _ _ _ Ho); lia|].
  rewrite <-(read_in_take (pbytes _) 0 k (out_data_size (spd_out spd))) by lia.
  rewrite drop_0. fold (contents (out_buffer (spd_out spd)) (out_data_size (spd_out spd))).
  fold (out_contents spd).
  assert (Hlk : Zlen (take (Z.to_nat k) (out_contents spd)) = k) by zlen.
  apply wp_bnd. rewrite poke_Some by (rewrite ?Hlk; lia). rewrite Hlk.
  eapply wp_opt; [reflexivity|]. apply wp_bnd.
  eapply wp_mono; [apply wp_consume; [done|done|lia]|].
  intros [[d' s'] p'] h' (Hh' & Hnr & Hb' & Hd' & Hc'). apply wp_ret.
  split_and!; try done. unfold spd_step; split_and!; try done. by destruct Hok.
Qed.

End Queues.
