(* ===== verification/ProtoProps.v ===== *)
(** * proto.c: the properties of the frame layer *)
From S2P Require Import Prelude Platform Heap CLayout ProtoConsts ProtoTypes Proto ProtoFacts.

(** ** Concrete states for the witnesses *)

Definition calm_heap : heap := {| h_oom := []; h_errno := 0; h_junk := fun _ => Byte.xa5 |}.

Definition fresh_spd : TSuplaProtoData :=
  {| next_rr_id := 0; spd_version := SUPLA_PROTO_VERSION;
     spd_in := {| in_begin_tag := 0; in_size := 0; in_data_size := 0; in_buffer := PNull |};
     spd_out := {| out_size := 0; out_data_size := 0; out_buffer := PNull |} |}.

(** An input side that holds [c] and was sized for it. *)
Definition spd_holding (c : bytes) : TSuplaProtoData :=
  set_in fresh_spd {| in_begin_tag := 0; in_size := Zlen c; in_data_size := Zlen c;
                      in_buffer := PLive c |}.

(** A packet of [size] bytes of data, all of them 7. *)
Definition sample_packet (max size : Z) : sdp_t :=
  {| sdp_tag := sproto_tag; sdp_version := 28; sdp_rr_id := 258; sdp_call_id := 40;
     sdp_data_size := size;
     sdp_data := replicate (Z.to_nat size) Byte.x07 ++ zeros (max - size) |}.

Definition blank_packet (max : Z) : sdp_t :=
  {| sdp_tag := zeros 5; sdp_version := 0; sdp_rr_id := 0; sdp_call_id := 0;
     sdp_data_size := 0; sdp_data := zeros max |}.

Lemma heap_ok_calm `{PL : PlatformLaws} : heap_ok calm_heap.
Proof. right. by split. Qed.

Lemma never_refuses_calm : never_refuses calm_heap.
Proof. by split. Qed.

Lemma fresh_ok `{PL : PlatformLaws} : spd_ok fresh_spd.
Proof.
  platform. constructor; cbn; try (unfold SUPLA_PROTO_VERSION, SUPLA_PROTO_VERSION_MIN; lia).
  - split; [|by left]. cbn. unfold buf_ok. cbn. lia.
  - unfold out_ok, buf_ok. cbn. lia.
Qed.

Lemma spd_holding_ok `{PL : PlatformLaws} c : Zlen c < BUFFER_MAX_SIZE -> spd_ok (spd_holding c).
Proof.
  intros. pose proof (Zlen_nonneg c). destruct fresh_ok. constructor; try done.
  split; [|by left]. split_and!; cbn; lia.
Qed.

Lemma in_contents_holding c : in_contents (spd_holding c) = c.
Proof. unfold in_contents, contents, spd_holding. cbn [set_in spd_in in_buffer in_data_size pbytes]. by apply take_all. Qed.

Lemma sample_wf `{PL : PlatformLaws} size :
  0 <= size <= SUPLA_MAX_DATA_SIZE -> sendable (sample_packet SUPLA_MAX_DATA_SIZE size).
Proof.
  intros. platform. constructor; [constructor|..]; cbn [sample_packet sdp_tag sdp_version
    sdp_rr_id sdp_call_id sdp_data_size sdp_data]; try lia; [done|zlen|].
  unfold SUPLA_PROTO_VERSION_MIN, SUPLA_PROTO_VERSION. lia.
Qed.

Lemma blank_shape `{PL : PlatformLaws} : sdp_shape (blank_packet SUPLA_MAX_DATA_SIZE).
Proof. platform. constructor; cbn [blank_packet sdp_data sdp_tag]; [done..|zlen]. Qed.

Lemma blank_fits `{PL : PlatformLaws} : sdp_fits (blank_packet SUPLA_MAX_DATA_SIZE).
Proof. platform. split; [apply blank_shape|]. cbn. lia. Qed.

(** ** The properties *)

Section Properties.
Context `{PL : PlatformLaws}.


(** C17: a packet received after any split of its bytes into reads is delivered whole.
    When the queue holds the wire form of a sendable packet followed by anything, the
    pop succeeds, the caller gets exactly the packet's header and data, and what
    followed it is what stays queued. *)
Theorem pop_delivers_packet spd sdp h p rest :
  heap_ok h -> spd_ok spd -> sdp_shape sdp -> sendable p ->
  in_contents spd = wire p ++ rest ->
  exists spd' h',
    sproto_pop_in_sdp spd sdp h = Some ((SUPLA_RESULT_TRUE, received p sdp, spd'), h') /\
    in_contents spd' = rest /\ spd_ok spd'.
Proof.
  intros Hh Hok Hs Hp Hc. pose proof (wp_pop _ _ _ Hh Hok Hs) as Hw. apply wp_run in Hw.
  rewrite Hc, pop_in_spec_wire in Hw by done.
  destruct Hw as ([[r' s'] spd'] & h' & E & (-> & -> & ? & ? & ? & ? & ?)).
  rewrite to_char_true in E. eauto 10.
Qed.

(** While a packet is incomplete the pop answers FALSE and neither the queue nor the
    caller's packet changes, so waiting for more bytes loses nothing. *)
Theorem pop_waits_for_packet spd sdp h p missing :
  heap_ok h -> spd_ok spd -> sdp_shape sdp -> sendable p ->
  wire p = in_contents spd ++ missing -> missing <> [] ->
  exists spd' h',
    sproto_pop_in_sdp spd sdp h = Some ((SUPLA_RESULT_FALSE, sdp, spd'), h') /\
    in_contents spd' = in_contents spd /\ spd_ok spd'.
Proof.
  intros Hh Hok Hs Hp Hc Hm. pose proof (wp_pop _ _ _ Hh Hok Hs) as Hw. apply wp_run in Hw.
  rewrite (pop_in_spec_prefix p sdp _ missing) in Hw by done.
  destruct Hw as ([[r' s'] spd'] & h' & E & (-> & -> & ? & ? & ? & ? & ?)).
  rewrite to_char_false in E. eauto 10.
Qed.

(** C18: nothing but packets is accepted.  When a pop succeeds and the header's data size
    is below [2^32 - 18], the queue began with the wire form of a sendable packet, the
    caller received exactly that packet, and exactly its bytes were consumed. *)
Theorem pop_accepts_only_packets spd sdp h sdp' spd' h' :
  heap_ok h -> spd_ok spd -> sdp_shape sdp ->
  sproto_pop_in_sdp spd sdp h = Some ((SUPLA_RESULT_TRUE, sdp', spd'), h') ->
  sdp_data_size (header (in_contents spd)) < 2 ^ 32 - 18 ->
  exists p, sendable p /\ in_contents spd = wire p ++ in_contents spd' /\
            sdp' = received p sdp.
Proof.
  intros Hh Hok Hs E Hds. pose proof (wp_pop _ _ _ Hh Hok Hs) as Hw.
  destruct (pop_in_spec (in_contents spd) sdp) as [[r s'] rest] eqn:Es.
  unfold wp in Hw. rewrite E in Hw. destruct Hw as (Hr & -> & <- & _).
  assert (r = SUPLA_RESULT_TRUE) as ->.
  { revert Es. unfold pop_in_spec. repeat case_if; intros [= <- _ _]; try done; exfalso;
      revert Hr; unfold to_char; destruct char_signed; vm_compute; done. }
  by eapply pop_in_spec_accepts.
Qed.

(** C19: appending received bytes is a queue append.  The bytes are stored after what is
    queued, or nothing is stored: the result is BUFFER_OVERFLOW exactly when the total
    would reach [BUFFER_MAX_SIZE], and FALSE only when the allocator refused. *)
Theorem in_append_is_queue_append spd data n h :
  heap_ok h -> spd_ok spd -> 0 <= n <= Zlen data -> Zlen (in_contents spd) + n < 2 ^ 32 ->
  exists r spd' h',
    sproto_in_buffer_append spd data n h = Some ((r, spd'), h') /\
    heap_ok h' /\ spd_ok spd' /\ spd_out spd' = spd_out spd /\
    if BUFFER_MAX_SIZE <=? Zlen (in_contents spd) + n
    then r = to_char SUPLA_RESULT_BUFFER_OVERFLOW /\ in_contents spd' = in_contents spd
    else (r = SUPLA_RESULT_TRUE /\ in_contents spd' = in_contents spd ++ take (Z.to_nat n) data)
      \/ (r = SUPLA_RESULT_FALSE /\ in_contents spd' = in_contents spd /\ ~ never_refuses h).
Proof.
  intros Hh Hok Hn Hl. pose proof (wp_in_append _ _ _ _ Hh Hok Hn Hl) as Hw.
  apply wp_run in Hw. destruct Hw as ([r spd'] & h' & E & (? & ? & ? & ?) & ? & ?). eauto 10.
Qed.


(** Taking output is a queue removal: the [min] of the room and the queued bytes is
    copied to the caller's buffer, in order, and removed. *)
Theorem pop_out_is_queue_pop spd buf n h :
  heap_ok h -> spd_ok spd -> 0 <= n <= Zlen buf ->
  exists spd' h',
    let k := Z.min n (Zlen (out_contents spd)) in
    sproto_pop_out_data spd (Some buf) n h
      = Some ((k, Some (take (Z.to_nat k) (out_contents spd) ++ drop (Z.to_nat k) buf), spd'), h') /\
    spd_ok spd' /\ spd_in spd' = spd_in spd /\
    out_contents spd' = drop (Z.to_nat k) (out_contents spd).
Proof.
  intros Hh Hok Hn. pose proof (wp_pop_out _ _ _ _ Hh Hok Hn) as Hw. apply wp_run in Hw.
  destruct Hw as ([[k buf'] spd'] & h' & E & (? & ? & ? & ?) & ? & -> & -> & ?). eauto 10.
Qed.

(** The size check wraps.  [header_size + data_size] is computed in 32 bits, so a
    header announcing [2^32 - 18] bytes of data passes every check as a packet of no
    bytes: the pop answers TRUE, the caller's packet is whatever it held before, and
    only the begin tag is consumed, the header bytes staying queued. *)
Theorem pop_size_check_wraps spd sdp h :
  heap_ok h -> spd_ok spd -> sdp_shape sdp ->
  23 <= Zlen (in_contents spd) -> take 5 (in_contents spd) = sproto_tag ->
  SUPLA_PROTO_VERSION_MIN <= sdp_version (header (in_contents spd)) <= SUPLA_PROTO_VERSION ->
  sdp_data_size (header (in_contents spd)) = 2 ^ 32 - 18 ->
  exists spd' h',
    sproto_pop_in_sdp spd sdp h = Some ((SUPLA_RESULT_TRUE, sdp, spd'), h') /\
    in_contents spd' = drop 5 (in_contents spd).
Proof.
  intros Hh Hok Hs Hl Ht Hv Hd. pose proof (wp_pop _ _ _ Hh Hok Hs) as Hw. apply wp_run in Hw.
  rewrite pop_in_spec_wrap in Hw by done.
  destruct Hw as ([[r' s'] spd'] & h' & E & (-> & -> & ? & ? & ? & ? & ?)).
  rewrite to_char_true in E. eauto 10.
Qed.

(** A refused packet may be half queued.  When the packet fits into the output
    buffer but its end tag does not, the call answers BUFFER_OVERFLOW although the
    packet's bytes have been appended and stay queued without the tag. *)
Theorem out_append_not_atomic spd p h :
  heap_ok h -> never_refuses h -> spd_ok spd -> sendable p ->
  BUFFER_MAX_SIZE - 5 <= Zlen (out_contents spd) + 18 + sdp_data_size p < BUFFER_MAX_SIZE ->
  exists spd' h',
    sproto_out_buffer_append spd p h
      = Some ((to_char SUPLA_RESULT_BUFFER_OVERFLOW, spd'), h') /\
    out_contents spd' = out_contents spd ++ wire_body p /\
    out_contents spd' <> out_contents spd.
Proof.
  intros Hh Hnr Hok [Hw _ Hd] Hfit. pose proof (wp_out_append _ _ _ Hh Hok Hw Hd) as H.
  apply wp_run in H. destruct H as ([r spd'] & h' & E & (? & ? & ? & ?) & ? & H).
  cbv zeta in H. rewrite (proj2 (Z.leb_gt _ _)), (proj2 (Z.leb_le _ (_ + 5))) in H by lia.
  destruct H as [(_ & _ & ?)|[-> Hc]]; [done|]. exists spd', h'. split_and!; [done|done|].
  intros Heq. apply (f_equal Zlen) in Heq. rewrite Hc, Zlen_app in Heq.
  pose proof (Zlen_sdp_shape _ (sdp_wf_shape _ Hw)). pose proof (wf_data_size _ Hw).
  unfold wire_body in Heq. rewrite Zlen_take in Heq. platform. lia.
Qed.

(** In the builds that test [errno] after [realloc], a value left by an earlier
    failure makes a successful reallocation look like a failed one: the append answers
    FALSE and keeps the freed buffer, and repeating it is a use after free. *)
Theorem stale_errno_use_after_free spd data n h b :
  ERRNO_CHECKED = true -> h_errno h = ENOMEM -> h_oom h = [] ->
  in_buffer (spd_in spd) = PLive b ->
  append_size (in_size (spd_in spd)) (in_data_size (spd_in spd)) n <> in_size (spd_in spd) ->
  0 < append_size (in_size (spd_in spd)) (in_data_size (spd_in spd)) n < BUFFER_MAX_SIZE ->
  exists spd',
    sproto_in_buffer_append spd data n h = Some ((SUPLA_RESULT_FALSE, spd'), h) /\
    in_buffer (spd_in spd') = PDangling /\
    sproto_in_buffer_append spd' data n h = None.
Proof.
  intros He Hn Ho Hb Hs Hm.
  assert (Hrun : forall q, q = in_buffer (spd_in spd) \/ q = PDangling ->
    sproto_in_buffer_append (set_in spd {| in_begin_tag := in_begin_tag (spd_in spd);
      in_size := in_size (spd_in spd); in_data_size := in_data_size (spd_in spd);
      in_buffer := q |}) data n h
    = match q with
      | PDangling => None
      | _ => Some ((SUPLA_RESULT_FALSE, set_in spd {| in_begin_tag := in_begin_tag (spd_in spd);
          in_size := in_size (spd_in spd); in_data_size := in_data_size (spd_in spd);
          in_buffer := PDangling |}), h)
      end).
  { intros q Hq. unfold sproto_in_buffer_append, sproto_buffer_append, mbnd, mget, mret.
    cbn [set_in spd_in in_buffer in_size in_data_size in_begin_tag].
    rewrite (proj2 (Z.leb_gt _ _)), (proj2 (Z.eqb_neq _ _)) by lia.
    destruct Hq as [->| ->]; [|done]. rewrite Hb. cbn [realloc].
    rewrite (proj2 (Z.eqb_neq _ 0)) by lia. unfold mbnd, mget, mret, next_request. rewrite Ho.
    cbn [is_null]. rewrite andb_false_r, He, Hn. cbn. by rewrite to_char_0. }
  eexists. split_and!.
  - pose proof (Hrun _ (or_introl eq_refl)) as E. rewrite Hb in E. rewrite <-E. f_equal.
    destruct spd as [? ? [? ? ? ?] ?]. cbn in *. by subst.
  - done.
  - by apply (Hrun PDangling), or_intror.
Qed.

End Properties.

(** ** Packet identifiers *)

(** The state after [k] packets have been initialised, and the identifier of the
    [k]-th of them. *)
Definition after_inits `{Platform} (k : nat) (spd : TSuplaProtoData) : TSuplaProtoData :=
  Nat.iter k (fun spd => (sproto_sdp_init spd).2) spd.

Definition nth_rr_id `{Platform} (k : nat) (spd : TSuplaProtoData) : Z :=
  sdp_rr_id (sproto_sdp_init (after_inits k spd)).1.

Section Identifiers.
Context `{PL : PlatformLaws}.

Lemma sdp_init_rr_id spd : 0 <= next_rr_id spd < 2 ^ 32 ->
  sdp_rr_id (sproto_sdp_init spd).1 = next_rr_id spd mod (2 ^ 32 - 1) + 1 /\
  next_rr_id (sproto_sdp_init spd).2 = sdp_rr_id (sproto_sdp_init spd).1.
Proof.
  intros Hr. split; [|done]. unfold sproto_sdp_init. cbn [fst sdp_rr_id].
  destruct (Z.eq_dec (next_rr_id spd) (2 ^ 32 - 1)) as [->|]; [done|].
  rewrite (uN_small 32 (next_rr_id spd + 1)) by lia.
  rewrite (proj2 (Z.eqb_neq _ _)) by lia. rewrite Z.mod_small; lia.
Qed.

Lemma after_inits_rr_id k spd : 0 <= next_rr_id spd < 2 ^ 32 -> (0 < k)%nat ->
  next_rr_id (after_inits k spd) = (next_rr_id spd + Z.of_nat k - 1) mod (2 ^ 32 - 1) + 1.
Proof.
  intros Hr. destruct k as [|k]; [lia|]. intros _.
  induction k as [|k IH].
  - cbn [after_inits Nat.iter nat_rect]. destruct (sdp_init_rr_id spd Hr) as [E ->]. rewrite E.
    do 2 f_equal. lia.
  - change (after_inits (S (S k)) spd) with (sproto_sdp_init (after_inits (S k) spd)).2.
    pose proof (Z.mod_pos_bound (next_rr_id spd + Z.of_nat (S k) - 1) (2 ^ 32 - 1) ltac:(lia)).
    destruct (sdp_init_rr_id (after_inits (S k) spd)) as [E ->]; [rewrite IH; lia|].
    rewrite E, IH, Zplus_mod_idemp_l. do 2 f_equal. lia.
Qed.

Lemma nth_rr_id_eq k spd : 0 <= next_rr_id spd < 2 ^ 32 ->
  nth_rr_id k spd = (next_rr_id spd + Z.of_nat k) mod (2 ^ 32 - 1) + 1.
Proof.
  intros Hr. unfold nth_rr_id. destruct (sdp_init_rr_id (after_inits k spd)) as [_ <-].
  - destruct k as [|k]; [done|]. rewrite after_inits_rr_id by lia.
    pose proof (Z.mod_pos_bound (next_rr_id spd + Z.of_nat (S k) - 1) (2 ^ 32 - 1)). lia.
  - change (sproto_sdp_init (after_inits k spd)).2 with (after_inits (S k) spd).
    rewrite after_inits_rr_id by lia. do 2 f_equal. lia.
Qed.

(** C21: packet identifiers are never zero and do not repeat within any [2^32 - 1]
    consecutive packets, the wrap of the 32-bit counter included. *)
Theorem rr_ids_distinct spd i j :
  spd_ok spd -> (i < j)%nat -> Z.of_nat j - Z.of_nat i < 2 ^ 32 - 1 ->
  0 < nth_rr_id i spd < 2 ^ 32 /\ nth_rr_id i spd <> nth_rr_id j spd.
Proof.
  intros [_ _ _ Hr] Hij Hd. rewrite !nth_rr_id_eq by done.
  pose proof (Z.mod_pos_bound (next_rr_id spd + Z.of_nat i) (2 ^ 32 - 1) ltac:(lia)).
  split; [lia|]. intros Heq. assert (Heq' : (next_rr_id spd + Z.of_nat i) mod (2 ^ 32 - 1)
    = (next_rr_id spd + Z.of_nat j) mod (2 ^ 32 - 1)) by lia.
  pose proof (Z.div_mod (next_rr_id spd + Z.of_nat i) (2 ^ 32 - 1) ltac:(lia)).
  pose proof (Z.div_mod (next_rr_id spd + Z.of_nat j) (2 ^ 32 - 1) ltac:(lia)).
  rewrite Heq' in H0. clear -H0 H1 Hd Hij.
  remember ((next_rr_id spd + Z.of_nat i) / (2 ^ 32 - 1)) as a.
  remember ((next_rr_id spd + Z.of_nat j) / (2 ^ 32 - 1)) as b.
  assert ((b - a) * (2 ^ 32 - 1) = Z.of_nat j - Z.of_nat i) by lia. nia.
Qed.

(** A new packet is empty and can be sent. *)
Lemma sdp_init_sendable spd : spd_ok spd ->
  sendable (sproto_sdp_init spd).1 /\ spd_ok (sproto_sdp_init spd).2
  /\ in_contents (sproto_sdp_init spd).2 = in_contents spd
  /\ out_contents (sproto_sdp_init spd).2 = out_contents spd.
Proof.
  intros [Hi Ho Hv Hr]. platform. destruct (sdp_init_rr_id spd Hr) as [E En].
  pose proof (Z.mod_pos_bound (next_rr_id spd) (2 ^ 32 - 1) ltac:(lia)).
  unfold SUPLA_PROTO_VERSION, SUPLA_PROTO_VERSION_MIN in *.
  split_and!; [|constructor; try done; cbn [spd_version next_rr_id sproto_sdp_init snd fst]|done|done].
  - constructor; [constructor|..]; try (cbn; lia).
    + done.
    + rewrite E. lia.
    + cbn [sproto_sdp_init fst sdp_data]. zlen.
    + done.
  - rewrite E in En. cbn [sproto_sdp_init snd next_rr_id] in En. rewrite En. lia.
Qed.

(** Filling a packet: FALSE and no change for data that does not fit or is missing. *)
Lemma set_data_ok sdp data n call :
  sdp_wf sdp -> sdp_data_size sdp <= SUPLA_MAX_DATA_SIZE -> 0 <= n -> 0 <= call < 2 ^ 32 ->
  n <= match data with Some d => Zlen d | None => 2 ^ 32 - 1 end ->
  let bad := (SUPLA_MAX_DATA_SIZE <? n) || ((0 <? n) && match data with None => true | _ => false end) in
  exists sdp', sproto_set_data sdp data n call
    = Some (if bad then SUPLA_RESULT_FALSE else SUPLA_RESULT_TRUE, sdp') /\
  sdp_wf sdp' /\ sdp_data_size sdp' <= SUPLA_MAX_DATA_SIZE /\ (bad = true -> sdp' = sdp) /\
  (bad = false -> sdp_call_id sdp' = call /\ sdp_data_size sdp' = n /\
     sdp_rr_id sdp' = sdp_rr_id sdp /\ sdp_version sdp' = sdp_version sdp /\
     take (Z.to_nat n) (sdp_data sdp')
     = take (Z.to_nat n) (match data with Some d => d | None => [] end)).
Proof.
  intros [Ht Hv Hr Hc Hds Hd] Hm Hn Hcall Hdata bad. platform. unfold sproto_set_data.
  fold bad. destruct bad eqn:E; [by eexists|]. unfold bad in E. clear bad. bools.
  assert (Hcopy : exists d', match data with
     | Some data => if 0 <? n then match peek 0 n data with
         | Some d => poke 0 d (sdp_data sdp) | None => None end else Some (sdp_data sdp)
     | None => Some (sdp_data sdp) end = Some d' /\ Zlen d' = SUPLA_MAX_DATA_SIZE
     /\ take (Z.to_nat n) d' = take (Z.to_nat n) (match data with Some d => d | None => [] end)).
  { destruct data as [d|]; [destruct (0 <? n) eqn:En; bools|].
    - rewrite peek_0 by lia. assert (Hl : Zlen (take (Z.to_nat n) d) = n) by zlen.
      rewrite poke_Some by lia. eexists; split_and!; [done| |].
      + rewrite Hl. zlen.
      + change (take (Z.to_nat 0) (sdp_data sdp)) with (@nil Init.Byte.byte).
        rewrite app_nil_l. by apply take_Zlen_app.
    - eexists; split_and!; [done|done|]. by replace n with 0 by lia.
    - eexists; split_and!; [done|done|]. destruct (0 <? n) eqn:En; [done|]. bools.
      by replace n with 0 by lia. }
  destruct Hcopy as (d' & -> & Hl & Hpre). eexists; split_and!; [done| |done|done|done].
  constructor; cbn; try done; lia.
Qed.

End Identifiers.

(** ** Witnesses *)

Definition sample := sample_packet 600 3.
Definition blank := blank_packet 600.

Lemma sample_sendable : @sendable linux_device sample.
Proof. apply (@sample_wf linux_device _ 3). cbn. lia. Qed.

Definition holding (l : list bytes) : TSuplaProtoData := spd_holding (concat l).


Lemma pop_delivers_packet_witness :
  exists spd' h',
    @sproto_pop_in_sdp linux_device (holding [wire sample; wire sample]) blank calm_heap
      = Some ((SUPLA_RESULT_TRUE, received sample blank, spd'), h') /\
    in_contents spd' = wire sample /\ @spd_ok linux_device spd'.
Proof.
  apply (@pop_delivers_packet linux_device _);
    [apply heap_ok_calm|by apply spd_holding_ok|apply (@blank_shape linux_device _)
    |apply sample_sendable|reflexivity].
Defined.

Lemma pop_waits_for_packet_witness :
  exists spd' h',
    @sproto_pop_in_sdp linux_device (holding [take 20 (wire sample)]) blank calm_heap
      = Some ((SUPLA_RESULT_FALSE, blank, spd'), h') /\
    in_contents spd' = take 20 (wire sample) /\ @spd_ok linux_device spd'.
Proof.
  apply (@pop_waits_for_packet linux_device _ (holding [take 20 (wire sample)]) _ _ sample (drop 20 (wire sample)));
    [apply heap_ok_calm|by apply spd_holding_ok|apply (@blank_shape linux_device _)
    |apply sample_sendable|reflexivity|discriminate].
Defined.

(** The state a pop leaves. *)
Definition state_after_pop (spd : TSuplaProtoData) : TSuplaProtoData :=
  match @sproto_pop_in_sdp linux_device spd blank calm_heap with
  | Some ((_, _, spd'), _) => spd'
  | None => spd
  end.

Lemma pop_accepts_only_packets_witness :
  exists p, @sendable linux_device p /\
    in_contents (holding [wire sample; sproto_tag])
      = wire p ++ in_contents (state_after_pop (holding [wire sample; sproto_tag])) /\
    received sample blank = received p blank.
Proof.
  apply (@pop_accepts_only_packets linux_device _ (holding [wire sample; sproto_tag]) blank
    calm_heap (received sample blank) _ calm_heap);
    [apply heap_ok_calm|by apply spd_holding_ok|apply (@blank_shape linux_device _)
    |vm_compute; reflexivity|vm_compute; reflexivity].
Defined.

Lemma in_append_is_queue_append_witness :
  exists r spd' h',
    @sproto_in_buffer_append linux_device (holding [sproto_tag]) (wire sample) 10 calm_heap
      = Some ((r, spd'), h') /\
    @heap_ok linux_device h' /\ @spd_ok linux_device spd' /\
    spd_out spd' = spd_out (holding [sproto_tag]) /\
    if 2048 <=? 15
    then r = @to_char linux_device SUPLA_RESULT_BUFFER_OVERFLOW /\ in_contents spd' = sproto_tag
    else (r = SUPLA_RESULT_TRUE /\ in_contents spd' = sproto_tag ++ take 10 (wire sample))
      \/ (r = SUPLA_RESULT_FALSE /\ in_contents spd' = sproto_tag /\ ~ never_refuses calm_heap).
Proof.
  apply (@in_append_is_queue_append linux_device _ (holding [sproto_tag]) (wire sample) 10);
    [apply heap_ok_calm|by apply spd_holding_ok|vm_compute; split; discriminate
    |vm_compute; reflexivity].
Defined.


(** An output side that holds [c]. *)
Definition spd_sending (c : bytes) : TSuplaProtoData :=
  set_out fresh_spd {| out_size := Zlen c; out_data_size := Zlen c; out_buffer := PLive c |}.

Lemma spd_sending_ok `{PL : PlatformLaws} c : Zlen c < BUFFER_MAX_SIZE -> spd_ok (spd_sending c).
Proof.
  intros. pose proof (Zlen_nonneg c). destruct fresh_ok. constructor; try done.
Qed.

Lemma pop_out_is_queue_pop_witness :
  exists spd' h',
    @sproto_pop_out_data linux_device (spd_sending (wire sample)) (Some (zeros 8)) 8 calm_heap
      = Some ((8, Some (take 8 (wire sample)), spd'), h') /\
    @spd_ok linux_device spd' /\ spd_in spd' = spd_in fresh_spd /\
    out_contents spd' = drop 8 (wire sample).
Proof.
  apply (@pop_out_is_queue_pop linux_device _ (spd_sending (wire sample)) (zeros 8) 8);
    [apply heap_ok_calm|by apply spd_sending_ok|vm_compute; split; discriminate].
Defined.

(** A header that announces [2^32 - 18] bytes of data. *)
Definition huge_header : bytes :=
  sproto_tag ++ [Byte.x1c] ++ le_split 4 1 ++ le_split 4 40 ++ le_split 4 (2 ^ 32 - 18).

Lemma pop_size_check_wraps_witness :
  exists spd' h',
    @sproto_pop_in_sdp linux_device (holding [huge_header; sproto_tag]) sample calm_heap
      = Some ((SUPLA_RESULT_TRUE, sample, spd'), h') /\
    in_contents spd' = drop 5 (huge_header ++ sproto_tag).
Proof.
  apply (@pop_size_check_wraps linux_device _ (holding [huge_header; sproto_tag]));
    [apply heap_ok_calm|by apply spd_holding_ok|apply sdp_wf_shape, sample_sendable
    |vm_compute; discriminate|reflexivity|vm_compute; split; discriminate|reflexivity].
Defined.

Lemma out_append_not_atomic_witness :
  exists spd' h',
    @sproto_out_buffer_append linux_device (spd_sending (zeros 2025)) sample calm_heap
      = Some ((-3, spd'), h') /\
    out_contents spd' = out_contents (spd_sending (zeros 2025)) ++ wire_body sample /\
    out_contents spd' <> out_contents (spd_sending (zeros 2025)).
Proof.
  apply (@out_append_not_atomic linux_device _);
    [apply heap_ok_calm|apply never_refuses_calm|by apply spd_sending_ok|apply sample_sendable
    |vm_compute; split; [discriminate|reflexivity]].
Defined.

Definition stale_heap : heap := {| h_oom := []; h_errno := ENOMEM; h_junk := fun _ => Byte.x00 |}.

Lemma stale_errno_use_after_free_witness :
  exists spd',
    @sproto_in_buffer_append generic64 (holding [sproto_tag]) (zeros 4) 4 stale_heap
      = Some ((SUPLA_RESULT_FALSE, spd'), stale_heap) /\
    in_buffer (spd_in spd') = PDangling /\
    @sproto_in_buffer_append generic64 spd' (zeros 4) 4 stale_heap = None.
Proof.
  apply (@stale_errno_use_after_free generic64 (holding [sproto_tag]) (zeros 4) 4 stale_heap sproto_tag);
    [reflexivity|reflexivity|reflexivity|reflexivity|vm_compute; discriminate
    |vm_compute; split; reflexivity].
Defined.

Lemma rr_ids_distinct_witness :
  0 < @nth_rr_id linux_device 3 fresh_spd < 2 ^ 32
  /\ @nth_rr_id linux_device 3 fresh_spd <> @nth_rr_id linux_device 9 fresh_spd.
Proof. apply (@rr_ids_distinct linux_device); [apply fresh_ok|lia|lia]. Defined.
