(* ===== verification/SrpcQueue.v ===== *)
(** * srpc.c: the packet queues

    [Tsrpc_Queue] of [src/src/supla-common/srpc.c]: an array of packet pointers with a
    count of the queued ones and a count of the allocated ones.  The abstract queue is
    the list of packets; [rr_id] zero pops the oldest, any other value the oldest packet
    with that identifier. *)
From S2P Require Import Prelude Platform Heap CLayout ProtoTypes Proto ProtoFacts.

Record Tsrpc_Queue := {
  q_item_count : Z;
  q_alloc_count : Z;
  q_item : list (option sdp_t)          (* [None] is a null pointer *)
}.

Section SrpcQueue.
Context `{Platform}.

(** The queue as [memset] leaves it. *)
Definition queue_zero : Tsrpc_Queue :=
  {| q_item_count := 0; q_alloc_count := 0;
     q_item := replicate (Z.to_nat SRPC_QUEUE_SIZE) None |}.

(** The item pointers are freed but keep their values. *)
Definition srpc_queue_free (q : Tsrpc_Queue) : Tsrpc_Queue :=
  {| q_item_count := 0; q_alloc_count := 0; q_item := q_item q |}.

Definition srpc_queue_push (q : Tsrpc_Queue) (sdp : sdp_t) : M heap (Z * Tsrpc_Queue) :=
  if SRPC_QUEUE_SIZE <=? q_item_count q then mret (SUPLA_RESULT_FALSE, q)
  else
    let i := Z.to_nat (q_item_count q) in
    let! slot := mopt (q_item q !! i) in
    let! slot :=
      (match slot with
       | None =>
           let! refused := next_request in
           mret (if refused then None else Some sdp)
       | Some old => mret (Some old)
       end) in
    match slot with
    | None => mret (SUPLA_RESULT_FALSE, q)
    | Some _ =>
        mret (SUPLA_RESULT_TRUE,
          {| q_item_count := u8 (q_item_count q + 1);
             q_alloc_count := u8 (q_alloc_count q + 1);
             q_item := <[i := Some sdp]> (q_item q) |})
    end.

(** The search loop of [srpc_queue_pop] from index [a], [k] iterations left: the
    index of the packet, or [None] inside [Some] when there is none. *)
Fixpoint queue_scan (item : list (option sdp_t)) (rr_id : Z) (k a : nat) : option (option nat) :=
  match k with
  | O => Some None
  | S k =>
      if rr_id =? 0 then Some (Some a)
      else
        match item !! a with
        | Some (Some p) =>
            if sdp_rr_id p =? rr_id then Some (Some a) else queue_scan item rr_id k (S a)
        | _ => None
        end
  end.

(** The loop [for (b = a; b < item_count - 1; b++) item[b] = item[b + 1];] *)
Fixpoint queue_shift (k b : nat) (item : list (option sdp_t)) : option (list (option sdp_t)) :=
  match k with
  | O => Some item
  | S k =>
      match item !! S b with
      | Some p => queue_shift k (S b) (<[b := p]> item)
      | None => None
      end
  end.

(** The result, the caller's packet and the queue. *)
Definition srpc_queue_pop (q : Tsrpc_Queue) (sdp : sdp_t) (rr_id : Z)
    : option (Z * sdp_t * Tsrpc_Queue) :=
  match queue_scan (q_item q) rr_id (Z.to_nat (q_item_count q)) 0 with
  | None => None
  | Some None => Some (SUPLA_RESULT_FALSE, sdp, q)
  | Some (Some a) =>
      match q_item q !! a with
      | Some (Some sdp) =>
          let release := SRPC_QUEUE_MIN_ALLOC_COUNT <? q_alloc_count q in
          let alloc := if release then u8 (q_alloc_count q - 1) else q_alloc_count q in
          let item := if release then <[a := None]> (q_item q) else q_item q in
          match item !! a with
          | None => None
          | Some it =>
              match queue_shift (Z.to_nat (q_item_count q - 1) - a) a item with
              | None => None
              | Some item =>
                  let n := u8 (q_item_count q - 1) in
                  Some (SUPLA_RESULT_TRUE, sdp,
                    {| q_item_count := n; q_alloc_count := alloc;
                       q_item := <[Z.to_nat n := it]> item |})
              end
          end
      | _ => None
      end
  end.

End SrpcQueue.

(** ** The abstract queue *)

(** Removing the first packet that [rr_id] asks for. *)
Fixpoint list_pop (rr_id : Z) (ps : list sdp_t) : option (sdp_t * list sdp_t) :=
  match ps with
  | [] => None
  | p :: ps =>
      if (rr_id =? 0) || (sdp_rr_id p =? rr_id) then Some (p, ps)
      else match list_pop rr_id ps with
           | Some (q, ps) => Some (q, p :: ps)
           | None => None
           end
  end.

Section Facts.
Context `{PL : PlatformLaws}.

(** The representation invariant: the first [item_count] pointers are the packets, and
    no more than [SRPC_QUEUE_MIN_ALLOC_COUNT] allocations outlive them. *)
Record queue_rep (q : Tsrpc_Queue) (ps : list sdp_t) : Prop := {
  rep_items : exists rest, q_item q = map Some ps ++ rest;
  rep_length : Zlen (q_item q) = SRPC_QUEUE_SIZE;
  rep_count : q_item_count q = Zlen ps;
  rep_alloc : 0 <= q_alloc_count q <= SRPC_QUEUE_MIN_ALLOC_COUNT + Zlen ps
}.

(** The packets of a queue. *)
Definition queue_packets (q : Tsrpc_Queue) : list sdp_t :=
  omap id (take (Z.to_nat (q_item_count q)) (q_item q)).

Lemma queue_packets_rep q ps : queue_rep q ps -> queue_packets q = ps.
Proof.
  intros [[rest E] _ Hc _]. unfold queue_packets. rewrite E, Hc, Zlen_length.
  rewrite take_app_le by (rewrite length_map; lia).
  rewrite take_ge by (rewrite length_map; lia). clear.
  induction ps; cbn; congruence.
Qed.

Lemma queue_zero_rep : queue_rep queue_zero [].
Proof.
  platform. constructor; cbn; [eexists; done| |done|zlen].
  rewrite Zlen_replicate. lia.
Qed.

Lemma queue_rep_bound q ps : queue_rep q ps -> Zlen ps <= SRPC_QUEUE_SIZE.
Proof.
  intros [[rest E] Hl _ _]. rewrite E, Zlen_app in Hl.
  assert (Zlen (map Some ps) = Zlen ps) by (unfold Zlen; by rewrite length_map).
  pose proof (Zlen_nonneg rest). lia.
Qed.

Lemma lookup_rep (ps : list sdp_t) rest i :
  (i < length ps)%nat -> exists p, (map Some ps ++ rest) !! i = Some (Some p) /\ ps !! i = Some p.
Proof.
  intros Hi. destruct (lookup_lt_is_Some_2 ps i Hi) as [p Hp]. exists p. split; [|done].
  rewrite lookup_app_l by (rewrite length_map; lia).
  by rewrite list_lookup_fmap, Hp.
Qed.

Lemma wp_queue_push q ps sdp h :
  queue_rep q ps ->
  wp (srpc_queue_push q sdp) (fun r h' =>
    let '(r, q') := r in
    (heap_ok h -> heap_ok h') /\ (never_refuses h -> never_refuses h') /\
    if SRPC_QUEUE_SIZE <=? Zlen ps then r = SUPLA_RESULT_FALSE /\ q' = q
    else (r = SUPLA_RESULT_TRUE /\ queue_rep q' (ps ++ [sdp]))
      \/ (r = SUPLA_RESULT_FALSE /\ q' = q /\ ~ never_refuses h)) h.
Proof.
  intros Hrep. pose proof (queue_rep_bound _ _ Hrep) as Hb. destruct Hrep as [[rest Hi] Hl Hc Ha].
  pose proof (Zlen_nonneg ps). platform. unfold srpc_queue_push. rewrite Hc. case_if; bools; [by apply wp_ret|].
  rewrite Zlen_length.
  assert (Hr : exists r rest', rest = r :: rest').
  { rewrite Hi, Zlen_app in Hl. unfold Zlen in Hl at 1. rewrite length_map in Hl.
    destruct rest; [|eauto]. unfold Zlen in *. cbn in *. lia. }
  destruct Hr as (slot & rest' & ->).
  assert (Hs : q_item q !! length ps = Some slot).
  { rewrite Hi, lookup_app_r by (rewrite length_map; lia). by rewrite length_map, Nat.sub_diag. }
  (* the state once a packet is stored in the slot *)
  assert (Hok : queue_rep {| q_item_count := u8 (Zlen ps + 1);
      q_alloc_count := u8 (q_alloc_count q + 1);
      q_item := <[length ps := Some sdp]> (q_item q) |} (ps ++ [sdp])).
  { constructor; cbn [q_item_count q_alloc_count q_item].
    - exists rest'. rewrite Hi, map_app, <-app_assoc. cbn [map app].
      rewrite insert_app_r_alt by (rewrite length_map; lia).
      by rewrite length_map, Nat.sub_diag.
    - unfold Zlen in *. by rewrite length_insert.
    - rewrite uN_small by lia. zlen.
    - rewrite uN_small by lia. zlen. }
  apply wp_bnd. eapply wp_opt; [done|]. apply wp_bnd. destruct slot as [old|].
  - apply wp_ret. apply wp_ret. split_and!; [done|done|]. by left.
  - apply wp_bnd, wp_next_request. intros refused h' He1 He2 [k Hk] Hno. apply wp_ret.
    assert (Hnr : refused = false -> never_refuses h -> never_refuses h').
    { intros Hf [? ?]. split; [by rewrite He2|]. rewrite Hk. by apply Forall_drop. }
    assert (Hh : heap_ok h -> heap_ok h').
    { intros [?|[? Ho]]; [by left|right]. by apply Hnr; [apply Hno|]. }
    assert (Hn : never_refuses h -> never_refuses h').
    { intros [? Ho]. apply Hnr; [by apply Hno|done]. }
    destruct refused; apply wp_ret; (split_and!; [done|done|]).
    + right. split_and!; [done|done|]. intros [_ Ho]. by specialize (Hno Ho).
    + by left.
Qed.

Definition asks_for (rr_id : Z) (p : sdp_t) : bool := (rr_id =? 0) || (sdp_rr_id p =? rr_id).

Lemma list_pop_Some rr_id ps p r :
  list_pop rr_id ps = Some (p, r) ->
  exists l1 l2, ps = l1 ++ p :: l2 /\ r = l1 ++ l2 /\
    Forall (fun x => asks_for rr_id x = false) l1 /\ asks_for rr_id p = true.
Proof.
  revert r. induction ps as [|x ps IH]; intros r; cbn; [done|].
  fold (asks_for rr_id x). destruct (asks_for rr_id x) eqn:E.
  - intros [= <- <-]. by exists [], ps.
  - destruct (list_pop rr_id ps) as [[q r']|]; [|done]. intros [= <- <-].
    destruct (IH r' eq_refl) as (l1 & l2 & -> & -> & ? & ?).
    exists (x :: l1), l2. split_and!; auto.
Qed.

Lemma list_pop_None rr_id ps :
  list_pop rr_id ps = None -> Forall (fun x => asks_for rr_id x = false) ps.
Proof.
  induction ps as [|x ps IH]; cbn; [done|]. fold (asks_for rr_id x).
  destruct (asks_for rr_id x) eqn:E; [done|].
  destruct (list_pop rr_id ps) as [[? ?]|]; [done|]. intros. constructor; auto.
Qed.

Lemma queue_scan_step rr_id item k a p :
  item !! a = Some (Some p) ->
  queue_scan item rr_id (S k) a
  = if asks_for rr_id p then Some (Some a) else queue_scan item rr_id k (S a).
Proof.
  intros E. cbn [queue_scan]. rewrite E. unfold asks_for. by destruct (rr_id =? 0).
Qed.

(** The scan passes over the packets that are not asked for. *)
Lemma queue_scan_skip rr_id rest l1 : forall l0 k,
  Forall (fun x => asks_for rr_id x = false) l1 ->
  queue_scan (map Some (l0 ++ l1) ++ rest) rr_id (length l1 + k) (length l0)
  = queue_scan (map Some (l0 ++ l1) ++ rest) rr_id k (length (l0 ++ l1)).
Proof.
  induction l1 as [|x l1 IH]; intros l0 k Hf; [by rewrite !app_nil_r|].
  inversion Hf as [|? ? Hx Hf' E1]; subst. cbn [length Nat.add].
  rewrite (queue_scan_step _ _ _ _ x), Hx.
  - specialize (IH (l0 ++ [x]) k Hf'). rewrite <-!app_assoc in IH. cbn [app] in IH.
    rewrite length_app in IH. cbn [length] in IH. rewrite Nat.add_1_r in IH. done.
  - rewrite lookup_app_l by (rewrite length_map, length_app; cbn; lia).
    rewrite list_lookup_fmap, lookup_app_r, Nat.sub_diag by lia. done.
Qed.

(** Shifting down by one over [length l2] packets. *)
Lemma queue_shift_spec rest l2 : forall l1 x,
  exists y, queue_shift (length l2) (length l1) (map Some l1 ++ x :: map Some l2 ++ rest)
  = Some (map Some (l1 ++ l2) ++ y :: rest).
Proof.
  induction l2 as [|p l2 IH]; intros l1 x; [exists x; by rewrite app_nil_r|].
  cbn [length queue_shift map app].
  rewrite lookup_app_r by (rewrite length_map; lia). rewrite length_map.
  replace (S (length l1) - length l1)%nat with 1%nat by lia. cbn [lookup list_lookup].
  rewrite insert_app_r_alt by (rewrite length_map; lia). rewrite length_map, Nat.sub_diag.
  cbn [insert list_insert]. destruct (IH (l1 ++ [p]) (Some p)) as [y Hy]. exists y.
  rewrite map_app, <-!app_assoc in Hy. cbn [map app] in Hy.
  rewrite length_app in Hy. cbn [length] in Hy. rewrite Nat.add_1_r in Hy. done.
Qed.

(** [srpc_queue_pop] computes [list_pop]. *)
Lemma queue_pop_ok q ps sdp rr_id :
  queue_rep q ps ->
  match list_pop rr_id ps with
  | Some (p, r) => exists q', srpc_queue_pop q sdp rr_id = Some (SUPLA_RESULT_TRUE, p, q')
                              /\ queue_rep q' r
  | None => srpc_queue_pop q sdp rr_id = Some (SUPLA_RESULT_FALSE, sdp, q)
  end.
Proof.
  intros Hrep. pose proof (queue_rep_bound _ _ Hrep) as Hb. destruct Hrep as [[rest Hi] Hl Hc Ha].
  platform. unfold srpc_queue_pop. rewrite Hc, Zlen_length, Hi.
  destruct (list_pop rr_id ps) as [[p r]|] eqn:E.
  - apply list_pop_Some in E as (l1 & l2 & -> & -> & Hf & Hp).
    pose proof (queue_scan_skip rr_id (map Some (p :: l2) ++ rest) l1 [] (S (length l2)) Hf) as Hs.
    cbn [app length] in Hs. rewrite app_assoc, <-map_app in Hs.
    assert (Hlp : (map Some (l1 ++ p :: l2) ++ rest) !! length l1 = Some (Some p)).
    { rewrite lookup_app_l by (rewrite length_map, length_app; cbn; lia).
      rewrite list_lookup_fmap, lookup_app_r, Nat.sub_diag by lia. done. }
    rewrite length_app. cbn [length]. rewrite Hs, (queue_scan_step _ _ _ _ p), Hp by done. rewrite Hlp. clear Hs.
    (* whichever packet pointer is kept for reuse *)
    assert (Hbody : forall it alloc item,
      0 <= alloc <= SRPC_QUEUE_MIN_ALLOC_COUNT + Zlen (l1 ++ l2) ->
      item = map Some l1 ++ it :: map Some l2 ++ rest ->
      exists q', match item !! length l1 with
      | None => None
      | Some it =>
          match queue_shift (Z.to_nat (Zlen (l1 ++ p :: l2) - 1) - length l1) (length l1) item with
          | None => None
          | Some item =>
              let n := u8 (Zlen (l1 ++ p :: l2) - 1) in
              Some (SUPLA_RESULT_TRUE, p,
                {| q_item_count := n; q_alloc_count := alloc;
                   q_item := <[Z.to_nat n := it]> item |})
          end
      end = Some (SUPLA_RESULT_TRUE, p, q') /\ queue_rep q' (l1 ++ l2)).
    { intros it alloc item Hal ->. rewrite lookup_app_r by (rewrite length_map; lia).
      rewrite length_map, Nat.sub_diag. cbn [lookup list_lookup].
      assert (Hn : Zlen (l1 ++ p :: l2) - 1 = Zlen (l1 ++ l2)) by zlen.
      rewrite Hn, Zlen_length, length_app.
      replace (length l1 + length l2 - length l1)%nat with (length l2) by lia.
      destruct (queue_shift_spec rest l2 l1 it) as [y ->].
      pose proof (Zlen_nonneg (l1 ++ l2)). rewrite uN_small by lia. rewrite Zlen_length.
      cbv zeta. eexists. split; [done|]. constructor; cbn [q_item q_item_count q_alloc_count].
      - exists (it :: rest). rewrite insert_app_r_alt by (rewrite length_map; lia).
        by rewrite length_map, Nat.sub_diag.
      - unfold Zlen. rewrite length_insert. rewrite <-Hl. unfold Zlen. rewrite Hi.
        rewrite !length_app, !length_map, !length_app. cbn. lia.
      - done.
      - done. }
    assert (Zlen (l1 ++ p :: l2) = 1 + Zlen (l1 ++ l2)) as Hlen by zlen.
    pose proof (Zlen_nonneg (l1 ++ l2)).
    assert (Hsplit : map Some (l1 ++ p :: l2) ++ rest = map Some l1 ++ Some p :: map Some l2 ++ rest)
      by (rewrite map_app, <-app_assoc; done).
    destruct (SRPC_QUEUE_MIN_ALLOC_COUNT <? q_alloc_count q) eqn:Er; bools.
    + apply Hbody with (it := None); [rewrite uN_small; lia|].
      rewrite Hsplit, insert_app_r_alt by (rewrite length_map; lia).
      by rewrite length_map, Nat.sub_diag.
    + apply Hbody with (it := Some p); [lia|done].
  - apply list_pop_None in E.
    pose proof (queue_scan_skip rr_id rest ps [] 0 E) as Hs. cbn [app length] in Hs.
    rewrite Nat.add_0_r in Hs. rewrite Hs. done.
Qed.

End Facts.
