(* ===== verification/Srpc.v ===== *)
(** * srpc.c: the remote-call engine

    [Tsrpc] of [src/src/supla-common/srpc.c] with the operations that move packets:
    [srpc_iterate], [srpc_iterate_device], [srpc_async__call], the version functions.

    The functions run over a [world]: the [Tsrpc] object, the allocator, what the peer
    will deliver to [data_read], and the trace of what the code does outside (bytes
    written, callbacks invoked).  The callbacks of [TsrpcParams] are functions over the
    world, because they may call back into this layer. *)
From S2P Require Import Prelude Platform Heap Lck CLayout ProtoConsts ProtoTypes Proto.
From S2P Require Import SrpcQueue.

(** ** State *)

Record Tsrpc := {
  srpc_proto : option TSuplaProtoData;     (* null when [sproto_init] failed *)
  srpc_sdp : sdp_t;
  srpc_in_queue : Tsrpc_Queue;
  srpc_out_queue : Tsrpc_Queue;
  srpc_lck : lck_t
}.

(** What the transport has for the coming calls of [data_read]. *)
Inductive input :=
| Arrived (b : bytes)                      (* bytes in the receive window *)
| NoData                                   (* nothing to read now *)
| Closed.                                  (* the peer closed the connection *)

(** What the layer does outside its own state; [lck] is the state of the lock while a
    callback runs. *)
Inductive event :=
| EvWrite (b : bytes)                      (* [data_write] *)
| EvRemoteCall (sdp : sdp_t) (lck : lck_t) (* [on_remote_call_received], for this packet *)
| EvVersionError (version : Z) (lck : lck_t) (* [on_version_error] *)
| EvBeforeCall (call_id : Z)               (* [before_async_call] *)
| EvMinVersion (call_id version : Z)       (* [on_min_version_required] *)
| EvRaise.                                 (* [eh_raise_event] *)

Record world := {
  w_srpc : Tsrpc;
  w_heap : heap;
  w_input : list input;
  w_trace : list event
}.

(** The callbacks of [TsrpcParams]; [None] is a null pointer. *)
Class TsrpcParams := {
  on_remote_call_received : option (Z -> Z -> Z -> M world unit);
  on_version_error : option (Z -> M world unit);
  before_async_call : option (Z -> M world unit);
  on_min_version_required : option (Z -> Z -> M world unit);
  params_eh : bool                         (* the event handler is not null *)
}.

(** ** Access to the parts of the world *)

Definition set_srpc (f : Tsrpc -> Tsrpc) : M world unit :=
  mmod (fun w => {| w_srpc := f (w_srpc w); w_heap := w_heap w;
                    w_input := w_input w; w_trace := w_trace w |}).

Definition set_sdp (sdp : sdp_t) : M world unit :=
  set_srpc (fun s => {| srpc_proto := srpc_proto s; srpc_sdp := sdp;
    srpc_in_queue := srpc_in_queue s; srpc_out_queue := srpc_out_queue s;
    srpc_lck := srpc_lck s |}).

Definition set_proto (p : TSuplaProtoData) : M world unit :=
  set_srpc (fun s => {| srpc_proto := Some p; srpc_sdp := srpc_sdp s;
    srpc_in_queue := srpc_in_queue s; srpc_out_queue := srpc_out_queue s;
    srpc_lck := srpc_lck s |}).

Definition set_in_queue (q : Tsrpc_Queue) : M world unit :=
  set_srpc (fun s => {| srpc_proto := srpc_proto s; srpc_sdp := srpc_sdp s;
    srpc_in_queue := q; srpc_out_queue := srpc_out_queue s; srpc_lck := srpc_lck s |}).

Definition set_out_queue (q : Tsrpc_Queue) : M world unit :=
  set_srpc (fun s => {| srpc_proto := srpc_proto s; srpc_sdp := srpc_sdp s;
    srpc_in_queue := srpc_in_queue s; srpc_out_queue := q; srpc_lck := srpc_lck s |}).

Definition set_lck (l : lck_t) : M world unit :=
  set_srpc (fun s => {| srpc_proto := srpc_proto s; srpc_sdp := srpc_sdp s;
    srpc_in_queue := srpc_in_queue s; srpc_out_queue := srpc_out_queue s; srpc_lck := l |}).

Definition get_srpc : M world Tsrpc := fun w => Some (w_srpc w, w).

(** [srpc->proto], dereferenced. *)
Definition get_proto : M world TSuplaProtoData :=
  let! s := get_srpc in mopt (srpc_proto s).

(** An operation on the allocator. *)
Definition on_heap {A} (m : M heap A) : M world A := fun w =>
  match m (w_heap w) with
  | Some (a, h) => Some (a, {| w_srpc := w_srpc w; w_heap := h;
                               w_input := w_input w; w_trace := w_trace w |})
  | None => None
  end.

Definition emit (e : event) : M world unit :=
  mmod (fun w => {| w_srpc := w_srpc w; w_heap := w_heap w;
                    w_input := w_input w; w_trace := w_trace w ++ [e] |}).

(** [data_read (buf, count)]: the bytes that have arrived, at most [count] of them; the
    rest waits for the next call.  The result is the value returned and the bytes. *)
Definition data_read (count : Z) : M world (Z * bytes) := fun w =>
  let set i := {| w_srpc := w_srpc w; w_heap := w_heap w; w_input := i; w_trace := w_trace w |} in
  match w_input w with
  | [] => Some ((-1, []), w)
  | NoData :: i => Some ((-1, []), set i)
  | Closed :: i => Some ((0, []), set i)
  | Arrived b :: i =>
      if Zlen b <=? count then Some ((Zlen b, b), set i)
      else Some ((count, take (Z.to_nat count) b),
                 set (Arrived (drop (Z.to_nat count) b) :: i))
  end.

(** [data_write (buf, count)]; the code ignores its result. *)
Definition data_write (b : bytes) : M world unit := emit (EvWrite b).

Section Srpc.
Context `{Platform} {params : TsrpcParams}.

Definition srpc_lock : M world unit :=
  let! s := get_srpc in let! l := mopt (lck_lock (srpc_lck s)) in set_lck l.

Definition srpc_unlock : M world unit :=
  let! s := get_srpc in let! l := mopt (lck_unlock (srpc_lck s)) in set_lck l.

(** [return lck_unlock_r (srpc->lck, result);] before the conversion to the caller's type *)
Definition unlock_r (result : Z) : M world Z :=
  let! s := get_srpc in
  let! (r, l) := mopt (lck_unlock_r (srpc_lck s) result) in
  set_lck l ;;; mret r.

(** The same in a function that returns [char]. *)
Definition unlock_c (result : Z) : M world Z :=
  let! r := unlock_r result in mret (to_char r).

(** [srpc_init]: a new object, or null ([None]). *)
Definition srpc_init : M heap (option Tsrpc) :=
  let! refused := next_request in
  if refused then mret None
  else
    let! proto := sproto_init in
    let! lck := lck_init in
    mret (Some {| srpc_proto := proto;
      srpc_sdp := sdp_decode (zeros (sizeof TSuplaDataPacket));
      srpc_in_queue := queue_zero; srpc_out_queue := queue_zero; srpc_lck := lck |}).

Definition srpc_free (s : option Tsrpc) : M heap (option Tsrpc) :=
  match s with
  | None => mret None
  | Some s =>
      sproto_free (srpc_proto s) ;;;
      mret (Some {| srpc_proto := srpc_proto s; srpc_sdp := srpc_sdp s;
        srpc_in_queue := if SRPC_WITHOUT_IN_QUEUE then srpc_in_queue s
                         else srpc_queue_free (srpc_in_queue s);
        srpc_out_queue := if SRPC_WITHOUT_OUT_QUEUE then srpc_out_queue s
                          else srpc_queue_free (srpc_out_queue s);
        srpc_lck := lck_free (srpc_lck s) |})
  end.

(** ** Queues *)

Definition srpc_in_queue_pop (rr_id : Z) : M world Z :=
  if SRPC_WITHOUT_IN_QUEUE then mret 1
  else
    let! s := get_srpc in
    let! (r, sdp, q) := mopt (srpc_queue_pop (srpc_in_queue s) (srpc_sdp s) rr_id) in
    set_sdp sdp ;;; set_in_queue q ;;; mret r.

Definition srpc_in_queue_push (sdp : sdp_t) : M world Z :=
  let! s := get_srpc in
  let! (r, q) := on_heap (srpc_queue_push (srpc_in_queue s) sdp) in
  set_in_queue q ;;; mret r.

(** The size [srpc_out_queue_push] writes when there is no queue. *)
Definition direct_size (sdp : sdp_t) : Z :=
  if sdp_data_size sdp <? SUPLA_MAX_DATA_SIZE
  then u32 (sizeof TSuplaDataPacket - u32 (SUPLA_MAX_DATA_SIZE - sdp_data_size sdp))
  else sizeof TSuplaDataPacket.

Definition srpc_out_queue_push (sdp : sdp_t) : M world Z :=
  if SRPC_WITHOUT_OUT_QUEUE then
    let data_size := direct_size sdp in
    let! body := mopt (peek 0 data_size (sdp_encode sdp)) in
    if negb PACKET_INTEGRITY_BUFFER_DISABLED then
      let! refused := on_heap next_request in
      (if refused then mret tt else data_write (body ++ sproto_tag)) ;;; mret 1
    else data_write body ;;; data_write sproto_tag ;;; mret 1
  else
    let! s := get_srpc in
    let! (r, q) := on_heap (srpc_queue_push (srpc_out_queue s) sdp) in
    set_out_queue q ;;; mret r.

(** [srpc_out_queue_pop (srpc, &srpc->sdp, rr_id)] *)
Definition srpc_out_queue_pop (rr_id : Z) : M world Z :=
  let! s := get_srpc in
  let! (r, sdp, q) := mopt (srpc_queue_pop (srpc_out_queue s) (srpc_sdp s) rr_id) in
  set_sdp sdp ;;; set_out_queue q ;;; mret r.

Definition srpc_out_queue_item_count : M world Z :=
  if SRPC_WITHOUT_OUT_QUEUE then mret 0
  else let! s := get_srpc in mret (q_item_count (srpc_out_queue s)).

Definition srpc_input_dataexists : M world Z :=
  srpc_lock ;;; let! p := get_proto in unlock_c (sproto_in_dataexists p).

Definition srpc_output_dataexists : M world Z :=
  srpc_lock ;;; let! p := get_proto in unlock_c (sproto_out_dataexists p).

(** ** The iteration of the engine *)

(** [sproto_in_buffer_append (srpc->proto, data_buffer, data_size)] *)
Definition proto_append (data : bytes) (n : Z) : M world Z :=
  let! p := get_proto in
  let! (r, p) := on_heap (sproto_in_buffer_append p data n) in
  set_proto p ;;; mret r.

(** [sproto_pop_in_sdp (srpc->proto, &srpc->sdp)] *)
Definition proto_pop : M world Z :=
  let! p := get_proto in
  let! s := get_srpc in
  let! (r, sdp, p) := on_heap (sproto_pop_in_sdp p (srpc_sdp s)) in
  set_proto p ;;; set_sdp sdp ;;; mret r.

(** [sproto_out_buffer_append (srpc->proto, &srpc->sdp)] *)
Definition proto_out_append : M world Z :=
  let! p := get_proto in
  let! s := get_srpc in
  let! (r, p) := on_heap (sproto_out_buffer_append p (srpc_sdp s)) in
  set_proto p ;;; mret r.

(** [sproto_pop_out_data (srpc->proto, data_buffer, SRPC_BUFFER_SIZE)]: the count and
    the first [count] bytes of the buffer. *)
Definition proto_pop_out : M world (Z * bytes) :=
  let! p := get_proto in
  let! (n, buf, p) :=
    on_heap (sproto_pop_out_data p (Some (zeros SRPC_BUFFER_SIZE)) SRPC_BUFFER_SIZE) in
  set_proto p ;;;
  let! d := mopt (match buf with Some b => peek 0 n b | None => None end) in
  mret (n, d).

(** Telling the user about the packet in [srpc->sdp], outside the lock. *)
Definition notify_remote_call : M world unit :=
  match on_remote_call_received with
  | None => mret tt
  | Some f =>
      srpc_unlock ;;;
      let! s := get_srpc in
      emit (EvRemoteCall (srpc_sdp s) (srpc_lck s)) ;;;
      f (sdp_rr_id (srpc_sdp s)) (sdp_call_id (srpc_sdp s)) (sdp_version (srpc_sdp s)) ;;;
      srpc_lock
  end.

(** The branch for a result of [sproto_pop_in_sdp] that is neither TRUE nor FALSE. *)
Definition pop_failed (result : Z) : M world Z :=
  if result =? to_char SUPLA_RESULT_VERSION_ERROR then
    match on_version_error with
    | Some f =>
        let! s := get_srpc in
        srpc_unlock ;;;
        let! s' := get_srpc in
        emit (EvVersionError (sdp_version (srpc_sdp s)) (srpc_lck s')) ;;;
        f (sdp_version (srpc_sdp s)) ;;;
        mret SUPLA_RESULT_FALSE
    | None => unlock_c SUPLA_RESULT_FALSE
    end
  else unlock_c SUPLA_RESULT_FALSE.

Definition raise_eh : M world unit := if params_eh then emit EvRaise else mret tt.

(** The oldest queued packet moves to the output buffer. *)
Definition queue_to_buffer : M world Z :=
  let! popped := srpc_out_queue_pop 0 in
  if popped =? SUPLA_RESULT_TRUE then proto_out_append else mret SUPLA_RESULT_TRUE.

(** The head of the output buffer is written. *)
Definition buffer_to_wire : M world unit :=
  let! (n, d) := proto_pop_out in
  if negb (n =? 0) then data_write d else mret tt.

(** Another iteration is asked for while there is something left to do. *)
Definition announce_rest (raise_event : bool) : M world unit :=
  if EH_DISABLED then mret tt
  else
    let! p := get_proto in
    let! count := srpc_out_queue_item_count in
    if (sproto_out_dataexists p =? 1) || negb (count =? 0) || raise_event
    then raise_eh else mret tt.

(** The output half of [srpc_iterate]. *)
Definition iterate_out (raise_event : bool) : M world Z :=
  if SRPC_WITHOUT_OUT_QUEUE then
    (if negb EH_DISABLED && raise_event then raise_eh else mret tt) ;;;
    unlock_c SUPLA_RESULT_TRUE
  else
    let! result := queue_to_buffer in
    if negb (result =? SUPLA_RESULT_TRUE) && negb (result =? SUPLA_RESULT_FALSE)
    then unlock_c SUPLA_RESULT_FALSE
    else buffer_to_wire ;;; announce_rest raise_event ;;; unlock_c SUPLA_RESULT_TRUE.

Definition srpc_iterate : M world Z :=
  srpc_lock ;;;
  let! (data_size, data) := data_read SRPC_BUFFER_SIZE in
  if data_size =? 0 then unlock_c SUPLA_RESULT_FALSE
  else
    let! result := (if 0 <? data_size then proto_append data data_size
                    else mret SUPLA_RESULT_TRUE) in
    if negb (result =? SUPLA_RESULT_TRUE) then unlock_c SUPLA_RESULT_FALSE
    else
      let! result := proto_pop in
      if result =? SUPLA_RESULT_TRUE then
        let! p := get_proto in
        let raise_event := negb EH_DISABLED && (sproto_in_dataexists p =? 1) in
        if SRPC_WITHOUT_IN_QUEUE then notify_remote_call ;;; iterate_out raise_event
        else
          let! s := get_srpc in
          let! pushed := srpc_in_queue_push (srpc_sdp s) in
          if pushed =? SUPLA_RESULT_TRUE
          then notify_remote_call ;;; iterate_out raise_event
          else unlock_c SUPLA_RESULT_FALSE
      else if negb (result =? SUPLA_RESULT_FALSE) then pop_failed result
      else iterate_out false.

(** [while ((result = sproto_pop_in_sdp (..)) == SUPLA_RESULT_TRUE) { .. }]: the result
    that ends the loop; [None] when the fuel runs out. *)
Fixpoint pop_loop (fuel : nat) : M world (option Z) :=
  match fuel with
  | O => mret None
  | S fuel =>
      let! result := proto_pop in
      if result =? SUPLA_RESULT_TRUE then notify_remote_call ;;; pop_loop fuel
      else mret (Some result)
  end.

(** [srpc_iterate_device]; the outer loop never runs a second time, since each of its
    iterations ends in a return or in a break.  [None] is an exhausted fuel. *)
Definition srpc_iterate_device (fuel : nat) : M world (option Z) :=
  srpc_lock ;;;
  let! (data_size, data) := data_read SRPC_BUFFER_SIZE in
  if 0 <? data_size then
    let! result := proto_append data data_size in
    if negb (result =? SUPLA_RESULT_TRUE)
    then let! r := unlock_c SUPLA_RESULT_FALSE in mret (Some r)
    else
      let! ended := pop_loop fuel in
      match ended with
      | None => mret None
      | Some result =>
          if negb (result =? SUPLA_RESULT_FALSE)
          then let! r := pop_failed result in mret (Some r)
          else let! r := unlock_c SUPLA_RESULT_TRUE in mret (Some r)
      end
  else if data_size =? 0 then let! r := unlock_c SUPLA_RESULT_FALSE in mret (Some r)
  else let! r := unlock_c SUPLA_RESULT_TRUE in mret (Some r).

(** ** Versions *)

Definition srpc_get_proto_version : M world Z :=
  srpc_lock ;;; let! p := get_proto in srpc_unlock ;;; mret (sproto_get_version p).

Definition srpc_set_proto_version (version : Z) : M world unit :=
  srpc_lock ;;; let! p := get_proto in
  set_proto (sproto_set_version p version) ;;; srpc_unlock.

End Srpc.
