(* ===== verification/SrpcCall.v ===== *)
(** * srpc.c: sending a call

    The version gate ([srpc_call_min_version_required], [srpc_call_allowed]) and
    [srpc_async__call], through which every sender of srpc.c goes. *)
From S2P Require Import Prelude Platform Heap Lck CLayout ProtoConsts ProtoTypes Proto.
From S2P Require Import SrpcQueue Srpc.

(** The cases of the switch in [srpc_call_min_version_required]: the protocol version
    that introduced each call. *)
Definition min_version_table : list (list Z * Z) :=
  [([SUPLA_DCS_CALL_GETVERSION;
     SUPLA_SDC_CALL_GETVERSION_RESULT;
     SUPLA_SDC_CALL_VERSIONERROR;
     SUPLA_DCS_CALL_PING_SERVER;
     SUPLA_SDC_CALL_PING_SERVER_RESULT;
     SUPLA_DS_CALL_REGISTER_DEVICE;
     SUPLA_SD_CALL_REGISTER_DEVICE_RESULT;
     SUPLA_CS_CALL_REGISTER_CLIENT;
     SUPLA_SC_CALL_REGISTER_CLIENT_RESULT;
     SUPLA_DS_CALL_DEVICE_CHANNEL_VALUE_CHANGED;
     SUPLA_SD_CALL_CHANNEL_SET_VALUE;
     SUPLA_DS_CALL_CHANNEL_SET_VALUE_RESULT;
     SUPLA_SC_CALL_LOCATION_UPDATE;
     SUPLA_SC_CALL_LOCATIONPACK_UPDATE;
     SUPLA_SC_CALL_CHANNELPACK_UPDATE;
     SUPLA_SC_CALL_CHANNEL_VALUE_UPDATE;
     SUPLA_CS_CALL_GET_NEXT;
     SUPLA_SC_CALL_EVENT;
     SUPLA_CS_CALL_CHANNEL_SET_VALUE], 1);
   ([SUPLA_DS_CALL_REGISTER_DEVICE_B;
     SUPLA_DCS_CALL_SET_ACTIVITY_TIMEOUT;
     SUPLA_SDC_CALL_SET_ACTIVITY_TIMEOUT_RESULT], 2);
   ([SUPLA_CS_CALL_CHANNEL_SET_VALUE_B], 3);
   ([SUPLA_DS_CALL_GET_FIRMWARE_UPDATE_URL;
     SUPLA_SD_CALL_GET_FIRMWARE_UPDATE_URL_RESULT], 5);
   ([SUPLA_DS_CALL_REGISTER_DEVICE_C;
     SUPLA_CS_CALL_REGISTER_CLIENT_B], 6);
   ([SUPLA_CS_CALL_REGISTER_CLIENT_C;
     SUPLA_DS_CALL_REGISTER_DEVICE_D;
     SUPLA_DCS_CALL_GET_REGISTRATION_ENABLED;
     SUPLA_SDC_CALL_GET_REGISTRATION_ENABLED_RESULT], 7);
   ([SUPLA_SC_CALL_CHANNELPACK_UPDATE_B], 8);
   ([SUPLA_SC_CALL_REGISTER_CLIENT_RESULT_B;
     SUPLA_SC_CALL_CHANNELGROUP_PACK_UPDATE;
     SUPLA_SC_CALL_CHANNELGROUP_RELATION_PACK_UPDATE;
     SUPLA_SC_CALL_CHANNELVALUE_PACK_UPDATE;
     SUPLA_CS_CALL_SET_VALUE], 9);
   ([SUPLA_DS_CALL_DEVICE_CHANNEL_EXTENDEDVALUE_CHANGED;
     SUPLA_SC_CALL_CHANNELEXTENDEDVALUE_PACK_UPDATE;
     SUPLA_CS_CALL_OAUTH_TOKEN_REQUEST;
     SUPLA_SC_CALL_OAUTH_TOKEN_REQUEST_RESULT;
     SUPLA_DS_CALL_REGISTER_DEVICE_E;
     SUPLA_CS_CALL_SUPERUSER_AUTHORIZATION_REQUEST;
     SUPLA_SC_CALL_SUPERUSER_AUTHORIZATION_RESULT;
     SUPLA_CS_CALL_DEVICE_CALCFG_REQUEST;
     SUPLA_SC_CALL_DEVICE_CALCFG_RESULT;
     SUPLA_SD_CALL_DEVICE_CALCFG_REQUEST;
     SUPLA_DS_CALL_DEVICE_CALCFG_RESULT;
     SUPLA_SC_CALL_CHANNELGROUP_PACK_UPDATE_B;
     SUPLA_SC_CALL_CHANNELPACK_UPDATE_C], 10);
   ([SUPLA_DCS_CALL_GET_USER_LOCALTIME;
     SUPLA_DCS_CALL_GET_USER_LOCALTIME_RESULT;
     SUPLA_CS_CALL_DEVICE_CALCFG_REQUEST_B], 11);
   ([SUPLA_CS_CALL_REGISTER_CLIENT_D;
     SUPLA_CSD_CALL_GET_CHANNEL_STATE;
     SUPLA_DSC_CALL_CHANNEL_STATE_RESULT;
     SUPLA_CS_CALL_GET_CHANNEL_BASIC_CFG;
     SUPLA_SC_CALL_CHANNEL_BASIC_CFG_RESULT;
     SUPLA_CS_CALL_SET_CHANNEL_FUNCTION;
     SUPLA_SC_CALL_SET_CHANNEL_FUNCTION_RESULT;
     SUPLA_DCS_CALL_SET_CHANNEL_CAPTION;
     SUPLA_SCD_CALL_SET_CHANNEL_CAPTION_RESULT;
     SUPLA_CS_CALL_CLIENTS_RECONNECT_REQUEST;
     SUPLA_SC_CALL_CLIENTS_RECONNECT_REQUEST_RESULT;
     SUPLA_CS_CALL_SET_REGISTRATION_ENABLED;
     SUPLA_SC_CALL_SET_REGISTRATION_ENABLED_RESULT;
     SUPLA_CS_CALL_DEVICE_RECONNECT_REQUEST;
     SUPLA_SC_CALL_DEVICE_RECONNECT_REQUEST_RESULT;
     SUPLA_DS_CALL_DEVICE_CHANNEL_VALUE_CHANGED_B;
     SUPLA_DS_CALL_DEVICE_CHANNEL_VALUE_CHANGED_C;
     SUPLA_DS_CALL_GET_CHANNEL_FUNCTIONS;
     SUPLA_SD_CALL_GET_CHANNEL_FUNCTIONS_RESULT;
     SUPLA_CS_CALL_GET_SUPERUSER_AUTHORIZATION_RESULT], 12);
   ([SUPLA_SD_CALL_CHANNELGROUP_SET_VALUE], 13);
   ([SUPLA_CS_CALL_SET_LOCATION_CAPTION;
     SUPLA_SC_CALL_SET_LOCATION_CAPTION_RESULT], 14);
   ([SUPLA_SC_CALL_CHANNELPACK_UPDATE_D;
     SUPLA_SC_CALL_CHANNEL_VALUE_UPDATE_B;
     SUPLA_SC_CALL_CHANNELVALUE_PACK_UPDATE_B], 15);
   ([SUPLA_DS_CALL_GET_CHANNEL_CONFIG;
     SUPLA_SD_CALL_GET_CHANNEL_CONFIG_RESULT;
     SUPLA_DS_CALL_ACTIONTRIGGER], 16);
   ([SUPLA_SC_CALL_REGISTER_CLIENT_RESULT_C;
     SUPLA_CS_CALL_TIMER_ARM], 17);
   ([SUPLA_SC_CALL_SCENE_PACK_UPDATE;
     SUPLA_SC_CALL_SCENE_STATE_PACK_UPDATE], 18);
   ([SUPLA_CS_CALL_EXECUTE_ACTION;
     SUPLA_CS_CALL_EXECUTE_ACTION_WITH_AUTH;
     SUPLA_SC_CALL_ACTION_EXECUTION_RESULT;
     SUPLA_SC_CALL_REGISTER_CLIENT_RESULT_D;
     SUPLA_CS_CALL_GET_CHANNEL_VALUE_WITH_AUTH;
     SUPLA_SC_CALL_GET_CHANNEL_VALUE_RESULT;
     SUPLA_CS_CALL_SET_SCENE_CAPTION;
     SUPLA_SC_CALL_SET_SCENE_CAPTION_RESULT], 19);
   ([SUPLA_DS_CALL_REGISTER_PUSH_NOTIFICATION;
     SUPLA_DS_CALL_SEND_PUSH_NOTIFICATION;
     SUPLA_CS_CALL_REGISTER_PN_CLIENT_TOKEN;
     SUPLA_SC_CALL_REGISTER_PN_CLIENT_TOKEN_RESULT;
     SUPLA_CS_CALL_SET_CHANNEL_GROUP_CAPTION;
     SUPLA_SC_CALL_SET_CHANNEL_GROUP_CAPTION_RESULT], 20);
   ([SUPLA_DS_CALL_SET_CHANNEL_CONFIG;
     SUPLA_SD_CALL_SET_CHANNEL_CONFIG_RESULT;
     SUPLA_SD_CALL_SET_CHANNEL_CONFIG;
     SUPLA_DS_CALL_SET_CHANNEL_CONFIG_RESULT;
     SUPLA_DS_CALL_SET_DEVICE_CONFIG;
     SUPLA_SD_CALL_SET_DEVICE_CONFIG_RESULT;
     SUPLA_SD_CALL_SET_DEVICE_CONFIG;
     SUPLA_DS_CALL_SET_DEVICE_CONFIG_RESULT;
     SUPLA_SC_CALL_CHANNEL_RELATION_PACK_UPDATE;
     SUPLA_CS_CALL_GET_CHANNEL_CONFIG;
     SUPLA_SC_CALL_CHANNEL_CONFIG_UPDATE_OR_RESULT;
     SUPLA_CS_CALL_SET_CHANNEL_CONFIG;
     SUPLA_CS_CALL_GET_DEVICE_CONFIG;
     SUPLA_SC_CALL_DEVICE_CONFIG_UPDATE_OR_RESULT;
     SUPLA_SD_CALL_CHANNEL_CONFIG_FINISHED], 21);
   ([SUPLA_SC_CALL_CHANNELPACK_UPDATE_E;
     SUPLA_DS_CALL_REGISTER_DEVICE_F], 23);
   ([SUPLA_DS_CALL_REGISTER_DEVICE_G;
     SUPLA_SD_CALL_REGISTER_DEVICE_RESULT_B;
     SUPLA_DS_CALL_SET_SUBDEVICE_DETAILS], 25);
   ([SUPLA_SC_CALL_CHANNEL_STATE_PACK_UPDATE], 26)].

Definition srpc_call_min_version_required (call_id : Z) : Z :=
  match find (fun row => existsb (Z.eqb call_id) row.1) min_version_table with
  | Some row => row.2
  | None => 255
  end.

Section Call.
Context `{Platform} {params : TsrpcParams}.

Definition srpc_call_allowed (call_id : Z) : M world bool :=
  let min_ver := srpc_call_min_version_required call_id in
  if min_ver =? 0 then mret true
  else let! version := srpc_get_proto_version in mret (min_ver <=? version).

(** [data] is null or the caller's object; [version] is null or the version byte to
    send.  The result is 0 or the identifier of the packet, converted to [int] and then
    to the 32-bit result type. *)
Definition srpc_async__call (call_id : Z) (data : option bytes) (data_size : Z)
    (version : option Z) : M world Z :=
  let! allowed := srpc_call_allowed call_id in
  if negb allowed then
    (match on_min_version_required with
     | Some f =>
         emit (EvMinVersion call_id (srpc_call_min_version_required call_id)) ;;;
         f call_id (srpc_call_min_version_required call_id)
     | None => mret tt
     end) ;;;
    mret SUPLA_RESULT_FALSE
  else
    (match before_async_call with
     | Some f => emit (EvBeforeCall call_id) ;;; f call_id
     | None => mret tt
     end) ;;;
    srpc_lock ;;;
    let! p := get_proto in
    let (sdp, p) := sproto_sdp_init p in
    set_proto p ;;;
    let sdp := match version with
               | Some v => {| sdp_tag := sdp_tag sdp; sdp_version := v;
                   sdp_rr_id := sdp_rr_id sdp; sdp_call_id := sdp_call_id sdp;
                   sdp_data_size := sdp_data_size sdp; sdp_data := sdp_data sdp |}
               | None => sdp
               end in
    let! (r, sdp) := mopt (sproto_set_data sdp data data_size call_id) in
    set_sdp sdp ;;;
    if r =? SUPLA_RESULT_TRUE then
      let! pushed := srpc_out_queue_push sdp in
      if negb (pushed =? 0) then
        (if EH_DISABLED then mret tt else raise_eh) ;;;
        let! s := get_srpc in unlock_r (sdp_rr_id (srpc_sdp s))
      else unlock_r SUPLA_RESULT_FALSE
    else unlock_r SUPLA_RESULT_FALSE.

Definition srpc_async_call (call_id : Z) (data : option bytes) (data_size : Z) : M world Z :=
  srpc_async__call call_id data data_size None.

End Call.
