(* ===== verification/SrpcFacts.v ===== *)
(** * srpc.c: lemmas on the engine

    The invariant of the world, the contract the callbacks keep, and the effect of each
    step of the engine, for the properties of [SrpcProps]. *)
From S2P Require Import Prelude Platform Heap Lck CLayout ProtoConsts ProtoTypes Proto ProtoFacts.
From S2P Require Import ProtoProps SrpcQueue Srpc SrpcCall.

(** ** The parts of the world the statements mention *)

Definition w_lck (w : world) : lck_t := srpc_lck (w_srpc w).
Definition w_sdp (w : world) : sdp_t := srpc_sdp (w_srpc w).

(** The received bytes that are not yet delivered. *)
Definition in_bytes (w : world) : bytes :=
  match srpc_proto (w_srpc w) with Some p => in_contents p | None => [] end.

(** The negotiated protocol version. *)
Definition version_of (w : world) : Z :=
  match srpc_proto (w_srpc w) with Some p => spd_version p | None => 0 end.

(** The bytes in the output buffer. *)
Definition out_bytes (w : world) : bytes :=
  match srpc_proto (w_srpc w) with Some p => out_contents p | None => [] end.

(** The packets handed to [on_remote_call_received], in order, each with the state of
    the lock while the callback ran. *)
Definition deliveries (w : world) : list (sdp_t * lck_t) :=
  omap (fun e => match e with EvRemoteCall sdp l => Some (sdp, l) | _ => None end) (w_trace w).

(** The bytes handed to [data_write], in order. *)
Definition written (w : world) : bytes :=
  concat (omap (fun e => match e with EvWrite b => Some b | _ => None end) (w_trace w)).

(** Everything sent so far: what was written and, in the builds that have an output
    queue, what is in the output buffer and the packets of the queue. *)
Definition sent `{Platform} (w : world) : bytes :=
  written w ++
  if SRPC_WITHOUT_OUT_QUEUE then []
  else out_bytes w ++ concat (map wire (queue_packets (srpc_out_queue (w_srpc w)))).

(** ** The monadic accessors *)

Lemma wp_on_heap {A} (m : M heap A) Q w :
  wp m (fun a h => Q a {| w_srpc := w_srpc w; w_heap := h; w_input := w_input w;
                          w_trace := w_trace w |}) (w_heap w) -> wp (on_heap m) Q w.
Proof. unfold wp, on_heap. by destruct (m (w_heap w)) as [[a h]|]. Qed.

Lemma wp_get_srpc Q w : Q (w_srpc w) w -> wp get_srpc Q w.
Proof. done. Qed.

Lemma wp_get_proto Q w p : srpc_proto (w_srpc w) = Some p -> Q p w -> wp get_proto Q w.
Proof. intros E HQ. unfold get_proto, wp, mbnd, get_srpc, mopt. by rewrite E. Qed.

(** Symbolic execution of the engine. *)
Ltac srpc_steps :=
  repeat first
    [ wp_step
    | lazymatch goal with
      | |- wp get_srpc _ _ => apply wp_get_srpc
      | |- wp (set_srpc _) _ _ => apply wp_mod
      | |- wp (set_sdp _) _ _ => apply wp_mod
      | |- wp (set_proto _) _ _ => apply wp_mod
      | |- wp (set_in_queue _) _ _ => apply wp_mod
      | |- wp (set_out_queue _) _ _ => apply wp_mod
      | |- wp (set_lck _) _ _ => apply wp_mod
      | |- wp (emit _) _ _ => apply wp_mod
      | |- wp (on_heap _) _ _ => apply wp_on_heap
      | |- wp (get_proto) _ _ => eapply wp_get_proto; [first [eassumption|reflexivity]|]
      end ].

(** ** The invariant and the contract of the callbacks *)

Section Facts.
Context `{PL : PlatformLaws}.

(** A packet waiting in the output queue. *)
Definition packet_ok (p : sdp_t) : Prop := sdp_wf p /\ sdp_data_size p <= SUPLA_MAX_DATA_SIZE.

(** The invariant of the engine. *)
Record world_ok (w : world) : Prop := {
  wok_proto : exists p, srpc_proto (w_srpc w) = Some p /\ spd_ok p;
  wok_sdp : sdp_fits (w_sdp w);
  wok_in : exists ps, queue_rep (srpc_in_queue (w_srpc w)) ps /\ Forall sdp_fits ps;
  wok_out : exists ps, queue_rep (srpc_out_queue (w_srpc w)) ps /\ Forall packet_ok ps;
  wok_heap : heap_ok (w_heap w);
  wok_lck : lck_ok (w_lck w)
}.

(** What a callback may do: anything that keeps the invariant, leaves the lock as it
    found it, and neither consumes input nor delivers packets.  [srpc_async_call],
    [srpc_getdata] and the version functions are of this kind. *)
Record keeps (w w' : world) : Prop := {
  keeps_ok : world_ok w';
  keeps_lck : w_lck w' = w_lck w;
  keeps_input : w_input w' = w_input w;
  keeps_in : in_bytes w' = in_bytes w;
  keeps_delivered : deliveries w' = deliveries w;
  keeps_nr : never_refuses (w_heap w) -> never_refuses (w_heap w')
}.

(** The contract of the callbacks the user installs. *)
Class ParamsLaws (params : TsrpcParams) := {
  remote_call_law : forall f rr call ver w, on_remote_call_received = Some f ->
    world_ok w -> wp (f rr call ver) (fun _ w' => keeps w w') w;
  version_error_law : forall f ver w, on_version_error = Some f ->
    world_ok w -> wp (f ver) (fun _ w' => keeps w w') w;
  before_call_law : forall f call w, before_async_call = Some f ->
    world_ok w -> wp (f call) (fun _ w' => keeps w w') w;
  min_version_law : forall f call ver w, on_min_version_required = Some f ->
    world_ok w -> wp (f call ver) (fun _ w' => keeps w w') w
}.

Lemma keeps_refl w : world_ok w -> keeps w w.
Proof. by constructor. Qed.

Lemma keeps_trans w w' w'' : keeps w w' -> keeps w' w'' -> keeps w w''.
Proof. intros [] []. constructor; [done|congruence..|auto]. Qed.

(** The world with another lock state. *)
Definition with_lck (w : world) (l : lck_t) : world :=
  {| w_srpc := {| srpc_proto := srpc_proto (w_srpc w); srpc_sdp := srpc_sdp (w_srpc w);
       srpc_in_queue := srpc_in_queue (w_srpc w); srpc_out_queue := srpc_out_queue (w_srpc w);
       srpc_lck := l |};
     w_heap := w_heap w; w_input := w_input w; w_trace := w_trace w |}.

Lemma wp_lock Q w : Q tt (with_lck w (held (w_lck w))) -> wp srpc_lock Q w.
Proof.
  intros HQ. unfold srpc_lock. srpc_steps.
  eapply wp_opt; [apply lck_lock_held|]. done.
Qed.

Lemma wp_unlock Q w l :
  lck_ok l -> w_lck w = held l -> Q tt (with_lck w l) -> wp srpc_unlock Q w.
Proof.
  intros Hl E HQ. unfold srpc_unlock. srpc_steps.
  unfold w_lck in E. rewrite E. eapply wp_opt; [by apply lck_unlock_held|]. done.
Qed.

Lemma wp_unlock_r r Q w l :
  lck_ok l -> w_lck w = held l -> Q (to_int r) (with_lck w l) -> wp (unlock_r r) Q w.
Proof.
  intros Hl E HQ. unfold unlock_r. srpc_steps.
  unfold w_lck in E. rewrite E. eapply wp_opt; [by apply lck_unlock_r_held|]. done.
Qed.

Lemma to_int_small r : 0 <= r <= 1 -> to_int r = r.
Proof. intros. unfold to_int. destruct AVR; apply sN_small; lia. Qed.

Lemma wp_unlock_c r Q w l :
  lck_ok l -> w_lck w = held l -> 0 <= r <= 1 -> Q r (with_lck w l) -> wp (unlock_c r) Q w.
Proof.
  intros Hl E Hr HQ. unfold unlock_c. srpc_steps. eapply wp_unlock_r; [done|done|].
  srpc_steps. rewrite to_int_small by done.
  assert (to_char r = r) as ->; [|done].
  destruct (Z.eq_dec r 0) as [->|]; [apply to_char_0|].
  replace r with 1 by lia. apply to_char_1.
Qed.

(** The lock is no part of the rest of the invariant. *)
Lemma world_ok_lck w l : world_ok w -> lck_ok l -> world_ok (with_lck w l).
Proof. by intros [] ?. Qed.

Lemma world_ok_emit w e : world_ok w ->
  world_ok {| w_srpc := w_srpc w; w_heap := w_heap w; w_input := w_input w;
              w_trace := w_trace w ++ [e] |}.
Proof. by intros []. Qed.

(** ** Input *)

(** The caller's packet keeps its shape. *)
Lemma overlay_shape n c sdp : sdp_shape sdp -> 0 <= n <= 18 + SUPLA_MAX_DATA_SIZE -> n <= Zlen c ->
  sdp_shape (overlay n c sdp).
Proof.
  intros Hs Hn Hc. apply sdp_decode_shape. pose proof (Zlen_sdp_shape _ Hs). zlen.
Qed.

Lemma pop_in_spec_shape c sdp r sdp' c' :
  sdp_shape sdp -> pop_in_spec c sdp = (r, sdp', c') ->
  sdp_shape sdp' /\ Zlen c' <= Zlen c /\ (r = SUPLA_RESULT_TRUE -> Zlen c' <= Zlen c - 5) /\
  (r = SUPLA_RESULT_TRUE \/ r = SUPLA_RESULT_FALSE \/ r = SUPLA_RESULT_DATA_ERROR
   \/ r = SUPLA_RESULT_VERSION_ERROR).
Proof.
  intros Hs. pose proof (Zlen_nonneg c). unfold pop_in_spec.
  set (n := u32 (18 + sdp_data_size (header c))).
  assert (Hn : 0 <= n) by (apply uN_range; lia).
  repeat case_if; intros [= <- <- <-]; bools; rewrite ?Zlen_nil; split_and!; auto; try lia; try done.
  - destruct Hs. constructor; try done. unfold with_version. cbn [sdp_version header sdp_decode].
    change (2 ^ 8) with (2 ^ (8 * Z.of_nat 1)). apply le_combine_range.
    rewrite length_take, length_drop. unfold Zlen in *. lia.
  - apply overlay_shape; [done|lia|lia].
  - rewrite Zlen_drop. lia.
  - intros _. rewrite Zlen_drop. lia.
Qed.

(** What an internal step on the input side leaves alone. *)
Record quiet (w w' : world) : Prop := {
  quiet_ok : world_ok w';
  quiet_lck : w_lck w' = w_lck w;
  quiet_input : w_input w' = w_input w;
  quiet_trace : w_trace w' = w_trace w;
  quiet_nr : never_refuses (w_heap w) -> never_refuses (w_heap w')
}.

Lemma quiet_trans w w' w'' : quiet w w' -> quiet w' w'' -> quiet w w''.
Proof. intros [] []. constructor; [done|congruence..|auto]. Qed.

Lemma wp_proto_append data n w :
  world_ok w -> 0 <= n <= Zlen data -> Zlen (in_bytes w) + n < 2 ^ 32 ->
  wp (proto_append data n) (fun r w' =>
    quiet w w' /\ w_sdp w' = w_sdp w /\
    if BUFFER_MAX_SIZE <=? Zlen (in_bytes w) + n
    then r = to_char SUPLA_RESULT_BUFFER_OVERFLOW /\ in_bytes w' = in_bytes w
    else (r = SUPLA_RESULT_TRUE /\ in_bytes w' = in_bytes w ++ take (Z.to_nat n) data)
      \/ (r = SUPLA_RESULT_FALSE /\ in_bytes w' = in_bytes w /\ ~ never_refuses (w_heap w))) w.
Proof.
  intros [(p & Hp & Hok) Hs Hi Ho Hh Hl] Hn Hb. destruct w as [[pr sdp iq oq l] h i t].
  unfold in_bytes, w_sdp, w_lck in *. cbn in Hp, Hs, Hi, Ho, Hh, Hl, Hb. subst pr.
  unfold proto_append. srpc_steps. cbn [w_heap].
  eapply wp_mono; [by apply wp_in_append|]. intros [r p'] h' ((Hh' & Hnr & Hok' & _) & _ & Hc).
  srpc_steps. cbn [w_srpc w_heap w_input w_trace srpc_proto srpc_sdp srpc_in_queue srpc_out_queue srpc_lck].
  split_and!; [|done|done]. constructor; [|done..]. constructor; try done. by exists p'.
Qed.

Lemma wp_proto_pop w :
  world_ok w ->
  wp proto_pop (fun r w' =>
    quiet w w' /\
    let '(r0, sdp', c') := pop_in_spec (in_bytes w) (w_sdp w) in
    r = to_char r0 /\ w_sdp w' = sdp' /\ in_bytes w' = c') w.
Proof.
  intros [(p & Hp & Hok) Hs Hi Ho Hh Hl]. destruct w as [[pr sdp iq oq l] h i t].
  unfold in_bytes, w_sdp, w_lck in *. cbn in Hp, Hs, Hi, Ho, Hh, Hl. subst pr.
  unfold proto_pop. srpc_steps. cbn [w_heap w_srpc srpc_sdp srpc_proto].
  eapply wp_mono; [apply wp_pop; try done; apply Hs|]. intros [[r sdp'] p'] h'.
  destruct (pop_in_spec (in_contents p) sdp) as [[r0 sdp0] c'] eqn:E.
  intros (-> & -> & Hc & Hh' & Hnr & Hok' & _).
  srpc_steps. cbn [w_srpc w_heap w_input w_trace srpc_proto srpc_sdp srpc_in_queue srpc_out_queue srpc_lck].
  split_and!; [|done|done|done]. constructor; [|done..].
  constructor; try done; [by exists p'|]. split; [by eapply pop_in_spec_shape; [apply Hs|]|by eapply pop_in_spec_fits].
Qed.

(** The result codes stay apart after the conversion to [char]. *)
Lemma to_char_is_true r :
  r = SUPLA_RESULT_TRUE \/ r = SUPLA_RESULT_FALSE \/ r = SUPLA_RESULT_DATA_ERROR
    \/ r = SUPLA_RESULT_VERSION_ERROR ->
  (to_char r =? SUPLA_RESULT_TRUE) = (r =? SUPLA_RESULT_TRUE) /\
  (to_char r =? SUPLA_RESULT_FALSE) = (r =? SUPLA_RESULT_FALSE) /\
  (to_char r =? to_char SUPLA_RESULT_VERSION_ERROR) = (r =? SUPLA_RESULT_VERSION_ERROR).
Proof. unfold to_char. intros [->|[->|[->| ->]]]; destruct char_signed; done. Qed.

Context {params : TsrpcParams} `{CL : !ParamsLaws params}.

(** A packet is reported outside the lock, which is held again afterwards. *)
Lemma wp_notify w l :
  world_ok w -> lck_ok l -> w_lck w = held l ->
  wp notify_remote_call (fun _ w' =>
    world_ok w' /\ w_lck w' = held l /\ w_input w' = w_input w /\ in_bytes w' = in_bytes w /\
    (never_refuses (w_heap w) -> never_refuses (w_heap w')) /\
    deliveries w' = deliveries w ++
      match on_remote_call_received with Some _ => [(w_sdp w, l)] | None => [] end) w.
Proof.
  intros Hok Hl Hw. unfold notify_remote_call.
  destruct on_remote_call_received as [f|] eqn:Ef.
  - srpc_steps. eapply wp_unlock; [done|done|]. srpc_steps.
    pose proof (world_ok_emit _ (EvRemoteCall (w_sdp w) l) (world_ok_lck _ l Hok Hl)) as Hok'.
    eapply wp_mono; [by eapply remote_call_law|].
    intros _ w' [Hok'' Hlck Hin Hbytes Hdel Hnr]. apply wp_lock.
    cbn in Hlck, Hin, Hbytes, Hdel, Hnr.
    assert (E : held (w_lck w') = held l) by (by rewrite Hlck).
    rewrite E. split_and!; try done.
    + by apply world_ok_lck, held_ok.
    + change (deliveries (with_lck w' (held l))) with (deliveries w'). rewrite Hdel.
      unfold deliveries. cbn [w_trace with_lck]. rewrite omap_app. done.
  - apply wp_ret. rewrite app_nil_r. by split_and!.
Qed.

(** What a step of the engine guarantees for every input: the invariant, the lock as it
    was, and the callbacks told of packets only while the lock is in the state [l]. *)
Record progress_at (l : lck_t) (w w' : world) : Prop := {
  prog_ok : world_ok w';
  prog_nr : never_refuses (w_heap w) -> never_refuses (w_heap w');
  prog_deliveries : exists ds, deliveries w' = deliveries w ++ map (fun p => (p, l)) ds
}.

Lemma progress_refl l w : world_ok w -> progress_at l w w.
Proof. intros. constructor; [done|done|]. exists []. by rewrite app_nil_r. Qed.

Lemma progress_trans l w w' w'' : progress_at l w w' -> progress_at l w' w'' -> progress_at l w w''.
Proof.
  intros [_ Hn [d1 E1]] [Hok Hn' [d2 E2]]. constructor; [done|auto|].
  exists (d1 ++ d2). by rewrite map_app, E2, E1, app_assoc.
Qed.

Lemma progress_quiet l w w' : quiet w w' -> progress_at l w w'.
Proof.
  intros [? ? ? Ht ?]. constructor; [done|done|]. exists []. unfold deliveries.
  by rewrite Ht, app_nil_r.
Qed.

Lemma progress_keeps l w w' : keeps w w' -> progress_at l w w'.
Proof. intros [? ? ? ? Hd ?]. constructor; [done|done|]. exists []. by rewrite Hd, app_nil_r. Qed.

Lemma wp_notify_progress w l :
  world_ok w -> lck_ok l -> w_lck w = held l ->
  wp notify_remote_call (fun _ w' => progress_at l w w' /\ w_lck w' = held l /\
    w_input w' = w_input w /\ in_bytes w' = in_bytes w) w.
Proof.
  intros. eapply wp_mono; [by apply wp_notify|]. intros _ w' (? & ? & ? & ? & ? & Hd).
  split_and!; try done. constructor; try done. rewrite Hd.
  destruct on_remote_call_received; [by exists [w_sdp w]|by exists []].
Qed.

(** The result codes that end the pop loop. *)
Definition ends_loop (r : Z) : Prop :=
  r = to_char SUPLA_RESULT_FALSE \/ r = to_char SUPLA_RESULT_DATA_ERROR
  \/ r = to_char SUPLA_RESULT_VERSION_ERROR.

(** The loop ends within as many iterations as there are bytes, on every input. *)
Lemma wp_pop_loop_total fuel : forall w l,
  world_ok w -> lck_ok l -> w_lck w = held l -> Zlen (in_bytes w) < Z.of_nat fuel ->
  wp (pop_loop fuel) (fun r w' =>
    (exists r', r = Some r' /\ ends_loop r') /\ progress_at l w w' /\ w_lck w' = held l /\
    w_input w' = w_input w) w.
Proof.
  induction fuel as [|fuel IH]; intros w l Hok Hl Hw Hf; [pose proof (Zlen_nonneg (in_bytes w)); lia|].
  cbn [pop_loop]. apply wp_bnd. eapply wp_mono; [by apply wp_proto_pop|].
  intros r w1 [Hq Hspec]. destruct (pop_in_spec _ _) as [[r0 sdp0] c'] eqn:E.
  destruct Hspec as (-> & Hsdp & Hc).
  apply pop_in_spec_shape in E as (_ & _ & Hlt & Hr); [|apply Hok].
  destruct (to_char_is_true r0 Hr) as (-> & _ & _).
  pose proof Hq as [Hok1 Hl1 Hi1 Ht1 Hn1]. case_if; bools.
  - subst r0. apply wp_bnd. eapply wp_mono; [apply wp_notify_progress; [done|done|congruence]|].
    intros _ w2 (Hp2 & Hl2 & Hi2 & Hb2). cbn beta.
    eapply wp_mono; [apply (IH w2 l); [apply Hp2|done|done|]|].
    { rewrite Hb2, Hc. specialize (Hlt eq_refl). lia. }
    intros r w3 (Hr3 & Hp3 & Hl3 & Hi3). split_and!; [done| |done|congruence].
    eapply progress_trans; [by apply progress_quiet|]. by eapply progress_trans.
  - apply wp_ret. split_and!; [|by apply progress_quiet|congruence|done].
    eexists. split; [done|]. unfold ends_loop. destruct Hr as [?|[->|[->| ->]]]; auto. done.
Qed.

(** ** Well-formed streams *)

(** A proper prefix of a packet; the empty list is one. *)
Definition partial (c : bytes) : Prop :=
  exists p m, sendable p /\ wire p = c ++ m /\ m <> [].

(** The data of a packet. *)
Definition payload (p : sdp_t) : bytes := take (Z.to_nat (sdp_data_size p)) (sdp_data p).

(** [d] was received as the packet [p]. *)
Record same_packet (p d : sdp_t) : Prop := {
  same_version : sdp_version d = sdp_version p;
  same_rr_id : sdp_rr_id d = sdp_rr_id p;
  same_call_id : sdp_call_id d = sdp_call_id p;
  same_data_size : sdp_data_size d = sdp_data_size p;
  same_payload : payload d = payload p
}.

Lemma received_same p sdp : sendable p -> same_packet p (received p sdp).
Proof.
  intros [Hw _ Hm]. pose proof (wf_data_size _ Hw). constructor; try done.
  unfold payload. cbn [sdp_data sdp_data_size received]. apply take_Zlen_app.
  rewrite Zlen_take, (wf_data _ Hw). platform. lia.
Qed.

(** A queue of whole packets and a partial one: the loop delivers the packets. *)
Lemma wp_pop_loop_stream ps : forall fuel w l tail,
  world_ok w -> lck_ok l -> w_lck w = held l -> (length ps < fuel)%nat ->
  on_remote_call_received <> None ->
  Forall sendable ps -> partial tail -> in_bytes w = concat (map wire ps) ++ tail ->
  wp (pop_loop fuel) (fun r w' =>
    r = Some SUPLA_RESULT_FALSE /\ world_ok w' /\ w_lck w' = held l /\
    w_input w' = w_input w /\ in_bytes w' = tail /\
    (never_refuses (w_heap w) -> never_refuses (w_heap w')) /\
    exists ds, Forall2 same_packet ps ds /\
      deliveries w' = deliveries w ++ map (fun p => (p, l)) ds) w.
Proof.
  induction ps as [|p ps IH]; intros fuel w l tail Hok Hl Hw Hf Hcb Hps Htail Hin;
    (destruct fuel as [|fuel]; [cbn in Hf; lia|]); cbn [pop_loop];
    apply wp_bnd; (eapply wp_mono; [by apply wp_proto_pop|]); intros r w1 [Hq Hspec];
    pose proof Hq as [Hok1 Hl1 Hi1 Ht1 Hn1]; rewrite Hin in Hspec.
  - destruct Htail as (q & m & Hqs & Hqw & Hm).
    cbn [map concat app] in Hspec. rewrite (pop_in_spec_prefix q _ _ m) in Hspec by done.
    destruct Hspec as (-> & _ & Hc). rewrite to_char_false. cbn [Z.eqb SUPLA_RESULT_FALSE SUPLA_RESULT_TRUE].
    apply wp_ret. split_and!; try done; [congruence|].
    exists []. split; [constructor|]. unfold deliveries. by rewrite Ht1, app_nil_r.
  - inversion Hps as [|? ? Hp Hps' E1]; subst. cbn [map concat] in Hspec.
    rewrite <-app_assoc, pop_in_spec_wire in Hspec by (done || apply Hok).
    destruct Hspec as (-> & Hsdp & Hc). rewrite to_char_true. cbn [Z.eqb SUPLA_RESULT_TRUE Pos.eqb].
    apply wp_bnd. eapply wp_mono; [apply (wp_notify w1 l); [done|done|congruence]|].
    intros _ w2 (Hok2 & Hl2 & Hi2 & Hb2 & Hn2 & Hd2). cbn beta.
    eapply wp_mono; [apply (IH fuel w2 l tail); try done; [cbn in Hf; lia|congruence]|].
    intros r w3 (-> & Hok3 & Hl3 & Hi3 & Hb3 & Hn3 & ds & Hds & Hd3).
    split_and!; try done; [congruence|auto|].
    exists (received p (w_sdp w) :: ds). split.
    + constructor; [by apply received_same|done].
    + rewrite Hd3, Hd2. destruct on_remote_call_received; [|done].
      rewrite <-app_assoc, Hsdp. unfold deliveries. by rewrite Ht1.
Qed.

(** ** The output half *)

Lemma deliveries_emit w s h i e :
  (forall sdp l, e <> EvRemoteCall sdp l) ->
  deliveries {| w_srpc := s; w_heap := h; w_input := i; w_trace := w_trace w ++ [e] |}
  = deliveries w.
Proof.
  intros He. unfold deliveries. cbn [w_trace]. rewrite omap_app.
  destruct e; cbn; rewrite ?app_nil_r; try done. by destruct (He sdp lck).
Qed.

Lemma written_emit t b : concat (omap (fun e => match e with EvWrite b => Some b | _ => None end) (t ++ [EvWrite b]))
  = concat (omap (fun e => match e with EvWrite b => Some b | _ => None end) t) ++ b.
Proof. rewrite omap_app, concat_app. cbn. by rewrite app_nil_r. Qed.

Lemma written_emit_other t e : (forall b, e <> EvWrite b) ->
  concat (omap (fun e => match e with EvWrite b => Some b | _ => None end) (t ++ [e]))
  = concat (omap (fun e => match e with EvWrite b => Some b | _ => None end) t).
Proof.
  intros He. rewrite omap_app, concat_app. destruct e; cbn; rewrite ?app_nil_r; try done.
  by destruct (He b).
Qed.

(** What an output step leaves alone. *)
Record output_step (w w' : world) : Prop := {
  ostep_ok : world_ok w';
  ostep_lck : w_lck w' = w_lck w;
  ostep_input : w_input w' = w_input w;
  ostep_in : in_bytes w' = in_bytes w;
  ostep_deliveries : deliveries w' = deliveries w;
  ostep_version : version_of w' = version_of w;
  ostep_nr : never_refuses (w_heap w) -> never_refuses (w_heap w')
}.

Lemma output_trans w w' w'' : output_step w w' -> output_step w' w'' -> output_step w w''.
Proof. intros [] []. constructor; [done|congruence..|auto]. Qed.

Lemma output_refl w : world_ok w -> output_step w w.
Proof. by constructor. Qed.

Lemma output_keeps w w' : output_step w w' -> keeps w w'.
Proof. by intros []. Qed.

Lemma output_progress l w w' : output_step w w' -> progress_at l w w'.
Proof. intros. by apply progress_keeps, output_keeps. Qed.

Lemma wp_raise w : world_ok w ->
  wp raise_eh (fun _ w' => output_step w w' /\ sent w' = sent w /\ w_srpc w' = w_srpc w) w.
Proof.
  intros Hok. unfold raise_eh. destruct params_eh.
  - srpc_steps. split_and!; [|by unfold sent, written; cbn [w_trace]; rewrite written_emit_other|done].
    constructor; try done; [by apply world_ok_emit|]. by apply deliveries_emit.
  - apply wp_ret. split_and!; [by apply output_refl|done|done].
Qed.

(** Taking the oldest packet of the output queue into [srpc->sdp]. *)
Lemma wp_out_queue_pop w : world_ok w ->
  wp (srpc_out_queue_pop 0) (fun r w' =>
    output_step w w' /\ out_bytes w' = out_bytes w /\ written w' = written w /\
    match queue_packets (srpc_out_queue (w_srpc w)) with
    | [] => r = SUPLA_RESULT_FALSE /\ queue_packets (srpc_out_queue (w_srpc w')) = []
    | p :: ps => r = SUPLA_RESULT_TRUE /\ w_sdp w' = p /\ packet_ok p /\
                 queue_packets (srpc_out_queue (w_srpc w')) = ps
    end) w.
Proof.
  intros [(p & Hp & Hok) Hs Hi (ps & Hq & Hps) Hh Hl]. destruct w as [[pr sdp iq oq l] h i t].
  unfold in_bytes, w_sdp, w_lck in *. cbn in Hp, Hs, Hi, Hq, Hps, Hh, Hl |- *. subst pr.
  rewrite (queue_packets_rep _ _ Hq). unfold srpc_out_queue_pop. srpc_steps.
  cbn [w_srpc srpc_out_queue srpc_sdp].
  pose proof (queue_pop_ok _ _ sdp 0 Hq) as Hpop. destruct ps as [|q ps].
  - eapply wp_opt; [exact Hpop|]. srpc_steps. cbn.
    split_and!; try done; [|by apply queue_packets_rep]. constructor; try done.
    constructor; try done; [by exists p|by exists []].
  - cbn [list_pop Z.eqb orb] in Hpop. destruct Hpop as (q' & Hpop & Hq').
    inversion Hps as [|? ? Hpk Hps' E1]; subst.
    eapply wp_opt; [exact Hpop|]. srpc_steps. cbn.
    split_and!; try done; [|by apply queue_packets_rep]. constructor; try done.
    constructor; try done; [by exists p|apply sdp_wf_fits; apply Hpk|by exists ps].
Qed.

(** Moving the packet in [srpc->sdp] to the output buffer. *)
Lemma wp_proto_out_append w : world_ok w -> packet_ok (w_sdp w) ->
  wp proto_out_append (fun r w' =>
    output_step w w' /\ written w' = written w /\
    srpc_out_queue (w_srpc w') = srpc_out_queue (w_srpc w) /\
    (never_refuses (w_heap w) -> Zlen (out_bytes w) + SUPLA_MAX_DATA_SIZE + 23 < BUFFER_MAX_SIZE ->
     r = SUPLA_RESULT_TRUE /\ out_bytes w' = out_bytes w ++ wire (w_sdp w)) /\
    (BUFFER_MAX_SIZE <= Zlen (out_bytes w) + 18 + sdp_data_size (w_sdp w) ->
     r = SUPLA_RESULT_FALSE /\ out_bytes w' = out_bytes w)) w.
Proof.
  intros [(p & Hp & Hok) Hs Hi Ho Hh Hl] [Hw Hm]. destruct w as [[pr sdp iq oq l] h i t].
  unfold in_bytes, out_bytes, w_sdp, w_lck in *. cbn in Hp, Hs, Hi, Ho, Hh, Hl, Hw, Hm |- *. subst pr.
  unfold proto_out_append. srpc_steps. cbn [w_srpc srpc_sdp w_heap].
  eapply wp_mono; [by apply wp_out_append|].
  intros [r p'] h' ((Hh' & Hnr & Hok' & Hv & _) & Hin & Hc). srpc_steps. cbn.
  split_and!; [|done|done| |].
  - constructor; try done; [|by unfold in_bytes, in_contents; cbn; rewrite Hin].
    constructor; try done. by exists p'.
  - intros Hn Hfit. cbv zeta in Hc. rewrite !(proj2 (Z.leb_gt _ _)) in Hc by lia.
    destruct Hc as [(_ & _ & ?)|[?|(_ & _ & ?)]]; done.
  - intros Hfull. cbv zeta in Hc. rewrite (proj2 (Z.leb_le _ _) Hfull) in Hc. exact Hc.
Qed.

(** Moving the head of the output buffer out. *)
Lemma wp_proto_pop_out w : world_ok w ->
  wp proto_pop_out (fun r w' =>
    output_step w w' /\ written w' = written w /\
    srpc_out_queue (w_srpc w') = srpc_out_queue (w_srpc w) /\
    let (n, d) := r in n = Zlen d /\ out_bytes w = d ++ out_bytes w' /\
      n = Z.min SRPC_BUFFER_SIZE (Zlen (out_bytes w))) w.
Proof.
  intros [(p & Hp & Hok) Hs Hi Ho Hh Hl]. destruct w as [[pr sdp iq oq l] h i t].
  unfold in_bytes, out_bytes, w_sdp, w_lck in *. cbn in Hp, Hs, Hi, Ho, Hh, Hl |- *. subst pr.
  platform. unfold proto_pop_out. srpc_steps. cbn [w_heap].
  eapply wp_mono; [apply wp_pop_out; [done|done|rewrite Zlen_zeros; lia]|].
  intros [[n buf] p'] h' ((Hh' & Hnr & Hok' & Hv & _) & Hin & Hn & -> & Hc). srpc_steps.
  pose proof (Zlen_nonneg (out_contents p)).
  assert (Hl1 : Zlen (take (Z.to_nat n) (out_contents p)) = n) by zlen.
  rewrite peek_0 by zlen.
  eapply wp_opt; [reflexivity|]. srpc_steps. cbn. rewrite take_Zlen_app by done.
  split_and!; [|done|done|done|by rewrite Hc, take_drop|done].
  constructor; try done; [|by unfold in_bytes, in_contents; cbn; rewrite Hin].
  constructor; try done. by exists p'.
Qed.

(** [data_write] *)
Lemma wp_write b w : world_ok w ->
  wp (data_write b) (fun _ w' => output_step w w' /\ written w' = written w ++ b /\
    w_srpc w' = w_srpc w) w.
Proof.
  intros Hok. unfold data_write. srpc_steps. split_and!; [|apply written_emit|done].
  constructor; try done; [by apply world_ok_emit|]. by apply deliveries_emit.
Qed.

Lemma output_unlock w w' l : output_step w w' -> lck_ok l -> w_lck w = held l ->
  progress_at l w (with_lck w' l) /\ sent (with_lck w' l) = sent w'.
Proof.
  intros [? ? ? ? Hd ? ?] ? ?. split; [|done]. constructor; [by apply world_ok_lck|done|].
  exists []. rewrite app_nil_r. exact Hd.
Qed.

(** The oldest queued packet does not fit into the output buffer. *)
Definition buffer_full (w : world) : Prop :=
  match queue_packets (srpc_out_queue (w_srpc w)) with
  | p :: _ => BUFFER_MAX_SIZE <= Zlen (out_bytes w) + 18 + sdp_data_size p
  | [] => False
  end.

(** What is being sent, without the oldest queued packet. *)
Definition sent_without_head (w : world) : bytes :=
  written w ++ out_bytes w ++ concat (map wire (tail (queue_packets (srpc_out_queue (w_srpc w))))).

(** There is room for any packet in the output buffer. *)
Definition buffer_room (w : world) : Prop :=
  Zlen (out_bytes w) + SUPLA_MAX_DATA_SIZE + 23 < BUFFER_MAX_SIZE.

Lemma wp_queue_to_buffer w : world_ok w -> SRPC_WITHOUT_OUT_QUEUE = false ->
  wp queue_to_buffer (fun r w' => output_step w w' /\
    (never_refuses (w_heap w) -> buffer_room w -> r = SUPLA_RESULT_TRUE /\ sent w' = sent w) /\
    (buffer_full w -> r = SUPLA_RESULT_FALSE /\ sent w' = sent_without_head w)) w.
Proof.
  intros Hok Ewq. unfold queue_to_buffer, buffer_full, sent_without_head, buffer_room, sent. rewrite Ewq.
  apply wp_bnd. eapply wp_mono; [by apply wp_out_queue_pop|].
  intros popped w1 (Ho1 & Hb1 & Hw1 & Hq1).
  destruct (queue_packets (srpc_out_queue (w_srpc w))) as [|p ps] eqn:Eq.
  - destruct Hq1 as [-> Hq1]. cbn [Z.eqb SUPLA_RESULT_TRUE SUPLA_RESULT_FALSE].
    apply wp_ret. split_and!; [done| |done]. intros _ _. split; [done|]. by rewrite Hw1, Hb1, Hq1.
  - destruct Hq1 as (-> & Hsdp & Hp & Hq1). cbn [Z.eqb SUPLA_RESULT_TRUE Pos.eqb tail].
    eapply wp_mono; [apply wp_proto_out_append; [apply Ho1|by rewrite Hsdp]|].
    intros r w2 (Ho2 & Hw2 & Hq2 & Hfit & Hfull). rewrite Hb1, Hsdp in *.
    rewrite Hw2, Hw1, Hq2, Hq1. split_and!; [by eapply output_trans| |].
    + intros Hn Hroom. destruct Hfit as [-> ->]; [by apply Ho1|done|]. split; [done|].
      cbn [map concat]. by rewrite <-!app_assoc.
    + intros Hf. by destruct (Hfull Hf) as [-> ->].
Qed.

Lemma wp_buffer_to_wire w : world_ok w -> SRPC_WITHOUT_OUT_QUEUE = false ->
  wp buffer_to_wire (fun _ w' => output_step w w' /\ sent w' = sent w) w.
Proof.
  intros Hok Ewq. unfold buffer_to_wire, sent. rewrite Ewq. apply wp_bnd.
  eapply wp_mono; [by apply wp_proto_pop_out|].
  intros [n d] w3 (Ho3 & Hw3 & Hq3 & Hn3 & Hd3 & _). case_if; bools.
  - eapply wp_mono; [apply wp_write, Ho3|]. intros _ w4 (Ho4 & Hw4 & Hsr).
    split; [by eapply output_trans|].
    unfold out_bytes in *. by rewrite Hw4, Hsr, Hq3, Hw3, Hd3, <-!app_assoc.
  - apply wp_ret. split; [done|]. rewrite E in Hn3. symmetry in Hn3. apply Zlen_0_nil in Hn3.
    by rewrite Hw3, Hq3, Hd3, Hn3.
Qed.

Lemma wp_announce_rest raise w : world_ok w ->
  wp (announce_rest raise) (fun _ w' => output_step w w' /\ sent w' = sent w) w.
Proof.
  intros Hok. unfold announce_rest.
  destruct EH_DISABLED; [apply wp_ret; split; [by apply output_refl|done]|].
  destruct (wok_proto _ Hok) as (p & Hp & _).
  apply wp_bnd. eapply wp_get_proto; [done|]. apply wp_bnd.
  unfold srpc_out_queue_item_count. case_if; srpc_steps.
  all: case_if; [|apply wp_ret; split; [by apply output_refl|done]].
  all: eapply wp_mono; [by apply wp_raise|]; by intros _ w5 (? & ? & _).
Qed.

(** The output half of an iteration: it ends outside the lock, leaves the input side
    alone, and neither loses, repeats nor reorders what is being sent, but for a packet
    that does not fit into the output buffer. *)
Lemma wp_iterate_out raise w l :
  world_ok w -> lck_ok l -> w_lck w = held l ->
  wp (iterate_out raise) (fun r w' =>
    0 <= r <= 1 /\ progress_at l w w' /\ w_lck w' = l /\ w_input w' = w_input w /\
    in_bytes w' = in_bytes w /\ deliveries w' = deliveries w /\
    (never_refuses (w_heap w) -> buffer_room w -> r = SUPLA_RESULT_TRUE /\ sent w' = sent w) /\
    (SRPC_WITHOUT_OUT_QUEUE = false -> buffer_full w ->
     r = SUPLA_RESULT_TRUE /\ sent w' = sent_without_head w)) w.
Proof.
  intros Hok Hl Hw.
  assert (Hend : forall r w', 0 <= r <= 1 -> output_step w w' ->
    wp (unlock_c r) (fun r' w'' =>
      r' = r /\ 0 <= r' <= 1 /\ progress_at l w w'' /\ w_lck w'' = l /\ w_input w'' = w_input w /\
      in_bytes w'' = in_bytes w /\ deliveries w'' = deliveries w /\ sent w'' = sent w') w').
  { intros r w' Hr Ho. eapply wp_unlock_c; [done| |done|].
    - rewrite (ostep_lck _ _ Ho). done.
    - destruct (output_unlock _ _ _ Ho Hl Hw) as [? E]. rewrite E.
      destruct Ho. split_and!; [done|lia|lia|assumption|done|assumption..|done]. }
  unfold iterate_out. destruct SRPC_WITHOUT_OUT_QUEUE eqn:Ewq.
  - srpc_steps. eapply wp_mono with (P := fun _ w' => output_step w w' /\ sent w' = sent w).
    + case_if; [|apply wp_ret; split; [by apply output_refl|done]].
      eapply wp_mono; [by apply wp_raise|]. by intros ? ? (? & ? & ?).
    + intros _ w' [Ho Hs]. eapply wp_mono; [apply Hend; [vm_compute; split; discriminate|done]|].
      intros r w'' (-> & ? & ? & ? & ? & ? & ? & ->). by split_and!.
  - apply wp_bnd. eapply wp_mono; [by apply wp_queue_to_buffer|].
    intros result w2 (Ho2 & Hfit & Hfull). case_if.
    + eapply wp_mono; [apply Hend; [vm_compute; split; discriminate|done]|].
      intros r w' (-> & ? & ? & ? & ? & ? & ? & ->). split_and!; try done.
      * intros Hn Hroom. destruct (Hfit Hn Hroom) as [-> _]. done.
      * intros _ Hf. destruct (Hfull Hf) as [-> _]. done.
    + apply wp_bnd. eapply wp_mono; [apply wp_buffer_to_wire; [apply Ho2|done]|].
      intros _ w4 (Ho4 & Hs4). apply wp_bnd.
      eapply wp_mono; [apply wp_announce_rest, Ho4|]. intros _ w5 (Ho5 & Hs5).
      eapply wp_mono; [apply Hend; [vm_compute; split; discriminate|]|].
      { eapply output_trans; [done|]. by eapply output_trans. }
      intros r w' (-> & ? & ? & ? & ? & ? & ? & Hs'). rewrite Hs5, Hs4 in Hs'.
      split_and!; try done; [intros ? ?|intros _ ?]; (split; [done|]); rewrite Hs'; [by apply Hfit|by apply Hfull].
Qed.

(** ** Whole iterations *)

Definition with_input (w : world) (i : list input) : world :=
  {| w_srpc := w_srpc w; w_heap := w_heap w; w_input := i; w_trace := w_trace w |}.

Lemma wp_data_read n w Q :
  (forall k d i, k <= n -> (0 < k -> k = Zlen d) -> Q (k, d) (with_input w i)) ->
  0 <= n -> wp (data_read n) Q w.
Proof.
  intros HQ Hn. unfold data_read, wp. destruct (w_input w) as [|[b| |] i] eqn:E.
  - replace w with (with_input w []) by (destruct w; unfold with_input; cbn in *; congruence).
    apply HQ; lia.
  - case_if; bools; (apply (HQ _ _ _)); [done|done|lia|]. intros _. zlen.
  - apply (HQ _ _ _); lia.
  - apply (HQ _ _ _); lia.
Qed.

Lemma in_bytes_bound w : world_ok w -> Zlen (in_bytes w) < BUFFER_MAX_SIZE.
Proof.
  intros [(p & Hp & Hok) _ _ _ _ _]. unfold in_bytes, in_contents. rewrite Hp.
  destruct Hok as [[Hb _] _ _ _]. rewrite (Zlen_contents _ _ _ Hb). destruct Hb as (_ & ? & ?). lia.
Qed.

Lemma wp_pop_failed r w l :
  world_ok w -> lck_ok l -> w_lck w = held l ->
  wp (pop_failed r) (fun r' w' =>
    r' = SUPLA_RESULT_FALSE /\ progress_at l w w' /\ w_lck w' = l /\ w_input w' = w_input w) w.
Proof.
  intros Hok Hl Hw.
  assert (Hplain : wp (unlock_c SUPLA_RESULT_FALSE) (fun r' w' =>
    r' = SUPLA_RESULT_FALSE /\ progress_at l w w' /\ w_lck w' = l /\ w_input w' = w_input w) w).
  { eapply wp_unlock_c; [done|done|vm_compute; split; discriminate|].
    destruct (output_unlock w w l) as [? _]; [by apply output_refl|done|done|]. by split_and!. }
  unfold pop_failed. case_if; [|done]. destruct on_version_error as [f|] eqn:Ef; [|done].
  srpc_steps. eapply wp_unlock; [done|done|]. srpc_steps.
  eapply wp_mono; [eapply version_error_law; [done|]|].
  { by apply (world_ok_emit (with_lck w l)), world_ok_lck. }
  intros u w' Hk. cbn beta in Hk. srpc_steps. split_and!; [done| |by destruct Hk|by destruct Hk].
  eapply progress_trans; [|by apply progress_keeps].
  destruct (output_unlock w w l) as [[? ? [ds Hds]] _]; [by apply output_refl|done|done|].
  constructor; [by apply world_ok_emit|done|]. exists ds. rewrite <-Hds. by apply (deliveries_emit w).
Qed.

(** The common beginning of both iterations: lock, read, append. *)
Lemma wp_unlock_early r w w' l : world_ok w -> lck_ok l -> 0 <= r <= 1 ->
  progress_at l w w' -> w_lck w' = held l ->
  wp (unlock_c r) (fun r' w'' => r' = r /\ progress_at l w w'' /\ w_lck w'' = l) w'.
Proof.
  intros Hok Hl Hr Hp Hw. eapply wp_unlock_c; [done|done|done|]. split_and!; [done| |done].
  eapply progress_trans; [done|]. eapply output_unlock; [by apply output_refl, Hp|done|done].
Qed.

Lemma progress_input l w i : world_ok w -> lck_ok l ->
  progress_at l w (with_input (with_lck w (held l)) i).
Proof.
  intros [] ?. constructor; [|done|exists []; by rewrite app_nil_r].
  constructor; try done. by apply held_ok.
Qed.

Lemma wp_iterate w : world_ok w ->
  wp srpc_iterate (fun r w' =>
    0 <= r <= 1 /\ progress_at (w_lck w) w w' /\ w_lck w' = w_lck w) w.
Proof.
  intros Hok. pose proof (wok_lck _ Hok) as Hl. platform. unfold srpc_iterate.
  srpc_steps. apply wp_lock. srpc_steps. apply wp_data_read; [|lia]. intros k d i Hk Hd.
  pose proof (progress_input (w_lck w) w i Hok Hl) as Hp1.
  set (w1 := with_input (with_lck w (held (w_lck w))) i) in *. srpc_steps.
  assert (Hb : 0 <= SUPLA_RESULT_FALSE <= 1) by (vm_compute; split; discriminate).
  assert (Hend : forall w', progress_at (w_lck w) w w' -> w_lck w' = held (w_lck w) ->
    wp (unlock_c SUPLA_RESULT_FALSE) (fun r w' =>
      0 <= r <= 1 /\ progress_at (w_lck w) w w' /\ w_lck w' = w_lck w) w').
  { intros w' ? ?. eapply wp_mono; [by apply (wp_unlock_early _ w w' (w_lck w))|].
    by intros r w'' (-> & ? & ?). }
  assert (Hout : forall raise w', progress_at (w_lck w) w w' -> w_lck w' = held (w_lck w) ->
    wp (iterate_out raise) (fun r w' =>
      0 <= r <= 1 /\ progress_at (w_lck w) w w' /\ w_lck w' = w_lck w) w').
  { intros raise w' Hp ?. eapply wp_mono; [apply (wp_iterate_out raise w' (w_lck w)); [apply Hp|done|done]|].
    intros r w'' (? & ? & ? & _). split_and!; [lia|lia|by eapply progress_trans|done]. }
  case_if; [by apply Hend|]. apply wp_bnd.
  eapply wp_mono with (P := fun _ w2 => progress_at (w_lck w) w w2 /\ w_lck w2 = held (w_lck w)).
  { case_if; bools; [|by apply wp_ret].
    pose proof (in_bytes_bound w1 (prog_ok _ _ _ Hp1)).
    eapply wp_mono; [apply wp_proto_append; [apply Hp1|rewrite Hd; lia|lia]|].
    intros r w2 (Hq & _). split; [|by rewrite (quiet_lck _ _ Hq)].
    eapply progress_trans; [done|by apply progress_quiet]. }
  intros result w2 [Hp2 Hl2]. case_if; [by apply Hend|].
  apply wp_bnd. eapply wp_mono; [apply wp_proto_pop, Hp2|]. intros r w3 [Hq3 _].
  assert (Hp3 : progress_at (w_lck w) w w3)
    by (eapply progress_trans; [done|by apply progress_quiet]).
  assert (Hl3 : w_lck w3 = held (w_lck w)) by (by rewrite (quiet_lck _ _ Hq3)).
  (* notifying and then sending *)
  assert (Hnotify : forall raise w', progress_at (w_lck w) w w' -> w_lck w' = held (w_lck w) ->
    wp (notify_remote_call ;;; iterate_out raise) (fun r w' =>
      0 <= r <= 1 /\ progress_at (w_lck w) w w' /\ w_lck w' = w_lck w) w').
  { intros raise w' Hp ?. apply wp_bnd.
    eapply wp_mono; [apply (wp_notify_progress w' (w_lck w)); [apply Hp|done|done]|].
    intros _ w'' (? & ? & _). apply Hout; [by eapply progress_trans|done]. }
  case_if.
  - destruct (wok_proto _ (prog_ok _ _ _ Hp3)) as (p & Hp & _).
    apply wp_bnd. eapply wp_get_proto; [done|]. cbv zeta.
    destruct SRPC_WITHOUT_IN_QUEUE; [by apply Hnotify|].
    srpc_steps. unfold srpc_in_queue_push. srpc_steps.
    destruct (prog_ok _ _ _ Hp3) as [Hpr Hsdp (ps & Hq & Hps) Ho Hh Hlk].
    eapply wp_mono; [by apply wp_queue_push|]. intros [pushed q] h (Hh' & Hn' & Hc).
    srpc_steps. cbn [w_srpc w_heap w_input w_trace].
    set (w4 := {| w_srpc := _ |}).
    assert (Hp4 : progress_at (w_lck w) w w4).
    { eapply progress_trans; [exact Hp3|]. constructor; [|done|exists []; by rewrite app_nil_r].
      constructor; try done; [|by apply Hh'].
      destruct (_ <=? _); [destruct Hc as [_ ->]; by exists ps|].
      destruct Hc as [[_ ?]|(_ & -> & _)]; [|by exists ps]. exists (ps ++ [srpc_sdp (w_srpc w3)]).
      split; [done|]. apply Forall_app. split; [done|]. by constructor. }
    case_if; [by apply Hnotify|by apply Hend].
  - case_if; [|by apply Hout].
    eapply wp_mono; [apply (wp_pop_failed _ w3 (w_lck w)); [apply Hp3|done|done]|].
    intros r' w4 (-> & ? & ? & _). split_and!; [lia|lia|by eapply progress_trans|done].
Qed.

(** [srpc_iterate_device] always returns when the fuel exceeds the buffer bound. *)
Lemma wp_iterate_device fuel w : world_ok w -> BUFFER_MAX_SIZE <= Z.of_nat fuel ->
  wp (srpc_iterate_device fuel) (fun r w' =>
    (exists r', r = Some r' /\ 0 <= r' <= 1) /\
    progress_at (w_lck w) w w' /\ w_lck w' = w_lck w) w.
Proof.
  intros Hok Hfuel. pose proof (wok_lck _ Hok) as Hl. platform. unfold srpc_iterate_device.
  srpc_steps. apply wp_lock. srpc_steps. apply wp_data_read; [|lia]. intros k d i Hk Hd.
  pose proof (progress_input (w_lck w) w i Hok Hl) as Hp1.
  set (w1 := with_input (with_lck w (held (w_lck w))) i) in *. srpc_steps.
  assert (Hend : forall v w', 0 <= v <= 1 -> progress_at (w_lck w) w w' ->
    w_lck w' = held (w_lck w) ->
    wp (let! r := unlock_c v in mret (Some r)) (fun r w' =>
      (exists r', r = Some r' /\ 0 <= r' <= 1) /\
      progress_at (w_lck w) w w' /\ w_lck w' = w_lck w) w').
  { intros v w' Hv ? ?. apply wp_bnd. eapply wp_mono; [by apply (wp_unlock_early v w w' (w_lck w))|].
    intros r w'' (-> & ? & ?). apply wp_ret. split_and!; [by exists v|done|done]. }
  assert (Hb0 : 0 <= SUPLA_RESULT_FALSE <= 1) by (vm_compute; split; discriminate).
  assert (Hb1 : 0 <= SUPLA_RESULT_TRUE <= 1) by (vm_compute; split; discriminate).
  case_if; bools; [|by case_if; apply Hend].
  pose proof (in_bytes_bound w1 (prog_ok _ _ _ Hp1)). apply wp_bnd.
  eapply wp_mono; [apply wp_proto_append; [apply Hp1|rewrite Hd; lia|lia]|].
  intros r w2 (Hq & _ & Hc).
  assert (Hp2 : progress_at (w_lck w) w w2)
    by (eapply progress_trans; [done|by apply progress_quiet]).
  assert (Hl2 : w_lck w2 = held (w_lck w)) by (by rewrite (quiet_lck _ _ Hq)).
  case_if; [by apply Hend|]. apply wp_bnd.
  pose proof (in_bytes_bound w2 (prog_ok _ _ _ Hp2)).
  eapply wp_mono; [apply (wp_pop_loop_total fuel w2 (w_lck w)); [apply Hp2|done|done|lia]|].
  intros ended w3 ((r3 & -> & Hr3) & Hp3 & Hl3 & _). cbn beta iota.
  assert (Hp3' : progress_at (w_lck w) w w3) by (by eapply progress_trans).
  case_if; [|by apply Hend]. apply wp_bnd.
  eapply wp_mono; [apply (wp_pop_failed _ w3 (w_lck w)); [apply Hp3|done|done]|].
  intros r' w4 (-> & ? & ? & _). apply wp_ret. split_and!; [by eexists|by eapply progress_trans|done].
Qed.

(** ** Sending *)

Lemma with_lck_same w : with_lck w (w_lck w) = w.
Proof. by destruct w as [[] ? ? ?]. Qed.

Lemma wp_get_proto_version w : world_ok w ->
  wp srpc_get_proto_version (fun v w' => v = version_of w /\ w' = w) w.
Proof.
  intros Hok. destruct (wok_proto _ Hok) as (p & Hp & _). unfold srpc_get_proto_version.
  srpc_steps. apply wp_lock. srpc_steps. eapply wp_unlock; [apply Hok|done|]. srpc_steps.
  split; [by unfold version_of; rewrite Hp|]. by destruct w as [[] ? ? ?].
Qed.

Lemma wp_call_allowed call w : world_ok w ->
  wp (srpc_call_allowed call) (fun b w' =>
    w' = w /\ b = (srpc_call_min_version_required call <=? version_of w)) w.
Proof.
  intros Hok. unfold srpc_call_allowed. case_if; bools.
  - apply wp_ret. split; [done|]. rewrite E. symmetry. apply Z.leb_le.
    destruct (wok_proto _ Hok) as (p & Hp & Hpok). unfold version_of. rewrite Hp.
    destruct Hpok. unfold SUPLA_PROTO_VERSION_MIN in *. lia.
  - apply wp_bnd. eapply wp_mono; [by apply wp_get_proto_version|].
    intros v w' [-> ->]. by apply wp_ret.
Qed.

Lemma direct_size_eq p : packet_ok p -> direct_size p = 18 + sdp_data_size p.
Proof.
  intros [Hw Hm]. platform. pose proof (wf_data_size _ Hw). unfold direct_size. rewrite sizeof_sdp.
  case_if; bools; [|lia]. rewrite (uN_small 32 (SUPLA_MAX_DATA_SIZE - _)) by lia.
  rewrite uN_small; lia.
Qed.

(** Handing a packet over for sending: at once where there is no output queue. *)
(** The output queue takes no packet: it is full, or a slot cannot be allocated. *)
Definition queue_refuses (w : world) : Prop :=
  SRPC_WITHOUT_OUT_QUEUE = false /\
  (SRPC_QUEUE_SIZE <= Zlen (queue_packets (srpc_out_queue (w_srpc w))) \/ ~ never_refuses (w_heap w)).

Lemma wp_out_queue_push p w : world_ok w -> packet_ok p ->
  wp (srpc_out_queue_push p) (fun r w' =>
    output_step w w' /\ w_sdp w' = w_sdp w /\
    (r = SUPLA_RESULT_FALSE /\ sent w' = sent w /\ queue_refuses w \/
     r = SUPLA_RESULT_TRUE /\
     (never_refuses (w_heap w) -> sent w' = sent w ++ wire p))) w.
Proof.
  intros Hok Hp. pose proof Hp as [Hw Hm]. pose proof (wf_data_size _ Hw).
  pose proof (Zlen_sdp_shape _ (sdp_wf_shape _ Hw)). platform.
  unfold srpc_out_queue_push. destruct SRPC_WITHOUT_OUT_QUEUE eqn:Ewq.
  - rewrite direct_size_eq by done. apply wp_bnd.
    eapply wp_opt; [apply peek_0; lia|]. fold (wire_body p).
    assert (Hsent : forall w', output_step w w' -> written w' = written w ++ wire p ->
      w_srpc w' = w_srpc w -> output_step w w' /\ w_sdp w' = w_sdp w /\
      (SUPLA_RESULT_TRUE = SUPLA_RESULT_FALSE /\ sent w' = sent w /\ queue_refuses w \/
       SUPLA_RESULT_TRUE = SUPLA_RESULT_TRUE /\
       (never_refuses (w_heap w) -> sent w' = sent w ++ wire p))).
    { intros w' Ho Hwr Hs. split_and!; [done|by unfold w_sdp; rewrite Hs|]. right.
      split; [done|]. intros _. unfold sent. by rewrite Ewq, Hwr, !app_nil_r. }
    case_if.
    + srpc_steps. apply wp_next_request. intros refused h' He1 He2 [k Hk] Hno.
      assert (Hok' : world_ok {| w_srpc := w_srpc w; w_heap := h'; w_input := w_input w;
                                 w_trace := w_trace w |}).
      { destruct Hok. constructor; try done. cbn.
        destruct wok_heap0 as [?|[? Ho]]; [by left|right]. split; [by rewrite He2; auto|].
        rewrite Hk. by apply Forall_drop. }
      assert (Ho : output_step w {| w_srpc := w_srpc w; w_heap := h'; w_input := w_input w;
                                 w_trace := w_trace w |}).
      { constructor; try done. intros [? Ho]. cbn. split; [by rewrite (He2 (Hno Ho))|].
        rewrite Hk. by apply Forall_drop. }
      destruct refused; srpc_steps.
      * split_and!; [done|done|]. right. split; [done|]. intros [_ Hn]. by specialize (Hno Hn).
      * eapply wp_mono; [by apply wp_write|]. intros _ w' (Ho' & Hw' & Hs'). srpc_steps.
        apply Hsent; [by eapply output_trans| |done]. rewrite Hw'. done.
    + srpc_steps. eapply wp_mono; [by apply wp_write|]. intros _ w1 (Ho1 & Hw1 & Hs1). srpc_steps.
      eapply wp_mono; [apply wp_write, Ho1|]. intros _ w2 (Ho2 & Hw2 & Hs2). srpc_steps.
      apply Hsent; [by eapply output_trans| |congruence].
      by rewrite Hw2, Hw1, <-app_assoc.
  - destruct (wok_out _ Hok) as (ps & Hq & Hps). srpc_steps.
    eapply wp_mono; [by apply wp_queue_push|]. intros [r q] h' (Hh' & Hn' & Hc). srpc_steps.
    set (w' := {| w_srpc := _ |}).
    assert (Hcase : (q = srpc_out_queue (w_srpc w) /\ r = SUPLA_RESULT_FALSE /\ queue_refuses w)
      \/ (queue_rep q (ps ++ [p]) /\ r = SUPLA_RESULT_TRUE)).
    { unfold queue_refuses. rewrite (queue_packets_rep _ _ Hq).
      destruct (Z.leb_spec SRPC_QUEUE_SIZE (Zlen ps)); [destruct Hc as [-> ->]; left; auto|].
      destruct Hc as [[-> ?]|(-> & -> & ?)]; [by right|left; auto]. }
    assert (Ho : output_step w w').
    { destruct Hok. constructor; try done. constructor; try done; [|by apply Hh'].
      destruct Hcase as [(-> & _)|[? _]]; [by exists ps|]. exists (ps ++ [p]). split; [done|].
      apply Forall_app. split; [done|]. by constructor. }
    split_and!; [done|done|]. destruct Hcase as [(-> & -> & ?)|[Hq' ->]]; [by left|right].
    split; [done|]. intros _. unfold sent, out_bytes, w'. rewrite Ewq.
    cbn [w_srpc srpc_out_queue srpc_proto]. rewrite (queue_packets_rep _ _ Hq).
    rewrite (queue_packets_rep _ _ Hq'), map_app, concat_app. cbn [map concat].
    rewrite app_nil_r, !app_assoc. done.
Qed.

(** The identifier of the next packet. *)
Definition next_id (w : world) : Z :=
  match srpc_proto (w_srpc w) with
  | Some p => next_rr_id p mod (2 ^ 32 - 1) + 1
  | None => 0
  end.

(** What [srpc_async__call] does with the version and the data it is given. *)
Definition async_outcome (call : Z) (data : option bytes) (n : Z) (version : option Z)
    (w w' : world) (r : Z) : Prop :=
  if negb (srpc_call_min_version_required call <=? version_of w)
  then r = SUPLA_RESULT_FALSE /\ (on_min_version_required = None -> w' = w)
  else exists w1, keeps w w1 /\ (before_async_call = None -> w1 = w) /\
    (r = SUPLA_RESULT_FALSE /\ sent w' = sent w1 /\
       (SUPLA_MAX_DATA_SIZE < n \/ (0 < n /\ data = None) \/ queue_refuses w1)
     \/ exists p, packet_ok p /\ sdp_call_id p = call /\ sdp_data_size p = n /\
       sdp_version p = default (version_of w1) version /\
       take (Z.to_nat n) (sdp_data p) = take (Z.to_nat n) (default [] data) /\
       sdp_rr_id p = next_id w1 /\ r = to_int (next_id w1) /\
       (never_refuses (w_heap w1) -> sent w' = sent w1 ++ wire p)).

(** A refused call: the user is told the version the call needs. *)
Lemma wp_refuse_call call w : world_ok w ->
  wp ((match on_min_version_required with
       | Some f =>
           emit (EvMinVersion call (srpc_call_min_version_required call)) ;;;
           f call (srpc_call_min_version_required call)
       | None => mret tt
       end) ;;; mret SUPLA_RESULT_FALSE)
    (fun r w' => keeps w w' /\ r = SUPLA_RESULT_FALSE /\ (on_min_version_required = None -> w' = w)) w.
Proof.
  intros Hok. destruct on_min_version_required as [f|] eqn:Ef; srpc_steps.
  - eapply wp_mono; [eapply min_version_law; [done|by apply world_ok_emit]|].
    intros u w' Hk. cbn beta in Hk. srpc_steps. split_and!; [|done|done].
    eapply keeps_trans; [|done]. constructor; try done; [by apply world_ok_emit|].
    by apply deliveries_emit.
  - split_and!; [by apply keeps_refl|done|done].
Qed.

(** The callback before a call. *)
Lemma wp_before_call call w : world_ok w ->
  wp (match before_async_call with
      | Some f => emit (EvBeforeCall call) ;;; f call
      | None => mret tt
      end) (fun _ w' => keeps w w' /\ (before_async_call = None -> w' = w)) w.
Proof.
  intros Hok. destruct before_async_call as [f|] eqn:Ef; srpc_steps.
  - eapply wp_mono; [eapply before_call_law; [done|by apply world_ok_emit]|].
    intros u w' Hk. cbn beta in Hk. split; [|done].
    eapply keeps_trans; [|done]. constructor; try done; [by apply world_ok_emit|].
    by apply deliveries_emit.
  - split; [by apply keeps_refl|done].
Qed.

(** The end of a call, in a state reached from the locked one by output steps only. *)
Lemma wp_call_end w w1 w' r : world_ok w1 -> keeps w w1 ->
  output_step (with_lck w1 (held (w_lck w1))) w' ->
  wp (unlock_r r) (fun r' w'' => r' = to_int r /\ keeps w w'' /\ sent w'' = sent w' /\
    version_of w'' = version_of w1) w'.
Proof.
  intros Hok1 Hk1 Ho. eapply wp_unlock_r; [apply (wok_lck _ Hok1)|by rewrite (ostep_lck _ _ Ho)|].
  split_and!; [done| |done|exact (ostep_version _ _ Ho)].
  eapply keeps_trans; [exact Hk1|]. destruct Ho. constructor; try done.
  apply world_ok_lck; [done|apply (wok_lck _ Hok1)].
Qed.

(** The packet of a call. *)
Lemma init_packet p version : spd_ok p -> 0 <= default 1 version < 2 ^ 8 ->
  let sdp := (sproto_sdp_init p).1 in
  let sdpv := match version with
              | Some v => {| sdp_tag := sdp_tag sdp; sdp_version := v;
                  sdp_rr_id := sdp_rr_id sdp; sdp_call_id := sdp_call_id sdp;
                  sdp_data_size := sdp_data_size sdp; sdp_data := sdp_data sdp |}
              | None => sdp
              end in
  sdp_wf sdpv /\ sdp_data_size sdpv <= SUPLA_MAX_DATA_SIZE /\
  sdp_version sdpv = default (spd_version p) version /\
  sdp_rr_id sdpv = next_rr_id p mod (2 ^ 32 - 1) + 1.
Proof.
  intros Hpok Hver. destruct (sdp_init_sendable p Hpok) as ([[] _ ?] & _).
  destruct (sdp_init_rr_id p (ok_rr_id _ Hpok)) as [Hrr _]. by destruct version.
Qed.

(** The state in which the new packet stands in [srpc->sdp]. *)
Lemma call_state_ok w1 p sdp' : world_ok w1 -> srpc_proto (w_srpc w1) = Some p ->
  sdp_wf sdp' -> sdp_data_size sdp' <= SUPLA_MAX_DATA_SIZE ->
  let w3 := {| w_srpc := {| srpc_proto := Some (sproto_sdp_init p).2; srpc_sdp := sdp';
                 srpc_in_queue := srpc_in_queue (w_srpc w1); srpc_out_queue := srpc_out_queue (w_srpc w1);
                 srpc_lck := held (w_lck w1) |};
               w_heap := w_heap w1; w_input := w_input w1; w_trace := w_trace w1 |} in
  output_step (with_lck w1 (held (w_lck w1))) w3 /\ sent w3 = sent w1.
Proof.
  intros Hok1 Hp Hwf Hmax w3. destruct (wok_proto _ Hok1) as (p' & Hp' & Hpok).
  rewrite Hp in Hp'. injection Hp' as <-.
  destruct (sdp_init_sendable p Hpok) as (_ & Hok2 & Hin2 & Hout2). split.
  - constructor; try done.
    + pose proof (world_ok_lck _ _ Hok1 (held_ok _ (wok_lck _ Hok1))) as []. constructor; try done.
      * by eexists.
      * by apply sdp_wf_fits.
    + unfold in_bytes, w3. cbn. rewrite Hp. exact Hin2.
    + unfold version_of, w3. cbn. by rewrite Hp.
  - unfold sent, out_bytes, w3. cbn. by rewrite Hp.
Qed.

Lemma wp_async_call call data n version w :
  world_ok w -> 0 <= call < 2 ^ 32 -> 0 <= n < 2 ^ 32 -> 0 <= default 1 version < 2 ^ 8 ->
  n <= match data with Some d => Zlen d | None => n end ->
  wp (srpc_async__call call data n version) (fun r w' =>
    keeps w w' /\ async_outcome call data n version w w' r /\
    (before_async_call = None -> on_min_version_required = None ->
     version_of w' = version_of w)) w.
Proof.
  intros Hok Hcall Hn Hver Hdata. unfold srpc_async__call, async_outcome. apply wp_bnd.
  eapply wp_mono; [by apply wp_call_allowed|]. intros b w0 [-> ->].
  destruct (negb _) eqn:Ev.
  { eapply wp_mono; [by apply wp_refuse_call|]. intros r w' (Hk & -> & Hnone).
    split_and!; [done|done|done|]. intros _ E. by rewrite Hnone. }
  apply wp_bnd. eapply wp_mono; [by apply wp_before_call|].
  intros _ w1 [Hk1 Hnone]. pose proof (keeps_ok _ _ Hk1) as Hok1.
  assert (Hver0 : before_async_call = None -> version_of w1 = version_of w)
    by (intros E0; by rewrite Hnone).
  destruct (wok_proto _ Hok1) as (p & Hp & Hpok).
  apply wp_bnd, wp_lock. apply wp_bnd. eapply wp_get_proto; [exact Hp|].
  pose proof (init_packet p version Hpok Hver) as Hinit.
  pose proof (fun sdp' => call_state_ok w1 p sdp' Hok1 Hp) as Hstate.
  destruct (sproto_sdp_init p) as [sdp p2]. cbn [fst snd] in *.
  srpc_steps. set (sdpv := match version with Some _ => _ | None => _ end) in *.
  destruct Hinit as (Hwf & Hmax & Hsver & Hsrr).
  destruct (set_data_ok sdpv data n call) as (sdp' & Hset & Hwf' & Hmax' & Hbad & Hgood);
    [done|done|lia|done|destruct data; lia|].
  eapply wp_opt; [exact Hset|]. srpc_steps.
  destruct (Hstate sdp' Hwf' Hmax') as [Ho3 Hs3]. set (w3 := {| w_srpc := _ |}) in *.
  change (output_step (with_lck w1 (held (w_lck w1))) w3) in Ho3. change (sent w3 = sent w1) in Hs3.
  assert (Hzero : to_int SUPLA_RESULT_FALSE = SUPLA_RESULT_FALSE)
    by (apply to_int_small; vm_compute; split; discriminate).
  assert (Hno : forall w', output_step w3 w' -> sent w' = sent w3 ->
    SUPLA_MAX_DATA_SIZE < n \/ (0 < n /\ data = None) \/ queue_refuses w1 ->
    wp (unlock_r SUPLA_RESULT_FALSE) (fun r w'' => keeps w w'' /\
      async_outcome call data n version w w'' r /\
      (before_async_call = None -> on_min_version_required = None -> version_of w'' = version_of w)) w').
  { intros w' Ho Hs Hwhy. eapply wp_mono; [apply (wp_call_end w w1); [done|done|by eapply output_trans]|].
    intros r w'' (-> & Hk & Hs' & Hv). split_and!; [done| |intros; rewrite Hv; auto].
    unfold async_outcome. rewrite Ev. exists w1. split_and!; [done|done|]. left.
    split_and!; [done|congruence|done]. }
  unfold async_outcome in Hno. rewrite Ev in Hno.
  destruct ((SUPLA_MAX_DATA_SIZE <? n) || _) eqn:Eb.
  { cbn [Z.eqb SUPLA_RESULT_TRUE SUPLA_RESULT_FALSE]. apply Hno; [by apply output_refl, Ho3|done|].
    apply orb_true_iff in Eb as [Eb|Eb]; bools; [by left|right; left]. by destruct data. }
  cbn [Z.eqb SUPLA_RESULT_TRUE Pos.eqb]. destruct (Hgood eq_refl) as (Hcid & Hds & Hrr' & Hv' & Hpre).
  apply wp_bnd. eapply wp_mono; [apply wp_out_queue_push; [apply Ho3|done]|].
  intros pushed w4 (Ho4 & Hsdp4 & [(-> & Hs4 & Hwq)|[-> Hs4]]); cbn [Z.eqb negb SUPLA_RESULT_TRUE SUPLA_RESULT_FALSE].
  { apply Hno; auto. }
  apply wp_bnd. eapply wp_mono with (P := fun _ w5 => output_step w4 w5 /\ sent w5 = sent w4 /\ w_sdp w5 = w_sdp w4).
  { destruct EH_DISABLED; [apply wp_ret; split_and!; [apply output_refl, Ho4|done|done]|].
    eapply wp_mono; [apply wp_raise, Ho4|]. intros _ w5 (? & ? & Hsr).
    split_and!; [done|done|]. unfold w_sdp. by rewrite Hsr. }
  intros _ w5 (Ho5 & Hs5 & Hsdp5). srpc_steps.
  eapply wp_mono; [apply (wp_call_end w w1); [done|done|by eapply output_trans, output_trans]|].
  intros r w' (-> & Hk & Hs & Hv).
  split_and!; [done| |intros; rewrite Hv; auto]. exists w1. split_and!; [done|done|]. right. exists sdp'.
  fold (w_sdp w5). rewrite Hsdp5, Hsdp4. change (w_sdp w3) with sdp'.
  assert (Hid : sdp_rr_id sdp' = next_id w1) by (unfold next_id; rewrite Hp; congruence).
  split_and!; [done|done|done| |by destruct data|done|by rewrite Hid|].
  - unfold version_of. rewrite Hp. congruence.
  - intros Hnr. rewrite Hs, Hs5, Hs4 by done. by rewrite Hs3.
Qed.

End Facts.
