(* ===== verification/SrpcProps.v ===== *)
(** * srpc.c: the properties of the engine *)
From S2P Require Import Prelude Platform Heap Lck CLayout ProtoConsts ProtoTypes Proto ProtoFacts.
From S2P Require Import ProtoProps SrpcQueue Srpc SrpcCall SrpcFacts.

(** Calling [srpc_iterate_device] [n] times. *)
Fixpoint run_device `{Platform} {params : TsrpcParams} (fuel n : nat) : M world (list (option Z)) :=
  match n with
  | O => mret []
  | S n =>
      let! r := srpc_iterate_device fuel in
      let! rs := run_device fuel n in mret (r :: rs)
  end.

Section Stream.
Context `{PL : PlatformLaws} {params : TsrpcParams} `{CL : !ParamsLaws params}.

Lemma partial_bound c : partial c -> Zlen c < 23 + SUPLA_MAX_DATA_SIZE.
Proof.
  intros (p & m & Hp & E & Hm). pose proof (Zlen_wire _ Hp) as Hl. rewrite E, Zlen_app in Hl.
  pose proof (send_size _ Hp). assert (1 <= Zlen m); [|lia].
  destruct m; [done|]. rewrite Zlen_cons. pose proof (Zlen_nonneg m). lia.
Qed.

Lemma sample_partial : partial [].
Proof.
  platform. exists (sample_packet SUPLA_MAX_DATA_SIZE 0).
  exists (wire (sample_packet SUPLA_MAX_DATA_SIZE 0)).
  assert (Hs : sendable (sample_packet SUPLA_MAX_DATA_SIZE 0)) by (apply sample_wf; lia).
  split_and!; [done|done|]. intros E. apply (f_equal Zlen) in E.
  rewrite Zlen_wire, (@Zlen_nil Init.Byte.byte) in E by done. cbn [sample_packet sdp_data_size] in E. lia.
Qed.

(** Any prefix of a stream of packets is whole packets and a partial one. *)
Lemma split_stream ps : forall x y,
  Forall sendable ps -> x ++ y = concat (map wire ps) ->
  exists ps1 ps2 tail, ps = ps1 ++ ps2 /\ x = concat (map wire ps1) ++ tail /\
    partial tail /\ tail ++ y = concat (map wire ps2).
Proof.
  induction ps as [|p ps IH]; intros x y Hps E.
  - cbn in E. apply app_eq_nil in E as [-> ->]. exists [], [], []. split_and!; try done.
    apply sample_partial.
  - inversion Hps as [|? ? Hp Hps' E1]; subst. cbn [map concat] in E.
    destruct (Z.lt_ge_cases (Zlen x) (Zlen (wire p))) as [Hlt|Hge].
    + exists [], (p :: ps), x. split_and!; try done.
      exists p, (drop (length x) (wire p)). split_and!; [done| |].
      * rewrite <-(take_drop (length x) (wire p)) at 1. f_equal. symmetry.
        transitivity (take (length x) (x ++ y)); [by rewrite take_app_length|].
        rewrite E, take_app_le; [done|]. unfold Zlen in Hlt. lia.
      * intros Hnil. apply (f_equal length) in Hnil. rewrite length_drop in Hnil.
        unfold Zlen in Hlt. cbn in Hnil. lia.
    + assert (Hx : x = wire p ++ drop (length (wire p)) x).
      { rewrite <-(take_drop (length (wire p)) x) at 1. f_equal.
        transitivity (take (length (wire p)) (wire p ++ concat (map wire ps)));
          [|by rewrite take_app_length].
        rewrite <-E, take_app_le; [done|]. unfold Zlen in Hge. lia. }
      rewrite Hx, <-app_assoc in E. apply app_inv_head in E.
      destruct (IH _ _ Hps' E) as (ps1 & ps2 & tail & -> & Hd & Ht & Hy).
      exists (p :: ps1), ps2, tail. split_and!; [done| |done|done].
      cbn [map concat]. rewrite Hx at 1. by rewrite Hd, <-app_assoc.
Qed.

(** One iteration of the device engine on a well-formed stream. *)
Lemma wp_device_step fuel w b i ps tail :
  world_ok w -> never_refuses (w_heap w) -> on_remote_call_received <> None ->
  w_input w = Arrived b :: i -> 1 <= Zlen b <= SRPC_BUFFER_SIZE -> partial (in_bytes w) ->
  in_bytes w ++ b = concat (map wire ps) ++ tail -> Forall sendable ps -> partial tail ->
  (length ps < fuel)%nat ->
  wp (srpc_iterate_device fuel) (fun r w' =>
    r = Some SUPLA_RESULT_TRUE /\ world_ok w' /\ w_lck w' = w_lck w /\
    never_refuses (w_heap w') /\ in_bytes w' = tail /\ w_input w' = i /\
    exists ds, Forall2 same_packet ps ds /\
      deliveries w' = deliveries w ++ map (fun p => (p, w_lck w)) ds) w.
Proof.
  intros Hok Hnr Hcb Hin Hb Hpart E Hps Htail Hfuel. pose proof (wok_lck _ Hok) as Hl. platform.
  pose proof (partial_bound _ Hpart). unfold srpc_iterate_device.
  srpc_steps. apply wp_lock. srpc_steps.
  set (w1 := with_input (with_lck w (held (w_lck w))) i).
  assert (Hread : wp (data_read SRPC_BUFFER_SIZE) (fun r w' => r = (Zlen b, b) /\ w' = w1)
                     (with_lck w (held (w_lck w)))).
  { unfold wp, data_read. cbn [with_lck w_input]. rewrite Hin.
    rewrite (proj2 (Z.leb_le _ _)) by lia. done. }
  eapply wp_mono; [exact Hread|]. intros r w' [-> ->]. cbn beta iota.
  rewrite (proj2 (Z.ltb_lt 0 _)) by lia.
  pose proof (progress_input (w_lck w) w i Hok Hl) as Hp1.
  apply wp_bnd. change (in_bytes w) with (in_bytes w1) in *.
  eapply wp_mono; [apply wp_proto_append; [apply Hp1|lia|lia]|].
  intros r w2 (Hq & _ & Hc). rewrite (proj2 (Z.leb_gt _ _)) in Hc by lia.
  destruct Hc as [[-> Hc]|(_ & _ & Hc)]; [|by destruct Hc].
  cbn [Z.eqb SUPLA_RESULT_TRUE Pos.eqb negb]. rewrite take_all in Hc by lia. rewrite E in Hc.
  apply wp_bnd. destruct Hq as [Hok2 Hl2 Hi2 Ht2 Hn2].
  eapply wp_mono; [by apply (wp_pop_loop_stream ps fuel w2 (w_lck w) tail)|].
  intros ended w3 (-> & Hok3 & Hl3 & Hi3 & Hb3 & Hn3 & ds & Hds & Hd3). cbn beta iota.
  cbn [Z.eqb SUPLA_RESULT_FALSE negb]. apply wp_bnd.
  eapply wp_unlock_c; [done|done|vm_compute; split; discriminate|]. apply wp_ret.
  split_and!; [done|by apply world_ok_lck|done|by apply Hn3, Hn2|exact Hb3|exact (eq_trans Hi3 Hi2)|].
  exists ds. split; [done|]. change (deliveries (with_lck w3 (w_lck w))) with (deliveries w3).
  rewrite Hd3. f_equal. unfold deliveries. by rewrite Ht2.
Qed.

(** A whole stream, split into reads anyhow. *)
Lemma wp_run_device chunks : forall fuel w ps,
  world_ok w -> never_refuses (w_heap w) -> on_remote_call_received <> None ->
  w_input w = map Arrived chunks -> Forall (fun b => 1 <= Zlen b <= SRPC_BUFFER_SIZE) chunks ->
  partial (in_bytes w) -> in_bytes w ++ concat chunks = concat (map wire ps) ->
  Forall sendable ps -> (length ps < fuel)%nat ->
  wp (run_device fuel (length chunks)) (fun rs w' =>
    rs = replicate (length chunks) (Some SUPLA_RESULT_TRUE) /\ world_ok w' /\
    w_lck w' = w_lck w /\ w_input w' = [] /\ in_bytes w' = [] /\
    exists ds, Forall2 same_packet ps ds /\
      deliveries w' = deliveries w ++ map (fun p => (p, w_lck w)) ds) w.
Proof.
  induction chunks as [|b chunks IH]; intros fuel w ps Hok Hnr Hcb Hin Hchunks Hpart E Hps Hfuel;
    cbn [length run_device].
  - apply wp_ret. cbn [concat] in E. rewrite app_nil_r in E.
    assert (ps = []) as ->.
    { destruct ps as [|p ps]; [done|]. exfalso. destruct Hpart as (q & m & Hq & Eq & Hm).
      inversion Hps as [|? ? Hp Hps' E1]; subst. cbn [map concat] in E.
      assert (Hp1 : pop_in_spec (in_bytes w) (blank_packet SUPLA_MAX_DATA_SIZE)
        = (SUPLA_RESULT_FALSE, blank_packet SUPLA_MAX_DATA_SIZE, in_bytes w))
        by (exact (pop_in_spec_prefix q _ _ m Hq Eq Hm)).
      rewrite E, pop_in_spec_wire in Hp1 by (done || apply blank_shape). done. }
    split_and!; try done. exists []. split; [constructor|]. by rewrite app_nil_r.
  - inversion Hchunks as [|? ? Hb Hchunks' E1]; subst. cbn [map concat] in *.
    rewrite app_assoc in E.
    destruct (split_stream _ _ _ Hps E) as (ps1 & ps2 & tail & -> & Ex & Ht & Ey).
    apply Forall_app in Hps as [Hps1 Hps2]. rewrite length_app in Hfuel.
    apply wp_bnd. eapply wp_mono; [by apply (wp_device_step fuel w b (map Arrived chunks) ps1 tail); auto; lia|].
    intros r w1 (-> & Hok1 & Hl1 & Hn1 & Hb1 & Hi1 & ds1 & Hds1 & Hd1).
    apply wp_bnd. eapply wp_mono; [apply (IH fuel w1 ps2); try done; [by rewrite Hb1|by rewrite Hb1|lia]|].
    intros rs w2 (-> & Hok2 & Hl2 & Hi2 & Hb2 & ds2 & Hds2 & Hd2). apply wp_ret.
    split_and!; try done; [congruence|]. exists (ds1 ++ ds2).
    split; [by apply Forall2_app|]. by rewrite map_app, Hd2, Hd1, Hl1, app_assoc.
Qed.

(** C2: a stream is reassembled however it is cut.  If the bytes that arrive are the wire
    forms of packets one after the other, cut into any reads of at most
    [SRPC_BUFFER_SIZE] bytes, then calling [srpc_iterate_device] once per read delivers
    exactly those packets, in order, each call answers TRUE (the input buffer never
    overflows), nothing stays buffered, and every callback runs outside the lock. *)
Theorem device_reassembles_stream fuel w chunks ps :
  world_ok w -> never_refuses (w_heap w) -> on_remote_call_received <> None ->
  w_input w = map Arrived chunks -> Forall (fun b => 1 <= Zlen b <= SRPC_BUFFER_SIZE) chunks ->
  in_bytes w = [] -> concat chunks = concat (map wire ps) -> Forall sendable ps ->
  (length ps < fuel)%nat ->
  exists w' ds,
    run_device fuel (length chunks) w
      = Some (replicate (length chunks) (Some SUPLA_RESULT_TRUE), w') /\
    Forall2 same_packet ps ds /\
    deliveries w' = deliveries w ++ map (fun p => (p, w_lck w)) ds /\
    in_bytes w' = [] /\ world_ok w' /\ w_lck w' = w_lck w.
Proof.
  intros Hok Hnr Hcb Hi Hch Hb E Hps Hf.
  pose proof (wp_run_device chunks fuel w ps) as Hw. rewrite Hb in Hw.
  specialize (Hw Hok Hnr Hcb Hi Hch sample_partial E Hps Hf). apply wp_run in Hw.
  destruct Hw as (rs & w' & Er & -> & ? & ? & ? & ? & ds & ? & ?).
  exists w', ds. by split_and!.
Qed.




(** C24: sending a call.  A call newer than the negotiated protocol version is refused
    and changes nothing beyond the callback's doing.  Otherwise one packet with the call
    id, the data, a fresh non-zero identifier and the negotiated version is appended to
    what is being sent and its identifier is returned, or nothing is sent and the
    result is 0: for data too large or missing, or a full output queue. *)
Theorem async_call_sends_packet call data n w :
  world_ok w -> 0 <= call < 2 ^ 32 -> 0 <= n < 2 ^ 32 ->
  n <= match data with Some d => Zlen d | None => n end ->
  exists r w', srpc_async_call call data n w = Some (r, w') /\
    keeps w w' /\ async_outcome call data n None w w' r.
Proof.
  intros Hok Hc Hn Hd. pose proof (wp_async_call call data n None w Hok Hc Hn) as Hw.
  specialize (Hw ltac:(cbn; lia) Hd). apply wp_run in Hw.
  destruct Hw as (r & w' & E & ? & ? & _). by exists r, w'.
Qed.

End Stream.

(** ** From one engine to another *)

(** Sending calls with their data, one after the other. *)
Fixpoint run_calls `{Platform} {params : TsrpcParams} (cs : list (Z * bytes)) : M world (list Z) :=
  match cs with
  | [] => mret []
  | (call, d) :: cs =>
      let! r := srpc_async_call call (Some d) (Zlen d) in
      let! rs := run_calls cs in mret (r :: rs)
  end.

(** A call the sender may make at protocol version [v]. *)
Definition call_ok `{Platform} (v : Z) (c : Z * bytes) : Prop :=
  0 <= c.1 < 2 ^ 32 /\ Zlen c.2 <= SUPLA_MAX_DATA_SIZE /\
  srpc_call_min_version_required c.1 <= v.

(** The packet carries the call. *)
Definition carries (c : Z * bytes) (p : sdp_t) : Prop :=
  sdp_call_id p = c.1 /\ payload p = c.2.

Section EndToEnd.
Context `{PL : PlatformLaws}.

Lemma packet_sendable p : packet_ok p ->
  SUPLA_PROTO_VERSION_MIN <= sdp_version p <= SUPLA_PROTO_VERSION -> sendable p.
Proof. by intros [? ?] ?. Qed.

Lemma version_of_range w : world_ok w ->
  SUPLA_PROTO_VERSION_MIN <= version_of w <= SUPLA_PROTO_VERSION.
Proof. intros [(p & Hp & []) _ _ _ _ _]. unfold version_of. by rewrite Hp. Qed.

Lemma wp_run_calls (params : TsrpcParams) `{CL : !ParamsLaws params} cs : forall w,
  world_ok w -> never_refuses (w_heap w) ->
  before_async_call = None -> on_min_version_required = None ->
  SRPC_WITHOUT_OUT_QUEUE = true -> Forall (call_ok (version_of w)) cs ->
  wp (run_calls cs) (fun rs w' =>
    world_ok w' /\ exists ps, Forall sendable ps /\ Forall2 carries cs ps /\
      Forall2 (fun p r => r = to_int (sdp_rr_id p)) ps rs /\
      written w' = written w ++ concat (map wire ps)) w.
Proof.
  induction cs as [|[call d] cs IH]; intros w Hok Hn Hbefore Hmin Hq Hcs; cbn [run_calls].
  - apply wp_ret. split; [done|]. exists []. rewrite app_nil_r. split_and!; constructor.
  - inversion Hcs as [|? ? (Hcall & Hd & Hver) Hcs' E1]; subst. cbn [fst snd] in *. platform.
    pose proof (Zlen_nonneg d). apply wp_bnd.
    eapply wp_mono; [apply wp_async_call; [done|done|lia|cbn; lia|lia]|].
    intros r w1 (Hk & Hout & Hv). specialize (Hv Hbefore Hmin). unfold async_outcome in Hout.
    rewrite (proj2 (Z.leb_le _ _) Hver) in Hout. cbn [negb] in Hout.
    destruct Hout as (w0 & _ & Hw0 & Hout). rewrite (Hw0 Hbefore) in Hout. clear w0 Hw0.
    destruct Hout as [(_ & _ & [?|[[_ ?]|[? _]]])|(p & Hp & Hid & Hs & Hpv & Hpd & Hrr & -> & Hsent)];
      [lia|done|congruence|].
    specialize (Hsent Hn). unfold sent in Hsent. rewrite Hq, !app_nil_r in Hsent.
    apply wp_bnd. eapply wp_mono.
    { apply IH; [apply Hk|by apply Hk|done|done|done|by rewrite Hv]. }
    intros rs w2 (Hok2 & ps & Hps & Hcar & Hrs & Hw2). apply wp_ret. split; [done|].
    exists (p :: ps). split_and!.
    + constructor; [|done]. apply packet_sendable; [done|]. rewrite Hpv. cbn. by apply version_of_range.
    + constructor; [|done]. split; [done|]. unfold payload. rewrite Hs, Hpd. cbn.
      apply take_all. lia.
    + constructor; [by rewrite Hrr|done].
    + rewrite Hw2, Hsent. cbn [map concat]. by rewrite <-app_assoc.
Qed.


End EndToEnd.

(** ** Queues and the builds' corner cases *)

Section Corners.
Context `{PL : PlatformLaws} {params : TsrpcParams} `{CL : !ParamsLaws params}.

(** C26: the packet queues are lists.  A push appends unless [SRPC_QUEUE_SIZE] packets are
    queued (or the allocator refuses); a pop removes the oldest packet with the
    identifier asked for, zero asking for any, keeps the order of the others, and
    answers FALSE without a change when there is none.  Slots kept for reuse, freed
    slots and the counters are invisible. *)
Theorem queue_is_a_list q ps sdp rr_id h :
  queue_rep q ps ->
  (exists r q' h', srpc_queue_push q sdp h = Some ((r, q'), h') /\
     if SRPC_QUEUE_SIZE <=? Zlen ps then r = SUPLA_RESULT_FALSE /\ q' = q
     else (r = SUPLA_RESULT_TRUE /\ queue_rep q' (ps ++ [sdp]))
       \/ (r = SUPLA_RESULT_FALSE /\ q' = q /\ ~ never_refuses h)) /\
  match list_pop rr_id ps with
  | Some (p, rest) =>
      exists q', srpc_queue_pop q sdp rr_id = Some (SUPLA_RESULT_TRUE, p, q') /\ queue_rep q' rest
  | None => srpc_queue_pop q sdp rr_id = Some (SUPLA_RESULT_FALSE, sdp, q)
  end.
Proof.
  intros Hq. split; [|by apply queue_pop_ok].
  pose proof (wp_queue_push q ps sdp h Hq) as Hw. apply wp_run in Hw.
  destruct Hw as ([r q'] & h' & E & _ & _ & ?). by exists r, q', h'.
Qed.

(** A queued packet that does not fit into the output buffer is dropped: the
    iteration takes it off the queue, answers TRUE, and what is being sent goes on
    without it, although its sender was given its identifier. *)
Theorem iterate_out_drops_packet raise w l :
  world_ok w -> lck_ok l -> w_lck w = held l -> SRPC_WITHOUT_OUT_QUEUE = false -> buffer_full w ->
  exists w', iterate_out raise w = Some (SUPLA_RESULT_TRUE, w') /\ sent w' = sent_without_head w.
Proof.
  intros Hok Hl Hw Hq Hf. pose proof (wp_iterate_out raise w l Hok Hl Hw) as Hr. apply wp_run in Hr.
  destruct Hr as (r & w' & E & _ & _ & _ & _ & _ & _ & _ & Hs). destruct (Hs Hq Hf) as [-> ?].
  by exists w'.
Qed.

(** On AVR the identifier passes through a 16-bit [int]: for every identifier that is
    a multiple of 65536 the call is sent and the answer is 0, which means not sent. *)
Theorem avr_result_of_sent_call_is_zero call d w :
  world_ok w -> never_refuses (w_heap w) -> before_async_call = None ->
  AVR = true -> SRPC_WITHOUT_OUT_QUEUE = true -> next_id w mod 2 ^ 16 = 0 ->
  call_ok (version_of w) (call, d) ->
  exists w' p, srpc_async_call call (Some d) (Zlen d) w = Some (SUPLA_RESULT_FALSE, w') /\
    sent w' = sent w ++ wire p /\ carries (call, d) p.
Proof.
  intros Hok Hn Hbefore Havr Hq Hid (Hcall & Hd & Hver). cbn [fst snd] in *. platform.
  pose proof (Zlen_nonneg d).
  pose proof (wp_async_call call (Some d) (Zlen d) None w Hok Hcall ltac:(lia) ltac:(cbn; lia)
    ltac:(cbn; lia)) as Hw. apply wp_run in Hw. destruct Hw as (r & w' & E & _ & Hout & _).
  unfold async_outcome in Hout. rewrite (proj2 (Z.leb_le _ _) Hver) in Hout. cbn [negb] in Hout.
  destruct Hout as (w0 & _ & Hw0 & Hout). rewrite (Hw0 Hbefore) in Hout.
  destruct Hout as [(_ & _ & [?|[[_ ?]|[? _]]])|(p & Hp & Hid' & Hs & _ & Hpd & _ & -> & Hsent)];
    [lia|done|congruence|].
  exists w', p. split_and!; [|by apply Hsent|split; [done|]].
  - unfold srpc_async_call. rewrite E. do 2 f_equal. unfold to_int. rewrite Havr. unfold sN.
    rewrite <-Zplus_mod_idemp_l, Hid. done.
  - unfold payload. rewrite Hs, Hpd. cbn. apply take_all. lia.
Qed.

End Corners.

(** ** Witnesses *)

(** No callback but a handler that ignores every packet. *)
Definition silent_params : TsrpcParams :=
  {| on_remote_call_received := Some (fun _ _ _ => mret tt); on_version_error := None;
     before_async_call := None; on_min_version_required := None; params_eh := true |}.

#[export] Instance silent_laws `{PL : PlatformLaws} : ParamsLaws silent_params.
Proof.
  constructor; cbn; try done. intros f ? ? ? w [= <-] ?. apply wp_ret. by apply keeps_refl.
Qed.

(** A handler that answers every packet with a call of its own. *)
Definition replying_params `{Platform} : TsrpcParams :=
  {| on_remote_call_received := Some (fun _ _ _ =>
       srpc_async_call (params := silent_params) SUPLA_DCS_CALL_GETVERSION None 0 ;;; mret tt);
     on_version_error := None; before_async_call := None; on_min_version_required := None;
     params_eh := true |}.

#[export] Instance replying_laws `{PL : PlatformLaws} : ParamsLaws replying_params.
Proof.
  constructor; cbn; try done. intros f ? ? ? w [= <-] Hok. apply wp_bnd.
  eapply wp_mono; [by apply wp_async_call; cbn|]. intros r w' [? _]. by apply wp_ret.
Qed.

(** An engine with nothing queued, and [i] to read. *)
Definition idle_world `{Platform} (rr_id : Z) (i : list input) : world :=
  {| w_srpc := {| srpc_proto := Some {| next_rr_id := rr_id; spd_version := 28;
                    spd_in := spd_in fresh_spd; spd_out := spd_out fresh_spd |};
       srpc_sdp := blank_packet SUPLA_MAX_DATA_SIZE;
       srpc_in_queue := queue_zero; srpc_out_queue := queue_zero; srpc_lck := None |};
     w_heap := calm_heap; w_input := i; w_trace := [] |}.

Lemma idle_world_ok `{PL : PlatformLaws} rr_id i : 0 <= rr_id < 2 ^ 32 -> world_ok (idle_world rr_id i).
Proof.
  intros. constructor; cbn.
  - eexists. split; [done|]. pose proof fresh_ok as []. constructor; try done.
  - apply blank_fits.
  - exists []. split; [apply queue_zero_rep|done].
  - exists []. split; [apply queue_zero_rep|done].
  - apply heap_ok_calm.
  - done.
Qed.

(** Two packets in three reads. *)
Definition sample_chunks : list bytes :=
  [take 10 (wire sample); drop 10 (wire sample) ++ take 20 (wire sample); drop 20 (wire sample)].

Lemma sample_chunks_ok :
  Forall (fun b => 1 <= Zlen b <= @SRPC_BUFFER_SIZE linux_device) sample_chunks.
Proof. repeat constructor; vm_compute; discriminate. Qed.

Lemma device_reassembles_stream_witness :
  exists w' ds,
    @run_device linux_device (@replying_params linux_device) 9 3
      (@idle_world linux_device 0 (map Arrived sample_chunks))
      = Some (replicate 3 (Some SUPLA_RESULT_TRUE), w') /\
    Forall2 same_packet [sample; sample] ds /\
    deliveries w' = [] ++ map (fun p => (p, None)) ds /\
    in_bytes w' = [] /\ @world_ok linux_device w' /\ w_lck w' = None.
Proof.
  apply (@device_reassembles_stream linux_device _ _ _ 9
    (@idle_world linux_device 0 (map Arrived sample_chunks)) sample_chunks [sample; sample]);
    [by apply (@idle_world_ok linux_device _)|apply never_refuses_calm|discriminate|reflexivity
    |apply sample_chunks_ok|reflexivity|reflexivity
    |repeat constructor; apply sample_sendable|cbn; lia].
Defined.



(** The NONOS build with [c] in the output buffer and a packet queued. *)
Definition sending_world (c : bytes) : world :=
  {| w_srpc := {| srpc_proto := Some (spd_sending c);
       srpc_sdp := blank_packet 1536; srpc_in_queue := @queue_zero esp8266_nonos;
       srpc_out_queue := {| q_item_count := 1; q_alloc_count := 1;
         q_item := [Some (sample_packet 1536 600); None] |}; srpc_lck := None |};
     w_heap := calm_heap; w_input := []; w_trace := [] |}.

Lemma sending_world_ok c : Zlen c < 2048 -> @world_ok esp8266_nonos (sending_world c).
Proof.
  intros. constructor; cbn.
  - eexists. split; [done|]. by apply spd_sending_ok.
  - apply (@blank_fits esp8266_nonos _).
  - exists []. split; [apply (@queue_zero_rep esp8266_nonos _)|done].
  - exists [sample_packet 1536 600]. split.
    + constructor; try done. by exists [None].
    + constructor; [|done]. destruct (@sample_wf esp8266_nonos _ 600) as [? _ ?]; [cbn; lia|done].
  - apply heap_ok_calm.
  - done.
Qed.


Lemma iterate_out_drops_packet_witness :
  exists w', @iterate_out esp8266_nonos silent_params false (sending_world (zeros 1600))
    = Some (SUPLA_RESULT_TRUE, w') /\
    @sent esp8266_nonos w' = sent_without_head (sending_world (zeros 1600)).
Proof.
  apply (@iterate_out_drops_packet esp8266_nonos _ silent_params false (sending_world (zeros 1600)) None);
    [by apply sending_world_ok|done|done|reflexivity|vm_compute; discriminate].
Defined.

Lemma queue_is_a_list_witness :
  (exists r q' h', @srpc_queue_push generic64 (@queue_zero generic64) sample calm_heap
      = Some ((r, q'), h') /\
     if 10 <=? 0 then r = SUPLA_RESULT_FALSE /\ q' = @queue_zero generic64
     else (r = SUPLA_RESULT_TRUE /\ @queue_rep generic64 q' [sample])
       \/ (r = SUPLA_RESULT_FALSE /\ q' = @queue_zero generic64 /\ ~ never_refuses calm_heap)) /\
  @srpc_queue_pop generic64 (@queue_zero generic64) sample 0
    = Some (SUPLA_RESULT_FALSE, sample, @queue_zero generic64).
Proof.
  apply (@queue_is_a_list generic64 _ (@queue_zero generic64) [] sample 0 calm_heap).
  apply queue_zero_rep.
Defined.

Lemma async_call_sends_packet_witness :
  exists r w', @srpc_async_call arduino_mega silent_params SUPLA_DCS_CALL_PING_SERVER
      (Some (zeros 16)) 16 (@idle_world arduino_mega 0 []) = Some (r, w') /\
    @keeps arduino_mega (@idle_world arduino_mega 0 []) w' /\
    @async_outcome arduino_mega silent_params SUPLA_DCS_CALL_PING_SERVER (Some (zeros 16)) 16 None
      (@idle_world arduino_mega 0 []) w' r.
Proof.
  apply (@async_call_sends_packet arduino_mega _ silent_params _);
    [by apply (@idle_world_ok arduino_mega _)|by vm_compute|by vm_compute|by vm_compute].
Defined.

Lemma avr_result_of_sent_call_is_zero_witness :
  exists w' p, @srpc_async_call arduino_mega silent_params SUPLA_DCS_CALL_GETVERSION (Some [])
      (Zlen (@nil Init.Byte.byte)) (@idle_world arduino_mega 65535 [])
      = Some (SUPLA_RESULT_FALSE, w') /\
    @sent arduino_mega w' = @sent arduino_mega (@idle_world arduino_mega 65535 []) ++ wire p /\
    carries (SUPLA_DCS_CALL_GETVERSION, []) p.
Proof.
  apply (@avr_result_of_sent_call_is_zero arduino_mega _ silent_params _);
    [by apply (@idle_world_ok arduino_mega _)|apply never_refuses_calm|reflexivity|reflexivity
    |reflexivity|reflexivity|by vm_compute].
Defined.

(** A device that has sent two calls. *)
Definition two_calls : list (Z * bytes) :=
  [(SUPLA_DCS_CALL_PING_SERVER, zeros 16); (SUPLA_DCS_CALL_GETVERSION, [])].

Definition after_two_calls : list Z * world :=
  match @run_calls linux_device silent_params two_calls (@idle_world linux_device 0 []) with
  | Some r => r
  | None => ([], @idle_world linux_device 0 [])
  end.

Definition two_calls_chunks : list bytes :=
  [take 30 (written after_two_calls.2); drop 30 (written after_two_calls.2)].

