(* ===== verification/SrpcPack.v ===== *)
(** * srpc.c: packs of items with captions

    [srpc_getpack] and [srpc_set_pack]: a pack structure carries a count and an array of
    items whose last member is a caption of variable length; on the wire each item is
    cut after its caption.  The functions take the sizes and the accessors of a kind of
    pack as arguments; here a kind is a record, one per group of accessors in srpc.c. *)
From S2P Require Import Prelude Platform Heap Lck CLayout ProtoConsts ProtoTypes Proto.
From S2P Require Import SrpcQueue Srpc SrpcCall.

(** A kind of pack: its structure, its items, their number, the longest caption, the
    member with a caption's size, and the call that carries it. *)
Record pack_kind := {
  pk_pack : ctype;
  pk_item : ctype;
  pk_max : Z;
  pk_caption_max : Z;
  pk_size_member : string;
  pk_call : Z
}.

Section Kinds.
Context `{Platform}.

Definition channelpack : pack_kind :=
  {| pk_pack := TSC_SuplaChannelPack; pk_item := TSC_SuplaChannel;
     pk_max := SUPLA_CHANNELPACK_MAXCOUNT; pk_caption_max := SUPLA_CHANNEL_CAPTION_MAXSIZE;
     pk_size_member := "CaptionSize"; pk_call := SUPLA_SC_CALL_CHANNELPACK_UPDATE |}.

Definition channelpack_b : pack_kind :=
  {| pk_pack := TSC_SuplaChannelPack_B; pk_item := TSC_SuplaChannel_B;
     pk_max := SUPLA_CHANNELPACK_MAXCOUNT; pk_caption_max := SUPLA_CHANNEL_CAPTION_MAXSIZE;
     pk_size_member := "CaptionSize"; pk_call := SUPLA_SC_CALL_CHANNELPACK_UPDATE_B |}.

Definition channelpack_c : pack_kind :=
  {| pk_pack := TSC_SuplaChannelPack_C; pk_item := TSC_SuplaChannel_C;
     pk_max := SUPLA_CHANNELPACK_MAXCOUNT; pk_caption_max := SUPLA_CHANNEL_CAPTION_MAXSIZE;
     pk_size_member := "CaptionSize"; pk_call := SUPLA_SC_CALL_CHANNELPACK_UPDATE_C |}.

Definition channelpack_d : pack_kind :=
  {| pk_pack := TSC_SuplaChannelPack_D; pk_item := TSC_SuplaChannel_D;
     pk_max := SUPLA_CHANNELPACK_MAXCOUNT; pk_caption_max := SUPLA_CHANNEL_CAPTION_MAXSIZE;
     pk_size_member := "CaptionSize"; pk_call := SUPLA_SC_CALL_CHANNELPACK_UPDATE_D |}.

Definition channelpack_e : pack_kind :=
  {| pk_pack := TSC_SuplaChannelPack_E; pk_item := TSC_SuplaChannel_E;
     pk_max := SUPLA_CHANNELPACK_MAXCOUNT; pk_caption_max := SUPLA_CHANNEL_CAPTION_MAXSIZE;
     pk_size_member := "CaptionSize"; pk_call := SUPLA_SC_CALL_CHANNELPACK_UPDATE_E |}.

Definition channelgroup_pack : pack_kind :=
  {| pk_pack := TSC_SuplaChannelGroupPack; pk_item := TSC_SuplaChannelGroup;
     pk_max := SUPLA_CHANNELGROUP_PACK_MAXCOUNT;
     pk_caption_max := SUPLA_CHANNELGROUP_CAPTION_MAXSIZE;
     pk_size_member := "CaptionSize"; pk_call := SUPLA_SC_CALL_CHANNELGROUP_PACK_UPDATE |}.

Definition channelgroup_pack_b : pack_kind :=
  {| pk_pack := TSC_SuplaChannelGroupPack_B; pk_item := TSC_SuplaChannelGroup_B;
     pk_max := SUPLA_CHANNELGROUP_PACK_MAXCOUNT;
     pk_caption_max := SUPLA_CHANNELGROUP_CAPTION_MAXSIZE;
     pk_size_member := "CaptionSize"; pk_call := SUPLA_SC_CALL_CHANNELGROUP_PACK_UPDATE_B |}.

Definition locationpack : pack_kind :=
  {| pk_pack := TSC_SuplaLocationPack; pk_item := TSC_SuplaLocation;
     pk_max := SUPLA_LOCATIONPACK_MAXCOUNT; pk_caption_max := SUPLA_LOCATION_CAPTION_MAXSIZE;
     pk_size_member := "CaptionSize"; pk_call := SUPLA_SC_CALL_LOCATIONPACK_UPDATE |}.

Definition scenepack : pack_kind :=
  {| pk_pack := TSC_SuplaScenePack; pk_item := TSC_SuplaScene;
     pk_max := SUPLA_SCENE_PACK_MAXCOUNT; pk_caption_max := SUPLA_SCENE_CAPTION_MAXSIZE;
     pk_size_member := "CaptionSize"; pk_call := SUPLA_SC_CALL_SCENE_PACK_UPDATE |}.

Definition scenestatepack : pack_kind :=
  {| pk_pack := TSC_SuplaSceneStatePack; pk_item := TSC_SuplaSceneState;
     pk_max := SUPLA_SCENE_STATE_PACK_MAXCOUNT; pk_caption_max := SUPLA_INITIATOR_NAME_MAXSIZE;
     pk_size_member := "InitiatorNameSize"; pk_call := SUPLA_SC_CALL_SCENE_STATE_PACK_UPDATE |}.

End Kinds.

(** ** Accessors of a pack object, given as its bytes *)

(** [((PACK * )pack)->count] *)
Definition pack_get_count (k : pack_kind) (pack : bytes) : option Z :=
  read_member (pk_pack k) ["count"] pack.

(** [count = c] or, with [increment], [count += c] *)
Definition pack_set_count (k : pack_kind) (pack : bytes) (c : Z) (increment : bool) : option bytes :=
  if increment then
    match pack_get_count k pack with
    | Some n => write_member (pk_pack k) ["count"] (n + c) pack
    | None => None
    end
  else write_member (pk_pack k) ["count"] c pack.

(** The offset of [items[idx]]. *)
Definition item_offset (k : pack_kind) (idx : Z) : option Z :=
  match member (pk_pack k) ["items"] with
  | Some (o, _) => Some (o + idx * sizeof (pk_item k))
  | None => None
  end.

(** The caption size of the item that starts at [off] in [b]. *)
Definition caption_size_at (k : pack_kind) (b : bytes) (off : Z) : option Z :=
  if (0 <=? off) && (off <=? Zlen b)
  then read_member (pk_item k) [pk_size_member k] (drop (Z.to_nat off) b)
  else None.

(** [header_size] and [c_header_size]: the pack without its items, an item without its
    caption. *)
Definition pk_header (k : pack_kind) : Z :=
  i32 (u32 (sizeof (pk_pack k) - u32 (sizeof (pk_item k) * pk_max k))).
Definition pk_item_header (k : pack_kind) : Z :=
  i32 (u32 (sizeof (pk_item k) - pk_caption_max k)).

(** The loop of [srpc_getpack]: [n] iterations left from index [a]; the packet's data of
    [ds] bytes is read from [offset] on.  The result is the pack. *)
Fixpoint getpack_loop (k : pack_kind) (data : bytes) (ds : Z) (n : nat) (a offset : Z)
    (pack : bytes) : option bytes :=
  match n with
  | O => Some pack
  | S n =>
      if u32 (pk_item_header k) <=? u32 (ds - offset) then
        match caption_size_at k data offset with
        | None => None
        | Some size =>
            let size := i32 size in
            if (0 <=? size) && (u32 size <=? pk_caption_max k)
               && (u32 (pk_item_header k + size) <=? u32 (ds - offset))
            then
              match item_offset k a, peek offset (pk_item_header k + size) data with
              | Some o, Some item =>
                  match poke o item pack with
                  | Some pack =>
                      match pack_set_count k pack 1 true with
                      | Some pack =>
                          getpack_loop k data ds n (a + 1)
                            (i32 (offset + (pk_item_header k + size))) pack
                      | None => None
                      end
                  | None => None
                  end
              | _, _ => None
              end
            else Some pack
        end
      else getpack_loop k data ds n (a + 1) offset pack
  end.

(** [srpc_getpack]: the pack it leaves in [rd->data], null when there is none, and the
    packet, whose size becomes zero when the pack is handed over. *)
Definition srpc_getpack (k : pack_kind) (sdp : sdp_t) : M heap (ptr * sdp_t) :=
  let data := sdp_data sdp in
  let ds := sdp_data_size sdp in
  if (ds <? u32 (pk_header k)) || (sizeof (pk_pack k) <? ds) then mret (PNull, sdp)
  else
    let! count := mopt (pack_get_count k data) in
    if (count <? 0) || (pk_max k <? u32 count) then mret (PNull, sdp)
    else
      let pack_size := i32 (pk_header k + sizeof (pk_item k) * count) in
      let! pack := malloc pack_size in
      match pack with
      | PLive _ =>
          let! head := mopt (peek 0 (pk_header k) data) in
          let! pack := mopt (poke 0 head (zeros pack_size)) in
          let! pack := mopt (pack_set_count k pack 0 false) in
          let! pack := mopt (getpack_loop k data ds (Z.to_nat count) 0 (pk_header k) pack) in
          let! n := mopt (pack_get_count k pack) in
          if count =? n then
            mret (PLive pack, {| sdp_tag := sdp_tag sdp; sdp_version := sdp_version sdp;
              sdp_rr_id := sdp_rr_id sdp; sdp_call_id := sdp_call_id sdp;
              sdp_data_size := 0; sdp_data := sdp_data sdp |})
          else free (PLive pack) ;;; mret (PNull, sdp)
      | _ => mret (PNull, sdp)
      end.

(** ** Sending a pack *)

Section SetPack.
Context `{Platform} {params : TsrpcParams}.

(** The loop of [srpc_set_pack] over the caller's [pack]: the buffer, its size, the
    offset and the number of items stored; [None] inside the result is a failed
    reallocation. *)
Fixpoint set_pack_loop (k : pack_kind) (pack : bytes) (n : nat) (a : Z) (buffer : ptr)
    (size offset items : Z) : M heap (option (ptr * Z * Z)) :=
  match n with
  | O => mret (Some (buffer, size, items))
  | S n =>
      let! o := mopt (item_offset k a) in
      let! caption := mopt (caption_size_at k pack o) in
      if u32 caption <=? pk_caption_max k then
        let size := i32 (u32 (size + (sizeof (pk_item k) - pk_caption_max k + u32 caption))) in
        let! (new_buffer, old_buffer) := realloc buffer size in
        if is_null new_buffer then free old_buffer ;;; mret None
        else
          let! item := mopt (peek o (size - offset) pack) in
          let! buffer := mopt (ptr_write new_buffer offset item) in
          set_pack_loop k pack n (a + 1) buffer size (offset + (size - offset)) (items + 1)
      else set_pack_loop k pack n (a + 1) buffer size offset items
  end.

Definition srpc_set_pack (k : pack_kind) (pack : bytes) : M world Z :=
  let! count := mopt (pack_get_count k pack) in
  if (count <? 1) || (pk_max k <? u32 count) then mret 0
  else
    let size := pk_header k in
    let! buffer := on_heap (malloc size) in
    if is_null buffer then mret 0
    else
      let! head := mopt (peek 0 size pack) in
      let! buffer := mopt (ptr_write buffer 0 head) in
      let! r := on_heap (set_pack_loop k pack (Z.to_nat count) 0 buffer size size 0) in
      match r with
      | None => mret 0
      | Some (buffer, size, n) =>
          match buffer with
          | PLive b =>
              let! b := mopt (pack_set_count k b n false) in
              let! result := srpc_async_call (pk_call k) (Some b) (u32 size) in
              on_heap (free (PLive b)) ;;; mret result
          | _ => mopt None
          end
      end.

Definition srpc_sc_async_locationpack_update := srpc_set_pack locationpack.
Definition srpc_sc_async_channelpack_update := srpc_set_pack channelpack.
Definition srpc_sc_async_channelpack_update_b := srpc_set_pack channelpack_b.
Definition srpc_sc_async_channelpack_update_c := srpc_set_pack channelpack_c.
Definition srpc_sc_async_channelpack_update_d := srpc_set_pack channelpack_d.
Definition srpc_sc_async_channelpack_update_e := srpc_set_pack channelpack_e.
Definition srpc_sc_async_channelgroup_pack_update := srpc_set_pack channelgroup_pack.
Definition srpc_sc_async_channelgroup_pack_update_b := srpc_set_pack channelgroup_pack_b.
Definition srpc_sc_async_scene_pack_update := srpc_set_pack scenepack.
Definition srpc_sc_async_scene_state_pack_update := srpc_set_pack scenestatepack.

End SetPack.
