(* ===== verification/SrpcPackFacts.v ===== *)
(** * srpc.c: lemmas on packs of items

    The layout every kind of pack has, and [srpc_getpack] on arbitrary data against the
    abstract unpacker [pack_of]. *)
From S2P Require Import Prelude Platform Heap Lck CLayout ProtoConsts ProtoTypes Proto ProtoFacts.
From S2P Require Import ProtoProps SrpcQueue Srpc SrpcCall SrpcFacts SrpcPack.

(** ** The layout of a pack *)

(** The header without the array and an item without its caption. *)
Definition header_len (k : pack_kind) : Z := sizeof (pk_pack k) - sizeof (pk_item k) * pk_max k.
Definition item_header_len (k : pack_kind) : Z := sizeof (pk_item k) - pk_caption_max k.

(** The members the accessors use lie in the fixed parts, and the items are last. *)
Definition pack_kind_ok (k : pack_kind) : bool :=
  match member (pk_pack k) ["count"], member (pk_item k) [pk_size_member k],
        member (pk_pack k) ["items"] with
  | Some (oc, TInt true 4), Some (os, TInt false sw), Some (oi, _) =>
      (oi =? header_len k) && (0 <=? oc) && (oc + 4 <=? header_len k)
      && (0 <? sw) && (sw <=? 4) && (0 <=? os) && (os + sw <=? item_header_len k)
      && (sizeof (pk_pack k) <? 2 ^ 31) && (sizeof (pk_item k) <? 2 ^ 31)
      && (0 <=? pk_max k) && (0 <=? pk_caption_max k)
  | _, _, _ => false
  end.

Record kind_layout (k : pack_kind) (oc os sw : Z) : Prop := {
  kl_count : member (pk_pack k) ["count"] = Some (oc, TInt true 4);
  kl_size : member (pk_item k) [pk_size_member k] = Some (os, TInt false sw);
  kl_items : exists t, member (pk_pack k) ["items"] = Some (header_len k, t);
  kl_oc : 0 <= oc /\ oc + 4 <= header_len k;
  kl_os : 0 <= os /\ os + sw <= item_header_len k;
  kl_sw : 0 < sw <= 4;
  kl_pack : sizeof (pk_pack k) < 2 ^ 31;
  kl_item : sizeof (pk_item k) < 2 ^ 31;
  kl_max : 0 <= pk_max k;
  kl_caption : 0 <= pk_caption_max k
}.

Lemma pack_kind_ok_layout k : pack_kind_ok k = true -> exists oc os sw, kind_layout k oc os sw.
Proof.
  unfold pack_kind_ok.
  destruct (member (pk_pack k) ["count"]) as [[oc tc]|] eqn:Ec; [|done].
  destruct tc as [[] [|p|p]| | | |]; try done. do 3 (destruct p as [p|p|]; try done).
  destruct (member (pk_item k) _) as [[os ts]|] eqn:Es; [|done].
  destruct ts as [[] sw| | | |]; try done.
  destruct (member (pk_pack k) ["items"]) as [[oi ti]|] eqn:Ei; [|done].
  intros H. bools. subst oi. exists oc, os, sw. constructor; try done. by exists ti.
Qed.

Section Layout.
Context (k : pack_kind) (oc os sw : Z) (L : kind_layout k oc os sw).

Lemma item_pos : 0 < item_header_len k /\ item_header_len k <= sizeof (pk_item k)
  /\ 4 <= header_len k <= sizeof (pk_pack k).
Proof.
  destruct L as [? ? ? [? ?] [? ?] ? ? ? ? ?]. unfold item_header_len, header_len in *.
  split_and!; try lia. assert (0 <= sizeof (pk_item k)) by lia. nia.
Qed.

Lemma pk_header_eq : pk_header k = header_len k.
Proof.
  pose proof item_pos. destruct L. unfold pk_header. fold (header_len k).
  assert (u32 (sizeof (pk_item k) * pk_max k) = sizeof (pk_item k) * pk_max k) as ->.
  { apply uN_small. unfold header_len in *. nia. }
  fold (header_len k). rewrite uN_small by lia. apply sN_small; lia.
Qed.

Lemma pk_item_header_eq : pk_item_header k = item_header_len k.
Proof.
  pose proof item_pos. destruct L. unfold pk_item_header. fold (item_header_len k).
  rewrite uN_small by lia. apply sN_small; lia.
Qed.

(** The header with the count [c]. *)
Definition put_count (h : bytes) (c : Z) : bytes :=
  take (Z.to_nat oc) h ++ le_split 4 c ++ drop (Z.to_nat (oc + 4)) h.

Lemma Zlen_put_count h c : oc + 4 <= Zlen h -> Zlen (put_count h c) = Zlen h.
Proof. destruct L as [? ? ? [? ?] ? ? ? ? ? ?]. intros. unfold put_count. zlen. Qed.

Lemma set_count_ok b c : header_len k <= Zlen b ->
  pack_set_count k b c false = Some (put_count b c).
Proof.
  destruct L as [Hc ? ? [? ?] ? ? ? ? ? ?]. intros. unfold pack_set_count, write_member. rewrite Hc.
  cbn [sizeof]. change (Z.to_nat 4) with 4%nat. apply poke_Some; zlen.
Qed.

Lemma get_count_Some b : header_len k <= Zlen b ->
  pack_get_count k b = Some (i32 (le_combine (take 4 (drop (Z.to_nat oc) b)))).
Proof.
  destruct L as [Hc ? ? [? ?] ? ? ? ? ? ?]. intros. unfold pack_get_count, read_member. rewrite Hc.
  cbn [sizeof]. by rewrite peek_Some by lia.
Qed.

Lemma get_put_count b c : header_len k <= Zlen b -> - 2 ^ 31 <= c < 2 ^ 31 ->
  pack_get_count k (put_count b c) = Some c.
Proof.
  intros. pose proof L as [? ? ? [? ?] ? ? ? ? ? ?].
  rewrite get_count_Some by (rewrite Zlen_put_count; lia). do 2 f_equal.
  unfold put_count. rewrite drop_Zlen_app by zlen.
  rewrite take_app_length' by (by rewrite length_le_split).
  rewrite le_combine_split. change (Z.of_nat 4 * 8) with 32.
  unfold sN. rewrite Zplus_mod_idemp_l. apply (sN_small 32); lia.
Qed.

Lemma increment_count_ok b c : header_len k <= Zlen b -> - 2 ^ 31 <= c < 2 ^ 31 ->
  pack_set_count k (put_count b c) 1 true = Some (put_count b (c + 1)).
Proof.
  intros. pose proof L as [? ? ? [? ?] ? ? ? ? ? ?]. unfold pack_set_count at 1.
  rewrite get_put_count by done.
  pose proof (set_count_ok (put_count b c) (c + 1)) as Hs. unfold pack_set_count in Hs.
  rewrite Hs by (rewrite Zlen_put_count; lia). f_equal. unfold put_count at 1.
  unfold put_count. f_equal; [|f_equal].
  - rewrite take_app_le, take_take by (rewrite length_take; unfold Zlen in *; lia).
    f_equal. lia.
  - rewrite drop_app_ge by (rewrite length_take; unfold Zlen in *; lia).
    rewrite drop_app_ge by (rewrite length_take, length_le_split; unfold Zlen in *; lia).
    rewrite drop_drop. f_equal. rewrite length_take, length_le_split. unfold Zlen in *. lia.
Qed.

Lemma put_count_app h t c : header_len k <= Zlen h -> put_count (h ++ t) c = put_count h c ++ t.
Proof.
  intros. pose proof L as [? ? ? [? ?] ? ? ? ? ? ?]. unfold put_count.
  rewrite take_app_le, drop_app_le by (unfold Zlen in *; lia). by rewrite <-!app_assoc.
Qed.

(** A count that is read can be written back. *)
Lemma put_count_same h c : header_len k <= Zlen h -> pack_get_count k h = Some c ->
  put_count h c = h.
Proof.
  intros Hh Hc. pose proof L as [? ? ? [? ?] ? ? ? ? ? ?].
  rewrite get_count_Some in Hc by done. injection Hc as <-. unfold put_count.
  set (f := take 4 (drop (Z.to_nat oc) h)).
  assert (Hf : length f = 4%nat) by (unfold f; rewrite length_take, length_drop; unfold Zlen in *; lia).
  assert (le_split 4 (i32 (le_combine f)) = f) as ->.
  { apply le_combine_inj; [by rewrite length_le_split|]. rewrite le_combine_split.
    rewrite <-(Z.mod_small (le_combine f) (2 ^ 32)) at 2
      by (change (2 ^ 32) with (2 ^ (8 * Z.of_nat 4)); by apply le_combine_range). change (2 ^ (Z.of_nat 4 * 8)) with (2 ^ 32). unfold sN.
    rewrite Zminus_mod_idemp_l. f_equal. lia. }
  unfold f. rewrite <-(take_drop (Z.to_nat oc) h) at 4. f_equal.
  rewrite <-(take_drop 4 (drop (Z.to_nat oc) h)) at 2. f_equal. rewrite drop_drop. f_equal. lia.
Qed.

(** Reading the caption size of the item at an offset. *)
Lemma caption_size_Some b off : 0 <= off -> off + item_header_len k <= Zlen b ->
  caption_size_at k b off =
    Some (le_combine (take (Z.to_nat sw) (drop (Z.to_nat os) (drop (Z.to_nat off) b)))).
Proof.
  intros. pose proof L as [? Hs ? ? [? ?] ? ? ? ? ?]. unfold caption_size_at, read_member.
  rewrite !(proj2 (Z.leb_le _ _)) by lia. cbn [andb]. rewrite Hs. cbn [sizeof scalar].
  by rewrite peek_Some by zlen.
Qed.

Lemma caption_size_range b off s : caption_size_at k b off = Some s -> 0 <= s < 2 ^ 32.
Proof.
  pose proof L as [? Hs ? ? [? ?] ? ? ? ? ?]. unfold caption_size_at, read_member.
  case_if; [|done]. rewrite Hs. cbn [sizeof scalar].
  destruct (peek _ _ _) as [f|] eqn:Ef; [|done]. intros [= <-].
  apply peek_inv in Ef as (_ & _ & _ & Hf & _).
  pose proof (le_combine_bound f) as [? Hb]. split; [done|].
  eapply Z.lt_le_trans; [exact Hb|]. apply Z.pow_le_mono_r; [lia|]. unfold Zlen in Hf. lia.
Qed.

Lemma item_offset_eq a : item_offset k a = Some (header_len k + a * sizeof (pk_item k)).
Proof. destruct (kl_items _ _ _ _ L) as [t Ht]. unfold item_offset. by rewrite Ht. Qed.

End Layout.

(** ** The items on the wire *)

(** An item in the pack: the bytes received and zeros up to the size of an item. *)
Definition pad (k : pack_kind) (b : bytes) : bytes := b ++ zeros (sizeof (pk_item k) - Zlen b).

(** The [n] items at the start of [d], each cut after its caption; bytes that follow the
    last one are ignored. *)
Fixpoint items_of (k : pack_kind) (d : bytes) (n : nat) : option (list bytes) :=
  match n with
  | O => Some []
  | S n =>
      if item_header_len k <=? Zlen d then
        match caption_size_at k d 0 with
        | Some s =>
            if (s <=? pk_caption_max k) && (item_header_len k + s <=? Zlen d) then
              match items_of k (drop (Z.to_nat (item_header_len k + s)) d) n with
              | Some l => Some (take (Z.to_nat (item_header_len k + s)) d :: l)
              | None => None
              end
            else None
        | None => None
        end
      else None
  end.

Lemma zeros_app m n : 0 <= m -> 0 <= n -> zeros m ++ zeros n = zeros (m + n).
Proof. intros. unfold zeros. by rewrite <-replicate_add, Z2Nat.inj_add. Qed.

Section Loop.
Context (k : pack_kind) (oc os sw : Z) (L : kind_layout k oc os sw).

Lemma Zlen_pad b : Zlen b <= sizeof (pk_item k) -> Zlen (pad k b) = sizeof (pk_item k).
Proof. intros. pose proof (Zlen_nonneg b). unfold pad. zlen. Qed.

(** A window of the packet's data. *)
Lemma window_peek data ds offset n d :
  0 <= offset <= ds -> ds <= Zlen data -> d = drop (Z.to_nat offset) (take (Z.to_nat ds) data) ->
  0 <= n <= Zlen d -> peek offset n data = Some (take (Z.to_nat n) d).
Proof.
  intros Ho Hds -> Hn. assert (Hl : offset + n <= ds) by zlen.
  rewrite peek_Some by lia. f_equal. rewrite <-(take_drop (Z.to_nat ds) data) at 1.
  rewrite drop_app_le, take_app_le by (rewrite ?length_drop, length_take; unfold Zlen in *; lia).
  done.
Qed.

Lemma window_caption data ds offset d :
  0 <= offset <= ds -> ds <= Zlen data -> d = drop (Z.to_nat offset) (take (Z.to_nat ds) data) ->
  item_header_len k <= Zlen d -> caption_size_at k data offset = caption_size_at k d 0.
Proof.
  intros Ho Hds Hd Hn. pose proof L as [? ? ? ? [? ?] ? ? ? ? ?].
  assert (Hl : offset + item_header_len k <= ds) by (subst d; zlen).
  rewrite !(caption_size_Some k oc os sw L) by lia. do 2 f_equal. rewrite drop_0. subst d.
  rewrite <-(take_drop (Z.to_nat ds) data) at 1.
  rewrite drop_app_le by (rewrite length_take; unfold Zlen in *; lia).
  rewrite drop_app_le, take_app_le
    by (rewrite ?length_drop, length_take; unfold Zlen in *; lia).
  done.
Qed.

Lemma Zlen_pads l : Forall (fun b => Zlen b <= sizeof (pk_item k)) l ->
  Zlen (concat (map (pad k) l)) = sizeof (pk_item k) * Zlen l.
Proof.
  induction 1 as [|b l Hb _ IH]; cbn [map concat]; [unfold Zlen; cbn [length]; lia|].
  rewrite Zlen_app, Zlen_cons, IH, Zlen_pad by done. lia.
Qed.

(** The bounds the code tests on a caption are those of [items_of]. *)
Lemma caption_guard s room :
  0 <= s < 2 ^ 32 -> 0 <= room < 2 ^ 31 ->
  (0 <=? i32 s) && (u32 (i32 s) <=? pk_caption_max k)
    && (u32 (item_header_len k + i32 s) <=? room)
  = (s <=? pk_caption_max k) && (item_header_len k + s <=? room).
Proof.
  pose proof (item_pos k oc os sw L). pose proof L as [].
  intros Hs Hr. assert (pk_caption_max k < 2 ^ 31) by (unfold item_header_len in *; lia).
  destruct (Z.lt_ge_cases s (2 ^ 31)).
  - rewrite sN_small, (uN_small 32 s) by lia. rewrite (proj2 (Z.leb_le 0 s)) by lia. cbn [andb].
    destruct (Z.leb_spec s (pk_caption_max k)); [|done]. cbn [andb].
    rewrite uN_small by (unfold item_header_len in *; lia). done.
  - rewrite (proj2 (Z.leb_gt s _)) by lia.
    assert (i32 s < 0) as Hn; [|by rewrite (proj2 (Z.leb_gt 0 _)) by lia].
    unfold sN. replace ((s + 2 ^ (32 - 1)) mod 2 ^ 32) with (s + 2 ^ 31 - 2 ^ 32); [lia|].
    apply (Z.mod_unique_pos _ _ 1); lia.
Qed.

(** An item stored after the ones before it, with the array still to fill behind. *)
Lemma poke_item p b n : Zlen b <= sizeof (pk_item k) -> 0 <= n ->
  poke (Zlen p) b (p ++ zeros (sizeof (pk_item k) * (n + 1)))
  = Some (p ++ pad k b ++ zeros (sizeof (pk_item k) * n)).
Proof.
  intros Hb Hn. pose proof (Zlen_nonneg b). pose proof (Zlen_nonneg p).
  assert (0 <= sizeof (pk_item k) * n) by nia.
  replace (sizeof (pk_item k) * (n + 1)) with (sizeof (pk_item k) * n + sizeof (pk_item k)) by lia.
  rewrite poke_Some by zlen. f_equal. rewrite take_Zlen_app by done. f_equal.
  unfold pad. rewrite <-app_assoc. f_equal. rewrite zeros_app by lia.
  rewrite drop_app_ge by (unfold Zlen; lia). unfold zeros. rewrite drop_replicate. f_equal.
  unfold Zlen in *. lia.
Qed.

(** A size that does not fit ends the collection: no iteration stores another item. *)
Lemma getpack_loop_short data ds n : forall a offset pack,
  0 <= offset <= ds -> ds < 2 ^ 31 -> ds - offset < item_header_len k ->
  getpack_loop k data ds n a offset pack = Some pack.
Proof.
  pose proof (item_pos k oc os sw L). pose proof (kl_item _ _ _ _ L).
  induction n as [|n IH]; intros a offset pack Ho Hds Hs; [done|]. cbn [getpack_loop].
  rewrite (pk_item_header_eq k oc os sw L), !uN_small by lia.
  rewrite (proj2 (Z.leb_gt _ _)) by lia. by apply IH.
Qed.

Lemma getpack_loop_spec data ds h n : forall a offset done d,
  0 <= offset <= ds -> ds <= Zlen data -> ds < 2 ^ 31 -> Zlen h = header_len k ->
  d = drop (Z.to_nat offset) (take (Z.to_nat ds) data) ->
  a = Zlen done -> a + Z.of_nat n < 2 ^ 31 ->
  Forall (fun b => Zlen b <= sizeof (pk_item k)) done ->
  exists pack, getpack_loop k data ds n a offset
      (put_count oc h a ++ concat (map (pad k) done) ++ zeros (sizeof (pk_item k) * Z.of_nat n))
    = Some pack /\
    match items_of k d n with
    | Some items =>
        pack = put_count oc h (a + Z.of_nat n) ++ concat (map (pad k) (done ++ items))
    | None => exists c, pack_get_count k pack = Some c /\ c < a + Z.of_nat n
    end.
Proof.
  pose proof (item_pos k oc os sw L) as Hpos. pose proof L as [? ? ? [? ?] [? ?] ? ? ? ? ?].
  induction n as [|n IH]; intros a offset l d Ho Hds Hmax Hh Hd Ha Hn Hl.
  { cbn [getpack_loop items_of]. eexists. split; [done|].
    by rewrite !app_nil_r, Z.mul_0_r, Z.add_0_r, app_nil_r. }
  cbn [getpack_loop items_of]. rewrite (pk_item_header_eq k oc os sw L).
  assert (Hld : Zlen d = ds - offset) by (subst d; zlen).
  pose proof (Zlen_nonneg l).
  assert (Hget : pack_get_count k (put_count oc h a ++ concat (map (pad k) l)
      ++ zeros (sizeof (pk_item k) * Z.of_nat (S n))) = Some a).
  { rewrite <-(put_count_app k oc os sw L) by lia. apply (get_put_count k oc os sw L); [zlen|lia]. }
  rewrite !(uN_small 32 (item_header_len k)), (uN_small 32 (ds - offset)), Hld by lia.
  case_if; bools.
  2:{ rewrite getpack_loop_short by lia. eexists. split; [done|]. exists a. split; [done|lia]. }
  rewrite (window_caption data ds offset d) by (done || lia).
  destruct (caption_size_at k d 0) as [s|] eqn:Es.
  2:{ rewrite (caption_size_Some k oc os sw L) in Es by lia. done. }
  pose proof (caption_size_range k oc os sw L _ _ _ Es) as Hs.
  rewrite (caption_guard s) by lia. case_if.
  2:{ eexists. split; [done|]. exists a. split; [done|lia]. }
  bools. rewrite (sN_small 32 s) by (unfold item_header_len in *; lia).
  rewrite (item_offset_eq k oc os sw L), (window_peek data ds offset _ d) by (done || lia).
  set (item := take (Z.to_nat (item_header_len k + s)) d).
  assert (Hitem : Zlen item = item_header_len k + s) by (unfold item; zlen).
  assert (Hsize : Zlen item <= sizeof (pk_item k)) by (unfold item_header_len in *; lia).
  assert (Hpre : Zlen (put_count oc h a ++ concat (map (pad k) l))
    = header_len k + a * sizeof (pk_item k)).
  { rewrite Zlen_app, (Zlen_put_count k oc os sw L), Zlen_pads by (done || lia). lia. }
  replace (Z.of_nat (S n)) with (Z.of_nat n + 1) by lia.
  rewrite app_assoc, <-Hpre, poke_item by lia.
  rewrite <-app_assoc, <-(put_count_app k oc os sw L) by lia.
  rewrite (increment_count_ok k oc os sw L) by (rewrite ?Zlen_app; zlen_pose; lia).
  rewrite (put_count_app k oc os sw L) by lia. rewrite (sN_small 32) by lia.
  destruct (IH (a + 1) (offset + (item_header_len k + s)) (l ++ [item])
    (drop (Z.to_nat (item_header_len k + s)) d)) as (pack & Hp & Hc); try lia.
  - subst d. rewrite drop_drop. f_equal. lia.
  - rewrite Zlen_app. change (Zlen [item]) with 1. lia.
  - apply Forall_app. split; [done|]. by constructor.
  - exists pack. split.
    + rewrite <-Hp, map_app, concat_app. cbn [map concat]. by rewrite app_nil_r, <-!app_assoc.
    + destruct (items_of k _ n).
      * rewrite Hc. rewrite <-app_assoc. do 2 f_equal. lia.
      * destruct Hc as (c & ? & ?). exists c. split; [done|lia].
Qed.

End Loop.

(** ** What [srpc_getpack] makes of a packet *)

Definition pack_of (k : pack_kind) (sdp : sdp_t) : option bytes :=
  let d := take (Z.to_nat (sdp_data_size sdp)) (sdp_data sdp) in
  if (header_len k <=? Zlen d) && (Zlen d <=? sizeof (pk_pack k)) then
    match pack_get_count k d with
    | Some c =>
        if (0 <=? c) && (c <=? pk_max k) then
          match items_of k (drop (Z.to_nat (header_len k)) d) (Z.to_nat c) with
          | Some items => Some (take (Z.to_nat (header_len k)) d ++ concat (map (pad k) items))
          | None => None
          end
        else None
    | None => None
    end
  else None.

(** The packet once its data has been taken. *)
Definition emptied (sdp : sdp_t) : sdp_t :=
  {| sdp_tag := sdp_tag sdp; sdp_version := sdp_version sdp; sdp_rr_id := sdp_rr_id sdp;
     sdp_call_id := sdp_call_id sdp; sdp_data_size := 0; sdp_data := sdp_data sdp |}.

Section GetPack.
Context `{PL : PlatformLaws}.

Lemma getpack_count_window k oc os sw sdp : kind_layout k oc os sw -> sdp_fits sdp ->
  header_len k <= sdp_data_size sdp ->
  pack_get_count k (sdp_data sdp)
  = pack_get_count k (take (Z.to_nat (sdp_data_size sdp)) (sdp_data sdp)).
Proof.
  intros L [[] ?] ?. pose proof L as [? ? ? [? ?] ? ? ? ? ? ?].
  rewrite !(get_count_Some k oc os sw L) by zlen. do 3 f_equal.
  rewrite <-(take_drop (Z.to_nat (sdp_data_size sdp)) (sdp_data sdp)) at 1.
  rewrite drop_app_le, take_app_le
    by (rewrite ?length_drop, length_take; unfold Zlen in *; lia).
  done.
Qed.

(** The count lies in the header. *)
Lemma get_count_prefix k oc os sw b : kind_layout k oc os sw -> header_len k <= Zlen b ->
  pack_get_count k (take (Z.to_nat (header_len k)) b) = pack_get_count k b.
Proof.
  intros L Hb. pose proof L as [? ? ? [? ?] ? ? ? ? ? ?].
  rewrite !(get_count_Some k oc os sw L) by zlen. do 3 f_equal.
  rewrite <-(take_drop (Z.to_nat (header_len k)) b) at 2.
  rewrite drop_app_le, take_app_le
    by (rewrite ?length_drop, length_take; unfold Zlen in *; lia). done.
Qed.

(** What [pack_of] makes of the bounds the code tests first. *)
Lemma pack_of_out_of_bounds k sdp : sdp_fits sdp ->
  (sdp_data_size sdp <? header_len k) || (sizeof (pk_pack k) <? sdp_data_size sdp) = true ->
  pack_of k sdp = None.
Proof.
  intros [[] ?] E. unfold pack_of.
  assert (Hld : Zlen (take (Z.to_nat (sdp_data_size sdp)) (sdp_data sdp)) = sdp_data_size sdp) by zlen.
  rewrite Hld. apply orb_true_iff in E as [E|E]; bools; [by rewrite (proj2 (Z.leb_gt _ _)) by lia|].
  rewrite (proj2 (Z.leb_gt _ (sizeof _))) by lia. by rewrite andb_false_r.
Qed.

Lemma pack_of_in_bounds k sdp c : sdp_fits sdp ->
  header_len k <= sdp_data_size sdp -> sdp_data_size sdp <= sizeof (pk_pack k) ->
  pack_get_count k (take (Z.to_nat (sdp_data_size sdp)) (sdp_data sdp)) = Some c ->
  pack_of k sdp =
    if (0 <=? c) && (c <=? pk_max k) then
      match items_of k (drop (Z.to_nat (header_len k))
              (take (Z.to_nat (sdp_data_size sdp)) (sdp_data sdp))) (Z.to_nat c) with
      | Some items => Some (take (Z.to_nat (header_len k)) (sdp_data sdp) ++ concat (map (pad k) items))
      | None => None
      end
    else None.
Proof.
  intros [[] ?] Hh Hs Hc. unfold pack_of.
  assert (Hld : Zlen (take (Z.to_nat (sdp_data_size sdp)) (sdp_data sdp)) = sdp_data_size sdp) by zlen.
  rewrite Hld, Hc, !(proj2 (Z.leb_le _ _)) by lia. cbn [andb]. case_if; [|done].
  rewrite take_take. by rewrite Nat.min_l by lia.
Qed.

(** Filling the pack once it has been allocated. *)
Lemma wp_getpack_fill k oc os sw sdp c h Q :
  kind_layout k oc os sw -> sdp_fits sdp ->
  header_len k <= sdp_data_size sdp -> sdp_data_size sdp <= sizeof (pk_pack k) ->
  pack_get_count k (sdp_data sdp) = Some c -> 0 <= c <= pk_max k ->
  (forall r, match pack_of k sdp with
             | Some p => r = (PLive p, emptied sdp) | None => r = (PNull, sdp) end -> Q r h) ->
  wp (let! head := mopt (peek 0 (header_len k) (sdp_data sdp)) in
      let! pack := mopt (poke 0 head (zeros (header_len k + sizeof (pk_item k) * c))) in
      let! pack := mopt (pack_set_count k pack 0 false) in
      let! pack := mopt (getpack_loop k (sdp_data sdp) (sdp_data_size sdp) (Z.to_nat c) 0 (header_len k) pack) in
      let! n := mopt (pack_get_count k pack) in
      if c =? n then mret (PLive pack, emptied sdp) else free (PLive pack) ;;; mret (PNull, sdp)) Q h.
Proof.
  intros L Hfit Hmin Hmax Hc Hcr HQ. pose proof Hfit as [[] ?]. platform.
  pose proof (item_pos k oc os sw L) as Hpos. pose proof L as [? ? ? [? ?] [? ?] ? ? ? ? ?].
  assert (Hsz : 0 <= sizeof (pk_item k) * c) by nia.
  assert (Hsz' : header_len k + sizeof (pk_item k) * c <= sizeof (pk_pack k))
    by (assert (sizeof (pk_item k) * c <= sizeof (pk_item k) * pk_max k)
          by (apply Z.mul_le_mono_nonneg_l; lia); unfold header_len; lia).
  assert (c <= sizeof (pk_item k) * c) by nia.
  set (hd := take (Z.to_nat (header_len k)) (sdp_data sdp)).
  assert (Hhd : Zlen hd = header_len k) by (unfold hd; zlen).
  apply wp_bnd. eapply wp_opt; [apply peek_0; lia|]. fold hd. apply wp_bnd.
  eapply wp_opt.
  { rewrite <-zeros_app by lia. apply (poke_app []); [done|zlen]. }
  cbn [app]. apply wp_bnd. eapply wp_opt; [apply (set_count_ok k oc os sw L); zlen|].
  rewrite (put_count_app k oc os sw L) by lia.
  replace (sizeof (pk_item k) * c) with (sizeof (pk_item k) * Z.of_nat (Z.to_nat c))
    by (rewrite Z2Nat.id; lia).
  destruct (getpack_loop_spec k oc os sw L (sdp_data sdp) (sdp_data_size sdp) hd (Z.to_nat c) 0
    (header_len k) [] (drop (Z.to_nat (header_len k)) (take (Z.to_nat (sdp_data_size sdp)) (sdp_data sdp))))
    as (pack & Hp & Hres); [lia|lia|lia|done|done|done|lia|done|].
  apply wp_bnd. eapply wp_opt; [exact Hp|]. apply wp_bnd.
  pose proof (getpack_count_window k oc os sw sdp L Hfit Hmin) as Hw. rewrite Hc in Hw.
  pose proof (pack_of_in_bounds k sdp c Hfit Hmin Hmax (eq_sym Hw)) as Hpo. fold hd in Hpo.
  rewrite !(proj2 (Z.leb_le _ _)) in Hpo by lia. cbn [andb] in Hpo.
  destruct (items_of _ _ _) as [items|].
  - rewrite Z.add_0_l, Z2Nat.id in Hres by lia. rewrite (put_count_same k oc os sw L hd c) in Hres.
    + rewrite Hres. cbn [app]. eapply wp_opt.
      { rewrite <-(put_count_same k oc os sw L hd c), <-(put_count_app k oc os sw L);
          [apply (get_put_count k oc os sw L); [zlen|lia]|lia|lia|].
        rewrite <-Hc. apply (get_count_prefix k oc os sw); [done|lia]. }
      rewrite Z.eqb_refl. apply wp_ret, HQ. by rewrite Hpo.
    + lia.
    + rewrite <-Hc. apply (get_count_prefix k oc os sw); [done|lia].
  - destruct Hres as (j & Hj & Hlt). eapply wp_opt; [exact Hj|].
    rewrite (proj2 (Z.eqb_neq c j)) by lia. apply wp_bnd, wp_ret. apply wp_ret, HQ. by rewrite Hpo.
Qed.

Lemma wp_getpack k sdp h :
  pack_kind_ok k = true -> heap_ok h -> sdp_fits sdp ->
  wp (srpc_getpack k sdp) (fun r h' => alloc_step h h' /\
    match pack_of k sdp with
    | Some b => r = (PLive b, emptied sdp) \/ (~ never_refuses h /\ r = (PNull, sdp))
    | None => r = (PNull, sdp)
    end) h.
Proof.
  intros Hk Hh Hfit. destruct (pack_kind_ok_layout k Hk) as (oc & os & sw & L).
  pose proof (item_pos k oc os sw L) as Hpos. pose proof L as [? ? ? [? ?] [? ?] ? ? ? ? ?].
  pose proof Hfit as [[] ?]. platform.
  assert (Hstay : forall r, r = (PNull, sdp) -> pack_of k sdp = None -> alloc_step h h /\
    match pack_of k sdp with
    | Some b => r = (PLive b, emptied sdp) \/ (~ never_refuses h /\ r = (PNull, sdp))
    | None => r = (PNull, sdp) end) by (intros r -> ->; split; [by apply alloc_step_refl|done]).
  unfold srpc_getpack. rewrite (pk_header_eq k oc os sw L), (uN_small 32 (header_len k)) by lia.
  case_if; [by apply wp_ret, Hstay, pack_of_out_of_bounds|]. bools.
  pose proof (getpack_count_window k oc os sw sdp L Hfit ltac:(lia)) as Hw.
  destruct (pack_get_count k (sdp_data sdp)) as [c|] eqn:Ec.
  2:{ rewrite (get_count_Some k oc os sw L) in Ec by lia. done. }
  assert (Hc : - 2 ^ 31 <= c < 2 ^ 31).
  { rewrite (get_count_Some k oc os sw L) in Ec by lia. injection Ec as <-. by apply (sN_range 32). }
  pose proof (pack_of_in_bounds k sdp c Hfit ltac:(lia) ltac:(lia) (eq_sym Hw)) as Hpo.
  apply wp_bnd. eapply wp_opt; [done|]. case_if.
  { apply wp_ret, Hstay; [done|]. rewrite Hpo.
    destruct (Z.leb_spec 0 c); [|done]. rewrite (proj2 (Z.ltb_ge c 0)), uN_small in E by lia.
    cbn [orb] in E. bools. by rewrite (proj2 (Z.leb_gt c _)) by lia. }
  bools. rewrite uN_small in * by lia.
  assert (sizeof (pk_item k) * c <= sizeof (pk_item k) * pk_max k)
    by (apply Z.mul_le_mono_nonneg_l; lia).
  assert (0 <= sizeof (pk_item k) * c) by nia.
  rewrite (sN_small 32) by (unfold header_len in *; lia). apply wp_bnd, wp_malloc; [done|..].
  - intros h' b Hs Hb. cbn beta iota.
    apply (wp_getpack_fill k oc os sw sdp c); try done; try lia.
    intros r Hr. split; [done|]. destruct (pack_of k sdp); [by left|done].
  - intros h' Hs Hn. apply wp_ret. split; [done|]. destruct (pack_of k sdp); [by right|done].
Qed.

End GetPack.
