(* ===== verification/SrpcGetData.v ===== *)
(** * srpc.c: turning a received packet into a typed object

    [srpc_getdata] takes the received packet (from the input queue, where there is one),
    checks the size of its data for the call it carries, allocates the object of that
    call and copies the data into it; [srpc_rd_free] releases the object.  The cases of
    the switch are rules, in the order of the source. *)
From S2P Require Import Prelude Platform Heap Lck CLayout ProtoConsts ProtoTypes Proto.
From S2P Require Import SrpcQueue Srpc SrpcCall SrpcPack.

(** How the object of a call is allocated. *)
Inductive allocation :=
| Zeroed                                   (* calloc (1, sizeof (T)) *)
| Indeterminate.                           (* malloc (sizeof (T)) *)

(** The kinds of cases of the switch. *)
Inductive rule :=
| NoBody                                   (* call_with_no_data = 1 *)
| Exact (a : allocation) (t : ctype)       (* data_size == sizeof (t) *)
| Valid (a : allocation) (main item : ctype) (count : list (list string)) (max : Z)
                                           (* VALID_SIZE (main, item, count, max) *)
| Pack (k : pack_kind)                     (* srpc_getpack *)
| PingServer                               (* SUPLA_DCS_CALL_PING_SERVER *)
| FirmwareUrl.                             (* SUPLA_SD_CALL_GET_FIRMWARE_UPDATE_URL_RESULT *)

(** The user's view of a received packet; the members of its union are pointers to
    objects of the layer. *)
Record TsrpcReceivedData := {
  rd_call_id : Z;
  rd_rr_id : Z;
  rd_data : ptr
}.

Section GetData.
Context `{Platform}.

(** ** The cases of the switch *)

Definition getdata_common : list (Z * rule) :=
  [(SUPLA_DCS_CALL_GETVERSION,
      NoBody);
   (SUPLA_CS_CALL_GET_NEXT,
      NoBody);
   (SUPLA_DCS_CALL_GET_REGISTRATION_ENABLED,
      NoBody);
   (SUPLA_SDC_CALL_GETVERSION_RESULT,
      Exact Zeroed TSDC_SuplaGetVersionResult);
   (SUPLA_SDC_CALL_VERSIONERROR,
      Exact Zeroed TSDC_SuplaVersionError);
   (SUPLA_DCS_CALL_PING_SERVER,
      PingServer);
   (SUPLA_SDC_CALL_PING_SERVER_RESULT,
      Exact Zeroed TSDC_SuplaPingServerResult);
   (SUPLA_DCS_CALL_SET_ACTIVITY_TIMEOUT,
      Exact Zeroed TDCS_SuplaSetActivityTimeout);
   (SUPLA_SDC_CALL_SET_ACTIVITY_TIMEOUT_RESULT,
      Exact Zeroed TSDC_SuplaSetActivityTimeoutResult);
   (SUPLA_SDC_CALL_GET_REGISTRATION_ENABLED_RESULT,
      Exact Zeroed TSDC_RegistrationEnabled);
   (SUPLA_DCS_CALL_GET_USER_LOCALTIME,
      NoBody);
   (SUPLA_DCS_CALL_GET_USER_LOCALTIME_RESULT,
      Valid Zeroed TSDC_UserLocalTimeResult schar [["timezoneSize"]] SUPLA_TIMEZONE_MAXSIZE);
   (SUPLA_CSD_CALL_GET_CHANNEL_STATE,
      Exact Zeroed TCSD_ChannelStateRequest);
   (SUPLA_DSC_CALL_CHANNEL_STATE_RESULT,
      Exact Zeroed TDSC_ChannelState);
   (SUPLA_SCD_CALL_SET_CHANNEL_CAPTION_RESULT,
      Valid Zeroed TSCD_SetCaptionResult schar [["CaptionSize"]] SUPLA_CAPTION_MAXSIZE)].

Definition getdata_device : list (Z * rule) :=
  [(SUPLA_DS_CALL_REGISTER_DEVICE,
      Valid Zeroed TDS_SuplaRegisterDevice TDS_SuplaDeviceChannel [["channel_count"]] SUPLA_CHANNELMAXCOUNT);
   (SUPLA_DS_CALL_REGISTER_DEVICE_B,
      Valid Zeroed TDS_SuplaRegisterDevice_B TDS_SuplaDeviceChannel_B [["channel_count"]] SUPLA_CHANNELMAXCOUNT);
   (SUPLA_DS_CALL_REGISTER_DEVICE_C,
      Valid Zeroed TDS_SuplaRegisterDevice_C TDS_SuplaDeviceChannel_B [["channel_count"]] SUPLA_CHANNELMAXCOUNT);
   (SUPLA_DS_CALL_REGISTER_DEVICE_D,
      Valid Zeroed TDS_SuplaRegisterDevice_D TDS_SuplaDeviceChannel_B [["channel_count"]] SUPLA_CHANNELMAXCOUNT);
   (SUPLA_DS_CALL_REGISTER_DEVICE_E,
      Valid Zeroed TDS_SuplaRegisterDevice_E TDS_SuplaDeviceChannel_C [["channel_count"]] SUPLA_CHANNELMAXCOUNT);
   (SUPLA_DS_CALL_REGISTER_DEVICE_F,
      Valid Zeroed TDS_SuplaRegisterDevice_F TDS_SuplaDeviceChannel_D [["channel_count"]] SUPLA_CHANNELMAXCOUNT);
   (SUPLA_DS_CALL_REGISTER_DEVICE_G,
      Valid Zeroed TDS_SuplaRegisterDevice_G TDS_SuplaDeviceChannel_E [["channel_count"]] SUPLA_CHANNELMAXCOUNT);
   (SUPLA_SD_CALL_REGISTER_DEVICE_RESULT,
      Exact Zeroed TSD_SuplaRegisterDeviceResult);
   (SUPLA_SD_CALL_REGISTER_DEVICE_RESULT_B,
      Valid Zeroed TSD_SuplaRegisterDeviceResult_B uchar [["channel_report_size"]] CHANNEL_REPORT_MAXSIZE);
   (SUPLA_DS_CALL_DEVICE_CHANNEL_VALUE_CHANGED,
      Exact Zeroed TDS_SuplaDeviceChannelValue);
   (SUPLA_DS_CALL_DEVICE_CHANNEL_VALUE_CHANGED_B,
      Exact Zeroed TDS_SuplaDeviceChannelValue_B);
   (SUPLA_DS_CALL_DEVICE_CHANNEL_VALUE_CHANGED_C,
      Exact Zeroed TDS_SuplaDeviceChannelValue_C)].

Definition getdata_device_values : list (Z * rule) :=
  [(SUPLA_DS_CALL_DEVICE_CHANNEL_EXTENDEDVALUE_CHANGED,
      Valid Zeroed TDS_SuplaDeviceChannelExtendedValue schar [["value"; "size"]] SUPLA_CHANNELEXTENDEDVALUE_SIZE);
   (SUPLA_SD_CALL_CHANNEL_SET_VALUE,
      Exact Zeroed TSD_SuplaChannelNewValue);
   (SUPLA_SD_CALL_CHANNELGROUP_SET_VALUE,
      Exact Zeroed TSD_SuplaChannelGroupNewValue);
   (SUPLA_DS_CALL_CHANNEL_SET_VALUE_RESULT,
      Exact Zeroed TDS_SuplaChannelNewValueResult);
   (SUPLA_DS_CALL_GET_FIRMWARE_UPDATE_URL,
      Exact Zeroed TDS_FirmwareUpdateParams);
   (SUPLA_SD_CALL_GET_FIRMWARE_UPDATE_URL_RESULT,
      FirmwareUrl);
   (SUPLA_SD_CALL_DEVICE_CALCFG_REQUEST,
      Valid Zeroed TSD_DeviceCalCfgRequest schar [["DataSize"]] SUPLA_CALCFG_DATA_MAXSIZE);
   (SUPLA_DS_CALL_DEVICE_CALCFG_RESULT,
      Valid Zeroed TDS_DeviceCalCfgResult schar [["DataSize"]] SUPLA_CALCFG_DATA_MAXSIZE);
   (SUPLA_DS_CALL_GET_CHANNEL_FUNCTIONS,
      NoBody);
   (SUPLA_SD_CALL_GET_CHANNEL_FUNCTIONS_RESULT,
      Valid Zeroed TSD_ChannelFunctions supla_int_t [["ChannelCount"]] SUPLA_CHANNELMAXCOUNT);
   (SUPLA_DS_CALL_GET_CHANNEL_CONFIG,
      Exact Zeroed TDS_GetChannelConfigRequest);
   (SUPLA_SD_CALL_GET_CHANNEL_CONFIG_RESULT,
      Valid Zeroed TSD_ChannelConfig schar [["ConfigSize"]] SUPLA_CHANNEL_CONFIG_MAXSIZE);
   (SUPLA_DS_CALL_ACTIONTRIGGER,
      Exact Zeroed TDS_ActionTrigger);
   (SUPLA_DS_CALL_REGISTER_PUSH_NOTIFICATION,
      Exact Zeroed TDS_RegisterPushNotification)].

Definition getdata_device_config : list (Z * rule) :=
  [(SUPLA_DS_CALL_SEND_PUSH_NOTIFICATION,
      Valid Zeroed TDS_PushNotification schar [["TitleSize"]; ["BodySize"]] (SUPLA_PN_TITLE_MAXSIZE + SUPLA_PN_BODY_MAXSIZE));
   (SUPLA_DS_CALL_SET_CHANNEL_CONFIG,
      Valid Indeterminate TSDS_SetChannelConfig schar [["ConfigSize"]] SUPLA_CHANNEL_CONFIG_MAXSIZE);
   (SUPLA_SD_CALL_SET_CHANNEL_CONFIG,
      Valid Indeterminate TSDS_SetChannelConfig schar [["ConfigSize"]] SUPLA_CHANNEL_CONFIG_MAXSIZE);
   (SUPLA_DS_CALL_SET_CHANNEL_CONFIG_RESULT,
      Exact Indeterminate TSDS_SetChannelConfigResult);
   (SUPLA_SD_CALL_SET_CHANNEL_CONFIG_RESULT,
      Exact Indeterminate TSDS_SetChannelConfigResult);
   (SUPLA_SD_CALL_CHANNEL_CONFIG_FINISHED,
      Exact Indeterminate TSD_ChannelConfigFinished);
   (SUPLA_DS_CALL_SET_DEVICE_CONFIG,
      Valid Indeterminate TSDS_SetDeviceConfig schar [["ConfigSize"]] SUPLA_DEVICE_CONFIG_MAXSIZE);
   (SUPLA_SD_CALL_SET_DEVICE_CONFIG,
      Valid Indeterminate TSDS_SetDeviceConfig schar [["ConfigSize"]] SUPLA_DEVICE_CONFIG_MAXSIZE);
   (SUPLA_SD_CALL_SET_DEVICE_CONFIG_RESULT,
      Exact Indeterminate TSDS_SetDeviceConfigResult);
   (SUPLA_DS_CALL_SET_DEVICE_CONFIG_RESULT,
      Exact Indeterminate TSDS_SetDeviceConfigResult);
   (SUPLA_DS_CALL_SET_SUBDEVICE_DETAILS,
      Exact Indeterminate TDS_SubdeviceDetails)].

Definition getdata_client_register : list (Z * rule) :=
  [(SUPLA_CS_CALL_REGISTER_CLIENT,
      Exact Zeroed TCS_SuplaRegisterClient);
   (SUPLA_CS_CALL_REGISTER_CLIENT_B,
      Exact Zeroed TCS_SuplaRegisterClient_B);
   (SUPLA_CS_CALL_REGISTER_CLIENT_C,
      Exact Zeroed TCS_SuplaRegisterClient_C);
   (SUPLA_CS_CALL_REGISTER_CLIENT_D,
      Exact Zeroed TCS_SuplaRegisterClient_D);
   (SUPLA_SC_CALL_REGISTER_CLIENT_RESULT,
      Exact Zeroed TSC_SuplaRegisterClientResult);
   (SUPLA_SC_CALL_REGISTER_CLIENT_RESULT_B,
      Exact Zeroed TSC_SuplaRegisterClientResult_B);
   (SUPLA_SC_CALL_REGISTER_CLIENT_RESULT_C,
      Exact Zeroed TSC_SuplaRegisterClientResult_C);
   (SUPLA_SC_CALL_REGISTER_CLIENT_RESULT_D,
      Exact Zeroed TSC_SuplaRegisterClientResult_D);
   (SUPLA_SC_CALL_LOCATION_UPDATE,
      Valid Zeroed TSC_SuplaLocation schar [["CaptionSize"]] SUPLA_LOCATION_CAPTION_MAXSIZE);
   (SUPLA_SC_CALL_LOCATIONPACK_UPDATE,
      Pack locationpack);
   (SUPLA_SC_CALL_CHANNELPACK_UPDATE,
      Pack channelpack);
   (SUPLA_SC_CALL_CHANNELPACK_UPDATE_B,
      Pack channelpack_b);
   (SUPLA_SC_CALL_CHANNELPACK_UPDATE_C,
      Pack channelpack_c);
   (SUPLA_SC_CALL_CHANNELPACK_UPDATE_D,
      Pack channelpack_d);
   (SUPLA_SC_CALL_CHANNELPACK_UPDATE_E,
      Pack channelpack_e);
   (SUPLA_SC_CALL_CHANNEL_VALUE_UPDATE,
      Exact Zeroed TSC_SuplaChannelValue);
   (SUPLA_SC_CALL_CHANNEL_VALUE_UPDATE_B,
      Exact Zeroed TSC_SuplaChannelValue_B);
   (SUPLA_SC_CALL_CHANNELGROUP_PACK_UPDATE,
      Pack channelgroup_pack);
   (SUPLA_SC_CALL_CHANNELGROUP_PACK_UPDATE_B,
      Pack channelgroup_pack_b)].

Definition getdata_client_packs : list (Z * rule) :=
  [(SUPLA_SC_CALL_CHANNELGROUP_RELATION_PACK_UPDATE,
      Valid Zeroed TSC_SuplaChannelGroupRelationPack TSC_SuplaChannelGroupRelation [["count"]] SUPLA_CHANNELGROUP_RELATION_PACK_MAXCOUNT);
   (SUPLA_SC_CALL_CHANNEL_RELATION_PACK_UPDATE,
      Valid Zeroed TSC_SuplaChannelRelationPack TSC_SuplaChannelRelation [["count"]] SUPLA_CHANNEL_RELATION_PACK_MAXCOUNT);
   (SUPLA_SC_CALL_CHANNELVALUE_PACK_UPDATE,
      Valid Zeroed TSC_SuplaChannelValuePack TSC_SuplaChannelValue [["count"]] SUPLA_CHANNELVALUE_PACK_MAXCOUNT);
   (SUPLA_SC_CALL_CHANNELVALUE_PACK_UPDATE_B,
      Valid Zeroed TSC_SuplaChannelValuePack_B TSC_SuplaChannelValue_B [["count"]] SUPLA_CHANNELVALUE_PACK_MAXCOUNT);
   (SUPLA_SC_CALL_CHANNELEXTENDEDVALUE_PACK_UPDATE,
      Valid Zeroed TSC_SuplaChannelExtendedValuePack schar [["pack_size"]] SUPLA_CHANNELEXTENDEDVALUE_PACK_MAXDATASIZE);
   (SUPLA_SC_CALL_CHANNEL_STATE_PACK_UPDATE,
      Valid Zeroed TSC_SuplaChannelStatePack TDSC_ChannelState [["count"]] SUPLA_CHANNEL_STATE_PACK_MAXCOUNT);
   (SUPLA_CS_CALL_CHANNEL_SET_VALUE,
      Exact Zeroed TCS_SuplaChannelNewValue);
   (SUPLA_CS_CALL_SET_VALUE,
      Exact Zeroed TCS_SuplaNewValue);
   (SUPLA_CS_CALL_CHANNEL_SET_VALUE_B,
      Exact Zeroed TCS_SuplaChannelNewValue_B);
   (SUPLA_SC_CALL_EVENT,
      Valid Zeroed TSC_SuplaEvent schar [["SenderNameSize"]] SUPLA_SENDER_NAME_MAXSIZE);
   (SUPLA_CS_CALL_OAUTH_TOKEN_REQUEST,
      NoBody);
   (SUPLA_SC_CALL_OAUTH_TOKEN_REQUEST_RESULT,
      Valid Zeroed TSC_OAuthTokenRequestResult schar [["Token"; "TokenSize"]] SUPLA_OAUTH_TOKEN_MAXSIZE);
   (SUPLA_CS_CALL_SUPERUSER_AUTHORIZATION_REQUEST,
      Exact Zeroed TCS_SuperUserAuthorizationRequest);
   (SUPLA_CS_CALL_GET_SUPERUSER_AUTHORIZATION_RESULT,
      NoBody);
   (SUPLA_SC_CALL_SUPERUSER_AUTHORIZATION_RESULT,
      Exact Zeroed TSC_SuperUserAuthorizationResult);
   (SUPLA_CS_CALL_DEVICE_CALCFG_REQUEST,
      Valid Zeroed TCS_DeviceCalCfgRequest schar [["DataSize"]] SUPLA_CALCFG_DATA_MAXSIZE);
   (SUPLA_CS_CALL_DEVICE_CALCFG_REQUEST_B,
      Valid Zeroed TCS_DeviceCalCfgRequest_B schar [["DataSize"]] SUPLA_CALCFG_DATA_MAXSIZE);
   (SUPLA_SC_CALL_DEVICE_CALCFG_RESULT,
      Valid Zeroed TSC_DeviceCalCfgResult schar [["DataSize"]] SUPLA_CALCFG_DATA_MAXSIZE)].

Definition getdata_client_settings : list (Z * rule) :=
  [(SUPLA_CS_CALL_GET_CHANNEL_BASIC_CFG,
      Exact Zeroed TCS_ChannelBasicCfgRequest);
   (SUPLA_SC_CALL_CHANNEL_BASIC_CFG_RESULT,
      Valid Zeroed TSC_ChannelBasicCfg schar [["CaptionSize"]] SUPLA_CHANNEL_CAPTION_MAXSIZE);
   (SUPLA_CS_CALL_SET_CHANNEL_FUNCTION,
      Exact Zeroed TCS_SetChannelFunction);
   (SUPLA_SC_CALL_SET_CHANNEL_FUNCTION_RESULT,
      Exact Zeroed TSC_SetChannelFunctionResult);
   (SUPLA_DCS_CALL_SET_CHANNEL_CAPTION,
      Valid Zeroed TDCS_SetCaption schar [["CaptionSize"]] SUPLA_CAPTION_MAXSIZE);
   (SUPLA_CS_CALL_SET_CHANNEL_GROUP_CAPTION,
      Valid Zeroed TDCS_SetCaption schar [["CaptionSize"]] SUPLA_CAPTION_MAXSIZE);
   (SUPLA_CS_CALL_SET_LOCATION_CAPTION,
      Valid Zeroed TDCS_SetCaption schar [["CaptionSize"]] SUPLA_CAPTION_MAXSIZE);
   (SUPLA_CS_CALL_SET_SCENE_CAPTION,
      Valid Zeroed TDCS_SetCaption schar [["CaptionSize"]] SUPLA_CAPTION_MAXSIZE);
   (SUPLA_SC_CALL_SET_CHANNEL_GROUP_CAPTION_RESULT,
      Valid Zeroed TSCD_SetCaptionResult schar [["CaptionSize"]] SUPLA_CAPTION_MAXSIZE);
   (SUPLA_SC_CALL_SET_LOCATION_CAPTION_RESULT,
      Valid Zeroed TSCD_SetCaptionResult schar [["CaptionSize"]] SUPLA_CAPTION_MAXSIZE);
   (SUPLA_SC_CALL_SET_SCENE_CAPTION_RESULT,
      Valid Zeroed TSCD_SetCaptionResult schar [["CaptionSize"]] SUPLA_CAPTION_MAXSIZE);
   (SUPLA_CS_CALL_CLIENTS_RECONNECT_REQUEST,
      NoBody);
   (SUPLA_SC_CALL_CLIENTS_RECONNECT_REQUEST_RESULT,
      Exact Zeroed TSC_ClientsReconnectRequestResult);
   (SUPLA_CS_CALL_SET_REGISTRATION_ENABLED,
      Exact Zeroed TCS_SetRegistrationEnabled);
   (SUPLA_SC_CALL_SET_REGISTRATION_ENABLED_RESULT,
      Exact Zeroed TSC_SetRegistrationEnabledResult);
   (SUPLA_CS_CALL_DEVICE_RECONNECT_REQUEST,
      Exact Zeroed TCS_DeviceReconnectRequest);
   (SUPLA_SC_CALL_DEVICE_RECONNECT_REQUEST_RESULT,
      Exact Zeroed TSC_DeviceReconnectRequestResult);
   (SUPLA_CS_CALL_TIMER_ARM,
      Exact Zeroed TCS_TimerArmRequest);
   (SUPLA_SC_CALL_SCENE_PACK_UPDATE,
      Pack scenepack);
   (SUPLA_SC_CALL_SCENE_STATE_PACK_UPDATE,
      Pack scenestatepack);
   (SUPLA_CS_CALL_EXECUTE_ACTION,
      Valid Zeroed TCS_Action schar [["ParamSize"]] SUPLA_ACTION_PARAM_MAXSIZE);
   (SUPLA_CS_CALL_EXECUTE_ACTION_WITH_AUTH,
      Valid Zeroed TCS_ActionWithAuth schar [["Action"; "ParamSize"]] SUPLA_ACTION_PARAM_MAXSIZE);
   (SUPLA_SC_CALL_ACTION_EXECUTION_RESULT,
      Exact Zeroed TSC_ActionExecutionResult);
   (SUPLA_CS_CALL_GET_CHANNEL_VALUE_WITH_AUTH,
      Exact Zeroed TCS_GetChannelValueWithAuth)].

Definition getdata_client_config : list (Z * rule) :=
  [(SUPLA_SC_CALL_GET_CHANNEL_VALUE_RESULT,
      Valid Zeroed TSC_GetChannelValueResult schar [["ExtendedValue"; "size"]] SUPLA_CHANNELEXTENDEDVALUE_SIZE);
   (SUPLA_CS_CALL_REGISTER_PN_CLIENT_TOKEN,
      Valid Zeroed TCS_RegisterPnClientToken schar [["Token"; "TokenSize"]] SUPLA_PN_CLIENT_TOKEN_MAXSIZE);
   (SUPLA_SC_CALL_REGISTER_PN_CLIENT_TOKEN_RESULT,
      Exact Zeroed TSC_RegisterPnClientTokenResult);
   (SUPLA_CS_CALL_SET_CHANNEL_CONFIG,
      Valid Indeterminate TSCS_ChannelConfig schar [["ConfigSize"]] SUPLA_CHANNEL_CONFIG_MAXSIZE);
   (SUPLA_CS_CALL_GET_CHANNEL_CONFIG,
      Exact Zeroed TCS_GetChannelConfigRequest);
   (SUPLA_SC_CALL_CHANNEL_CONFIG_UPDATE_OR_RESULT,
      Valid Zeroed TSC_ChannelConfigUpdateOrResult schar [["Config"; "ConfigSize"]] SUPLA_CHANNEL_CONFIG_MAXSIZE);
   (SUPLA_CS_CALL_GET_DEVICE_CONFIG,
      Exact Indeterminate TCS_GetDeviceConfigRequest);
   (SUPLA_SC_CALL_DEVICE_CONFIG_UPDATE_OR_RESULT,
      Valid Indeterminate TSC_DeviceConfigUpdateOrResult schar [["Config"; "ConfigSize"]] SUPLA_DEVICE_CONFIG_MAXSIZE)].

(** The cases compiled into a build, and the case for a call. *)
Definition getdata_cases : list (Z * rule) :=
  getdata_common
  ++ (if SRPC_EXCLUDE_DEVICE then []
      else getdata_device ++ getdata_device_values ++ getdata_device_config)
  ++ (if SRPC_EXCLUDE_CLIENT then []
      else getdata_client_register ++ getdata_client_packs ++ getdata_client_settings
           ++ getdata_client_config).

Definition getdata_rule (call_id : Z) : option rule :=
  option_map snd (find (fun c => c.1 =? call_id) getdata_cases).

(** ** The size check of objects with a count *)

(** [((MAIN * )srpc->sdp.data)->SIZE_VAR]; the sum of two members for a notification. *)
Fixpoint count_value (main : ctype) (count : list (list string)) (data : bytes) : option Z :=
  match count with
  | [] => Some 0
  | path :: count =>
      match read_member main path data, count_value main count data with
      | Some v, Some n => Some (v + n)
      | _, _ => None
      end
  end.

(** A count of 32 bits, wider than [size_t] on a 16-bit target, and a signed one. *)
Definition wide_count (main : ctype) (count : list (list string)) : bool :=
  existsb (fun path => match member main path with
                       | Some (_, t) => 4 <=? sizeof t | None => false end) count.
Definition signed_count (main : ctype) (count : list (list string)) : bool :=
  existsb (fun path => match member main path with
                       | Some (_, TInt true _) => true | _ => false end) count.

(** [SIZE_VAR * sizeof (ITEM)] in the type the usual conversions give it: [size_t], or
    the 32-bit type of a wide count on a 16-bit target, whose overflow is undefined
    when it is signed. *)
Definition count_product (main item : ctype) (count : list (list string)) (v : Z) : option Z :=
  let n := v * sizeof item in
  if (size_t_bits <? 32) && wide_count main count then
    if signed_count main count && negb ((- 2 ^ 31 <=? n) && (n <? 2 ^ 31)) then None
    else Some (u32 n)
  else Some (uN size_t_bits n).

(** [sizeof (MAIN) - sizeof (ITEM) * MAX] *)
Definition valid_header (main item : ctype) (max : Z) : Z :=
  uN size_t_bits (sizeof main - sizeof item * max).

Definition VALID_SIZE (main item : ctype) (count : list (list string)) (max : Z)
    (sdp : sdp_t) : option bool :=
  let ds := sdp_data_size sdp in
  if (valid_header main item max <=? ds) && (ds <=? sizeof main) then
    match count_value main count (sdp_data sdp) with
    | Some v =>
        match count_product main item count v with
        | Some n => Some (n =? ds - valid_header main item max)
        | None => None
        end
    | None => None
    end
  else Some false.

(** ** The bodies of the cases *)

Definition alloc (a : allocation) (t : ctype) : M heap ptr :=
  match a with Zeroed => calloc (sizeof t) | Indeterminate => malloc (sizeof t) end.

(** A size that matches allocates; any other leaves the null pointer. *)
Definition alloc_if (ok : bool) (a : allocation) (t : ctype) : M heap ptr :=
  if ok then alloc a t else mret PNull.

(** [SUPLA_DCS_CALL_PING_SERVER]: an old server's 32-bit time is converted through the
    pointer [calloc] returned. *)
Definition ping_server (sdp : sdp_t) : M heap (ptr * bool) :=
  let ds := sdp_data_size sdp in
  if (ds =? sizeof TDCS_SuplaPingServer) || (ds =? sizeof TDCS_SuplaPingServer_COMPAT) then
    let! p := calloc (sizeof TDCS_SuplaPingServer) in
    if negb AVR && (ds =? sizeof TDCS_SuplaPingServer_COMPAT) then
      let! sec := mopt (read_member TDCS_SuplaPingServer_COMPAT ["now"; "tv_sec"] (sdp_data sdp)) in
      let! usec := mopt (read_member TDCS_SuplaPingServer_COMPAT ["now"; "tv_usec"] (sdp_data sdp)) in
      match p with
      | PLive b =>
          let! b := mopt (write_member TDCS_SuplaPingServer ["now"; "tv_sec"] sec b) in
          let! b := mopt (write_member TDCS_SuplaPingServer ["now"; "tv_usec"] usec b) in
          mret (PLive b, true)
      | _ => mopt None
      end
    else mret (p, false)
  else mret (PNull, false).

(** [SUPLA_SD_CALL_GET_FIRMWARE_UPDATE_URL_RESULT]: one byte stands for no update. *)
Definition firmware_url (sdp : sdp_t) : M heap ptr :=
  let ds := sdp_data_size sdp in
  if (ds =? sizeof TSD_FirmwareUpdate_UrlResult) || (ds =? sizeof char_t) then
    let! p := calloc (sizeof TSD_FirmwareUpdate_UrlResult) in
    if (ds =? sizeof char_t) && negb (is_null p) then
      mopt (ptr_write p 0 (zeros (sizeof TSD_FirmwareUpdate_UrlResult)))
    else mret p
  else mret PNull.

(** A case of the switch: the pointer in [rd->data], the packet, and whether
    [call_with_no_data] is set. *)
Definition run_rule (r : rule) (sdp : sdp_t) : M heap (ptr * sdp_t * bool) :=
  match r with
  | NoBody => mret (PNull, sdp, true)
  | Exact a t => let! p := alloc_if (sdp_data_size sdp =? sizeof t) a t in mret (p, sdp, false)
  | Valid a main item count max =>
      let! ok := mopt (VALID_SIZE main item count max sdp) in
      let! p := alloc_if ok a main in mret (p, sdp, false)
  | Pack k => let! (p, sdp) := srpc_getpack k sdp in mret (p, sdp, false)
  | PingServer => let! (p, no_data) := ping_server sdp in mret (p, sdp, no_data)
  | FirmwareUrl => let! p := firmware_url sdp in mret (p, sdp, false)
  end.

(** [memcpy (rd->data.dcs_ping, srpc->sdp.data, srpc->sdp.data_size)] *)
Definition copy_data (p : ptr) (sdp : sdp_t) : option ptr :=
  if 0 <? sdp_data_size sdp then
    match peek 0 (sdp_data_size sdp) (sdp_data sdp) with
    | Some d => ptr_write p 0 d
    | None => None
    end
  else Some p.

Definition srpc_getdata (rd : TsrpcReceivedData) (rr_id : Z) : M world (Z * TsrpcReceivedData) :=
  srpc_lock ;;;
  let! popped := srpc_in_queue_pop rr_id in
  if SUPLA_RESULT_TRUE =? popped then
    let! s := get_srpc in
    let sdp := srpc_sdp s in
    let! (p, sdp', no_data) :=
      on_heap (match getdata_rule (sdp_call_id sdp) with
               | Some r => run_rule r sdp
               | None => mret (PNull, sdp, false)
               end) in
    set_sdp sdp' ;;;
    let rd' p := {| rd_call_id := sdp_call_id sdp; rd_rr_id := sdp_rr_id sdp; rd_data := p |} in
    if no_data : bool then let! r := unlock_c SUPLA_RESULT_TRUE in mret (r, rd' p)
    else if negb (is_null p) then
      let! p := mopt (copy_data p sdp') in
      let! r := unlock_c SUPLA_RESULT_TRUE in mret (r, rd' p)
    else let! r := unlock_c SUPLA_RESULT_DATA_ERROR in mret (r, rd' p)
  else
    let! r := unlock_c SUPLA_RESULT_FALSE in
    mret (r, {| rd_call_id := 0; rd_rr_id := rd_rr_id rd; rd_data := rd_data rd |}).

Definition srpc_rd_free (rd : TsrpcReceivedData) : M heap TsrpcReceivedData :=
  if 0 <? rd_call_id rd then
    let! p := (if negb (is_null (rd_data rd)) then free (rd_data rd) else mret (rd_data rd)) in
    mret {| rd_call_id := 0; rd_rr_id := rd_rr_id rd; rd_data := p |}
  else mret rd.

End GetData.
