(* ===== verification/SrpcGetDataFacts.v ===== *)
(** * srpc.c: lemmas on received objects

    What the tables of [SrpcGetData] must satisfy on a build, that they do on every
    configuration of [Platform], and the effect of each kind of case. *)
From S2P Require Import Prelude Platform Heap Lck CLayout ProtoConsts ProtoTypes Proto ProtoFacts.
From S2P Require Import ProtoProps SrpcQueue Srpc SrpcCall SrpcFacts SrpcPack SrpcPackFacts.
From S2P Require Import SrpcGetData.

(** ** The rules of a build *)

Section Rules.
Context `{Platform}.

(** A count member: an integer of at most 32 bits within the first [n] bytes. *)
Definition count_ok (main : ctype) (n : Z) (path : list string) : bool :=
  match member main path with
  | Some (o, TInt _ w) => (0 <=? o) && (0 <? w) && (w <=? 4) && (o + w <=? n)
  | _ => false
  end.

(** The values a count member can have. *)
Definition count_range (main : ctype) (path : list string) : Z * Z :=
  match member main path with
  | Some (_, TInt true w) => (- 2 ^ (8 * w - 1), 2 ^ (8 * w - 1) - 1)
  | Some (_, TInt false w) => (0, 2 ^ (8 * w) - 1)
  | _ => (0, 0)
  end.

Definition counts_range (main : ctype) (count : list (list string)) : Z * Z :=
  fold_right (fun path r => let q := count_range main path in (q.1 + r.1, q.2 + r.2)) (0, 0) count.

(** The width of the product in [VALID_SIZE]. *)
Definition product_bits (main : ctype) (count : list (list string)) : Z :=
  if (size_t_bits <? 32) && wide_count main count then 32 else size_t_bits.

(** The multiplication in [VALID_SIZE] is defined. *)
Definition product_defined (main item : ctype) (count : list (list string)) : bool :=
  let r := counts_range main count in
  negb ((size_t_bits <? 32) && wide_count main count && signed_count main count)
  || (- 2 ^ 31 <=? r.1 * sizeof item) && (r.2 * sizeof item <? 2 ^ 31).

(** The multiplication cannot wrap onto the size of the data of some object. *)
Definition product_exact (main item : ctype) (count : list (list string)) : bool :=
  let r := counts_range main count in
  (r.2 * sizeof item <? 2 ^ product_bits main count)
  && (sizeof main - 2 ^ product_bits main count <? r.1 * sizeof item).

(** What the code relies on in the types of a case. *)
Definition rule_ok (r : rule) : bool :=
  match r with
  | NoBody | PingServer | FirmwareUrl => true
  | Exact _ t => (0 <? sizeof t) && (sizeof t <? 2 ^ 31)
  | Valid _ main item count max =>
      (0 <=? sizeof main - sizeof item * max) && (sizeof main <? 2 ^ size_t_bits) && (sizeof main <? 2 ^ 31)
      && (0 <? sizeof item) && (0 <=? max) && (0 <? sizeof main)
      && forallb (count_ok main (sizeof main - sizeof item * max)) count
      && product_defined main item count
  | Pack k => pack_kind_ok k
  end.

(** The counts of the objects handed over are the ones the data has room for. *)
Definition rule_exact (r : rule) : bool :=
  match r with Valid _ main item count _ => product_exact main item count | _ => true end.

End Rules.

(** The rules are sound on a build. *)
Class RulesOk (P : Platform) := {
  rules_ok : forallb (fun c => rule_ok c.2) getdata_cases = true
}.

#[export] Instance linux_device_rules : RulesOk linux_device.
Proof. constructor. vm_compute. reflexivity. Qed.
#[export] Instance esp_idf_rules : RulesOk esp_idf.
Proof. constructor. vm_compute. reflexivity. Qed.
#[export] Instance arduino_esp_rules : RulesOk arduino_esp.
Proof. constructor. vm_compute. reflexivity. Qed.
#[export] Instance arduino_mega_rules : RulesOk arduino_mega.
Proof. constructor. vm_compute. reflexivity. Qed.
#[export] Instance esp8266_nonos_rules : RulesOk esp8266_nonos.
Proof. constructor. vm_compute. reflexivity. Qed.
#[export] Instance generic64_rules : RulesOk generic64.
Proof. constructor. vm_compute. reflexivity. Qed.
#[export] Instance generic_arm32_rules : RulesOk generic_arm32.
Proof. constructor. vm_compute. reflexivity. Qed.

Section Facts.
Context `{PL : PlatformLaws} {RO : RulesOk P}.

Lemma getdata_rule_ok call r : getdata_rule call = Some r -> rule_ok r = true.
Proof.
  unfold getdata_rule. destruct (find _ _) as [[c r']|] eqn:E; [|done]. intros [= <-].
  apply find_some in E as [Hin _].
  pose proof rules_ok as Hall. rewrite forallb_forall in Hall. exact (Hall _ Hin).
Qed.

(** ** The object each case hands over *)

(** An object of type [t] with the packet's data at its start. *)
Definition holds (a : allocation) (t : ctype) (sdp : sdp_t) (p : ptr) : Prop :=
  exists b, p = PLive b /\ Zlen b = sizeof t /\
    take (Z.to_nat (sdp_data_size sdp)) b = take (Z.to_nat (sdp_data_size sdp)) (sdp_data sdp) /\
    (a = Zeroed ->
     drop (Z.to_nat (sdp_data_size sdp)) b = zeros (sizeof t - sdp_data_size sdp)).

(** An old server's ping, which carries 32-bit times. *)
Definition compat_ping (sdp : sdp_t) : bool :=
  negb AVR && (sdp_data_size sdp =? sizeof TDCS_SuplaPingServer_COMPAT).

Definition converted_ping (sdp : sdp_t) (p : ptr) : Prop :=
  exists sec usec,
    read_member TDCS_SuplaPingServer_COMPAT ["now"; "tv_sec"] (sdp_data sdp) = Some sec /\
    read_member TDCS_SuplaPingServer_COMPAT ["now"; "tv_usec"] (sdp_data sdp) = Some usec /\
    p = PLive (le_split 8 sec ++ le_split 8 usec).

(** Whether the data fits the case. *)
Definition accepted (r : rule) (sdp : sdp_t) : bool :=
  let ds := sdp_data_size sdp in
  match r with
  | NoBody => true
  | Exact _ t => ds =? sizeof t
  | Valid _ main item count max => default false (VALID_SIZE main item count max sdp)
  | Pack k => bool_decide (is_Some (pack_of k sdp))
  | PingServer => (ds =? sizeof TDCS_SuplaPingServer) || (ds =? sizeof TDCS_SuplaPingServer_COMPAT)
  | FirmwareUrl => (ds =? sizeof TSD_FirmwareUpdate_UrlResult) || (ds =? 1)
  end.

(** The object the user gets. *)
Definition object_is (r : rule) (sdp : sdp_t) (p : ptr) : Prop :=
  match r with
  | NoBody => p = PNull
  | Exact a t | Valid a t _ _ _ => holds a t sdp p
  | Pack k => exists b, pack_of k sdp = Some b /\ p = PLive b
  | PingServer =>
      if compat_ping sdp then converted_ping sdp p else holds Zeroed TDCS_SuplaPingServer sdp p
  | FirmwareUrl => holds Zeroed TSD_FirmwareUpdate_UrlResult sdp p
  end.

(** What a case and the copy that follows it leave. *)
Inductive case_result (r : rule) (sdp : sdp_t) (h : heap) : ptr * sdp_t * bool -> Prop :=
| CaseObject b sdp' p :
    accepted r sdp = true -> sdp' = sdp \/ sdp' = emptied sdp ->
    copy_data (PLive b) sdp' = Some p -> object_is r sdp p ->
    case_result r sdp h (PLive b, sdp', false)
| CaseNoCopy p :
    accepted r sdp = true -> object_is r sdp p -> case_result r sdp h (p, sdp, true)
| CaseNothing :
    accepted r sdp = false \/ ~ never_refuses h -> case_result r sdp h (PNull, sdp, false).

Lemma sizeof_ping : sizeof TDCS_SuplaPingServer = 16.
Proof. reflexivity. Qed.
Lemma sizeof_compat : sizeof TDCS_SuplaPingServer_COMPAT = 8.
Proof. reflexivity. Qed.
Lemma sizeof_url : 1 <= sizeof TSD_FirmwareUpdate_UrlResult.
Proof. vm_compute. discriminate. Qed.

(** Copying the data into an object that is large enough. *)
Lemma copy_holds a t sdp b :
  sdp_fits sdp -> sdp_data_size sdp <= sizeof t -> Zlen b = sizeof t ->
  (a = Zeroed -> b = zeros (sizeof t)) ->
  exists p, copy_data (PLive b) sdp = Some p /\ holds a t sdp p.
Proof.
  intros [[] Hmax] Hle Hb Hz. unfold copy_data. case_if; bools.
  - rewrite peek_0 by lia.
    set (d := take (Z.to_nat (sdp_data_size sdp)) (sdp_data sdp)).
    assert (Hd : Zlen d = sdp_data_size sdp) by (unfold d; zlen).
    cbn [ptr_write]. rewrite poke_Some by lia. eexists. split; [done|].
    cbn [Z.to_nat]. rewrite firstn_O, app_nil_l, Z.add_0_l. eexists. split; [done|].
    split_and!; [zlen|by rewrite take_Zlen_app|].
    intros Ha. rewrite drop_Zlen_app, Hd, (Hz Ha) by done. unfold zeros. rewrite drop_replicate.
    f_equal. lia.
  - assert (sdp_data_size sdp = 0) as H0 by lia. eexists. split; [done|]. exists b. rewrite H0.
    split_and!; [done|done|done|]. intros Ha. by rewrite Z.sub_0_r, (Hz Ha).
Qed.

(** ** The effect of each kind of case *)

(** Allocating an object of the size of the data or larger, on a size that matches. *)
Lemma wp_alloc_if ok a t r sdp h :
  heap_ok h -> sdp_fits sdp -> 0 <= sizeof t -> accepted r sdp = ok ->
  (ok = true -> sdp_data_size sdp <= sizeof t) ->
  (forall p, holds a t sdp p -> object_is r sdp p) ->
  wp (alloc_if ok a t) (fun p h' => alloc_step h h' /\ case_result r sdp h (p, sdp, false)) h.
Proof.
  intros Hh Hf Ht Hacc Hle Hobj. unfold alloc_if. destruct ok.
  2:{ apply wp_ret. split; [by apply alloc_step_refl|]. apply CaseNothing. by left. }
  assert (Hlive : forall b, Zlen b = sizeof t -> (a = Zeroed -> b = zeros (sizeof t)) ->
    case_result r sdp h (PLive b, sdp, false)).
  { intros b Hb Hz. destruct (copy_holds a t sdp b) as (p & Hp & Hh'); [done|auto|done|done|].
    eapply CaseObject; [done|by left|done|auto]. }
  destruct a; cbn [alloc].
  - apply wp_calloc; [done|..]; intros; (split; [done|]).
    + apply Hlive; [zlen|done].
    + apply CaseNothing. by right.
  - apply wp_malloc; [done|..]; intros; (split; [done|]).
    + apply Hlive; [lia|done].
    + apply CaseNothing. by right.
Qed.

(** Reading a member that lies within the object. *)
Lemma read_member_Some main n path b : count_ok main n path = true -> n <= Zlen b ->
  exists v, read_member main path b = Some v /\
    (count_range main path).1 <= v <= (count_range main path).2.
Proof.
  unfold count_ok, count_range, read_member. destruct (member main path) as [[o t]|]; [|done].
  destruct t as [sg w| | | |]; try done. intros Hok Hn. bools. cbn [sizeof].
  rewrite peek_Some by lia.
  set (f := take _ _). pose proof (le_combine_bound f) as Hb.
  assert (Hf : length f = Z.to_nat w) by (unfold f; rewrite length_take, length_drop; unfold Zlen in *; lia).
  rewrite Hf, Z2Nat.id in Hb by lia.
  destruct sg; cbn [scalar fst snd]; eexists; (split; [done|]); [|lia].
  pose proof (sN_range (8 * w) (le_combine f)). lia.
Qed.

Lemma count_value_Some main n count b :
  forallb (count_ok main n) count = true -> n <= Zlen b ->
  exists v, count_value main count b = Some v /\
    (counts_range main count).1 <= v <= (counts_range main count).2.
Proof.
  intros Hok Hn. induction count as [|path count IH]; [by exists 0|].
  cbn [forallb] in Hok. apply andb_true_iff in Hok as [Hp Hc].
  destruct (read_member_Some _ _ _ _ Hp Hn) as (v & Hv & Hr).
  destruct (IH Hc) as (u & Hu & Hr'). exists (v + u). cbn [count_value]. rewrite Hv, Hu.
  split; [done|]. unfold counts_range in *. cbn [fold_right fst snd]. lia.
Qed.

Lemma count_product_Some main item count v :
  product_defined main item count = true -> 0 < sizeof item ->
  (counts_range main count).1 <= v <= (counts_range main count).2 ->
  count_product main item count v = Some (uN (product_bits main count) (v * sizeof item)).
Proof.
  unfold product_defined, count_product, product_bits. intros Hd Hi Hv.
  destruct ((size_t_bits <? 32) && wide_count main count); [|done].
  destruct (signed_count main count); [|done]. cbn [negb andb orb] in *. bools.
  rewrite (proj2 (Z.leb_le _ _)), (proj2 (Z.ltb_lt _ _)) by nia. done.
Qed.

(** The size check is defined, and what it accepts fits the object. *)
Lemma VALID_SIZE_Some a main item count max sdp :
  rule_ok (Valid a main item count max) = true -> sdp_fits sdp ->
  exists ok, VALID_SIZE main item count max sdp = Some ok /\
    (ok = true -> sizeof main - sizeof item * max <= sdp_data_size sdp <= sizeof main /\
      exists v, count_value main count (sdp_data sdp) = Some v /\
        (counts_range main count).1 <= v <= (counts_range main count).2 /\
        uN (product_bits main count) (v * sizeof item)
          = sdp_data_size sdp - (sizeof main - sizeof item * max)).
Proof.
  cbn [rule_ok]. intros Hok [[] Hmax]. bools. unfold VALID_SIZE, valid_header.
  rewrite uN_small by nia. case_if; [|by exists false]. bools.
  destruct (count_value_Some main (sizeof main - sizeof item * max) count (sdp_data sdp))
    as (v & Hv & Hr); [done|lia|].
  rewrite Hv, count_product_Some by done. eexists. split; [done|]. intros E. bools.
  split; [lia|]. by exists v.
Qed.

Lemma compat_eq sdp : compat_ping sdp = negb AVR && (sdp_data_size sdp =? 8).
Proof. done. Qed.

(** Storing the two times of a ping. *)
Lemma store_ping sec usec :
  exists b, write_member TDCS_SuplaPingServer ["now"; "tv_sec"] sec (zeros 16) = Some b /\
    write_member TDCS_SuplaPingServer ["now"; "tv_usec"] usec b
    = Some (le_split 8 sec ++ le_split 8 usec).
Proof.
  exists (le_split 8 sec ++ zeros 8).
  change (write_member TDCS_SuplaPingServer ["now"; "tv_sec"] sec (zeros 16))
    with (poke 0 (le_split 8 sec) (zeros 16)).
  change (write_member TDCS_SuplaPingServer ["now"; "tv_usec"] usec (le_split 8 sec ++ zeros 8))
    with (poke 8 (le_split 8 usec) (le_split 8 sec ++ zeros 8)).
  rewrite !poke_Some by zlen. rewrite !Zlen_le_split, take_Zlen_app by zlen.
  split; [done|]. do 2 f_equal.
Qed.

(** The ping of a server; the old format needs the memory it asks for. *)
Lemma wp_ping sdp h : heap_ok h -> sdp_fits sdp ->
  (compat_ping sdp = true -> never_refuses h) ->
  wp (let! (p, no_data) := ping_server sdp in mret (p, sdp, no_data))
    (fun r h' => alloc_step h h' /\ case_result PingServer sdp h r) h.
Proof.
  intros Hh Hf Hn. apply wp_bnd. unfold ping_server. fold (compat_ping sdp).
  destruct (_ || _) eqn:Eacc.
  2:{ apply wp_ret, wp_ret. split; [by apply alloc_step_refl|]. apply CaseNothing. by left. }
  assert (Hsz : sdp_data_size sdp = 16 \/ sdp_data_size sdp = 8).
  { apply orb_true_iff in Eacc as [E|E]; bools; rewrite ?sizeof_ping, ?sizeof_compat in *; auto. }
  pose proof Hf as [[] Hmax]. platform. apply wp_bnd.
  apply wp_calloc; [done|intros h' Hs..]; destruct (compat_ping sdp) eqn:Ec.
  - assert (Hds : sdp_data_size sdp = 8) by (rewrite compat_eq in Ec; bools; done).
    assert (Hrd : forall x, x = "tv_sec"%string \/ x = "tv_usec"%string ->
      count_ok TDCS_SuplaPingServer_COMPAT 8 ["now"; x] = true) by (intros x [-> | ->]; done).
    destruct (read_member_Some _ 8 _ (sdp_data sdp) (Hrd _ (or_introl eq_refl))) as (sec & Hsec & _); [lia|].
    destruct (read_member_Some _ 8 _ (sdp_data sdp) (Hrd _ (or_intror eq_refl))) as (usec & Husec & _); [lia|].
    destruct (store_ping sec usec) as (b & Hb & Hb').
    apply wp_bnd. eapply wp_opt; [exact Hsec|]. apply wp_bnd. eapply wp_opt; [exact Husec|].
    rewrite sizeof_ping. apply wp_bnd. eapply wp_opt; [exact Hb|].
    apply wp_bnd. eapply wp_opt; [exact Hb'|]. apply wp_ret, wp_ret.
    split; [done|]. apply CaseNoCopy; [done|]. cbn [object_is]. rewrite Ec. by exists sec, usec.
  - apply wp_ret, wp_ret. split; [done|].
    destruct (copy_holds Zeroed TDCS_SuplaPingServer sdp (zeros 16)) as (p & Hp & Hh');
      [done|rewrite sizeof_ping; lia|done|done|].
    eapply CaseObject; [done|by left|exact Hp|]. cbn [object_is]. by rewrite Ec.
  - intros []. by apply Hn.
  - intros. apply wp_ret, wp_ret. split; [done|]. apply CaseNothing. by right.
Qed.

Lemma wp_firmware sdp h : heap_ok h -> sdp_fits sdp ->
  wp (let! p := firmware_url sdp in mret (p, sdp, false))
    (fun r h' => alloc_step h h' /\ case_result FirmwareUrl sdp h r) h.
Proof.
  intros Hh Hf. apply wp_bnd. unfold firmware_url. change (sizeof char_t) with 1.
  pose proof sizeof_url as Hurl. destruct (_ || _) eqn:Eacc.
  2:{ apply wp_ret, wp_ret. split; [by apply alloc_step_refl|]. apply CaseNothing. by left. }
  assert (Hsz : sdp_data_size sdp <= sizeof TSD_FirmwareUpdate_UrlResult)
    by (apply orb_true_iff in Eacc as [E|E]; bools; lia).
  set (T := TSD_FirmwareUpdate_UrlResult) in *.
  destruct (copy_holds Zeroed T sdp (zeros (sizeof T))) as (p & Hp & Hobj);
    [done|done|zlen|done|].
  assert (Hres : case_result FirmwareUrl sdp h (PLive (zeros (sizeof T)), sdp, false))
    by (eapply CaseObject; [done|by left|exact Hp|exact Hobj]).
  apply wp_bnd, wp_calloc; [done|intros h' Hs..]; cbn [is_null negb].
  - rewrite andb_true_r. case_if; [|by apply wp_ret, wp_ret].
    eapply wp_opt; [|by apply wp_ret]. cbn [ptr_write].
    rewrite poke_Some by zlen. cbn [Z.to_nat]. rewrite firstn_O, drop_ge; [|].
    + by rewrite app_nil_r.
    + rewrite Z.add_0_l, Zlen_length. done.
  - intros. rewrite andb_false_r. apply wp_ret, wp_ret. split; [done|]. apply CaseNothing. by right.
Qed.

Lemma wp_run_rule r sdp h :
  rule_ok r = true -> heap_ok h -> sdp_fits sdp ->
  (r = PingServer -> compat_ping sdp = true -> never_refuses h) ->
  wp (run_rule r sdp) (fun c h' => alloc_step h h' /\ case_result r sdp h c) h.
Proof.
  intros Hr Hh Hf Hping. pose proof Hf as [[] _]. destruct r; cbn [run_rule].
  - apply wp_ret. split; [by apply alloc_step_refl|]. by apply CaseNoCopy.
  - cbn [rule_ok] in Hr. bools. apply wp_bnd.
    eapply wp_mono; [apply (wp_alloc_if _ a t (Exact a t) sdp); [done|done|lia|done| |done]|].
    + intros E. bools. lia.
    + intros p h' Hc. by apply wp_ret.
  - destruct (VALID_SIZE_Some a main item count max sdp Hr Hf) as (ok & Hv & Hle).
    apply wp_bnd. eapply wp_opt; [exact Hv|]. apply wp_bnd. cbn [rule_ok] in Hr. bools.
    eapply wp_mono; [apply (wp_alloc_if ok a main (Valid a main item count max) sdp);
      [done|done|lia|cbn [accepted]; by rewrite Hv| |done]|].
    + intros E. by apply Hle.
    + intros p h' Hc. by apply wp_ret.
  - apply wp_bnd. eapply wp_mono; [by apply wp_getpack|]. intros c h' [Hs Hc]. cbn beta in Hc.
    destruct (pack_of k sdp) as [b|] eqn:E.
    + destruct Hc as [->|[? ->]]; apply wp_ret; (split; [done|]).
      * eapply (CaseObject _ _ _ _ _ (PLive b)); [|by right|done|by exists b].
        cbn [accepted]. by rewrite E.
      * apply CaseNothing. by right.
    + rewrite Hc. apply wp_ret. split; [done|]. apply CaseNothing. left. cbn [accepted]. by rewrite E.
  - by apply wp_ping; auto.
  - by apply wp_firmware.
Qed.

(** ** [srpc_getdata] *)

(** The packet [srpc_getdata] will look at: the oldest one with the identifier in the
    input queue, or, in the builds without one, the packet just received. *)
Definition received_packet (w : world) (rr_id : Z) : option sdp_t :=
  if SRPC_WITHOUT_IN_QUEUE then Some (w_sdp w)
  else option_map fst (list_pop rr_id (queue_packets (srpc_in_queue (w_srpc w)))).

Lemma wp_in_queue_pop rr_id w : world_ok w ->
  wp (srpc_in_queue_pop rr_id) (fun r w' =>
    output_step w w' /\ w_heap w' = w_heap w /\
    match received_packet w rr_id with
    | Some p => r = SUPLA_RESULT_TRUE /\ w_sdp w' = p
    | None => r = SUPLA_RESULT_FALSE
    end) w.
Proof.
  intros Hok. unfold srpc_in_queue_pop, received_packet.
  destruct SRPC_WITHOUT_IN_QUEUE; [apply wp_ret; split_and!; [by apply output_refl|done..]|].
  destruct (wok_in _ Hok) as (ps & Hq & Hps). rewrite (queue_packets_rep _ _ Hq).
  srpc_steps. pose proof (queue_pop_ok _ _ (srpc_sdp (w_srpc w)) rr_id Hq) as Hpop.
  destruct (list_pop rr_id ps) as [[p ps']|] eqn:Epop.
  - destruct Hpop as (q' & Hpop & Hq'). eapply wp_opt; [exact Hpop|]. srpc_steps. cbn.
    destruct (list_pop_Some _ _ _ _ Epop) as (l1 & l2 & -> & -> & _).
    apply Forall_app in Hps as [H1 H2]. inversion H2 as [|? ? Hp H3]; subst.
    split_and!; [|done|done|done]. destruct Hok. constructor; try done.
    constructor; try done. exists (l1 ++ l2). split; [done|]. by apply Forall_app.
  - eapply wp_opt; [exact Hpop|]. srpc_steps. split_and!; [|done|done].
    destruct Hok. by constructor.
Qed.

(** What [srpc_getdata] returns for the packet it looks at. *)
Definition getdata_result (w : world) (rr_id : Z) (rd : TsrpcReceivedData)
    (r : Z) (rd' : TsrpcReceivedData) : Prop :=
  match received_packet w rr_id with
  | None => r = SUPLA_RESULT_FALSE /\ rd_call_id rd' = 0 /\ rd_rr_id rd' = rd_rr_id rd
            /\ rd_data rd' = rd_data rd
  | Some sdp =>
      rd_call_id rd' = sdp_call_id sdp /\ rd_rr_id rd' = sdp_rr_id sdp /\
      ((exists rule, getdata_rule (sdp_call_id sdp) = Some rule /\ r = SUPLA_RESULT_TRUE /\
          accepted rule sdp = true /\ object_is rule sdp (rd_data rd'))
       \/ (r = to_char SUPLA_RESULT_DATA_ERROR /\ rd_data rd' = PNull /\
           match getdata_rule (sdp_call_id sdp) with
           | Some rule => accepted rule sdp = false \/ ~ never_refuses (w_heap w)
           | None => True
           end))
  end.

(** The result codes pass through [int] and [char]. *)
Lemma wp_unlock_code r Q w l :
  r = SUPLA_RESULT_TRUE \/ r = SUPLA_RESULT_FALSE \/ r = SUPLA_RESULT_DATA_ERROR ->
  lck_ok l -> w_lck w = held l -> Q (to_char r) (with_lck w l) -> wp (unlock_c r) Q w.
Proof.
  intros Hr Hl E HQ. unfold unlock_c. srpc_steps. eapply wp_unlock_r; [done|done|]. srpc_steps.
  assert (to_char (to_int r) = to_char r) as ->; [|done].
  unfold to_char, to_int. by destruct Hr as [->|[->| ->]], AVR, char_signed.
Qed.

(** The case for the received call, if there is one. *)
Lemma wp_getdata_case sdp h : heap_ok h -> sdp_fits sdp ->
  (getdata_rule (sdp_call_id sdp) = Some PingServer -> compat_ping sdp = true -> never_refuses h) ->
  wp (match getdata_rule (sdp_call_id sdp) with
      | Some r => run_rule r sdp | None => mret (PNull, sdp, false) end)
    (fun c h' => alloc_step h h' /\
      match getdata_rule (sdp_call_id sdp) with
      | Some r => case_result r sdp h c | None => c = (PNull, sdp, false) end) h.
Proof.
  intros Hh Hfit Hping. destruct (getdata_rule (sdp_call_id sdp)) as [r|] eqn:Er.
  - apply wp_run_rule; [by eapply getdata_rule_ok|done|done|]. intros ->. by apply Hping.
  - apply wp_ret. split; [by apply alloc_step_refl|done].
Qed.

(** The packet after its case: its size may have become zero. *)
Lemma emptied_state_ok w1 w2 sdp sdp' h' :
  output_step w1 w2 -> w_sdp w2 = sdp -> heap_ok h' ->
  (never_refuses (w_heap w2) -> never_refuses h') -> sdp' = sdp \/ sdp' = emptied sdp ->
  output_step w1 {| w_srpc := {| srpc_proto := srpc_proto (w_srpc w2); srpc_sdp := sdp';
      srpc_in_queue := srpc_in_queue (w_srpc w2); srpc_out_queue := srpc_out_queue (w_srpc w2);
      srpc_lck := srpc_lck (w_srpc w2) |};
    w_heap := h'; w_input := w_input w2; w_trace := w_trace w2 |}.
Proof.
  intros Ho2 Hsdp Hh' Hnr' Hcall. eapply output_trans; [exact Ho2|].
  pose proof (ostep_ok _ _ Ho2) as Hok2. pose proof (wok_sdp _ Hok2) as Hfit. rewrite Hsdp in Hfit.
  destruct Hok2. constructor; try done. constructor; try done. change (sdp_fits sdp').
  destruct Hfit as [[] ?].
  destruct Hcall as [->| ->]; [done|]. platform. split; [by constructor|cbn; lia].
Qed.

Lemma wp_getdata rd rr_id w : world_ok w ->
  (forall sdp, received_packet w rr_id = Some sdp ->
     getdata_rule (sdp_call_id sdp) = Some PingServer -> compat_ping sdp = true ->
     never_refuses (w_heap w)) ->
  wp (srpc_getdata rd rr_id) (fun c w' => keeps w w' /\ getdata_result w rr_id rd c.1 c.2) w.
Proof.
  intros Hok Hping. pose proof (wok_lck _ Hok) as Hl. unfold srpc_getdata.
  apply wp_bnd, wp_lock. apply wp_bnd. set (w1 := with_lck w _).
  assert (Hok1 : world_ok w1) by (by apply world_ok_lck, held_ok).
  eapply wp_mono; [by apply wp_in_queue_pop|]. intros r w2 (Ho2 & Hh2 & Hc).
  change (received_packet w1 rr_id) with (received_packet w rr_id) in Hc.
  assert (Hl2 : w_lck w2 = held (w_lck w)) by apply Ho2.
  assert (Hend : forall r rd' w3, output_step w1 w3 -> getdata_result w rr_id rd (to_char r) rd' ->
    r = SUPLA_RESULT_TRUE \/ r = SUPLA_RESULT_FALSE \/ r = SUPLA_RESULT_DATA_ERROR ->
    wp (let! r := unlock_c r in mret (r, rd'))
      (fun c w' => keeps w w' /\ getdata_result w rr_id rd c.1 c.2) w3).
  { intros r' rd' w3 Ho Hres Hr. apply wp_bnd, (wp_unlock_code _ _ _ (w_lck w)); [done|done|apply Ho|].
    apply wp_ret. split; [|done]. destruct Ho. constructor; try done. by apply world_ok_lck. }
  destruct (received_packet w rr_id) as [sdp|] eqn:Erp.
  2:{ subst r. cbn [Z.eqb SUPLA_RESULT_TRUE SUPLA_RESULT_FALSE]. apply Hend; [done| |by right; left].
      unfold getdata_result. by rewrite Erp, to_char_0. }
  destruct Hc as [-> Hsdp]. rewrite Z.eqb_refl. pose proof (ostep_ok _ _ Ho2) as Hok2.
  apply wp_bnd, wp_get_srpc. fold (w_sdp w2). rewrite Hsdp. apply wp_bnd, wp_on_heap.
  eapply wp_mono; [apply (wp_getdata_case sdp); [apply Hok2|rewrite <-Hsdp; apply Hok2|]|].
  { rewrite Hh2. by apply Hping. }
  intros [[p sdp'] nd] h' [[Hh' Hnr'] Hc].
  assert (Hcall : sdp' = sdp \/ sdp' = emptied sdp).
  { destruct (getdata_rule _); [|left; congruence]. by inversion Hc; subst; auto. }
  apply wp_bnd, wp_mod. set (w3 := {| w_srpc := _ |}).
  assert (Ho3 : output_step w1 w3) by (by apply (emptied_state_ok w1 w2 sdp)).
  assert (Hres : forall r p,
    (exists rule, getdata_rule (sdp_call_id sdp) = Some rule /\ r = SUPLA_RESULT_TRUE /\
       accepted rule sdp = true /\ object_is rule sdp p) \/
    (r = to_char SUPLA_RESULT_DATA_ERROR /\ p = PNull /\
       match getdata_rule (sdp_call_id sdp) with
       | Some rule => accepted rule sdp = false \/ ~ never_refuses (w_heap w) | None => True end) ->
    getdata_result w rr_id rd r
      {| rd_call_id := sdp_call_id sdp; rd_rr_id := sdp_rr_id sdp; rd_data := p |})
    by (intros r q Hq; unfold getdata_result; by rewrite Erp).
  assert (Htrue : forall rule p, getdata_rule (sdp_call_id sdp) = Some rule ->
    accepted rule sdp = true -> object_is rule sdp p ->
    wp (let! r := unlock_c SUPLA_RESULT_TRUE in mret (r,
      {| rd_call_id := sdp_call_id sdp; rd_rr_id := sdp_rr_id sdp; rd_data := p |}))
    (fun c w' => keeps w w' /\ getdata_result w rr_id rd c.1 c.2) w3).
  { intros rule q Hru Ha Hobj. apply Hend; [done| |by left]. apply Hres. left. exists rule.
    by rewrite to_char_1. }
  assert (Herr : match getdata_rule (sdp_call_id sdp) with
      | Some rule => accepted rule sdp = false \/ ~ never_refuses (w_heap w) | None => True end ->
    wp (let! r := unlock_c SUPLA_RESULT_DATA_ERROR in mret (r,
      {| rd_call_id := sdp_call_id sdp; rd_rr_id := sdp_rr_id sdp; rd_data := PNull |}))
    (fun c w' => keeps w w' /\ getdata_result w rr_id rd c.1 c.2) w3).
  { intros Hno. apply Hend; [done| |by right; right]. apply Hres. by right. }
  destruct (getdata_rule (sdp_call_id sdp)) as [rule|] eqn:Er.
  2:{ injection Hc as -> -> ->. by apply Herr. }
  inversion Hc as [b s' q Ha Hs' Hcopy Hobj|q Ha Hobj|Hno]; subst; cbn [is_null negb].
  - apply wp_bnd. eapply wp_opt; [exact Hcopy|]. by eapply Htrue.
  - by eapply Htrue.
  - apply Herr. rewrite Hh2 in Hno. exact Hno.
Qed.

End Facts.
