(* ===== verification/SrpcGetDataProps.v ===== *)
(** * srpc.c: properties of received objects

    Memory safety and results of [srpc_getdata], the soundness of the counts in the
    objects it hands over, and where they fail. *)
From S2P Require Import Prelude Platform Heap Lck CLayout ProtoConsts ProtoTypes Proto ProtoFacts.
From S2P Require Import ProtoProps SrpcQueue Srpc SrpcCall SrpcFacts SrpcProps SrpcPack SrpcPackFacts.
From S2P Require Import SrpcGetData SrpcGetDataFacts.

(** A build on which the products of all counts are exact. *)
Class RulesExact (P : Platform) := {
  rules_exact : forallb (fun c => rule_exact c.2) getdata_cases = true
}.

#[export] Instance linux_device_exact : RulesExact linux_device.
Proof. constructor. vm_compute. reflexivity. Qed.
#[export] Instance esp_idf_exact : RulesExact esp_idf.
Proof. constructor. vm_compute. reflexivity. Qed.
#[export] Instance arduino_esp_exact : RulesExact arduino_esp.
Proof. constructor. vm_compute. reflexivity. Qed.
#[export] Instance esp8266_nonos_exact : RulesExact esp8266_nonos.
Proof. constructor. vm_compute. reflexivity. Qed.
#[export] Instance generic64_exact : RulesExact generic64.
Proof. constructor. vm_compute. reflexivity. Qed.

Section GetData.
Context `{PL : PlatformLaws} {RO : RulesOk P}.

(** The allocator refuses nothing to an old server's ping. *)
Definition ping_has_memory (w : world) (rr_id : Z) : Prop :=
  forall sdp, received_packet w rr_id = Some sdp ->
    getdata_rule (sdp_call_id sdp) = Some PingServer -> compat_ping sdp = true ->
    never_refuses (w_heap w).



(** The number of items an accepted object claims. *)
Definition count_of (r : rule) (sdp : sdp_t) : option Z :=
  match r with Valid _ main _ count _ => count_value main count (sdp_data sdp) | _ => None end.


Lemma getdata_rule_0 : getdata_rule 0 = None.
Proof.
  unfold getdata_rule, getdata_cases. by destruct SRPC_EXCLUDE_DEVICE, SRPC_EXCLUDE_CLIENT.
Qed.

Lemma object_owned r sdp p : object_is r sdp p -> p = PNull \/ exists b, p = PLive b.
Proof.
  destruct r; cbn [object_is]; [auto|intros (b & -> & _); eauto|intros (b & -> & _); eauto|..].
  - intros (b & _ & ->). eauto.
  - case_if; [intros (? & ? & _ & _ & ->)|intros (b & -> & _)]; eauto.
  - intros (b & -> & _). eauto.
Qed.

Lemma received_fits w rr_id sdp : world_ok w -> received_packet w rr_id = Some sdp -> sdp_fits sdp.
Proof.
  intros Hok. unfold received_packet. destruct SRPC_WITHOUT_IN_QUEUE; [intros [= <-]; apply Hok|].
  destruct (wok_in _ Hok) as (ps & Hq & Hps). rewrite (queue_packets_rep _ _ Hq).
  destruct (list_pop rr_id ps) as [[p l]|] eqn:E; [|done]. intros [= <-].
  apply list_pop_Some in E as (l1 & l2 & -> & -> & _). apply Forall_app in Hps as [_ Hps].
  by inversion Hps.
Qed.

Lemma rd_free_released rd rr_id w r rd' w' h :
  world_ok w -> ping_has_memory w rr_id ->
  srpc_getdata rd rr_id w = Some ((r, rd'), w') ->
  exists rd'', srpc_rd_free rd' h = Some (rd'', h) /\ srpc_rd_free rd'' h = Some (rd'', h) /\
    (received_packet w rr_id <> None -> forall b, rd_data rd'' <> PLive b).
Proof.
  intros Hok Hp E. pose proof (wp_getdata rd rr_id w Hok Hp) as H1. unfold wp in H1. rewrite E in H1.
  destruct H1 as [_ Hres]. unfold getdata_result in Hres. cbn [fst snd] in Hres.
  destruct (received_packet w rr_id) as [sdp|] eqn:Erp.
  2:{ destruct Hres as (_ & H0 & _). exists rd'. unfold srpc_rd_free. by rewrite H0. }
  destruct Hres as (Hc & _ & Hd). destruct (received_fits _ _ _ Hok Erp) as [[] _].
  assert (Hown : (rd_data rd' = PNull \/ exists b, rd_data rd' = PLive b) /\
                 (rd_call_id rd' = 0 -> rd_data rd' = PNull)).
  { destruct Hd as [(rule & Hr & _ & _ & Ho)|(_ & Hn & _)]; [|auto]. split; [by eapply object_owned|].
    intros H0. rewrite <-Hc, H0, getdata_rule_0 in Hr. done. }
  destruct Hown as [Hown H0]. unfold srpc_rd_free at 1. case_if; bools.
  - by destruct Hown as [->|[b ->]]; (eexists; split; [done|]); (split; [done|]).
  - exists rd'. split; [done|]. unfold srpc_rd_free. rewrite (proj2 (Z.ltb_ge _ _)) by lia.
    split; [done|]. intros _ b. rewrite H0 by lia. done.
Qed.

(** C13: releasing.  After any [srpc_getdata], [srpc_rd_free] is defined and frees the
    object of the packet it handed over; a second call does nothing, so that nothing is
    freed twice. *)
Theorem rd_free_once rd rr_id w r rd' w' h :
  world_ok w -> ping_has_memory w rr_id ->
  srpc_getdata rd rr_id w = Some ((r, rd'), w') ->
  exists rd'', srpc_rd_free rd' h = Some (rd'', h) /\ srpc_rd_free rd'' h = Some (rd'', h) /\
    (received_packet w rr_id <> None -> forall b, rd_data rd'' <> PLive b).
Proof. intros. by eapply rd_free_released. Qed.

(** ** A callback that reads *)

(** [on_remote_call_received] as a device writes it: read the object, use it, free it. *)
Definition reading_callback (rr_id _call_id _version : Z) : M world unit :=
  let! (_, rd) := srpc_getdata {| rd_call_id := 0; rd_rr_id := 0; rd_data := PNull |} rr_id in
  let! _ := on_heap (srpc_rd_free rd) in mret tt.

Definition reading_params : TsrpcParams :=
  {| on_remote_call_received := Some reading_callback; on_version_error := None;
     before_async_call := None; on_min_version_required := None; params_eh := false |}.

(** Reading from the callback is allowed: a callback that takes the packet with
    [srpc_getdata] and releases it meets the contract of the engine, so that the engine
    theorems apply to it -- in every build in which no old server's ping can meet a full
    memory. *)
Theorem reading_callback_lawful :
  AVR = true \/ ERRNO_CHECKED = true -> ParamsLaws reading_params.
Proof.
  intros Hb. constructor; try done. intros f rr call ver w [= <-] Hok.
  assert (Hp : ping_has_memory w rr).
  { intros sdp _ _ Hc. destruct Hb as [Ha|He].
    - unfold compat_ping in Hc. by rewrite Ha in Hc.
    - destruct (wok_heap _ Hok) as [Hf|Hn]; [congruence|exact Hn]. }
  set (rd := {| rd_call_id := 0; rd_rr_id := 0; rd_data := PNull |}).
  apply wp_bnd. pose proof (wp_getdata rd rr w Hok Hp) as H1. apply wp_run in H1.
  destruct H1 as ([r rd'] & w' & E & Hk & _). unfold wp at 1. fold rd. rewrite E. cbn beta iota.
  destruct (rd_free_released rd rr w r rd' w' (w_heap w') Hok Hp E) as (rd'' & Hf & _).
  apply wp_bnd, wp_on_heap. unfold wp. rewrite Hf. by destruct w'.
Qed.

End GetData.

(** ** Where the checks fail *)

(** A packet with the call [call] and the data [d]. *)
Definition data_packet (max call : Z) (d : bytes) : sdp_t :=
  {| sdp_tag := sproto_tag; sdp_version := 28; sdp_rr_id := 1; sdp_call_id := call;
     sdp_data_size := Zlen d; sdp_data := d ++ zeros (max - Zlen d) |}.

(** The engine of [idle_world] with that packet just received. *)
Definition received_world `{Platform} (sdp : sdp_t) (h : heap) : world :=
  let w := idle_world 0 [] in
  {| w_srpc := {| srpc_proto := srpc_proto (w_srpc w); srpc_sdp := sdp;
       srpc_in_queue := srpc_in_queue (w_srpc w); srpc_out_queue := srpc_out_queue (w_srpc w);
       srpc_lck := srpc_lck (w_srpc w) |};
     w_heap := h; w_input := []; w_trace := [] |}.

Definition no_rd : TsrpcReceivedData := {| rd_call_id := 0; rd_rr_id := 0; rd_data := PNull |}.

(** An allocator that refuses its next request. *)
Definition full_heap : heap := {| h_oom := [true]; h_errno := 0; h_junk := fun _ => Byte.x00 |}.

(** The count of a relation pack wraps on a 32-bit [size_t].  On such a generic build a
    pack with one stray byte after its header and a count of 954437177 passes
    [VALID_SIZE], since 9 times that count is 1 modulo 2^32. *)
Theorem relation_count_wraps :
  let sdp := data_packet 10240 SUPLA_SC_CALL_CHANNELGROUP_RELATION_PACK_UPDATE
               (le_split 4 954437177 ++ le_split 4 0 ++ zeros 1) in
  exists rule, @getdata_rule generic_arm32 (sdp_call_id sdp) = Some rule /\
    @accepted generic_arm32 rule sdp = true /\
    count_of rule sdp = Some 954437177 /\ SUPLA_CHANNELGROUP_RELATION_PACK_MAXCOUNT < 954437177.
Proof. eexists. split_and!; [reflexivity|vm_compute; reflexivity..]. Qed.

(** An old server's ping with no memory left.  The conversion of the 32-bit time
    writes through the pointer [calloc] returned without testing it: undefined when the
    request was refused. *)
Theorem compat_ping_needs_memory :
  let sdp := data_packet 600 SUPLA_DCS_CALL_PING_SERVER (zeros 8) in
  @world_ok linux_device (@received_world linux_device sdp full_heap) /\
  @srpc_getdata linux_device no_rd 0 (@received_world linux_device sdp full_heap) = None.
Proof.
  split; [|vm_compute; reflexivity].
  destruct (@idle_world_ok linux_device _ 0 []) as [Hp _ Hi Ho _ Hl]; [lia|].
  constructor; try done. by left.
Qed.

(** ** Witnesses *)

(** The answer to a ping, with its time. *)
Definition ping_result : sdp_t :=
  data_packet 600 SUPLA_SDC_CALL_PING_SERVER_RESULT (le_split 8 1700000000 ++ le_split 8 250000).

Lemma ping_result_ok : @world_ok linux_device (@received_world linux_device ping_result calm_heap).
Proof.
  destruct (@idle_world_ok linux_device _ 0 []) as [Hp _ Hi Ho Hh Hl]; [lia|]. by constructor.
Qed.



(** A set of channel functions with three entries. *)
Definition functions_result : sdp_t :=
  data_packet 600 SUPLA_SD_CALL_GET_CHANNEL_FUNCTIONS_RESULT
    (le_split 1 3 ++ le_split 4 60 ++ le_split 4 0 ++ le_split 4 130).


Lemma rd_free_once_witness :
  let w := @received_world linux_device ping_result calm_heap in
  exists r rd' w', @srpc_getdata linux_device no_rd 0 w = Some ((r, rd'), w') /\
  exists rd'', srpc_rd_free rd' calm_heap = Some (rd'', calm_heap) /\
    srpc_rd_free rd'' calm_heap = Some (rd'', calm_heap) /\
    (@received_packet linux_device w 0 <> None -> forall b, rd_data rd'' <> PLive b).
Proof.
  intros w.
  destruct (@srpc_getdata linux_device no_rd 0 w) as [[[r rd'] w']|] eqn:E;
    [|vm_compute in E; discriminate E].
  exists r, rd', w'. split; [reflexivity|].
  apply (@rd_free_once linux_device _ _ no_rd 0 w r rd' w' calm_heap); [apply ping_result_ok| |exact E].
  intros sdp [= <-]. discriminate.
Defined.

Lemma reading_callback_lawful_witness :
  ParamsLaws (P := generic64) (@reading_params generic64).
Proof. apply (@reading_callback_lawful generic64 _ _). right. reflexivity. Defined.
