(* ===== verification/SrpcAsync.v ===== *)
(** * srpc.c: the calls a device and a server make

    One definition per [srpc_*_async_*] function of [src/src/supla-common/srpc.c] that
    is compiled with SRPC_EXCLUDE_CLIENT: a call is sent with the object the caller
    passes, cut after the part its count says is used.  An object is given as its bytes,
    [None] is a null pointer.  The functions differ in the order of their checks; the
    shapes they share are the values of [sender]. *)
From S2P Require Import Prelude Platform Heap Lck CLayout ProtoConsts ProtoTypes Proto.
From S2P Require Import SrpcQueue Srpc SrpcCall.

(** How a function sends the object it is given. *)
Inductive sender :=
| SFixed (t : ctype)                       (* sizeof (t) bytes, null passed on *)
| SFixedChecked (t : ctype)                (* the same, null refused *)
| SGuarded (t item : ctype) (max : Z) (path : list string)
                                           (* null or a count above max refused *)
| SSized (t item : ctype) (max : Z) (path : list string)
                                           (* a size above sizeof (t) refused *)
| SSizedChecked (t item : ctype) (max : Z) (path : list string)
                                           (* the same, null refused *)
| SCounted (t item : ctype) (max : Z) (path : list string).
                                           (* a count below 1 or above max refused *)

Definition SUPLA_CHANNEL_OFFLINE_FLAG_OFFLINE : Z := 1.
Definition SUPLA_CHANNEL_OFFLINE_FLAG_MAX : Z := 4.

Section Async.
Context `{Platform} {params : TsrpcParams}.

(** [sizeof (t) - sizeof (item) * max + sizeof (item) * count], in [size_t] or in the
    type of the count where that is wider. *)
Definition var_size (t item : ctype) (max : Z) (path : list string) (count : Z) : Z :=
  let bits := match member t path with Some (_, c) => 8 * sizeof c | None => 0 end in
  uN (Z.max size_t_bits bits) (sizeof t - sizeof item * max + sizeof item * count).

(** [size > sizeof (t)] for an [_supla_int_t] size. *)
Definition exceeds (size : Z) (t : ctype) : bool :=
  if size_t_bits <? 32 then sizeof t <? size else sizeof t <? uN size_t_bits size.

(** The body of the functions that compute the size before they test it. *)
Definition send_sized (t item : ctype) (max : Z) (path : list string) (call_id : Z)
    (p : bytes) : M world Z :=
  let! count := mopt (read_member t path p) in
  let size := i32 (var_size t item max path count) in
  if exceeds size t then mret 0 else srpc_async_call call_id (Some p) (u32 size).

Definition send (s : sender) (call_id : Z) (object : option bytes) : M world Z :=
  match s, object with
  | SFixed t, _ => srpc_async_call call_id object (sizeof t)
  | SFixedChecked t, None => mret 0
  | SFixedChecked t, Some _ => srpc_async_call call_id object (sizeof t)
  | SGuarded t item max path, None => mret 0
  | SGuarded t item max path, Some p =>
      let! count := mopt (read_member t path p) in
      if max <? count then mret 0
      else srpc_async_call call_id (Some p) (u32 (var_size t item max path count))
  | SSized t item max path, None => mopt None
  | SSized t item max path, Some p => send_sized t item max path call_id p
  | SSizedChecked t item max path, None => mret 0
  | SSizedChecked t item max path, Some p => send_sized t item max path call_id p
  | SCounted t item max path, None => mopt None
  | SCounted t item max path, Some p =>
      let! count := mopt (read_member t path p) in
      if (count <? 1) || (max <? count) then mret 0
      else srpc_async_call call_id (Some p) (u32 (var_size t item max path count))
  end.

(** A call without data. *)
Definition send_none (call_id : Z) : M world Z := srpc_async_call call_id None 0.

(** A local structure with every member assigned; the members of a structure are its
    bytes. *)
Fixpoint assign (t : ctype) (fs : list (string * bytes)) (b : bytes) : option bytes :=
  match fs with
  | [] => Some b
  | (x, v) :: fs =>
      match member t [x] with
      | Some (o, m) =>
          if Zlen v =? sizeof m then
            match poke o v b with Some b => assign t fs b | None => None end
          else None
      | None => None
      end
  end.
Definition local (t : ctype) (fs : list (string * bytes)) : option bytes :=
  assign t fs (zeros (sizeof t)).

(** ** Registration in chunks *)

(** The channels from [i] on, [n] of them, each written when the callback has it. *)
Fixpoint write_channels (channel : ctype) (get_channel_data : Z -> option bytes) (n : nat)
    (i : Z) : M world unit :=
  match n with
  | O => mret tt
  | S n =>
      (match get_channel_data i with
       | None => mret tt
       | Some data => let! d := mopt (peek 0 (sizeof channel) data) in data_write d
       end) ;;;
      write_channels channel get_channel_data n (i + 1)
  end.

(** The two functions that write a registration packet piece by piece, without building
    it in [srpc->sdp]; they differ in the call and in the type of a channel. *)
Definition in_chunks (call_id : Z) (channel : ctype) (registerdevice : bytes)
    (get_channel_data : Z -> option bytes) : M world Z :=
  let T := TDS_SuplaRegisterDeviceHeader in
  let! count := mopt (read_member T ["channel_count"] registerdevice) in
  let full_size := i32 (sizeof T + sizeof channel * count) in
  let! allowed := srpc_call_allowed call_id in
  if negb allowed then
    (match on_min_version_required with
     | Some f =>
         emit (EvMinVersion call_id (srpc_call_min_version_required call_id)) ;;;
         f call_id (srpc_call_min_version_required call_id)
     | None => mret tt
     end) ;;;
    mret SUPLA_RESULT_FALSE
  else
    (match before_async_call with
     | Some f => emit (EvBeforeCall call_id) ;;; f call_id
     | None => mret tt
     end) ;;;
    srpc_lock ;;;
    let! p := get_proto in
    let (sdp, p) := sproto_sdp_init p in
    set_proto p ;;;
    let! (r, sdp) := mopt (sproto_set_data sdp (Some registerdevice) (sizeof T) call_id) in
    set_sdp sdp ;;;
    if SUPLA_RESULT_TRUE =? r then
      let sdp := {| sdp_tag := sdp_tag sdp; sdp_version := sdp_version sdp;
        sdp_rr_id := sdp_rr_id sdp; sdp_call_id := sdp_call_id sdp;
        sdp_data_size := u32 full_size; sdp_data := sdp_data sdp |} in
      set_sdp sdp ;;;
      let header_size := u32 (sizeof TSuplaDataPacket - SUPLA_MAX_DATA_SIZE + sizeof T) in
      let! head := mopt (peek 0 header_size (sdp_encode sdp)) in
      data_write head ;;;
      write_channels channel get_channel_data (Z.to_nat count) 0 ;;;
      data_write sproto_tag ;;;
      unlock_r (sdp_rr_id sdp)
    else unlock_r SUPLA_RESULT_FALSE.

(** ** The functions *)

Definition srpc_dcs_async_getversion :=
  send_none SUPLA_DCS_CALL_GETVERSION.

Definition srpc_sdc_async_getversion_result (SoftVer : bytes) : M world Z :=
  let! ver := mopt (peek 0 SUPLA_SOFTVER_MAXSIZE SoftVer) in
  let! gvr := mopt (local TSDC_SuplaGetVersionResult
    [("proto_version", le_split 1 SUPLA_PROTO_VERSION);
     ("proto_version_min", le_split 1 SUPLA_PROTO_VERSION_MIN); ("SoftVer", ver)]) in
  srpc_async_call SUPLA_SDC_CALL_GETVERSION_RESULT (Some gvr) (sizeof TSDC_SuplaGetVersionResult).

Definition srpc_sdc_async_versionerror (remote_version : Z) : M world Z :=
  let! ve := mopt (local TSDC_SuplaVersionError
    [("server_version", le_split 1 SUPLA_PROTO_VERSION);
     ("server_version_min", le_split 1 SUPLA_PROTO_VERSION_MIN)]) in
  srpc_async__call SUPLA_SDC_CALL_VERSIONERROR (Some ve) (sizeof TSDC_SuplaVersionError)
    (Some remote_version).

Definition srpc_dcs_async_ping_server (clock : Z * Z) : M world Z :=
  let (sec, usec) := if AVR then (0, 0) else clock in
  srpc_async_call SUPLA_DCS_CALL_PING_SERVER (Some (le_split 8 sec ++ le_split 8 usec))
    (sizeof TDCS_SuplaPingServer).

Definition srpc_sdc_async_ping_server_result (clock : Z * Z) : M world Z :=
  if ERRNO_CHECKED && negb AVR then
    srpc_async_call SUPLA_SDC_CALL_PING_SERVER_RESULT
      (Some (le_split 8 clock.1 ++ le_split 8 clock.2)) (sizeof TSDC_SuplaPingServerResult)
  else mret 0.

Definition srpc_dcs_async_set_activity_timeout :=
  send (SFixed TDCS_SuplaSetActivityTimeout) SUPLA_DCS_CALL_SET_ACTIVITY_TIMEOUT.

Definition srpc_dcs_async_set_activity_timeout_result :=
  send (SFixed TSDC_SuplaSetActivityTimeoutResult)
    SUPLA_SDC_CALL_SET_ACTIVITY_TIMEOUT_RESULT.

Definition srpc_dcs_async_get_registration_enabled :=
  send_none SUPLA_DCS_CALL_GET_REGISTRATION_ENABLED.

Definition srpc_sdc_async_get_registration_enabled_result :=
  send (SFixed TSDC_RegistrationEnabled) SUPLA_SDC_CALL_GET_REGISTRATION_ENABLED_RESULT.

Definition srpc_dcs_async_get_user_localtime :=
  send_none SUPLA_DCS_CALL_GET_USER_LOCALTIME.

Definition srpc_sdc_async_get_user_localtime_result :=
  send (SGuarded TSDC_UserLocalTimeResult schar SUPLA_TIMEZONE_MAXSIZE ["timezoneSize"])
    SUPLA_DCS_CALL_GET_USER_LOCALTIME_RESULT.

Definition srpc_csd_async_get_channel_state :=
  send (SFixed TCSD_ChannelStateRequest) SUPLA_CSD_CALL_GET_CHANNEL_STATE.

Definition srpc_csd_async_channel_state_result :=
  send (SFixed TDSC_ChannelState) SUPLA_DSC_CALL_CHANNEL_STATE_RESULT.

Definition srpc_dcs_async_set_caption :=
  send (SSized TDCS_SetCaption schar SUPLA_CAPTION_MAXSIZE ["CaptionSize"]).

Definition srpc_dcs_async_set_channel_caption :=
  srpc_dcs_async_set_caption SUPLA_DCS_CALL_SET_CHANNEL_CAPTION.

Definition srpc_sc_async_set_caption_result :=
  send (SSized TSCD_SetCaptionResult schar SUPLA_CAPTION_MAXSIZE ["CaptionSize"]).

Definition srpc_scd_async_set_channel_caption_result :=
  srpc_sc_async_set_caption_result SUPLA_SCD_CALL_SET_CHANNEL_CAPTION_RESULT.

(** *** With SRPC_EXCLUDE_DEVICE not defined *)

Definition srpc_sd_async_get_firmware_update_url :=
  send (SFixed TDS_FirmwareUpdateParams) SUPLA_DS_CALL_GET_FIRMWARE_UPDATE_URL.

Definition srpc_ds_async_registerdevice :=
  send (SSized TDS_SuplaRegisterDevice TDS_SuplaDeviceChannel SUPLA_CHANNELMAXCOUNT ["channel_count"])
    SUPLA_DS_CALL_REGISTER_DEVICE.

Definition srpc_ds_async_registerdevice_b :=
  send (SSized TDS_SuplaRegisterDevice_B TDS_SuplaDeviceChannel_B SUPLA_CHANNELMAXCOUNT ["channel_count"])
    SUPLA_DS_CALL_REGISTER_DEVICE_B.

Definition srpc_ds_async_registerdevice_c :=
  send (SSized TDS_SuplaRegisterDevice_C TDS_SuplaDeviceChannel_B SUPLA_CHANNELMAXCOUNT ["channel_count"])
    SUPLA_DS_CALL_REGISTER_DEVICE_C.

Definition srpc_ds_async_registerdevice_d :=
  send (SSized TDS_SuplaRegisterDevice_D TDS_SuplaDeviceChannel_B SUPLA_CHANNELMAXCOUNT ["channel_count"])
    SUPLA_DS_CALL_REGISTER_DEVICE_D.

Definition srpc_ds_async_registerdevice_e :=
  send (SSized TDS_SuplaRegisterDevice_E TDS_SuplaDeviceChannel_C SUPLA_CHANNELMAXCOUNT ["channel_count"])
    SUPLA_DS_CALL_REGISTER_DEVICE_E.

Definition srpc_ds_async_registerdevice_in_chunks :=
  in_chunks SUPLA_DS_CALL_REGISTER_DEVICE_F TDS_SuplaDeviceChannel_D.

Definition srpc_ds_async_registerdevice_in_chunks_g :=
  in_chunks SUPLA_DS_CALL_REGISTER_DEVICE_G TDS_SuplaDeviceChannel_E.

Definition srpc_ds_async_registerdevice_f :=
  send (SSized TDS_SuplaRegisterDevice_F TDS_SuplaDeviceChannel_D SUPLA_CHANNELMAXCOUNT ["channel_count"])
    SUPLA_DS_CALL_REGISTER_DEVICE_F.

Definition srpc_ds_async_registerdevice_g :=
  send (SSized TDS_SuplaRegisterDevice_G TDS_SuplaDeviceChannel_E SUPLA_CHANNELMAXCOUNT ["channel_count"])
    SUPLA_DS_CALL_REGISTER_DEVICE_G.

Definition srpc_sd_async_registerdevice_result :=
  send (SFixed TSD_SuplaRegisterDeviceResult) SUPLA_SD_CALL_REGISTER_DEVICE_RESULT.

Definition srpc_sd_async_registerdevice_result_b :=
  send (SGuarded TSD_SuplaRegisterDeviceResult_B uchar CHANNEL_REPORT_MAXSIZE ["channel_report_size"])
    SUPLA_SD_CALL_REGISTER_DEVICE_RESULT_B.

Definition srpc_sd_async_set_channel_value :=
  send (SFixed TSD_SuplaChannelNewValue) SUPLA_SD_CALL_CHANNEL_SET_VALUE.

Definition srpc_sd_async_set_channelgroup_value :=
  send (SFixed TSD_SuplaChannelGroupNewValue) SUPLA_SD_CALL_CHANNELGROUP_SET_VALUE.

Definition srpc_ds_async_set_channel_result (ChannelNumber SenderID Success : Z) : M world Z :=
  let! result := mopt (local TDS_SuplaChannelNewValueResult
    [("ChannelNumber", le_split 1 ChannelNumber); ("SenderID", le_split 4 SenderID);
     ("Success", le_split 1 Success)]) in
  srpc_async_call SUPLA_DS_CALL_CHANNEL_SET_VALUE_RESULT (Some result)
    (sizeof TDS_SuplaChannelNewValueResult).

Definition srpc_sd_async_get_firmware_update_url_result (result : bytes) : M world Z :=
  let! exists_ := mopt (read_member TSD_FirmwareUpdate_UrlResult ["exists"] result) in
  srpc_async_call SUPLA_SD_CALL_GET_FIRMWARE_UPDATE_URL_RESULT (Some result)
    (if exists_ =? 1 then sizeof TSD_FirmwareUpdate_UrlResult else sizeof char_t).

Definition srpc_ds_async_channel_value_changed (channel_number : Z) (value : bytes) : M world Z :=
  let! value := mopt (peek 0 SUPLA_CHANNELVALUE_SIZE value) in
  let! ncsc := mopt (local TDS_SuplaDeviceChannelValue
    [("ChannelNumber", le_split 1 channel_number); ("value", value)]) in
  srpc_async_call SUPLA_DS_CALL_DEVICE_CHANNEL_VALUE_CHANGED (Some ncsc)
    (sizeof TDS_SuplaDeviceChannelValue).

Definition srpc_ds_async_channel_value_changed_b (channel_number : Z) (value : bytes)
    (offline : Z) : M world Z :=
  let! value := mopt (peek 0 SUPLA_CHANNELVALUE_SIZE value) in
  let! ncsc := mopt (local TDS_SuplaDeviceChannelValue_B
    [("ChannelNumber", le_split 1 channel_number);
     ("Offline", le_split 1 (if offline =? 0 then 0 else 1)); ("value", value)]) in
  srpc_async_call SUPLA_DS_CALL_DEVICE_CHANNEL_VALUE_CHANGED_B (Some ncsc)
    (sizeof TDS_SuplaDeviceChannelValue_B).

Definition srpc_ds_async_channel_value_changed_c (channel_number : Z) (value : bytes)
    (offline validity_time_sec : Z) : M world Z :=
  let offline := if SUPLA_CHANNEL_OFFLINE_FLAG_MAX <? offline
                 then SUPLA_CHANNEL_OFFLINE_FLAG_OFFLINE else offline in
  let! value := mopt (peek 0 SUPLA_CHANNELVALUE_SIZE value) in
  let! ncsc := mopt (local TDS_SuplaDeviceChannelValue_C
    [("ChannelNumber", le_split 1 channel_number); ("Offline", le_split 1 offline);
     ("ValidityTimeSec", le_split 4 validity_time_sec); ("value", value)]) in
  srpc_async_call SUPLA_DS_CALL_DEVICE_CHANNEL_VALUE_CHANGED_C (Some ncsc)
    (sizeof TDS_SuplaDeviceChannelValue_C).

Definition srpc_ds_async_channel_extendedvalue_changed (channel_number : Z)
    (value : option bytes) : M world Z :=
  match value with
  | None => mret 0
  | Some value =>
      let! size := mopt (read_member TSuplaChannelExtendedValue ["size"] value) in
      if (SUPLA_CHANNELEXTENDEDVALUE_SIZE <? size) || (size =? 0) then mret 0
      else
        let! value := mopt (peek 0 (sizeof TSuplaChannelExtendedValue) value) in
        let! ncsc := mopt (local TDS_SuplaDeviceChannelExtendedValue
          [("ChannelNumber", le_split 1 channel_number); ("value", value)]) in
        srpc_async_call SUPLA_DS_CALL_DEVICE_CHANNEL_EXTENDEDVALUE_CHANGED (Some ncsc)
          (u32 (sizeof TDS_SuplaDeviceChannelExtendedValue
                - (SUPLA_CHANNELEXTENDEDVALUE_SIZE - size)))
  end.

Definition srpc_sd_async_device_calcfg_request :=
  send (SGuarded TSD_DeviceCalCfgRequest schar SUPLA_CALCFG_DATA_MAXSIZE ["DataSize"])
    SUPLA_SD_CALL_DEVICE_CALCFG_REQUEST.

Definition srpc_ds_async_device_calcfg_result :=
  send (SGuarded TDS_DeviceCalCfgResult schar SUPLA_CALCFG_DATA_MAXSIZE ["DataSize"])
    SUPLA_DS_CALL_DEVICE_CALCFG_RESULT.

Definition srpc_ds_async_get_channel_functions :=
  send_none SUPLA_DS_CALL_GET_CHANNEL_FUNCTIONS.

Definition srpc_sd_async_get_channel_functions_result (result : option bytes) : M world Z :=
  match result with
  | None => mret 0
  | Some result =>
      let! count := mopt (read_member TSD_ChannelFunctions ["ChannelCount"] result) in
      if SUPLA_CHANNELMAXCOUNT <? count then mret 0
      else send (SSized TSD_ChannelFunctions supla_int_t SUPLA_CHANNELMAXCOUNT ["ChannelCount"])
             SUPLA_SD_CALL_GET_CHANNEL_FUNCTIONS_RESULT (Some result)
  end.

Definition srpc_ds_async_get_channel_config_request :=
  send (SFixedChecked TDS_GetChannelConfigRequest) SUPLA_DS_CALL_GET_CHANNEL_CONFIG.

Definition srpc_sd_async_get_channel_config_result :=
  send (SGuarded TSD_ChannelConfig schar SUPLA_CHANNEL_CONFIG_MAXSIZE ["ConfigSize"])
    SUPLA_SD_CALL_GET_CHANNEL_CONFIG_RESULT.

Definition srpc_sd_async_set_channel_config_request :=
  send (SGuarded TSDS_SetChannelConfig schar SUPLA_CHANNEL_CONFIG_MAXSIZE ["ConfigSize"])
    SUPLA_SD_CALL_SET_CHANNEL_CONFIG.

Definition srpc_ds_async_set_channel_config_result :=
  send (SFixedChecked TSDS_SetChannelConfigResult) SUPLA_DS_CALL_SET_CHANNEL_CONFIG_RESULT.

Definition srpc_ds_async_set_channel_config_request :=
  send (SGuarded TSDS_SetChannelConfig schar SUPLA_CHANNEL_CONFIG_MAXSIZE ["ConfigSize"])
    SUPLA_DS_CALL_SET_CHANNEL_CONFIG.

Definition srpc_sd_async_set_channel_config_result :=
  send (SFixedChecked TSDS_SetChannelConfigResult) SUPLA_SD_CALL_SET_CHANNEL_CONFIG_RESULT.

Definition srpc_sd_async_channel_config_finished :=
  send (SFixedChecked TSD_ChannelConfigFinished) SUPLA_SD_CALL_CHANNEL_CONFIG_FINISHED.

Definition srpc_sd_async_set_device_config_request :=
  send (SGuarded TSDS_SetDeviceConfig schar SUPLA_DEVICE_CONFIG_MAXSIZE ["ConfigSize"])
    SUPLA_SD_CALL_SET_DEVICE_CONFIG.

Definition srpc_ds_async_set_device_config_result :=
  send (SFixedChecked TSDS_SetDeviceConfigResult) SUPLA_DS_CALL_SET_DEVICE_CONFIG_RESULT.

Definition srpc_ds_async_set_device_config_request :=
  send (SGuarded TSDS_SetDeviceConfig schar SUPLA_DEVICE_CONFIG_MAXSIZE ["ConfigSize"])
    SUPLA_DS_CALL_SET_DEVICE_CONFIG.

Definition srpc_sd_async_set_device_config_result :=
  send (SFixedChecked TSDS_SetDeviceConfigResult) SUPLA_SD_CALL_SET_DEVICE_CONFIG_RESULT.

Definition srpc_ds_async_action_trigger :=
  send (SFixedChecked TDS_ActionTrigger) SUPLA_DS_CALL_ACTIONTRIGGER.

Definition srpc_ds_async_register_push_notification :=
  send (SFixedChecked TDS_RegisterPushNotification) SUPLA_DS_CALL_REGISTER_PUSH_NOTIFICATION.

Definition srpc_ds_async_send_push_notification (push : option bytes) : M world Z :=
  match push with
  | None => mret 0
  | Some push =>
      let! body := mopt (read_member TDS_PushNotification ["BodySize"] push) in
      if SUPLA_PN_BODY_MAXSIZE <? body then mret 0
      else
        let! title := mopt (read_member TDS_PushNotification ["TitleSize"] push) in
        if SUPLA_PN_TITLE_MAXSIZE <? title then mret 0
        else srpc_async_call SUPLA_DS_CALL_SEND_PUSH_NOTIFICATION (Some push)
               (u32 (sizeof TDS_PushNotification - SUPLA_PN_BODY_MAXSIZE
                     - SUPLA_PN_TITLE_MAXSIZE + body + title))
  end.

Definition srpc_ds_async_set_subdevice_details :=
  send (SFixedChecked TDS_SubdeviceDetails) SUPLA_DS_CALL_SET_SUBDEVICE_DETAILS.

End Async.
