(* ===== verification/SrpcAsyncClient.v ===== *)
(** * srpc.c: the calls of a client and a server

    One definition per [srpc_*_async_*] function of [src/src/supla-common/srpc.c] that
    SRPC_EXCLUDE_CLIENT leaves out, the senders of packs apart (see [SrpcPack]). *)
From S2P Require Import Prelude Platform Heap Lck CLayout ProtoConsts ProtoTypes Proto.
From S2P Require Import SrpcQueue Srpc SrpcCall SrpcAsync.

Section AsyncClient.
Context `{Platform} {params : TsrpcParams}.

Definition srpc_cs_async_registerclient :=
  send (SFixed TCS_SuplaRegisterClient) SUPLA_CS_CALL_REGISTER_CLIENT.

Definition srpc_cs_async_registerclient_b :=
  send (SFixed TCS_SuplaRegisterClient_B) SUPLA_CS_CALL_REGISTER_CLIENT_B.

Definition srpc_cs_async_registerclient_c :=
  send (SFixed TCS_SuplaRegisterClient_C) SUPLA_CS_CALL_REGISTER_CLIENT_C.

Definition srpc_cs_async_registerclient_d :=
  send (SFixed TCS_SuplaRegisterClient_D) SUPLA_CS_CALL_REGISTER_CLIENT_D.

Definition srpc_sc_async_registerclient_result :=
  send (SFixed TSC_SuplaRegisterClientResult) SUPLA_SC_CALL_REGISTER_CLIENT_RESULT.

Definition srpc_sc_async_registerclient_result_b :=
  send (SFixed TSC_SuplaRegisterClientResult_B) SUPLA_SC_CALL_REGISTER_CLIENT_RESULT_B.

Definition srpc_sc_async_registerclient_result_c :=
  send (SFixed TSC_SuplaRegisterClientResult_C) SUPLA_SC_CALL_REGISTER_CLIENT_RESULT_C.

Definition srpc_sc_async_registerclient_result_d :=
  send (SFixed TSC_SuplaRegisterClientResult_D) SUPLA_SC_CALL_REGISTER_CLIENT_RESULT_D.

Definition srpc_sc_async_location_update :=
  send (SSized TSC_SuplaLocation schar SUPLA_LOCATION_CAPTION_MAXSIZE ["CaptionSize"])
    SUPLA_SC_CALL_LOCATION_UPDATE.

Definition srpc_sc_async_channel_value_update :=
  send (SFixed TSC_SuplaChannelValue) SUPLA_SC_CALL_CHANNEL_VALUE_UPDATE.

Definition srpc_sc_async_channel_value_update_b :=
  send (SFixed TSC_SuplaChannelValue_B) SUPLA_SC_CALL_CHANNEL_VALUE_UPDATE_B.

Definition srpc_sc_async_channelgroup_relation_pack_update :=
  send (SCounted TSC_SuplaChannelGroupRelationPack TSC_SuplaChannelGroupRelation SUPLA_CHANNELGROUP_RELATION_PACK_MAXCOUNT ["count"])
    SUPLA_SC_CALL_CHANNELGROUP_RELATION_PACK_UPDATE.

Definition srpc_sc_async_channel_relation_pack_update :=
  send (SCounted TSC_SuplaChannelRelationPack TSC_SuplaChannelRelation SUPLA_CHANNEL_RELATION_PACK_MAXCOUNT ["count"])
    SUPLA_SC_CALL_CHANNEL_RELATION_PACK_UPDATE.

Definition srpc_sc_async_channelvalue_pack_update :=
  send (SCounted TSC_SuplaChannelValuePack TSC_SuplaChannelValue SUPLA_CHANNELVALUE_PACK_MAXCOUNT ["count"])
    SUPLA_SC_CALL_CHANNELVALUE_PACK_UPDATE.

Definition srpc_sc_async_channelvalue_pack_update_b :=
  send (SCounted TSC_SuplaChannelValuePack_B TSC_SuplaChannelValue_B SUPLA_CHANNELVALUE_PACK_MAXCOUNT ["count"])
    SUPLA_SC_CALL_CHANNELVALUE_PACK_UPDATE_B.

Definition srpc_sc_async_channelextendedvalue_pack_update (pack : option bytes) : M world Z :=
  match pack with
  | None => mret 0
  | Some pack =>
      let T := TSC_SuplaChannelExtendedValuePack in
      let! count := mopt (read_member T ["count"] pack) in
      if (count <? 1) || (SUPLA_CHANNELEXTENDEDVALUE_PACK_MAXCOUNT <? count) then mret 0
      else
        let! pack_size := mopt (read_member T ["pack_size"] pack) in
        if (pack_size <? 1) || (SUPLA_CHANNELEXTENDEDVALUE_PACK_MAXDATASIZE <? pack_size)
        then mret 0
        else srpc_async_call SUPLA_SC_CALL_CHANNELEXTENDEDVALUE_PACK_UPDATE (Some pack)
               (u32 (sizeof T - SUPLA_CHANNELEXTENDEDVALUE_PACK_MAXDATASIZE + pack_size))
  end.

Definition srpc_sc_async_channel_state_pack_update :=
  send (SCounted TSC_SuplaChannelStatePack TDSC_ChannelState SUPLA_CHANNEL_STATE_PACK_MAXCOUNT ["count"])
    SUPLA_SC_CALL_CHANNEL_STATE_PACK_UPDATE.

Definition srpc_cs_async_get_next :=
  send_none SUPLA_CS_CALL_GET_NEXT.

Definition srpc_sc_async_event :=
  send (SSized TSC_SuplaEvent schar SUPLA_SENDER_NAME_MAXSIZE ["SenderNameSize"])
    SUPLA_SC_CALL_EVENT.

Definition srpc_cs_async_set_channel_value :=
  send (SFixed TCS_SuplaChannelNewValue) SUPLA_CS_CALL_CHANNEL_SET_VALUE.

Definition srpc_cs_async_set_channel_value_b :=
  send (SFixed TCS_SuplaChannelNewValue_B) SUPLA_CS_CALL_CHANNEL_SET_VALUE_B.

Definition srpc_cs_async_set_value :=
  send (SFixed TCS_SuplaNewValue) SUPLA_CS_CALL_SET_VALUE.

Definition srpc_cs_async_oauth_token_request :=
  send_none SUPLA_CS_CALL_OAUTH_TOKEN_REQUEST.

Definition srpc_cs_async_oauth_token_request_result :=
  send (SGuarded TSC_OAuthTokenRequestResult schar SUPLA_OAUTH_TOKEN_MAXSIZE ["Token"; "TokenSize"])
    SUPLA_SC_CALL_OAUTH_TOKEN_REQUEST_RESULT.

Definition srpc_cs_async_superuser_authorization_request :=
  send (SFixed TCS_SuperUserAuthorizationRequest)
    SUPLA_CS_CALL_SUPERUSER_AUTHORIZATION_REQUEST.

Definition srpc_cs_async_get_superuser_authorization_result :=
  send_none SUPLA_CS_CALL_GET_SUPERUSER_AUTHORIZATION_RESULT.

Definition srpc_sc_async_superuser_authorization_result :=
  send (SFixed TSC_SuperUserAuthorizationResult)
    SUPLA_SC_CALL_SUPERUSER_AUTHORIZATION_RESULT.

Definition srpc_cs_async_device_calcfg_request :=
  send (SGuarded TCS_DeviceCalCfgRequest schar SUPLA_CALCFG_DATA_MAXSIZE ["DataSize"])
    SUPLA_CS_CALL_DEVICE_CALCFG_REQUEST.

Definition srpc_cs_async_device_calcfg_request_b :=
  send (SGuarded TCS_DeviceCalCfgRequest_B schar SUPLA_CALCFG_DATA_MAXSIZE ["DataSize"])
    SUPLA_CS_CALL_DEVICE_CALCFG_REQUEST_B.

Definition srpc_sc_async_device_calcfg_result :=
  send (SGuarded TSC_DeviceCalCfgResult schar SUPLA_CALCFG_DATA_MAXSIZE ["DataSize"])
    SUPLA_SC_CALL_DEVICE_CALCFG_RESULT.

Definition srpc_cs_async_get_channel_basic_cfg (ChannelID : Z) : M world Z :=
  let! request := mopt (local TCS_ChannelBasicCfgRequest [("ChannelID", le_split 4 ChannelID)]) in
  srpc_async_call SUPLA_CS_CALL_GET_CHANNEL_BASIC_CFG (Some request)
    (sizeof TCS_ChannelBasicCfgRequest).

Definition srpc_sc_async_channel_basic_cfg_result :=
  send (SSized TSC_ChannelBasicCfg schar SUPLA_CHANNEL_CAPTION_MAXSIZE ["CaptionSize"])
    SUPLA_SC_CALL_CHANNEL_BASIC_CFG_RESULT.

Definition srpc_cs_async_set_channel_function :=
  send (SFixed TCS_SetChannelFunction) SUPLA_CS_CALL_SET_CHANNEL_FUNCTION.

Definition srpc_sc_async_set_channel_function_result :=
  send (SFixed TSC_SetChannelFunctionResult) SUPLA_SC_CALL_SET_CHANNEL_FUNCTION_RESULT.

Definition srpc_cs_async_set_channel_group_caption :=
  srpc_dcs_async_set_caption SUPLA_CS_CALL_SET_CHANNEL_GROUP_CAPTION.

Definition srpc_sc_async_set_channel_group_caption_result :=
  srpc_sc_async_set_caption_result SUPLA_SC_CALL_SET_CHANNEL_GROUP_CAPTION_RESULT.

Definition srpc_cs_async_set_location_caption :=
  srpc_dcs_async_set_caption SUPLA_CS_CALL_SET_LOCATION_CAPTION.

Definition srpc_sc_async_set_location_caption_result :=
  srpc_sc_async_set_caption_result SUPLA_SC_CALL_SET_LOCATION_CAPTION_RESULT.

Definition srpc_cs_async_set_scene_caption :=
  srpc_dcs_async_set_caption SUPLA_CS_CALL_SET_SCENE_CAPTION.

Definition srpc_sc_async_set_scene_caption_result :=
  srpc_sc_async_set_caption_result SUPLA_SC_CALL_SET_SCENE_CAPTION_RESULT.

Definition srpc_cs_async_clients_reconnect_request :=
  send_none SUPLA_CS_CALL_CLIENTS_RECONNECT_REQUEST.

Definition srpc_sc_async_clients_reconnect_request_result :=
  send (SFixed TSC_ClientsReconnectRequestResult)
    SUPLA_SC_CALL_CLIENTS_RECONNECT_REQUEST_RESULT.

Definition srpc_cs_async_set_registration_enabled :=
  send (SFixed TCS_SetRegistrationEnabled) SUPLA_CS_CALL_SET_REGISTRATION_ENABLED.

Definition srpc_sc_async_set_registration_enabled_result :=
  send (SFixed TSC_SetRegistrationEnabledResult)
    SUPLA_SC_CALL_SET_REGISTRATION_ENABLED_RESULT.

Definition srpc_cs_async_device_reconnect_request :=
  send (SFixed TCS_DeviceReconnectRequest) SUPLA_CS_CALL_DEVICE_RECONNECT_REQUEST.

Definition srpc_sc_async_device_reconnect_request_result :=
  send (SFixed TSC_DeviceReconnectRequestResult)
    SUPLA_SC_CALL_DEVICE_RECONNECT_REQUEST_RESULT.

Definition srpc_cs_async_timer_arm :=
  send (SFixed TCS_TimerArmRequest) SUPLA_CS_CALL_TIMER_ARM.

Definition srpc_cs_async_execute_action :=
  send (SSizedChecked TCS_Action schar SUPLA_ACTION_PARAM_MAXSIZE ["ParamSize"])
    SUPLA_CS_CALL_EXECUTE_ACTION.

Definition srpc_cs_async_execute_action_with_auth :=
  send (SSizedChecked TCS_ActionWithAuth schar SUPLA_ACTION_PARAM_MAXSIZE ["Action"; "ParamSize"])
    SUPLA_CS_CALL_EXECUTE_ACTION_WITH_AUTH.

Definition srpc_sc_async_action_execution_result :=
  send (SFixedChecked TSC_ActionExecutionResult) SUPLA_SC_CALL_ACTION_EXECUTION_RESULT.

Definition srpc_cs_async_get_channel_value_with_auth :=
  send (SFixedChecked TCS_GetChannelValueWithAuth) SUPLA_CS_CALL_GET_CHANNEL_VALUE_WITH_AUTH.

Definition srpc_sc_async_get_channel_value_result :=
  send (SSizedChecked TSC_GetChannelValueResult schar SUPLA_CHANNELEXTENDEDVALUE_SIZE ["ExtendedValue"; "size"])
    SUPLA_SC_CALL_GET_CHANNEL_VALUE_RESULT.

Definition srpc_cs_async_register_pn_client_token :=
  send (SGuarded TCS_RegisterPnClientToken schar SUPLA_PN_CLIENT_TOKEN_MAXSIZE ["Token"; "TokenSize"])
    SUPLA_CS_CALL_REGISTER_PN_CLIENT_TOKEN.

Definition srpc_sc_async_register_pn_client_token_result :=
  send (SFixedChecked TSC_RegisterPnClientTokenResult)
    SUPLA_SC_CALL_REGISTER_PN_CLIENT_TOKEN_RESULT.

Definition srpc_cs_async_get_channel_config_request :=
  send (SFixedChecked TCS_GetChannelConfigRequest) SUPLA_CS_CALL_GET_CHANNEL_CONFIG.

Definition srpc_sc_async_channel_config_update_or_result :=
  send (SGuarded TSC_ChannelConfigUpdateOrResult schar SUPLA_CHANNEL_CONFIG_MAXSIZE ["Config"; "ConfigSize"])
    SUPLA_SC_CALL_CHANNEL_CONFIG_UPDATE_OR_RESULT.

Definition srpc_cs_async_set_channel_config_request :=
  send (SGuarded TSCS_ChannelConfig schar SUPLA_CHANNEL_CONFIG_MAXSIZE ["ConfigSize"])
    SUPLA_CS_CALL_SET_CHANNEL_CONFIG.

Definition srpc_cs_async_get_device_config_request :=
  send (SFixedChecked TCS_GetDeviceConfigRequest) SUPLA_CS_CALL_GET_DEVICE_CONFIG.

Definition srpc_sc_async_device_config_update_or_result :=
  send (SGuarded TSC_DeviceConfigUpdateOrResult schar SUPLA_DEVICE_CONFIG_MAXSIZE ["Config"; "ConfigSize"])
    SUPLA_SC_CALL_DEVICE_CONFIG_UPDATE_OR_RESULT.

End AsyncClient.
