(* ===== verification/SrpcAsyncProps.v ===== *)
(** * srpc.c: what is sent is what is received

    The senders of [SrpcAsync] and [SrpcAsyncClient] against [srpc_getdata]: every sender
    has the case of the switch that takes its packet, and the object that comes out is
    the object that went in. *)
From S2P Require Import Prelude Platform Heap Lck CLayout ProtoConsts ProtoTypes Proto ProtoFacts.
From S2P Require Import ProtoProps SrpcQueue Srpc SrpcCall SrpcFacts SrpcProps SrpcPack SrpcPackFacts.
From S2P Require Import SrpcGetData SrpcGetDataFacts SrpcGetDataProps SrpcAsync SrpcAsyncClient.

(** ** The senders *)

Section Tables.
Context `{Platform} {params : TsrpcParams}.

Definition senders_common : list ((option bytes -> M world Z) * Z * sender) :=
  [(srpc_dcs_async_set_activity_timeout, SUPLA_DCS_CALL_SET_ACTIVITY_TIMEOUT,
      SFixed TDCS_SuplaSetActivityTimeout);
   (srpc_dcs_async_set_activity_timeout_result, SUPLA_SDC_CALL_SET_ACTIVITY_TIMEOUT_RESULT,
      SFixed TSDC_SuplaSetActivityTimeoutResult);
   (srpc_sdc_async_get_registration_enabled_result, SUPLA_SDC_CALL_GET_REGISTRATION_ENABLED_RESULT,
      SFixed TSDC_RegistrationEnabled);
   (srpc_sdc_async_get_user_localtime_result, SUPLA_DCS_CALL_GET_USER_LOCALTIME_RESULT,
      SGuarded TSDC_UserLocalTimeResult schar SUPLA_TIMEZONE_MAXSIZE ["timezoneSize"]);
   (srpc_csd_async_get_channel_state, SUPLA_CSD_CALL_GET_CHANNEL_STATE,
      SFixed TCSD_ChannelStateRequest);
   (srpc_csd_async_channel_state_result, SUPLA_DSC_CALL_CHANNEL_STATE_RESULT,
      SFixed TDSC_ChannelState);
   (srpc_dcs_async_set_channel_caption, SUPLA_DCS_CALL_SET_CHANNEL_CAPTION,
      SSized TDCS_SetCaption schar SUPLA_CAPTION_MAXSIZE ["CaptionSize"]);
   (srpc_scd_async_set_channel_caption_result, SUPLA_SCD_CALL_SET_CHANNEL_CAPTION_RESULT,
      SSized TSCD_SetCaptionResult schar SUPLA_CAPTION_MAXSIZE ["CaptionSize"])].

Definition senders_device : list ((option bytes -> M world Z) * Z * sender) :=
  [(srpc_sd_async_get_firmware_update_url, SUPLA_DS_CALL_GET_FIRMWARE_UPDATE_URL,
      SFixed TDS_FirmwareUpdateParams);
   (srpc_ds_async_registerdevice, SUPLA_DS_CALL_REGISTER_DEVICE,
      SSized TDS_SuplaRegisterDevice TDS_SuplaDeviceChannel SUPLA_CHANNELMAXCOUNT ["channel_count"]);
   (srpc_ds_async_registerdevice_b, SUPLA_DS_CALL_REGISTER_DEVICE_B,
      SSized TDS_SuplaRegisterDevice_B TDS_SuplaDeviceChannel_B SUPLA_CHANNELMAXCOUNT ["channel_count"]);
   (srpc_ds_async_registerdevice_c, SUPLA_DS_CALL_REGISTER_DEVICE_C,
      SSized TDS_SuplaRegisterDevice_C TDS_SuplaDeviceChannel_B SUPLA_CHANNELMAXCOUNT ["channel_count"]);
   (srpc_ds_async_registerdevice_d, SUPLA_DS_CALL_REGISTER_DEVICE_D,
      SSized TDS_SuplaRegisterDevice_D TDS_SuplaDeviceChannel_B SUPLA_CHANNELMAXCOUNT ["channel_count"]);
   (srpc_ds_async_registerdevice_e, SUPLA_DS_CALL_REGISTER_DEVICE_E,
      SSized TDS_SuplaRegisterDevice_E TDS_SuplaDeviceChannel_C SUPLA_CHANNELMAXCOUNT ["channel_count"]);
   (srpc_ds_async_registerdevice_f, SUPLA_DS_CALL_REGISTER_DEVICE_F,
      SSized TDS_SuplaRegisterDevice_F TDS_SuplaDeviceChannel_D SUPLA_CHANNELMAXCOUNT ["channel_count"]);
   (srpc_ds_async_registerdevice_g, SUPLA_DS_CALL_REGISTER_DEVICE_G,
      SSized TDS_SuplaRegisterDevice_G TDS_SuplaDeviceChannel_E SUPLA_CHANNELMAXCOUNT ["channel_count"]);
   (srpc_sd_async_registerdevice_result, SUPLA_SD_CALL_REGISTER_DEVICE_RESULT,
      SFixed TSD_SuplaRegisterDeviceResult);
   (srpc_sd_async_registerdevice_result_b, SUPLA_SD_CALL_REGISTER_DEVICE_RESULT_B,
      SGuarded TSD_SuplaRegisterDeviceResult_B uchar CHANNEL_REPORT_MAXSIZE ["channel_report_size"]);
   (srpc_sd_async_set_channel_value, SUPLA_SD_CALL_CHANNEL_SET_VALUE,
      SFixed TSD_SuplaChannelNewValue);
   (srpc_sd_async_set_channelgroup_value, SUPLA_SD_CALL_CHANNELGROUP_SET_VALUE,
      SFixed TSD_SuplaChannelGroupNewValue);
   (srpc_sd_async_device_calcfg_request, SUPLA_SD_CALL_DEVICE_CALCFG_REQUEST,
      SGuarded TSD_DeviceCalCfgRequest schar SUPLA_CALCFG_DATA_MAXSIZE ["DataSize"]);
   (srpc_ds_async_device_calcfg_result, SUPLA_DS_CALL_DEVICE_CALCFG_RESULT,
      SGuarded TDS_DeviceCalCfgResult schar SUPLA_CALCFG_DATA_MAXSIZE ["DataSize"]);
   (srpc_ds_async_get_channel_config_request, SUPLA_DS_CALL_GET_CHANNEL_CONFIG,
      SFixedChecked TDS_GetChannelConfigRequest);
   (srpc_sd_async_get_channel_config_result, SUPLA_SD_CALL_GET_CHANNEL_CONFIG_RESULT,
      SGuarded TSD_ChannelConfig schar SUPLA_CHANNEL_CONFIG_MAXSIZE ["ConfigSize"]);
   (srpc_sd_async_set_channel_config_request, SUPLA_SD_CALL_SET_CHANNEL_CONFIG,
      SGuarded TSDS_SetChannelConfig schar SUPLA_CHANNEL_CONFIG_MAXSIZE ["ConfigSize"]);
   (srpc_ds_async_set_channel_config_result, SUPLA_DS_CALL_SET_CHANNEL_CONFIG_RESULT,
      SFixedChecked TSDS_SetChannelConfigResult);
   (srpc_ds_async_set_channel_config_request, SUPLA_DS_CALL_SET_CHANNEL_CONFIG,
      SGuarded TSDS_SetChannelConfig schar SUPLA_CHANNEL_CONFIG_MAXSIZE ["ConfigSize"]);
   (srpc_sd_async_set_channel_config_result, SUPLA_SD_CALL_SET_CHANNEL_CONFIG_RESULT,
      SFixedChecked TSDS_SetChannelConfigResult);
   (srpc_sd_async_channel_config_finished, SUPLA_SD_CALL_CHANNEL_CONFIG_FINISHED,
      SFixedChecked TSD_ChannelConfigFinished);
   (srpc_sd_async_set_device_config_request, SUPLA_SD_CALL_SET_DEVICE_CONFIG,
      SGuarded TSDS_SetDeviceConfig schar SUPLA_DEVICE_CONFIG_MAXSIZE ["ConfigSize"]);
   (srpc_ds_async_set_device_config_result, SUPLA_DS_CALL_SET_DEVICE_CONFIG_RESULT,
      SFixedChecked TSDS_SetDeviceConfigResult);
   (srpc_ds_async_set_device_config_request, SUPLA_DS_CALL_SET_DEVICE_CONFIG,
      SGuarded TSDS_SetDeviceConfig schar SUPLA_DEVICE_CONFIG_MAXSIZE ["ConfigSize"]);
   (srpc_sd_async_set_device_config_result, SUPLA_SD_CALL_SET_DEVICE_CONFIG_RESULT,
      SFixedChecked TSDS_SetDeviceConfigResult);
   (srpc_ds_async_action_trigger, SUPLA_DS_CALL_ACTIONTRIGGER,
      SFixedChecked TDS_ActionTrigger);
   (srpc_ds_async_register_push_notification, SUPLA_DS_CALL_REGISTER_PUSH_NOTIFICATION,
      SFixedChecked TDS_RegisterPushNotification);
   (srpc_ds_async_set_subdevice_details, SUPLA_DS_CALL_SET_SUBDEVICE_DETAILS,
      SFixedChecked TDS_SubdeviceDetails)].

Definition senders_client : list ((option bytes -> M world Z) * Z * sender) :=
  [(srpc_cs_async_registerclient, SUPLA_CS_CALL_REGISTER_CLIENT,
      SFixed TCS_SuplaRegisterClient);
   (srpc_cs_async_registerclient_b, SUPLA_CS_CALL_REGISTER_CLIENT_B,
      SFixed TCS_SuplaRegisterClient_B);
   (srpc_cs_async_registerclient_c, SUPLA_CS_CALL_REGISTER_CLIENT_C,
      SFixed TCS_SuplaRegisterClient_C);
   (srpc_cs_async_registerclient_d, SUPLA_CS_CALL_REGISTER_CLIENT_D,
      SFixed TCS_SuplaRegisterClient_D);
   (srpc_sc_async_registerclient_result, SUPLA_SC_CALL_REGISTER_CLIENT_RESULT,
      SFixed TSC_SuplaRegisterClientResult);
   (srpc_sc_async_registerclient_result_b, SUPLA_SC_CALL_REGISTER_CLIENT_RESULT_B,
      SFixed TSC_SuplaRegisterClientResult_B);
   (srpc_sc_async_registerclient_result_c, SUPLA_SC_CALL_REGISTER_CLIENT_RESULT_C,
      SFixed TSC_SuplaRegisterClientResult_C);
   (srpc_sc_async_registerclient_result_d, SUPLA_SC_CALL_REGISTER_CLIENT_RESULT_D,
      SFixed TSC_SuplaRegisterClientResult_D);
   (srpc_sc_async_location_update, SUPLA_SC_CALL_LOCATION_UPDATE,
      SSized TSC_SuplaLocation schar SUPLA_LOCATION_CAPTION_MAXSIZE ["CaptionSize"]);
   (srpc_sc_async_channel_value_update, SUPLA_SC_CALL_CHANNEL_VALUE_UPDATE,
      SFixed TSC_SuplaChannelValue);
   (srpc_sc_async_channel_value_update_b, SUPLA_SC_CALL_CHANNEL_VALUE_UPDATE_B,
      SFixed TSC_SuplaChannelValue_B);
   (srpc_sc_async_channelgroup_relation_pack_update, SUPLA_SC_CALL_CHANNELGROUP_RELATION_PACK_UPDATE,
      SCounted TSC_SuplaChannelGroupRelationPack TSC_SuplaChannelGroupRelation SUPLA_CHANNELGROUP_RELATION_PACK_MAXCOUNT ["count"]);
   (srpc_sc_async_channel_relation_pack_update, SUPLA_SC_CALL_CHANNEL_RELATION_PACK_UPDATE,
      SCounted TSC_SuplaChannelRelationPack TSC_SuplaChannelRelation SUPLA_CHANNEL_RELATION_PACK_MAXCOUNT ["count"]);
   (srpc_sc_async_channelvalue_pack_update, SUPLA_SC_CALL_CHANNELVALUE_PACK_UPDATE,
      SCounted TSC_SuplaChannelValuePack TSC_SuplaChannelValue SUPLA_CHANNELVALUE_PACK_MAXCOUNT ["count"]);
   (srpc_sc_async_channelvalue_pack_update_b, SUPLA_SC_CALL_CHANNELVALUE_PACK_UPDATE_B,
      SCounted TSC_SuplaChannelValuePack_B TSC_SuplaChannelValue_B SUPLA_CHANNELVALUE_PACK_MAXCOUNT ["count"]);
   (srpc_sc_async_channel_state_pack_update, SUPLA_SC_CALL_CHANNEL_STATE_PACK_UPDATE,
      SCounted TSC_SuplaChannelStatePack TDSC_ChannelState SUPLA_CHANNEL_STATE_PACK_MAXCOUNT ["count"]);
   (srpc_sc_async_event, SUPLA_SC_CALL_EVENT,
      SSized TSC_SuplaEvent schar SUPLA_SENDER_NAME_MAXSIZE ["SenderNameSize"]);
   (srpc_cs_async_set_channel_value, SUPLA_CS_CALL_CHANNEL_SET_VALUE,
      SFixed TCS_SuplaChannelNewValue);
   (srpc_cs_async_set_channel_value_b, SUPLA_CS_CALL_CHANNEL_SET_VALUE_B,
      SFixed TCS_SuplaChannelNewValue_B);
   (srpc_cs_async_set_value, SUPLA_CS_CALL_SET_VALUE,
      SFixed TCS_SuplaNewValue);
   (srpc_cs_async_oauth_token_request_result, SUPLA_SC_CALL_OAUTH_TOKEN_REQUEST_RESULT,
      SGuarded TSC_OAuthTokenRequestResult schar SUPLA_OAUTH_TOKEN_MAXSIZE ["Token"; "TokenSize"]);
   (srpc_cs_async_superuser_authorization_request, SUPLA_CS_CALL_SUPERUSER_AUTHORIZATION_REQUEST,
      SFixed TCS_SuperUserAuthorizationRequest);
   (srpc_sc_async_superuser_authorization_result, SUPLA_SC_CALL_SUPERUSER_AUTHORIZATION_RESULT,
      SFixed TSC_SuperUserAuthorizationResult);
   (srpc_cs_async_device_calcfg_request, SUPLA_CS_CALL_DEVICE_CALCFG_REQUEST,
      SGuarded TCS_DeviceCalCfgRequest schar SUPLA_CALCFG_DATA_MAXSIZE ["DataSize"]);
   (srpc_cs_async_device_calcfg_request_b, SUPLA_CS_CALL_DEVICE_CALCFG_REQUEST_B,
      SGuarded TCS_DeviceCalCfgRequest_B schar SUPLA_CALCFG_DATA_MAXSIZE ["DataSize"]);
   (srpc_sc_async_device_calcfg_result, SUPLA_SC_CALL_DEVICE_CALCFG_RESULT,
      SGuarded TSC_DeviceCalCfgResult schar SUPLA_CALCFG_DATA_MAXSIZE ["DataSize"]);
   (srpc_sc_async_channel_basic_cfg_result, SUPLA_SC_CALL_CHANNEL_BASIC_CFG_RESULT,
      SSized TSC_ChannelBasicCfg schar SUPLA_CHANNEL_CAPTION_MAXSIZE ["CaptionSize"]);
   (srpc_cs_async_set_channel_function, SUPLA_CS_CALL_SET_CHANNEL_FUNCTION,
      SFixed TCS_SetChannelFunction);
   (srpc_sc_async_set_channel_function_result, SUPLA_SC_CALL_SET_CHANNEL_FUNCTION_RESULT,
      SFixed TSC_SetChannelFunctionResult);
   (srpc_cs_async_set_channel_group_caption, SUPLA_CS_CALL_SET_CHANNEL_GROUP_CAPTION,
      SSized TDCS_SetCaption schar SUPLA_CAPTION_MAXSIZE ["CaptionSize"]);
   (srpc_sc_async_set_channel_group_caption_result, SUPLA_SC_CALL_SET_CHANNEL_GROUP_CAPTION_RESULT,
      SSized TSCD_SetCaptionResult schar SUPLA_CAPTION_MAXSIZE ["CaptionSize"]);
   (srpc_cs_async_set_location_caption, SUPLA_CS_CALL_SET_LOCATION_CAPTION,
      SSized TDCS_SetCaption schar SUPLA_CAPTION_MAXSIZE ["CaptionSize"]);
   (srpc_sc_async_set_location_caption_result, SUPLA_SC_CALL_SET_LOCATION_CAPTION_RESULT,
      SSized TSCD_SetCaptionResult schar SUPLA_CAPTION_MAXSIZE ["CaptionSize"]);
   (srpc_cs_async_set_scene_caption, SUPLA_CS_CALL_SET_SCENE_CAPTION,
      SSized TDCS_SetCaption schar SUPLA_CAPTION_MAXSIZE ["CaptionSize"]);
   (srpc_sc_async_set_scene_caption_result, SUPLA_SC_CALL_SET_SCENE_CAPTION_RESULT,
      SSized TSCD_SetCaptionResult schar SUPLA_CAPTION_MAXSIZE ["CaptionSize"]);
   (srpc_sc_async_clients_reconnect_request_result, SUPLA_SC_CALL_CLIENTS_RECONNECT_REQUEST_RESULT,
      SFixed TSC_ClientsReconnectRequestResult);
   (srpc_cs_async_set_registration_enabled, SUPLA_CS_CALL_SET_REGISTRATION_ENABLED,
      SFixed TCS_SetRegistrationEnabled);
   (srpc_sc_async_set_registration_enabled_result, SUPLA_SC_CALL_SET_REGISTRATION_ENABLED_RESULT,
      SFixed TSC_SetRegistrationEnabledResult);
   (srpc_cs_async_device_reconnect_request, SUPLA_CS_CALL_DEVICE_RECONNECT_REQUEST,
      SFixed TCS_DeviceReconnectRequest);
   (srpc_sc_async_device_reconnect_request_result, SUPLA_SC_CALL_DEVICE_RECONNECT_REQUEST_RESULT,
      SFixed TSC_DeviceReconnectRequestResult);
   (srpc_cs_async_timer_arm, SUPLA_CS_CALL_TIMER_ARM,
      SFixed TCS_TimerArmRequest);
   (srpc_cs_async_execute_action, SUPLA_CS_CALL_EXECUTE_ACTION,
      SSizedChecked TCS_Action schar SUPLA_ACTION_PARAM_MAXSIZE ["ParamSize"]);
   (srpc_cs_async_execute_action_with_auth, SUPLA_CS_CALL_EXECUTE_ACTION_WITH_AUTH,
      SSizedChecked TCS_ActionWithAuth schar SUPLA_ACTION_PARAM_MAXSIZE ["Action"; "ParamSize"]);
   (srpc_sc_async_action_execution_result, SUPLA_SC_CALL_ACTION_EXECUTION_RESULT,
      SFixedChecked TSC_ActionExecutionResult);
   (srpc_cs_async_get_channel_value_with_auth, SUPLA_CS_CALL_GET_CHANNEL_VALUE_WITH_AUTH,
      SFixedChecked TCS_GetChannelValueWithAuth);
   (srpc_sc_async_get_channel_value_result, SUPLA_SC_CALL_GET_CHANNEL_VALUE_RESULT,
      SSizedChecked TSC_GetChannelValueResult schar SUPLA_CHANNELEXTENDEDVALUE_SIZE ["ExtendedValue"; "size"]);
   (srpc_cs_async_register_pn_client_token, SUPLA_CS_CALL_REGISTER_PN_CLIENT_TOKEN,
      SGuarded TCS_RegisterPnClientToken schar SUPLA_PN_CLIENT_TOKEN_MAXSIZE ["Token"; "TokenSize"]);
   (srpc_sc_async_register_pn_client_token_result, SUPLA_SC_CALL_REGISTER_PN_CLIENT_TOKEN_RESULT,
      SFixedChecked TSC_RegisterPnClientTokenResult);
   (srpc_cs_async_get_channel_config_request, SUPLA_CS_CALL_GET_CHANNEL_CONFIG,
      SFixedChecked TCS_GetChannelConfigRequest);
   (srpc_sc_async_channel_config_update_or_result, SUPLA_SC_CALL_CHANNEL_CONFIG_UPDATE_OR_RESULT,
      SGuarded TSC_ChannelConfigUpdateOrResult schar SUPLA_CHANNEL_CONFIG_MAXSIZE ["Config"; "ConfigSize"]);
   (srpc_cs_async_set_channel_config_request, SUPLA_CS_CALL_SET_CHANNEL_CONFIG,
      SGuarded TSCS_ChannelConfig schar SUPLA_CHANNEL_CONFIG_MAXSIZE ["ConfigSize"]);
   (srpc_cs_async_get_device_config_request, SUPLA_CS_CALL_GET_DEVICE_CONFIG,
      SFixedChecked TCS_GetDeviceConfigRequest);
   (srpc_sc_async_device_config_update_or_result, SUPLA_SC_CALL_DEVICE_CONFIG_UPDATE_OR_RESULT,
      SGuarded TSC_DeviceConfigUpdateOrResult schar SUPLA_DEVICE_CONFIG_MAXSIZE ["Config"; "ConfigSize"])].

Definition senders_without_data : list (M world Z * Z) :=
  [(srpc_dcs_async_getversion, SUPLA_DCS_CALL_GETVERSION);
   (srpc_dcs_async_get_registration_enabled, SUPLA_DCS_CALL_GET_REGISTRATION_ENABLED);
   (srpc_dcs_async_get_user_localtime, SUPLA_DCS_CALL_GET_USER_LOCALTIME);
   (srpc_ds_async_get_channel_functions, SUPLA_DS_CALL_GET_CHANNEL_FUNCTIONS);
   (srpc_cs_async_get_next, SUPLA_CS_CALL_GET_NEXT);
   (srpc_cs_async_oauth_token_request, SUPLA_CS_CALL_OAUTH_TOKEN_REQUEST);
   (srpc_cs_async_get_superuser_authorization_result, SUPLA_CS_CALL_GET_SUPERUSER_AUTHORIZATION_RESULT);
   (srpc_cs_async_clients_reconnect_request, SUPLA_CS_CALL_CLIENTS_RECONNECT_REQUEST)].

End Tables.

(** The case of the switch that takes what a sender sends. *)
Definition receives (s : sender) (r : option rule) : Prop :=
  match s with
  | SFixed t | SFixedChecked t => exists a, r = Some (Exact a t)
  | SGuarded t item max path | SSized t item max path | SSizedChecked t item max path
  | SCounted t item max path =>
      exists a item', r = Some (Valid a t item' [path] max) /\ sizeof item' = sizeof item
  end.

(** The type of the object. *)
Definition object_type (s : sender) : ctype :=
  match s with
  | SFixed t | SFixedChecked t | SGuarded t _ _ _ | SSized t _ _ _ | SSizedChecked t _ _ _
  | SCounted t _ _ _ => t
  end.


(** ** The objects *)

Section RoundTrip.
Context `{PL : PlatformLaws} {RO : RulesOk P} {params : TsrpcParams} `{CL : !ParamsLaws params}.

(** The part of the object [d] that is sent: all of it, or the fixed part and the items
    its count announces. *)
Definition used_size (s : sender) (d : bytes) : option Z :=
  match s with
  | SFixed t | SFixedChecked t => Some (sizeof t)
  | SGuarded t item max path | SSized t item max path | SSizedChecked t item max path
  | SCounted t item max path =>
      match read_member t path d with
      | Some f => if (0 <=? f) && (f <=? max)
                  then Some (sizeof t - sizeof item * max + sizeof item * f) else None
      | None => None
      end
  end.

(** A sender of packs sends no empty pack. *)
Definition not_empty (s : sender) (d : bytes) : Prop :=
  match s with SCounted t _ _ path => read_member t path d <> Some 0 | _ => True end.

(** A member within a common prefix is the same. *)
Lemma read_member_prefix main n m path b c :
  count_ok main n path = true -> n <= m -> m <= Zlen b -> m <= Zlen c ->
  take (Z.to_nat m) b = take (Z.to_nat m) c -> read_member main path b = read_member main path c.
Proof.
  unfold count_ok, read_member. destruct (member main path) as [[o t]|]; [|done].
  destruct t as [sg w| | | |]; try done. intros Hok Hn Hb Hc E. bools. cbn [sizeof].
  rewrite !peek_Some by lia.
  assert (Hp : forall l : bytes, m <= Zlen l -> take (Z.to_nat w) (drop (Z.to_nat o) l)
    = take (Z.to_nat w) (drop (Z.to_nat o) (take (Z.to_nat m) l))).
  { intros l Hl. rewrite <-(take_drop (Z.to_nat m) l) at 1.
    rewrite drop_app_le, take_app_le
      by (rewrite ?length_drop, length_take; unfold Zlen in *; lia). done. }
  by rewrite (Hp b), (Hp c), E by done.
Qed.

(** The size expressions do not wrap on a count within its bounds. *)
Lemma var_size_exact a t item max path f :
  rule_ok (Valid a t item [path] max) = true -> 0 <= f <= max ->
  var_size t item max path f = sizeof t - sizeof item * max + sizeof item * f /\
  0 <= sizeof t - sizeof item * max + sizeof item * f <= sizeof t /\
  sizeof t < 2 ^ size_t_bits /\ sizeof t < 2 ^ 31.
Proof.
  cbn [rule_ok]. intros Hok Hf. bools. set (n := _ + sizeof item * f).
  assert (Hn : 0 <= n <= sizeof t) by (unfold n; nia). split_and!; [|lia|lia|lia|lia].
  unfold var_size. apply uN_small. platform.
  assert (2 ^ size_t_bits <= 2 ^ Z.max size_t_bits
    (match member t path with Some (_, c) => 8 * sizeof c | None => 0 end))
    by (apply Z.pow_le_mono_r; lia).
  lia.
Qed.

(** The receiver's check accepts what was cut at its count. *)
Lemma VALID_SIZE_sent a t item max path f sdp :
  rule_ok (Valid a t item [path] max) = true -> 0 <= f <= max ->
  read_member t path (sdp_data sdp) = Some f ->
  sdp_data_size sdp = sizeof t - sizeof item * max + sizeof item * f ->
  VALID_SIZE t item [path] max sdp = Some true.
Proof.
  intros Hok Hf Hr Hds. destruct (var_size_exact a t item max path f Hok Hf) as (_ & Hn & Ht & _).
  cbn [rule_ok] in Hok. bools. unfold VALID_SIZE, valid_header. platform.
  rewrite (uN_small size_t_bits (_ - _)), Hds by nia.
  rewrite !(proj2 (Z.leb_le _ _)) by nia. cbn [andb count_value]. rewrite Hr.
  assert (Hp : 0 <= (f + 0) * sizeof item < 2 ^ size_t_bits) by nia.
  unfold count_product. destruct ((size_t_bits <? 32) && wide_count t [path]) eqn:Ew.
  - bools. assert (2 ^ size_t_bits <= 2 ^ 31) by (apply Z.pow_le_mono_r; lia).
    rewrite !(proj2 (Z.leb_le _ _)), !(proj2 (Z.ltb_lt _ _)) by lia. cbn [andb negb].
    rewrite andb_false_r, uN_small by lia. f_equal. apply Z.eqb_eq. lia.
  - rewrite uN_small by lia. f_equal. apply Z.eqb_eq. lia.
Qed.

(** What a sender does with an object whose count is within its bounds. *)
Lemma send_used s call d n rl w :
  receives s (Some rl) -> rule_ok rl = true -> used_size s d = Some n -> not_empty s d ->
  0 <= n <= sizeof (object_type s) /\ n < 2 ^ 31 /\
  send s call (Some d) w = srpc_async_call call (Some d) n w.
Proof.
  intros Hr Hok Hu Hne. platform.
  destruct s as [t|t|t item max path|t item max path|t item max path|t item max path];
    cbn [receives used_size object_type not_empty] in *.
  1,2: destruct Hr as (a & [= ->]); injection Hu as <-; cbn [rule_ok] in Hok; bools;
    split_and!; [lia|lia|lia|done].
  all: destruct Hr as (a & item' & [= ->] & Hi);
    destruct (read_member t path d) as [f|] eqn:Ef; [|done];
    destruct ((0 <=? f) && (f <=? max)) eqn:Eg; [|done]; bools;
    destruct (var_size_exact a t item' max path f Hok) as (Hv & Hn & Ht & Ht'); [lia|];
    unfold var_size in Hv; rewrite Hi in *; injection Hu as <-;
    (split_and!; [lia|lia|lia|]); cbn [send]; unfold send_sized, exceeds, var_size;
    unfold mbnd at 1, mopt at 1; rewrite Ef, ?Hv.
  - rewrite (proj2 (Z.ltb_ge _ _)) by lia. by rewrite uN_small by lia.
  - rewrite sN_small by lia. rewrite (uN_small size_t_bits), (uN_small 32) by lia.
    rewrite (proj2 (Z.ltb_ge (sizeof t) _)) by lia. by destruct (size_t_bits <? 32).
  - rewrite sN_small by lia. rewrite (uN_small size_t_bits), (uN_small 32) by lia.
    rewrite (proj2 (Z.ltb_ge (sizeof t) _)) by lia. by destruct (size_t_bits <? 32).
  - assert (f <> 0) by congruence. rewrite !(proj2 (Z.ltb_ge _ _)) by lia.
    by rewrite uN_small by lia.
Qed.

(** Why a call with [n] bytes of data is not sent. *)
Definition call_refused (call n : Z) (w : world) : Prop :=
  version_of w < srpc_call_min_version_required call \/ SUPLA_MAX_DATA_SIZE < n \/ queue_refuses w.

(** A call of an engine without the two notification callbacks. *)
Lemma wp_plain_call call d n w :
  world_ok w -> 0 <= call < 2 ^ 32 -> 0 <= n < 2 ^ 31 -> n <= Zlen d ->
  before_async_call = None -> on_min_version_required = None ->
  wp (srpc_async_call call (Some d) n) (fun r w' => keeps w w' /\
    ((r = SUPLA_RESULT_FALSE /\ sent w' = sent w /\ call_refused call n w) \/
     exists p, sendable p /\ sdp_call_id p = call /\ sdp_data_size p = n /\
       take (Z.to_nat n) (sdp_data p) = take (Z.to_nat n) d /\ r = to_int (sdp_rr_id p) /\
       (never_refuses (w_heap w) -> sent w' = sent w ++ wire p))) w.
Proof.
  intros Hok Hc Hn Hd Hb Hm.
  eapply wp_mono; [apply (wp_async_call call (Some d) n None); [done|done|lia|cbn; lia|done]|].
  intros r w' (Hk & Hout & _). split; [done|]. unfold async_outcome in Hout. destruct (negb _) eqn:Ev.
  - destruct Hout as [-> Hw]. left. rewrite Hw by done. bools. split_and!; [done|done|by left].
  - destruct Hout as (w1 & _ & Hw1 & Hout). rewrite (Hw1 Hb) in Hout.
    destruct Hout as [(-> & ? & Hwhy)|(p & Hp & Hcall & Hsz & Hv & Hdata & Hrr & -> & Hs)].
    { left. split_and!; [done|done|]. right. destruct Hwhy as [?|[[_ ?]|?]]; [by left|done|by right]. }
    right. exists p. split_and!; try done; [|by rewrite Hrr].
    apply packet_sendable; [done|]. rewrite Hv. cbn. by apply version_of_range.
Qed.

(** The receiver accepts the packet and hands over the object. *)
Lemma received_object s rl d n p sdp0 :
  receives s (Some rl) -> rule_ok rl = true -> used_size s d = Some n ->
  Zlen d = sizeof (object_type s) -> n <= sizeof (object_type s) ->
  sendable p -> sdp_data_size p = n -> take (Z.to_nat n) (sdp_data p) = take (Z.to_nat n) d ->
  Zlen (sdp_data sdp0) = SUPLA_MAX_DATA_SIZE ->
  accepted rl (received p sdp0) = true /\
  forall q, object_is rl (received p sdp0) q ->
    exists b, q = PLive b /\ Zlen b = Zlen d /\ take (Z.to_nat n) b = take (Z.to_nat n) d.
Proof.
  intros Hr Hok Hu Hd Hle [Hwf _ Hmax] Hsz Hpre H0. pose proof (wf_data_size _ Hwf).
  pose proof (wf_data _ Hwf) as Hl. set (q := received p sdp0).
  assert (Hq : take (Z.to_nat n) (sdp_data q) = take (Z.to_nat n) d /\ n <= Zlen (sdp_data q)).
  { unfold q, received. cbn [sdp_data]. rewrite Hsz. split; [|zlen].
    rewrite take_app_le by (rewrite length_take; unfold Zlen in *; lia). by rewrite take_take, Nat.min_id. }
  destruct Hq as [Hq Hql].
  assert (Hds : sdp_data_size q = n) by done.
  assert (Hobj : forall a t, sizeof t = Zlen d -> forall p', holds a t q p' -> exists b, p' = PLive b /\
    Zlen b = Zlen d /\ take (Z.to_nat n) b = take (Z.to_nat n) d).
  { intros a t Ht p' (b & -> & Hb & Htk & _). exists b. rewrite Hds, Hq in Htk. split_and!; congruence. }
  destruct s as [t|t|t item max path|t item max path|t item max path|t item max path];
    cbn [receives used_size object_type] in *.
  1,2: destruct Hr as (a & [= ->]); injection Hu as Hu; cbn [accepted object_is];
    (split; [rewrite Hds, Hu; apply Z.eqb_refl|by apply Hobj]).
  all: destruct Hr as (a & item' & [= ->] & Hi);
    destruct (read_member t path d) as [f|] eqn:Ef; [|done];
    destruct ((0 <=? f) && (f <=? max)) eqn:Eg; [|done]; bools; injection Hu as Hu;
    cbn [accepted object_is]; (split; [|by apply Hobj]);
    rewrite (VALID_SIZE_sent a t item' max path f); [done|done|lia| |rewrite Hi; lia];
    rewrite <-Ef; cbn [rule_ok forallb] in Hok; bools;
    eapply (read_member_prefix t _ n); [eassumption|nia|lia|lia|done].
Qed.


End RoundTrip.

(** ** The shape of the data on different builds *)

(** The fixed part of the data and the size of an item: what two builds must agree on. *)
Definition wire_shape `{Platform} (r : rule) : option (Z * Z) :=
  match r with
  | NoBody => Some (0, 0)
  | Exact _ t => Some (sizeof t, 0)
  | Valid _ main item _ max => Some (sizeof main - sizeof item * max, sizeof item)
  | Pack k => Some (header_len k, item_header_len k)
  | PingServer => Some (sizeof TDCS_SuplaPingServer, 0)
  | FirmwareUrl => Some (sizeof TSD_FirmwareUpdate_UrlResult, 0)
  end.

Definition shapes (P : Platform) : list (Z * option (Z * Z)) :=
  map (fun c => (c.1, wire_shape c.2)) getdata_cases.

(** Every case of the first build is a case of the second with the same shape. *)
Definition agrees (P Q : Platform) : bool :=
  forallb (fun c => bool_decide (find (fun d => d.1 =? c.1) (shapes Q) = Some c)) (shapes P).


(** ** Witnesses *)


(** A configuration request with three bytes of data. *)
Definition calcfg_sender : sender :=
  SGuarded (@TSD_DeviceCalCfgRequest generic64) schar SUPLA_CALCFG_DATA_MAXSIZE ["DataSize"].
Definition calcfg_request : bytes := zeros 17 ++ le_split 4 3 ++ [Byte.x01; Byte.x02; Byte.x03] ++ zeros 125.

