(* ===== verification/SrpcChunks.v ===== *)
(** * srpc.c: registration in chunks

    [srpc_ds_async_registerdevice_in_chunks]: what it puts on the wire is the packet it
    never builds; and what it leaves in [srpc->sdp]. *)
From S2P Require Import Prelude Platform Heap Lck CLayout ProtoConsts ProtoTypes Proto ProtoFacts.
From S2P Require Import ProtoProps SrpcQueue Srpc SrpcCall SrpcFacts SrpcProps SrpcPack.
From S2P Require Import SrpcGetData SrpcGetDataFacts SrpcGetDataProps SrpcAsync SrpcAsyncClient SrpcAsyncProps.

Section Chunks.
Context `{PL : PlatformLaws} {params : TsrpcParams}.

Lemma wp_write_channels channel get chans : forall i w,
  0 <= i -> 0 <= sizeof channel ->
  (forall j, get (i + Z.of_nat j) = chans !! j) ->
  Forall (fun c => Zlen c = sizeof channel) chans ->
  wp (write_channels channel get (length chans) i) (fun _ w' =>
    w_srpc w' = w_srpc w /\ w_heap w' = w_heap w /\ w_input w' = w_input w /\
    written w' = written w ++ concat chans) w.
Proof.
  induction chans as [|c chans IH]; intros i w Hi Hs Hget Hc; cbn [length write_channels].
  - apply wp_ret. by rewrite app_nil_r.
  - inversion Hc as [|? ? Hc1 Hc2 E1]; subst. pose proof (Hget 0%nat) as H0.
    rewrite Z.add_0_r in H0. rewrite H0. cbn [lookup list_lookup].
    apply wp_bnd, wp_bnd. eapply wp_opt; [apply peek_0; lia|].
    rewrite take_all by lia. unfold data_write. srpc_steps.
    eapply wp_mono; [apply IH; [lia|done| |done]|].
    + intros j. change (chans !! j) with ((c :: chans) !! S j). rewrite <-Hget. f_equal. lia.
    + intros _ w' (Hsr & Hh & Hin & Hw). split_and!; [done|done|done|].
      rewrite Hw. unfold written at 1. cbn [w_trace]. rewrite written_emit. fold (written w).
      cbn [concat]. by rewrite <-app_assoc.
Qed.

Lemma Zlen_concat k (l : list bytes) : Forall (fun c => Zlen c = k) l -> Zlen (concat l) = k * Zlen l.
Proof.
  induction 1 as [|c l Hc _ IH]; cbn [concat]; [unfold Zlen; cbn [length]; lia|].
  rewrite Zlen_app, Zlen_cons, IH. lia.
Qed.

Lemma sizeof_header_max : 0 <= sizeof TDS_SuplaRegisterDeviceHeader <= 600.
Proof. vm_compute. by split. Qed.

Lemma header_count rdev : Zlen rdev = sizeof TDS_SuplaRegisterDeviceHeader ->
  exists n, read_member TDS_SuplaRegisterDeviceHeader ["channel_count"] rdev = Some n /\ 0 <= n < 256.
Proof.
  intros Hl. destruct (read_member_Some TDS_SuplaRegisterDeviceHeader
    (sizeof TDS_SuplaRegisterDeviceHeader) ["channel_count"] rdev) as (n & Hn & Hr);
    [reflexivity|lia|].
  exists n. split; [done|]. change (count_range _ _) with (0, 2 ^ (8 * 1) - 1) in Hr.
  cbn [fst snd] in Hr. lia.
Qed.

(** C11: registration in chunks is registration.  When every channel the header counts is
    there, the bytes written piece by piece are the wire form of the one packet that
    carries the header and the channels -- which may be larger than the packets the
    device itself can hold -- with the next identifier, which is returned. *)
Theorem chunks_are_one_packet call channel rdev chans get q w :
  world_ok w -> before_async_call = None -> 0 <= call < 2 ^ 32 ->
  srpc_call_min_version_required call <= version_of w ->
  0 <= sizeof channel <= 1000 -> Zlen rdev = sizeof TDS_SuplaRegisterDeviceHeader ->
  read_member TDS_SuplaRegisterDeviceHeader ["channel_count"] rdev = Some (Zlen chans) ->
  Forall (fun c => Zlen c = sizeof channel) chans -> (forall j, get (Z.of_nat j) = chans !! j) ->
  sdp_tag q = sproto_tag -> sdp_version q = version_of w -> sdp_rr_id q = next_id w ->
  sdp_call_id q = call -> payload q = rdev ++ concat chans ->
  sdp_data_size q = Zlen (rdev ++ concat chans) ->
  exists w', in_chunks call channel rdev get w = Some (to_int (next_id w), w') /\
    written w' = written w ++ wire q /\ w_lck w' = w_lck w.
Proof.
  intros Hok Hb Hcall Hver Hch Hrd Hcount Hchans Hget Ht Hv Hrr Hc Hpay Hsz.
  destruct (header_count rdev Hrd) as (n & Hn & Hnr). rewrite Hcount in Hn. injection Hn as Hn.
  pose proof sizeof_header_max. platform.
  enough (Hwp : wp (in_chunks call channel rdev get) (fun r w' => r = to_int (next_id w) /\
    written w' = written w ++ wire q /\ w_lck w' = w_lck w) w).
  { apply wp_run in Hwp. destruct Hwp as (r & w' & E & -> & ? & ?). by exists w'. }
  pose proof (wok_lck _ Hok) as Hl. destruct (wok_proto _ Hok) as (p & Hp & Hpok).
  destruct (sdp_init_sendable p Hpok) as ([Hwf _ Hmax] & _).
  destruct (sdp_init_rr_id p (ok_rr_id _ Hpok)) as [Hid _].
  assert (Hver0 : sdp_version (sproto_sdp_init p).1 = version_of w) by (unfold version_of; by rewrite Hp).
  unfold in_chunks. apply wp_bnd. eapply wp_opt; [exact Hcount|]. apply wp_bnd.
  eapply wp_mono; [by apply wp_call_allowed|]. intros b w0 [-> ->].
  rewrite (proj2 (Z.leb_le _ _)) by done. cbn [negb]. rewrite Hb.
  apply wp_bnd, wp_ret. apply wp_bnd, wp_lock. apply wp_bnd. eapply wp_get_proto; [exact Hp|].
  destruct (sproto_sdp_init p) as [sdp p2]. cbn [fst snd] in *. srpc_steps.
  destruct (set_data_ok sdp (Some rdev) (sizeof TDS_SuplaRegisterDeviceHeader) call)
    as (sdp' & Hset & Hwf' & Hmax' & _ & Hgood); [done|done|by rewrite <-Hrd; apply Zlen_nonneg|done|lia|].
  rewrite (proj2 (Z.ltb_ge _ _)), andb_false_r in Hset, Hgood by lia.
  cbn [orb] in Hset, Hgood.
  destruct (Hgood eq_refl) as (Hcid & Hds & Hrr' & Hv' & Hpre).
  eapply wp_opt; [exact Hset|]. srpc_steps. cbn [Z.eqb SUPLA_RESULT_TRUE Pos.eqb]. srpc_steps.
  assert (Hcl : Zlen (concat chans) = sizeof channel * Zlen chans) by (by apply Zlen_concat).
  set (full := sizeof TDS_SuplaRegisterDeviceHeader + sizeof channel * Zlen chans).
  assert (Hfull : full = sdp_data_size q) by (unfold full; rewrite Hsz, Zlen_app; lia).
  assert (Hrange : 0 <= full < 2 ^ 31).
  { pose proof (Zlen_nonneg rdev). unfold full. rewrite Hn in *. nia. }
  rewrite (sN_small 32), (uN_small 32 full) by lia.
  rewrite sizeof_sdp, (uN_small 32 (_ + sizeof TDS_SuplaRegisterDeviceHeader)) by lia.
  set (sdp2 := {| sdp_tag := sdp_tag sdp' |}).
  assert (Hhead : encode_header sdp2 = encode_header q).
  { unfold encode_header, sdp2. cbn. destruct Hwf'. unfold next_id in Hrr. rewrite Hp in Hrr.
    by rewrite wf_tag, Ht, Hrr', Hrr, Hid, Hcid, Hc, Hv', Hv, Hver0, Hfull. }
  assert (Htag : Zlen (sdp_tag sdp2) = 5) by (cbn; destruct Hwf'; by rewrite wf_tag).
  assert (Hdata : Zlen (sdp_data sdp2) = SUPLA_MAX_DATA_SIZE) by (cbn; by destruct Hwf').
  eapply wp_opt; [apply peek_0; rewrite Zlen_sdp_encode; lia|].
  replace (18 + SUPLA_MAX_DATA_SIZE - SUPLA_MAX_DATA_SIZE + sizeof TDS_SuplaRegisterDeviceHeader)
    with (18 + sizeof TDS_SuplaRegisterDeviceHeader) by lia.
  rewrite take_encode by lia. change (sdp_data sdp2) with (sdp_data sdp').
  rewrite Hpre, take_all, Hhead by lia. unfold data_write at 1. srpc_steps.
  rewrite Zlen_length.
  eapply wp_mono; [apply (wp_write_channels channel get chans 0); [lia|lia|exact Hget|done]|].
  intros _ w2 (Hs2 & _ & _ & Hw2). unfold data_write. srpc_steps.
  eapply wp_unlock_r; [exact Hl|unfold w_lck; cbn [w_srpc]; by rewrite Hs2|].
  split_and!; [|  |done].
  - change (sdp_rr_id sdp2) with (sdp_rr_id sdp'). unfold next_id. by rewrite Hp, Hrr', Hid.
  - unfold written at 1. cbn [w_trace with_lck]. rewrite written_emit. fold (written w2). rewrite Hw2.
    unfold written at 1. cbn [w_trace]. rewrite written_emit. unfold wire.
    rewrite take_encode by (rewrite ?Ht; done || lia). fold (payload q). rewrite Hpay.
    by rewrite <-!app_assoc.
Qed.

End Chunks.

(** ** Corners *)

(** A registration header that counts [n] channels, and channels of zeros. *)
Definition sample_header (n : Z) : bytes := zeros 583 ++ le_split 1 n.
Definition sample_channels (n : nat) : list bytes := replicate n (zeros (sizeof (@TDS_SuplaDeviceChannel_D linux_device))).

(** What registering from an idle engine of a Linux device writes. *)
Definition registered (n : Z) (get : Z -> option bytes) : option bytes :=
  match @srpc_ds_async_registerdevice_in_chunks linux_device silent_params (sample_header n) get
          (@idle_world linux_device 0 []) with
  | Some (_, w) => Some (written w)
  | None => None
  end.

(** A channel that is missing breaks the stream.  When the callback has no structure
    for a channel, the channel is skipped but its bytes stay announced: the server waits
    for them, and takes the beginning of the next packet for them, which it then rejects
    together with everything it has received. *)
Theorem missing_channel_breaks_stream :
  let get i := if i =? 0 then Some (zeros (sizeof (@TDS_SuplaDeviceChannel_D linux_device))) else None in
  let next := @sample_packet 600 40 in
  exists b, registered 2 get = Some b /\
    (@pop_in_spec generic64 b (blank_packet 10240)).1.1 = SUPLA_RESULT_FALSE /\
    (@pop_in_spec generic64 (b ++ wire next) (blank_packet 10240)).1.1 = SUPLA_RESULT_DATA_ERROR.
Proof. eexists. split; [vm_compute; reflexivity|]. split; vm_compute; reflexivity. Qed.

(** What chunks leave behind.  A registration larger than the device's packets leaves
    its size in [srpc->sdp], whose data is shorter: in a build without an input queue a
    [srpc_getdata] before the next packet copies from behind it. *)
Theorem chunks_leave_oversized_packet :
  let get i := Some (zeros (sizeof (@TDS_SuplaDeviceChannel_D linux_device))) in
  match @srpc_ds_async_registerdevice_in_chunks linux_device silent_params (sample_header 11) get
          (@idle_world linux_device 0 []) with
  | Some (r, w) => r = 1 /\ @SUPLA_MAX_DATA_SIZE linux_device < sdp_data_size (w_sdp w) /\
                   @srpc_getdata linux_device no_rd 0 w = None
  | None => False
  end.
Proof. vm_compute. split_and!; reflexivity. Qed.

(** A caption size that wraps.  The size of a caption call is computed in 32 bits
    before it is compared: for a caption size of 2^32 - 4 four bytes are sent, fewer than
    the fixed part, which no receiver accepts. *)
Theorem caption_size_wraps :
  let caption := le_split 4 7 ++ le_split 4 (2 ^ 32 - 4) ++ zeros 401 in
  match @srpc_dcs_async_set_channel_caption linux_device silent_params (Some caption)
          (@idle_world linux_device 0 []) with
  | Some (r, w) => r = 1 /\ written w = wire (w_sdp w) /\ sdp_data_size (w_sdp w) = 4 /\
      option_map (fun rule => @accepted generic64 rule (w_sdp w))
        (@getdata_rule generic64 SUPLA_DCS_CALL_SET_CHANNEL_CAPTION) = Some false
  | None => False
  end.
Proof. vm_compute. split_and!; reflexivity. Qed.

(** ** Witnesses *)

(** The packet two channels make, on a build that can hold it. *)
Definition registration : sdp_t :=
  {| sdp_tag := sproto_tag; sdp_version := 28; sdp_rr_id := 1;
     sdp_call_id := SUPLA_DS_CALL_REGISTER_DEVICE_F; sdp_data_size := 584 + 70;
     sdp_data := sample_header 2 ++ zeros 70 ++ zeros (10240 - 654) |}.

Lemma chunks_are_one_packet_witness :
  let w := @idle_world linux_device 0 [] in
  exists w', @in_chunks linux_device silent_params SUPLA_DS_CALL_REGISTER_DEVICE_F
      (@TDS_SuplaDeviceChannel_D linux_device) (sample_header 2)
      (fun i => sample_channels 2 !! Z.to_nat i) w = Some (1, w') /\
    written w' = written w ++ wire registration /\ w_lck w' = w_lck w.
Proof.
  apply (@chunks_are_one_packet linux_device _ silent_params SUPLA_DS_CALL_REGISTER_DEVICE_F
    (@TDS_SuplaDeviceChannel_D linux_device) (sample_header 2) (sample_channels 2)
    (fun i => sample_channels 2 !! Z.to_nat i) registration (@idle_world linux_device 0 []));
    try (vm_compute; reflexivity).
  - apply (@idle_world_ok linux_device _). lia.
  - vm_compute. split; [discriminate|reflexivity].
  - vm_compute. discriminate.
  - vm_compute. split; discriminate.
  - repeat constructor.
  - intros j. by rewrite Nat2Z.id.
Defined.
