(* ===== verification/SrpcPackProps.v ===== *)
(** * srpc.c: a pack is unpacked as it was packed

    [srpc_set_pack] against an abstract packer, and the round trip through
    [srpc_getpack]. *)
From S2P Require Import Prelude Platform Heap Lck CLayout ProtoConsts ProtoTypes Proto ProtoFacts.
From S2P Require Import ProtoProps SrpcQueue Srpc SrpcCall SrpcFacts SrpcProps SrpcPack SrpcPackFacts.
From S2P Require Import SrpcGetData SrpcGetDataFacts SrpcGetDataProps SrpcAsync SrpcAsyncClient SrpcAsyncProps.

(** ** The abstract packer *)

(** [items[a]] of a pack. *)
Definition item_at (k : pack_kind) (pack : bytes) (a : Z) : bytes :=
  take (Z.to_nat (sizeof (pk_item k))) (drop (Z.to_nat (header_len k + a * sizeof (pk_item k))) pack).

(** The items from [a] on, [n] of them, each cut after its caption; one whose caption
    size is above the maximum is left out. *)
Fixpoint cut_items (k : pack_kind) (pack : bytes) (n : nat) (a : Z) : list bytes :=
  match n with
  | O => []
  | S n =>
      match caption_size_at k (item_at k pack a) 0 with
      | Some s =>
          if s <=? pk_caption_max k
          then take (Z.to_nat (item_header_len k + s)) (item_at k pack a) :: cut_items k pack n (a + 1)
          else cut_items k pack n (a + 1)
      | None => cut_items k pack n (a + 1)
      end
  end.

Section SetPack.
Context `{PL : PlatformLaws} (k : pack_kind) (oc os sw : Z) (L : kind_layout k oc os sw).

(** An item as it is sent. *)
Definition cut_item (b : bytes) : Prop :=
  exists s, caption_size_at k b 0 = Some s /\ s <= pk_caption_max k /\ Zlen b = item_header_len k + s.

Lemma caption_prefix b c n : item_header_len k <= Z.of_nat n -> item_header_len k <= Zlen b ->
  item_header_len k <= Zlen c -> take n b = take n c -> caption_size_at k b 0 = caption_size_at k c 0.
Proof.
  intros Hn Hb Hc E. pose proof L as [? ? ? ? [? ?] ? ? ? ? ?].
  rewrite !(caption_size_Some k oc os sw L) by lia. rewrite !drop_0. do 2 f_equal.
  assert (Hp : forall l : bytes, item_header_len k <= Zlen l ->
    take (Z.to_nat sw) (drop (Z.to_nat os) l) = take (Z.to_nat sw) (drop (Z.to_nat os) (take n l))).
  { intros l Hl. rewrite <-(take_drop n l) at 1.
    destruct (Nat.le_gt_cases n (length l)).
    - rewrite drop_app_le, take_app_le
        by (rewrite ?length_drop, length_take; unfold Zlen in *; lia). done.
    - rewrite (drop_ge l n), app_nil_r by lia. done. }
  by rewrite (Hp b), (Hp c), E by done.
Qed.

Lemma Zlen_item_at pack a : 0 <= a < pk_max k -> Zlen pack = sizeof (pk_pack k) ->
  Zlen (item_at k pack a) = sizeof (pk_item k).
Proof.
  intros Ha Hp. pose proof (item_pos k oc os sw L). unfold item_at.
  assert (a * sizeof (pk_item k) + sizeof (pk_item k) <= sizeof (pk_item k) * pk_max k) by nia.
  unfold header_len in *. assert (0 <= a * sizeof (pk_item k)) by nia. zlen.
Qed.

Lemma cut_items_ok pack n : forall a, 0 <= a -> a + Z.of_nat n <= pk_max k ->
  Zlen pack = sizeof (pk_pack k) -> Forall cut_item (cut_items k pack n a).
Proof.
  pose proof (item_pos k oc os sw L). pose proof L as [].
  induction n as [|n IH]; intros a Ha Hn Hp; cbn [cut_items]; [constructor|].
  pose proof (Zlen_item_at pack a ltac:(lia) Hp) as Hl.
  destruct (caption_size_at k (item_at k pack a) 0) as [s|] eqn:Es; [|apply IH; lia || done].
  pose proof (caption_size_range k oc os sw L _ _ _ Es) as Hs.
  case_if; [|apply IH; lia || done]. bools. constructor; [|apply IH; lia || done].
  assert (Hlen : Zlen (take (Z.to_nat (item_header_len k + s)) (item_at k pack a)) = item_header_len k + s)
    by (unfold item_header_len in *; zlen).
  exists s. split_and!; [|done|done]. rewrite <-Es. symmetry.
  apply (caption_prefix _ _ (Z.to_nat (item_header_len k + s))); [lia|lia|lia|].
  by rewrite take_take, Nat.min_id.
Qed.

Lemma cut_items_size pack n : forall a, 0 <= a -> a + Z.of_nat n <= pk_max k ->
  Zlen pack = sizeof (pk_pack k) ->
  Zlen (cut_items k pack n a) <= Z.of_nat n /\
  Zlen (concat (cut_items k pack n a)) <= Z.of_nat n * sizeof (pk_item k).
Proof.
  pose proof (item_pos k oc os sw L).
  induction n as [|n IH]; intros a Ha Hn Hp; cbn [cut_items]; [unfold Zlen; cbn [length concat]; lia|].
  destruct (IH (a + 1)) as [IH1 IH2]; [lia|lia|done|].
  assert (0 <= sizeof (pk_item k)) by lia.
  destruct (caption_size_at k (item_at k pack a) 0) as [s|]; [case_if|]; cbn [concat].
  - rewrite Zlen_cons, Zlen_app. split; [lia|].
    assert (Zlen (take (Z.to_nat (item_header_len k + s)) (item_at k pack a)) <= sizeof (pk_item k))
      by (unfold item_at, Zlen; rewrite !length_take; lia). lia.
  - lia.
  - lia.
Qed.

(** The receiver takes the items apart where the sender put them together. *)
Lemma items_of_concat l rest : Forall cut_item l -> items_of k (concat l ++ rest) (length l) = Some l.
Proof.
  pose proof (item_pos k oc os sw L). induction 1 as [|b l (s & Es & Hs & Hb) _ IH]; [done|].
  pose proof (caption_size_range k oc os sw L _ _ _ Es).
  cbn [length items_of concat]. rewrite <-app_assoc.
  pose proof (Zlen_nonneg (concat l ++ rest)) as Hr.
  rewrite (proj2 (Z.leb_le (item_header_len k) _)) by (rewrite Zlen_app; lia).
  assert (caption_size_at k (b ++ concat l ++ rest) 0 = Some s) as ->.
  { rewrite <-Es. apply (caption_prefix _ _ (length b)); [unfold Zlen in *; lia|rewrite Zlen_app; lia|lia|].
    by rewrite take_app_length, firstn_all. }
  rewrite (proj2 (Z.leb_le s _)), (proj2 (Z.leb_le (_ + s) _)) by (rewrite ?Zlen_app in *; lia).
  cbn [andb]. rewrite drop_Zlen_app, take_Zlen_app, IH by lia. done.
Qed.

(** ** The loop of [srpc_set_pack] *)

Lemma wp_set_pack_loop pack n : forall a B items h,
  heap_ok h -> Zlen pack = sizeof (pk_pack k) -> 0 <= a -> a + Z.of_nat n <= pk_max k ->
  header_len k <= Zlen B <= header_len k + a * sizeof (pk_item k) ->
  wp (set_pack_loop k pack n a (PLive B) (Zlen B) (Zlen B) items) (fun r h' => alloc_step h h' /\
    match r with
    | None => ~ never_refuses h
    | Some (buffer, size, items') =>
        buffer = PLive (B ++ concat (cut_items k pack n a)) /\
        size = Zlen (B ++ concat (cut_items k pack n a)) /\
        items' = items + Zlen (cut_items k pack n a)
    end) h.
Proof.
  pose proof (item_pos k oc os sw L) as Hpos. pose proof L as [].
  induction n as [|n IH]; intros a B items h Hh Hp Ha Hn HB; cbn [set_pack_loop cut_items].
  - apply wp_ret. split; [by apply alloc_step_refl|]. cbn [concat]. rewrite app_nil_r.
    split_and!; [done|done|]. unfold Zlen. cbn [length]. lia.
  - rewrite (item_offset_eq k oc os sw L). apply wp_bnd. eapply wp_opt; [done|].
    pose proof (Zlen_item_at pack a ltac:(lia) Hp) as Hl.
    assert (Hoff : header_len k + a * sizeof (pk_item k) + sizeof (pk_item k) <= Zlen pack)
      by (rewrite Hp; unfold header_len; nia).
    assert (0 <= a * sizeof (pk_item k)) by nia.
    assert (Hcap : caption_size_at k pack (header_len k + a * sizeof (pk_item k))
      = caption_size_at k (item_at k pack a) 0).
    { rewrite !(caption_size_Some k oc os sw L) by lia. rewrite drop_0. unfold item_at. do 2 f_equal.
      set (d := drop _ pack). rewrite <-(take_drop (Z.to_nat (sizeof (pk_item k))) d) at 1.
      rewrite drop_app_le, take_app_le; [done|..];
        rewrite ?length_drop, length_take; unfold d; rewrite length_drop; unfold Zlen in *; lia. }
    rewrite Hcap. destruct (caption_size_at k (item_at k pack a) 0) as [s|] eqn:Es.
    2:{ rewrite (caption_size_Some k oc os sw L) in Es by lia. done. }
    pose proof (caption_size_range k oc os sw L _ _ _ Es) as Hs.
    apply wp_bnd. eapply wp_opt; [done|]. rewrite (uN_small 32 s) by lia. case_if; bools.
    2:{ apply IH; try done; lia. }
    fold (item_header_len k).
    assert (Hsmall : Zlen B + (item_header_len k + s) < 2 ^ 31)
      by (rewrite Hp in Hoff; unfold item_header_len in *; lia).
    rewrite (uN_small 32), (sN_small 32) by lia.
    replace (Zlen B + (item_header_len k + s) - Zlen B) with (item_header_len k + s) by lia.
    set (item := take (Z.to_nat (item_header_len k + s)) (item_at k pack a)).
    assert (Hitem : Zlen item = item_header_len k + s)
      by (unfold item; unfold item_header_len in *; zlen).
    apply wp_bnd. apply (wp_realloc (PLive B) (Zlen B)); [done|done|lia|..].
    + intros h' Hh' Hn' _ _. cbn [is_null]. apply wp_bnd, wp_ret, wp_ret.
      split; [|done]. split; [done|]. intros H'. by apply Hn' in H'.
    + intros new h' Hh' Hnr Hnew Hpre. destruct new as [|b'|]; cbn [owns pbytes] in *; [lia| |done].
      cbn [is_null]. apply wp_bnd. eapply wp_opt.
      { rewrite peek_Some by (unfold item_header_len in *; lia).
        instantiate (1 := item). unfold item, item_at. f_equal.
        rewrite take_take. f_equal. unfold item_header_len in *. lia. }
      assert (Hb' : take (Z.to_nat (Zlen B)) b' = B).
      { rewrite Z.min_r in Hpre by lia. rewrite Hpre. apply take_all. lia. }
      apply wp_bnd. eapply wp_opt.
      { cbn [ptr_write]. rewrite poke_Some by lia. rewrite Hb', drop_ge by (unfold Zlen in *; lia).
        by rewrite app_nil_r. }
      assert (HB' : Zlen (B ++ item) = Zlen B + (item_header_len k + s)) by zlen.
      rewrite <-HB'.
      eapply wp_mono; [apply IH; try done; [lia|lia|unfold item_header_len in *; lia]|].
      intros r h'' [[Hh'' Hnr''] Hr]. split; [split; [done|auto]|].
      destruct r as [[[buffer size] items']|]; [|auto].
      destruct Hr as (-> & -> & ->). cbn [concat]. rewrite <-!app_assoc, Zlen_cons.
      split_and!; [done|done|lia].
Qed.

End SetPack.

(** ** Sending a pack and taking it apart *)

Section RoundTrip.
Context `{PL : PlatformLaws} {RO : RulesOk P} {params : TsrpcParams} `{CL : !ParamsLaws params}.

(** An allocation keeps the engine's invariant and what was sent. *)
Lemma wp_on_heap_keeps {A} (m : M heap A) (R : A -> heap -> Prop) (Q : A -> world -> Prop) w :
  world_ok w -> wp m (fun a h => alloc_step (w_heap w) h /\ R a h) (w_heap w) ->
  (forall a w', keeps w w' -> R a (w_heap w') -> sent w' = sent w ->
     w_srpc w' = w_srpc w -> Q a w') ->
  wp (on_heap m) Q w.
Proof.
  intros Hok Hm HQ. apply wp_on_heap. eapply wp_mono; [exact Hm|].
  intros a h [[Hh Hn] HR]. apply HQ; [|done..]. destruct Hok. by constructor; [constructor|..].
Qed.

(** The pack without the items that were left out, every item padded after its caption. *)
Definition unpacked (k : pack_kind) (pack b : bytes) (items : list bytes) : Prop :=
  exists h, pack_set_count k (take (Z.to_nat (header_len k)) pack) (Zlen items) false = Some h /\
    b = h ++ concat (map (pad k) items).

(** What [srpc_set_pack] sends. *)
Lemma wp_set_pack k oc os sw pack c w :
  kind_layout k oc os sw -> 0 <= pk_call k < 2 ^ 32 ->
  Zlen pack = sizeof (pk_pack k) -> pack_get_count k pack = Some c -> 1 <= c <= pk_max k ->
  world_ok w -> never_refuses (w_heap w) ->
  before_async_call = None -> on_min_version_required = None ->
  let cuts := cut_items k pack (Z.to_nat c) 0 in
  let data := put_count oc (take (Z.to_nat (header_len k)) pack) (Zlen cuts) ++ concat cuts in
  wp (srpc_set_pack k pack) (fun r w' => keeps w w' /\
    ((r = SUPLA_RESULT_FALSE /\ sent w' = sent w /\ call_refused (pk_call k) (Zlen data) w) \/
     exists p, sendable p /\ sdp_call_id p = pk_call k /\ sdp_data_size p = Zlen data /\
       take (length data) (sdp_data p) = data /\ sent w' = sent w ++ wire p)) w.
Proof.
  intros L Hcall Hp Hc Hcr Hok Hn Hb Hm cuts data.
  pose proof (item_pos k oc os sw L) as Hpos. pose proof L as [? ? ? [? ?] [? ?] ? ? ? ? ?].
  unfold srpc_set_pack. rewrite (pk_header_eq k oc os sw L).
  apply wp_bnd. eapply wp_opt; [exact Hc|].
  assert (Hmax : pk_max k <= sizeof (pk_pack k)) by (unfold header_len in *; nia).
  destruct (cut_items_size k oc os sw L pack (Z.to_nat c) 0) as [Hcl Hcs]; [lia|lia|done|]. fold cuts in Hcl, Hcs.
  rewrite (uN_small 32 c), !(proj2 (Z.ltb_ge _ _)) by lia. cbn [orb].
  apply wp_bnd, (wp_on_heap_keeps _ (fun q h => exists b, q = PLive b /\ Zlen b = header_len k)); [done|..].
  { apply wp_malloc; [by apply Hok|..]; [|done]. intros h b Hs Hl. split; [done|]. exists b. split; [done|lia]. }
  intros q w1 Hk1 (b & -> & Hbl) Hs1 Hr1. cbn [is_null].
  set (hd := take (Z.to_nat (header_len k)) pack) in *.
  assert (Hhd : Zlen hd = header_len k) by (unfold hd; zlen).
  apply wp_bnd. eapply wp_opt; [apply peek_0; lia|]. fold hd. apply wp_bnd. eapply wp_opt.
  { cbn [ptr_write]. rewrite poke_Some by lia. cbn [Z.to_nat].
    rewrite firstn_O, drop_ge, app_nil_l, app_nil_r by (unfold Zlen in *; lia). reflexivity. }
  pose proof (keeps_nr _ _ Hk1 Hn) as Hn1. rewrite <-Hhd.
  apply wp_bnd, (wp_on_heap_keeps _ (fun r h =>
    r = Some (PLive (hd ++ concat cuts), Zlen (hd ++ concat cuts), Zlen cuts))); [apply Hk1|..].
  { eapply wp_mono; [apply (wp_set_pack_loop k oc os sw L pack); [apply Hk1|done|lia|lia|lia]|].
    intros r h [Hst Hr]. split; [done|]. destruct r as [[[? ?] ?]|]; [|done].
    by destruct Hr as (-> & -> & ->). }
  intros r w2 Hk2 -> Hs2 Hr2. cbn beta iota.
  apply wp_bnd. eapply wp_opt.
  { apply (set_count_ok k oc os sw L). rewrite Zlen_app. zlen_pose. lia. }
  rewrite (put_count_app k oc os sw L) by lia. fold data.
  assert (Hdata : Zlen data = Zlen (hd ++ concat cuts))
    by (unfold data; rewrite !Zlen_app, (Zlen_put_count k oc os sw L) by lia; done).
  assert (Hbound : 0 <= Zlen data < 2 ^ 31).
  { split; [apply Zlen_nonneg|]. rewrite Hdata, Zlen_app, Hhd. unfold header_len.
    assert (c * sizeof (pk_item k) <= sizeof (pk_item k) * pk_max k) by nia. lia. }
  rewrite <-Hdata, (uN_small 32) by lia.
  pose proof (keeps_nr _ _ Hk2 Hn1) as Hn2. pose proof (keeps_trans _ _ _ Hk1 Hk2) as Hk.
  apply wp_bnd. eapply wp_mono; [apply wp_plain_call; [apply Hk|lia|lia|lia|done|done]|].
  intros r w3 [Hk3 Hout].
  apply wp_bnd, (wp_on_heap_keeps _ (fun _ _ => True)); [apply Hk3|..].
  { apply wp_ret. split; [|done]. apply alloc_step_refl, Hk3. }
  intros _ w4 Hk4 _ Hs4 _. apply wp_ret.
  split; [by eapply keeps_trans, keeps_trans|]. rewrite Hs4.
  destruct Hout as [(-> & -> & Hwhy)|(p & Hsp & Hci & Hsz & Hpre & _ & Hs3)].
  { left. split_and!; [done|congruence|]. revert Hwhy. unfold call_refused, queue_refuses, version_of.
    rewrite Hr2, Hr1. intros [?|[?|[? [?|?]]]]; [by left|by right; left|right; right; auto|done]. }
  right. exists p. split_and!; try done.
  - unfold Zlen in Hpre. rewrite Nat2Z.id, firstn_all in Hpre. exact Hpre.
  - rewrite Hs3 by done. congruence.
Qed.

(** The receiver's pack. *)
Lemma received_pack k oc os sw hd cuts n p sdp0 :
  kind_layout k oc os sw -> Zlen hd = header_len k -> Forall (cut_item k) cuts ->
  Zlen cuts <= n <= pk_max k -> Zlen (concat cuts) <= n * sizeof (pk_item k) ->
  let data := put_count oc hd (Zlen cuts) ++ concat cuts in
  sdp_data_size p = Zlen data -> take (length data) (sdp_data p) = data ->
  pack_of k (received p sdp0) = Some (put_count oc hd (Zlen cuts) ++ concat (map (pad k) cuts)).
Proof.
  intros L Hhd Hcuts Hn Hsize data Hsz Hpre.
  pose proof (item_pos k oc os sw L) as Hpos. pose proof L as [? ? ? [? ?] [? ?] ? ? ? ? ?].
  pose proof (Zlen_put_count k oc os sw L hd (Zlen cuts) ltac:(lia)) as Hph.
  assert (Hd : take (Z.to_nat (sdp_data_size (received p sdp0))) (sdp_data (received p sdp0)) = data).
  { unfold received. cbn [sdp_data_size sdp_data]. rewrite Hsz. unfold Zlen at 1 2.
    rewrite !Nat2Z.id, Hpre, take_app_le by lia. apply firstn_all. }
  unfold pack_of. rewrite Hd.
  assert (Hmax : pk_max k < 2 ^ 31) by (unfold header_len, item_header_len in *; nia).
  assert (n * sizeof (pk_item k) <= sizeof (pk_item k) * pk_max k) by nia.
  pose proof (Zlen_nonneg (concat cuts)). pose proof (Zlen_nonneg cuts).
  assert (Hdl : header_len k <= Zlen data <= sizeof (pk_pack k))
    by (unfold data; rewrite Zlen_app; unfold header_len in *; lia).
  rewrite !(proj2 (Z.leb_le _ _)) by lia. cbn [andb].
  assert (Hc : pack_get_count k data = Some (Zlen cuts)).
  { unfold data. rewrite <-(put_count_app k oc os sw L) by lia.
    apply (get_put_count k oc os sw L); [rewrite Zlen_app|]; lia. }
  rewrite Hc, !(proj2 (Z.leb_le _ _)) by lia. cbn [andb].
  assert (Hh : header_len k = Zlen (put_count oc hd (Zlen cuts))) by lia.
  unfold data. rewrite Hh, drop_Zlen_app, take_Zlen_app by done.
  replace (Z.to_nat (Zlen cuts)) with (length cuts) by (unfold Zlen; lia).
  rewrite <-(app_nil_r (concat cuts)).
  by rewrite (items_of_concat k oc os sw L).
Qed.

(** C12: a pack arrives.  Send a pack of any kind: either the call is refused, the result
    is 0 and nothing was sent, or one packet was sent, and whatever engine receives it,
    [srpc_getdata] answers TRUE there and hands over a pack with the items in their order,
    each as it was up to the end of its caption; an item whose caption size is above the
    maximum is left out and not counted. *)
Theorem pack_is_unpacked k pack c w :
  getdata_rule (pk_call k) = Some (Pack k) -> 0 <= pk_call k < 2 ^ 32 ->
  Zlen pack = sizeof (pk_pack k) -> pack_get_count k pack = Some c -> 1 <= c <= pk_max k ->
  world_ok w -> never_refuses (w_heap w) ->
  before_async_call = None -> on_min_version_required = None ->
  exists r w', srpc_set_pack k pack w = Some (r, w') /\ keeps w w' /\
    ((r = SUPLA_RESULT_FALSE /\ sent w' = sent w /\
      call_refused (pk_call k) (header_len k + Zlen (concat (cut_items k pack (Z.to_nat c) 0))) w) \/
     exists p, sendable p /\ sent w' = sent w ++ wire p /\
       forall sdp0 wr rr rd, world_ok wr -> never_refuses (w_heap wr) ->
         received_packet wr rr = Some (received p sdp0) ->
         exists rd' wr' b, srpc_getdata rd rr wr = Some ((SUPLA_RESULT_TRUE, rd'), wr') /\
           rd_call_id rd' = pk_call k /\ rd_data rd' = PLive b /\
           unpacked k pack b (cut_items k pack (Z.to_nat c) 0)).
Proof.
  intros Hrule Hcall Hp Hc Hcr Hok Hn Hb Hm.
  destruct (pack_kind_ok_layout k (getdata_rule_ok _ _ Hrule)) as (oc & os & sw & L).
  pose proof (wp_set_pack k oc os sw pack c w L Hcall Hp Hc Hcr Hok Hn Hb Hm) as Hw. apply wp_run in Hw.
  destruct Hw as (r & w' & E & Hk & Hout). exists r, w'. split_and!; [done|done|].
  destruct Hout as [(Hr & Hs & Hwhy)|(p & Hsp & Hci & Hsz & Hpre & Hs)]; [left|right].
  { split_and!; [done|done|]. pose proof L as [? ? ? [? ?] ? ? ? ? ? ?].
    pose proof (item_pos k oc os sw L).
    rewrite Zlen_app, (Zlen_put_count k oc os sw L) in Hwhy by zlen.
    replace (Zlen (take (Z.to_nat (header_len k)) pack)) with (header_len k) in Hwhy by zlen.
    exact Hwhy. }
  exists p. split_and!; [done|done|]. intros sdp0 wr rr rd Hwr Hnr Hrp.
  pose proof (item_pos k oc os sw L). pose proof (cut_items_size k oc os sw L pack (Z.to_nat c) 0) as Hcs.
  set (hd := take (Z.to_nat (header_len k)) pack) in *.
  assert (Hhd : Zlen hd = header_len k) by (unfold hd; zlen).
  set (cuts := cut_items k pack (Z.to_nat c) 0) in *.
  assert (Hpack : pack_of k (received p sdp0)
    = Some (put_count oc hd (Zlen cuts) ++ concat (map (pad k) cuts))).
  { apply (received_pack k oc os sw hd cuts c p sdp0 L Hhd);
      [apply (cut_items_ok k oc os sw L); lia || done|lia|lia|done|done]. }
  pose proof (wp_getdata rd rr wr Hwr (fun _ _ _ _ => Hnr)) as Hg. apply wp_run in Hg.
  destruct Hg as ([r' rd'] & wr' & Eg & _ & Hres). unfold getdata_result in Hres.
  cbn [fst snd] in Hres. rewrite Hrp in Hres.
  change (sdp_call_id (received p sdp0)) with (sdp_call_id p) in Hres.
  rewrite Hci, Hrule in Hres.
  destruct Hres as (Hci' & _ & [(rl' & [= <-] & -> & _ & Ho)|(_ & _ & [Hf|?])]);
    [|cbn [accepted] in Hf; by rewrite Hpack in Hf|done].
  cbn [object_is] in Ho. rewrite Hpack in Ho. destruct Ho as (b & [= <-] & Hrd). exists rd', wr'. eexists. split_and!; try done. eexists. split; [|done].
  apply (set_count_ok k oc os sw L). fold hd. lia.
Qed.

End RoundTrip.

(** ** Witness *)

(** A location whose caption has [n] bytes, and a pack of three locations, the second with
    a caption size above the maximum. *)
Definition a_location (id n : Z) : bytes :=
  [Byte.x00] ++ le_split 4 id ++ le_split 4 n ++ zeros SUPLA_LOCATION_CAPTION_MAXSIZE.
Definition three_locations : bytes :=
  le_split 4 3 ++ zeros 4 ++ a_location 7 2 ++ a_location 8 1000 ++ a_location 9 3
  ++ zeros (sizeof (@TSC_SuplaLocation generic64) * (SUPLA_LOCATIONPACK_MAXCOUNT - 3)).

Lemma pack_is_unpacked_witness :
  let w := @idle_world generic64 0 [] in
  let k := @locationpack generic64 in
  exists r w', @srpc_set_pack generic64 silent_params k three_locations w = Some (r, w') /\
    @keeps generic64 w w' /\
    ((r = SUPLA_RESULT_FALSE /\ @sent generic64 w' = @sent generic64 w /\
      @call_refused generic64 SUPLA_SC_CALL_LOCATIONPACK_UPDATE 31 w) \/
     exists p, @sendable generic64 p /\ @sent generic64 w' = @sent generic64 w ++ wire p /\
       forall sdp0 wr rr rd, @world_ok generic64 wr -> never_refuses (w_heap wr) ->
         @received_packet generic64 wr rr = Some (received p sdp0) ->
         exists rd' wr' b, @srpc_getdata generic64 rd rr wr = Some ((SUPLA_RESULT_TRUE, rd'), wr') /\
           rd_call_id rd' = SUPLA_SC_CALL_LOCATIONPACK_UPDATE /\ rd_data rd' = PLive b /\
           unpacked k three_locations b
             [take 11 (a_location 7 2); take 12 (a_location 9 3)]).
Proof.
  apply (@pack_is_unpacked generic64 _ _ silent_params _ (@locationpack generic64) three_locations 3
    (@idle_world generic64 0 [])); try reflexivity.
  - vm_compute. split; [discriminate|reflexivity].
  - vm_compute. split; discriminate.
  - apply (@idle_world_ok generic64 _). lia.
  - apply never_refuses_calm.
Defined.
