(* ===== verification/ExtValue.v ===== *)
(** * srpc.c: extended channel values

    The [srpc_evtool_*] functions: the details of a meter, a thermostat or a counter are
    put into the typed container [TSuplaChannelExtendedValue] and taken out of it, and
    several values are put into one container of the type EV_TYPE_MULTI_VALUE.

    Objects are given as their bytes, the object that is written is the state; a null
    pointer is [None] at the level of the functions. *)
From S2P Require Import Prelude Platform Heap Lck CLayout ProtoConsts ProtoTypes Proto.
From S2P Require Import SrpcQueue Srpc SrpcCall SrpcAsync.

Definition EV_TYPE_NONE : Z := 0.
Definition EV_TYPE_ELECTRICITY_METER_MEASUREMENT_V1 : Z := 10.
Definition EV_TYPE_ELECTRICITY_METER_MEASUREMENT_V2 : Z := 12.
Definition EV_TYPE_ELECTRICITY_METER_MEASUREMENT_V3 : Z := 14.
Definition EV_TYPE_IMPULSE_COUNTER_DETAILS_V1 : Z := 20.
Definition EV_TYPE_THERMOSTAT_DETAILS_V1 : Z := 30.
Definition EV_TYPE_MULTI_VALUE : Z := 100.

Definition EM_VAR_FORWARD_ACTIVE_ENERGY_BALANCED : Z := 0x2000.
Definition EM_VAR_REVERSE_ACTIVE_ENERGY_BALANCED : Z := 0x4000.
Definition EM_VAR_VOLTAGE_PHASE_ANGLE_12 : Z := 0x10000.
Definition EM_VAR_VOLTAGE_PHASE_ANGLE_13 : Z := 0x20000.
Definition EM_VAR_VOLTAGE_PHASE_SEQUENCE : Z := 0x40000.
Definition EM_VAR_CURRENT_PHASE_SEQUENCE : Z := 0x80000.

Definition THERMOSTAT_FIELD_MeasuredTemperatures : Z := 0x01.
Definition THERMOSTAT_FIELD_PresetTemperatures : Z := 0x02.
Definition THERMOSTAT_FIELD_Flags : Z := 0x04.
Definition THERMOSTAT_FIELD_Values : Z := 0x08.
Definition THERMOSTAT_FIELD_Time : Z := 0x10.
Definition THERMOSTAT_FIELD_Schedule : Z := 0x20.

(** A function of a source and a destination that answers 0 when one of them is null. *)
Definition not_null (f : bytes -> M bytes Z) (src dest : option bytes)
    : option (Z * option bytes) :=
  match src, dest with
  | Some s, Some d =>
      match f s d with Some (r, d) => Some (r, Some d) | None => None end
  | _, _ => Some (0, dest)
  end.

(** Assignments to members of the object that is the state. *)
Definition assign_member (t : ctype) (x : string) (v : Z) : M bytes unit :=
  let! b := mget in let! b := mopt (write_member t [x] v b) in mput b.

(** [memcpy (&b[off], d, n)] for the [n] bytes [d] *)
Definition store (off : Z) (d : bytes) : M bytes unit :=
  let! b := mget in let! b := mopt (poke off d b) in mput b.

Section ExtValue.
Context `{Platform}.

Definition EV : ctype := TSuplaChannelExtendedValue.

(** [sizeof (TSuplaChannelExtendedValue) - sizeof (ev->value)], where the value starts. *)
Definition ev_header : Z := sizeof EV - SUPLA_CHANNELEXTENDEDVALUE_SIZE.

Definition ev_type (ev : bytes) : option Z := read_member EV ["type"] ev.
Definition ev_size (ev : bytes) : option Z := read_member EV ["size"] ev.

(** [memset (ev, 0, sizeof (TSuplaChannelExtendedValue)); ev->type = t;] *)
Definition ev_reset (t : Z) : M bytes unit := mput (zeros (sizeof EV)) ;;; assign_member EV "type" t.

(** [memcpy (ev->value, src, size)] *)
Definition ev_store (src : bytes) (size : Z) : M bytes unit :=
  let! d := mopt (peek 0 size src) in store ev_header d.

(** ** Electricity meters *)

(** RETURN_EMEXTENDED2EXTENDED *)
Definition emextended2extended (t : ctype) (ty : Z) (em_ev : bytes) : M bytes Z :=
  let! m_count := mopt (read_member t ["m_count"] em_ev) in
  if (EM_MEASUREMENT_COUNT <? m_count) || (m_count <? 0) then mret 0
  else
    ev_reset ty ;;;
    let size := u32 (var_size t TElectricityMeter_Measurement EM_MEASUREMENT_COUNT ["m_count"] m_count) in
    assign_member EV "size" size ;;;
    if (0 <? size) && (size <=? SUPLA_CHANNELEXTENDEDVALUE_SIZE)
    then ev_store em_ev size ;;; mret 1
    else assign_member EV "size" 0 ;;; mret 0.

(** The common part of the functions that take details out of [ev]: the type and the
    size are checked, and the object gets the value followed by zeros. *)
Definition take_details (t : ctype) (ty : Z) (size_ok : Z -> bool) (ev : bytes)
    (k : Z -> M bytes Z) : M bytes Z :=
  let! ev_ty := mopt (ev_type ev) in
  let! size := mopt (ev_size ev) in
  if negb (ev_ty =? ty) || (size =? 0) || negb (size_ok size) then mret 0
  else
    let! d := mopt (peek ev_header size ev) in
    mput (zeros (sizeof t)) ;;; store 0 d ;;; k size.

(** RETURN_EXTENDED2EMEXTENDED *)
Definition extended2emextended (t : ctype) (ty : Z) (ev : bytes) : M bytes Z :=
  take_details t ty (fun size => size <=? sizeof t) ev (fun size =>
    let! em_ev := mget in
    let! m_count := mopt (read_member t ["m_count"] em_ev) in
    let expected_size :=
      if m_count <=? EM_MEASUREMENT_COUNT
      then i32 (var_size t TElectricityMeter_Measurement EM_MEASUREMENT_COUNT ["m_count"] m_count)
      else 0 in
    if negb (size =? u32 expected_size) then mput (zeros (sizeof t)) ;;; mret 0
    else mret 1).

(** A member of the source assigned to the member of the same name and type. *)
Definition copy_member (st dt : ctype) (source : bytes) (x : string) : M bytes unit :=
  let! v := mopt (read_bytes st [x] source) in
  let! o := mopt (option_map fst (member dt [x])) in
  store o v.

Fixpoint copy_members (st dt : ctype) (source : bytes) (xs : list string) : M bytes unit :=
  match xs with
  | [] => mret tt
  | x :: xs => copy_member st dt source x ;;; copy_members st dt source xs
  end.

(** EMEV_COPY *)
Definition emev_copy (st dt : ctype) (source : bytes) : M bytes unit :=
  mput (zeros (sizeof dt)) ;;;
  copy_members st dt source
    ["total_forward_active_energy"; "total_reverse_active_energy";
     "total_forward_reactive_energy"; "total_reverse_reactive_energy";
     "total_cost"; "price_per_unit"; "currency"; "measured_values"; "period"; "m_count"; "m"].

(** [dest->measured_values ^= dest->measured_values & flag;] *)
Definition clear_measured (t : ctype) (flag : Z) : M bytes unit :=
  let! b := mget in
  let! v := mopt (read_member t ["measured_values"] b) in
  assign_member t "measured_values" (Z.lxor v (Z.land v flag)).

Definition srpc_evtool_v1_emextended2extended :=
  not_null (emextended2extended TElectricityMeter_ExtendedValue EV_TYPE_ELECTRICITY_METER_MEASUREMENT_V1).
Definition srpc_evtool_v1_extended2emextended :=
  not_null (extended2emextended TElectricityMeter_ExtendedValue EV_TYPE_ELECTRICITY_METER_MEASUREMENT_V1).
Definition srpc_evtool_v2_emextended2extended :=
  not_null (emextended2extended TElectricityMeter_ExtendedValue_V2 EV_TYPE_ELECTRICITY_METER_MEASUREMENT_V2).
Definition srpc_evtool_v2_extended2emextended :=
  not_null (extended2emextended TElectricityMeter_ExtendedValue_V2 EV_TYPE_ELECTRICITY_METER_MEASUREMENT_V2).
Definition srpc_evtool_v3_emextended2extended :=
  not_null (emextended2extended TElectricityMeter_ExtendedValue_V3 EV_TYPE_ELECTRICITY_METER_MEASUREMENT_V3).
Definition srpc_evtool_v3_extended2emextended :=
  not_null (extended2emextended TElectricityMeter_ExtendedValue_V3 EV_TYPE_ELECTRICITY_METER_MEASUREMENT_V3).

Definition srpc_evtool_emev_v1to2 := not_null (fun v1 =>
  emev_copy TElectricityMeter_ExtendedValue TElectricityMeter_ExtendedValue_V2 v1 ;;;
  clear_measured TElectricityMeter_ExtendedValue_V2 EM_VAR_FORWARD_ACTIVE_ENERGY_BALANCED ;;;
  clear_measured TElectricityMeter_ExtendedValue_V2 EM_VAR_REVERSE_ACTIVE_ENERGY_BALANCED ;;;
  mret 1).

Definition srpc_evtool_emev_v2to1 := not_null (fun v2 =>
  emev_copy TElectricityMeter_ExtendedValue_V2 TElectricityMeter_ExtendedValue v2 ;;;
  clear_measured TElectricityMeter_ExtendedValue EM_VAR_FORWARD_ACTIVE_ENERGY_BALANCED ;;;
  clear_measured TElectricityMeter_ExtendedValue EM_VAR_REVERSE_ACTIVE_ENERGY_BALANCED ;;;
  mret 1).

(** What the conversions between the versions 2 and 3 do in both directions. *)
Definition emev_2_3 (st dt : ctype) (source : bytes) : M bytes Z :=
  emev_copy st dt source ;;;
  copy_members st dt source
    ["total_forward_active_energy_balanced"; "total_reverse_active_energy_balanced";
     "total_cost_balanced"] ;;;
  clear_measured dt EM_VAR_VOLTAGE_PHASE_ANGLE_12 ;;;
  clear_measured dt EM_VAR_VOLTAGE_PHASE_ANGLE_13 ;;;
  clear_measured dt EM_VAR_VOLTAGE_PHASE_SEQUENCE ;;;
  clear_measured dt EM_VAR_CURRENT_PHASE_SEQUENCE ;;;
  mret 1.

Definition srpc_evtool_emev_v2to3 :=
  not_null (emev_2_3 TElectricityMeter_ExtendedValue_V2 TElectricityMeter_ExtendedValue_V3).
Definition srpc_evtool_emev_v3to2 :=
  not_null (emev_2_3 TElectricityMeter_ExtendedValue_V3 TElectricityMeter_ExtendedValue_V2).

(** The latest version of the details, converted from an older one where the build
    defines USE_DEPRECATED_EMEV_V2 and USE_DEPRECATED_EMEV_V1; those branches read
    [ev->type] without testing the pointer. *)
Definition srpc_evtool_extended2emextended_latest (v2 v1 : bool) (ev em_ev : option bytes)
    : option (Z * option bytes) :=
  match srpc_evtool_v3_extended2emextended ev em_ev with
  | None => None
  | Some (r, em_ev) =>
      if negb (r =? 0) then Some (1, em_ev)
      else
        let ty := match ev with Some ev => ev_type ev | None => None end in
        let from_v2 em_ev2 em_ev :=
          match srpc_evtool_emev_v2to3 em_ev2 em_ev with
          | Some (r, em_ev) => Some (if r =? 0 then 0 else 1, em_ev)
          | None => None
          end in
        if v2 && negb (match ty with Some _ => true | None => false end) then None
        else if v2 && bool_decide (ty = Some EV_TYPE_ELECTRICITY_METER_MEASUREMENT_V2) then
          match srpc_evtool_v2_extended2emextended ev
                  (Some (zeros (sizeof TElectricityMeter_ExtendedValue_V2))) with
          | Some (r, em_ev2) => if r =? 0 then Some (0, em_ev) else from_v2 em_ev2 em_ev
          | None => None
          end
        else if v1 && negb (match ty with Some _ => true | None => false end) then None
        else if v1 && bool_decide (ty = Some EV_TYPE_ELECTRICITY_METER_MEASUREMENT_V1) then
          match srpc_evtool_v1_extended2emextended ev
                  (Some (zeros (sizeof TElectricityMeter_ExtendedValue))) with
          | Some (r, em_ev1) =>
              if r =? 0 then Some (0, em_ev)
              else
                match srpc_evtool_emev_v1to2 em_ev1
                        (Some (zeros (sizeof TElectricityMeter_ExtendedValue_V2))) with
                | Some (r, em_ev2) => if r =? 0 then Some (0, em_ev) else from_v2 em_ev2 em_ev
                | None => None
                end
          | None => None
          end
        else Some (0, em_ev)
  end.

(** ** Thermostats and impulse counters *)

Definition srpc_evtool_v1_extended2thermostatextended := not_null (fun ev =>
  take_details TThermostat_ExtendedValue EV_TYPE_THERMOSTAT_DETAILS_V1
    (fun size => size <=? sizeof TThermostat_ExtendedValue) ev (fun _ => mret 1)).

(** The size that is left when the members at the end that [fields] does not announce are
    left out; the first one it announces stops the shortening. *)
Fixpoint thermostat_size (fields : Z) (members : list (Z * string)) (size : Z) : option Z :=
  match members with
  | [] => Some size
  | (field, x) :: members =>
      if Z.land fields field =? 0 then
        match member TThermostat_ExtendedValue [x] with
        | Some (_, t) => thermostat_size fields members (u32 (size - sizeof t))
        | None => None
        end
      else Some size
  end.

Definition thermostat_members : list (Z * string) :=
  [(THERMOSTAT_FIELD_Schedule, "Schedule"); (THERMOSTAT_FIELD_Time, "Time");
   (THERMOSTAT_FIELD_Values, "Values"); (THERMOSTAT_FIELD_Flags, "Flags");
   (THERMOSTAT_FIELD_PresetTemperatures, "PresetTemperature");
   (THERMOSTAT_FIELD_MeasuredTemperatures, "MeasuredTemperature")].

Definition srpc_evtool_v1_thermostatextended2extended := not_null (fun th_ev =>
  ev_reset EV_TYPE_THERMOSTAT_DETAILS_V1 ;;;
  let! fields := mopt (read_member TThermostat_ExtendedValue ["Fields"] th_ev) in
  let! size := mopt (thermostat_size fields thermostat_members (sizeof TThermostat_ExtendedValue)) in
  if 0 <? size then
    assign_member EV "size" size ;;; ev_store th_ev size ;;; mret 1
  else mret 0).

Definition srpc_evtool_v1_icextended2extended := not_null (fun ic_ev =>
  ev_reset EV_TYPE_IMPULSE_COUNTER_DETAILS_V1 ;;;
  assign_member EV "size" (sizeof TSC_ImpulseCounter_ExtendedValue) ;;;
  ev_store ic_ev (sizeof TSC_ImpulseCounter_ExtendedValue) ;;; mret 1).

Definition srpc_evtool_v1_extended2icextended := not_null (fun ev =>
  take_details TSC_ImpulseCounter_ExtendedValue EV_TYPE_IMPULSE_COUNTER_DETAILS_V1
    (fun size => size =? sizeof TSC_ImpulseCounter_ExtendedValue) ev (fun _ => mret 1)).

(** ** Several values in one container

    These two functions are compiled where [unsigned int] has 32 bits. *)

(** [sizeof (TSuplaChannelExtendedValue) - (sizeof (ev->value) - ev->size)] *)
Definition ev_bytes (size : Z) : Z :=
  u32 (uN size_t_bits (sizeof EV - uN size_t_bits (SUPLA_CHANNELEXTENDEDVALUE_SIZE - size))).

(** The state is [dest]; [depth] bounds the recursion, [None] when it is exhausted. *)
Fixpoint value_add (depth : nat) (src : bytes) : M bytes Z :=
  match depth with
  | O => mopt None
  | S depth =>
      let! src_ty := mopt (ev_type src) in
      let! src_len := mopt (ev_size src) in
      if (src_ty =? EV_TYPE_NONE) || (src_len =? 0) then mret 0
      else
        let! dest := mget in
        let! dest_ty := mopt (ev_type dest) in
        if dest_ty =? EV_TYPE_NONE then store 0 src ;;; mret 1
        else
          let src_size := ev_bytes src_len in
          let! dest_len := mopt (ev_size dest) in
          if dest_ty =? EV_TYPE_MULTI_VALUE then
            if SUPLA_CHANNELEXTENDEDVALUE_SIZE <? u32 (dest_len + src_size) then mret 0
            else
              let! d := mopt (peek 0 src_size src) in
              store (ev_header + dest_len) d ;;;
              assign_member EV "size" (u32 (dest_len + src_size)) ;;; mret 1
          else
            let prev_size := ev_bytes dest_len in
            if SUPLA_CHANNELEXTENDEDVALUE_SIZE <? u32 (prev_size + src_size) then mret 0
            else
              assign_member EV "type" EV_TYPE_MULTI_VALUE ;;;
              assign_member EV "size" prev_size ;;;
              let! d := mopt (peek 0 prev_size dest) in
              store ev_header d ;;;
              value_add depth src
  end.

(** The function calls itself at most once. *)
Definition srpc_evtool_value_add (dest src : option bytes) : option (Z * option bytes) :=
  not_null (value_add 2) src dest.

(** The loop of [srpc_evtool_value_get], [k] values before the one asked for; [None] in
    the result is the end of the loop. *)
Fixpoint value_get_loop (ev : bytes) (size : Z) (k : nat) (offset : Z) : M bytes (option Z) :=
  if offset <? size then
    let next := drop (Z.to_nat (ev_header + offset)) ev in
    let! ty := mopt (ev_type next) in
    if ty =? EV_TYPE_NONE then mret (Some 0)
    else
      let! len := mopt (ev_size next) in
      if (len =? 0) || (SUPLA_CHANNELEXTENDEDVALUE_SIZE <? u32 (len + offset + ev_header))
      then mret (Some 0)
      else
        match k with
        | O =>
            let! d := mopt (peek 0 (u32 (ev_header + len)) next) in
            store 0 d ;;; mret (Some 1)
        | S k => value_get_loop ev size k (u32 (offset + u32 (ev_header + len)))
        end
  else mret None.

(** The state is [dest]; [index] is an [unsigned short]. *)
Definition value_get (index : Z) (ev : bytes) : M bytes Z :=
  let! ty := mopt (ev_type ev) in
  if ty =? EV_TYPE_NONE then mret 0
  else
    let! len := mopt (ev_size ev) in
    let! found :=
      (if ty =? EV_TYPE_MULTI_VALUE then
         value_get_loop ev
           (u32 (Z.min len SUPLA_CHANNELEXTENDEDVALUE_SIZE - ev_header)) (Z.to_nat index) 0
       else mret None) in
    match found with
    | Some r => mret r
    | None => if index =? 0 then store 0 ev ;;; mret 1 else mret 0
    end.

Definition srpc_evtool_value_get (ev : option bytes) (index : Z) (dest : option bytes)
    : option (Z * option bytes) :=
  not_null (value_get index) ev dest.

End ExtValue.
