(* ===== verification/ExtValueProps.v ===== *)
(** * srpc.c: what the containers of extended values hold

    A container with one or several values is a list of typed values: adding appends,
    getting reads by position.  Details that are put into a container come out again. *)
From S2P Require Import Prelude Platform Heap Lck CLayout ProtoConsts ProtoTypes Proto ProtoFacts.
From S2P Require Import SrpcQueue Srpc SrpcCall SrpcAsync ExtValue.

(** ** The abstract container: a list of typed values *)

Record value := { v_type : Z; v_data : bytes }.

(** A value as it stands in memory, without the unused end of its object. *)
Definition enc (v : value) : bytes :=
  le_split 1 (v_type v) ++ le_split 4 (Zlen (v_data v)) ++ v_data v.

Lemma enc_app t d rest : enc {| v_type := t; v_data := d |} ++ rest
  = le_split 1 t ++ le_split 4 (Zlen d) ++ d ++ rest.
Proof. unfold enc. cbn [v_type v_data]. by rewrite <-!app_assoc. Qed.

Section Container.
Context `{PL : PlatformLaws}.

Definition multi (l : list value) : value :=
  {| v_type := EV_TYPE_MULTI_VALUE; v_data := concat (map enc l) |}.

Definition is_value (ev : bytes) (v : value) : Prop :=
  Zlen ev = sizeof EV /\ exists rest, ev = enc v ++ rest.

(** The container [ev] holds the values [l]. *)
Definition holds_values (ev : bytes) (l : list value) : Prop :=
  match l with
  | [] => Zlen ev = sizeof EV /\ ev_type ev = Some EV_TYPE_NONE
  | [v] => is_value ev v
  | _ => is_value ev (multi l)
  end.

(** A value that can be stored: its type is a [char] and neither of the two special ones,
    its data is not empty. *)
Definition value_ok (v : value) : Prop :=
  to_char (v_type v) = v_type v /\ v_type v <> EV_TYPE_NONE /\ v_type v <> EV_TYPE_MULTI_VALUE /\
  0 < Zlen (v_data v).

(** The bytes a list of values takes in a container. *)
Definition total (l : list value) : Z := Zlen (concat (map enc l)).

Lemma sizeof_EV : sizeof EV = 5 + SUPLA_CHANNELEXTENDEDVALUE_SIZE.
Proof. cbn [sizeof EV TSuplaChannelExtendedValue char_t supla_uint_t]. lia. Qed.

Lemma ev_header_5 : ev_header = 5.
Proof. unfold ev_header. rewrite sizeof_EV. lia. Qed.

Lemma Zlen_enc v : Zlen (enc v) = 5 + Zlen (v_data v).
Proof. unfold enc. zlen. Qed.

Lemma ev_bytes_small n : 0 <= n <= SUPLA_CHANNELEXTENDEDVALUE_SIZE -> ev_bytes n = 5 + n.
Proof.
  platform. intros. unfold ev_bytes. rewrite sizeof_EV.
  assert (2 ^ 16 <= 2 ^ size_t_bits) by (apply Z.pow_le_mono_r; lia).
  rewrite (uN_small size_t_bits (SUPLA_CHANNELEXTENDEDVALUE_SIZE - n)) by lia.
  rewrite (uN_small size_t_bits), (uN_small 32) by lia. lia.
Qed.

(** Reading the two members that precede the value. *)
Lemma ev_type_enc v rest : to_char (v_type v) = v_type v -> ev_type (enc v ++ rest) = Some (v_type v).
Proof.
  intros Hc. unfold ev_type, read_member.
  change (member EV ["type"]) with (Some (0, TInt char_signed 1)). cbn [sizeof].
  rewrite peek_Some by (unfold enc; zlen). cbn [Z.to_nat]. rewrite drop_0.
  unfold enc. rewrite <-!app_assoc. rewrite take_Zlen_app by zlen.
  unfold to_char in Hc. destruct char_signed; cbn [scalar]; rewrite le_combine_split; f_equal.
  - change (Z.of_nat 1 * 8) with 8. unfold sN in *. by rewrite Zplus_mod_idemp_l.
  - exact Hc.
Qed.

Lemma ev_size_enc v rest : Zlen (v_data v) < 2 ^ 32 -> ev_size (enc v ++ rest) = Some (Zlen (v_data v)).
Proof.
  intros Hl. unfold ev_size, read_member.
  change (member EV ["size"]) with (Some (1, TInt false 4)). cbn [sizeof scalar].
  pose proof (Zlen_nonneg (v_data v)). rewrite peek_Some by (unfold enc; zlen).
  unfold enc. rewrite <-!app_assoc. rewrite drop_Zlen_app by zlen. rewrite take_Zlen_app by zlen.
  rewrite le_combine_split. f_equal. by apply (uN_small 32).
Qed.

Lemma to_char_multi : to_char EV_TYPE_MULTI_VALUE = EV_TYPE_MULTI_VALUE.
Proof. unfold to_char. by destruct char_signed. Qed.

(** The data of a value in an object of a container's size. *)
Lemma is_value_size ev v : is_value ev v -> 0 <= Zlen (v_data v) <= SUPLA_CHANNELEXTENDEDVALUE_SIZE.
Proof.
  intros [Hl (rest & ->)]. rewrite sizeof_EV, Zlen_app, Zlen_enc in Hl.
  pose proof (Zlen_nonneg rest). pose proof (Zlen_nonneg (v_data v)). lia.
Qed.

Lemma is_value_type ev v : is_value ev v -> to_char (v_type v) = v_type v -> ev_type ev = Some (v_type v).
Proof. intros [_ (rest & ->)]. apply ev_type_enc. Qed.

Lemma is_value_len ev v : is_value ev v -> ev_size ev = Some (Zlen (v_data v)).
Proof.
  intros Hv. pose proof (is_value_size _ _ Hv). platform. destruct Hv as [_ (rest & ->)].
  apply ev_size_enc. lia.
Qed.

(** The bytes of a value that are copied. *)
Lemma peek_enc v rest n : n = 5 + Zlen (v_data v) -> peek 0 n (enc v ++ rest) = Some (enc v).
Proof.
  intros ->. rewrite <-Zlen_enc. rewrite peek_0 by (rewrite Zlen_app; zlen_pose; lia).
  by rewrite take_Zlen_app.
Qed.

Lemma wp_assign_size t k n X Q :
  Q tt (le_split 1 t ++ le_split 4 n ++ X) ->
  wp (assign_member EV "size" n) Q (le_split 1 t ++ le_split 4 k ++ X).
Proof.
  intros HQ. unfold assign_member. wp_steps. eapply wp_opt; [|wp_steps; exact HQ].
  unfold write_member. change (member EV ["size"]) with (Some (1, TInt false 4)). cbn [sizeof].
  apply poke_app; zlen.
Qed.

Lemma wp_assign_type t u X Q :
  Q tt (le_split 1 t ++ X) -> wp (assign_member EV "type" t) Q (le_split 1 u ++ X).
Proof.
  intros HQ. unfold assign_member. wp_steps. eapply wp_opt; [|wp_steps; exact HQ].
  unfold write_member. change (member EV ["type"]) with (Some (0, TInt char_signed 1)). cbn [sizeof].
  apply (poke_app []); zlen.
Qed.

Lemma wp_store off p m s d Q : off = Zlen p -> Zlen m = Zlen d ->
  Q tt (p ++ d ++ s) -> wp (store off d) Q (p ++ m ++ s).
Proof.
  intros. unfold store. wp_steps. eapply wp_opt; [by apply poke_app|]. by wp_steps.
Qed.

(** Whole objects are copied. *)
Lemma wp_store_all d b Q : Zlen d = Zlen b -> Q tt d -> wp (store 0 d) Q b.
Proof.
  intros Hl HQ. rewrite <-(app_nil_l b), <-(app_nil_r b). apply wp_store; [done|done|].
  by rewrite app_nil_l, app_nil_r.
Qed.

(** ** Adding a value *)

(** The tests at the start of [srpc_evtool_value_add] pass for a value. *)
Lemma wp_value_add_src depth src v Q dest : value_ok v -> is_value src v ->
  wp (let! dest := mget in
      let! dest_ty := mopt (ev_type dest) in
      if dest_ty =? EV_TYPE_NONE then store 0 src ;;; mret 1
      else
        let! dest_len := mopt (ev_size dest) in
        if dest_ty =? EV_TYPE_MULTI_VALUE then
          if SUPLA_CHANNELEXTENDEDVALUE_SIZE <? u32 (dest_len + Zlen (enc v)) then mret 0
          else
            store (ev_header + dest_len) (enc v) ;;;
            assign_member EV "size" (u32 (dest_len + Zlen (enc v))) ;;; mret 1
        else
          let prev_size := ev_bytes dest_len in
          if SUPLA_CHANNELEXTENDEDVALUE_SIZE <? u32 (prev_size + Zlen (enc v)) then mret 0
          else
            assign_member EV "type" EV_TYPE_MULTI_VALUE ;;;
            assign_member EV "size" prev_size ;;;
            let! d := mopt (peek 0 prev_size dest) in
            store ev_header d ;;; value_add depth src) Q dest ->
  wp (value_add (S depth) src) Q dest.
Proof.
  intros (Hc & Hnone & Hmulti & Hpos) Hsrc Hw. pose proof (is_value_size _ _ Hsrc) as Hs.
  cbn [value_add]. apply wp_bnd. eapply wp_opt; [by apply (is_value_type _ v)|].
  apply wp_bnd. eapply wp_opt; [by apply (is_value_len _ v)|].
  rewrite (proj2 (Z.eqb_neq _ _)) by done. rewrite (proj2 (Z.eqb_neq (Zlen _) 0)) by lia. cbn [orb].
  rewrite ev_bytes_small by lia. rewrite <-Zlen_enc. revert Hw.
  unfold wp, mbnd, mget, mopt. destruct (ev_type dest) as [ty|]; [|done].
  case_if; [done|]. destruct (ev_size dest) as [n|]; [|done]. case_if; [|done]. case_if; [done|].
  destruct Hsrc as [_ (rest & ->)]. by rewrite peek_enc by (by rewrite Zlen_enc).
Qed.

(** Into a container of several values, or one that is becoming one. *)
Lemma wp_value_add_multi depth src v D dest :
  value_ok v -> is_value src v -> is_value dest {| v_type := EV_TYPE_MULTI_VALUE; v_data := D |} ->
  wp (value_add (S depth) src) (fun r dest' =>
    if Zlen D + Zlen (enc v) <=? SUPLA_CHANNELEXTENDEDVALUE_SIZE
    then r = 1 /\ is_value dest' {| v_type := EV_TYPE_MULTI_VALUE; v_data := D ++ enc v |}
    else r = 0 /\ dest' = dest) dest.
Proof.
  intros Hv Hsrc Hdest. pose proof (is_value_size _ _ Hsrc). pose proof (is_value_size _ _ Hdest) as Hd.
  cbn [v_data] in Hd. platform. apply (wp_value_add_src depth src v); [done|done|].
  wp_steps. eapply wp_opt; [apply (is_value_type _ _ Hdest), to_char_multi|].
  cbn [v_type EV_TYPE_MULTI_VALUE EV_TYPE_NONE Z.eqb Pos.eqb]. wp_steps.
  eapply wp_opt; [apply (is_value_len _ _ Hdest)|]. cbn [v_data].
  rewrite (uN_small 32) by (rewrite Zlen_enc; lia). rewrite Z.leb_antisym.
  destruct (Z.ltb_spec SUPLA_CHANNELEXTENDEDVALUE_SIZE (Zlen D + Zlen (enc v))); cbn [negb].
  { by apply wp_ret. }
  destruct Hdest as [Hl (rest & ->)]. pose proof Hl as Hl'.
  rewrite sizeof_EV, Zlen_app, Zlen_enc in Hl'. cbn [v_data] in Hl'. rewrite ev_header_5.
  assert (Ht : Zlen (take (length (enc v)) rest) = Zlen (enc v))
    by (unfold Zlen in *; rewrite length_take; lia).
  rewrite <-(take_drop (length (enc v)) rest).
  wp_steps. apply wp_store; [by rewrite Zlen_enc|done|].
  rewrite enc_app. wp_steps. apply wp_assign_size. wp_steps. split; [done|]. split.
  - rewrite sizeof_EV. pose proof (Zlen_nonneg rest). zlen.
  - exists (drop (length (enc v)) rest). rewrite enc_app, Zlen_app. by rewrite <-!app_assoc.
Qed.

Lemma wp_value_add l src v dest :
  Forall value_ok l -> value_ok v -> is_value src v -> holds_values dest l ->
  wp (value_add 2 src) (fun r dest' =>
    if bool_decide (l = []) || (total (l ++ [v]) <=? SUPLA_CHANNELEXTENDEDVALUE_SIZE)
    then r = 1 /\ holds_values dest' (l ++ [v])
    else r = 0 /\ dest' = dest) dest.
Proof.
  intros Hl Hv Hsrc Hdest. platform. destruct l as [|a [|b l]].
  - destruct Hdest as [Hlen Hty]. apply (wp_value_add_src 1 src v); [done|done|].
    wp_steps. eapply wp_opt; [exact Hty|]. rewrite Z.eqb_refl. wp_steps.
    apply wp_store_all; [by rewrite Hlen; apply Hsrc|]. by wp_steps.
  - inversion Hl as [|? ? Ha _ E1]; subst. pose proof (is_value_size _ _ Hdest) as Hs.
    pose proof (is_value_size _ _ Hsrc). destruct Ha as (Hac & Han & Ham & Hap).
    apply (wp_value_add_src 1 src v); [done|done|].
    wp_steps. eapply wp_opt; [by apply (is_value_type _ a)|].
    rewrite !(proj2 (Z.eqb_neq _ _)) by done. wp_steps.
    eapply wp_opt; [by apply (is_value_len _ a)|]. rewrite ev_bytes_small, <-Zlen_enc by lia. cbv zeta.
    rewrite (uN_small 32) by (rewrite !Zlen_enc; lia).
    assert (Ht : total ([a] ++ [v]) = Zlen (enc a) + Zlen (enc v))
      by (unfold total; cbn [app map concat]; by rewrite app_nil_r, Zlen_app).
    rewrite Ht, Z.leb_antisym. cbn [orb].
    destruct (Z.ltb_spec SUPLA_CHANNELEXTENDEDVALUE_SIZE (Zlen (enc a) + Zlen (enc v))); cbn [negb].
    { rewrite bool_decide_false by done. by apply wp_ret. }
    rewrite orb_true_r. destruct Hdest as [Hlen (rest & ->)].
    rewrite peek_enc by (by rewrite Zlen_enc). unfold enc at 3. rewrite <-!app_assoc.
    wp_steps. apply wp_assign_type. wp_steps. apply wp_assign_size. wp_steps.
    rewrite ev_header_5. set (X := v_data a ++ rest).
    assert (HX : Zlen X = SUPLA_CHANNELEXTENDEDVALUE_SIZE)
      by (rewrite sizeof_EV, Zlen_app, Zlen_enc in Hlen; unfold X; rewrite Zlen_app; lia).
    assert (Htk : Zlen (take (length (enc a)) X) = Zlen (enc a))
      by (zlen_pose; unfold Zlen in *; rewrite length_take; lia).
    rewrite <-(take_drop (length (enc a)) X), app_assoc. apply wp_bnd, wp_store; [zlen|done|].
    set (dest := _ ++ enc a ++ _).
    assert (Hd : is_value dest {| v_type := EV_TYPE_MULTI_VALUE; v_data := enc a |}).
    { split; [|exists (drop (length (enc a)) X); by rewrite enc_app, app_assoc].
      unfold dest. rewrite sizeof_EV. zlen. }
    eapply wp_mono; [by apply (wp_value_add_multi 0 src v (enc a))|].
    intros r dest'. rewrite (proj2 (Z.leb_le _ _)) by done. intros [-> Hd']. split; [done|].
    unfold holds_values, multi. cbn [app map concat]. by rewrite app_nil_r.
  - rewrite bool_decide_false by done. cbn [orb].
    eapply wp_mono; [by apply (wp_value_add_multi 1 src v)|]. intros r dest'.
    assert (Ht : total ((a :: b :: l) ++ [v]) = Zlen (concat (map enc (a :: b :: l))) + Zlen (enc v)).
    { unfold total. rewrite map_app, concat_app, Zlen_app. cbn [map concat]. by rewrite app_nil_r. }
    rewrite Ht. case_if; [|done]. intros [-> Hd']. split; [done|].
    unfold holds_values, multi. cbn [app].
    change (a :: b :: l ++ [v]) with ((a :: b :: l) ++ [v]). rewrite map_app, concat_app.
    cbn [map concat]. by rewrite app_nil_r.
Qed.

(** ** Getting a value *)

Lemma wp_value_get_loop ev tot rest l : forall k offset pre dest,
  ev = pre ++ concat (map enc l) ++ rest -> Zlen pre = 5 + offset -> 0 <= offset ->
  offset + total l = tot -> tot <= SUPLA_CHANNELEXTENDEDVALUE_SIZE ->
  Forall value_ok l -> Zlen dest = sizeof EV ->
  wp (value_get_loop ev (tot - 5) k offset) (fun r dest' =>
    match l !! k with
    | Some v => r = Some 1 /\ is_value dest' v
    | None => r = None /\ dest' = dest
    end) dest.
Proof.
  platform. induction l as [|v l IH]; intros k offset pre dest Hev Hpre Ho Htot Hmax Hl Hdest.
  { unfold total in Htot. cbn [map concat] in Htot. rewrite Zlen_nil in Htot.
    destruct k; cbn [value_get_loop]; rewrite (proj2 (Z.ltb_ge _ _)) by lia; by apply wp_ret. }
  inversion Hl as [|? ? (Hc & Hnone & Hmulti & Hpos) Hl' E]; subst v l0.
  assert (Ht : total (x :: l) = 5 + Zlen (v_data x) + total l)
    by (unfold total; cbn [map concat]; rewrite Zlen_app, Zlen_enc; lia).
  assert (0 <= total l) by apply Zlen_nonneg. rewrite Ht in Htot.
  assert (Hnext : drop (Z.to_nat (ev_header + offset)) ev = enc x ++ concat (map enc l) ++ rest).
  { rewrite Hev, drop_Zlen_app by (rewrite ev_header_5; lia). cbn [map concat].
    by rewrite <-app_assoc. }
  assert (Hsmall : u32 (Zlen (v_data x) + offset + 5) = Zlen (v_data x) + offset + 5)
    by (apply uN_small; lia).
  destruct k as [|k]; cbn [value_get_loop]; rewrite (proj2 (Z.ltb_lt _ _)) by lia; cbv zeta;
    rewrite Hnext, ev_header_5; apply wp_bnd; (eapply wp_opt; [by apply ev_type_enc|]);
    rewrite (proj2 (Z.eqb_neq _ _)) by done; apply wp_bnd;
    (eapply wp_opt; [apply ev_size_enc; lia|]);
    rewrite Hsmall, (proj2 (Z.eqb_neq _ 0)), (proj2 (Z.ltb_ge _ _)) by lia; cbn [orb];
    rewrite (uN_small 32 (5 + _)) by lia.
  - wp_steps. eapply wp_opt; [by apply peek_enc|]. wp_steps.
    assert (Hlen : Zlen (enc x) <= Zlen dest) by (rewrite Hdest, sizeof_EV, Zlen_enc; lia).
    rewrite <-(take_drop (length (enc x)) dest), <-(app_nil_l (take _ _ ++ _)).
    apply wp_store; [done|unfold Zlen in *; rewrite length_take; lia|]. wp_steps.
    split; [done|]. rewrite app_nil_l. split; [|by eexists].
    rewrite <-Hdest. unfold Zlen in *. rewrite length_app, length_drop. lia.
  - rewrite (uN_small 32) by lia. cbn [lookup list_lookup].
    apply (IH k (offset + (5 + Zlen (v_data x))) (pre ++ enc x)); try done; try lia.
    + rewrite Hev. cbn [map concat]. by rewrite <-!app_assoc.
    + rewrite Zlen_app, Zlen_enc. lia.
Qed.

Lemma wp_value_get l index ev dest :
  Forall value_ok l -> holds_values ev l -> 0 <= index -> Zlen dest = sizeof EV ->
  wp (value_get index ev) (fun r dest' =>
    match l !! Z.to_nat index with
    | Some v => r = 1 /\ is_value dest' v
    | None => r = 0 /\ dest' = dest
    end) dest.
Proof.
  intros Hl Hev Hi Hdest. platform. unfold value_get. destruct l as [|a [|b l]].
  - destruct Hev as [Hlen Hty]. apply wp_bnd. eapply wp_opt; [exact Hty|]. by apply wp_ret.
  - inversion Hl as [|? ? (Hc & Hnone & Hmulti & _) _ E]; subst. apply wp_bnd.
    eapply wp_opt; [by apply (is_value_type _ a)|]. rewrite !(proj2 (Z.eqb_neq _ _)) by done.
    apply wp_bnd. eapply wp_opt; [by apply (is_value_len _ a)|]. wp_steps.
    destruct (Z.eqb_spec index 0) as [->|Hne].
    + cbn [Z.to_nat lookup list_lookup]. wp_steps.
      apply wp_store_all; [rewrite Hdest; apply Hev|]. by wp_steps.
    + apply wp_ret. destruct (Z.to_nat index) as [|i] eqn:Ei; [lia|]. done.
  - set (vs := a :: b :: l) in *. change (is_value ev (multi vs)) in Hev.
    pose proof (is_value_size _ _ Hev) as Hs. cbn [multi v_data] in Hs. fold (total vs) in Hs.
    apply wp_bnd. eapply wp_opt; [apply (is_value_type _ _ Hev), to_char_multi|].
    cbn [multi v_type EV_TYPE_MULTI_VALUE EV_TYPE_NONE Z.eqb Pos.eqb].
    apply wp_bnd. eapply wp_opt; [apply (is_value_len _ _ Hev)|]. cbn [multi v_data]. fold (total vs).
    assert (6 <= total vs).
    { unfold total, vs. cbn [map concat]. rewrite !Zlen_app, !Zlen_enc.
      pose proof (Zlen_nonneg (v_data a)). pose proof (Zlen_nonneg (v_data b)). zlen_pose. lia. }
    rewrite Z.min_l, ev_header_5, (uN_small 32) by lia. destruct Hev as [_ (rest & Hev)].
    apply wp_bnd. eapply wp_mono.
    + apply (wp_value_get_loop ev (total vs) rest vs (Z.to_nat index) 0
        (le_split 1 EV_TYPE_MULTI_VALUE ++ le_split 4 (total vs)));
        [|done|lia|lia|lia|done|done].
      rewrite Hev. unfold multi. rewrite enc_app. by rewrite <-app_assoc.
    + intros r dest'. cbn beta. destruct (vs !! Z.to_nat index) eqn:Ev; intros [-> Hd].
      * by apply wp_ret.
      * assert (index <> 0) by (intros ->; done). rewrite (proj2 (Z.eqb_neq index 0)) by done.
        by apply wp_ret.
Qed.

(** C14: a container is a list.  A value is appended to the values a container holds
    exactly when it fits behind them, and otherwise the container stays as it was; a
    position yields the value that stands there, and beyond the last one the answer is 0
    and nothing is written. *)
Theorem values_are_a_list l v ev src index dest :
  Forall value_ok l -> holds_values ev l ->
  value_ok v -> is_value src v -> 0 <= index -> Zlen dest = sizeof EV ->
  (exists r ev', srpc_evtool_value_add (Some ev) (Some src) = Some (r, Some ev') /\
     if bool_decide (l = []) || (total (l ++ [v]) <=? SUPLA_CHANNELEXTENDEDVALUE_SIZE)
     then r = 1 /\ holds_values ev' (l ++ [v]) else r = 0 /\ ev' = ev) /\
  (exists r dest', srpc_evtool_value_get (Some ev) index (Some dest) = Some (r, Some dest') /\
     match l !! Z.to_nat index with
     | Some v => r = 1 /\ is_value dest' v
     | None => r = 0 /\ dest' = dest
     end).
Proof.
  intros Hl Hev Hv Hsrc Hi Hdest. unfold srpc_evtool_value_add, srpc_evtool_value_get, not_null. split.
  - pose proof (wp_value_add l src v ev Hl Hv Hsrc Hev) as Hw. apply wp_run in Hw.
    destruct Hw as (r & ev' & -> & H'). by exists r, ev'.
  - pose proof (wp_value_get l index ev dest Hl Hev Hi Hdest) as Hw. apply wp_run in Hw.
    destruct Hw as (r & dest' & -> & H'). by exists r, dest'.
Qed.

End Container.

(** ** Witness *)

(** A container with a counter and a thermostat, and a third value. *)
Definition counter_value : value := {| v_type := EV_TYPE_IMPULSE_COUNTER_DETAILS_V1; v_data := zeros 40 |}.
Definition thermostat_value : value := {| v_type := EV_TYPE_THERMOSTAT_DETAILS_V1; v_data := [Byte.x01; Byte.x02] |}.
Definition two_values : bytes :=
  le_split 1 EV_TYPE_MULTI_VALUE ++ le_split 4 52 ++ enc counter_value ++ enc thermostat_value ++ zeros 972.

Lemma values_are_a_list_witness :
  let src := enc counter_value ++ zeros 984 in
  (exists r ev', @srpc_evtool_value_add generic64 (Some two_values) (Some src) = Some (r, Some ev') /\
     r = 1 /\ @holds_values generic64 ev' [counter_value; thermostat_value; counter_value]) /\
  (exists r dest', @srpc_evtool_value_get generic64 (Some two_values) 1 (Some (zeros 1029)) = Some (r, Some dest') /\
     r = 1 /\ @is_value generic64 dest' thermostat_value).
Proof.
  apply (@values_are_a_list generic64 _ [counter_value; thermostat_value] counter_value two_values
    (enc counter_value ++ zeros 984) 1 (zeros 1029)).
  - repeat constructor; discriminate.
  - split; [reflexivity|]. eexists. vm_compute. reflexivity.
  - repeat constructor; discriminate.
  - split; [reflexivity|]. by eexists.
  - lia.
  - reflexivity.
Defined.
