(* ===== verification/ExtDetails.v ===== *)
(** * srpc.c: details in extended values

    The details of a meter, a thermostat or a counter that are put into a container come
    out of it again as far as they are in use. *)
From S2P Require Import Prelude Platform Heap Lck CLayout ProtoConsts ProtoTypes Proto ProtoFacts.
From S2P Require Import SrpcQueue Srpc SrpcCall SrpcPack SrpcPackFacts SrpcGetData SrpcGetDataFacts.
From S2P Require Import SrpcGetDataProps SrpcAsync SrpcAsyncClient SrpcAsyncProps ExtValue ExtValueProps.

(** The kinds of details. *)
Inductive details := Meter1 | Meter2 | Meter3 | Thermostat | Counter.

Section Details.
Context `{Platform}.

Definition details_type (k : details) : ctype :=
  match k with
  | Meter1 => TElectricityMeter_ExtendedValue
  | Meter2 => TElectricityMeter_ExtendedValue_V2
  | Meter3 => TElectricityMeter_ExtendedValue_V3
  | Thermostat => TThermostat_ExtendedValue
  | Counter => TSC_ImpulseCounter_ExtendedValue
  end.

Definition details_ev_type (k : details) : Z :=
  match k with
  | Meter1 => EV_TYPE_ELECTRICITY_METER_MEASUREMENT_V1
  | Meter2 => EV_TYPE_ELECTRICITY_METER_MEASUREMENT_V2
  | Meter3 => EV_TYPE_ELECTRICITY_METER_MEASUREMENT_V3
  | Thermostat => EV_TYPE_THERMOSTAT_DETAILS_V1
  | Counter => EV_TYPE_IMPULSE_COUNTER_DETAILS_V1
  end.

(** The functions for a kind. *)
Definition to_extended (k : details) : option bytes -> option bytes -> option (Z * option bytes) :=
  match k with
  | Meter1 => srpc_evtool_v1_emextended2extended
  | Meter2 => srpc_evtool_v2_emextended2extended
  | Meter3 => srpc_evtool_v3_emextended2extended
  | Thermostat => srpc_evtool_v1_thermostatextended2extended
  | Counter => srpc_evtool_v1_icextended2extended
  end.

Definition from_extended (k : details) : option bytes -> option bytes -> option (Z * option bytes) :=
  match k with
  | Meter1 => srpc_evtool_v1_extended2emextended
  | Meter2 => srpc_evtool_v2_extended2emextended
  | Meter3 => srpc_evtool_v3_extended2emextended
  | Thermostat => srpc_evtool_v1_extended2thermostatextended
  | Counter => srpc_evtool_v1_extended2icextended
  end.

(** The bytes in use: up to the last measurement that is counted, up to the last member
    that is announced, all of them. *)
Definition used (k : details) (d : bytes) : option Z :=
  let t := details_type k in
  match k with
  | Meter1 | Meter2 | Meter3 =>
      match read_member t ["m_count"] d with
      | Some n =>
          if (0 <=? n) && (n <=? EM_MEASUREMENT_COUNT)
          then Some (sizeof t - sizeof TElectricityMeter_Measurement * (EM_MEASUREMENT_COUNT - n))
          else None
      | None => None
      end
  | Thermostat =>
      match read_member t ["Fields"] d with
      | Some fields => thermostat_size fields thermostat_members (sizeof t)
      | None => None
      end
  | Counter => Some (sizeof t)
  end.

(** The layout of the meters on a build, and that details fit into a container. *)
Definition meter_ok (k : details) : bool :=
  let t := details_type k in
  let base := sizeof t - sizeof TElectricityMeter_Measurement * EM_MEASUREMENT_COUNT in
  (0 <? base) && (sizeof t <? 2 ^ 15) && count_ok t base ["m_count"].
Definition details_ok : bool :=
  meter_ok Meter1 && meter_ok Meter2 && meter_ok Meter3
  && forallb (fun k => sizeof (details_type k) <=? SUPLA_CHANNELEXTENDEDVALUE_SIZE)
       [Meter1; Meter2; Meter3; Thermostat; Counter].

End Details.

(** What the theorems assume of a build. *)
Class DetailsOk (P : Platform) := { details_fit : details_ok = true }.

#[export] Instance linux_device_details : DetailsOk linux_device.
Proof. constructor. vm_compute. reflexivity. Qed.
#[export] Instance esp_idf_details : DetailsOk esp_idf.
Proof. constructor. vm_compute. reflexivity. Qed.
#[export] Instance arduino_esp_details : DetailsOk arduino_esp.
Proof. constructor. vm_compute. reflexivity. Qed.
#[export] Instance arduino_mega_details : DetailsOk arduino_mega.
Proof. constructor. vm_compute. reflexivity. Qed.
#[export] Instance esp8266_nonos_details : DetailsOk esp8266_nonos.
Proof. constructor. vm_compute. reflexivity. Qed.
#[export] Instance generic64_details : DetailsOk generic64.
Proof. constructor. vm_compute. reflexivity. Qed.
#[export] Instance generic_arm32_details : DetailsOk generic_arm32.
Proof. constructor. vm_compute. reflexivity. Qed.

Section RoundTrip.
Context `{PL : PlatformLaws} {DO : DetailsOk P}.

Lemma details_fits k : sizeof (details_type k) <= SUPLA_CHANNELEXTENDEDVALUE_SIZE.
Proof.
  pose proof details_fit as Hd. unfold details_ok in Hd. cbn [forallb] in Hd.
  bools. by destruct k.
Qed.

Lemma meter_fits k : k = Meter1 \/ k = Meter2 \/ k = Meter3 -> meter_ok k = true.
Proof.
  pose proof details_fit as Hd. unfold details_ok in Hd. cbn [forallb] in Hd.
  bools. by intros [->|[->| ->]].
Qed.

(** The container with a type, a size, and nothing in its value. *)
Definition ev_empty (t k : Z) : bytes :=
  le_split 1 t ++ le_split 4 k ++ zeros SUPLA_CHANNELEXTENDEDVALUE_SIZE.

Lemma wp_ev_reset t Q s : Q tt (ev_empty t 0) -> wp (ev_reset t) Q s.
Proof.
  intros HQ. platform. unfold ev_reset. wp_steps.
  assert (zeros (sizeof EV) = le_split 1 0 ++ le_split 4 0 ++ zeros SUPLA_CHANNELEXTENDEDVALUE_SIZE) as ->.
  { rewrite sizeof_EV, <-zeros_app by lia. reflexivity. }
  by apply wp_assign_type.
Qed.

Lemma wp_ev_store d n t k Q : 0 <= n <= Zlen d -> n <= SUPLA_CHANNELEXTENDEDVALUE_SIZE ->
  Q tt (le_split 1 t ++ le_split 4 k ++ take (Z.to_nat n) d
        ++ zeros (SUPLA_CHANNELEXTENDEDVALUE_SIZE - n)) ->
  wp (ev_store d n) Q (ev_empty t k).
Proof.
  intros Hd Hn HQ. unfold ev_store, ev_empty. wp_steps. eapply wp_opt; [by apply peek_0|].
  replace SUPLA_CHANNELEXTENDEDVALUE_SIZE with (n + (SUPLA_CHANNELEXTENDEDVALUE_SIZE - n)) by lia.
  rewrite <-zeros_app, (app_assoc (le_split 1 t)) by lia. rewrite ev_header_5.
  apply wp_store; [zlen|zlen|]. rewrite <-app_assoc.
  done.
Qed.

(** Taking out what is there. *)
Lemma wp_take_details t ty ok ev D K Q out :
  is_value ev {| v_type := ty; v_data := D |} -> to_char ty = ty ->
  0 < Zlen D <= sizeof t -> ok (Zlen D) = true ->
  wp (K (Zlen D)) Q (D ++ zeros (sizeof t - Zlen D)) -> wp (take_details t ty ok ev K) Q out.
Proof.
  intros Hev Hty HD Hok HQ. unfold take_details.
  apply wp_bnd. eapply wp_opt; [by apply (is_value_type _ _ Hev)|]. cbn [v_type].
  apply wp_bnd. eapply wp_opt; [by apply (is_value_len _ _ Hev)|]. cbn [v_data].
  rewrite Z.eqb_refl, (proj2 (Z.eqb_neq (Zlen D) 0)), Hok by lia. cbn [negb orb].
  destruct Hev as [_ (rest & ->)]. rewrite enc_app, (app_assoc (le_split 1 ty)), ev_header_5.
  wp_steps. eapply wp_opt.
  { rewrite peek_Some by zlen. rewrite drop_Zlen_app by zlen. by rewrite take_Zlen_app. }
  wp_steps. replace (sizeof t) with (Zlen D + (sizeof t - Zlen D)) at 1 by lia.
  rewrite <-zeros_app by lia. rewrite <-(app_nil_l (zeros (Zlen D) ++ _)).
  apply wp_store; [done|zlen|]. done.
Qed.

(** The size of a meter's details with [n] measurements. *)
Lemma meter_size k n : meter_ok k = true -> 0 <= n <= EM_MEASUREMENT_COUNT ->
  let t := details_type k in
  let size := sizeof t - sizeof TElectricityMeter_Measurement * (EM_MEASUREMENT_COUNT - n) in
  var_size t TElectricityMeter_Measurement EM_MEASUREMENT_COUNT ["m_count"] n = size /\
  sizeof t - sizeof TElectricityMeter_Measurement * EM_MEASUREMENT_COUNT <= size /\
  0 < size <= sizeof t /\ sizeof t < 2 ^ 15.
Proof.
  unfold meter_ok. cbv zeta. intros Hok Hn. bools. platform.
  assert (0 < sizeof TElectricityMeter_Measurement) by reflexivity.
  assert (sizeof TElectricityMeter_Measurement * (EM_MEASUREMENT_COUNT - n)
    <= sizeof TElectricityMeter_Measurement * EM_MEASUREMENT_COUNT)
    by (apply Z.mul_le_mono_nonneg_l; lia).
  assert (0 <= sizeof TElectricityMeter_Measurement * (EM_MEASUREMENT_COUNT - n))
    by (apply Z.mul_nonneg_nonneg; lia).
  split_and!; try lia. unfold var_size.
  assert (2 ^ 16 <= 2 ^ Z.max size_t_bits
    (match member (details_type k) ["m_count"] with Some (_, c) => 8 * sizeof c | None => 0 end))
    by (apply Z.pow_le_mono_r; lia).
  rewrite uN_small; lia.
Qed.

(** A filled container. *)
Lemma filled t d n : 0 <= n <= Zlen d -> n <= SUPLA_CHANNELEXTENDEDVALUE_SIZE ->
  is_value (le_split 1 t ++ le_split 4 n ++ take (Z.to_nat n) d
            ++ zeros (SUPLA_CHANNELEXTENDEDVALUE_SIZE - n))
    {| v_type := t; v_data := take (Z.to_nat n) d |}.
Proof.
  intros Hn Hs. split; [rewrite sizeof_EV; zlen|].
  exists (zeros (SUPLA_CHANNELEXTENDEDVALUE_SIZE - n)). rewrite enc_app. do 2 f_equal. f_equal. zlen.
Qed.

Lemma meter_count k em n : k = Meter1 \/ k = Meter2 \/ k = Meter3 -> used k em = Some n ->
  exists c, read_member (details_type k) ["m_count"] em = Some c /\
    0 <= c <= EM_MEASUREMENT_COUNT /\ n = sizeof (details_type k)
      - sizeof TElectricityMeter_Measurement * (EM_MEASUREMENT_COUNT - c).
Proof.
  intros [->|[->| ->]] Hu; cbn [used] in Hu; destruct (read_member _ _ em) as [c|]; try done;
    destruct ((0 <=? c) && (c <=? EM_MEASUREMENT_COUNT)) eqn:E; try done;
    bools; exists c; split_and!; congruence || lia.
Qed.

Lemma wp_meter_to k t ty em n Q ev :
  k = Meter1 \/ k = Meter2 \/ k = Meter3 -> t = details_type k -> Zlen em = sizeof t ->
  used k em = Some n ->
  (forall ev', is_value ev' {| v_type := ty; v_data := take (Z.to_nat n) em |} -> Q 1 ev') ->
  wp (emextended2extended t ty em) Q ev.
Proof.
  intros Hk -> Hem Hu HQ. pose proof (meter_fits k Hk) as Hok. pose proof (details_fits k) as Hfit.
  destruct (meter_count k em n Hk Hu) as (c & Hc & Hcr & Hn). destruct (meter_size k c Hok Hcr) as (Hv & _ & Hs & Ht).
  unfold emextended2extended. apply wp_bnd. eapply wp_opt; [exact Hc|].
  rewrite !(proj2 (Z.ltb_ge _ _)) by lia. cbn [orb]. wp_steps. apply wp_ev_reset. wp_steps.
  rewrite Hv, <-Hn, (uN_small 32) by lia. apply wp_assign_size. wp_steps.
  rewrite (proj2 (Z.ltb_lt _ _)), (proj2 (Z.leb_le _ _)) by lia. cbn [andb]. wp_steps.
  apply wp_ev_store; [lia|lia|]. wp_steps. apply HQ, filled; lia.
Qed.

Lemma wp_meter_from k t ty em n ev Q out :
  k = Meter1 \/ k = Meter2 \/ k = Meter3 -> t = details_type k -> Zlen em = sizeof t ->
  used k em = Some n -> to_char ty = ty ->
  is_value ev {| v_type := ty; v_data := take (Z.to_nat n) em |} ->
  Q 1 (take (Z.to_nat n) em ++ zeros (sizeof t - n)) ->
  wp (extended2emextended t ty ev) Q out.
Proof.
  intros Hk -> Hem Hu Hty Hev HQ. pose proof (meter_fits k Hk) as Hok.
  destruct (meter_count k em n Hk Hu) as (c & Hc & Hcr & Hn). destruct (meter_size k c Hok Hcr) as (Hv & Hb & Hs & Ht).
  assert (Hl : Zlen (take (Z.to_nat n) em) = n) by zlen.
  eapply (wp_take_details _ ty); [exact Hev|done|lia|apply Z.leb_le; lia|]. rewrite Hl.
  wp_steps. eapply wp_opt.
  { rewrite <-Hc. unfold meter_ok in Hok. cbv zeta in Hok. bools.
    eapply (read_member_prefix _ _ n); [eassumption|lia|zlen|lia|].
    rewrite take_app_le by (unfold Zlen in *; lia). by rewrite take_take, Nat.min_id. }
  rewrite (proj2 (Z.leb_le c _)), Hv, <-Hn by lia. cbv zeta.
  rewrite (sN_small 32 n), (uN_small 32 n) by lia.
  rewrite Z.eqb_refl. cbn [negb]. by apply wp_ret.
Qed.

(** A thermostat always has its announcement byte in use. *)
Lemma thermostat_used d n : used Thermostat d = Some n -> 0 < n <= sizeof TThermostat_ExtendedValue.
Proof.
  cbn [used details_type]. destruct (read_member _ _ d) as [f|]; [|done].
  unfold thermostat_members. cbn [thermostat_size].
  repeat (case_if; [|intros [= <-]; vm_compute; split; [reflexivity|discriminate]]).
  intros [= <-]. vm_compute. split; [reflexivity|discriminate].
Qed.

Lemma details_to_char k : to_char (details_ev_type k) = details_ev_type k.
Proof. unfold to_char. by destruct k, char_signed. Qed.

Lemma run_not_null f s d (R : bytes -> Prop) : wp (f s) (fun r d' => r = 1 /\ R d') d ->
  exists d', not_null f (Some s) (Some d) = Some (1, Some d') /\ R d'.
Proof.
  intros Hw. apply wp_run in Hw. destruct Hw as (r & d' & E & -> & HR).
  exists d'. split; [|done]. cbn [not_null]. by rewrite E.
Qed.

Lemma details_put k d n ev : Zlen d = sizeof (details_type k) -> used k d = Some n ->
  exists ev', to_extended k (Some d) (Some ev) = Some (1, Some ev') /\
    is_value ev' {| v_type := details_ev_type k; v_data := take (Z.to_nat n) d |}.
Proof.
  intros Hd Hu. pose proof (details_fits k) as Hfit.
  destruct k; cbn [to_extended details_type details_ev_type] in *; apply run_not_null.
  - apply (wp_meter_to Meter1 _ _ _ n); auto.
  - apply (wp_meter_to Meter2 _ _ _ n); auto.
  - apply (wp_meter_to Meter3 _ _ _ n); auto.
  - pose proof (thermostat_used d n Hu) as Hn. cbn [used details_type] in Hu.
    destruct (read_member TThermostat_ExtendedValue ["Fields"] d) as [f|] eqn:Ef; [|done].
    wp_steps. apply wp_ev_reset. wp_steps. eapply wp_opt; [reflexivity|]. wp_steps.
    eapply wp_opt; [exact Hu|]. rewrite (proj2 (Z.ltb_lt 0 n)) by lia. wp_steps.
    apply wp_assign_size. wp_steps. apply wp_ev_store; [lia|lia|]. wp_steps.
    split; [done|]. apply filled; lia.
  - assert (n = sizeof TSC_ImpulseCounter_ExtendedValue) as -> by (cbn [used details_type] in Hu; congruence).
    assert (0 <= sizeof TSC_ImpulseCounter_ExtendedValue) by done.
    wp_steps. apply wp_ev_reset. wp_steps. apply wp_assign_size. wp_steps.
    apply wp_ev_store; [lia|lia|]. wp_steps. split; [done|]. apply filled; lia.
Qed.

Lemma details_get k d n ev out : Zlen d = sizeof (details_type k) -> used k d = Some n ->
  is_value ev {| v_type := details_ev_type k; v_data := take (Z.to_nat n) d |} ->
  exists d', from_extended k (Some ev) (Some out) = Some (1, Some d') /\
    d' = take (Z.to_nat n) d ++ zeros (sizeof (details_type k) - n).
Proof.
  intros Hd Hu Hev. pose proof (details_to_char k) as Hc.
  destruct k; cbn [from_extended details_type details_ev_type] in *; apply run_not_null.
  - apply (wp_meter_from Meter1 _ EV_TYPE_ELECTRICITY_METER_MEASUREMENT_V1 d n); auto.
  - apply (wp_meter_from Meter2 _ EV_TYPE_ELECTRICITY_METER_MEASUREMENT_V2 d n); auto.
  - apply (wp_meter_from Meter3 _ EV_TYPE_ELECTRICITY_METER_MEASUREMENT_V3 d n); auto.
  - pose proof (thermostat_used d n Hu) as Hn.
    assert (Hl : Zlen (take (Z.to_nat n) d) = n) by zlen.
    eapply wp_take_details; [exact Hev|done|lia|apply Z.leb_le; lia|]. rewrite Hl. by apply wp_ret.
  - injection Hu as <-.
    assert (Hl : Zlen (take (Z.to_nat (sizeof TSC_ImpulseCounter_ExtendedValue)) d)
      = sizeof TSC_ImpulseCounter_ExtendedValue) by (rewrite <-Hd; zlen).
    eapply (wp_take_details _ _ _ _ (take (Z.to_nat (sizeof TSC_ImpulseCounter_ExtendedValue)) d));
      [exact Hev|done|rewrite Hl; done|apply Z.eqb_eq, Hl|].
    rewrite Hl. by apply wp_ret.
Qed.

(** C15: details come out as they went in.  The details of a meter in each version, of a
    thermostat or of a counter are put into a container that then holds one value, of
    their type and with the bytes in use; the matching function takes them out again,
    with zeros in the place of the unused bytes. *)
Theorem details_round_trip k d n ev out :
  Zlen d = sizeof (details_type k) -> used k d = Some n ->
  exists ev', to_extended k (Some d) (Some ev) = Some (1, Some ev') /\
    is_value ev' {| v_type := details_ev_type k; v_data := take (Z.to_nat n) d |} /\
    from_extended k (Some ev') (Some out)
    = Some (1, Some (take (Z.to_nat n) d ++ zeros (sizeof (details_type k) - n))).
Proof.
  intros Hd Hu. destruct (details_put k d n ev Hd Hu) as (ev' & Hto & Hev).
  destruct (details_get k d n ev' out Hd Hu Hev) as (d' & Hfrom & ->). by exists ev'.
Qed.

End RoundTrip.

(** ** Corners *)

(** A size in a container is not checked before it is added.  The size of a value in
    a received container is added to its offset in 32 bits, so that a size near 2^32
    passes the test of the bounds: the copy then starts inside the container and goes on
    for four gigabytes. *)
Theorem value_get_size_wraps :
  let hostile := le_split 1 EV_TYPE_MULTI_VALUE ++ le_split 4 20
    ++ enc {| v_type := EV_TYPE_IMPULSE_COUNTER_DETAILS_V1; v_data := zeros 3 |}
    ++ le_split 1 EV_TYPE_IMPULSE_COUNTER_DETAILS_V1 ++ le_split 4 (2 ^ 32 - 13) ++ zeros 1011 in
  let dest := zeros 1029 in
  @srpc_evtool_value_get generic64 (Some hostile) 0 (Some dest)
  = Some (1, Some (enc {| v_type := EV_TYPE_IMPULSE_COUNTER_DETAILS_V1; v_data := zeros 3 |} ++ zeros 1021)) /\
  @srpc_evtool_value_get generic64 (Some hostile) 1 (Some dest) = None.
Proof. split; vm_compute; reflexivity. Qed.

(** ** Witnesses *)

(** Details of a meter with two measurements of five. *)
Definition two_measurements : bytes := zeros 140 ++ le_split 4 2 ++ replicate 124 Byte.x07 ++ zeros 186.

Lemma details_round_trip_witness :
  exists ev', @to_extended generic64 Meter3 (Some two_measurements) (Some (zeros 1029)) = Some (1, Some ev') /\
    @is_value generic64 ev' {| v_type := EV_TYPE_ELECTRICITY_METER_MEASUREMENT_V3;
      v_data := take (Z.to_nat 268) two_measurements |} /\
    @from_extended generic64 Meter3 (Some ev') (Some (zeros 454))
    = Some (1, Some (take (Z.to_nat 268) two_measurements ++ zeros 186)).
Proof.
  apply (@details_round_trip generic64 _ _ Meter3 two_measurements 268 (zeros 1029) (zeros 454));
    vm_compute; reflexivity.
Defined.
