(* ===== verification/Crc.v ===== *)
(** * Cyclic redundancy checks, bit by bit

    The shift register of a reflected CRC of any width and polynomial: the step is linear
    and can be undone, so that no change confined to as many bits as the register has goes
    unnoticed.  [ToolsProps] uses it for the CRC-32 of tools.c, [Crc16] for the CRC-16 of
    crc16.cpp. *)
From S2P Require Import Prelude.

Lemma lxor_range n a b : 0 <= n -> 0 <= a < 2 ^ n -> 0 <= b < 2 ^ n -> 0 <= Z.lxor a b < 2 ^ n.
Proof.
  intros Hn Ha Hb. assert (Hx : Z.lxor a b = Z.lxor a b mod 2 ^ n).
  { apply Z.bits_inj'. intros i Hi. destruct (Z.lt_ge_cases i n).
    - by rewrite Z.mod_pow2_bits_low.
    - rewrite Z.mod_pow2_bits_high, Z.lxor_spec by lia.
      rewrite <-(Z.mod_small a (2 ^ n)), <-(Z.mod_small b (2 ^ n)) by done.
      by rewrite !Z.mod_pow2_bits_high by lia. }
  rewrite Hx. apply Z.mod_pos_bound. lia.
Qed.

Lemma odd_lxor a b : Z.odd (Z.lxor a b) = xorb (Z.odd a) (Z.odd b).
Proof. by rewrite <-!Z.bit0_odd, Z.lxor_spec. Qed.

Lemma lxor_cancel_l c a b : Z.lxor c a = Z.lxor c b -> a = b.
Proof.
  intros E. rewrite <-(Z.lxor_0_l a), <-(Z.lxor_0_l b), <-(Z.lxor_nilpotent c).
  by rewrite !Z.lxor_assoc, E.
Qed.

Lemma lxor_cancel_r c a b : Z.lxor a c = Z.lxor b c -> a = b.
Proof. rewrite !(Z.lxor_comm _ c). apply lxor_cancel_l. Qed.

(** Zeros that a byte adds above its eight bits do not meet it. *)
Lemma lor_shiftl_byte b z : Z.lor (byte.unsigned b) (Z.shiftl z 8) = Z.lxor (byte.unsigned b) (Z.shiftl z 8).
Proof.
  symmetry. apply Z.lxor_lor. apply Z.bits_inj'. intros n Hn. rewrite Z.land_spec, Z.bits_0.
  destruct (Z.lt_ge_cases n 8).
  - by rewrite (Z.shiftl_spec_low _ 8), andb_false_r.
  - rewrite <-(Z.mod_small (byte.unsigned b) (2 ^ 8)) by apply byte.unsigned_range.
    by rewrite Z.mod_pow2_bits_high by lia.
Qed.

Lemma le_combine_lxor b u :
  le_combine (b :: u) = Z.lxor (byte.unsigned b) (Z.shiftl (le_combine u) 8).
Proof. rewrite <-lor_shiftl_byte. reflexivity. Qed.

Section Register.
Variable poly : Z.

Definition crc_bit (c : Z) : Z :=
  if Z.odd c then Z.lxor (Z.shiftr c 1) poly else Z.shiftr c 1.

Definition crc_bits (n : nat) (c : Z) : Z := Nat.iter n crc_bit c.

(** The register after the bytes of [data], which enter it at its low end. *)
Fixpoint crc_register (data : bytes) (c : Z) : Z :=
  match data with
  | [] => c
  | b :: data => crc_register data (crc_bits 8 (Z.lxor c (byte.unsigned b)))
  end.

(** A step is linear. *)
Lemma crc_bit_lxor a b : crc_bit (Z.lxor a b) = Z.lxor (crc_bit a) (crc_bit b).
Proof.
  unfold crc_bit. rewrite odd_lxor, Z.shiftr_lxor.
  destruct (Z.odd a), (Z.odd b); cbn [xorb]; apply Z.bits_inj'; intros n Hn;
    rewrite ?Z.lxor_spec; by destruct (Z.testbit (Z.shiftr a 1) n), (Z.testbit (Z.shiftr b 1) n),
      (Z.testbit poly n).
Qed.

Lemma crc_bits_lxor n a b : crc_bits n (Z.lxor a b) = Z.lxor (crc_bits n a) (crc_bits n b).
Proof.
  unfold crc_bits. induction n as [|n IH]; [done|]. cbn [Nat.iter nat_rect].
  unfold Nat.iter in *. cbn [nat_rect]. by rewrite IH, crc_bit_lxor.
Qed.

Lemma crc_bits_add m n c : crc_bits (m + n) c = crc_bits m (crc_bits n c).
Proof. unfold crc_bits. apply Nat.iter_add. Qed.

Lemma crc_bits_S n c : crc_bits (S n) c = crc_bit (crc_bits n c).
Proof. reflexivity. Qed.

(** Zeros at the low end are shifted out. *)
Lemma crc_bits_shiftl n z : crc_bits n (Z.shiftl z (Z.of_nat n)) = z.
Proof.
  induction n as [|n IH]; [apply Z.shiftl_0_r|].
  replace (S n) with (n + 1)%nat at 1 by lia. rewrite crc_bits_add. rewrite <-IH at 2. f_equal.
  change (crc_bit (Z.shiftl z (Z.of_nat (S n))) = Z.shiftl z (Z.of_nat n)).
  unfold crc_bit. rewrite <-Z.bit0_odd, Z.shiftl_spec_low by lia.
  rewrite Z.shiftr_shiftl_l by lia. f_equal. lia.
Qed.

(** Eight steps look the low byte up and shift the rest. *)
Lemma crc_bits_byte c :
  crc_bits 8 c = Z.lxor (Z.shiftr c 8) (crc_bits 8 (Z.land c 0xff)).
Proof.
  assert (Hc : c = Z.lxor (Z.land c 0xff) (Z.shiftl (Z.shiftr c 8) 8)).
  { apply Z.bits_inj'. intros n Hn. change 0xff with (Z.ones 8).
    rewrite Z.lxor_spec, Z.land_spec. destruct (Z.lt_ge_cases n 8).
    - rewrite Z.ones_spec_low, Z.shiftl_spec_low by lia. by rewrite andb_true_r, xorb_false_r.
    - rewrite Z.ones_spec_high, Z.shiftl_spec, Z.shiftr_spec by lia.
      rewrite andb_false_r, xorb_false_l. f_equal. lia. }
  rewrite Hc at 1. rewrite crc_bits_lxor. change 8 with (Z.of_nat 8) at 3.
  by rewrite crc_bits_shiftl, Z.lxor_comm.
Qed.

Lemma crc_register_app d e c : crc_register (d ++ e) c = crc_register e (crc_register d c).
Proof. revert c. induction d as [|b d IH]; intros c; [done|]. apply IH. Qed.

(** The bytes of [u] enter the register as the number they make. *)
Lemma crc_register_combine u : forall c,
  crc_register u c = crc_bits (8 * length u) (Z.lxor c (le_combine u)).
Proof.
  induction u as [|b u IH]; intros c; cbn [crc_register length].
  { cbn [le_combine]. by rewrite Z.lxor_0_r. }
  rewrite IH. replace (8 * S (length u))%nat with (8 * length u + 8)%nat by lia.
  rewrite crc_bits_add. f_equal. rewrite le_combine_lxor, <-Z.lxor_assoc.
  rewrite (crc_bits_lxor 8 (Z.lxor c (byte.unsigned b)) (Z.shiftl _ 8)).
  f_equal. symmetry. apply (crc_bits_shiftl 8).
Qed.

(** ** The register stays within its width, and every step can be undone *)

Section Width.
Variable w : Z.
Hypothesis w_byte : 8 <= w.
Hypothesis poly_range : 0 <= poly < 2 ^ w.
Hypothesis poly_top : Z.testbit poly (w - 1) = true.

Lemma shiftr1_range c : 0 <= c < 2 ^ w -> 0 <= Z.shiftr c 1 < 2 ^ w.
Proof.
  intros Hc. rewrite Z.shiftr_div_pow2 by lia. change (2 ^ 1) with 2.
  split; [apply Z.div_pos; lia|]. apply Z.div_lt_upper_bound; lia.
Qed.

Lemma crc_bit_range c : 0 <= c < 2 ^ w -> 0 <= crc_bit c < 2 ^ w.
Proof.
  intros Hc. pose proof (shiftr1_range c Hc). unfold crc_bit.
  destruct (Z.odd c); [|done]. apply lxor_range; [lia|done|done].
Qed.

Lemma crc_bits_range n c : 0 <= c < 2 ^ w -> 0 <= crc_bits n c < 2 ^ w.
Proof. intros Hc. induction n as [|n IH]; [done|]. rewrite crc_bits_S. by apply crc_bit_range. Qed.

Definition crc_unbit (y : Z) : Z :=
  if Z.testbit y (w - 1) then 2 * Z.lxor y poly + 1 else 2 * y.

Lemma crc_unbit_bit c : 0 <= c < 2 ^ w -> crc_unbit (crc_bit c) = c.
Proof.
  intros Hc. assert (Hhigh : Z.testbit (Z.shiftr c 1) (w - 1) = false).
  { rewrite Z.shiftr_spec by lia. rewrite <-(Z.mod_small c (2 ^ w)) by done.
    apply Z.mod_pow2_bits_high. lia. }
  pose proof (Z.div2_odd c) as Hd. rewrite Z.div2_spec in Hd. unfold crc_unbit, crc_bit.
  destruct (Z.odd c) eqn:Eo.
  - rewrite Z.lxor_spec, Hhigh, poly_top. cbn [xorb].
    rewrite Z.lxor_assoc, Z.lxor_nilpotent, Z.lxor_0_r. cbn [Z.b2z] in Hd. lia.
  - rewrite Hhigh. cbn [Z.b2z] in Hd. lia.
Qed.

Lemma crc_bits_inj n a b : 0 <= a < 2 ^ w -> 0 <= b < 2 ^ w -> crc_bits n a = crc_bits n b -> a = b.
Proof.
  revert a b. induction n as [|n IH]; intros a b Ha Hb; [done|].
  rewrite !crc_bits_S. intros E. apply IH; [done|done|].
  rewrite <-(crc_unbit_bit (crc_bits n a)), <-(crc_unbit_bit (crc_bits n b))
    by (by apply crc_bits_range). by f_equal.
Qed.

Lemma byte_range b : 0 <= byte.unsigned b < 2 ^ w.
Proof.
  pose proof (byte.unsigned_range b) as [? Hb]. split; [done|].
  eapply Z.lt_le_trans; [exact Hb|]. apply Z.pow_le_mono_r; lia.
Qed.

Lemma crc_step_range b c : 0 <= c < 2 ^ w ->
  0 <= crc_bits 8 (Z.lxor c (byte.unsigned b)) < 2 ^ w.
Proof. intros. apply crc_bits_range, lxor_range; [lia|done|apply byte_range]. Qed.

Lemma crc_register_range data : forall c, 0 <= c < 2 ^ w -> 0 <= crc_register data c < 2 ^ w.
Proof.
  induction data as [|b data IH]; intros c Hc; [done|]. cbn [crc_register].
  by apply IH, crc_step_range.
Qed.

Lemma crc_register_inj data : forall a b, 0 <= a < 2 ^ w -> 0 <= b < 2 ^ w ->
  crc_register data a = crc_register data b -> a = b.
Proof.
  induction data as [|x data IH]; intros a b Ha Hb; [done|]. cbn [crc_register]. intros E.
  pose proof (byte_range x) as Hx. apply IH in E; [|by apply crc_step_range..].
  apply crc_bits_inj in E; [|apply lxor_range; done || lia..]. by apply lxor_cancel_r in E.
Qed.

Lemma le_combine_width (u : bytes) : 8 * Zlen u <= w -> 0 <= le_combine u < 2 ^ w.
Proof.
  intros Hu. pose proof (le_combine_bound u) as [? Hb]. split; [done|].
  eapply Z.lt_le_trans; [exact Hb|]. apply Z.pow_le_mono_r; unfold Zlen in *; lia.
Qed.

(** Two messages that differ only within as many bits as the register has leave
    different registers. *)
Lemma crc_register_burst p u v s c : 0 <= c < 2 ^ w ->
  length u = length v -> 8 * Zlen u <= w ->
  crc_register (p ++ u ++ s) c = crc_register (p ++ v ++ s) c -> u = v.
Proof.
  intros Hc Hl Hw. rewrite !crc_register_app. pose proof (crc_register_range p c Hc) as Hp.
  set (d := crc_register p c) in *. intros E.
  pose proof (le_combine_width u Hw) as Hu.
  pose proof (le_combine_width v ltac:(unfold Zlen in *; lia)) as Hv.
  apply crc_register_inj in E; [|by apply crc_register_range..].
  rewrite !crc_register_combine, Hl in E.
  apply crc_bits_inj in E; [|apply lxor_range; done || lia..].
  apply lxor_cancel_l in E. by apply (le_combine_inj u v Hl).
Qed.
End Width.
End Register.
