(* ===== verification/Crc16.v ===== *)
(** * crc16.cpp: the checksum of the stored state

    [crc16_update] and [calculateCrc16] with the loops as written, and what they compute:
    the register of [Crc] for the polynomial 0xA001. *)
From S2P Require Import Prelude Crc.

(** The loop of [crc16_update] over the bits of one byte. *)
Fixpoint crc16_update_loop (i : nat) (crc : Z) : Z :=
  match i with
  | O => crc
  | S i =>
      crc16_update_loop i
        (if negb (Z.land crc 1 =? 0) then Z.lxor (Z.shiftr crc 1) 0xA001 else Z.shiftr crc 1)
  end.

Definition crc16_update (crc : Z) (a : Init.Byte.byte) : Z :=
  crc16_update_loop 8 (u16 (Z.lxor crc (byte.unsigned a))).

(** [crc = crc16_update(crc, buf[i])] over the bytes of a buffer. *)
Definition crc16_bytes (crc : Z) (buf : bytes) : Z := fold_left crc16_update buf crc.

(** The checksum of [data]; [None] is the null pointer. *)
Definition calculateCrc16 (data : option bytes) : Z :=
  match data with
  | None => 0
  | Some data => crc16_bytes 0xFFFF data
  end.

Abbreviation crc16 := (crc16_bytes 0xFFFF).

(** ** The register *)

Definition poly16 : Z := 0xA001.

Lemma poly16_range : 0 <= poly16 < 2 ^ 16.
Proof. by vm_compute. Qed.

Lemma crc16_update_loop_bits i : forall c, crc16_update_loop i c = crc_bits poly16 i c.
Proof.
  induction i as [|i IH]; intros c; [done|]. cbn [crc16_update_loop]. rewrite IH.
  replace (S i) with (i + 1)%nat by lia. rewrite crc_bits_add. f_equal.
  change (crc_bits poly16 1 c) with (crc_bit poly16 c). unfold crc_bit, poly16.
  change 1 with (Z.ones 1) at 1. rewrite Z.land_ones, <-Z.bit0_mod, Z.bit0_odd by lia. by destruct (Z.odd c).
Qed.

Lemma crc16_update_bits c a : 0 <= c < 2 ^ 16 ->
  crc16_update c a = crc_bits poly16 8 (Z.lxor c (byte.unsigned a)).
Proof.
  intros Hc. unfold crc16_update. rewrite crc16_update_loop_bits. f_equal.
  apply uN_small, lxor_range; [lia|done|apply byte_range; lia].
Qed.

Lemma crc16_bytes_register data : forall c, 0 <= c < 2 ^ 16 ->
  crc16_bytes c data = crc_register poly16 data c.
Proof.
  induction data as [|b data IH]; intros c Hc; [done|].
  cbn [crc_register]. unfold crc16_bytes. cbn [fold_left]. fold (crc16_bytes (crc16_update c b) data).
  rewrite crc16_update_bits by done. apply IH.
  apply (crc_step_range poly16 16); [lia|apply poly16_range|done].
Qed.

Lemma crc16_range data : 0 <= crc16 data < 2 ^ 16.
Proof.
  rewrite crc16_bytes_register by (by vm_compute).
  apply (crc_register_range poly16 16); [lia|apply poly16_range|by vm_compute].
Qed.

Lemma crc16_app c a b : crc16_bytes c (a ++ b) = crc16_bytes (crc16_bytes c a) b.
Proof. apply fold_left_app. Qed.

(** A change confined to two consecutive bytes changes the checksum. *)
Lemma crc16_burst p u v s : length u = length v -> (length u <= 2)%nat ->
  crc16 (p ++ u ++ s) = crc16 (p ++ v ++ s) -> u = v.
Proof.
  intros Hl H2. rewrite !crc16_bytes_register by (by vm_compute).
  apply (crc_register_burst poly16 16); [lia|apply poly16_range|done|by vm_compute|done|].
  unfold Zlen. lia.
Qed.

(** Zero bytes never bring a register that is not zero to zero: no run of zeros, of any
    length, has the checksum zero. *)
Lemma crc16_zeros n : crc16 (replicate n Byte.x00) <> 0.
Proof.
  intros E. rewrite crc16_bytes_register in E by (by vm_compute).
  assert (Hz : crc_register poly16 (replicate n Byte.x00) 0 = 0).
  { clear E. induction n as [|n IH]; [done|]. cbn [replicate crc_register]. exact IH. }
  assert (Eq : crc_register poly16 (replicate n Byte.x00) 0xFFFF
    = crc_register poly16 (replicate n Byte.x00) 0) by congruence.
  apply (crc_register_inj poly16 16) in Eq; [done|lia|apply poly16_range|done|by vm_compute..].
Qed.
