(* ===== verification/Device.v ===== *)
(** * The memory a storage writes to

    [Storage] reads and writes a medium of bytes through the pure virtual [readStorage],
    [writeStorage], [commit] and through [eraseSector].  The medium is a parameter: how
    many bytes it has, what a write leaves in a cell and what an erase leaves.  The
    classes of the repository that implement the interface (eeprom.cpp, fram_spi.h,
    spiffs_storage.cpp, esp_idf_sector_wl_storage.cpp) hand the bytes to a driver that is
    not part of it; a read or write that the driver refuses transfers nothing.

    Every cell that is written is an event of the device's log, in order, so that a power
    loss is a prefix of the events of an operation. *)
From S2P Require Import Prelude.

(** A medium: its size, the content of a cell after a write and after an erase. *)
Class Medium := {
  capacity : Z;
  put : Init.Byte.byte -> Init.Byte.byte -> Init.Byte.byte;   (* old content, written byte *)
  wipe : Init.Byte.byte -> Init.Byte.byte }.

(** EEPROM, FRAM and files: a written byte replaces the old one. *)
Class Rewritable (m : Medium) := put_new : forall o n, put o n = n.

(** Flash: a write only clears bits, an erase sets them all. *)
Class NorFlash (m : Medium) := {
  put_clears : forall o n, byte.unsigned (put o n) = Z.land (byte.unsigned o) (byte.unsigned n);
  wipe_sets : forall o, wipe o = Byte.xff }.

#[export] Instance eeprom_medium (size : Z) : Medium :=
  {| capacity := size; put _ n := n; wipe o := o |}.
#[export] Instance eeprom_rewritable size : Rewritable (eeprom_medium size).
Proof. done. Qed.

Definition flash_medium (size : Z) : Medium :=
  {| capacity := size;
     put o n := byte.of_Z (Z.land (byte.unsigned o) (byte.unsigned n));
     wipe _ := Byte.xff |}.

Definition mem : Type := Z -> Init.Byte.byte.

Inductive event :=
| Put (address : Z) (b : Init.Byte.byte)
| Wipe (address : Z)
| Commit.

Section Device.
Context {medium : Medium}.

Definition happen (m : mem) (e : event) : mem :=
  match e with
  | Put a b => fun x => if x =? a then put (m a) b else m x
  | Wipe a => fun x => if x =? a then wipe (m a) else m x
  | Commit => m
  end.

Definition replay (m : mem) (l : list event) : mem := fold_left happen l m.

Record dev := { d_mem : mem; d_log : list event }.

Definition extend (d : dev) (l : list event) : dev :=
  {| d_mem := replay (d_mem d) l; d_log := d_log d ++ l |}.

(** The [size] bytes at [address]. *)
Definition mread (m : mem) (address size : Z) : bytes :=
  map (fun i => m (address + Z.of_nat i)) (seq 0 (Z.to_nat size)).

Definition cells (address : Z) (buf : bytes) : list event :=
  imap (fun i b => Put (address + Z.of_nat i) b) buf.

Definition within (address size : Z) : bool :=
  (0 <=? address) && (0 <=? size) && (address + size <=? capacity).

(** What the classes of this part have in common: they reach the device. *)
Class HasDev (S : Type) := { get_dev : S -> dev; set_dev : dev -> S -> S }.

Class DevLaws S `{HasDev S} := {
  get_set_dev : forall d s, get_dev (set_dev d s) = d;
  set_set_dev : forall d d' s, set_dev d (set_dev d' s) = set_dev d s;
  set_get_dev : forall s, set_dev (get_dev s) s = s }.

Section Access.
Context {S : Type} {dS : HasDev S}.

(** [None] for a read the device refuses: the buffer keeps its content and the count is 0. *)
Definition readStorage (address size : Z) : M S (option bytes) := fun s =>
  Some (if within (u32 address) size
        then Some (mread (d_mem (get_dev s)) (u32 address) size) else None, s).

(** The number of bytes written. *)
Definition writeStorage (address : Z) (buf : bytes) : M S Z := fun s =>
  if within (u32 address) (Zlen buf)
  then Some (Zlen buf, set_dev (extend (get_dev s) (cells (u32 address) buf)) s)
  else Some (0, s).

Definition commit : M S unit := fun s =>
  Some (tt, set_dev (extend (get_dev s) [Commit]) s).

Definition eraseSector (address size : Z) : M S unit := fun s =>
  Some (tt, if within (u32 address) size
            then set_dev (extend (get_dev s)
                   (map (fun i => Wipe (u32 address + Z.of_nat i)) (seq 0 (Z.to_nat size)))) s
            else s).
End Access.
End Device.
