(* ===== verification/DeviceFacts.v ===== *)
(** * What reads see after writes and after a power loss

    A rewritable medium as a function of addresses; the bytes a range holds after a write,
    after a part of a write, and after a write elsewhere. *)
From S2P Require Import Prelude Device.

Section Facts.
Context {medium : Medium} {rewritable : Rewritable medium}.

(** ** Reads *)

Lemma mread_length m a n : length (mread m a n) = Z.to_nat n.
Proof. unfold mread. by rewrite length_map, length_seq. Qed.

Lemma Zlen_mread m a n : 0 <= n -> Zlen (mread m a n) = n.
Proof. intros. unfold Zlen. rewrite mread_length. lia. Qed.

Lemma mread_lookup m a n i : (i < Z.to_nat n)%nat -> mread m a n !! i = Some (m (a + Z.of_nat i)).
Proof.
  intros Hi. unfold mread. rewrite list_lookup_fmap, lookup_seq_lt by done. done.
Qed.

Lemma mread_ext m m' a n : (forall x, a <= x < a + n -> m x = m' x) -> mread m a n = mread m' a n.
Proof.
  intros H. unfold mread. apply map_ext_in. intros i Hi. apply in_seq in Hi. apply H. lia.
Qed.

Lemma mread_pointwise m a bs : mread m a (Zlen bs) = bs <->
  forall i b, bs !! i = Some b -> m (a + Z.of_nat i) = b.
Proof.
  split.
  - intros E i b Hb. pose proof (lookup_lt_Some _ _ _ Hb) as Hi. rewrite <-E in Hb.
    rewrite mread_lookup in Hb by (unfold Zlen; lia). by simplify_eq.
  - intros H. apply list_eq_same_length with (length bs); [done|rewrite mread_length; unfold Zlen; lia|].
    intros i x y Hi Hx Hy. rewrite mread_lookup in Hx by (unfold Zlen; lia). simplify_eq.
    by apply H.
Qed.

Lemma mread_app m a n k : 0 <= n -> 0 <= k -> mread m a (n + k) = mread m a n ++ mread m (a + n) k.
Proof.
  intros Hn Hk. unfold mread. rewrite Z2Nat.inj_add by done. rewrite seq_app, map_app. f_equal.
  cbn [Nat.add]. apply list_eq. intros i. rewrite !list_lookup_fmap.
  destruct (Nat.lt_ge_cases i (Z.to_nat k)) as [Hi|Hi].
  - rewrite !lookup_seq_lt by done. cbn. do 2 f_equal. lia.
  - rewrite !lookup_seq_ge by done. done.
Qed.

Lemma mread_0 m a : mread m a 0 = [].
Proof. done. Qed.

Lemma mread_take m a n k : 0 <= k <= n -> take (Z.to_nat k) (mread m a n) = mread m a k.
Proof.
  intros. replace n with (k + (n - k)) by lia. rewrite mread_app by lia.
  apply take_app_length'. rewrite mread_length. done.
Qed.

Lemma mread_drop m a n k : 0 <= k <= n -> drop (Z.to_nat k) (mread m a n) = mread m (a + k) (n - k).
Proof.
  intros. replace n with (k + (n - k)) at 1 by lia. rewrite mread_app by lia.
  apply drop_app_length'. rewrite mread_length. done.
Qed.

(** ** Events *)

Lemma replay_app m l1 l2 : replay m (l1 ++ l2) = replay (replay m l1) l2.
Proof. apply fold_left_app. Qed.

Lemma extend_app d l1 l2 : extend (extend d l1) l2 = extend d (l1 ++ l2).
Proof. unfold extend. cbn. by rewrite replay_app, app_assoc. Qed.

Lemma cells_cons a b bs : cells a (b :: bs) = Put a b :: cells (a + 1) bs.
Proof.
  unfold cells. rewrite imap_cons. f_equal; [f_equal; lia|].
  apply imap_ext. intros i x _. cbn. f_equal. lia.
Qed.

Lemma cells_take a bs k : take k (cells a bs) = cells a (take k bs).
Proof.
  revert a k. induction bs as [|b bs IH]; intros a [|k]; try done.
  rewrite cells_cons. cbn [take]. rewrite cells_cons. f_equal. apply IH.
Qed.

Lemma cells_length a bs : length (cells a bs) = length bs.
Proof. unfold cells. apply length_imap. Qed.

(** The memory after a write. *)
Lemma replay_cells bs : forall m a x,
  replay m (cells a bs) x
  = if (a <=? x) && (x <? a + Zlen bs) then default (m x) (bs !! Z.to_nat (x - a)) else m x.
Proof using rewritable.
  induction bs as [|b bs IH]; intros m a x.
  { change (replay m (cells a [])) with m. rewrite Zlen_nil. by case_if. }
  rewrite cells_cons. change (replay m (Put a b :: cells (a + 1) bs))
    with (replay (happen m (Put a b)) (cells (a + 1) bs)).
  rewrite IH, Zlen_cons. cbn [happen]. rewrite put_new.
  destruct (Z.eqb_spec x a) as [->|Hne].
  - rewrite (proj2 (Z.leb_gt (a + 1) a)) by lia. cbn [andb].
    rewrite Z.leb_refl, (proj2 (Z.ltb_lt a (a + (1 + Zlen bs)))) by zlen. cbn [andb].
    by replace (Z.to_nat (a - a)) with 0%nat by lia.
  - destruct (Z.leb_spec a x), (Z.leb_spec (a + 1) x); try lia; cbn [andb]; [|done].
    replace (a + (1 + Zlen bs)) with (a + 1 + Zlen bs) by lia.
    case_if; [|done]. replace (Z.to_nat (x - a)) with (S (Z.to_nat (x - (a + 1)))) by lia. done.
Qed.

Lemma replay_cells_out m a bs x : x < a \/ a + Zlen bs <= x -> replay m (cells a bs) x = m x.
Proof using rewritable. intros H. rewrite replay_cells. case_if; [|done]. bools. lia. Qed.

Lemma replay_cells_in m a bs i b : bs !! i = Some b -> replay m (cells a bs) (a + Z.of_nat i) = b.
Proof using rewritable.
  intros Hb. pose proof (lookup_lt_Some _ _ _ Hb). rewrite replay_cells.
  rewrite (proj2 (Z.leb_le _ _)) by lia. rewrite (proj2 (Z.ltb_lt _ _)) by (unfold Zlen; lia).
  cbn [andb]. replace (Z.to_nat (a + Z.of_nat i - a)) with i by lia. by rewrite Hb.
Qed.

(** A write is read back, and leaves what lies beside it. *)
Lemma mread_write m a bs : mread (replay m (cells a bs)) a (Zlen bs) = bs.
Proof using rewritable. apply mread_pointwise. intros. by apply replay_cells_in. Qed.

Lemma mread_write_other m a bs b n : b + n <= a \/ a + Zlen bs <= b ->
  mread (replay m (cells a bs)) b n = mread m b n.
Proof using rewritable. intros H. apply mread_ext. intros x Hx. apply replay_cells_out. lia. Qed.

(** The part of a write that a power loss let through. *)
Definition torn (k : nat) (new old : bytes) : bytes := take k new ++ drop k old.

Lemma torn_length k new old : length new = length old -> length (torn k new old) = length old.
Proof. intros. unfold torn. rewrite length_app, length_take, length_drop. lia. Qed.

Lemma Zlen_torn k new old n : Zlen old = n -> Zlen new = n -> Zlen (torn k new old) = n.
Proof. unfold Zlen. intros <- H. rewrite torn_length; lia. Qed.

Lemma torn_0 new old : torn 0 new old = old.
Proof. unfold torn. by rewrite drop_0. Qed.

Lemma torn_all k new old : length new = length old -> (length new <= k)%nat -> torn k new old = new.
Proof. intros. unfold torn. rewrite take_ge, drop_ge by lia. apply app_nil_r. Qed.

Lemma torn_same k bs : torn k bs bs = bs.
Proof. apply take_drop. Qed.

Lemma torn_app k a b c d : length a = length b ->
  torn k (a ++ c) (b ++ d) = torn k a b ++ torn (k - length a) c d.
Proof.
  intros Hl. unfold torn. rewrite take_app, drop_app, Hl, <-!app_assoc. f_equal.
  destruct (Nat.le_gt_cases k (length b)).
  - by replace (k - length b)%nat with 0%nat by lia.
  - by rewrite (drop_ge b) by lia.
Qed.

Lemma mread_torn m a bs k :
  mread (replay m (take k (cells a bs))) a (Zlen bs) = torn k bs (mread m a (Zlen bs)).
Proof using rewritable.
  rewrite cells_take. destruct (Nat.le_gt_cases (length bs) k) as [Hk|Hk].
  { rewrite take_ge, mread_write by done. symmetry. apply torn_all; [|done].
    rewrite mread_length. unfold Zlen. lia. }
  assert (Hz : Zlen (take k bs) = Z.of_nat k) by zlen || (unfold Zlen; rewrite length_take; lia).
  replace (Zlen bs) with (Z.of_nat k + (Zlen bs - Z.of_nat k)) at 1 by lia.
  rewrite mread_app by (unfold Zlen; lia). unfold torn. f_equal.
  - rewrite <-Hz at 1. apply mread_write.
  - rewrite mread_write_other by (rewrite Hz; lia).
    rewrite <-(Nat2Z.id k) at 3. by rewrite mread_drop by (unfold Zlen; lia).
Qed.

(** ** Power loss: some of the events happened, in order *)

Definition crash (m : mem) (l : list event) (m' : mem) : Prop := exists k, m' = replay m (take k l).

Lemma crash_none m l : crash m l m.
Proof. by exists 0%nat. Qed.

Lemma crash_all m l : crash m l (replay m l).
Proof. exists (length l). by rewrite firstn_all. Qed.

Lemma crash_app m l1 l2 m' : crash m (l1 ++ l2) m' ->
  crash m l1 m' \/ crash (replay m l1) l2 m'.
Proof.
  intros [k ->]. rewrite take_app. destruct (Nat.le_gt_cases k (length l1)).
  - left. exists k. replace (k - length l1)%nat with 0%nat by lia. by rewrite app_nil_r.
  - right. exists (k - length l1)%nat. by rewrite (take_ge l1), replay_app by lia.
Qed.

Lemma crash_nil m m' : crash m [] m' -> m' = m.
Proof. intros [k ->]. by rewrite firstn_nil. Qed.

Lemma crash_commit m m' : crash m [Commit] m' -> m' = m.
Proof. intros [[|[|k]] ->]; done. Qed.

Lemma crash_cells m a bs m' : crash m (cells a bs) m' ->
  (exists k, mread m' a (Zlen bs) = torn k bs (mread m a (Zlen bs))) /\
  (forall x, x < a \/ a + Zlen bs <= x -> m' x = m x).
Proof using rewritable.
  intros [k ->]. split; [exists k; apply mread_torn|].
  intros x Hx. rewrite cells_take. apply replay_cells_out.
  assert (Zlen (take k bs) <= Zlen bs) by zlen. lia.
Qed.

(** ** Writes of what changed *)

Definition update_events (m : mem) (a : Z) (bs : bytes) : list event :=
  if decide (mread m a (Zlen bs) = bs) then [] else cells a bs.

Lemma update_read m a bs : mread (replay m (update_events m a bs)) a (Zlen bs) = bs.
Proof using rewritable. unfold update_events. case_decide; [done|]. apply mread_write. Qed.

Lemma update_out m a bs x : x < a \/ a + Zlen bs <= x -> replay m (update_events m a bs) x = m x.
Proof using rewritable. intros. unfold update_events. case_decide; [done|]. by apply replay_cells_out. Qed.

Lemma crash_update m a bs m' : crash m (update_events m a bs) m' ->
  (exists k, mread m' a (Zlen bs) = torn k bs (mread m a (Zlen bs))) /\
  (forall x, x < a \/ a + Zlen bs <= x -> m' x = m x).
Proof using rewritable.
  unfold update_events. case_decide as Hd; [|apply crash_cells].
  intros Hc. rewrite (crash_nil _ _ Hc). split; [|done]. exists 0%nat. by rewrite torn_0.
Qed.

(** The bytes of a range after a write inside it. *)
Lemma mread_splice m m' a n o bs : 0 <= o -> o + Zlen bs <= n ->
  mread m' (a + o) (Zlen bs) = bs ->
  (forall x, x < a + o \/ a + o + Zlen bs <= x -> m' x = m x) ->
  mread m' a n = take (Z.to_nat o) (mread m a n) ++ bs ++ drop (Z.to_nat (o + Zlen bs)) (mread m a n).
Proof.
  intros Ho Hn Hb Hout. pose proof (Zlen_nonneg bs).
  replace n with (o + (Zlen bs + (n - o - Zlen bs))) at 1 by lia.
  rewrite (mread_app m' a) by lia. rewrite (mread_app m' (a + o)) by lia. rewrite Hb.
  rewrite mread_take, mread_drop by lia. f_equal; [apply mread_ext; intros; apply Hout; lia|]. f_equal.
  replace (a + o + Zlen bs) with (a + (o + Zlen bs)) by lia.
  replace (n - o - Zlen bs) with (n - (o + Zlen bs)) by lia.
  apply mread_ext. intros. apply Hout. lia.
Qed.

(** A torn write at the start of [old]. *)
Lemma torn_prefix j bs old : (length bs <= length old)%nat ->
  torn j bs (take (length bs) old) ++ drop (length bs) old
  = take (Nat.min j (length bs)) bs ++ drop (Nat.min j (length bs)) old.
Proof.
  intros Hl. unfold torn. rewrite <-app_assoc. f_equal.
  - destruct (Nat.le_gt_cases j (length bs)).
    + by rewrite Nat.min_l by lia.
    + rewrite Nat.min_r by lia. by rewrite !take_ge by lia.
  - rewrite <-(take_drop (length bs) old) at 3. rewrite drop_app, length_take_le by lia.
    replace (Nat.min j (length bs) - length bs)%nat with 0%nat by lia. f_equal.
    destruct (Nat.le_gt_cases j (length bs)).
    + by rewrite Nat.min_l by lia.
    + rewrite Nat.min_r by lia. rewrite !drop_ge by (rewrite length_take; lia). done.
Qed.

Lemma extend_nil d : extend d [] = d.
Proof. unfold extend. cbn. rewrite app_nil_r. by destruct d. Qed.

(** ** Symbolic execution *)

Context {S : Type} {dS : HasDev S} {lS : DevLaws S}.

Lemma within_true a n : 0 <= a -> 0 <= n -> a + n <= capacity -> within a n = true.
Proof. intros. unfold within. rewrite !(proj2 (Z.leb_le _ _)) by lia. done. Qed.

Lemma wp_read a n (Q : option bytes -> S -> Prop) s :
  0 <= a < 2 ^ 32 -> 0 <= n -> a + n <= capacity ->
  Q (Some (mread (d_mem (get_dev s)) a n)) s -> wp (readStorage a n) Q s.
Proof. intros Ha Hn Hc HQ. unfold wp, readStorage. by rewrite uN_small, within_true by (done || lia). Qed.

Lemma wp_write_device a bs (Q : Z -> S -> Prop) s :
  0 <= a < 2 ^ 32 -> a + Zlen bs <= capacity ->
  Q (Zlen bs) (set_dev (extend (get_dev s) (cells a bs)) s) -> wp (writeStorage a bs) Q s.
Proof.
  intros Ha Hc HQ. unfold wp, writeStorage.
  by rewrite uN_small, within_true by (done || lia || apply Zlen_nonneg).
Qed.

Lemma wp_commit (Q : unit -> S -> Prop) s :
  Q tt (set_dev (extend (get_dev s) [Commit]) s) -> wp commit Q s.
Proof. done. Qed.
End Facts.
