(* ===== verification/Storage.v ===== *)
(** * storage.cpp: special sections and the times of saving

    The class [Storage]: the sections a driver registers beside the state, with their
    checksum and backup copy; [updateStorage], which writes only what changed and tells
    the state storage; and the clock that decides when the state is saved. *)
From S2P Require Import Prelude Crc16 Device.

(** ** [updateStorage]

    A state storage is told of a change by [notifyUpdate]; [storageStartingOffset] is the
    constant of the [Storage] object. *)
Class HasNotify (S : Type) := notifyUpdate : S -> S.

Section Update.
Context {medium : Medium} {S : Type} {dS : HasDev S} {nS : HasNotify S}.
Variable storageStartingOffset : Z.

(** The comparison with what is stored; a read that the device refuses leaves the buffer
    from [new] without a value, and comparing it is not defined. *)
Definition memcmp_stored (offset : Z) (buf : bytes) : M S bool :=
  let! currentData := readStorage offset (Zlen buf) in
  let! currentData := mopt currentData in
  mret (negb (bool_decide (currentData = buf))).

Definition updateStorage (offset : Z) (buf : bytes) : M S Z :=
  if offset <? storageStartingOffset then mret 0
  else
    let! different := memcmp_stored offset buf in
    if different then mmod notifyUpdate;;; writeStorage offset buf
    else mret (Zlen buf).
End Update.

(** ** Special sections *)

Record SpecialSectionInfo := {
  sectionId : Z; offset : Z; size : Z; addCrc : bool; addBackupCopy : bool }.

Record storage := {
  st_dev : dev;
  firstSectionInfo : list SpecialSectionInfo;
  saveStatePeriod : Z;
  lastWriteTimestamp : Z }.

#[export] Instance storage_dev : HasDev storage :=
  {| get_dev := st_dev;
     set_dev d s := {| st_dev := d; firstSectionInfo := firstSectionInfo s;
       saveStatePeriod := saveStatePeriod s; lastWriteTimestamp := lastWriteTimestamp s |} |}.

#[export] Instance storage_dev_laws : DevLaws storage.
Proof. split; [done|done|by intros []]. Qed.

Definition set_sections (l : list SpecialSectionInfo) (s : storage) : storage :=
  {| st_dev := st_dev s; firstSectionInfo := l;
     saveStatePeriod := saveStatePeriod s; lastWriteTimestamp := lastWriteTimestamp s |}.
Definition set_saveStatePeriod (v : Z) (s : storage) : storage :=
  {| st_dev := st_dev s; firstSectionInfo := firstSectionInfo s;
     saveStatePeriod := v; lastWriteTimestamp := lastWriteTimestamp s |}.
Definition set_lastWriteTimestamp (v : Z) (s : storage) : storage :=
  {| st_dev := st_dev s; firstSectionInfo := firstSectionInfo s;
     saveStatePeriod := saveStatePeriod s; lastWriteTimestamp := v |}.

Section Sections.
Context {medium : Medium}.

(** The walk of [registerSection] to the end of the list: [None] when the id is used. *)
Fixpoint append_section (info : SpecialSectionInfo) (l : list SpecialSectionInfo)
    : option (list SpecialSectionInfo) :=
  match l with
  | [] => Some [info]
  | p :: l =>
      if sectionId p =? sectionId info then None
      else option_map (cons p) (append_section info l)
  end.

Definition registerSection (id off sz : Z) (crc backup : bool) : M storage bool :=
  if backup && negb crc then mret false
  else
    let! s := mget in
    match append_section {| sectionId := id; offset := off; size := sz; addCrc := crc;
                            addBackupCopy := backup |} (firstSectionInfo s) with
    | None => mret false
    | Some l => mmod (set_sections l);;; mret true
    end.

(** The walk to the section with the id. *)
Fixpoint find_section (id : Z) (l : list SpecialSectionInfo) : option SpecialSectionInfo :=
  match l with
  | [] => None
  | p :: l => if negb (sectionId p =? id) then find_section id l else Some p
  end.

(** The entries of the loops: the section and its backup copy. *)
Definition entries (p : SpecialSectionInfo) : list Z := if addBackupCopy p then [0; 1] else [0].

Definition entry_offset (p : SpecialSectionInfo) (entry : Z) : Z :=
  u32 (offset p + entry * (size p + (if addCrc p then 2 else 0))).

Fixpoint readSection_loop (p : SpecialSectionInfo) (es : list Z) : M storage (option bytes) :=
  match es with
  | [] => mret None
  | entry :: es =>
      let off := entry_offset p entry in
      let! buffer := readStorage off (size p) in
      match buffer with
      | None => mret None
      | Some buffer =>
          if addCrc p then
            let! crc := readStorage (off + size p) 2 in
            let readCrc := match crc with Some b => le_combine b | None => 0 end in
            if negb (readCrc =? crc16 buffer) then readSection_loop p es
            else mret (Some buffer)
          else mret (Some buffer)
      end
  end.

(** [Some data] is [true] with [data] copied out, [None] is [false]. *)
Definition readSection (id sz : Z) : M storage (option bytes) :=
  let! s := mget in
  match find_section id (firstSectionInfo s) with
  | None => mret None
  | Some p =>
      if negb (size p =? sz) then mret None
      else if sz <? 0 then mopt None                     (* new unsigned char[size] *)
      else readSection_loop p (entries p)
  end.

Fixpoint writeSection_loop (p : SpecialSectionInfo) (data : bytes) (es : list Z) : M storage bool :=
  match es with
  | [] => mret true
  | entry :: es =>
      let off := entry_offset p entry in
      let! isDataDifferent := memcmp_stored off data in
      if isDataDifferent then
        let! wroteBytes := writeStorage off data in
        if negb (wroteBytes =? Zlen data) then mret false
        else
          (if addCrc p
           then writeStorage (off + Zlen data) (le_split 2 (crc16 data));;; mret tt
           else mret tt);;;
          writeSection_loop p data es
      else writeSection_loop p data es
  end.

Definition writeSection (id : Z) (data : bytes) : M storage bool :=
  let! s := mget in
  match find_section id (firstSectionInfo s) with
  | None => mret false
  | Some p =>
      if negb (size p =? Zlen data) then mret false
      else writeSection_loop p data (entries p)
  end.

(** [writeStorage(offset + i, &zero, 1)] for the bytes of an entry. *)
Fixpoint zero_loop (off : Z) (n : nat) : M storage unit :=
  match n with
  | O => mret tt
  | S n => writeStorage off [Byte.x00];;; zero_loop (off + 1) n
  end.

Fixpoint deleteSection_loop (p : SpecialSectionInfo) (es : list Z) : M storage unit :=
  match es with
  | [] => mret tt
  | entry :: es =>
      let off := entry_offset p entry in
      zero_loop off (Z.to_nat (size p));;;
      (if addCrc p then writeStorage (off + size p) (le_split 2 0);;; mret tt else mret tt);;;
      deleteSection_loop p es
  end.

Definition deleteSection (id : Z) : M storage bool :=
  let! s := mget in
  match find_section id (firstSectionInfo s) with
  | None => mret false
  | Some p => deleteSection_loop p (entries p);;; mret true
  end.
End Sections.

(** ** When the state is saved *)

Definition setStateSavePeriod (periodMs : Z) : M storage unit :=
  mmod (set_saveStatePeriod (if periodMs <? 500 then 500 else periodMs)).

Definition saveStateAllowed (ms : Z) : M storage bool :=
  let! s := mget in
  if saveStatePeriod s <? u32 (ms - lastWriteTimestamp s)
  then mmod (set_lastWriteTimestamp ms);;; mret true
  else mret false.

(** [now] is [millis ()]. *)
Definition scheduleSave (now delayMsMax delayMsMin : Z) : M storage unit :=
  let! s := mget in
  let next := u32 (lastWriteTimestamp s + saveStatePeriod s) in
  let desired := u32 (now + delayMsMax) in
  let target := if i32 (u32 (next - desired)) <? 0 then next else desired in
  let target :=
    if negb (delayMsMin =? 0) then
      let desired := u32 (now + delayMsMin) in
      if i32 (u32 (target - desired)) <? 0 then desired else target
    else target in
  mmod (set_lastWriteTimestamp (u32 (target - saveStatePeriod s))).
