(* ===== verification/StorageFacts.v ===== *)
(** * Special sections: what the operations do to the memory

    The value a section has in a memory, and the events its operations cause, as functions
    of the memory; the operations are shown to compute them. *)
From stdpp Require Import sets.
From S2P Require Import Prelude Crc16 Device DeviceFacts Storage.

Section Facts.
Context {medium : Medium}.
Implicit Types (p : SpecialSectionInfo) (m : mem) (e : Z).

(** The bytes of one entry with its checksum. *)
Definition stride p : Z := size p + if addCrc p then 2 else 0.

(** The section and its copy lie on the medium. *)
Definition placed p : Prop :=
  0 <= offset p /\ 0 <= size p /\ offset p + Z.of_nat (length (entries p)) * stride p <= capacity
  /\ capacity < 2 ^ 32.

(** The address of an entry. *)
Definition place p e : Z := offset p + e * stride p.

(** What is read of an entry: its data when the checksum agrees. *)
Definition entry_value p m e : option bytes :=
  let d := mread m (place p e) (size p) in
  if addCrc p
  then if le_combine (mread m (place p e + size p) 2) =? crc16 d then Some d else None
  else Some d.

Fixpoint entries_value p m (es : list Z) : option bytes :=
  match es with
  | [] => None
  | e :: es => match entry_value p m e with Some d => Some d | None => entries_value p m es end
  end.

Definition section_value p m : option bytes := entries_value p m (entries p).

(** The events of a write. *)
Definition entry_events p m (data : bytes) e : list event :=
  if decide (mread m (place p e) (size p) = data) then []
  else cells (place p e) data
       ++ (if addCrc p then cells (place p e + size p) (le_split 2 (crc16 data)) else []).

Fixpoint entries_events p m (data : bytes) (es : list Z) : list event :=
  match es with
  | [] => []
  | e :: es =>
      let l := entry_events p m data e in l ++ entries_events p (replay m l) data es
  end.

Definition write_events p m data : list event := entries_events p m data (entries p).

(** ** Geometry *)

Lemma entries_01 p e : e ∈ entries p -> 0 <= e /\ e + 1 <= Z.of_nat (length (entries p)).
Proof. unfold entries. destruct (addBackupCopy p); set_unfold; cbn; intros; lia. Qed.

Lemma stride_size p : size p <= stride p.
Proof. unfold stride. destruct (addCrc p); lia. Qed.

Lemma place_bounds p e : placed p -> e ∈ entries p ->
  0 <= place p e /\ place p e + stride p <= capacity /\ capacity < 2 ^ 32
  /\ 0 <= size p <= stride p.
Proof.
  intros (Ho & Hs & Hc & H32) He. apply entries_01 in He. pose proof (stride_size p).
  unfold place. split_and!; nia || lia.
Qed.

Lemma entry_offset_place p e : placed p -> e ∈ entries p -> entry_offset p e = place p e.
Proof.
  intros Hp He. destruct (place_bounds p e Hp He) as (?&?&?&?).
  apply uN_small. unfold place in *. unfold stride in *. lia.
Qed.

Lemma stride_crc p : addCrc p = true -> stride p = size p + 2.
Proof. unfold stride. by intros ->. Qed.

(** ** Reading *)

Lemma wp_readSection_loop p s es : placed p -> es ⊆ entries p ->
  readSection_loop p es s = Some (entries_value p (d_mem (st_dev s)) es, s).
Proof.
  intros Hp. induction es as [|e es IH]; intros Hes; [done|]. cbn [readSection_loop entries_value].
  assert (He : e ∈ entries p) by set_solver. specialize (IH ltac:(set_solver)).
  destruct (place_bounds p e Hp He) as (?&?&?&?). rewrite entry_offset_place by done.
  unfold entry_value. set (d := mread _ _ (size p)).
  assert (Hr : readStorage (place p e) (size p) s = Some (Some d, s)).
  { unfold readStorage. rewrite uN_small by lia. by rewrite within_true by lia. }
  unfold mbnd at 1. rewrite Hr. destruct (addCrc p) eqn:Ec; [|done].
  pose proof (stride_crc p Ec).
  unfold mbnd at 1, readStorage. rewrite uN_small, within_true by lia. cbv zeta.
  destruct (le_combine _ =? _); [done|]. exact IH.
Qed.

Lemma find_section_id id l p : find_section id l = Some p -> sectionId p = id.
Proof.
  induction l as [|q l IH]; [done|]. cbn [find_section].
  destruct (Z.eqb_spec (sectionId q) id); cbn [negb]; [by intros [= <-]|done].
Qed.

Lemma readSection_value id p s : find_section id (firstSectionInfo s) = Some p -> placed p ->
  readSection id (size p) s = Some (section_value p (d_mem (st_dev s)), s).
Proof.
  intros Hf Hp. unfold readSection, mbnd, mget. rewrite Hf, Z.eqb_refl. cbn [negb].
  rewrite (proj2 (Z.ltb_ge _ _)) by apply Hp. by apply wp_readSection_loop.
Qed.

(** ** Writing *)

Lemma writeStorage_run {S} `{HasDev S} a bs (s : S) : 0 <= a -> a + Zlen bs <= capacity ->
  capacity < 2 ^ 32 ->
  writeStorage a bs s = Some (Zlen bs, set_dev (extend (get_dev s) (cells a bs)) s).
Proof.
  intros. unfold writeStorage. pose proof (Zlen_nonneg bs).
  rewrite uN_small by lia. by rewrite within_true by lia.
Qed.

Lemma readStorage_run {S} `{HasDev S} a n (s : S) : 0 <= a -> 0 <= n -> a + n <= capacity ->
  capacity < 2 ^ 32 ->
  readStorage a n s = Some (Some (mread (d_mem (get_dev s)) a n), s).
Proof.
  intros. unfold readStorage. rewrite uN_small by lia. by rewrite within_true by lia.
Qed.

Lemma memcmp_stored_run {S} `{HasDev S} a bs (s : S) : 0 <= a -> a + Zlen bs <= capacity ->
  capacity < 2 ^ 32 ->
  memcmp_stored a bs s
  = Some (negb (bool_decide (mread (d_mem (get_dev s)) a (Zlen bs) = bs)), s).
Proof.
  intros. unfold memcmp_stored, mbnd. rewrite readStorage_run by (done || apply Zlen_nonneg). done.
Qed.

Definition extended (s : storage) (l : list event) : storage := set_dev (extend (st_dev s) l) s.

Lemma extended_app s l1 l2 : extended (extended s l1) l2 = extended s (l1 ++ l2).
Proof. unfold extended. cbn [st_dev set_dev storage_dev]. by rewrite extend_app. Qed.

Lemma extended_nil s : extended s [] = s.
Proof.
  unfold extended, extend. cbn. rewrite app_nil_r. destruct s as [[] ???]. done.
Qed.

Lemma extended_mem s l : d_mem (st_dev (extended s l)) = replay (d_mem (st_dev s)) l.
Proof. done. Qed.

Lemma writeStorage_extended a bs s : 0 <= a -> a + Zlen bs <= capacity -> capacity < 2 ^ 32 ->
  writeStorage a bs s = Some (Zlen bs, extended s (cells a bs)).
Proof. exact (writeStorage_run (H := storage_dev) a bs s). Qed.

Lemma writeSection_loop_run p data es : placed p -> Zlen data = size p -> es ⊆ entries p ->
  forall s, writeSection_loop p data es s
            = Some (true, extended s (entries_events p (d_mem (st_dev s)) data es)).
Proof.
  intros Hp Hd. induction es as [|e es IH]; intros Hes s.
  { cbn [writeSection_loop entries_events]. by rewrite extended_nil. }
  cbn [writeSection_loop entries_events].
  assert (He : e ∈ entries p) by set_solver. specialize (IH ltac:(set_solver)).
  destruct (place_bounds p e Hp He) as (?&?&?&?). rewrite entry_offset_place by done.
  unfold mbnd at 1. rewrite memcmp_stored_run by lia. rewrite Hd. unfold entry_events at 1 2.
  case_bool_decide as Ecmp; cbn [negb]; [rewrite decide_True by done; by rewrite IH|].
  rewrite decide_False by done. unfold mbnd at 1. rewrite writeStorage_extended by lia.
  rewrite Hd, Z.eqb_refl. cbn [negb].
  destruct (addCrc p) eqn:Ec.
  - pose proof (stride_crc p Ec). unfold mbnd.
    rewrite writeStorage_extended by (rewrite ?Zlen_le_split; lia). cbv beta iota. unfold mret at 1.
    by rewrite IH, !extended_app, !app_assoc, !extended_mem, replay_app.
  - unfold mbnd, mret at 1. by rewrite IH, extended_app, app_nil_r, extended_mem.
Qed.

Lemma writeSection_run id p data s : find_section id (firstSectionInfo s) = Some p -> placed p ->
  Zlen data = size p ->
  writeSection id data s = Some (true, extended s (write_events p (d_mem (st_dev s)) data)).
Proof.
  intros Hf Hp Hd. unfold writeSection, mbnd, mget. rewrite Hf, Hd, Z.eqb_refl. cbn [negb].
  by apply writeSection_loop_run.
Qed.
End Facts.
