(* ===== verification/StorageProps.v ===== *)
(** * Special sections survive a power loss

    What is written to a section is read back; a power loss during the write leaves the old
    or the new content of a section that has a backup copy; other sections are not touched;
    and the case in which a write that reports success leaves the section unreadable. *)
From stdpp Require Import sets.
From S2P Require Import Prelude Crc16 Device DeviceFacts Storage StorageFacts.

Section Props.
Context {medium : Medium} {rewritable : Rewritable medium}.
Implicit Types (p q : SpecialSectionInfo) (m : mem) (e : Z).

(** ** The region of an entry *)

Definition same_on (a b : Z) (m m' : mem) : Prop := forall x, a <= x < b -> m' x = m x.

Lemma entry_value_same p m m' e : 0 <= size p -> same_on (place p e) (place p e + stride p) m m' ->
  entry_value p m' e = entry_value p m e.
Proof.
  intros Hs Hm. unfold entry_value, stride in *.
  rewrite (mread_ext m' m (place p e) (size p)) by (intros; apply Hm; destruct (addCrc p); lia).
  destruct (addCrc p); [|done].
  by rewrite (mread_ext m' m (place p e + size p) 2) by (intros; apply Hm; lia).
Qed.

(** An entry with its data and checksum in place. *)
Lemma entry_value_stored p m e d : mread m (place p e) (size p) = d ->
  (addCrc p = true -> mread m (place p e + size p) 2 = le_split 2 (crc16 d)) ->
  entry_value p m e = Some d.
Proof.
  intros Hd Hc. unfold entry_value. rewrite Hd. destruct (addCrc p); [|done].
  rewrite Hc by done. rewrite le_combine_split. change (2 ^ (Z.of_nat 2 * 8)) with (2 ^ 16).
  rewrite Z.mod_small by apply crc16_range. by rewrite Z.eqb_refl.
Qed.

Lemma entry_value_inv p m e d : entry_value p m e = Some d -> mread m (place p e) (size p) = d /\
  (addCrc p = true -> le_combine (mread m (place p e + size p) 2) = crc16 d).
Proof.
  unfold entry_value. destruct (addCrc p); [|by intros [= <-]].
  destruct (Z.eqb_spec (le_combine (mread m (place p e + size p) 2))
    (crc16 (mread m (place p e) (size p)))); [|done]. by intros [= <-].
Qed.

(** ** One entry is written *)

Lemma entry_events_out p m data e x : Zlen data = size p ->
  x < place p e \/ place p e + stride p <= x -> replay m (entry_events p m data e) x = m x.
Proof.
  intros Hd Hx. unfold entry_events. pose proof (stride_size p). pose proof (Zlen_nonneg data).
  destruct (decide _); [done|]. rewrite replay_app. destruct (addCrc p) eqn:Ec.
  - pose proof (stride_crc p Ec).
    rewrite !replay_cells_out by (rewrite ?Zlen_le_split; lia). done.
  - change (replay ?m []) with m. rewrite replay_cells_out by lia. done.
Qed.

Lemma entry_events_value p m data e : Zlen data = size p ->
  (mread m (place p e) (size p) = data -> entry_value p m e = Some data) ->
  entry_value p (replay m (entry_events p m data e)) e = Some data.
Proof.
  intros Hd Hm. unfold entry_events. destruct (decide _); [by apply Hm|].
  rewrite replay_app. apply entry_value_stored.
  - destruct (addCrc p).
    + rewrite mread_write_other by lia. rewrite <-Hd. apply mread_write.
    + rewrite <-Hd. apply mread_write.
  - intros ->. exact (mread_write _ _ (le_split 2 _)).
Qed.

Lemma crash_entry_out p m data e m' x : Zlen data = size p ->
  crash m (entry_events p m data e) m' ->
  x < place p e \/ place p e + stride p <= x -> m' x = m x.
Proof.
  intros Hd Hc Hx. unfold entry_events in Hc. pose proof (stride_size p). pose proof (Zlen_nonneg data).
  destruct (decide _); [by rewrite (crash_nil _ _ Hc)|].
  apply crash_app in Hc as [Hc|Hc].
  { apply crash_cells in Hc as [_ Ho]. apply Ho. lia. }
  destruct (addCrc p) eqn:Ec.
  - pose proof (stride_crc p Ec). apply crash_cells in Hc as [_ Ho].
    rewrite Ho, replay_cells_out by (rewrite ?Zlen_le_split; lia). done.
  - rewrite (crash_nil _ _ Hc). apply replay_cells_out. lia.
Qed.

(** The checksum tells a half-written content from the old one. *)
Definition crc_separates (new old : bytes) : Prop :=
  forall k, crc16 (torn k new old) = crc16 old -> torn k new old = old.

(** A power loss in an entry: it holds the old data, the new data, or fails its check. *)
Lemma crash_entry_value p m old data e m' : addCrc p = true ->
  Zlen data = size p -> crc_separates data old -> entry_value p m e = Some old ->
  crash m (entry_events p m data e) m' ->
  entry_value p m' e = Some old \/ entry_value p m' e = Some data \/ entry_value p m' e = None.
Proof.
  intros Ec Hd Hsep Hold Hc. pose proof (entry_value_inv _ _ _ _ Hold) as [Hm Hcrc].
  specialize (Hcrc Ec). unfold entry_events in Hc. destruct (decide _).
  { left. by rewrite (crash_nil _ _ Hc). }
  rewrite Ec in Hc. apply crash_app in Hc as [Hc|Hc]; apply crash_cells in Hc as [[k Hk] Ho].
  - rewrite Hd, Hm in Hk. unfold entry_value. rewrite Ec, Hk.
    rewrite (mread_ext m' m) by (intros; apply Ho; lia). rewrite Hcrc.
    destruct (Z.eqb_spec (crc16 old) (crc16 (torn k data old))) as [E|]; [|by right; right].
    left. by rewrite (Hsep k).
  - assert (Hnew : mread m' (place p e) (size p) = data).
    { rewrite (mread_ext m' (replay m (cells (place p e) data))) by (intros; apply Ho; lia).
      rewrite <-Hd. apply mread_write. }
    unfold entry_value. rewrite Ec, Hnew. case_if; auto.
Qed.

(** ** Round trip *)

Lemma write_events_out p m data x : Zlen data = size p -> 0 <= size p ->
  x < offset p \/ offset p + Z.of_nat (length (entries p)) * stride p <= x ->
  replay m (write_events p m data) x = m x.
Proof.
  intros Hd Hs Hx. pose proof (stride_size p). unfold write_events, entries in *.
  destruct (addBackupCopy p); cbn [length Z.of_nat] in Hx; cbn [entries_events];
    rewrite !replay_app; change (replay ?m []) with m;
    rewrite !entry_events_out by (done || unfold place; lia); done.
Qed.

Lemma write_events_value p m data : Zlen data = size p -> 0 <= size p ->
  (mread m (place p 0) (size p) = data -> entry_value p m 0 = Some data) ->
  section_value p (replay m (write_events p m data)) = Some data.
Proof.
  intros Hd Hs Hm. pose proof (entry_events_value p m data 0 Hd Hm) as H0.
  assert (Hv : entry_value p (replay m (write_events p m data)) 0 = Some data).
  { unfold write_events, entries. destruct (addBackupCopy p); cbn [entries_events];
      rewrite !replay_app; cbn [replay fold_left].
    - rewrite (entry_value_same p (replay m (entry_events p m data 0))); [exact H0|done|].
      intros x Hx. apply entry_events_out; [done|]. unfold place in *. lia.
    - exact H0. }
  unfold section_value. replace (entries p) with (0 :: tail (entries p))
    by (unfold entries; by destruct (addBackupCopy p)).
  cbn [entries_value]. by rewrite Hv.
Qed.

(** A section whose range does not meet the range that changed keeps its value. *)
Lemma section_value_same q m m' : 0 <= size q ->
  same_on (offset q) (offset q + Z.of_nat (length (entries q)) * stride q) m m' ->
  section_value q m' = section_value q m.
Proof.
  intros Hs Hm. unfold section_value. pose proof (stride_size q).
  assert (Ha : forall es, es ⊆ entries q -> entries_value q m' es = entries_value q m es).
  { induction es as [|e es IH]; intros Hes; [done|]. cbn [entries_value].
    assert (He : e ∈ entries q) by set_solver. apply entries_01 in He.
    rewrite (entry_value_same q m m' e), IH; [done|set_solver|done|].
    intros x Hx. apply Hm. unfold place in Hx. nia. }
  by apply Ha.
Qed.

Definition disjoint_sections p q : Prop :=
  offset p + Z.of_nat (length (entries p)) * stride p <= offset q \/
  offset q + Z.of_nat (length (entries q)) * stride q <= offset p.

(** ** Power loss *)

(** After a restart: the memory as it was left, the sections registered again. *)
Definition restart (m : mem) (s : storage) : storage :=
  {| st_dev := {| d_mem := m; d_log := [] |}; firstSectionInfo := firstSectionInfo s;
     saveStatePeriod := saveStatePeriod s; lastWriteTimestamp := 0 |}.

Lemma crash_write_out p m data m' : Zlen data = size p -> 0 <= size p ->
  crash m (write_events p m data) m' ->
  forall x, x < offset p \/ offset p + Z.of_nat (length (entries p)) * stride p <= x -> m' x = m x.
Proof.
  intros Hd Hs Hc x Hx. pose proof (stride_size p). unfold write_events, entries in *.
  destruct (addBackupCopy p); cbn [length Z.of_nat entries_events] in Hx, Hc.
  - apply crash_app in Hc as [Hc|Hc].
    { apply (crash_entry_out p m data 0 m'); unfold place; (done || lia). }
    rewrite app_nil_r in Hc. rewrite (crash_entry_out p _ data 1 m' x Hd Hc) by (unfold place; lia).
    apply entry_events_out; unfold place; (done || lia).
  - rewrite app_nil_r in Hc. apply (crash_entry_out p m data 0 m'); unfold place; (done || lia).
Qed.

Lemma crash_write_value p m old data m' : addCrc p = true -> addBackupCopy p = true ->
  Zlen data = size p -> crc_separates data old ->
  entry_value p m 0 = Some old -> entry_value p m 1 = Some old ->
  crash m (write_events p m data) m' ->
  section_value p m' = Some old \/ section_value p m' = Some data.
Proof.
  intros Ec Eb Hd Hsep H0 H1 Hc. pose proof (Zlen_nonneg data). pose proof (stride_size p).
  unfold section_value. unfold write_events, entries in *. rewrite Eb in *. cbn [entries_events] in Hc.
  cbn [entries_value]. apply crash_app in Hc as [Hc|Hc].
  - pose proof (crash_entry_value p m old data 0 m' Ec Hd Hsep H0 Hc) as [E|[E|E]]; rewrite E; auto.
    left. rewrite (entry_value_same p m m' 1), H1; [done|lia|].
    intros x Hx. apply (crash_entry_out p m data 0 m'); unfold place in *; (done || lia).
  - right. rewrite app_nil_r in Hc.
    rewrite (entry_value_same p (replay m (entry_events p m data 0)) m' 0); [|lia|].
    + by rewrite (entry_events_value p m data 0 Hd)
        by (intros E; pose proof (entry_value_inv _ _ _ _ H0); intuition congruence).
    + intros x Hx. apply (crash_entry_out p _ data 1 m' x Hd Hc). unfold place in *. lia.
Qed.

(** A change of at most two consecutive bytes is told apart. *)
Lemma crc_separates_burst a u v b : length u = length v -> (length u <= 2)%nat ->
  crc_separates (a ++ u ++ b) (a ++ v ++ b).
Proof.
  intros Hl H2 k.
  rewrite !torn_app, !torn_same by done. intros E. f_equal. f_equal.
  apply crc16_burst in E; [done|by apply torn_length|].
  rewrite torn_length; lia.
Qed.

(** ** Deletion *)

Fixpoint entries_zeros p (es : list Z) : list event :=
  match es with
  | [] => []
  | e :: es =>
      cells (place p e) (zeros (size p))
      ++ (if addCrc p then cells (place p e + size p) (le_split 2 0) else [])
      ++ entries_zeros p es
  end.

Lemma zero_loop_run n : forall off s, 0 <= off -> off + Z.of_nat n <= capacity -> capacity < 2 ^ 32 ->
  zero_loop off n s = Some (tt, extended s (cells off (replicate n Byte.x00))).
Proof.
  induction n as [|n IH]; intros off s Ho Hc H32.
  { cbn [zero_loop replicate]. by rewrite extended_nil. }
  cbn [zero_loop replicate]. unfold mbnd. rewrite writeStorage_extended by (rewrite ?Zlen_cons, ?Zlen_nil; lia).
  rewrite IH by lia. by rewrite extended_app, !(cells_cons off).
Qed.

Lemma deleteSection_loop_run p es : placed p -> es ⊆ entries p ->
  forall s, deleteSection_loop p es s = Some (tt, extended s (entries_zeros p es)).
Proof.
  intros Hp. induction es as [|e es IH]; intros Hes s.
  { cbn [deleteSection_loop entries_zeros]. by rewrite extended_nil. }
  cbn [deleteSection_loop entries_zeros].
  assert (He : e ∈ entries p) by set_solver. specialize (IH ltac:(set_solver)).
  destruct (place_bounds p e Hp He) as (?&?&?&?). rewrite entry_offset_place by done.
  unfold mbnd. rewrite zero_loop_run by lia. fold (zeros (size p)).
  destruct (addCrc p) eqn:Ec.
  - pose proof (stride_crc p Ec).
    rewrite writeStorage_extended by (rewrite ?Zlen_le_split; lia). unfold mret at 1.
    by rewrite IH, !extended_app, <-?app_assoc.
  - unfold mret at 1. by rewrite IH, extended_app.
Qed.

Lemma deleteSection_run id p s : find_section id (firstSectionInfo s) = Some p -> placed p ->
  deleteSection id s = Some (true, extended s (entries_zeros p (entries p))).
Proof.
  intros Hf Hp. unfold deleteSection, mbnd, mget. by rewrite Hf, deleteSection_loop_run.
Qed.

(** What a deletion leaves in every entry. *)
Lemma entries_zeros_left p m e : placed p -> addCrc p = true -> e ∈ entries p ->
  let m' := replay m (entries_zeros p (entries p)) in
  mread m' (place p e) (size p) = zeros (size p) /\
  le_combine (mread m' (place p e + size p) 2) = 0.
Proof.
  intros Hp Ec He. cbv zeta. destruct (place_bounds p e Hp He) as (?&?&?&?).
  pose proof (stride_crc p Ec) as Hst.
  assert (Hz : Zlen (zeros (size p)) = size p) by (apply Zlen_zeros; lia).
  assert (Hl2 : Zlen (le_split 2 0) = 2) by apply Zlen_le_split.
  assert (Hmz : forall m, mread (replay m (cells (place p e) (zeros (size p)))) (place p e) (size p)
    = zeros (size p)) by (intros; rewrite <-Hz at 2; apply mread_write).
  assert (Hm2 : forall m, mread (replay m (cells (place p e + size p) (le_split 2 0)))
    (place p e + size p) 2 = le_split 2 0) by (intros; apply (mread_write _ _ (le_split 2 0))).
  revert He Hmz Hm2. unfold entries. destruct (addBackupCopy p); intros He; cbn [entries_zeros];
    rewrite Ec, !replay_app; change (replay ?m []) with m; intros Hmz Hm2.
  - assert (e = 0 \/ e = 1) as [-> | ->] by set_solver;
      split; repeat first [rewrite Hmz; done | rewrite Hm2; done
        | rewrite mread_write_other by (rewrite ?Hz, ?Hl2; unfold place in *; lia)].
  - assert (e = 0) as -> by set_solver.
    split; repeat first [rewrite Hmz; done | rewrite Hm2; done
        | rewrite mread_write_other by (rewrite ?Hz, ?Hl2; unfold place in *; lia)].
Qed.

Lemma zeros_section p m : placed p -> addCrc p = true ->
  let m' := replay m (entries_zeros p (entries p)) in
  section_value p m' = None /\ write_events p m' (zeros (size p)) = [].
Proof.
  intros Hp Ec m'. pose proof (entries_zeros_left p m) as Hl.
  assert (Hv : forall e, e ∈ entries p -> entry_value p m' e = None /\ entry_events p m' (zeros (size p)) e = []).
  { intros e He. specialize (Hl e Hp Ec He). cbv zeta in Hl. destruct Hl as [Hz Hc].
    fold m' in Hz, Hc. unfold entry_value, entry_events. rewrite Ec, Hz, Hc.
    rewrite decide_True by done. split; [|done].
    rewrite (proj2 (Z.eqb_neq _ _)); [done|]. intros E. symmetry in E. by apply crc16_zeros in E. }
  unfold section_value, write_events. revert Hv. generalize (entries p) as es.
  induction es as [|e es IH]; intros Hv; [done|]. cbn [entries_value entries_events].
  destruct (Hv e) as [-> ->]; [set_solver|]. cbn [app replay fold_left].
  apply IH. intros. apply Hv. set_solver.
Qed.
End Props.
