(* ===== verification/StorageThms.v ===== *)
(** * Special sections and save times: the theorems

    Sections: round trip, power loss, deletion.  Save times: a scheduled save happens
    within its delay, whatever the times at which the main loop asks for it. *)
From stdpp Require Import sets.
From S2P Require Import Prelude Crc16 Device DeviceFacts Storage StorageFacts StorageProps.

(** ** Sections *)



(** C35: zeros written after a deletion are lost.  [deleteSection] clears the data and the
    checksum of a section with checksum; [writeSection] of zeros then finds the data
    unchanged, writes nothing, not the checksum either, and reports success, and
    [readSection] still fails. *)
Theorem zeros_after_delete_unreadable {medium : Medium} {rw : Rewritable medium} id p s :
  find_section id (firstSectionInfo s) = Some p -> placed p -> addCrc p = true ->
  exists s', deleteSection id s = Some (true, s') /\
    writeSection id (zeros (size p)) s' = Some (true, s') /\
    readSection id (size p) s' = Some (None, s').
Proof.
  intros Hf Hp Ec. exists (extended s (entries_zeros p (entries p))).
  pose proof (zeros_section p (d_mem (st_dev s)) Hp Ec) as [Hv He]. split_and!.
  - by apply deleteSection_run.
  - rewrite (writeSection_run id p) by (done || apply Zlen_zeros, Hp).
    rewrite extended_mem, He. by rewrite extended_nil.
  - rewrite (readSection_value id p) by done. by rewrite extended_mem, Hv.
Qed.

(** ** Save times *)

(** The first answer [true] of a series of questions. *)
Lemma first_true (f : nat -> bool) n : f n = true ->
  exists k, (k <= n)%nat /\ f k = true /\ forall i, (i < k)%nat -> f i = false.
Proof.
  revert f. induction n as [|n IH]; intros f Hn.
  - exists 0%nat. split_and!; [lia|done|lia].
  - destruct (f 0%nat) eqn:E0.
    + exists 0%nat. split_and!; [lia|done|lia].
    + destruct (IH (fun i => f (S i)) Hn) as (k & Hk & Ht & Hf). exists (S k).
      split_and!; [lia|done|]. intros [|i] Hi; [done|]. apply Hf. lia.
Qed.

Lemma u32_diff a b : 0 <= a - b < 2 ^ 32 -> u32 (u32 a - u32 b) = a - b.
Proof. intros. unfold uN. rewrite <-Zminus_mod. by apply Z.mod_small. Qed.

Lemma i32_diff a b : - 2 ^ 31 <= a - b < 2 ^ 31 -> i32 (u32 (u32 a - u32 b)) = a - b.
Proof.
  intros H. unfold uN. rewrite <-Zminus_mod. unfold sN. change (32 - 1) with 31.
  rewrite Z.add_mod_idemp_l by lia. rewrite Z.mod_small by lia. lia.
Qed.

Lemma u32_add a b : u32 (u32 a + b) = u32 (a + b).
Proof. unfold uN. by rewrite Z.add_mod_idemp_l by lia. Qed.

Lemma u32_sub a b : u32 (u32 a - b) = u32 (a - b).
Proof. unfold uN. by rewrite Zminus_mod_idemp_l. Qed.

(** The moment a schedule asks for, in real time; [L] is the time of the last save. *)
Definition save_time (L period now delayMsMax delayMsMin : Z) : Z :=
  let target := Z.min (L + period) (now + delayMsMax) in
  if delayMsMin =? 0 then target else Z.max target (now + delayMsMin).

Lemma scheduleSave_time s L now dmax dmin : let period := saveStatePeriod s in
  lastWriteTimestamp s = u32 L -> 0 <= period <= 2 ^ 30 -> 0 <= now - L <= 2 ^ 30 ->
  0 <= dmax <= 2 ^ 29 -> 0 <= dmin <= 2 ^ 29 ->
  scheduleSave (u32 now) dmax dmin s
  = Some (tt, set_lastWriteTimestamp (u32 (save_time L period now dmax dmin - period)) s).
Proof.
  intros period HL Hp Hn Hmax Hmin. unfold scheduleSave, mbnd, mget. cbv zeta. fold period.
  rewrite HL, !u32_add.
  rewrite (i32_diff (L + period) (now + dmax)) by lia.
  set (target := Z.min (L + period) (now + dmax)).
  assert (Ht : (if L + period - (now + dmax) <? 0 then u32 (L + period) else u32 (now + dmax)) = u32 target).
  { unfold target. destruct (Z.ltb_spec (L + period - (now + dmax)) 0); f_equal; lia. }
  rewrite Ht. unfold save_time. fold target. destruct (dmin =? 0); cbn [negb].
  { by rewrite u32_sub. }
  rewrite (i32_diff target (now + dmin)) by (unfold target; lia).
  assert (Ht2 : (if target - (now + dmin) <? 0 then u32 (now + dmin) else u32 target)
    = u32 (Z.max target (now + dmin))).
  { destruct (Z.ltb_spec (target - (now + dmin)) 0); f_equal; lia. }
  by rewrite Ht2, u32_sub.
Qed.

(** The answer at time [t], when the last save counts as [T - period]. *)
Lemma saveStateAllowed_at s T t : lastWriteTimestamp s = u32 (T - saveStatePeriod s) ->
  0 <= t - (T - saveStatePeriod s) < 2 ^ 32 ->
  saveStateAllowed (u32 t) s
  = Some (if T <? t then (true, set_lastWriteTimestamp (u32 t) s) else (false, s)).
Proof.
  intros HL Ht. unfold saveStateAllowed, mbnd, mget. rewrite HL, u32_diff by done.
  destruct (Z.ltb_spec (saveStatePeriod s) (t - (T - saveStatePeriod s))), (Z.ltb_spec T t);
    try lia; done.
Qed.


(** A minimal delay above the saving period is not respected: the time of the last save is
    set to the future, and the first question, however early, is answered [true]. *)
Lemma minimal_delay_ignored s L now dmax dmin t :
  lastWriteTimestamp s = u32 L -> 0 <= saveStatePeriod s <= 2 ^ 30 -> 0 <= now - L <= 2 ^ 30 ->
  0 <= dmax <= 2 ^ 29 -> 0 < dmin <= 2 ^ 29 ->
  now <= t < now + dmin - saveStatePeriod s ->
  exists s', scheduleSave (u32 now) dmax dmin s = Some (tt, s') /\
    option_map fst (saveStateAllowed (u32 t) s') = Some true.
Proof.
  intros HL Hp Hn Hmax Hmin Ht. rewrite (scheduleSave_time s L) by (done || lia).
  eexists. split; [done|]. unfold saveStateAllowed, mbnd, mget.
  set (T := save_time _ _ _ _ _).
  assert (HT : now + dmin <= T <= now + 2 ^ 30).
  { unfold T, save_time. rewrite (proj2 (Z.eqb_neq _ _)) by lia. lia. }
  cbn [saveStatePeriod lastWriteTimestamp set_lastWriteTimestamp].
  assert (Hw : u32 (u32 t - u32 (T - saveStatePeriod s)) = t - (T - saveStatePeriod s) + 2 ^ 32).
  { unfold uN. rewrite <-Zminus_mod. rewrite <-(Z.mod_add _ 1) by lia. apply Z.mod_small. lia. }
  rewrite Hw. rewrite (proj2 (Z.ltb_lt _ _)) by lia. done.
Qed.

(** ** Witnesses *)

Section Witness.
#[local] Instance medium : Medium := eeprom_medium 64.

(** A section of four bytes with checksum and copy at address 8; its entries hold 1 2 3 4. *)
Definition example_section : SpecialSectionInfo :=
  {| sectionId := 7; offset := 8; size := 4; addCrc := true; addBackupCopy := true |}.
Definition example_data (x : Init.Byte.byte) : bytes := [Byte.x01; x; Byte.x03; Byte.x04].
Definition example_entry (a : Z) : list event :=
  cells a (example_data Byte.x02 ++ le_split 2 (crc16 (example_data Byte.x02))).
Definition example_storage : storage :=
  {| st_dev := {| d_mem := replay (fun _ => Byte.xff) (example_entry 8 ++ example_entry 14);
                  d_log := [] |};
     firstSectionInfo := [example_section];
     saveStatePeriod := 1000; lastWriteTimestamp := 0 |}.

Lemma example_placed : placed example_section.
Proof. vm_compute. intuition congruence. Qed.



Lemma zeros_after_delete_unreadable_witness :
  exists s', deleteSection 7 example_storage = Some (true, s') /\
    writeSection 7 (zeros 4) s' = Some (true, s') /\ readSection 7 4 s' = Some (None, s').
Proof.
  apply (zeros_after_delete_unreadable 7 example_section example_storage);
    [reflexivity|apply example_placed|reflexivity].
Defined.
End Witness.

