(* ===== verification/StateStorage.v ===== *)
(** * state_storage_interface.cpp and the state part of storage.cpp

    The abstract class [StateStorageInterface] as a type class: what a way of keeping the
    state offers to [Storage].  [loadPreambles], which the interface implements, and the
    functions of [Storage] that drive it (validate, load, write) are defined against the
    class; the files that follow are its instances. *)
From S2P Require Import Prelude Device Storage.

(** ** The records at the start of the storage (packed structs) *)

Record Preamble := { suplaTag : bytes; version : Z; sectionsCount : Z }.

Record SectionPreamble := { sp_type : Z; sp_size : Z; crc1 : Z; crc2 : Z }.

Definition byte1 (z : Z) : bytes := le_split 1 z.

Definition Preamble_bytes (p : Preamble) : bytes :=
  suplaTag p ++ le_split 2 (version p) ++ byte1 (sectionsCount p).
Definition SectionPreamble_bytes (p : SectionPreamble) : bytes :=
  byte1 (sp_type p) ++ le_split 2 (sp_size p) ++ le_split 2 (crc1 p) ++ le_split 2 (crc2 p).

(** [n] bytes at [off] of a record, as a number. *)
Definition field_at (off n : nat) (b : bytes) : Z := le_combine (take n (drop off b)).

Definition Preamble_of (b : bytes) : Preamble :=
  {| suplaTag := take 5 b; version := field_at 5 2 b; sectionsCount := field_at 7 1 b |}.
Definition SectionPreamble_of (b : bytes) : SectionPreamble :=
  {| sp_type := field_at 0 1 b; sp_size := field_at 1 2 b;
     crc1 := field_at 3 2 b; crc2 := field_at 5 2 b |}.

Definition sizeof_Preamble : Z := 8.
Definition sizeof_SectionPreamble : Z := 7.

Definition SUPLA : bytes := [Byte.x53; Byte.x55; Byte.x50; Byte.x4c; Byte.x41].
Definition SUPLA_STORAGE_VERSION : Z := 1.
Definition STORAGE_SECTION_TYPE_ELEMENT_STATE : Z := 3.
Definition STORAGE_SECTION_TYPE_ELEMENT_STATE_WL_BYTE : Z := 4.
Definition STORAGE_SECTION_TYPE_ELEMENT_STATE_WL_SECTOR : Z := 5.

(** ** The interface *)

Class StateStorageInterface (S : Type) := {
  sectionType : Z;
  getSizeValue : Z -> Z;
  initSectionPreamble : SectionPreamble -> M S unit;
  writeSectionPreamble : M S bool;
  initFromStorage : M S bool;
  prepareSaveState : M S bool;
  prepareSizeCheck : M S bool;
  prepareLoadState : M S bool;
  readState : Z -> M S (option bytes);       (* None: false, or the device refused the read *)
  writeState : bytes -> M S bool;
  finalizeSaveState : M S bool;
  finalizeSizeCheck : M S bool;
  finalizeLoadState : M S bool }.

(** An element of the device: its channel, what its [onSaveState] writes and the sizes its
    [onLoadState] reads. *)
Record element := { channelNumber : Z; saves : list bytes; loads : list Z }.

Section Interface.
Context {medium : Medium} {S : Type} {dS : HasDev S} {iS : StateStorageInterface S}.

(** ** [StateStorageInterface::loadPreambles] *)

Fixpoint loadPreambles_loop (n : nat) (currentOffset : Z) : M S unit :=
  match n with
  | O => mret tt
  | Datatypes.S n =>
      let! b := readStorage currentOffset sizeof_SectionPreamble in
      let! b := mopt b in                     (* [section] has no value before the read *)
      let section := SectionPreamble_of b in
      let currentOffset := u32 (currentOffset + sizeof_SectionPreamble) in
      (if sectionType =? sp_type section
       then initSectionPreamble section;;; initFromStorage;;; mret tt
       else mret tt);;;
      loadPreambles_loop n (u32 (currentOffset + sp_size section))
  end.

Definition loadPreambles (storageStartingOffset size : Z) : M S bool :=
  let! b := readStorage storageStartingOffset sizeof_Preamble in
  let currentOffset :=
    u32 (storageStartingOffset + match b with Some _ => sizeof_Preamble | None => 0 end) in
  let preamble := Preamble_of (default (zeros sizeof_Preamble) b) in
  let suplaTagValid := bool_decide (SUPLA = suplaTag preamble) in
  if negb suplaTagValid || (sectionsCount preamble =? 0) then
    let section := {| sp_type := sectionType; sp_size := getSizeValue size; crc1 := 0; crc2 := 0 |} in
    initSectionPreamble section;;;
    writeSectionPreamble;;;
    writeStorage storageStartingOffset
      (Preamble_bytes {| suplaTag := SUPLA; version := SUPLA_STORAGE_VERSION; sectionsCount := 1 |});;;
    commit;;;
    mret true
  else if negb (version preamble =? SUPLA_STORAGE_VERSION) then mret false
  else
    loadPreambles_loop (Z.to_nat (sectionsCount preamble)) currentOffset;;;
    mret true.

(** ** The driver: [Storage::WriteElementsState], [IsStateStorageValid],
    [LoadStateStorage], [WriteStateStorage] *)

Variable addChannelNumbers : bool.

(** [onSaveState]: the element ignores the results. *)
Fixpoint onSaveState (chunks : list bytes) : M S unit :=
  match chunks with
  | [] => mret tt
  | c :: chunks => writeState c;;; onSaveState chunks
  end.

(** [onLoadState]: what each read delivers. *)
Fixpoint onLoadState (sizes : list Z) : M S (list (option bytes)) :=
  match sizes with
  | [] => mret []
  | n :: sizes =>
      let! r := readState n in
      let! rs := onLoadState sizes in
      mret (r :: rs)
  end.

Definition has_channel (e : element) : bool := (0 <=? channelNumber e) && (channelNumber e <=? 255).

Fixpoint WriteElementsState (elements : list element) : M S unit :=
  match elements with
  | [] => mret tt
  | e :: elements =>
      (if addChannelNumbers then
         if has_channel e then
           writeState (byte1 (channelNumber e));;; onSaveState (saves e)
         else mret tt
       else onSaveState (saves e));;;
      WriteElementsState elements
  end.

Definition IsStateStorageValid (elements : list element) : M S bool :=
  let! ok := prepareSizeCheck in
  if ok then
    WriteElementsState elements;;;
    finalizeSizeCheck
  else mret false.

(** What the elements got: the channel (-1 without channel numbers) and the reads. *)
Definition loaded : Type := list (Z * list (option bytes)).

(** The loop over stored channel numbers; [pending] is [channelsToRead]. *)
Fixpoint load_channels (elements : list element) (n : nat) (pending : Z -> bool) : M S loaded :=
  match n with
  | O => mret []
  | Datatypes.S n =>
      let! b := readState 1 in
      let channel := le_combine (default (zeros 1) b) in
      if negb (pending channel) then mret []
      else
        let! l := match List.find (fun e => channelNumber e =? channel) elements with
                  | Some e => let! r := onLoadState (loads e) in mret [(channel, r)]
                  | None => mret []
                  end in
        let! rest := load_channels elements n (fun c => if c =? channel then false else pending c) in
        mret (l ++ rest)
  end.

Fixpoint load_elements (elements : list element) : M S loaded :=
  match elements with
  | [] => mret []
  | e :: elements =>
      let! r := onLoadState (loads e) in
      let! rest := load_elements elements in
      mret ((-1, r) :: rest)
  end.

(** [None]: the state was not loaded. *)
Definition LoadStateStorage (elements : list element) : M S (option loaded) :=
  let! ok := prepareLoadState in
  if ok then
    let! l :=
      if addChannelNumbers then
        load_channels elements (length (List.filter has_channel elements))
          (fun c => existsb (fun e => has_channel e && (channelNumber e =? c)) elements)
      else load_elements elements in
    finalizeLoadState;;;
    mret (Some l)
  else mret None.

(** The loop runs at most twice. *)
Fixpoint WriteStateStorage_loop (elements : list element) (i : nat) : M S unit :=
  match i with
  | O => mret tt
  | Datatypes.S i =>
      prepareSaveState;;;
      WriteElementsState elements;;;
      let! result := finalizeSaveState in
      if result then mret tt else WriteStateStorage_loop elements i
  end.

Definition WriteStateStorage (elements : list element) : M S unit :=
  WriteStateStorage_loop elements 2.

(** What [SuplaDeviceClass::begin] does with the state storage once it is initialised. *)
Definition begin_state (elements : list element) : M S (option loaded) :=
  let! valid := IsStateStorageValid elements in
  if valid then LoadStateStorage elements else mret None.
End Interface.
