(* ===== verification/StateStorageFacts.v ===== *)
(** * What [Storage] asks of a state storage

    The laws of the interface: a writer accumulates the bytes it is given, a reader hands
    out the bytes of a stream in order.  Against these laws alone, the functions of
    [Storage] write the states of the elements as one stream and give every element its own
    state back. *)
From S2P Require Import Prelude Device DeviceFacts Storage StorageFacts StateStorage.

(** ** The stream of the elements *)

Definition element_chunks (add : bool) (e : element) : list bytes :=
  if add then if has_channel e then byte1 (channelNumber e) :: saves e else [] else saves e.

Definition element_stream (add : bool) (e : element) : bytes := concat (element_chunks add e).
Definition stream (add : bool) (es : list element) : bytes := concat (map (element_stream add) es).

(** What the elements get when every one reads what it wrote. *)
Definition restored (add : bool) (es : list element) : loaded :=
  if add
  then map (fun e => (channelNumber e, map Some (saves e))) (List.filter has_channel es)
  else map (fun e => (-1, map Some (saves e))) es.

(** An element reads in the sizes it writes. *)
Definition reads_back (e : element) : Prop := loads e = map Zlen (saves e).

(** Elements with the same sizes, which a restarted device has. *)
Definition same_shape (e e' : element) : Prop :=
  channelNumber e = channelNumber e' /\ map Zlen (saves e) = map Zlen (saves e') /\ loads e = loads e'.

Lemma stream_shape add es es' : Forall2 same_shape es es' -> Zlen (stream add es) = Zlen (stream add es').
Proof.
  induction 1 as [|e e' es es' (Hc & Hs & Hl) _ IH]; [done|].
  unfold stream in *. cbn [map concat]. rewrite !Zlen_app, IH. f_equal.
  assert (Hcc : Zlen (concat (saves e)) = Zlen (concat (saves e'))).
  { clear - Hs. revert Hs. generalize (saves e') as l'.
    induction (saves e) as [|c l IH]; intros [|c' l'] Hs; try done. cbn [map concat] in *.
    injection Hs as Hc Hs. rewrite !Zlen_app, Hc. by rewrite (IH l' Hs). }
  unfold element_stream, element_chunks, has_channel. rewrite Hc.
  destruct add; [|done]. case_if; [|done]. cbn [concat]. by rewrite !Zlen_app, Hcc.
Qed.

Section Laws.
Context {medium : Medium} {S : Type} {iS : StateStorageInterface S}.

(** ** A writer *)

(** [W s D]: the bytes written since the preparation are [D]; [limit] of them may come. *)
Definition writer_law (limit : Z) (W : S -> bytes -> Prop) : Prop :=
  forall s D buf, W s D -> Zlen D + Zlen buf <= limit ->
    wp (writeState buf) (fun _ s' => W s' (D ++ buf)) s.

Section Writer.
Variables (limit : Z) (W : S -> bytes -> Prop).
Hypothesis writer : writer_law limit W.

Lemma wp_onSaveState chunks : forall s D, W s D -> Zlen D + Zlen (concat chunks) <= limit ->
  wp (onSaveState chunks) (fun _ s' => W s' (D ++ concat chunks)) s.
Proof using writer.
  induction chunks as [|c chunks IH]; intros s D HW Hl; cbn [onSaveState concat] in *.
  { by rewrite app_nil_r. }
  rewrite Zlen_app in Hl. pose proof (Zlen_nonneg (concat chunks)).
  apply wp_bnd. eapply wp_mono; [apply (writer s D c HW); lia|]. intros ? s' HW'. cbn beta in *.
  rewrite app_assoc. apply IH; [done|]. rewrite Zlen_app. lia.
Qed.

Lemma wp_WriteElementsState add es : forall s D, W s D -> Zlen D + Zlen (stream add es) <= limit ->
  wp (WriteElementsState add es) (fun _ s' => W s' (D ++ stream add es)) s.
Proof using writer.
  induction es as [|e es IH]; intros s D HW Hl; cbn [WriteElementsState].
  { by rewrite app_nil_r. }
  change (stream add (e :: es)) with (element_stream add e ++ stream add es) in *.
  rewrite Zlen_app in Hl. pose proof (Zlen_nonneg (stream add es)).
  assert (Hone : wp (if add then if has_channel e
      then writeState (byte1 (channelNumber e));;; onSaveState (saves e) else mret tt
      else onSaveState (saves e)) (fun _ s' => W s' (D ++ element_stream add e)) s).
  { unfold element_stream, element_chunks in *. destruct add; [destruct (has_channel e)|].
    - cbn [concat] in *. rewrite Zlen_app in Hl. pose proof (Zlen_nonneg (concat (saves e))).
      apply wp_bnd. eapply wp_mono; [apply writer; [done|lia]|]. intros ? s' HW'. cbn beta in *.
      rewrite app_assoc. apply wp_onSaveState; [done|]. rewrite Zlen_app. lia.
    - apply wp_ret. by rewrite app_nil_r.
    - apply wp_onSaveState; [done|lia]. }
  apply wp_bnd. eapply wp_mono; [exact Hone|]. intros ? s' HW'. cbn beta in *.
  rewrite app_assoc. apply IH; [done|]. rewrite Zlen_app. lia.
Qed.
End Writer.

(** ** A reader *)

(** [R s D]: the bytes that the next reads deliver are [D]. *)
Definition reader_law (R : S -> bytes -> Prop) : Prop :=
  forall s D n, R s D -> 0 <= n <= Zlen D ->
    wp (readState n) (fun r s' => r = Some (take (Z.to_nat n) D) /\ R s' (drop (Z.to_nat n) D)) s.

Section Reader.
Variable R : S -> bytes -> Prop.
Hypothesis reader : reader_law R.

Lemma wp_onLoadState chunks : forall s D, R s (concat chunks ++ D) ->
  wp (onLoadState (map Zlen chunks)) (fun r s' => r = map Some chunks /\ R s' D) s.
Proof using reader.
  induction chunks as [|c chunks IH]; intros s D HR; cbn [map onLoadState concat] in *.
  { by split. }
  rewrite <-app_assoc in HR. apply wp_bnd.
  eapply wp_mono; [apply (reader s _ (Zlen c) HR)|].
  { pose proof (Zlen_nonneg (concat chunks ++ D)). rewrite Zlen_app. pose proof (Zlen_nonneg c). lia. }
  intros r s' [-> HR']. cbn beta. rewrite drop_Zlen_app in HR' by done.
  apply wp_bnd. eapply wp_mono; [apply IH, HR'|]. intros rs s'' [-> HR'']. cbn beta.
  apply wp_ret. by rewrite take_Zlen_app.
Qed.

Lemma wp_load_elements es : Forall reads_back es -> forall s D, R s (stream false es ++ D) ->
  wp (load_elements es) (fun l s' => l = restored false es /\ R s' D) s.
Proof using reader.
  unfold restored. induction 1 as [|e es He _ IH]; intros s D HR; cbn [load_elements map]; [done|].
  unfold stream in HR. cbn [map concat] in HR. rewrite <-app_assoc in HR.
  apply wp_bnd. rewrite He. eapply wp_mono; [apply (wp_onLoadState (saves e)), HR|].
  intros r s' [-> HR']. cbn beta. apply wp_bnd. eapply wp_mono; [apply IH, HR'|].
  intros l s'' [-> HR'']. by apply wp_ret.
Qed.

(** The loop over channel numbers finds the elements in the order in which they wrote. *)
Lemma find_channel all e : NoDup (map channelNumber (List.filter has_channel all)) ->
  In e (List.filter has_channel all) ->
  List.find (fun x => channelNumber x =? channelNumber e) all = Some e.
Proof using Type.
  induction all as [|x all IH]; [done|]. cbn [List.filter List.find]. intros Hnd Hin.
  destruct (has_channel x) eqn:Ex.
  - cbn [map] in Hnd. apply list.NoDup_cons in Hnd as [Hx Hnd]. destruct Hin as [->|Hin].
    + by rewrite Z.eqb_refl.
    + rewrite (proj2 (Z.eqb_neq _ _)); [by apply IH|]. intros Eq. apply Hx. rewrite Eq.
      apply list_elem_of_In. by apply in_map.
  - rewrite (proj2 (Z.eqb_neq _ _)); [by apply IH|]. intros Eq.
    apply List.filter_In in Hin as [_ He]. unfold has_channel in *. congruence.
Qed.

Lemma byte1_value c : 0 <= c <= 255 -> le_combine (byte1 c) = c.
Proof using Type.
  intros Hc. unfold byte1. rewrite le_combine_split. apply Z.mod_small.
  change (2 ^ (Z.of_nat 1 * 8)) with 256. lia.
Qed.

Lemma stream_filter es : stream true es = stream true (List.filter has_channel es).
Proof using Type.
  unfold stream. induction es as [|e es IH]; [done|]. cbn [List.filter map concat].
  destruct (has_channel e) eqn:E; cbn [map concat]; rewrite IH; [done|].
  unfold element_stream, element_chunks. by rewrite E.
Qed.

Lemma wp_load_channels all es : NoDup (map channelNumber (List.filter has_channel all)) ->
  (forall e, In e es -> In e (List.filter has_channel all) /\ reads_back e) ->
  NoDup (map channelNumber es) ->
  forall pending, (forall e, In e es -> pending (channelNumber e) = true) ->
  forall s D, R s (stream true es ++ D) ->
  wp (load_channels all (length es) pending)
    (fun l s' => l = map (fun e => (channelNumber e, map Some (saves e))) es /\ R s' D) s.
Proof using reader.
  intros Hall. induction es as [|e es IH]; intros Hin Hnd pending Hpend s D HR.
  { by split. }
  cbn [length load_channels map]. destruct (Hin e) as [Hine Hread]; [by left|].
  pose proof (proj2 (proj1 (List.filter_In _ _ _) Hine)) as Hch.
  assert (Hrange : 0 <= channelNumber e <= 255) by (unfold has_channel in Hch; bools; lia).
  unfold stream in HR. cbn [map concat] in HR. unfold element_stream, element_chunks in HR.
  rewrite Hch in HR. cbn [concat] in HR. rewrite <-!app_assoc in HR.
  apply wp_bnd. eapply wp_mono; [apply (reader s _ 1 HR)|].
  { rewrite Zlen_app. change (Zlen (byte1 _)) with 1.
    match goal with |- context [1 + Zlen ?l] => pose proof (Zlen_nonneg l) end. lia. }
  intros r s' [-> HR']. cbn beta. rewrite (drop_Zlen_app (byte1 _)) in HR' by done.
  rewrite (take_Zlen_app (byte1 _)) by done. cbn [default from_option id]. rewrite byte1_value by done.
  rewrite (Hpend e) by (by left). cbn [negb]. rewrite (find_channel all e) by done.
  apply wp_bnd. apply wp_bnd. rewrite Hread.
  eapply wp_mono; [apply (wp_onLoadState (saves e)), HR'|]. intros r s'' [-> HR'']. cbn beta.
  apply wp_ret, wp_bnd. cbn [map] in Hnd. apply list.NoDup_cons in Hnd as [Hne Hnd].
  eapply wp_mono; [apply IH; [intros; apply Hin; by right|done| |apply HR'']|].
  - intros e' He'. cbn beta. rewrite (proj2 (Z.eqb_neq _ _)); [apply Hpend; by right|].
    intros Eq. apply Hne. rewrite <-Eq. apply list_elem_of_In. by apply in_map.
  - intros l s3 [-> HR3]. by apply wp_ret.
Qed.

(** The channels of the elements that have one are distinct. *)
Definition distinct_channels (es : list element) : Prop :=
  NoDup (map channelNumber (List.filter has_channel es)).

Lemma wp_load add es : Forall reads_back es -> distinct_channels es ->
  forall s D, R s (stream add es ++ D) ->
  wp (if add then load_channels es (length (List.filter has_channel es))
        (fun c => existsb (fun e => has_channel e && (channelNumber e =? c)) es)
      else load_elements es) (fun l s' => l = restored add es /\ R s' D) s.
Proof using reader.
  intros Hrb Hd s D HR. destruct add; [|by apply wp_load_elements].
  rewrite stream_filter in HR. unfold restored.
  apply (wp_load_channels es (List.filter has_channel es)); try done.
  - intros e He. split; [done|]. apply List.filter_In in He as [He _].
    rewrite List.Forall_forall in Hrb. by apply Hrb.
  - intros e He. apply List.filter_In in He as [He Hc]. apply existsb_exists. exists e.
    by rewrite Hc, Z.eqb_refl.
Qed.

Lemma wp_LoadStateStorage add es s D (Q : option loaded -> S -> Prop) :
  Forall reads_back es -> distinct_channels es ->
  wp prepareLoadState (fun ok s' => ok = true /\ R s' (stream add es ++ D)) s ->
  (forall s', R s' D -> wp finalizeLoadState (fun _ s'' => Q (Some (restored add es)) s'') s') ->
  wp (LoadStateStorage add es) Q s.
Proof using reader.
  intros Hrb Hd Hprep Hfin. unfold LoadStateStorage. apply wp_bnd.
  eapply wp_mono; [exact Hprep|]. intros ok s' [-> HR]. cbn beta iota. apply wp_bnd.
  eapply wp_mono; [apply wp_load; done|]. intros l s'' [-> HR']. cbn beta. apply wp_bnd.
  eapply wp_mono; [apply Hfin, HR'|]. intros ? ? HQ. by apply wp_ret.
Qed.
End Reader.

(** ** A reader that refuses *)

Definition no_values (l : loaded) : Prop := Forall (fun p => Forall (fun v => v = None) (snd p)) l.

Section Refused.
Variable I : S -> Prop.
Hypothesis refuses : forall s n, I s -> wp (readState n) (fun r s' => r = None /\ I s') s.

Lemma wp_onLoadState_refused sizes : forall s, I s ->
  wp (onLoadState sizes) (fun r s' => Forall (fun v => v = None) r /\ I s') s.
Proof using refuses.
  induction sizes as [|n sizes IH]; intros s HI; cbn [onLoadState].
  { apply wp_ret. split; [constructor|done]. }
  apply wp_bnd. eapply wp_mono; [apply (refuses s n HI)|]. intros r s' [-> HI']. cbn beta.
  apply wp_bnd. eapply wp_mono; [apply (IH s' HI')|]. intros rs s'' [Hr HI'']. cbn beta.
  apply wp_ret. split; [by constructor|done].
Qed.

Lemma wp_load_elements_refused es : forall s, I s ->
  wp (load_elements es) (fun l s' => no_values l /\ I s') s.
Proof using refuses.
  induction es as [|e es IH]; intros s HI; cbn [load_elements].
  { apply wp_ret. split; [constructor|done]. }
  apply wp_bnd. eapply wp_mono; [apply (wp_onLoadState_refused (loads e) s HI)|].
  intros r s' [Hr HI']. cbn beta. apply wp_bnd. eapply wp_mono; [apply (IH s' HI')|].
  intros l s'' [Hl HI'']. cbn beta. apply wp_ret. split; [by constructor|done].
Qed.

Lemma wp_load_channels_refused es n : forall pending s, I s ->
  wp (load_channels es n pending) (fun l s' => no_values l /\ I s') s.
Proof using refuses.
  induction n as [|n IH]; intros pending s HI; cbn [load_channels].
  { apply wp_ret. split; [constructor|done]. }
  apply wp_bnd. eapply wp_mono; [apply (refuses s 1 HI)|]. intros r s' [-> HI']. cbn beta.
  case_if; [apply wp_ret; split; [constructor|done]|]. apply wp_bnd.
  assert (Hone : wp match List.find (fun e => channelNumber e =? le_combine (default (zeros 1) None)) es with
    | Some e => let! r := onLoadState (loads e) in mret [(le_combine (default (zeros 1) None), r)]
    | None => mret [] end (fun l s'' => no_values l /\ I s'') s').
  { destruct (List.find _ es) as [e|]; [|apply wp_ret; split; [constructor|done]].
    apply wp_bnd. eapply wp_mono; [apply (wp_onLoadState_refused (loads e) s' HI')|].
    intros r s'' [Hr HI'']. apply wp_ret. split; [by repeat constructor|done]. }
  eapply wp_mono; [exact Hone|]. intros l s'' [Hl HI'']. cbn beta. apply wp_bnd.
  eapply wp_mono; [apply (IH _ s'' HI'')|]. intros l' s3 [Hl' HI3]. cbn beta. apply wp_ret.
  split; [by apply List.Forall_app|done].
Qed.

Lemma wp_LoadStateStorage_refused add es s (Q : S -> Prop) :
  wp prepareLoadState (fun ok s' => ok = true /\ I s') s ->
  (forall s', I s' -> wp finalizeLoadState (fun _ s'' => Q s'') s') ->
  wp (LoadStateStorage add es) (fun r s' => (exists l, r = Some l /\ no_values l) /\ Q s') s.
Proof using refuses.
  intros Hprep Hfin. unfold LoadStateStorage. apply wp_bnd.
  eapply wp_mono; [exact Hprep|]. intros ok s' [-> HI]. cbn beta iota. apply wp_bnd.
  eapply (wp_mono _ (fun l s'' => no_values l /\ I s'')).
  { destruct add; [by apply wp_load_channels_refused|by apply wp_load_elements_refused]. }
  intros l s'' [Hl HI']. cbn beta. apply wp_bnd.
  eapply wp_mono; [apply Hfin, HI'|]. intros ? ? HQ. apply wp_ret. eauto.
Qed.
End Refused.

(** ** Elements of the same shape load alike *)

Lemma mbnd_ext {A B} (m m' : M S A) (k k' : A -> M S B) s :
  m s = m' s -> (forall a s, k a s = k' a s) -> mbnd m k s = mbnd m' k' s.
Proof. intros Hm Hk. unfold mbnd. rewrite Hm. by destruct (m' s) as [[a s']|]. Qed.

Lemma load_elements_shape es es' : Forall2 same_shape es es' ->
  forall s : S, load_elements es s = load_elements es' s.
Proof.
  induction 1 as [|e e' es es' (Hc & Hs & Hl) _ IH]; intros s; [done|]. cbn [load_elements].
  rewrite Hl. apply mbnd_ext; [done|]. intros r s'. by apply mbnd_ext.
Qed.

Lemma find_shape es es' c : Forall2 same_shape es es' ->
  match List.find (fun e => channelNumber e =? c) es, List.find (fun e => channelNumber e =? c) es' with
  | Some e, Some e' => loads e = loads e'
  | None, None => True
  | _, _ => False
  end.
Proof.
  induction 1 as [|e e' es es' (Hc & Hs & Hl) _ IH]; [done|]. cbn [List.find]. rewrite Hc.
  by destruct (channelNumber e' =? c).
Qed.

Lemma load_channels_shape es es' : Forall2 same_shape es es' ->
  forall n p p', (forall c, p c = p' c) ->
  forall s : S, load_channels es n p s = load_channels es' n p' s.
Proof.
  intros Hes. induction n as [|n IH]; intros p p' Hp s; [done|]. cbn [load_channels].
  apply mbnd_ext; [done|]. intros b s'. rewrite Hp. case_if; [done|].
  apply mbnd_ext.
  - pose proof (find_shape es es' (le_combine (default (zeros 1) b)) Hes) as Hf.
    destruct (List.find _ es), (List.find _ es'); try done. by rewrite Hf.
  - intros l s''. apply mbnd_ext; [|done]. apply IH. intros c. by rewrite Hp.
Qed.

Lemma shape_channels es es' : Forall2 same_shape es es' ->
  length (List.filter has_channel es) = length (List.filter has_channel es') /\
  forall c, existsb (fun e => has_channel e && (channelNumber e =? c)) es
          = existsb (fun e => has_channel e && (channelNumber e =? c)) es'.
Proof.
  induction 1 as [|e e' es es' (Hc & Hs & Hl) _ [IHl IHe]]; [done|].
  cbn [List.filter existsb].
  assert (Hh : has_channel e = has_channel e') by (unfold has_channel; by rewrite Hc).
  split; [rewrite Hh; destruct (has_channel e'); cbn [length]; congruence|].
  intros c. by rewrite IHe, Hh, Hc.
Qed.

Lemma LoadStateStorage_shape add es es' : Forall2 same_shape es es' ->
  forall s : S, LoadStateStorage add es s = LoadStateStorage add es' s.
Proof.
  intros Hes s. unfold LoadStateStorage. apply mbnd_ext; [done|]. intros [|] s'; [|done].
  apply mbnd_ext; [|done]. destruct (shape_channels es es' Hes) as [Hl He].
  destruct add; [|by apply load_elements_shape]. rewrite Hl. by apply load_channels_shape.
Qed.

Lemma wp_shape add es es' : Forall2 same_shape es es' -> forall (Q : option loaded -> S -> Prop) s,
  wp (LoadStateStorage add es') Q s -> wp (LoadStateStorage add es) Q s.
Proof. intros Hes Q s. unfold wp. by rewrite (LoadStateStorage_shape add es es' Hes). Qed.
End Laws.

(** ** The preambles *)

(** A storage with one section. *)
Definition preamble_bytes : bytes :=
  Preamble_bytes {| suplaTag := SUPLA; version := SUPLA_STORAGE_VERSION; sectionsCount := 1 |}.

Lemma combine_split n z : 0 <= z < 2 ^ (Z.of_nat n * 8) -> le_combine (le_split n z) = z.
Proof. intros. rewrite le_combine_split. by apply Z.mod_small. Qed.

Lemma length_section_bytes p : Zlen (SectionPreamble_bytes p) = 7.
Proof. unfold SectionPreamble_bytes, byte1. by rewrite !Zlen_app, !Zlen_le_split. Qed.

Lemma section_of_split (w x y z : bytes) : length w = 1%nat -> length x = 2%nat ->
  length y = 2%nat -> length z = 2%nat ->
  SectionPreamble_of (w ++ x ++ y ++ z)
  = {| sp_type := le_combine w; sp_size := le_combine x; crc1 := le_combine y; crc2 := le_combine z |}.
Proof. intros. list_of_length. reflexivity. Qed.

Lemma section_of_bytes p : 0 <= sp_type p <= 255 -> 0 <= sp_size p <= 65535 ->
  0 <= crc1 p <= 65535 -> 0 <= crc2 p <= 65535 ->
  SectionPreamble_of (SectionPreamble_bytes p) = p.
Proof.
  intros. unfold SectionPreamble_bytes, byte1. rewrite section_of_split by apply length_le_split.
  rewrite !combine_split by (cbn; lia). by destruct p.
Qed.

Section Preambles.
Context {medium : Medium} {S : Type} {dS : HasDev S} {iS : StateStorageInterface S}.

(** With the preambles in order, [initSectionPreamble] and [initFromStorage] decide. *)
Lemma wp_loadPreambles start sz p s (Q : bool -> S -> Prop) :
  0 <= start -> start + 15 <= capacity -> capacity < 2 ^ 32 ->
  mread (d_mem (get_dev s)) start 8 = preamble_bytes ->
  SectionPreamble_of (mread (d_mem (get_dev s)) (start + 8) 7) = p -> sectionType = sp_type p ->
  wp (initSectionPreamble p) (fun _ => wp initFromStorage (fun _ s' => Q true s')) s ->
  wp (loadPreambles start sz) Q s.
Proof.
  intros H0 Hc Hw Hpre Hsec Ht HQ.
  unfold loadPreambles. unfold sizeof_Preamble, sizeof_SectionPreamble.
  step readStorage_run by lia. rewrite Hpre. change (negb _ || _) with false.
  change (negb (version _ =? _)) with false. cbv iota. u32s.
  change (Z.to_nat (sectionsCount _)) with 1%nat.
  apply wp_bnd. cbn [loadPreambles_loop]. unfold sizeof_SectionPreamble.
  step readStorage_run by lia. apply wp_bnd. eapply wp_opt; [done|]. rewrite Hsec, Ht, Z.eqb_refl.
  apply wp_bnd, wp_bnd. eapply wp_mono; [exact HQ|]. intros ? s1 H1. cbn beta. apply wp_bnd.
  eapply wp_mono; [exact H1|]. intros ? s2 H2. cbn beta in *. by wp_steps.
Qed.
End Preambles.
