(* ===== verification/SimpleState.v ===== *)
(** * simple_state.cpp: the state in one place

    The section preamble with the size and the checksum, and the state behind it. *)
From S2P Require Import Prelude Crc16 Device Storage StateStorage.

Module Simple.

Record simple_state := mk_simple_state {
  device : dev;
  elementStateOffset : Z;
  elementStateSize : Z;
  stateSectionNewSize : Z;
  currentStateOffset : Z;
  storedCrc : Z;
  crc : Z;
  elementStateCrcCValid : bool;
  dryRun : bool }.

Definition set_device (v : dev) (s : simple_state) : simple_state :=
  {| device := v; elementStateOffset := elementStateOffset s;
     elementStateSize := elementStateSize s; stateSectionNewSize := stateSectionNewSize s;
     currentStateOffset := currentStateOffset s; storedCrc := storedCrc s; crc := crc s;
     elementStateCrcCValid := elementStateCrcCValid s; dryRun := dryRun s |}.
Definition set_elementStateOffset (v : Z) (s : simple_state) : simple_state :=
  {| device := device s; elementStateOffset := v; elementStateSize := elementStateSize s;
     stateSectionNewSize := stateSectionNewSize s; currentStateOffset := currentStateOffset s;
     storedCrc := storedCrc s; crc := crc s; elementStateCrcCValid := elementStateCrcCValid s;
     dryRun := dryRun s |}.
Definition set_elementStateSize (v : Z) (s : simple_state) : simple_state :=
  {| device := device s; elementStateOffset := elementStateOffset s; elementStateSize := v;
     stateSectionNewSize := stateSectionNewSize s; currentStateOffset := currentStateOffset s;
     storedCrc := storedCrc s; crc := crc s; elementStateCrcCValid := elementStateCrcCValid s;
     dryRun := dryRun s |}.
Definition set_stateSectionNewSize (v : Z) (s : simple_state) : simple_state :=
  {| device := device s; elementStateOffset := elementStateOffset s;
     elementStateSize := elementStateSize s; stateSectionNewSize := v;
     currentStateOffset := currentStateOffset s; storedCrc := storedCrc s; crc := crc s;
     elementStateCrcCValid := elementStateCrcCValid s; dryRun := dryRun s |}.
Definition set_currentStateOffset (v : Z) (s : simple_state) : simple_state :=
  {| device := device s; elementStateOffset := elementStateOffset s;
     elementStateSize := elementStateSize s; stateSectionNewSize := stateSectionNewSize s;
     currentStateOffset := v; storedCrc := storedCrc s; crc := crc s;
     elementStateCrcCValid := elementStateCrcCValid s; dryRun := dryRun s |}.
Definition set_storedCrc (v : Z) (s : simple_state) : simple_state :=
  {| device := device s; elementStateOffset := elementStateOffset s;
     elementStateSize := elementStateSize s; stateSectionNewSize := stateSectionNewSize s;
     currentStateOffset := currentStateOffset s; storedCrc := v; crc := crc s;
     elementStateCrcCValid := elementStateCrcCValid s; dryRun := dryRun s |}.
Definition set_crc (v : Z) (s : simple_state) : simple_state :=
  {| device := device s; elementStateOffset := elementStateOffset s;
     elementStateSize := elementStateSize s; stateSectionNewSize := stateSectionNewSize s;
     currentStateOffset := currentStateOffset s; storedCrc := storedCrc s; crc := v;
     elementStateCrcCValid := elementStateCrcCValid s; dryRun := dryRun s |}.
Definition set_elementStateCrcCValid (v : bool) (s : simple_state) : simple_state :=
  {| device := device s; elementStateOffset := elementStateOffset s;
     elementStateSize := elementStateSize s; stateSectionNewSize := stateSectionNewSize s;
     currentStateOffset := currentStateOffset s; storedCrc := storedCrc s; crc := crc s;
     elementStateCrcCValid := v; dryRun := dryRun s |}.
Definition set_dryRun (v : bool) (s : simple_state) : simple_state :=
  {| device := device s; elementStateOffset := elementStateOffset s;
     elementStateSize := elementStateSize s; stateSectionNewSize := stateSectionNewSize s;
     currentStateOffset := currentStateOffset s; storedCrc := storedCrc s; crc := crc s;
     elementStateCrcCValid := elementStateCrcCValid s; dryRun := v |}.

#[export] Instance simple_state_dev : HasDev simple_state :=
  {| get_dev := device; set_dev := set_device |}.

#[export] Instance simple_state_dev_laws : DevLaws simple_state.
Proof. split; [done|done|by intros []]. Qed.

(** [notifyUpdate] is the empty one of the interface. *)
#[export] Instance simple_state_notify : HasNotify simple_state := fun s => s.

Section SimpleState.
Context {medium : Medium}.
(** Constants of the objects: [storageStartingOffset], [sectionOffset]. *)
Variables storageStartingOffset sectionOffset : Z.

Definition initSectionPreamble (p : SectionPreamble) : M simple_state unit :=
  mmod (set_elementStateSize (sp_size p));;;
  if crc1 p =? crc2 p then
    mmod (set_storedCrc (crc1 p));;;
    mmod (set_elementStateCrcCValid true)
  else mmod (set_elementStateCrcCValid false).

Definition writeSectionPreamble : M simple_state bool :=
  let! s := mget in
  if sectionOffset =? 0 then mret false
  else if 65535 <? stateSectionNewSize s then mret false
  else
    let preamble := {| sp_type := STORAGE_SECTION_TYPE_ELEMENT_STATE;
                       sp_size := stateSectionNewSize s; crc1 := crc s; crc2 := crc s |} in
    mmod (set_elementStateSize (stateSectionNewSize s));;;
    updateStorage storageStartingOffset sectionOffset (SectionPreamble_bytes preamble);;;
    mret true.

(** The checksum over [elementStateSize] bytes, read one by one; a refused read leaves the
    initial 0 of the buffer. *)
Fixpoint crc_loop (address : Z) (n : nat) (crc : Z) : M simple_state Z :=
  match n with
  | O => mret crc
  | S n =>
      let! b := readStorage address 1 in
      crc_loop (u32 (address + 1)) n (crc16_bytes crc (default (zeros 1) b))
  end.

Definition initFromStorage : M simple_state bool :=
  mmod (set_elementStateOffset (u32 (sectionOffset + sizeof_SectionPreamble)));;;
  let! s := mget in
  let! c := crc_loop (elementStateOffset s) (Z.to_nat (elementStateSize s)) 0xFFFF in
  (if negb (c =? storedCrc s) && negb (storedCrc s =? 0)
   then mmod (set_elementStateCrcCValid false) else mret tt);;;
  mmod (set_crc 0);;;
  mret true.

Definition deleteAll : M simple_state unit :=
  mmod (set_elementStateSize 0);;;
  mmod (set_elementStateOffset 0);;;
  mmod (set_elementStateCrcCValid false);;;
  mmod (set_storedCrc 0);;;
  mmod (set_crc 0).

Definition prepare (dry : bool) : M simple_state bool :=
  mmod (set_dryRun dry);;;
  mmod (set_stateSectionNewSize 0);;;
  mmod (fun s => set_currentStateOffset (elementStateOffset s) s);;;
  mmod (set_crc 0xFFFF);;;
  mret true.
Definition prepareSaveState := prepare false.
Definition prepareSizeCheck := prepare true.

Definition prepareLoadState : M simple_state bool :=
  mmod (set_dryRun false);;;
  mmod (fun s => set_currentStateOffset (elementStateOffset s) s);;;
  mret true.

(** [currentStateOffset += n] *)
Definition advance (n : Z) : M simple_state unit :=
  mmod (fun s => set_currentStateOffset (u32 (currentStateOffset s + n)) s).

Definition readState (n : Z) : M simple_state (option bytes) :=
  let! s := mget in
  if negb (elementStateCrcCValid s) then mret None
  else if u32 (elementStateOffset s + elementStateSize s) <? u32 (currentStateOffset s + n)
  then mret None
  else
    let! b := readStorage (currentStateOffset s) n in
    advance (match b with Some _ => n | None => 0 end);;;
    mret b.

Definition writeState (buf : bytes) : M simple_state bool :=
  mmod (fun s => set_stateSectionNewSize (u32 (stateSectionNewSize s + Zlen buf)) s);;;
  let! s := mget in
  if Zlen buf =? 0 then mret true
  else if (0 <? elementStateSize s)
    && (u32 (elementStateOffset s + elementStateSize s) <? u32 (currentStateOffset s + Zlen buf))
  then
    mmod (set_elementStateSize 0);;;
    mmod (set_elementStateOffset 0);;;
    mret false
  else if dryRun s then
    advance (Zlen buf);;;
    mret true
  else
    (if elementStateOffset s =? 0 then
       mmod (set_elementStateOffset (u32 (sectionOffset + sizeof_SectionPreamble)));;;
       mmod (fun s => set_currentStateOffset (elementStateOffset s) s)
     else mret tt);;;
    mmod (fun s => set_crc (crc16_bytes (crc s) buf) s);;;
    let! s := mget in
    let! n := updateStorage storageStartingOffset (currentStateOffset s) buf in
    advance n;;;
    mret true.

Definition finalizeSaveState : M simple_state bool :=
  mmod (fun s => set_elementStateSize (stateSectionNewSize s) s);;;
  writeSectionPreamble;;;
  commit;;;
  mmod (set_crc 0xFFFF);;;
  mmod (set_elementStateCrcCValid true);;;
  mret true.

Definition finalizeSizeCheck : M simple_state bool :=
  mmod (set_dryRun false);;;
  let! s := mget in
  if negb (elementStateSize s =? stateSectionNewSize s) then
    mmod (set_elementStateOffset 0);;;
    mmod (set_elementStateSize 0);;;
    mret false
  else mret true.

#[export] Instance SimpleState : StateStorageInterface simple_state :=
  {| StateStorage.sectionType := STORAGE_SECTION_TYPE_ELEMENT_STATE;
     StateStorage.getSizeValue _ := 0;
     StateStorage.initSectionPreamble := initSectionPreamble;
     StateStorage.writeSectionPreamble := writeSectionPreamble;
     StateStorage.initFromStorage := initFromStorage;
     StateStorage.prepareSaveState := prepareSaveState;
     StateStorage.prepareSizeCheck := prepareSizeCheck;
     StateStorage.prepareLoadState := prepareLoadState;
     StateStorage.readState := readState;
     StateStorage.writeState := writeState;
     StateStorage.finalizeSaveState := finalizeSaveState;
     StateStorage.finalizeSizeCheck := finalizeSizeCheck;
     StateStorage.finalizeLoadState := mret true |}.
End SimpleState.

(** [new SimpleState]: the object on a device. *)
Definition new (d : dev) : simple_state := mk_simple_state d 0 0 0 0 0 0 false false.

(** A start of the device in mode OFF: [Storage::init], then the state is loaded. *)
Definition boot {medium : Medium} (start availableSize : Z) (addChannelNumbers : bool)
    (elements : list element) : M simple_state (option loaded) :=
  let iS := SimpleState start (u32 (start + sizeof_Preamble)) in
  loadPreambles start (u16 availableSize);;;
  begin_state addChannelNumbers elements.

Definition save {medium : Medium} (start : Z) (addChannelNumbers : bool) (elements : list element)
    : M simple_state unit :=
  let iS := SimpleState start (u32 (start + sizeof_Preamble)) in
  WriteStateStorage addChannelNumbers elements.
End Simple.
