(* ===== verification/WlByte.v ===== *)
(** * state_wear_leveling_byte.cpp: the state in turning slots

    Two copies of the address of the current slot, then slots with a header and the state.
    The saves alternate between the current slot and the next one; after
    [repeatBeforeSwitchToAnotherSlot] of them the next slot becomes the current one. *)
From S2P Require Import Prelude Crc16 Device Storage StateStorage.

Module WlByte.

Record wl_byte := mk_wl_byte {
  device : dev;
  reservedSize : Z;
  elementStateSize : Z;
  stateSlotNewSize : Z;
  currentStateOffset : Z;
  crc : Z;
  elementStateCrcCValid : bool;
  dryRun : bool;
  storageStateOk : bool;
  initDone : bool;
  dataChanged : bool;
  repeatBeforeSwitchToAnotherSlot : Z;
  writeCount : Z;
  currentSlotAddress : Z }.

Definition set_device (v : dev) (s : wl_byte) : wl_byte :=
  {| device := v; reservedSize := reservedSize s; elementStateSize := elementStateSize s;
     stateSlotNewSize := stateSlotNewSize s; currentStateOffset := currentStateOffset s;
     crc := crc s; elementStateCrcCValid := elementStateCrcCValid s; dryRun := dryRun s;
     storageStateOk := storageStateOk s; initDone := initDone s; dataChanged := dataChanged s;
     repeatBeforeSwitchToAnotherSlot := repeatBeforeSwitchToAnotherSlot s;
     writeCount := writeCount s; currentSlotAddress := currentSlotAddress s |}.
Definition set_reservedSize (v : Z) (s : wl_byte) : wl_byte :=
  {| device := device s; reservedSize := v; elementStateSize := elementStateSize s;
     stateSlotNewSize := stateSlotNewSize s; currentStateOffset := currentStateOffset s;
     crc := crc s; elementStateCrcCValid := elementStateCrcCValid s; dryRun := dryRun s;
     storageStateOk := storageStateOk s; initDone := initDone s; dataChanged := dataChanged s;
     repeatBeforeSwitchToAnotherSlot := repeatBeforeSwitchToAnotherSlot s;
     writeCount := writeCount s; currentSlotAddress := currentSlotAddress s |}.
Definition set_elementStateSize (v : Z) (s : wl_byte) : wl_byte :=
  {| device := device s; reservedSize := reservedSize s; elementStateSize := v;
     stateSlotNewSize := stateSlotNewSize s; currentStateOffset := currentStateOffset s;
     crc := crc s; elementStateCrcCValid := elementStateCrcCValid s; dryRun := dryRun s;
     storageStateOk := storageStateOk s; initDone := initDone s; dataChanged := dataChanged s;
     repeatBeforeSwitchToAnotherSlot := repeatBeforeSwitchToAnotherSlot s;
     writeCount := writeCount s; currentSlotAddress := currentSlotAddress s |}.
Definition set_stateSlotNewSize (v : Z) (s : wl_byte) : wl_byte :=
  {| device := device s; reservedSize := reservedSize s;
     elementStateSize := elementStateSize s; stateSlotNewSize := v;
     currentStateOffset := currentStateOffset s; crc := crc s;
     elementStateCrcCValid := elementStateCrcCValid s; dryRun := dryRun s;
     storageStateOk := storageStateOk s; initDone := initDone s; dataChanged := dataChanged s;
     repeatBeforeSwitchToAnotherSlot := repeatBeforeSwitchToAnotherSlot s;
     writeCount := writeCount s; currentSlotAddress := currentSlotAddress s |}.
Definition set_currentStateOffset (v : Z) (s : wl_byte) : wl_byte :=
  {| device := device s; reservedSize := reservedSize s;
     elementStateSize := elementStateSize s; stateSlotNewSize := stateSlotNewSize s;
     currentStateOffset := v; crc := crc s; elementStateCrcCValid := elementStateCrcCValid s;
     dryRun := dryRun s; storageStateOk := storageStateOk s; initDone := initDone s;
     dataChanged := dataChanged s;
     repeatBeforeSwitchToAnotherSlot := repeatBeforeSwitchToAnotherSlot s;
     writeCount := writeCount s; currentSlotAddress := currentSlotAddress s |}.
Definition set_crc (v : Z) (s : wl_byte) : wl_byte :=
  {| device := device s; reservedSize := reservedSize s;
     elementStateSize := elementStateSize s; stateSlotNewSize := stateSlotNewSize s;
     currentStateOffset := currentStateOffset s; crc := v;
     elementStateCrcCValid := elementStateCrcCValid s; dryRun := dryRun s;
     storageStateOk := storageStateOk s; initDone := initDone s; dataChanged := dataChanged s;
     repeatBeforeSwitchToAnotherSlot := repeatBeforeSwitchToAnotherSlot s;
     writeCount := writeCount s; currentSlotAddress := currentSlotAddress s |}.
Definition set_elementStateCrcCValid (v : bool) (s : wl_byte) : wl_byte :=
  {| device := device s; reservedSize := reservedSize s;
     elementStateSize := elementStateSize s; stateSlotNewSize := stateSlotNewSize s;
     currentStateOffset := currentStateOffset s; crc := crc s; elementStateCrcCValid := v;
     dryRun := dryRun s; storageStateOk := storageStateOk s; initDone := initDone s;
     dataChanged := dataChanged s;
     repeatBeforeSwitchToAnotherSlot := repeatBeforeSwitchToAnotherSlot s;
     writeCount := writeCount s; currentSlotAddress := currentSlotAddress s |}.
Definition set_dryRun (v : bool) (s : wl_byte) : wl_byte :=
  {| device := device s; reservedSize := reservedSize s;
     elementStateSize := elementStateSize s; stateSlotNewSize := stateSlotNewSize s;
     currentStateOffset := currentStateOffset s; crc := crc s;
     elementStateCrcCValid := elementStateCrcCValid s; dryRun := v;
     storageStateOk := storageStateOk s; initDone := initDone s; dataChanged := dataChanged s;
     repeatBeforeSwitchToAnotherSlot := repeatBeforeSwitchToAnotherSlot s;
     writeCount := writeCount s; currentSlotAddress := currentSlotAddress s |}.
Definition set_storageStateOk (v : bool) (s : wl_byte) : wl_byte :=
  {| device := device s; reservedSize := reservedSize s;
     elementStateSize := elementStateSize s; stateSlotNewSize := stateSlotNewSize s;
     currentStateOffset := currentStateOffset s; crc := crc s;
     elementStateCrcCValid := elementStateCrcCValid s; dryRun := dryRun s; storageStateOk := v;
     initDone := initDone s; dataChanged := dataChanged s;
     repeatBeforeSwitchToAnotherSlot := repeatBeforeSwitchToAnotherSlot s;
     writeCount := writeCount s; currentSlotAddress := currentSlotAddress s |}.
Definition set_initDone (v : bool) (s : wl_byte) : wl_byte :=
  {| device := device s; reservedSize := reservedSize s;
     elementStateSize := elementStateSize s; stateSlotNewSize := stateSlotNewSize s;
     currentStateOffset := currentStateOffset s; crc := crc s;
     elementStateCrcCValid := elementStateCrcCValid s; dryRun := dryRun s;
     storageStateOk := storageStateOk s; initDone := v; dataChanged := dataChanged s;
     repeatBeforeSwitchToAnotherSlot := repeatBeforeSwitchToAnotherSlot s;
     writeCount := writeCount s; currentSlotAddress := currentSlotAddress s |}.
Definition set_dataChanged (v : bool) (s : wl_byte) : wl_byte :=
  {| device := device s; reservedSize := reservedSize s;
     elementStateSize := elementStateSize s; stateSlotNewSize := stateSlotNewSize s;
     currentStateOffset := currentStateOffset s; crc := crc s;
     elementStateCrcCValid := elementStateCrcCValid s; dryRun := dryRun s;
     storageStateOk := storageStateOk s; initDone := initDone s; dataChanged := v;
     repeatBeforeSwitchToAnotherSlot := repeatBeforeSwitchToAnotherSlot s;
     writeCount := writeCount s; currentSlotAddress := currentSlotAddress s |}.
Definition set_repeatBeforeSwitchToAnotherSlot (v : Z) (s : wl_byte) : wl_byte :=
  {| device := device s; reservedSize := reservedSize s;
     elementStateSize := elementStateSize s; stateSlotNewSize := stateSlotNewSize s;
     currentStateOffset := currentStateOffset s; crc := crc s;
     elementStateCrcCValid := elementStateCrcCValid s; dryRun := dryRun s;
     storageStateOk := storageStateOk s; initDone := initDone s; dataChanged := dataChanged s;
     repeatBeforeSwitchToAnotherSlot := v; writeCount := writeCount s;
     currentSlotAddress := currentSlotAddress s |}.
Definition set_writeCount (v : Z) (s : wl_byte) : wl_byte :=
  {| device := device s; reservedSize := reservedSize s;
     elementStateSize := elementStateSize s; stateSlotNewSize := stateSlotNewSize s;
     currentStateOffset := currentStateOffset s; crc := crc s;
     elementStateCrcCValid := elementStateCrcCValid s; dryRun := dryRun s;
     storageStateOk := storageStateOk s; initDone := initDone s; dataChanged := dataChanged s;
     repeatBeforeSwitchToAnotherSlot := repeatBeforeSwitchToAnotherSlot s; writeCount := v;
     currentSlotAddress := currentSlotAddress s |}.
Definition set_currentSlotAddress (v : Z) (s : wl_byte) : wl_byte :=
  {| device := device s; reservedSize := reservedSize s;
     elementStateSize := elementStateSize s; stateSlotNewSize := stateSlotNewSize s;
     currentStateOffset := currentStateOffset s; crc := crc s;
     elementStateCrcCValid := elementStateCrcCValid s; dryRun := dryRun s;
     storageStateOk := storageStateOk s; initDone := initDone s; dataChanged := dataChanged s;
     repeatBeforeSwitchToAnotherSlot := repeatBeforeSwitchToAnotherSlot s;
     writeCount := writeCount s; currentSlotAddress := v |}.

#[export] Instance wl_byte_dev : HasDev wl_byte := {| get_dev := device; set_dev := set_device |}.

#[export] Instance wl_byte_dev_laws : DevLaws wl_byte.
Proof. split; [done|done|by intros []]. Qed.

#[export] Instance notifyUpdate : HasNotify wl_byte := set_dataChanged true.

(** ** The packed records *)

Record StateEntryAddress := { address : Z; entrySize : Z; entryCrc : Z }.
Record StateWlByteHeader := { headerCount : Z; headerCrc : Z }.

Definition StateEntryAddress_body (a : StateEntryAddress) : bytes :=
  le_split 4 (address a) ++ le_split 2 (entrySize a).
Definition StateEntryAddress_bytes (a : StateEntryAddress) : bytes :=
  StateEntryAddress_body a ++ le_split 2 (entryCrc a).
Definition StateEntryAddress_of (b : bytes) : StateEntryAddress :=
  {| address := field_at 0 4 b; entrySize := field_at 4 2 b; entryCrc := field_at 6 2 b |}.
Definition StateWlByteHeader_bytes (h : StateWlByteHeader) : bytes :=
  le_split 2 (headerCount h) ++ le_split 2 (headerCrc h).
Definition StateWlByteHeader_of (b : bytes) : StateWlByteHeader :=
  {| headerCount := field_at 0 2 b; headerCrc := field_at 2 2 b |}.

Definition sizeof_StateEntryAddress : Z := 8.
Definition sizeof_StateWlByteHeader : Z := 4.

Section WlByte.
Context {medium : Medium}.
(** Constants of the objects: [storageStartingOffset], [sectionOffset]. *)
Variables storageStartingOffset sectionOffset : Z.

Definition slotSize (s : wl_byte) : Z := u32 (elementStateSize s + sizeof_StateWlByteHeader).

Definition getFirstSlotAddress : Z :=
  u32 (sectionOffset + sizeof_SectionPreamble + 2 * sizeof_StateEntryAddress).

Definition getNextSlotAddress (s : wl_byte) (slotAddress : Z) : Z :=
  let nextAddress := u32 (slotAddress + slotSize s) in
  if u32 (sectionOffset + reservedSize s) <? u32 (nextAddress + slotSize s)
  then getFirstSlotAddress else nextAddress.

Definition checkIfIsEnoughSpaceForState : M wl_byte unit :=
  let! s := mget in
  let stateSlotSize := u32 (sizeof_StateWlByteHeader + elementStateSize s) in
  let stateSlotsCount :=
    if u32 (2 * sizeof_StateEntryAddress + stateSlotSize) <? reservedSize s
    then (reservedSize s - 2 * sizeof_StateEntryAddress) / stateSlotSize else 0 in
  mmod (set_storageStateOk false);;;
  if 1 <? stateSlotsCount then
    mmod (set_repeatBeforeSwitchToAnotherSlot
            (if stateSlotsCount mod 2 =? 0 then stateSlotsCount + 1 else stateSlotsCount));;;
    mmod (set_storageStateOk true)
  else mret tt.

Definition initSectionPreamble (p : SectionPreamble) : M wl_byte unit :=
  mmod (set_reservedSize (sp_size p));;;
  mmod (set_elementStateCrcCValid (crc1 p =? crc2 p));;;
  let! s := mget in
  if 0 <? elementStateSize s then checkIfIsEnoughSpaceForState else mret tt.

Abbreviation update := (updateStorage storageStartingOffset).

Definition updateStateEntryAddress : M wl_byte Z :=
  let! s := mget in
  let entry := {| address := currentSlotAddress s; entrySize := elementStateSize s; entryCrc := 0 |} in
  let entry := {| address := address entry; entrySize := entrySize entry;
                  entryCrc := calculateCrc16 (Some (StateEntryAddress_body entry)) |} in
  let stateEntryAddressOffset := u32 (sectionOffset + sizeof_SectionPreamble) in
  let! n1 := update (u32 (stateEntryAddressOffset + sizeof_StateEntryAddress))
               (StateEntryAddress_bytes entry) in
  let! n2 := update stateEntryAddressOffset (StateEntryAddress_bytes entry) in
  mret (u32 (n1 + n2)).

Definition writeSectionPreamble : M wl_byte bool :=
  checkIfIsEnoughSpaceForState;;;
  let! s := mget in
  if negb (storageStateOk s) then mret false
  else
    let sectionPreamble := {| sp_type := STORAGE_SECTION_TYPE_ELEMENT_STATE_WL_BYTE;
                              sp_size := reservedSize s; crc1 := 0; crc2 := 0 |} in
    let! n := update sectionOffset (SectionPreamble_bytes sectionPreamble) in
    let currentOffset := u32 (sectionOffset + n) in
    (if negb (initDone s) then
       mmod (set_writeCount 0);;;
       mmod (set_currentSlotAddress getFirstSlotAddress)
     else mret tt);;;
    let! n := updateStateEntryAddress in
    let currentOffset := u32 (currentOffset + n) in
    (if negb (initDone s) then
       let! s := mget in
       update currentOffset
         (StateWlByteHeader_bytes {| headerCount := writeCount s; headerCrc := 0 |});;;
       mret tt
     else mret tt);;;
    mmod (set_initDone true);;;
    mret true.

(** The checksum over the bytes from [address] on, read one by one; a refused read leaves
    the initial 0 of the buffer. *)
Fixpoint crc_loop (address : Z) (n : nat) (crc : Z) : M wl_byte Z :=
  match n with
  | O => mret crc
  | S n =>
      let! b := readStorage address 1 in
      crc_loop (u32 (address + 1)) n (crc16_bytes crc (default (zeros 1) b))
  end.

(** The header of a slot and the checksum of its state. *)
Definition read_slot (slot : Z) : M wl_byte (StateWlByteHeader * Z) :=
  let! b := readStorage slot sizeof_StateWlByteHeader in
  let currentOffset := u32 (slot + match b with Some _ => sizeof_StateWlByteHeader | None => 0 end) in
  let! s := mget in
  let! c := crc_loop currentOffset (Z.to_nat (elementStateSize s)) 0xFFFF in
  mret (StateWlByteHeader_of (default (zeros sizeof_StateWlByteHeader) b), c).

(** Which of the two copies of the address is used. *)
Definition choose_entry (main backup : StateEntryAddress) (mainOk backupOk : bool) : M wl_byte unit :=
  let take e := mmod (set_currentSlotAddress (address e));;; mmod (set_elementStateSize (entrySize e)) in
  mmod (set_currentSlotAddress getFirstSlotAddress);;;
  if mainOk && backupOk && (address main =? address backup) then take main
  else
    (if mainOk then take main else mret tt);;;
    if backupOk then
      let! s := mget in
      if (currentSlotAddress s =? 0)
         || (getNextSlotAddress s (currentSlotAddress s) =? address backup)
      then take backup else mret tt
    else mret tt.

(** Which of the two slots is the latest: sets [writeCount]. *)
Definition choose_slot (current next : StateWlByteHeader) (currentOk nextOk : bool) : M wl_byte unit :=
  mmod (set_elementStateCrcCValid true);;;
  if currentOk && nextOk then
    if headerCount next =? 1 then mmod (set_writeCount 1)
    else if headerCount next <? headerCount current then mmod (set_writeCount (headerCount current))
    else mmod (set_writeCount (headerCount next))
  else if currentOk then mmod (set_writeCount (headerCount current))
  else if nextOk then mmod (set_writeCount (headerCount next))
  else mmod (set_elementStateCrcCValid false).

(** [writeCount++] and the switch to the next slot. *)
Definition count_write : M wl_byte unit :=
  mmod (fun s => set_writeCount (u16 (writeCount s + 1)) s);;;
  let! s := mget in
  if repeatBeforeSwitchToAnotherSlot s <? writeCount s then
    mmod (fun s => set_currentSlotAddress (getNextSlotAddress s (currentSlotAddress s)) s);;;
    mmod (set_writeCount 1)
  else mret tt.

Definition initFromStorage : M wl_byte bool :=
  mmod (set_initDone true);;;
  let currentOffset := u32 (sectionOffset + sizeof_SectionPreamble) in
  let! b := readStorage currentOffset sizeof_StateEntryAddress in
  let stateEntryAddressMain := StateEntryAddress_of (default (zeros sizeof_StateEntryAddress) b) in
  let currentOffset :=
    u32 (currentOffset + match b with Some _ => sizeof_StateEntryAddress | None => 0 end) in
  let! b := readStorage currentOffset sizeof_StateEntryAddress in
  let stateEntryAddressBackup := StateEntryAddress_of (default (zeros sizeof_StateEntryAddress) b) in
  let crcMain := calculateCrc16 (Some (StateEntryAddress_body stateEntryAddressMain)) in
  let crcBackup := calculateCrc16 (Some (StateEntryAddress_body stateEntryAddressBackup)) in
  let mainOk := crcMain =? entryCrc stateEntryAddressMain in
  let backupOk := crcBackup =? entryCrc stateEntryAddressBackup in
  if negb mainOk && negb backupOk then mret false
  else
    choose_entry stateEntryAddressMain stateEntryAddressBackup mainOk backupOk;;;
    let! s := mget in
    let! current := read_slot (currentSlotAddress s) in
    let! next := read_slot (getNextSlotAddress s (currentSlotAddress s)) in
    choose_slot (fst current) (fst next)
      (snd current =? headerCrc (fst current)) (snd next =? headerCrc (fst next));;;
    mmod (set_crc 0);;;
    checkIfIsEnoughSpaceForState;;;
    count_write;;;
    mret true.

(** The slot in which the save with the number [count] is kept. *)
Definition slot_of (s : wl_byte) (count : Z) : Z :=
  if negb (count mod 2 =? 0) then getNextSlotAddress s (currentSlotAddress s)
  else currentSlotAddress s.

(** [prepareSaveState] and [prepareSizeCheck]. *)
Definition prepare (dry : bool) : M wl_byte bool :=
  let! s := mget in
  if negb (storageStateOk s) then mret false
  else
    mmod (set_dryRun dry);;;
    (if dry then mret tt else mmod (set_dataChanged false));;;
    mmod (set_stateSlotNewSize 0);;;
    mmod (set_currentStateOffset (u32 (slot_of s (writeCount s) + sizeof_StateWlByteHeader)));;;
    mmod (set_crc 0xFFFF);;;
    mret true.
Definition prepareSaveState := prepare false.
Definition prepareSizeCheck := prepare true.

Definition prepareLoadState : M wl_byte bool :=
  let! s := mget in
  if negb (storageStateOk s) || negb (elementStateCrcCValid s) then mret false
  else
    mmod (set_dryRun false);;;
    mmod (set_stateSlotNewSize 0);;;
    let writeCountForRead := if 0 <? writeCount s then writeCount s - 1 else writeCount s in
    mmod (set_currentStateOffset (u32 (slot_of s writeCountForRead + sizeof_StateWlByteHeader)));;;
    mret true.

(** [currentStateOffset += n] *)
Definition advance (n : Z) : M wl_byte unit :=
  mmod (fun s => set_currentStateOffset (u32 (currentStateOffset s + n)) s).

Definition readState (n : Z) : M wl_byte (option bytes) :=
  mmod (fun s => set_stateSlotNewSize (u32 (stateSlotNewSize s + n)) s);;;
  let! s := mget in
  if negb (storageStateOk s) || negb (elementStateCrcCValid s) then mret None
  else if elementStateSize s <? stateSlotNewSize s then mret None
  else
    let! b := readStorage (currentStateOffset s) n in
    advance (match b with Some _ => n | None => 0 end);;;
    mret b.

Definition writeState (buf : bytes) : M wl_byte bool :=
  let! s := mget in
  if negb (storageStateOk s) then mret false
  else
    mmod (fun s => set_stateSlotNewSize (u32 (stateSlotNewSize s + Zlen buf)) s);;;
    if Zlen buf =? 0 then mret true
    else if dryRun s then advance (Zlen buf);;; mret true
    else
      mmod (fun s => set_crc (crc16_bytes (crc s) buf) s);;;
      let! s := mget in
      (if stateSlotNewSize s <=? elementStateSize s then
         let! n := update (currentStateOffset s) buf in
         advance n
       else mret tt);;;
      mret true.

Fixpoint isDataDifferent (firstAddress secondAddress : Z) (size : nat) : M wl_byte bool :=
  match size with
  | O => mret false
  | S size =>
      let! data1 := readStorage firstAddress 1 in
      let! data2 := readStorage secondAddress 1 in
      if negb (bool_decide (default (zeros 1) data1 = default (zeros 1) data2)) then mret true
      else isDataDifferent (u32 (firstAddress + 1)) (u32 (secondAddress + 1)) size
  end.

Definition finalizeSaveState : M wl_byte bool :=
  let! s := mget in
  if negb (storageStateOk s) then mret true
  else
    mmod (set_elementStateSize (stateSlotNewSize s));;;
    writeSectionPreamble;;;
    let! s := mget in
    let stateWlByteHeader := {| headerCount := writeCount s; headerCrc := crc s |} in
    let slotAddress := slot_of s (writeCount s) in
    let alternateSlotAddress := slot_of s (writeCount s + 1) in
    readStorage slotAddress sizeof_StateWlByteHeader;;;
    let! different :=
      if dataChanged s then mret true
      else isDataDifferent (u32 (slotAddress + sizeof_StateWlByteHeader))
             (u32 (alternateSlotAddress + sizeof_StateWlByteHeader))
             (Z.to_nat (elementStateSize s)) in
    if negb different then mret true
    else
      update slotAddress (StateWlByteHeader_bytes stateWlByteHeader);;;
      commit;;;
      mmod (set_crc 0xFFFF);;;
      mmod (set_elementStateCrcCValid true);;;
      (if writeCount s =? 1 then updateStateEntryAddress;;; mret tt else mret tt);;;
      count_write;;;
      mret true.

Definition finalizeSizeCheck : M wl_byte bool :=
  let! s := mget in
  if negb (storageStateOk s) then mret false
  else
    mmod (set_dryRun false);;;
    if negb (elementStateSize s =? stateSlotNewSize s) then
      mmod (set_elementStateSize (stateSlotNewSize s));;;
      mmod (set_writeCount 0);;;
      mmod (set_currentStateOffset getFirstSlotAddress);;;
      mret false
    else mret true.

Definition getSizeValue (availableSize : Z) : Z :=
  if sizeof_Preamble <? availableSize then u16 (availableSize - sizeof_Preamble) else 0.

#[export] Instance StateWearLevelingByte : StateStorageInterface wl_byte :=
  {| StateStorage.sectionType := STORAGE_SECTION_TYPE_ELEMENT_STATE_WL_BYTE;
     StateStorage.getSizeValue := getSizeValue;
     StateStorage.initSectionPreamble := initSectionPreamble;
     StateStorage.writeSectionPreamble := writeSectionPreamble;
     StateStorage.initFromStorage := initFromStorage;
     StateStorage.prepareSaveState := prepareSaveState;
     StateStorage.prepareSizeCheck := prepareSizeCheck;
     StateStorage.prepareLoadState := prepareLoadState;
     StateStorage.readState := readState;
     StateStorage.writeState := writeState;
     StateStorage.finalizeSaveState := finalizeSaveState;
     StateStorage.finalizeSizeCheck := finalizeSizeCheck;
     StateStorage.finalizeLoadState := mret true |}.
End WlByte.

(** [new StateWearLevelingByte]: the object on a device.  [reservedSize] has no initial
    value in the source; it is not used before it is set. *)
Definition new (d : dev) : wl_byte := mk_wl_byte d 0 0 0 0 0 false false false false false 0 0 0.

(** A start of the device in mode BYTE_WRITE_MODE: [Storage::init], then the state is
    loaded. *)
Definition boot {medium : Medium} (start availableSize : Z) (addChannelNumbers : bool)
    (elements : list element) : M wl_byte (option loaded) :=
  let iS := StateWearLevelingByte start (u32 (start + sizeof_Preamble)) in
  loadPreambles start (u16 availableSize);;;
  begin_state addChannelNumbers elements.

Definition save {medium : Medium} (start : Z) (addChannelNumbers : bool) (elements : list element)
    : M wl_byte unit :=
  let iS := StateWearLevelingByte start (u32 (start + sizeof_Preamble)) in
  WriteStateStorage addChannelNumbers elements.
End WlByte.
