(* ===== verification/WlByteFacts.v ===== *)
(** * The turning slots: geometry, and what a restart finds

    The slots as a function of addresses, the slot a restart takes the state from as a
    function of the memory, and the operations shown to compute them. *)
From S2P Require Import Prelude Crc16 Device DeviceFacts Storage StorageFacts StateStorage StateStorageFacts WlByte.
Import WlByte.

(** The parameters of a storage: its start, the size of the section and of the state; at
    least two slots fit behind the two copies of the address. *)
Record geometry (medium : Medium) (start rs E : Z) : Prop := {
  g_start : 0 <= start;
  g_capacity : start + 8 + rs <= capacity;
  g_width : capacity <= 2 ^ 31;
  g_section : rs <= 65535;
  g_state : 0 <= E;
  g_slots : 23 + 2 * (E + 4) <= rs }.

Section Slots.
Context {medium : Medium}.
Variables start rs E : Z.
Hypothesis geo : geometry medium start rs E.

Definition first_slot : Z := start + 8 + 23.
Definition slot : Z := E + 4.

Definition nxt (a : Z) : Z := if start + 8 + rs <? a + 2 * slot then first_slot else a + slot.

(** [repeatBeforeSwitchToAnotherSlot] *)
Definition slots_count : Z := (rs - 16) / slot.
Definition repeats : Z := if slots_count mod 2 =? 0 then slots_count + 1 else slots_count.

Definition valid_slot (a : Z) : Prop :=
  first_slot <= a /\ a + slot <= start + 8 + rs /\ exists k, a = first_slot + k * slot.

Lemma slot_bounds : 4 <= slot <= 65535.
Proof. destruct geo. unfold slot. lia. Qed.

Lemma valid_first : valid_slot first_slot.
Proof. destruct geo. unfold valid_slot, first_slot, slot. split_and!; [lia|lia|]. exists 0. lia. Qed.

Lemma valid_nxt a : valid_slot a -> valid_slot (nxt a).
Proof.
  pose proof valid_first as Hf. pose proof slot_bounds. intros (Ha & Hb & k & Hk). unfold nxt.
  destruct (Z.ltb_spec (start + 8 + rs) (a + 2 * slot)); [done|].
  split_and!; [lia|lia|]. exists (k + 1). lia.
Qed.

(** Two slots are the same or do not overlap. *)
Lemma slots_apart a b : valid_slot a -> valid_slot b -> a = b \/ a + slot <= b \/ b + slot <= a.
Proof.
  pose proof slot_bounds. intros (_ & _ & k & ->) (_ & _ & j & ->).
  destruct (Z.lt_trichotomy k j) as [|[->|]]; [right; left; nia|by left|right; right; nia].
Qed.

Lemma nxt_ne a : valid_slot a -> nxt a <> a.
Proof.
  destruct geo. pose proof slot_bounds. intros (Ha & Hb & k & Hk). unfold nxt, first_slot in *.
  destruct (Z.ltb_spec (start + 8 + rs) (a + 2 * slot)); unfold slot in *; lia.
Qed.

(** A slot and the next one do not overlap. *)
Lemma nxt_apart a : valid_slot a -> nxt a + slot <= a \/ a + slot <= nxt a.
Proof.
  intros Ha. pose proof (nxt_ne a Ha). pose proof (slots_apart _ _ Ha (valid_nxt a Ha)). lia.
Qed.

Lemma slots_count_bounds : 2 <= slots_count <= 65535.
Proof.
  destruct geo. unfold slots_count, slot. split.
  - apply Z.div_le_lower_bound; lia.
  - transitivity ((rs - 16) / 1); [apply Z.div_le_compat_l; lia|]. rewrite Z.div_1_r. lia.
Qed.

Lemma slots_count_small : slots_count <= 16383.
Proof.
  destruct geo. unfold slots_count, slot. apply Z.div_le_upper_bound; lia.
Qed.

Lemma repeats_odd : repeats mod 2 = 1.
Proof.
  unfold repeats. pose proof (Z.mod_pos_bound slots_count 2 ltac:(lia)).
  destruct (Z.eqb_spec (slots_count mod 2) 0) as [E0|E0]; [|lia].
  rewrite <-Z.add_mod_idemp_l by lia. by rewrite E0.
Qed.

Lemma repeats_bounds : 3 <= repeats <= 16384.
Proof.
  pose proof slots_count_bounds. pose proof slots_count_small. pose proof repeats_odd as Ho.
  unfold repeats in *. destruct (slots_count mod 2 =? 0) eqn:E0; [lia|].
  destruct (Z.eq_dec slots_count 2) as [E2|]; [|lia]. rewrite E2 in Ho. discriminate.
Qed.

(** ** What a memory holds *)

Definition hdr (m : mem) (a : Z) : StateWlByteHeader := StateWlByteHeader_of (mread m a 4).
Definition dat (m : mem) (a : Z) : bytes := mread m (a + 4) E.
Definition slot_ok (m : mem) (a : Z) : bool := crc16 (dat m a) =? headerCrc (hdr m a).

(** The number of the latest save, by [initFromStorage]; [None]: no slot is valid. *)
Definition latest (m : mem) (a : Z) : option Z :=
  let current := hdr m a in
  let next := hdr m (nxt a) in
  if slot_ok m a && slot_ok m (nxt a) then
    if headerCount next =? 1 then Some 1
    else if headerCount next <? headerCount current then Some (headerCount current)
    else Some (headerCount next)
  else if slot_ok m a then Some (headerCount current)
  else if slot_ok m (nxt a) then Some (headerCount next)
  else None.

(** Slot and number of the next save, from the stored slot and the latest save. *)
Definition resume (a count : Z) : Z * Z :=
  let w := u16 (count + 1) in if repeats <? w then (nxt a, 1) else (a, w).

(** The slot of the save with number [count]. *)
Definition at_count (cur count : Z) : Z := if negb (count mod 2 =? 0) then nxt cur else cur.

(** The slot a restart loads from: the save before the next one. *)
Definition load_slot (cur w : Z) : Z := at_count cur (if 0 <? w then w - 1 else w).

(** The slot that a restart loads, when the stored address is [a]. *)
Definition found (m : mem) (a : Z) : option Z :=
  option_map (fun c => load_slot (fst (resume a c)) (snd (resume a c))) (latest m a).

Lemma at_count_cases cur c : at_count cur c = cur \/ at_count cur c = nxt cur.
Proof. unfold at_count. destruct (negb _); auto. Qed.

Lemma valid_at_count cur c : valid_slot cur -> valid_slot (at_count cur c).
Proof. intros. destruct (at_count_cases cur c) as [->| ->]; [done|by apply valid_nxt]. Qed.

(** Whatever the headers say, the slot is the stored one or the next. *)
Lemma found_cases m a L : found m a = Some L -> L = a \/ L = nxt a.
Proof.
  unfold found, resume. destruct (latest m a) as [c|]; cbn [option_map]; [|done].
  destruct (repeats <? u16 (c + 1)); cbn [fst snd]; intros [= <-].
  - right. reflexivity.
  - apply at_count_cases.
Qed.

Lemma found_some m a : slot_ok m a = true \/ slot_ok m (nxt a) = true -> exists L, found m a = Some L.
Proof.
  unfold found, latest. destruct (slot_ok m a), (slot_ok m (nxt a)); cbn [andb];
    intros [|]; try done; repeat case_if; eexists; reflexivity.
Qed.

(** Only the two slots count. *)
Lemma found_same m m' a : valid_slot a ->
  (forall x, a <= x < a + slot -> m' x = m x) ->
  (forall x, nxt a <= x < nxt a + slot -> m' x = m x) -> found m' a = found m a.
Proof.
  intros Ha H1 H2. pose proof slot_bounds.
  assert (Hsame : forall b, (forall x, b <= x < b + slot -> m' x = m x) ->
    hdr m' b = hdr m b /\ dat m' b = dat m b).
  { intros b Hb. unfold hdr, dat. split.
    - f_equal. apply mread_ext. intros. apply Hb. lia.
    - apply mread_ext. intros. apply Hb. unfold slot. lia. }
  destruct (Hsame a H1) as [Ea1 Ea2], (Hsame (nxt a) H2) as [En1 En2].
  unfold found, latest, slot_ok. by rewrite Ea1, Ea2, En1, En2.
Qed.

(** The slot is not found by accident: a valid slot whose number is not above the limit is
    found when the other one is not valid or is older. *)
Lemma found_only m a L c : (L = at_count a c /\ c < repeats \/ L = nxt a /\ c = repeats) ->
  0 <= c -> slot_ok m L = true -> headerCount (hdr m L) = c ->
  (forall O, (O = a \/ O = nxt a) -> O <> L -> slot_ok m O = false) ->
  L = a \/ L = nxt a -> a <> nxt a -> found m a = Some L.
Proof.
  intros Hc H0 Hok Hcnt Hother Hin Hne. pose proof repeats_bounds. pose proof repeats_odd as Hodd.
  assert (Hlat : latest m a = Some c).
  { unfold latest. destruct Hin as [-> | ->].
    - rewrite Hok, (Hother (nxt a)) by auto. cbn [andb]. by rewrite Hcnt.
    - rewrite Hok, (Hother a) by auto. cbn [andb]. by rewrite Hcnt. }
  unfold found. rewrite Hlat. cbn [option_map]. f_equal. unfold resume.
  rewrite uN_small by lia. destruct (Z.ltb_spec repeats (c + 1)); cbn [fst snd].
  - unfold load_slot. change (at_count (nxt a) 0) with (nxt a).
    destruct Hc as [[-> ?]|[-> ?]]; [lia|done].
  - unfold load_slot. rewrite (proj2 (Z.ltb_lt 0 (c + 1))) by lia.
    replace (c + 1 - 1) with c by lia. destruct Hc as [[-> ?]|[-> ->]]; [done|lia].
Qed.
End Slots.
