(* ===== verification/WlByteRun.v ===== *)
(** * The turning slots: the operations, step by step

    Each operation of [StateWearLevelingByte] on a storage whose section is in order,
    as a function of the memory. *)
From S2P Require Import Prelude Crc16 Device DeviceFacts Storage StorageFacts StateStorage StateStorageFacts WlByte WlByteFacts.
Import WlByte.

#[local] Opaque crc16_bytes.


Section Run.
Context {medium : Medium}.
Variables start rs E : Z.
Hypothesis geo : geometry medium start rs E.

Abbreviation so := (start + 8).
Abbreviation nxt := (nxt start rs E).
Abbreviation valid_slot := (valid_slot start rs E).
Abbreviation slot := (slot E).
Abbreviation repeats := (repeats rs E).
Abbreviation hdr := (hdr).
Abbreviation dat := (dat E).
Abbreviation latest := (latest start rs E).
Abbreviation memory s := (d_mem (device s)).

(** The fields of a storage in service. *)
Record ready (s : wl_byte) (cur w : Z) (valid : bool) : Prop := {
  rd_res : reservedSize s = rs;
  rd_size : elementStateSize s = E;
  rd_ok : storageStateOk s = true;
  rd_init : initDone s = true;
  rd_rep : repeatBeforeSwitchToAnotherSlot s = repeats;
  rd_cur : currentSlotAddress s = cur;
  rd_w : writeCount s = w;
  rd_valid : elementStateCrcCValid s = valid }.

Lemma start_small : 0 <= start /\ 0 <= E <= 65531 /\ start + 8 + rs <= capacity /\ capacity <= 2 ^ 31
  /\ 0 <= rs <= 65535 /\ 23 + 2 * (E + 4) <= rs.
Proof. destruct geo. lia. Qed.

Lemma slotSize_run s : elementStateSize s = E -> slotSize s = slot.
Proof.
  intros HE. pose proof start_small. unfold slotSize, WlByteFacts.slot, sizeof_StateWlByteHeader.
  rewrite HE. apply uN_small. lia.
Qed.

Lemma first_run : getFirstSlotAddress so = first_slot start.
Proof.
  pose proof start_small. unfold getFirstSlotAddress, first_slot.
  unfold sizeof_SectionPreamble, sizeof_StateEntryAddress. rewrite uN_small; lia.
Qed.

Lemma next_run s a : reservedSize s = rs -> elementStateSize s = E -> valid_slot a ->
  getNextSlotAddress so s a = nxt a.
Proof.
  intros Hr HE (Ha & Hb & Hc). pose proof start_small as (?&?&?&?&?&?).
  unfold getNextSlotAddress, WlByteFacts.nxt. rewrite slotSize_run by done. rewrite Hr.
  unfold WlByteFacts.slot, first_slot in *.
  u32s. rewrite first_run. unfold first_slot.
  destruct (Z.ltb_spec (so + rs) (a + (E + 4) + (E + 4))), (Z.ltb_spec (so + rs) (a + 2 * (E + 4)));
    try lia; done.
Qed.

Lemma enough_run s : reservedSize s = rs -> elementStateSize s = E ->
  checkIfIsEnoughSpaceForState s
  = Some (tt, set_storageStateOk true (set_repeatBeforeSwitchToAnotherSlot repeats
                (set_storageStateOk false s))).
Proof.
  intros Hr HE. pose proof start_small as (?&?&?&?&?&?).
  pose proof (slots_count_bounds start rs E geo) as Hn.
  unfold checkIfIsEnoughSpaceForState, mbnd, mget, mmod. rewrite Hr, HE.
  unfold sizeof_StateWlByteHeader, sizeof_StateEntryAddress.
  u32s.
  rewrite (proj2 (Z.ltb_lt (2 * 8 + (4 + E)) rs)) by lia.
  change (2 * 8) with 16. replace (4 + E) with slot by (unfold WlByteFacts.slot; lia).
  fold (slots_count rs E). cbv zeta.
  rewrite (proj2 (Z.ltb_lt _ _)) by lia. done.
Qed.

Lemma read_run (a n : Z) (s : wl_byte) : 0 <= a -> 0 <= n -> a + n <= start + 8 + rs ->
  readStorage a n s = Some (Some (mread (memory s) a n), s).
Proof.
  intros. pose proof start_small as (?&?&?&?&?&?).
  apply (readStorage_run (H := wl_byte_dev)); lia.
Qed.

Lemma crc_loop_run n : forall a c s, 0 <= a -> a + Z.of_nat n <= start + 8 + rs ->
  crc_loop a n c s = Some (crc16_bytes c (mread (memory s) a (Z.of_nat n)), s).
Proof.
  pose proof start_small as (?&?&?&?&?&?).
  induction n as [|n IH]; intros a c s Ha Hb; [done|]. cbn [crc_loop]. unfold mbnd.
  rewrite read_run by lia. cbn [default from_option id]. rewrite (uN_small 32) by lia.
  rewrite IH by lia. replace (Z.of_nat (S n)) with (1 + Z.of_nat n) by lia.
  by rewrite mread_app, crc16_app by lia.
Qed.

Lemma read_slot_run a s : elementStateSize s = E -> valid_slot a ->
  read_slot a s = Some ((hdr (memory s) a, crc16 (dat (memory s) a)), s).
Proof.
  intros HE (Ha & Hb & Hc). pose proof start_small as (?&?&?&?&?&?).
  unfold first_slot, WlByteFacts.slot in *. unfold read_slot, mbnd, mget, sizeof_StateWlByteHeader.
  rewrite read_run by lia. rewrite HE, (uN_small 32) by lia. rewrite crc_loop_run by lia.
  rewrite Z2Nat.id by lia. done.
Qed.

(** ** The two copies of the address *)

Definition entry_for (a : Z) : StateEntryAddress :=
  let e := {| address := a; entrySize := E; entryCrc := 0 |} in
  {| address := a; entrySize := E; entryCrc := crc16 (StateEntryAddress_body e) |}.
Definition entry_bytes (a : Z) : bytes := StateEntryAddress_bytes (entry_for a).
Definition main_entry (m : mem) : StateEntryAddress := StateEntryAddress_of (mread m (so + 7) 8).
Definition backup_entry (m : mem) : StateEntryAddress := StateEntryAddress_of (mread m (so + 15) 8).
Definition entry_ok (e : StateEntryAddress) : bool :=
  crc16 (StateEntryAddress_body e) =? entryCrc e.

(** The address a restart goes by, when the first copy is [p]. *)
Definition resolved (m : mem) (p : Z) : Z :=
  if entry_ok (backup_entry m) && (nxt p =? address (backup_entry m)) then nxt p else p.

Lemma valid_range a : valid_slot a -> 31 <= a < 2 ^ 31.
Proof.
  pose proof start_small as (?&?&?&?&?&?). unfold WlByteFacts.valid_slot, first_slot, WlByteFacts.slot. lia.
Qed.

Lemma entry_fields (x y z : bytes) : length x = 4%nat -> length y = 2%nat -> length z = 2%nat ->
  StateEntryAddress_of (x ++ y ++ z)
  = {| address := le_combine x; entrySize := le_combine y; entryCrc := le_combine z |}.
Proof. intros. list_of_length. reflexivity. Qed.

Lemma entry_of_bytes a : valid_slot a -> StateEntryAddress_of (entry_bytes a) = entry_for a.
Proof.
  intros Ha. apply valid_range in Ha. pose proof start_small as (?&?&?&?&?&?).
  unfold entry_bytes, StateEntryAddress_bytes, StateEntryAddress_body.
  rewrite <-app_assoc, entry_fields by apply length_le_split.
  unfold entry_for. cbn [address entrySize entryCrc].
  rewrite !combine_split; [done|apply crc16_range|cbn; lia|cbn; lia].
Qed.

Lemma entry_for_ok a : entry_ok (entry_for a) = true.
Proof. unfold entry_ok, entry_for. cbn [entryCrc]. apply Z.eqb_refl. Qed.

(** ** [initFromStorage] *)

Lemma choose_entry_run s p backup bok : reservedSize s = rs -> valid_slot p -> entrySize backup = E ->
  choose_entry so (entry_for p) backup true bok s
  = Some (tt, set_elementStateSize E (set_currentSlotAddress
      (if bok && (nxt p =? address backup) then nxt p else p) s)).
Proof.
  intros Hr Hp HE. pose proof (valid_range p Hp) as Hpr.
  pose proof (nxt_apart start rs E geo p Hp) as Hap. pose proof (slot_bounds start rs E geo) as Hsl.
  unfold choose_entry, mbnd, mmod, mget, mret. cbn [andb].
  assert (Hn : forall s', reservedSize s' = rs -> elementStateSize s' = E ->
    getNextSlotAddress so s' p = nxt p) by (intros; by apply next_run).
  destruct bok; cbn [andb].
  - change (address (entry_for p)) with p. change (entrySize (entry_for p)) with E.
    destruct (Z.eqb_spec p (address backup)) as [Ep|Ep].
    + rewrite (proj2 (Z.eqb_neq _ _)) by lia. by destruct s.
    + cbn [currentSlotAddress set_elementStateSize set_currentSlotAddress].
      rewrite (proj2 (Z.eqb_neq p 0)) by lia. cbn [orb]. rewrite Hn by done.
      destruct (Z.eqb_spec (nxt p) (address backup)) as [En|En]; [|by destruct s].
      rewrite HE, <-En. by destruct s.
  - by destruct s.
Qed.

Definition count_of (m : mem) (a : Z) : Z := default 0 (latest m a).

Lemma choose_slot_run s m a : exists s', device s' = device s /\
  choose_slot (hdr m a) (hdr m (nxt a)) (slot_ok E m a) (slot_ok E m (nxt a)) s = Some (tt, s') /\
  reservedSize s' = reservedSize s /\ elementStateSize s' = elementStateSize s /\
  initDone s' = initDone s /\ currentSlotAddress s' = currentSlotAddress s /\
  (forall c, latest m a = Some c -> elementStateCrcCValid s' = true /\ writeCount s' = c).
Proof.
  unfold choose_slot, WlByteFacts.latest, mbnd, mmod.
  repeat case_if; eexists; (split_and!; [|reflexivity|..]); try done; by intros c [= <-].
Qed.

Lemma count_write_run s cur w : reservedSize s = rs -> elementStateSize s = E ->
  repeatBeforeSwitchToAnotherSlot s = repeats -> currentSlotAddress s = cur -> writeCount s = w ->
  valid_slot cur ->
  count_write so s = Some (tt, set_writeCount (snd (resume start rs E cur w))
                                (set_currentSlotAddress (fst (resume start rs E cur w)) s)).
Proof.
  intros Hr HE Hrep Hc Hw Hv. unfold count_write, mbnd, mmod, mget.
  cbn [repeatBeforeSwitchToAnotherSlot writeCount set_writeCount]. rewrite Hrep, Hw.
  unfold resume. destruct (Z.ltb_spec repeats (u16 (w + 1))); cbn [fst snd].
  - rewrite (next_run _ (currentSlotAddress (set_writeCount (u16 (w + 1)) s)))
      by (cbn; congruence). cbn. rewrite Hc. by destruct s.
  - rewrite <-Hc. by destruct s.
Qed.

Lemma valid_resolved m p : valid_slot p -> valid_slot (resolved m p).
Proof. intros. unfold resolved. case_if; [by apply valid_nxt|done]. Qed.

Lemma valid_resume a c : valid_slot a -> valid_slot (fst (resume start rs E a c)).
Proof. intros. unfold resume. case_if; [by apply valid_nxt|done]. Qed.

Lemma initFromStorage_run s p c : let m := memory s in
  reservedSize s = rs -> valid_slot p ->
  mread m (so + 7) 8 = entry_bytes p -> entrySize (backup_entry m) = E ->
  latest m (resolved m p) = Some c ->
  let r := resume start rs E (resolved m p) c in
  wp (initFromStorage so) (fun b s' => device s' = device s /\ ready s' (fst r) (snd r) true) s.
Proof.
  intros m Hr Hp Hmain Hbs Hl r. pose proof start_small as (?&?&?&?&?&?).
  pose proof (valid_resolved m p Hp) as Ha. set (a := resolved m p) in *.
  unfold initFromStorage. apply wp_bnd, wp_mod. unfold sizeof_SectionPreamble, sizeof_StateEntryAddress.
  u32s. step read_run by lia. cbn [device set_initDone].
  cbn [default from_option id]. u32s. replace (so + 7 + 8) with (so + 15) by lia.
  step read_run by lia. cbn [device set_initDone]. fold m. rewrite Hmain. cbn [default from_option id].
  rewrite entry_of_bytes by done. fold (backup_entry m). cbn [calculateCrc16].
  fold (entry_ok (entry_for p)) (entry_ok (backup_entry m)). rewrite entry_for_ok. cbn [negb andb].
  step (choose_entry_run (set_initDone true s) p (backup_entry m) (entry_ok (backup_entry m))) by done.
  fold (resolved m p). fold a.
  set (s1 := set_elementStateSize E _). apply wp_bnd, wp_get. change (currentSlotAddress s1) with a.
  step read_slot_run by done. rewrite next_run by done.
  step read_slot_run by (done || by apply valid_nxt). cbn [fst snd]. change (memory s1) with m.
  fold (slot_ok E m a) (slot_ok E m (nxt a)).
  destruct (choose_slot_run s1 m a) as (s2 & Hd & Hcs & Hr2 & HE2 & Hi2 & Hc2 & Hlat).
  destruct (Hlat c Hl) as [Hv2 Hw2].
  change (reservedSize s1) with (reservedSize s) in Hr2. change (elementStateSize s1) with E in HE2.
  change (initDone s1) with true in Hi2. change (currentSlotAddress s1) with a in Hc2.
  change (device s1) with (device s) in Hd.
  apply wp_bnd. eapply wp_eq; [exact Hcs|]. apply wp_bnd, wp_mod.
  step enough_run by (cbn; congruence).
  step (count_write_run (set_storageStateOk true (set_repeatBeforeSwitchToAnotherSlot repeats
    (set_storageStateOk false (set_crc 0 s2)))) a c) by (cbn; first [done|congruence]).
  apply wp_ret. split; [cbn; congruence|]. split; cbn; first [congruence|done].
Qed.
End Run.
