(* ===== verification/WlByteBoot.v ===== *)
(** * The turning slots: what a restart loads

    [Storage::init], the size check and the load, on a memory whose preambles are in order:
    the elements get the state of the slot that [found] names. *)
From S2P Require Import Prelude Crc16 Device DeviceFacts Storage StorageFacts StateStorage StateStorageFacts WlByte WlByteFacts WlByteRun.
Import WlByte.

#[local] Opaque crc16_bytes.

Section Boot.
Context {medium : Medium}.
Variables start rs E : Z.
Hypothesis geo : geometry medium start rs E.

Abbreviation so := (start + 8).
Abbreviation valid_slot := (valid_slot start rs E).
Abbreviation memory s := (d_mem (device s)).
Abbreviation resume := (resume start rs E).
Abbreviation ready := (ready rs E).
Abbreviation resolved := (resolved start rs E).
Abbreviation latest := (latest start rs E).
Abbreviation load_slot := (load_slot start rs E).

#[local] Instance iS : StateStorageInterface wl_byte := StateWearLevelingByte start so.

(** The preambles of a storage in service. *)
Definition section_bytes : bytes :=
  SectionPreamble_bytes {| sp_type := STORAGE_SECTION_TYPE_ELEMENT_STATE_WL_BYTE; sp_size := rs;
                           crc1 := 0; crc2 := 0 |}.
Definition in_order (m : mem) : Prop :=
  mread m start 8 = preamble_bytes /\ mread m so 7 = section_bytes.

Lemma section_of : SectionPreamble_of section_bytes
  = {| sp_type := 4; sp_size := rs; crc1 := 0; crc2 := 0 |}.
Proof.
  pose proof (start_small start rs E geo) as (?&?&?&?&?&?).
  by apply section_of_bytes; cbn [sp_type sp_size crc1 crc2]; lia.
Qed.

(** With the preambles in order, [initFromStorage] decides. *)
Lemma wl_loadPreambles d sz (Q : bool -> wl_byte -> Prop) : in_order (d_mem d) ->
  wp (initFromStorage so) (fun _ s' => Q true s')
    (set_elementStateCrcCValid true (set_reservedSize rs (new d))) ->
  wp (loadPreambles start sz) Q (new d).
Proof.
  intros [Hpre Hsec] HQ. pose proof (start_small start rs E geo) as (?&?&?&?&?&?).
  apply (StateStorageFacts.wp_loadPreambles (iS := iS) start sz
    {| sp_type := 4; sp_size := rs; crc1 := 0; crc2 := 0 |}); try first [lia|done].
  cbn [get_dev wl_byte_dev device new]. by rewrite Hsec, section_of.
Qed.

Lemma loadPreambles_run d p c sz : in_order (d_mem d) -> valid_slot p ->
  mread (d_mem d) (so + 7) 8 = entry_bytes E p -> entrySize (backup_entry start (d_mem d)) = E ->
  latest (d_mem d) (resolved (d_mem d) p) = Some c ->
  let r := resume (resolved (d_mem d) p) c in
  wp (loadPreambles start sz) (fun b s' => b = true /\ device s' = d /\ ready s' (fst r) (snd r) true)
    (new d).
Proof.
  intros Ho Hp Hmain Hbs Hl r. apply wl_loadPreambles; [done|].
  eapply wp_mono; [apply (initFromStorage_run start rs E geo _ p c); done|].
  intros ? s' [Hd Hr]. done.
Qed.

(** ** The size check *)

Definition checking (s0 : wl_byte) (s : wl_byte) (D : bytes) : Prop :=
  device s = device s0 /\ stateSlotNewSize s = Zlen D /\ dryRun s = true /\
  ready s (currentSlotAddress s0) (writeCount s0) (elementStateCrcCValid s0).

Lemma checking_law limit s0 : limit < 2 ^ 32 -> writer_law limit (checking s0).
Proof.
  intros Hlim s D buf (Hd & Hn & Hdry & Hr) Hl.
  pose proof (Zlen_nonneg D). pose proof (Zlen_nonneg buf).
  change (StateStorage.writeState buf) with (writeState start buf).
  unfold writeState. apply wp_bnd, wp_get. rewrite (rd_ok _ _ _ _ _ _ Hr). cbn [negb].
  apply wp_bnd, wp_mod. rewrite Hn.
  assert (Hs : forall o, checking s0 (set_currentStateOffset o
    (set_stateSlotNewSize (u32 (Zlen D + Zlen buf)) s)) (D ++ buf)).
  { intros o. unfold checking. cbn. rewrite Zlen_app. u32s. split_and!; try done.
    destruct Hr. by split. }
  destruct (Z.eqb_spec (Zlen buf) 0) as [E0|].
  - apply wp_ret. specialize (Hs (currentStateOffset s)). by destruct s.
  - rewrite Hdry. unfold advance. wp_steps. apply Hs.
Qed.

(** The state is valid when it has the size of the elements' state. *)
Lemma size_check_run add es s0 : ready s0 (currentSlotAddress s0) (writeCount s0)
    (elementStateCrcCValid s0) -> Zlen (stream add es) < 2 ^ 32 ->
  wp (IsStateStorageValid add es) (fun b s' => b = (E =? Zlen (stream add es)) /\
    device s' = device s0 /\ (b = true ->
    ready s' (currentSlotAddress s0) (writeCount s0) (elementStateCrcCValid s0))) s0.
Proof.
  intros Hr HE. unfold IsStateStorageValid. apply wp_bnd.
  change StateStorage.prepareSizeCheck with (prepare so true).
  unfold prepare. apply wp_bnd, wp_get. rewrite (rd_ok _ _ _ _ _ _ Hr). cbn [negb].
  wp_steps.
  eapply wp_mono; [apply (wp_WriteElementsState _ (checking s0) (checking_law _ s0 HE) add es _ [])|].
  - unfold checking. cbn. destruct Hr. by split_and!.
  - change (Zlen []) with 0. lia.
  - intros ? s' (Hd & Hn & Hdry & Hr'). cbn beta in *. cbn [app] in Hn.
    change StateStorage.finalizeSizeCheck with (finalizeSizeCheck so). unfold finalizeSizeCheck.
    apply wp_bnd, wp_get. rewrite (rd_ok _ _ _ _ _ _ Hr'). cbn [negb]. apply wp_bnd, wp_mod.
    rewrite (rd_size _ _ _ _ _ _ Hr'), Hn. destruct (E =? Zlen (stream add es)); cbn [negb].
    + apply wp_ret. split_and!; [done|done|]. intros _. destruct Hr'. by split.
    + wp_steps. split_and!; [done|done|]. discriminate.
Qed.

(** ** The load *)

Definition reading (s0 : wl_byte) (s : wl_byte) (D : bytes) : Prop :=
  device s = device s0 /\ stateSlotNewSize s + Zlen D <= E /\ 0 <= stateSlotNewSize s /\
  ready s (currentSlotAddress s0) (writeCount s0) true /\
  0 <= currentStateOffset s /\ currentStateOffset s + Zlen D <= start + 8 + rs /\
  mread (memory s0) (currentStateOffset s) (Zlen D) = D.

Lemma reading_law s0 : reader_law (reading s0).
Proof.
  intros s D n (Hd & Hn & Hn0 & Hr & Hc0 & Hc & Hm) Hl.
  pose proof (start_small start rs E geo) as (?&?&?&?&?&?).
  change (StateStorage.readState n) with (readState n). unfold readState.
  apply wp_bnd, wp_mod. apply wp_bnd, wp_get. cbn [storageStateOk elementStateCrcCValid
    set_stateSlotNewSize elementStateSize stateSlotNewSize].
  rewrite (rd_ok _ _ _ _ _ _ Hr), (rd_valid _ _ _ _ _ _ Hr), (rd_size _ _ _ _ _ _ Hr). cbn [negb orb].
  u32s. rewrite (proj2 (Z.ltb_ge _ _)) by lia.
  step (read_run start rs E geo) by (cbn; lia). unfold advance. apply wp_bnd, wp_mod, wp_ret.
  cbn [device set_stateSlotNewSize currentStateOffset]. rewrite Hd. split.
  - f_equal. rewrite <-Hm, mread_take by lia. done.
  - unfold reading. cbn [device set_stateSlotNewSize set_currentStateOffset currentStateOffset
      stateSlotNewSize]. u32s. rewrite Zlen_drop, Z2Nat.id by lia.
    replace (Z.max 0 (Zlen D - n)) with (Zlen D - n) by lia. split_and!; try (done || lia).
    + destruct Hr. by split.
    + rewrite <-mread_drop by lia. by rewrite Hm.
Qed.

Lemma load_run add es s : ready s (currentSlotAddress s) (writeCount s) true ->
  Forall reads_back es -> distinct_channels es -> valid_slot (currentSlotAddress s) ->
  dat E (memory s) (load_slot (currentSlotAddress s) (writeCount s)) = stream add es ->
  wp (LoadStateStorage add es) (fun r s' => r = Some (restored add es) /\ device s' = device s /\
    ready s' (currentSlotAddress s) (writeCount s) true) s.
Proof.
  intros Hr Hrb Hdc Hv Hdat. pose proof (start_small start rs E geo) as (?&?&?&?&?&?).
  assert (HE : Zlen (stream add es) = E) by (rewrite <-Hdat; unfold dat; apply Zlen_mread; lia).
  apply (wp_LoadStateStorage (reading s) (reading_law s) add es s []); [done|done| |].
  - change StateStorage.prepareLoadState with (prepareLoadState so). unfold prepareLoadState.
    apply wp_bnd, wp_get. rewrite (rd_ok _ _ _ _ _ _ Hr), (rd_valid _ _ _ _ _ _ Hr). cbn [negb orb].
    apply wp_bnd, wp_mod. apply wp_bnd, wp_mod. apply wp_bnd, wp_mod. apply wp_ret. split; [done|].
    rewrite app_nil_r.
    assert (Hslot : slot_of so s (if 0 <? writeCount s then writeCount s - 1 else writeCount s)
      = load_slot (currentSlotAddress s) (writeCount s)).
    { unfold slot_of, WlByteFacts.load_slot, at_count.
      rewrite (next_run start rs E geo); [done|apply Hr|apply Hr|done]. }
    rewrite Hslot. unfold sizeof_StateWlByteHeader.
    pose proof (valid_at_count start rs E geo (currentSlotAddress s)
      (if 0 <? writeCount s then writeCount s - 1 else writeCount s) Hv) as Hvl.
    fold (load_slot (currentSlotAddress s) (writeCount s)) in Hvl.
    destruct Hvl as (Hl1 & Hl2 & _). unfold first_slot, slot in *. rewrite (uN_small 32) by lia.
    unfold reading. cbn [device stateSlotNewSize currentStateOffset set_currentStateOffset
      set_stateSlotNewSize set_dryRun]. rewrite HE. split_and!; try (done || lia).
    destruct Hr. by split.
  - intros s' (Hd & _ & _ & Hr' & _). apply wp_ret. done.
Qed.
End Boot.

(** ** The restart *)

Section Restart.
Context {medium : Medium}.
Variables start rs E : Z.
Hypothesis geo : geometry medium start rs E.

Lemma boot_run add es0 es d p L avail : in_order start rs (d_mem d) ->
  valid_slot start rs E p -> mread (d_mem d) (start + 8 + 7) 8 = entry_bytes E p ->
  entrySize (backup_entry start (d_mem d)) = E ->
  found start rs E (d_mem d) (resolved start rs E (d_mem d) p) = Some L ->
  dat E (d_mem d) L = stream add es ->
  Forall2 same_shape es0 es -> Forall reads_back es -> distinct_channels es ->
  exists c, latest start rs E (d_mem d) (resolved start rs E (d_mem d) p) = Some c /\
  wp (boot start avail add es0) (fun r s' => r = Some (restored add es) /\ device s' = d /\
    ready rs E s' (fst (resume start rs E (resolved start rs E (d_mem d) p) c))
      (snd (resume start rs E (resolved start rs E (d_mem d) p) c)) true) (new d).
Proof.
  intros Ho Hp Hmain Hbs Hf Hdat Hsh Hrb Hdc. unfold found in Hf.
  set (a := resolved start rs E (d_mem d) p) in *.
  destruct (latest start rs E (d_mem d) a) as [c|] eqn:Hl; [|done]. cbn [option_map] in Hf.
  injection Hf as Hf. exists c. split; [done|].
  pose proof (start_small start rs E geo) as (?&?&?&?&?&?).
  assert (HE : Zlen (stream add es) = E) by (rewrite <-Hdat; unfold dat; apply Zlen_mread; lia).
  set (r := resume start rs E a c) in *.
  unfold boot. cbv zeta. unfold sizeof_Preamble. rewrite (uN_small 32 (start + 8)) by lia.
  apply wp_bnd. eapply wp_mono; [apply (loadPreambles_run start rs E geo d p c); done|].
  intros ? s (-> & Hd & Hr). cbn beta in *. fold a in Hr. fold r in Hr.
  pose proof (rd_cur _ _ _ _ _ _ Hr) as Hcur. pose proof (rd_w _ _ _ _ _ _ Hr) as Hw.
  pose proof (rd_valid _ _ _ _ _ _ Hr) as Hv. unfold begin_state. apply wp_bnd.
  assert (Hz0 : Zlen (stream add es0) = E) by (by rewrite (stream_shape add es0 es Hsh)).
  rewrite <-Hcur, <-Hw, <-Hv in Hr.
  eapply wp_mono; [exact (size_check_run start rs E add es0 s Hr ltac:(lia))|].
  - intros ? s' (-> & Hd' & Hr'). cbn beta in *.
    rewrite Hz0, Z.eqb_refl in Hr' |- *. cbv iota. specialize (Hr' eq_refl).
    rewrite Hcur, Hw, Hv in Hr'. rewrite Hd in Hd'.
    apply (wp_shape add es0 es Hsh).
    pose proof (rd_cur _ _ _ _ _ _ Hr') as Hcur'. pose proof (rd_w _ _ _ _ _ _ Hr') as Hw'.
    eapply wp_mono; [apply (load_run start rs E geo add es s')|].
    + by rewrite Hcur', Hw'.
    + done.
    + done.
    + rewrite Hcur'. apply valid_resume; [done|]. by apply valid_resolved.
    + rewrite Hcur', Hw', Hd', Hf. done.
    + intros ? s'' (-> & Hd'' & Hr''). rewrite Hcur', Hw' in Hr''. by rewrite Hd''.
Qed.
End Restart.
