(* ===== verification/WlByteSave.v ===== *)
(** * The turning slots: what a save writes

    [prepareSaveState], the writes of the elements and [finalizeSaveState], as a sequence of
    events: the data into the slot that is not the latest, the two copies of the address,
    the header of the slot. *)
From S2P Require Import Prelude Crc16 Device DeviceFacts Storage StorageFacts StateStorage StateStorageFacts WlByte WlByteFacts WlByteRun WlByteBoot.
Import WlByte.

#[local] Opaque crc16_bytes.

Section Save.
Context {medium : Medium} {rewritable : Rewritable medium}.
Variables start rs E : Z.
Hypothesis geo : geometry medium start rs E.

Abbreviation so := (start + 8).
Abbreviation nxt := (nxt start rs E).
Abbreviation valid_slot := (valid_slot start rs E).
Abbreviation memory s := (d_mem (device s)).
Abbreviation ready := (ready rs E).
Abbreviation resume := (resume start rs E).
Abbreviation at_count := (at_count start rs E).
Abbreviation entry_bytes := (entry_bytes E).

#[local] Instance iS : StateStorageInterface wl_byte := StateWearLevelingByte start so.

Definition changed (m : mem) (a : Z) (bs : bytes) : bool :=
  negb (bool_decide (mread m a (Zlen bs) = bs)).

Lemma changed_false m a bs : changed m a bs = false -> update_events m a bs = [].
Proof.
  unfold changed, update_events. case_bool_decide; [|done]. intros _. by rewrite decide_True.
Qed.

(** The state after [updateStorage]. *)
Definition updated (a : Z) (bs : bytes) (s : wl_byte) : wl_byte :=
  set_dataChanged (dataChanged s || changed (memory s) a bs)
    (set_device (extend (device s) (update_events (memory s) a bs)) s).

Lemma update_run a bs s : start <= a -> a + Zlen bs <= start + 8 + rs ->
  updateStorage start a bs s = Some (Zlen bs, updated a bs s).
Proof.
  intros Ha Hb. pose proof (start_small start rs E geo) as (?&?&?&?&?&?).
  unfold updateStorage. rewrite (proj2 (Z.ltb_ge _ _)) by lia.
  unfold mbnd at 1. rewrite (memcmp_stored_run (H := wl_byte_dev)) by lia.
  unfold updated, changed, update_events. cbn [get_dev wl_byte_dev].
  case_bool_decide as Ec; cbn [negb].
  - rewrite decide_True by done. rewrite extend_nil, orb_false_r. by destruct s.
  - rewrite decide_False by done. unfold mbnd, mmod.
    rewrite (writeStorage_run (H := wl_byte_dev)) by lia. rewrite orb_true_r. by destruct s.
Qed.

(** ** The data *)

(** The slot [t] holds [D] over what it held in [m0]; a power loss leaves a part of [D]. *)
Record data_events (m0 : mem) (t : Z) (l : list event) (D : bytes) : Prop := {
  de_dat : dat E (replay m0 l) t = D ++ drop (length D) (dat E m0 t);
  de_out : forall x, x < t + 4 \/ t + 4 + E <= x -> replay m0 l x = m0 x;
  de_crash_out : forall m', crash m0 l m' -> forall x, x < t + 4 \/ t + 4 + E <= x -> m' x = m0 x;
  de_crash : forall m', crash m0 l m' -> exists k, (k <= length D)%nat /\
    dat E m' t = take k D ++ drop k (dat E m0 t) }.

Lemma dat_length m t : 0 <= E -> length (dat E m t) = Z.to_nat E.
Proof. intros. unfold dat. apply mread_length. Qed.

Lemma data_events_nil m0 t : data_events m0 t [] [].
Proof.
  split; [done|done|..]; intros m' Hc; rewrite (crash_nil _ _ Hc); [done|]. by exists 0%nat.
Qed.

Lemma data_events_app m0 t l D buf : 0 <= E -> data_events m0 t l D -> Zlen D + Zlen buf <= E ->
  data_events m0 t (l ++ update_events (replay m0 l) (t + 4 + Zlen D) buf) (D ++ buf).
Proof using rewritable.
  intros HE [Hdat Hout Hcout Hcr] Hl. pose proof (Zlen_nonneg D). pose proof (Zlen_nonneg buf).
  set (m1 := replay m0 l) in *. set (R0 := dat E m0 t) in *.
  assert (HR0 : Zlen R0 = E) by (unfold R0, dat; by apply Zlen_mread).
  assert (Hd : drop (Z.to_nat (Zlen D + Zlen buf)) (D ++ drop (length D) R0)
    = drop (length (D ++ buf)) R0).
  { rewrite drop_app, (drop_ge D) by (unfold Zlen in *; lia). cbn [app]. rewrite drop_drop. f_equal.
    rewrite length_app. unfold Zlen in *. lia. }
  assert (Ht : take (Z.to_nat (Zlen D)) (D ++ drop (length D) R0) = D) by (by apply take_Zlen_app).
  assert (Hsp : forall m' bs, Zlen bs = Zlen buf -> mread m' (t + 4 + Zlen D) (Zlen buf) = bs ->
    (forall x, x < t + 4 + Zlen D \/ t + 4 + Zlen D + Zlen buf <= x -> m' x = m1 x) ->
    dat E m' t = D ++ bs ++ drop (length (D ++ buf)) R0).
  { intros m' bs Hbl Hb Ho. unfold dat. rewrite <-Hbl in Hb.
    rewrite (mread_splice m1 m' (t + 4) E (Zlen D) bs) by (first [done | lia | rewrite Hbl; done | rewrite Hbl; lia]).
    change (mread m1 (t + 4) E) with (dat E m1 t). rewrite Hdat, Ht, Hbl, Hd. done. }
  split.
  - rewrite replay_app. fold m1. rewrite (Hsp _ buf); [by rewrite app_assoc|done|apply update_read|].
    intros x Hx. by apply update_out.
  - intros x Hx. rewrite replay_app. fold m1. rewrite update_out by lia. apply Hout. lia.
  - intros m' Hc x Hx. apply crash_app in Hc as [Hc|Hc]; [by apply Hcout|].
    apply crash_update in Hc as [_ Ho]. rewrite Ho by lia. apply Hout. lia.
  - intros m' Hc. apply crash_app in Hc as [Hc|Hc].
    + destruct (Hcr m' Hc) as (k & Hk & Ek). exists k. rewrite length_app. split; [lia|].
      rewrite (take_app_le D buf k) by lia. exact Ek.
    + apply crash_update in Hc as [[j Hj] Ho]. fold m1 in Hj, Ho.
      exists (length D + Nat.min j (length buf))%nat. rewrite length_app. split; [lia|].
      assert (Htl : Zlen (torn j buf (mread m1 (t + 4 + Zlen D) (Zlen buf))) = Zlen buf)
        by (apply Zlen_torn; [by apply Zlen_mread|done]).
      rewrite (Hsp m' _ Htl Hj Ho).
      assert (Hold : mread m1 (t + 4 + Zlen D) (Zlen buf) = take (length buf) (drop (length D) R0)).
      { rewrite <-(mread_take m1 (t + 4 + Zlen D) (E - Zlen D)) by lia. rewrite Zlen_length. f_equal.
        rewrite <-mread_drop by lia. change (mread m1 (t + 4) E) with (dat E m1 t).
        rewrite Hdat. by apply drop_Zlen_app. }
      rewrite Hold, length_app, <-drop_drop, torn_prefix by (rewrite length_drop; unfold Zlen in *; lia).
      rewrite take_app_add, drop_drop. by rewrite app_assoc.
Qed.

Record writing (s0 : wl_byte) (t cur w : Z) (v : bool) (s : wl_byte) (D : bytes) : Prop := {
  wr_events : exists l, device s = extend (device s0) l /\ data_events (memory s0) t l D /\
    (dataChanged s = false -> l = []);
  wr_new : stateSlotNewSize s = Zlen D;
  wr_crc : crc s = crc16 D;
  wr_offset : currentStateOffset s = t + 4 + Zlen D;
  wr_dry : dryRun s = false;
  wr_ready : ready s cur w v }.

Lemma ready_ext (s s' : wl_byte) cur w v : ready s cur w v ->
  reservedSize s' = reservedSize s -> elementStateSize s' = elementStateSize s ->
  storageStateOk s' = storageStateOk s -> initDone s' = initDone s ->
  repeatBeforeSwitchToAnotherSlot s' = repeatBeforeSwitchToAnotherSlot s ->
  currentSlotAddress s' = currentSlotAddress s -> writeCount s' = writeCount s ->
  elementStateCrcCValid s' = elementStateCrcCValid s -> ready s' cur w v.
Proof. intros [] **. split; congruence. Qed.

Lemma writing_law s0 t cur w v : valid_slot t -> writer_law E (writing s0 t cur w v).
Proof.
  intros Ht s D buf [(l & Hd & Hde & Hch) Hnew Hcrc Hoff Hdry Hr] Hl.
  pose proof (start_small start rs E geo) as (?&?&?&?&?&?).
  pose proof (Zlen_nonneg D). pose proof (Zlen_nonneg buf).
  destruct Ht as (Ht1 & Ht2 & _). unfold first_slot, slot in *.
  change (StateStorage.writeState buf) with (writeState start buf). unfold writeState.
  apply wp_bnd, wp_get. rewrite (rd_ok _ _ _ _ _ _ Hr). cbn [negb]. apply wp_bnd, wp_mod.
  destruct (Z.eqb_spec (Zlen buf) 0) as [E0|].
  { rewrite (Zlen_0_nil buf E0), app_nil_r. apply wp_ret. rewrite Zlen_nil, Z.add_0_r, Hnew. u32s.
    rewrite <-Hnew. split; try done; [by exists l|]. by apply (ready_ext s). }
  cbn [dryRun set_stateSlotNewSize]. rewrite Hdry. apply wp_bnd, wp_mod. apply wp_bnd, wp_get.
  cbn [stateSlotNewSize elementStateSize set_crc set_stateSlotNewSize].
  rewrite Hnew, (rd_size _ _ _ _ _ _ Hr). u32s. rewrite (proj2 (Z.leb_le _ _)) by lia.
  apply wp_bnd. cbn [currentStateOffset set_crc set_stateSlotNewSize]. rewrite Hoff.
  step update_run by lia. unfold advance. apply wp_mod, wp_ret.
  split; cbn; rewrite ?Zlen_app; try (done || lia).
  - exists (l ++ update_events (replay (memory s0) l) (t + 4 + Zlen D) buf).
    rewrite Hd, extend_app. split; [done|]. split; [apply data_events_app; done || lia|].
    intros [Hc1 Hc2]%orb_false_iff. rewrite (Hch Hc1) in *. cbn [app replay fold_left].
    by apply changed_false.
  - by rewrite Hcrc, <-crc16_app.
  - rewrite Hoff. u32s. lia.
  - by apply (ready_ext s).
Qed.

(** ** [finalizeSaveState] *)

Lemma isDataDifferent_run n : forall a b (s : wl_byte), 0 <= a -> 0 <= b ->
  a + Z.of_nat n <= start + 8 + rs -> b + Z.of_nat n <= start + 8 + rs ->
  isDataDifferent a b n s
  = Some (negb (bool_decide (mread (memory s) a (Z.of_nat n) = mread (memory s) b (Z.of_nat n))), s).
Proof.
  pose proof (start_small start rs E geo) as (?&?&?&?&?&?).
  induction n as [|n IH]; intros a b s Ha Hb Hna Hnb; [done|]. cbn [isDataDifferent]. unfold mbnd.
  rewrite !(read_run start rs E geo) by lia. cbn [default from_option id].
  replace (Z.of_nat (S n)) with (1 + Z.of_nat n) by lia. rewrite !mread_app by lia.
  change (mread (memory s) a 1) with [memory s (a + 0)]. change (mread (memory s) b 1) with [memory s (b + 0)].
  rewrite !Z.add_0_r. case_bool_decide as Eq; cbn [negb].
  - u32s. rewrite IH by lia. injection Eq as Eq. rewrite Eq. cbn [app]. do 3 f_equal.
    apply bool_decide_ext. split; [by intros ->|by intros [= ->]].
  - unfold mret. do 2 f_equal. symmetry. apply negb_true_iff, bool_decide_eq_false. cbn [app]. congruence.
Qed.

Lemma slot_of_run s c : reservedSize s = rs -> elementStateSize s = E ->
  valid_slot (currentSlotAddress s) -> slot_of so s c = at_count (currentSlotAddress s) c.
Proof. intros. unfold slot_of, WlByteFacts.at_count. by rewrite (next_run start rs E geo). Qed.

Lemma at_count_even_odd cur c : 0 <= c -> at_count cur (c + 1) <> at_count cur c \/ cur = nxt cur.
Proof.
  intros Hc. unfold WlByteFacts.at_count.
  destruct (Z.eqb_spec (c mod 2) 0), (Z.eqb_spec ((c + 1) mod 2) 0); cbn [negb];
    destruct (Z.eq_dec cur (nxt cur)); auto; left; try congruence; exfalso.
  - rewrite <-Z.add_mod_idemp_l in * by lia. rewrite e in *. discriminate.
  - assert (c mod 2 = 1) by (pose proof (Z.mod_pos_bound c 2); lia).
    rewrite <-Z.add_mod_idemp_l in * by lia. rewrite H in *. by cbn in n0.
Qed.

Lemma length_entry_bytes a : Zlen (entry_bytes a) = 8.
Proof.
  unfold WlByteRun.entry_bytes, StateEntryAddress_bytes, StateEntryAddress_body.
  by rewrite !Zlen_app, !Zlen_le_split.
Qed.

Lemma updateStateEntryAddress_run s : elementStateSize s = E ->
  updateStateEntryAddress start so s
  = Some (16, updated (so + 7) (entry_bytes (currentSlotAddress s))
                (updated (so + 15) (entry_bytes (currentSlotAddress s)) s)).
Proof.
  intros HE. pose proof (start_small start rs E geo) as (?&?&?&?&?&?).
  unfold updateStateEntryAddress, mbnd, mget. cbn [address entrySize calculateCrc16]. rewrite HE.
  unfold sizeof_SectionPreamble, sizeof_StateEntryAddress. u32s.
  fold (entry_for E (currentSlotAddress s)). fold (entry_bytes (currentSlotAddress s)).
  pose proof (length_entry_bytes (currentSlotAddress s)).
  replace (so + 7 + 8) with (so + 15) by lia.
  rewrite update_run by lia. rewrite update_run by lia. unfold mret. by rewrite H5.
Qed.

Definition header_bytes (w : Z) (X : bytes) : bytes :=
  StateWlByteHeader_bytes {| headerCount := w; headerCrc := crc16 X |}.

Lemma length_header_bytes w X : Zlen (header_bytes w X) = 4.
Proof. unfold header_bytes, StateWlByteHeader_bytes. by rewrite Zlen_app, !Zlen_le_split. Qed.

(** The events of a save of [X] with number [w], when the current slot is [cur]. *)
Definition address_events (m : mem) (cur : Z) : list event :=
  let u1 := update_events m (so + 15) (entry_bytes cur) in
  u1 ++ update_events (replay m u1) (so + 7) (entry_bytes cur).
Definition header_events (m : mem) (cur w : Z) (X : bytes) : list event :=
  update_events m (at_count cur w) (header_bytes w X) ++ [Commit].
Definition save_events (m0 : mem) (ld : list event) (cur w : Z) (X : bytes) : list event :=
  let m1 := replay m0 ld in
  let ua := address_events m1 cur in
  ld ++ ua ++ header_events (replay m1 ua) cur w X.

(** Nothing is written when both slots hold the data already. *)
Definition nothing_to_save (m : mem) (cur w : Z) (X : bytes) : Prop :=
  dat E m (at_count cur w) = X /\ dat E m (at_count cur (w + 1)) = X /\
  mread m (so + 15) 8 = entry_bytes cur /\ mread m (so + 7) 8 = entry_bytes cur.

Definition saved (s0 : wl_byte) (cur w : Z) (v : bool) (X : bytes) (s : wl_byte) : Prop :=
  (nothing_to_save (memory s0) cur w X /\ device s = device s0 /\ ready s cur w v) \/
  (exists ld, data_events (memory s0) (at_count cur w) ld X /\
     device s = extend (device s0) (save_events (memory s0) ld cur w X) /\
     ready s (fst (resume cur w)) (snd (resume cur w)) true).

Lemma updated_ready a bs s cur w v : ready s cur w v -> ready (updated a bs s) cur w v.
Proof. intros H. by apply (ready_ext s). Qed.

Lemma initDone_ready s cur w v : ready s cur w v -> ready (set_initDone true s) cur w v.
Proof. intros []. by split. Qed.

Lemma updated_same a bs s : mread (memory s) a (Zlen bs) = bs -> device (updated a bs s) = device s.
Proof.
  intros Eq. unfold updated, update_events. cbn. rewrite decide_True by done. apply extend_nil.
Qed.

Lemma changed_true m a bs : changed m a bs = false -> mread m a (Zlen bs) = bs.
Proof. unfold changed. by case_bool_decide. Qed.

#[local] Opaque WlByteRun.entry_bytes.

Lemma dataChanged_initDone b s : dataChanged (set_initDone b s) = dataChanged s.
Proof. done. Qed.

Lemma updated_unchanged a bs s n : Zlen bs = n -> dataChanged (updated a bs s) = false ->
  dataChanged s = false /\ mread (memory s) a n = bs /\ device (updated a bs s) = device s.
Proof.
  intros <- [Hc Ha]%orb_false_iff. pose proof (changed_true _ _ _ Ha) as Hm.
  split_and!; [done|done|by apply updated_same].
Qed.

(** The section preamble is in place and the storage in service: only the copies of the
    address are written. *)
Lemma writeSectionPreamble_run s cur w v : ready s cur w v -> mread (memory s) so 7 = section_bytes rs ->
  wp (writeSectionPreamble start so) (fun _ s' => ready s' cur w v /\
    device s' = extend (device s) (address_events (memory s) cur) /\ crc s' = crc s /\
    (dataChanged s' = false -> dataChanged s = false /\
      mread (memory s) (so + 15) 8 = entry_bytes cur /\ mread (memory s) (so + 7) 8 = entry_bytes cur)) s.
Proof.
  intros Hr Hsec. pose proof (start_small start rs E geo) as (?&?&?&?&?&?).
  assert (Hl7 : Zlen (section_bytes rs) = 7).
  { apply length_section_bytes. }
  unfold writeSectionPreamble.
  step (enough_run start rs E geo) by (apply Hr). set (s1 := set_storageStateOk true _).
  assert (Hr1 : ready s1 cur w v) by (destruct Hr; by split).
  apply wp_bnd, wp_get. change (storageStateOk s1) with true. cbn [negb].
  rewrite (rd_res _ _ _ _ _ _ Hr1). fold (section_bytes rs).
  step update_run by lia. set (s2 := updated so (section_bytes rs) s1).
  assert (Hd2 : device s2 = device s1) by (apply updated_same; by rewrite Hl7).
  assert (Hc2 : dataChanged s2 = dataChanged s1).
  { unfold s2, updated. cbn [dataChanged set_dataChanged]. unfold changed. rewrite Hl7.
    change (memory s1) with (memory s). rewrite bool_decide_true by done. apply orb_false_r. }
  assert (Hr2 : ready s2 cur w v) by (by apply updated_ready).
  rewrite (rd_init _ _ _ _ _ _ Hr1). cbn [negb]. apply wp_bnd, wp_ret.
  step (updateStateEntryAddress_run s2) by (apply Hr2). rewrite (rd_cur _ _ _ _ _ _ Hr2).
  apply wp_bnd, wp_ret. apply wp_bnd, wp_mod, wp_ret.
  set (s3 := updated (so + 15) (entry_bytes cur) s2). set (s4 := updated (so + 7) (entry_bytes cur) s3).
  split_and!.
  - by apply initDone_ready, updated_ready, updated_ready.
  - unfold s4, updated. cbn [device set_initDone set_dataChanged set_device]. unfold s3 at 1, updated.
    cbn [device set_dataChanged set_device]. rewrite extend_app, Hd2. f_equal.
    unfold address_events, s3, updated. cbn [device set_dataChanged set_device d_mem extend].
    by rewrite Hd2.
  - done.
  - rewrite dataChanged_initDone. intros Hc.
    destruct (updated_unchanged _ _ _ 8 (length_entry_bytes cur) Hc) as (H3' & H4' & _).
    destruct (updated_unchanged _ _ _ 8 (length_entry_bytes cur) H3') as (H5' & H6' & H7').
    unfold s3 in H4'. rewrite H7', Hd2 in H4'. rewrite Hd2 in H6'. by rewrite Hc2 in H5'.
Qed.

(** The header is written, and the copies of the address once more when it was the first
    save of the slot: they are in place. *)
Lemma write_header_run s cur w X : let t := at_count cur w in
  ready s cur w (elementStateCrcCValid s) -> valid_slot cur -> crc s = crc16 X ->
  mread (memory s) (so + 15) 8 = entry_bytes cur -> mread (memory s) (so + 7) 8 = entry_bytes cur ->
  wp (updateStorage start t
        (StateWlByteHeader_bytes {| headerCount := writeCount s; headerCrc := crc s |});;;
      commit;;;
      mmod (set_crc 0xFFFF);;;
      mmod (set_elementStateCrcCValid true);;;
      (if writeCount s =? 1 then updateStateEntryAddress start so;;; mret tt else mret tt);;;
      count_write so;;;
      mret true)
    (fun b s' => b = true /\ device s' = extend (device s) (header_events (memory s) cur w X) /\
       ready s' (fst (resume cur w)) (snd (resume cur w)) true) s.
Proof.
  intros t Hr Hv Hcrc Hb Hm. pose proof (start_small start rs E geo) as (?&?&?&?&?&?).
  pose proof (valid_at_count start rs E geo cur w Hv) as (Ht1 & Ht2 & _). fold t in Ht1, Ht2.
  unfold first_slot, slot in *. rewrite Hcrc, (rd_w _ _ _ _ _ _ Hr). fold (header_bytes w X).
  step update_run by (rewrite ?length_header_bytes; lia). set (s1 := updated t (header_bytes w X) s).
  assert (Hr1 : ready s1 cur w (elementStateCrcCValid s)) by (by apply updated_ready).
  assert (Hout : forall a, a + 8 <= t -> mread (memory s1) a 8 = mread (memory s) a 8).
  { intros a Ha. apply mread_ext. intros x Hx. unfold s1, updated. cbn [device set_dataChanged set_device d_mem extend].
    apply update_out. lia. }
  unfold commit. apply wp_bnd. eapply wp_eq; [reflexivity|]. apply wp_bnd, wp_mod. apply wp_bnd, wp_mod.
  set (s2 := set_elementStateCrcCValid true _).
  assert (Hd2 : device s2 = extend (device s) (header_events (memory s) cur w X)).
  { unfold s2, s1, updated, header_events. cbn [device set_elementStateCrcCValid set_crc set_dev
      get_dev wl_byte_dev set_device set_dataChanged]. by rewrite extend_app. }
  assert (Hmem2 : memory s2 = memory s1) by done.
  assert (Hr2 : ready s2 cur w true).
  { apply (ready_ext (set_elementStateCrcCValid true s1)); [|reflexivity..].
    destruct Hr1. by split. }
  clearbody s2.
  assert (Hadr : wp (if w =? 1 then updateStateEntryAddress start so;;; mret tt else mret tt)
    (fun _ s' => device s' = device s2 /\ ready s' cur w true) s2).
  { destruct (w =? 1); [|by apply wp_ret].
    step (updateStateEntryAddress_run s2) by (apply Hr2). apply wp_ret.
    rewrite (rd_cur _ _ _ _ _ _ Hr2).
    assert (H15 : mread (memory s2) (so + 15) (Zlen (entry_bytes cur)) = entry_bytes cur)
      by (rewrite length_entry_bytes, Hmem2, Hout by lia; done).
    assert (H7 : mread (memory s2) (so + 7) (Zlen (entry_bytes cur)) = entry_bytes cur)
      by (rewrite length_entry_bytes, Hmem2, Hout by lia; done).
    split; [|by apply updated_ready, updated_ready].
    rewrite updated_same; [by apply updated_same|]. by rewrite (updated_same (so + 15)). }
  apply wp_bnd. eapply wp_mono; [exact Hadr|]. intros _ s3 [Hd3 Hr3]. cbn beta in *.
  step (count_write_run start rs E geo s3 cur w) by (apply Hr3 || done).
  apply wp_ret. split_and!; [done|cbn; congruence|]. destruct Hr3. split; cbn; congruence.
Qed.

Lemma data_events_low m0 t ld X a n : data_events m0 t ld X -> a + n <= t + 4 ->
  mread (replay m0 ld) a n = mread m0 a n.
Proof. intros Hde Ha. apply mread_ext. intros x Hx. apply (de_out _ _ _ _ Hde). lia. Qed.

Lemma address_read_backup m cur : mread (replay m (address_events m cur)) (so + 15) 8 = entry_bytes cur.
Proof.
  unfold address_events. cbv zeta. rewrite replay_app. set (m1 := replay m _).
  rewrite (mread_ext _ m1) by (intros; apply update_out; rewrite length_entry_bytes; lia).
  rewrite <-(length_entry_bytes cur) at 1. apply update_read.
Qed.

Lemma address_read_main m cur : mread (replay m (address_events m cur)) (so + 7) 8 = entry_bytes cur.
Proof.
  unfold address_events. cbv zeta. rewrite replay_app. rewrite <-(length_entry_bytes cur) at 2.
  apply update_read.
Qed.

Lemma address_out m cur x : x < so + 7 \/ so + 23 <= x -> replay m (address_events m cur) x = m x.
Proof.
  intros Hx. unfold address_events. cbv zeta.
  rewrite replay_app, !update_out by (rewrite length_entry_bytes; lia). done.
Qed.

Lemma address_events_none m cur : mread m (so + 15) 8 = entry_bytes cur ->
  mread m (so + 7) 8 = entry_bytes cur -> address_events m cur = [].
Proof.
  intros Hb Hm. unfold address_events, update_events. cbv zeta.
  rewrite decide_True by (by rewrite length_entry_bytes). cbn [app replay fold_left].
  by rewrite decide_True by (by rewrite length_entry_bytes).
Qed.

Lemma data_events_all m0 t ld X : Zlen X = E -> data_events m0 t ld X -> dat E (replay m0 ld) t = X.
Proof.
  intros HX [Hd _ _ _]. pose proof (start_small start rs E geo) as (?&?&?&?&?&?).
  rewrite Hd, drop_ge, app_nil_r; [done|]. rewrite dat_length by lia. unfold Zlen in HX. lia.
Qed.

Lemma finalize_run s0 cur w v s X : valid_slot cur -> in_order start rs (memory s0) ->
  Zlen X = E -> writing s0 (at_count cur w) cur w v s X ->
  wp (finalizeSaveState start so) (fun b s' => b = true /\ saved s0 cur w v X s') s.
Proof.
  intros Hv [_ Hsec] HX [(l & Hd & Hde & Hch) Hnew Hcrc Hoff Hdry Hr].
  pose proof (start_small start rs E geo) as (?&?&?&?&?&?).
  pose proof (valid_at_count start rs E geo cur w Hv) as (Ht1 & Ht2 & _).
  pose proof (valid_at_count start rs E geo cur (w + 1) Hv) as (Ha1 & Ha2 & _).
  unfold first_slot, slot in *. set (t := at_count cur w) in *.
  unfold finalizeSaveState. apply wp_bnd, wp_get. rewrite (rd_ok _ _ _ _ _ _ Hr). cbn [negb].
  apply wp_bnd, wp_mod. rewrite Hnew, HX. set (s1 := set_elementStateSize E s).
  assert (Hr1 : ready s1 cur w v) by (apply (ready_ext s); try done; symmetry; apply Hr).
  assert (Hm1 : memory s1 = replay (memory s0) l) by (change (device s1) with (device s); by rewrite Hd).
  apply wp_bnd. eapply wp_mono; [apply (writeSectionPreamble_run s1 cur w v Hr1)|].
  { rewrite Hm1, (data_events_low (memory s0) t l X) by (done || lia). done. }
  intros ? s2 (Hr2 & Hd2 & Hcrc2 & Hch2). cbn beta in *.
  change (crc s1) with (crc s) in Hcrc2. change (dataChanged s1) with (dataChanged s) in Hch2.
  rewrite Hm1 in Hd2, Hch2. change (device s1) with (device s) in Hd2. rewrite Hd, extend_app in Hd2.
  pose proof (rd_cur _ _ _ _ _ _ Hr2) as Hcur2.
  apply wp_bnd, wp_get. rewrite (rd_w _ _ _ _ _ _ Hr2).
  rewrite !slot_of_run by (first [apply Hr2 | by rewrite Hcur2]). rewrite !Hcur2. fold t.
  unfold sizeof_StateWlByteHeader. step (read_run start rs E geo) by lia. u32s.
  rewrite (rd_size _ _ _ _ _ _ Hr2).
  assert (Hm2 : memory s2 = replay (replay (memory s0) l) (address_events (replay (memory s0) l) cur))
    by (rewrite Hd2; cbn [extend d_mem]; by rewrite replay_app).
  set (L := at_count cur (w + 1)) in *.
  assert (Hdif : (if dataChanged s2 then mret true
      else isDataDifferent (t + 4) (L + 4) (Z.to_nat E)) s2
    = Some (dataChanged s2 || negb (bool_decide (dat E (memory s2) t = dat E (memory s2) L)), s2)).
  { destruct (dataChanged s2); [done|]. rewrite isDataDifferent_run by lia. by rewrite Z2Nat.id by lia. }
  apply wp_bnd. eapply wp_eq; [exact Hdif|].
  destruct (dataChanged s2 || _) eqn:Edif; cbn [negb].
  - pose proof (write_header_run s2 cur w X) as Hwr. cbv zeta in Hwr. fold t in Hwr.
    rewrite (rd_w _ _ _ _ _ _ Hr2) in Hwr.
    eapply wp_mono; [apply Hwr; [by rewrite (rd_valid _ _ _ _ _ _ Hr2)|done|congruence| | ]|].
    + rewrite Hm2. apply address_read_backup.
    + rewrite Hm2. apply address_read_main.
    + intros b s3 (-> & Hd3 & Hr3). split; [done|]. right. exists l. split; [done|]. split; [|done].
      rewrite Hd3, Hm2, Hd2, extend_app. f_equal. unfold save_events. by rewrite <-app_assoc.
  - apply orb_false_iff in Edif as [Edc Ebd]. destruct (Hch2 Edc) as (Hdc & Hb & Hm).
    rewrite (Hch Hdc) in *. cbn [replay fold_left] in Hb, Hm, Hm2.
    change (replay (memory s0) []) with (memory s0) in *. rewrite address_events_none in Hm2, Hd2 by done.
    apply negb_false_iff, bool_decide_eq_true in Ebd. change (replay ?m []) with m in Hm2.
    pose proof (data_events_all _ _ _ _ HX Hde) as Hall. change (replay ?m []) with m in Hall.
    apply wp_ret. split; [done|]. left. split; [|split; [|done]].
    + unfold nothing_to_save. fold t L. rewrite Hm2 in Ebd. split_and!; congruence.
    + rewrite Hd2. apply extend_nil.
Qed.

(** ** A whole save *)

Lemma save_run add es s cur w v : ready s cur w v -> valid_slot cur -> in_order start rs (memory s) ->
  Zlen (stream add es) = E ->
  wp (save start add es) (fun _ s' => saved s cur w v (stream add es) s') s.
Proof.
  intros Hr Hv Ho HX. pose proof (start_small start rs E geo) as (?&?&?&?&?&?).
  pose proof (valid_at_count start rs E geo cur w Hv) as Hvt.
  unfold save. cbv zeta. unfold sizeof_Preamble. rewrite (uN_small 32 (start + 8)) by lia.
  unfold WriteStateStorage. cbn [WriteStateStorage_loop].
  change StateStorage.prepareSaveState with (prepare so false). unfold prepare at 1.
  apply wp_bnd, wp_bnd, wp_get. rewrite (rd_ok _ _ _ _ _ _ Hr). cbn [negb].
  do 2 apply wp_bnd. apply wp_mod. apply wp_bnd, wp_mod. apply wp_bnd, wp_mod. apply wp_bnd, wp_mod.
  apply wp_bnd, wp_mod. apply wp_ret.
  rewrite (rd_w _ _ _ _ _ _ Hr), slot_of_run by (first [apply Hr | by rewrite (rd_cur _ _ _ _ _ _ Hr)]).
  rewrite (rd_cur _ _ _ _ _ _ Hr). set (t := at_count cur w) in *. unfold sizeof_StateWlByteHeader.
  destruct Hvt as (Ht1 & Ht2 & Ht3). unfold first_slot, slot in *. rewrite (uN_small 32 (t + 4)) by lia.
  eapply wp_mono; [apply (wp_WriteElementsState E (writing s t cur w v)
    (writing_law s t cur w v ltac:(by split_and!)) add es _ [])|].
  - split; try done.
    + exists []. split; [by rewrite extend_nil|]. split; [apply data_events_nil|done].
    + cbn. change (Zlen []) with 0. lia.
    + by apply (ready_ext s).
  - change (Zlen []) with 0. lia.
  - intros ? s1 Hw1. cbn beta in Hw1. cbn [app] in Hw1. apply wp_bnd.
    eapply wp_mono; [apply (finalize_run s cur w v s1 (stream add es) Hv Ho HX Hw1)|].
    intros b s2 [-> Hs]. by apply wp_ret.
Qed.
End Save.
