(* ===== verification/WlByteProps.v ===== *)
(** * The turning slots keep the state

    The invariant of the memory between saves, that every save keeps it, and which slot a
    restart finds: after a complete save and after a power loss. *)
From S2P Require Import Prelude Crc16 Device DeviceFacts Storage StorageFacts StateStorage StateStorageFacts WlByte WlByteFacts WlByteRun WlByteBoot WlByteSave.
Import WlByte.

#[local] Opaque crc16_bytes.

Section Kept.
Context {medium : Medium} {rewritable : Rewritable medium}.
Variables start rs E : Z.
Hypothesis geo : geometry medium start rs E.

Abbreviation so := (start + 8).
Abbreviation nxt := (nxt start rs E).
Abbreviation slot := (slot E).
Abbreviation repeats := (repeats rs E).
Abbreviation valid_slot := (valid_slot start rs E).
Abbreviation resume := (resume start rs E).
Abbreviation at_count := (at_count start rs E).
Abbreviation entry_bytes := (entry_bytes E).
Abbreviation dat := (dat E).
Abbreviation slot_ok := (slot_ok E).
Abbreviation latest := (latest start rs E).
Abbreviation found := (found start rs E).
Abbreviation resolved := (resolved start rs E).

(** The slot [a] holds [D] with the number [c]. *)
Definition holds (m : mem) (a c : Z) (D : bytes) : Prop :=
  dat m a = D /\ mread m a 4 = header_bytes c D.

(** The memory between saves: [p] is the stored address, [cur] and [w] the slot and the
    number of the next save, [D] the state saved last and [D'] the one before. *)
Record kept (m : mem) (p cur w : Z) (D D' : bytes) : Prop := {
  k_order : in_order start rs m;
  k_p : valid_slot p;
  k_backup : mread m (so + 15) 8 = entry_bytes p;
  k_main : mread m (so + 7) 8 = entry_bytes p;
  k_w : 1 <= w <= repeats;
  k_stored : p = cur \/ (w = 1 /\ cur = nxt p);
  k_fresh : w = 1 -> p = cur -> holds m cur 0 D /\
    (slot_ok m (nxt cur) = true -> headerCount (hdr m (nxt cur)) = 0);
  k_switched : w = 1 -> p <> cur -> holds m cur repeats D /\ headerCount (hdr m p) <= repeats;
  k_steady : 2 <= w -> holds m (at_count cur (w - 1)) (w - 1) D;
  k_before : 3 <= w -> holds m (at_count cur w) (w - 2) D' }.

Lemma k_cur m p cur w D D' : kept m p cur w D D' -> valid_slot cur.
Proof.
  intros H. destruct (k_stored _ _ _ _ _ _ H) as [<-|[_ ->]]; [apply H|].
  apply (valid_nxt start rs E geo), H.
Qed.

Lemma header_of_bytes c D : 0 <= c < 2 ^ 16 ->
  StateWlByteHeader_of (header_bytes c D) = {| headerCount := c; headerCrc := crc16 D |}.
Proof.
  intros Hc. unfold header_bytes, StateWlByteHeader_bytes. cbn [headerCount headerCrc].
  assert (Hsp : forall x y, length x = 2%nat -> length y = 2%nat ->
    StateWlByteHeader_of (x ++ y) = {| headerCount := le_combine x; headerCrc := le_combine y |})
    by (intros; list_of_length; reflexivity).
  rewrite Hsp by apply length_le_split. rewrite !combine_split; [done| |done]. apply crc16_range.
Qed.

Lemma holds_hdr m a c D : holds m a c D -> 0 <= c < 2 ^ 16 ->
  slot_ok m a = true /\ headerCount (hdr m a) = c.
Proof.
  intros [Hd Hh] Hc. unfold WlByteFacts.slot_ok, hdr. rewrite Hh, Hd, header_of_bytes by done.
  cbn. by rewrite Z.eqb_refl.
Qed.

(** The bytes outside a slot do not matter to it. *)
Definition agree (m m' : mem) (a n : Z) : Prop := forall x, a <= x < a + n -> m' x = m x.

Lemma agree_slot m m' a : agree m m' a slot ->
  dat m' a = dat m a /\ mread m' a 4 = mread m a 4 /\ hdr m' a = hdr m a /\ slot_ok m' a = slot_ok m a.
Proof.
  intros H. pose proof (slot_bounds start rs E geo). unfold WlByteFacts.slot in *.
  assert (Hd : dat m' a = dat m a) by (apply mread_ext; intros; apply H; lia).
  assert (Hh : mread m' a 4 = mread m a 4) by (apply mread_ext; intros; apply H; lia).
  assert (Hhd : hdr m' a = hdr m a) by (unfold hdr; by rewrite Hh).
  split_and!; try done. unfold WlByteFacts.slot_ok. by rewrite Hd, Hhd.
Qed.

Lemma entry_for_address p : address (entry_for E p) = p /\ entrySize (entry_for E p) = E.
Proof. done. Qed.

Lemma resolved_same m p : valid_slot p -> mread m (so + 15) 8 = entry_bytes p -> resolved m p = p.
Proof.
  intros Hp Hb. unfold WlByteRun.resolved, backup_entry. rewrite Hb, (entry_of_bytes start rs E geo) by done.
  pose proof (nxt_ne start rs E geo p Hp). destruct (entry_for_address p) as [-> _].
  rewrite (proj2 (Z.eqb_neq _ _)) by done. by rewrite andb_false_r.
Qed.

(** Parity: the two slots take turns. *)
Lemma at_count_pair cur c : {at_count cur c = cur /\ at_count cur (c + 1) = nxt cur} +
  {at_count cur c = nxt cur /\ at_count cur (c + 1) = cur}.
Proof.
  unfold WlByteFacts.at_count. pose proof (Z.mod_pos_bound c 2 ltac:(lia)).
  rewrite <-(Z.add_mod_idemp_l c 1) by lia.
  destruct (Z.eqb_spec (c mod 2) 0) as [E0|E0].
  - rewrite E0. left. done.
  - assert (c mod 2 = 1) as -> by lia. right. done.
Qed.

Lemma at_count_0 cur : at_count cur 0 = cur.
Proof. done. Qed.

Lemma at_count_repeats cur : at_count cur repeats = nxt cur.
Proof. unfold WlByteFacts.at_count. by rewrite (repeats_odd rs E). Qed.

Lemma at_count_ss cur c : at_count cur (c + 2) = at_count cur c.
Proof.
  unfold WlByteFacts.at_count. replace (c + 2) with (c + 1 * 2) by lia. by rewrite Z.mod_add by lia.
Qed.

(** The number of the latest save. *)
Definition last_count (p cur w : Z) : Z :=
  if w =? 1 then if p =? cur then 0 else repeats else w - 1.

(** ** Which slot a restart finds *)

(** After a switch, the stored slot is older than the next one. *)
Lemma latest_switched m p : slot_ok m (nxt p) = true -> headerCount (hdr m (nxt p)) = repeats ->
  (slot_ok m p = true -> headerCount (hdr m p) <= repeats) -> latest m p = Some repeats.
Proof.
  intros Hok Hc Hp. pose proof (repeats_bounds start rs E geo). unfold WlByteFacts.latest.
  rewrite Hok, Hc, andb_true_r. destruct (slot_ok m p); [|done].
  rewrite (proj2 (Z.eqb_neq _ _)) by lia. by rewrite (proj2 (Z.ltb_ge _ _)) by auto.
Qed.

Lemma latest_kept m p cur w D D' : kept m p cur w D D' -> w <> 3 ->
  latest m p = Some (last_count p cur w).
Proof.
  intros H H3. pose proof (repeats_bounds start rs E geo) as Hrep. pose proof (k_w _ _ _ _ _ _ H) as Hw.
  unfold last_count. destruct (Z.eqb_spec w 1) as [W1|W1].
  - destruct (Z.eqb_spec p cur) as [Ep|Ep].
    + destruct (k_fresh _ _ _ _ _ _ H W1 Ep) as [Hh Ho]. subst p.
      destruct (holds_hdr _ _ _ _ Hh) as [Hok Hc]; [lia|]. unfold WlByteFacts.latest.
      rewrite Hok. destruct (slot_ok m (nxt cur)); cbn [andb]; [|by rewrite Hc].
      rewrite (Ho eq_refl), Hc. done.
    + destruct (k_switched _ _ _ _ _ _ H W1 Ep) as [Hh Ho].
      destruct (k_stored _ _ _ _ _ _ H) as [|[_ ->]]; [done|].
      destruct (holds_hdr _ _ _ _ Hh) as [Hok Hc]; [lia|]. by apply latest_switched.
  - assert (p = cur) as -> by (destruct (k_stored _ _ _ _ _ _ H); [done|lia]).
    pose proof (k_steady _ _ _ _ _ _ H ltac:(lia)) as Hh.
    destruct (holds_hdr _ _ _ _ Hh) as [Hok Hc]; [lia|]. unfold WlByteFacts.latest.
    destruct (Z.eq_dec w 2) as [->|].
    { change (at_count cur (2 - 1)) with (nxt cur) in Hok, Hc. rewrite Hok, Hc, andb_true_r.
      by destruct (slot_ok m cur). }
    pose proof (k_before _ _ _ _ _ _ H ltac:(lia)) as Hb.
    destruct (holds_hdr _ _ _ _ Hb) as [Hok' Hc']; [lia|].
    destruct (at_count_pair cur (w - 1)) as [[E1 E2]|[E1 E2]]; replace (w - 1 + 1) with w in E2 by lia;
      rewrite E1 in Hok, Hc; rewrite E2 in Hok', Hc'; rewrite Hok, Hok', Hc, Hc'; cbn [andb].
    + rewrite (proj2 (Z.eqb_neq _ _)) by lia. by rewrite (proj2 (Z.ltb_lt _ _)) by lia.
    + rewrite (proj2 (Z.eqb_neq _ _)) by lia. by rewrite (proj2 (Z.ltb_ge _ _)) by lia.
Qed.

(** The same slot and number as before the restart. *)
Lemma resume_kept m p cur w D D' : kept m p cur w D D' ->
  resume p (last_count p cur w) = (cur, w).
Proof.
  intros H. pose proof (repeats_bounds start rs E geo) as Hrep. pose proof (k_w _ _ _ _ _ _ H) as Hw.
  unfold WlByteFacts.resume, last_count. destruct (Z.eqb_spec w 1) as [W1|W1].
  - destruct (Z.eqb_spec p cur) as [Ep|Ep].
    + rewrite uN_small by lia. rewrite (proj2 (Z.ltb_ge _ _)) by lia. by subst.
    + rewrite uN_small by lia. rewrite (proj2 (Z.ltb_lt _ _)) by lia.
      destruct (k_stored _ _ _ _ _ _ H) as [|[_ ->]]; [done|]. by subst.
  - rewrite uN_small by lia. rewrite (proj2 (Z.ltb_ge _ _)) by lia.
    assert (p = cur) as -> by (destruct (k_stored _ _ _ _ _ _ H); [done|lia]). f_equal. lia.
Qed.

(** The latest state is found. *)
Lemma found_kept m p cur w D D' : kept m p cur w D D' -> w <> 3 ->
  found m p = Some (at_count cur (w - 1)) /\ dat m (at_count cur (w - 1)) = D.
Proof.
  intros H H3. pose proof (k_w _ _ _ _ _ _ H) as Hw. split.
  - unfold WlByteFacts.found. rewrite (latest_kept m p cur w D D') by done. cbn [option_map].
    rewrite (resume_kept m p cur w D D' H). cbn [fst snd]. unfold load_slot.
    by rewrite (proj2 (Z.ltb_lt _ _)) by lia.
  - destruct (Z.eq_dec w 1) as [->|].
    + change (1 - 1) with 0. rewrite at_count_0. destruct (Z.eq_dec p cur) as [Ep|Ep].
      * by destruct (k_fresh _ _ _ _ _ _ H eq_refl Ep) as [[] _].
      * by destruct (k_switched _ _ _ _ _ _ H eq_refl Ep) as [[] _].
    + by destruct (k_steady _ _ _ _ _ _ H ltac:(lia)).
Qed.

(** After the save with number 2 the one before is found. *)
Lemma latest_stale m p cur D D' : kept m p cur 3 D D' -> latest m p = Some 1 /\ p = cur /\
  at_count cur 1 = nxt cur /\ dat m (nxt cur) = D'.
Proof.
  intros H. pose proof (repeats_bounds start rs E geo).
  assert (p = cur) as -> by (destruct (k_stored _ _ _ _ _ _ H); [done|lia]).
  pose proof (k_steady _ _ _ _ _ _ H ltac:(lia)) as Hs. pose proof (k_before _ _ _ _ _ _ H ltac:(lia)) as Hb.
  change (at_count cur (3 - 1)) with cur in Hs. change (at_count cur 3) with (nxt cur) in Hb.
  destruct (holds_hdr _ _ _ _ Hs) as [Hok Hc]; [lia|]. destruct (holds_hdr _ _ _ _ Hb) as [Hok' Hc']; [lia|].
  split_and!; [|done|done|apply Hb]. unfold WlByteFacts.latest. by rewrite Hok, Hok', Hc'.
Qed.

(** ** The memory after a save *)

(** Outside of the written slot and of the two copies of the address. *)
Definition elsewhere (t x : Z) : Prop := (x < t \/ t + slot <= x) /\ (x < so + 7 \/ so + 23 <= x).

Lemma valid_above a : valid_slot a -> so + 23 <= a.
Proof. intros (Ha & _). unfold first_slot in Ha. lia. Qed.

#[local] Opaque header_bytes WlByteRun.entry_bytes.

Lemma replay_commit m : replay m [Commit] = m.
Proof. done. Qed.

Lemma save_memory m0 ld cur w X : valid_slot cur -> Zlen X = E ->
  let t := at_count cur w in data_events E m0 t ld X ->
  let m' := replay m0 (save_events start rs E m0 ld cur w X) in
  holds m' t w X /\ mread m' (so + 15) 8 = entry_bytes cur /\ mread m' (so + 7) 8 = entry_bytes cur /\
  (forall x, elsewhere t x -> m' x = m0 x).
Proof.
  intros Hv HX t Hde m'. pose proof (slot_bounds start rs E geo) as Hsb. unfold WlByteFacts.slot in Hsb.
  pose proof (valid_above _ (valid_at_count start rs E geo cur w Hv)) as Ht. fold t in Ht.
  unfold m', save_events, header_events. cbv zeta. fold t. rewrite !replay_app.
  rewrite replay_commit. set (m1 := replay m0 ld). set (m2 := replay m1 (address_events start E m1 cur)).
  assert (Hlow : forall a, a + 8 <= t ->
    mread (replay m2 (update_events m2 t (header_bytes w X))) a 8 = mread m2 a 8).
  { intros a Ha. apply mread_ext. intros x Hx. apply update_out. lia. }
  split_and!.
  - split.
    + unfold WlByteFacts.dat. rewrite (mread_ext _ m2)
        by (intros; apply update_out; rewrite length_header_bytes; lia).
      rewrite (mread_ext _ m1) by (intros; apply address_out; lia).
      exact (data_events_all start rs E geo _ _ _ _ HX Hde).
    + pose proof (update_read m2 t (header_bytes w X)) as Hu. by rewrite length_header_bytes in Hu.
  - rewrite Hlow by lia. apply address_read_backup.
  - rewrite Hlow by lia. apply address_read_main.
  - intros x [Hx1 Hx2]. unfold WlByteFacts.slot in Hx1.
    rewrite update_out by (rewrite length_header_bytes; lia). unfold m2.
    rewrite address_out by lia. apply (de_out _ _ _ _ _ Hde). lia.
Qed.

(** The other slot of the pair is elsewhere. *)
Lemma pair_elsewhere cur w x : valid_slot cur -> at_count cur (w + 1) <= x < at_count cur (w + 1) + slot ->
  elsewhere (at_count cur w) x.
Proof.
  intros Hv Hx. pose proof (nxt_apart start rs E geo cur Hv). pose proof (slot_bounds start rs E geo).
  pose proof (valid_above _ (valid_at_count start rs E geo cur (w + 1) Hv)).
  unfold elsewhere. destruct (at_count_pair cur w) as [[E1 E2]|[E1 E2]]; rewrite E1; rewrite E2 in *; lia.
Qed.

Lemma holds_agree m m' a c D : agree m m' a slot -> holds m a c D -> holds m' a c D.
Proof. intros Ha [Hd Hh]. destruct (agree_slot m m' a Ha) as (Ed & Eh & _). split; congruence. Qed.

Lemma in_order_agree m m' t : so + 23 <= t -> (forall x, elsewhere t x -> m' x = m x) ->
  in_order start rs m -> in_order start rs m'.
Proof.
  intros Ht H [H1 H2]. split; [rewrite <-H1|rewrite <-H2]; apply mread_ext; intros; apply H;
    unfold elsewhere; pose proof (slot_bounds start rs E geo); lia.
Qed.

(** The state that the slot [at_count cur (w + 1)] holds before the save. *)
Lemma kept_latest_slot m p cur w D D' : kept m p cur w D D' ->
  holds m (at_count cur (w + 1)) (last_count p cur w) D /\ 0 <= last_count p cur w <= repeats.
Proof.
  intros H. pose proof (k_w _ _ _ _ _ _ H). pose proof (repeats_bounds start rs E geo).
  unfold last_count. destruct (Z.eqb_spec w 1) as [->|].
  - change (at_count cur (1 + 1)) with cur. destruct (Z.eqb_spec p cur).
    + destruct (k_fresh _ _ _ _ _ _ H); auto. split; [done|]. lia.
    + destruct (k_switched _ _ _ _ _ _ H); auto. split; [done|]. lia.
  - replace (w + 1) with (w - 1 + 2) by lia. rewrite at_count_ss.
    split; [apply (k_steady _ _ _ _ _ _ H); lia|]. lia.
Qed.

Lemma kept_saved m0 p cur w D D' X ld : kept m0 p cur w D D' -> Zlen X = E ->
  data_events E m0 (at_count cur w) ld X ->
  kept (replay m0 (save_events start rs E m0 ld cur w X)) cur
    (fst (resume cur w)) (snd (resume cur w)) X D.
Proof.
  intros Hk HX Hde. pose proof (k_cur _ _ _ _ _ _ Hk) as Hv. pose proof (k_w _ _ _ _ _ _ Hk) as Hw.
  pose proof (repeats_bounds start rs E geo) as Hrep.
  destruct (save_memory m0 ld cur w X Hv HX Hde) as (Ht & Hb & Hm & Hout).
  set (m' := replay m0 _) in *.
  assert (Ho : in_order start rs m').
  { apply (in_order_agree m0 m' (at_count cur w)); [|done|apply Hk].
    by apply valid_above, (valid_at_count start rs E geo). }
  destruct (kept_latest_slot _ _ _ _ _ _ Hk) as [HL Hc]. set (c := last_count p cur w) in *.
  assert (Hcw : 2 <= w -> c = w - 1) by (intros; unfold c, last_count; by rewrite (proj2 (Z.eqb_neq _ _)) by lia).
  apply (holds_agree m0 m') in HL; [|intros x Hx; apply Hout; by apply pair_elsewhere].
  unfold WlByteFacts.resume. rewrite uN_small by lia.
  destruct (Z.ltb_spec repeats (w + 1)) as [Hlast|Hlast]; cbn [fst snd].
  - assert (w = repeats) as -> by lia. rewrite at_count_repeats in Ht.
    pose proof (nxt_ne start rs E geo cur Hv). split; try first [assumption|lia].
    intros _ _. split; [done|].
    destruct (at_count_pair cur repeats) as [[E1 E2]|[E1 E2]]; rewrite at_count_repeats in E1;
      [congruence|]. rewrite E2 in HL. destruct (holds_hdr _ _ _ _ HL) as [_ ->]; lia.
  - split; try first [assumption|lia].
    + intros _. replace (w + 1 - 1) with w by lia. done.
    + intros H3. replace (w + 1 - 2) with (w - 1) by lia. rewrite <-Hcw by lia. done.
Qed.
End Kept.
