(* ===== verification/WlByteCrash.v ===== *)
(** * The turning slots: power loss during a save

    Every prefix of the events of a save, as a memory: which state a restart finds. *)
From S2P Require Import Prelude Crc16 Device DeviceFacts Storage StorageFacts StateStorage StateStorageFacts WlByte WlByteFacts WlByteRun WlByteBoot WlByteSave WlByteProps.
Import WlByte.

#[local] Opaque crc16_bytes.

Section Crash.
Context {medium : Medium} {rewritable : Rewritable medium}.
Variables start rs E : Z.
Hypothesis geo : geometry medium start rs E.

Abbreviation so := (start + 8).
Abbreviation nxt := (nxt start rs E).
Abbreviation slot := (slot E).
Abbreviation repeats := (repeats rs E).
Abbreviation valid_slot := (valid_slot start rs E).
Abbreviation at_count := (at_count start rs E).
Abbreviation entry_bytes := (entry_bytes E).
Abbreviation dat := (dat E).
Abbreviation slot_ok := (slot_ok E).
Abbreviation found := (found start rs E).
Abbreviation resolved := (resolved start rs E).
Abbreviation kept := (kept start rs E).
Abbreviation holds := (holds E).
Abbreviation elsewhere := (elsewhere start E).
Abbreviation last_count := (last_count rs E).

(** What a restart gets from a memory: the state [D] or the state [X]. *)
Definition recovers (m : mem) (D X : bytes) : Prop :=
  exists p L, in_order start rs m /\ valid_slot p /\ mread m (so + 7) 8 = entry_bytes p /\
    entrySize (backup_entry start m) = E /\ found m (resolved m p) = Some L /\
    (dat m L = D \/ dat m L = X).

(** The checksum in the header of [t] does not fit a half-written state. *)
Definition save_separates (m : mem) (t : Z) (X : bytes) : Prop :=
  forall k, crc16 (take k X ++ drop k (dat m t)) = headerCrc (hdr m t) ->
    take k X ++ drop k (dat m t) = dat m t \/ take k X ++ drop k (dat m t) = X.

(** One slot of the pair holds [D], the other one the bytes [X]. *)
Lemma pair_found m cur w c D X : holds m (at_count cur (w + 1)) c D -> 0 <= c < 2 ^ 16 ->
  dat m (at_count cur w) = X ->
  exists L, found m cur = Some L /\ (dat m L = D \/ dat m L = X).
Proof.
  intros HL Hc Ht. destruct (holds_hdr E m _ c D HL Hc) as [Hok _]. destruct HL as [Hd _].
  destruct (at_count_pair start rs E cur w) as [[E1 E2]|[E1 E2]]; rewrite E1 in Ht; rewrite E2 in Hok, Hd.
  - destruct (found_some start rs E m cur) as [L HL]; [by right|]. exists L. split; [done|].
    destruct (found_cases start rs E m cur L HL) as [->| ->]; auto.
  - destruct (found_some start rs E m cur) as [L HL]; [by left|]. exists L. split; [done|].
    destruct (found_cases start rs E m cur L HL) as [->| ->]; auto.
Qed.

Lemma switched_found m p c D : holds m (nxt p) repeats D -> headerCount (hdr m p) <= c -> c = repeats ->
  exists L, found m p = Some L /\ dat m L = D.
Proof.
  intros HL Hp ->. pose proof (repeats_bounds start rs E geo).
  destruct (holds_hdr E m _ repeats D HL) as [Hok Hc]; [lia|].
  exists (nxt p). split; [|apply HL]. unfold WlByteFacts.found.
  rewrite (latest_switched start rs E geo) by done. cbn [option_map].
  unfold resume. rewrite uN_small by lia. by rewrite (proj2 (Z.ltb_lt _ _)) by lia.
Qed.

(** The slot with the latest state is not touched. *)
Lemma latest_untouched m0 m p cur w D D' : kept m0 p cur w D D' ->
  (forall x, elsewhere (at_count cur w) x -> m x = m0 x) ->
  holds m (at_count cur (w + 1)) (last_count p cur w) D /\ 0 <= last_count p cur w <= repeats.
Proof.
  intros Hk Hm. destruct (kept_latest_slot start rs E geo _ _ _ _ _ _ Hk) as [HL Hc].
  split; [|done]. apply (holds_agree start rs E geo m0); [|done]. intros x Hx. apply Hm.
  apply (pair_elsewhere start rs E geo); [|done]. by apply (k_cur start rs E geo _ _ _ _ _ _ Hk).
Qed.

(** ** While the data is written *)

Definition outside_data (t : Z) (m0 m : mem) : Prop :=
  forall x, x < t + 4 \/ t + 4 + E <= x -> m x = m0 x.

Lemma data_back t m0 m : outside_data t m0 m -> dat m t = dat m0 t -> agree m0 m t slot.
Proof.
  intros Hout Hd x Hx. unfold WlByteFacts.slot in Hx.
  destruct (Z.lt_ge_cases x (t + 4)); [apply Hout; lia|].
  unfold WlByteFacts.dat in Hd. assert (Hn : (Z.to_nat (x - t - 4) < Z.to_nat E)%nat) by lia.
  pose proof (mread_lookup m (t + 4) E _ Hn) as L1. pose proof (mread_lookup m0 (t + 4) E _ Hn) as L2.
  rewrite Hd in L1. rewrite L1 in L2. injection L2 as L2.
  by replace (t + 4 + Z.of_nat (Z.to_nat (x - t - 4))) with x in L2 by lia.
Qed.

Lemma pair_agree m0 m cur w : valid_slot cur -> agree m0 m (at_count cur w) slot ->
  agree m0 m (at_count cur (w + 1)) slot -> agree m0 m cur slot /\ agree m0 m (nxt cur) slot.
Proof.
  intros Hv H1 H2. destruct (at_count_pair start rs E cur w) as [[E1 E2]|[E1 E2]];
    rewrite E1 in H1; rewrite E2 in H2; done.
Qed.

(** The data was not changed yet. *)
Lemma found_unchanged m0 m cur w D D' : kept m0 cur cur w D D' -> w <> 3 ->
  agree m0 m cur slot -> agree m0 m (nxt cur) slot ->
  exists L, found m cur = Some L /\ dat m L = D.
Proof.
  intros Hk H3 H1 H2. pose proof (k_cur start rs E geo _ _ _ _ _ _ Hk) as Hv.
  destruct (found_kept start rs E geo _ _ _ _ _ _ Hk H3) as [Hf Hd].
  exists (at_count cur (w - 1)). split.
  - rewrite <-Hf. by apply (found_same start rs E geo).
  - rewrite <-Hd. apply (agree_slot start rs E geo).
    by destruct (at_count_cases start rs E cur (w - 1)) as [->| ->].
Qed.

(** The data was changed and does not fit its checksum. *)
Lemma found_other m cur w D : valid_slot cur -> 1 <= w <= repeats ->
  holds m (at_count cur (w + 1)) (last_count cur cur w) D -> slot_ok m (at_count cur w) = false ->
  exists L, found m cur = Some L /\ dat m L = D.
Proof.
  intros Hv Hw HL Hbad. pose proof (repeats_bounds start rs E geo) as Hrep.
  pose proof (nxt_ne start rs E geo cur Hv) as Hne.
  assert (Hc : 0 <= last_count cur cur w < repeats).
  { unfold WlByteProps.last_count. rewrite Z.eqb_refl. case_if; bools; lia. }
  destruct (holds_hdr E m _ _ D HL ltac:(lia)) as [HokL HcL].
  exists (at_count cur (w + 1)). split; [|apply HL].
  apply (found_only start rs E geo m cur _ (last_count cur cur w)); try done; try lia.
  - left. split; [|lia]. unfold WlByteProps.last_count. rewrite Z.eqb_refl.
    destruct (Z.eqb_spec w 1) as [->|]; [done|].
    replace (w + 1) with (w - 1 + 2) by lia. by rewrite at_count_ss.
  - intros O HO HOL. assert (O = at_count cur w) as ->; [|done].
    destruct (at_count_pair start rs E cur w) as [[E1 E2]|[E1 E2]]; rewrite E1; rewrite E2 in HOL;
      destruct HO as [->| ->]; congruence.
  - apply at_count_cases.
Qed.

Lemma crash_data m0 m p cur w D D' X k : kept m0 p cur w D D' -> w <> 3 -> Zlen X = E ->
  let t := at_count cur w in outside_data t m0 m ->
  dat m t = take k X ++ drop k (dat m0 t) -> save_separates m0 t X -> recovers m D X.
Proof.
  intros Hk H3 HX t Hout Hdat Hsep.
  pose proof (k_cur start rs E geo _ _ _ _ _ _ Hk) as Hv. pose proof (k_w _ _ _ _ _ _ _ _ _ Hk) as Hw.
  pose proof (k_p _ _ _ _ _ _ _ _ _ Hk) as Hp.
  pose proof (repeats_bounds start rs E geo) as Hrep. pose proof (slot_bounds start rs E geo) as Hsb.
  pose proof (valid_above start rs E _ (valid_at_count start rs E geo cur w Hv)) as Hta. fold t in Hta.
  unfold WlByteFacts.slot in Hsb.
  assert (Hel : forall x, elsewhere t x -> m x = m0 x).
  { intros x [Hx _]. unfold WlByteFacts.slot in Hx. apply Hout. lia. }
  assert (Hlow : forall a, a + 8 <= t + 4 -> mread m a 8 = mread m0 a 8)
    by (intros; apply mread_ext; intros; apply Hout; lia).
  assert (Hb : mread m (so + 15) 8 = entry_bytes p) by (rewrite Hlow by lia; apply Hk).
  assert (Hm : mread m (so + 7) 8 = entry_bytes p) by (rewrite Hlow by lia; apply Hk).
  enough (Hf : exists L, found m p = Some L /\ (dat m L = D \/ dat m L = X)).
  { destruct Hf as (L & HfL & HdL). exists p, L. rewrite (resolved_same start rs E geo) by done.
    split_and!; try done.
    - apply (in_order_agree start rs E geo m0 m t); [done|done|apply Hk].
    - unfold backup_entry. by rewrite Hb, (entry_of_bytes start rs E geo). }
  destruct (latest_untouched m0 m p cur w D D' Hk Hel) as [HL Hc].
  assert (Hh : forall a, a = t \/ a + 4 <= t + 4 \/ t + 4 + E <= a -> hdr m a = hdr m0 a)
    by (intros; unfold hdr; f_equal; apply mread_ext; intros; apply Hout; lia).
  destruct (Z.eq_dec p cur) as [->|Hpc].
  - destruct (slot_ok m t) eqn:Hok.
    + unfold WlByteFacts.slot_ok in Hok. apply Z.eqb_eq in Hok. rewrite Hh, Hdat in Hok by auto.
      destruct (Hsep k Hok) as [Hs|Hs].
      * destruct (pair_agree m0 m cur w Hv) as [H1 H2].
        { apply data_back; [done|]. fold t. congruence. }
        { intros x Hx. apply Hel. by apply (pair_elsewhere start rs E geo). }
        destruct (found_unchanged m0 m cur w D D' Hk H3 H1 H2) as (L & HfL & HdL). eauto.
      * apply (pair_found m cur w _ D X HL ltac:(lia)). fold t. congruence.
    + destruct (found_other m cur w D Hv Hw HL Hok) as (L & HfL & HdL). eauto.
  - destruct (k_stored _ _ _ _ _ _ _ _ _ Hk) as [|[-> ->]]; [done|].
    destruct (k_switched _ _ _ _ _ _ _ _ _ Hk eq_refl Hpc) as [_ Hph].
    unfold WlByteProps.last_count in HL. rewrite Z.eqb_refl, (proj2 (Z.eqb_neq p (nxt p))) in HL by done.
    destruct (switched_found m p repeats D HL) as (L & HfL & HdL); [|done|eauto].
    rewrite Hh; [done|].
    pose proof (slots_apart start rs E geo p t Hp (valid_at_count start rs E geo _ 1 Hv)) as Hap.
    unfold WlByteFacts.slot in Hap. lia.
Qed.

(** ** Once the data is written *)

(** All of the data is in the slot, what lies elsewhere is as before. *)
Record data_written (m0 m : mem) (p cur w : Z) (D X : bytes) : Prop := {
  dw_order : in_order start rs m;
  dw_latest : holds m (at_count cur (w + 1)) (last_count p cur w) D;
  dw_dat : dat m (at_count cur w) = X }.

Lemma data_written_intro m0 m p cur w D D' X : kept m0 p cur w D D' ->
  (forall x, elsewhere (at_count cur w) x -> m x = m0 x) -> dat m (at_count cur w) = X ->
  data_written m0 m p cur w D X.
Proof.
  intros Hk Hel Hd. destruct (latest_untouched m0 m p cur w D D' Hk Hel) as [HL _].
  pose proof (k_cur start rs E geo _ _ _ _ _ _ Hk) as Hv.
  split; [|done|done]. apply (in_order_agree start rs E geo m0 m (at_count cur w)); [|done|apply Hk].
  by apply (valid_above start rs E), (valid_at_count start rs E geo).
Qed.

(** With the address of the current slot in place, either state is found. *)
Lemma recovers_current m0 m p cur w D D' X p' : kept m0 p cur w D D' ->
  data_written m0 m p cur w D X -> valid_slot p' -> mread m (so + 7) 8 = entry_bytes p' ->
  entrySize (backup_entry start m) = E -> resolved m p' = cur -> recovers m D X.
Proof.
  intros Hk [Ho HL Hd] Hp' Hm Hs Hr. destruct (kept_latest_slot start rs E geo _ _ _ _ _ _ Hk) as [_ Hc].
  pose proof (repeats_bounds start rs E geo).
  destruct (pair_found m cur w _ D X HL ltac:(lia) Hd) as (L & HfL & HdL).
  exists p', L. by rewrite Hr.
Qed.

(** With the address of the slot before the switch in place, the old state is found. *)
Lemma recovers_switched m0 m p cur w D D' X : kept m0 p cur w D D' -> p <> cur ->
  data_written m0 m p cur w D X -> mread m (so + 7) 8 = entry_bytes p ->
  entrySize (backup_entry start m) = E -> resolved m p = p ->
  mread m p 4 = mread m0 p 4 -> recovers m D X.
Proof.
  intros Hk Hpc [Ho HL Hd] Hm Hs Hr Hhdr. destruct (k_stored _ _ _ _ _ _ _ _ _ Hk) as [|[-> ->]]; [done|].
  destruct (k_switched _ _ _ _ _ _ _ _ _ Hk eq_refl Hpc) as [_ Hph].
  unfold WlByteProps.last_count in HL. rewrite Z.eqb_refl, (proj2 (Z.eqb_neq p (nxt p))) in HL by done.
  destruct (switched_found m p repeats D HL) as (L & HfL & HdL); [unfold hdr; by rewrite Hhdr|done|].
  exists p, L. rewrite Hr. split_and!; auto. apply Hk.
Qed.

(** With the first copy unchanged. *)
Lemma recovers_old m0 m p cur w D D' X : kept m0 p cur w D D' -> data_written m0 m p cur w D X ->
  (p <> cur -> mread m p 4 = mread m0 p 4) -> (p = cur -> mread m (so + 15) 8 = entry_bytes p) ->
  mread m (so + 7) 8 = entry_bytes p -> entrySize (backup_entry start m) = E -> recovers m D X.
Proof.
  intros Hk Hdw Hph Hb Hmp Hs. pose proof (k_p _ _ _ _ _ _ _ _ _ Hk) as Hp.
  destruct (Z.eq_dec p cur) as [Epc|Hpc].
  - subst p. apply (recovers_current m0 m cur cur w D D' X cur Hk Hdw); try done.
    apply (resolved_same start rs E geo); auto.
  - assert (Hr : resolved m p = p \/ resolved m p = nxt p)
      by (unfold WlByteRun.resolved; case_if; auto).
    destruct Hr as [Hr|Hr]; [by apply (recovers_switched m0 m p cur w D D' X); auto|].
    apply (recovers_current m0 m p cur w D D' X p Hk Hdw); try done.
    destruct (k_stored _ _ _ _ _ _ _ _ _ Hk) as [|[_ ->]]; done.
Qed.

(** The half-written second copy names the same size. *)
Lemma torn_entry_size k p cur : valid_slot p -> valid_slot cur ->
  entrySize (StateEntryAddress_of (torn k (entry_bytes cur) (entry_bytes p))) = E.
Proof.
  intros Hp Hc. pose proof (start_small start rs E geo) as (?&?&?&?&?&?).
  unfold WlByteRun.entry_bytes, StateEntryAddress_bytes, StateEntryAddress_body.
  rewrite <-!app_assoc, !torn_app, torn_same by (by rewrite !length_le_split).
  rewrite entry_fields by (rewrite ?torn_length; rewrite ?length_le_split; done).
  cbn [entrySize entry_for]. rewrite combine_split; [done|cbn; lia].
Qed.

(** The copies of the address: the second one half-written, or the first one complete. *)
Lemma crash_address m0 m1 m p cur w D D' X : kept m0 p cur w D D' ->
  let t := at_count cur w in
  outside_data t m0 m1 -> dat m1 t = X -> crash m1 (address_events start E m1 cur) m ->
  mread m (so + 7) 8 = entry_bytes p \/ mread m (so + 7) 8 = entry_bytes cur -> recovers m D X.
Proof.
  intros Hk t Hout Hd Hc Hmain.
  pose proof (k_cur start rs E geo _ _ _ _ _ _ Hk) as Hv. pose proof (k_p _ _ _ _ _ _ _ _ _ Hk) as Hp.
  pose proof (slot_bounds start rs E geo) as Hsb. unfold WlByteFacts.slot in Hsb.
  pose proof (valid_above start rs E _ (valid_at_count start rs E geo cur w Hv)) as Hta. fold t in Hta.
  pose proof (valid_above start rs E _ Hp) as Hpa.
  pose proof (length_entry_bytes E cur) as Hl8.
  assert (Hlow : forall a, a + 8 <= t + 4 -> mread m1 a 8 = mread m0 a 8)
    by (intros; apply mread_ext; intros; apply Hout; lia).
  assert (Hb1 : mread m1 (so + 15) 8 = entry_bytes p) by (rewrite Hlow by lia; apply Hk).
  assert (Hm1 : mread m1 (so + 7) 8 = entry_bytes p) by (rewrite Hlow by lia; apply Hk).
  assert (Hhigh : forall x, so + 23 <= x \/ x < so + 7 -> m x = m1 x).
  { intros x Hx. unfold address_events in Hc. cbv zeta in Hc.
    apply crash_app in Hc as [Hc|Hc]; apply crash_update in Hc as [_ Ho];
      rewrite Ho by lia; [done|]. by rewrite update_out by lia. }
  assert (Hdw : data_written m0 m p cur w D X).
  { apply (data_written_intro m0 m p cur w D D' X Hk).
    - intros x [H1 H2]. unfold WlByteFacts.slot in H1. rewrite Hhigh by lia. apply Hout. fold t in H1. lia.
    - fold t. rewrite <-Hd. apply mread_ext. intros x Hx. apply Hhigh. lia. }
  assert (Hph : p <> cur -> mread m p 4 = mread m0 p 4).
  { intros _. rewrite (mread_ext m m1) by (intros; apply Hhigh; lia). apply mread_ext. intros x Hx.
    apply Hout. pose proof (slots_apart start rs E geo p t Hp (valid_at_count start rs E geo _ w Hv)) as Hap.
    unfold WlByteFacts.slot in Hap. lia. }
  assert (Hsame : p = cur -> mread m (so + 15) 8 = entry_bytes p).
  { intros ->. rewrite (address_events_none start E m1 cur Hb1 Hm1) in Hc.
    by rewrite (crash_nil _ _ Hc). }
  unfold address_events in Hc. cbv zeta in Hc. apply crash_app in Hc as [Hc|Hc];
    apply crash_update in Hc as [[k Hk'] Ho]; rewrite Hl8 in Hk', Ho.
  - apply (recovers_old m0 m p cur w D D' X Hk Hdw); auto;
      [by rewrite (mread_ext m m1) by (intros; apply Ho; lia)|].
    unfold backup_entry. rewrite Hk', Hb1. by apply torn_entry_size.
  - assert (Hb : mread m (so + 15) 8 = entry_bytes cur).
    { rewrite (mread_ext m (replay m1 (update_events m1 (so + 15) (entry_bytes cur))))
        by (intros; apply Ho; lia). pose proof (update_read m1 (so + 15) (entry_bytes cur)) as Hu.
      by rewrite Hl8 in Hu. }
    assert (Hs : entrySize (backup_entry start m) = E)
      by (unfold backup_entry; by rewrite Hb, (entry_of_bytes start rs E geo)).
    destruct Hmain as [Hmp|Hmc]; [by apply (recovers_old m0 m p cur w D D' X Hk Hdw)|].
    apply (recovers_current m0 m p cur w D D' X cur Hk Hdw); try done.
    by apply (resolved_same start rs E geo).
Qed.

(** A power loss anywhere in a save, the eight bytes of the first copy of the address apart. *)
Lemma crash_save m0 m ld p cur w D D' X : kept m0 p cur w D D' -> w <> 3 -> Zlen X = E ->
  data_events E m0 (at_count cur w) ld X -> save_separates m0 (at_count cur w) X ->
  crash m0 (save_events start rs E m0 ld cur w X) m ->
  mread m (so + 7) 8 = entry_bytes p \/ mread m (so + 7) 8 = entry_bytes cur -> recovers m D X.
Proof.
  intros Hk H3 HX Hde Hsep Hc Hmain. set (t := at_count cur w) in *.
  pose proof (k_cur start rs E geo _ _ _ _ _ _ Hk) as Hv.
  pose proof (slot_bounds start rs E geo) as Hsb. unfold WlByteFacts.slot in Hsb.
  pose proof (valid_above start rs E _ (valid_at_count start rs E geo cur w Hv)) as Hta. fold t in Hta.
  unfold save_events in Hc. cbv zeta in Hc. set (m1 := replay m0 ld) in *.
  set (ua := address_events start E m1 cur) in *.
  assert (Hd1 : dat m1 t = X) by (apply (data_events_all start rs E geo); done).
  assert (Hout1 : outside_data t m0 m1) by (intros x Hx; by apply (de_out _ _ _ _ _ Hde)).
  apply crash_app in Hc as [Hc|Hc].
  { destruct (de_crash _ _ _ _ _ Hde m Hc) as (k & _ & Hkd).
    apply (crash_data m0 m p cur w D D' X k); try done.
    intros x Hx. by apply (de_crash_out _ _ _ _ _ Hde m Hc). }
  apply crash_app in Hc as [Hc|Hc].
  { by apply (crash_address m0 m1 m p cur w D D' X). }
  fold m1 in Hc. set (m2 := replay m1 ua) in *.
  assert (Ho : forall x, x < t \/ t + 4 <= x -> m x = m2 x).
  { unfold header_events in Hc. fold t in Hc. pose proof (length_header_bytes w X).
    apply crash_app in Hc as [Hc|Hc]; intros x Hx.
    - apply crash_update in Hc as [_ Ho]. apply Ho. lia.
    - rewrite (crash_commit _ _ Hc). apply update_out. lia. }
  assert (Hdw : data_written m0 m p cur w D X).
  { apply (data_written_intro m0 m p cur w D D' X Hk).
    - intros x [H1 H2]. fold t in H1. unfold WlByteFacts.slot in H1. rewrite Ho by lia.
      unfold m2, ua. rewrite address_out by lia. apply Hout1. lia.
    - fold t. rewrite <-Hd1. apply mread_ext. intros x Hx. rewrite Ho by lia.
      apply address_out. lia. }
  assert (Hb : mread m (so + 15) 8 = entry_bytes cur)
    by (rewrite (mread_ext m m2) by (intros; apply Ho; lia); apply address_read_backup).
  apply (recovers_current m0 m p cur w D D' X cur Hk Hdw Hv).
  - rewrite (mread_ext m m2) by (intros; apply Ho; lia). apply address_read_main.
  - unfold backup_entry. by rewrite Hb, (entry_of_bytes start rs E geo).
  - by apply (resolved_same start rs E geo).
Qed.

Lemma kept_recovers m p cur w D D' X : kept m p cur w D D' -> w <> 3 -> recovers m D X.
Proof.
  intros Hk H3. destruct (found_kept start rs E geo _ _ _ _ _ _ Hk H3) as [Hf Hd].
  exists p, (at_count cur (w - 1)). rewrite (resolved_same start rs E geo) by apply Hk.
  split_and!; [apply Hk|apply Hk|apply Hk| |done|by left].
  unfold backup_entry. by rewrite (k_backup _ _ _ _ _ _ _ _ _ Hk), (entry_of_bytes start rs E geo) by apply Hk.
Qed.
End Crash.
