(* ===== verification/WlByteThms.v ===== *)
(** * The turning slots: the theorems

    A save is restored by the next start; the state saved with number 2 is not; a power loss
    during a save leaves the old or the new state, except in the first copy of the address. *)
From S2P Require Import Prelude Crc16 Device DeviceFacts Storage StorageFacts StateStorage StateStorageFacts WlByte WlByteFacts WlByteRun WlByteBoot WlByteSave WlByteProps WlByteCrash.
Import WlByte.

#[local] Opaque crc16_bytes.

(** The object after a power cut: nothing but the memory is left. *)
Definition powered_off (m : mem) : wl_byte := new {| d_mem := m; d_log := [] |}.

Section Thms.
Context {medium : Medium} {rewritable : Rewritable medium}.
Variables start rs E : Z.
Hypothesis geo : geometry medium start rs E.

(** A storage in service that has saved [D], and [D'] before. *)
Definition in_service (s : wl_byte) (D D' : bytes) : Prop :=
  exists p v, ready rs E s (currentSlotAddress s) (writeCount s) v /\
    kept start rs E (d_mem (device s)) p (currentSlotAddress s) (writeCount s) D D'.

Lemma save_in_service add es s D D' : in_service s D D' -> Zlen (stream add es) = E ->
  wp (save start add es) (fun _ s' => exists D'', in_service s' (stream add es) D'' /\
    (stream add es <> D -> D'' = D /\
      (currentSlotAddress s', writeCount s') = resume start rs E (currentSlotAddress s) (writeCount s))) s.
Proof.
  intros (p & v & Hr & Hk) HX. pose proof (k_cur start rs E geo _ _ _ _ _ _ Hk) as Hv.
  eapply wp_mono; [apply (save_run start rs E geo add es s _ _ v Hr Hv (k_order _ _ _ _ _ _ _ _ _ Hk) HX)|].
  intros _ s' [(Hn & Hd & Hr')|(ld & Hde & Hd & Hr')].
  - destruct Hn as (_ & HL & _). destruct (kept_latest_slot start rs E geo _ _ _ _ _ _ Hk) as [[HD _] _].
    assert (stream add es = D) as -> by congruence. exists D'. split; [|done]. exists p, v.
    rewrite Hd, (rd_cur _ _ _ _ _ _ Hr'), (rd_w _ _ _ _ _ _ Hr'). done.
  - exists D. split.
    + exists (currentSlotAddress s), true.
      rewrite Hd, (rd_cur _ _ _ _ _ _ Hr'), (rd_w _ _ _ _ _ _ Hr'). split; [done|].
      by apply (kept_saved start rs E geo _ p _ _ D D').
    + intros _. rewrite (rd_cur _ _ _ _ _ _ Hr'), (rd_w _ _ _ _ _ _ Hr'). split; [done|].
      by destruct (resume _ _ _ _ _).
Qed.

(** A start on the memory of a storage in service. *)
Lemma boot_in_service add avail es0 es s D' :
  in_service s (stream add es) D' -> writeCount s <> 3 ->
  Forall2 same_shape es0 es -> Forall reads_back es -> distinct_channels es ->
  wp (boot start avail add es0) (fun r s' => r = Some (restored add es) /\
    in_service s' (stream add es) D' /\ writeCount s' = writeCount s)
    (powered_off (d_mem (device s))).
Proof.
  intros (p & v & Hr & Hk) H3 Hsh Hrb Hdc. set (m := d_mem (device s)) in *.
  destruct (found_kept start rs E geo _ _ _ _ _ _ Hk H3) as [Hf Hd].
  assert (Hres : resolved start rs E m p = p) by (apply (resolved_same start rs E geo); apply Hk).
  pose proof (latest_kept start rs E geo _ _ _ _ _ _ Hk H3) as Hl.
  pose proof (resume_kept start rs E geo _ _ _ _ _ _ Hk) as Hrs.
  destruct (boot_run start rs E geo add es0 es {| d_mem := m; d_log := [] |} p
    (at_count start rs E (currentSlotAddress s) (writeCount s - 1)) avail) as (c & Hc & Hb);
    cbn [d_mem] in *; rewrite ?Hres in *; try done; try apply Hk.
  - unfold backup_entry. rewrite (k_backup _ _ _ _ _ _ _ _ _ Hk).
    by rewrite (entry_of_bytes start rs E geo) by apply Hk.
  - rewrite Hl in Hc. injection Hc as <-. rewrite Hrs in Hb. cbn [fst snd] in Hb.
    eapply wp_mono; [exact Hb|]. intros r s' (-> & Hd' & Hr'). split; [done|].
    pose proof (rd_cur _ _ _ _ _ _ Hr') as Ecur. pose proof (rd_w _ _ _ _ _ _ Hr') as Ew.
    split; [|done]. exists p, true. rewrite Hd', Ecur, Ew. done.
Qed.

(** What a start gives the elements. *)
Definition restores (avail : Z) (add : bool) (es : list element) (m : mem) : Prop :=
  forall es0, Forall2 same_shape es0 es ->
    option_map fst (boot start avail add es0 (powered_off m)) = Some (Some (restored add es)).

Lemma restores_found avail add es m p L : Forall reads_back es -> distinct_channels es ->
  in_order start rs m -> valid_slot start rs E p -> mread m (start + 8 + 7) 8 = entry_bytes E p ->
  entrySize (backup_entry start m) = E -> found start rs E m (resolved start rs E m p) = Some L ->
  dat E m L = stream add es -> restores avail add es m.
Proof.
  intros Hrb Hdc Ho Hp Hm Hs Hf Hd es0 Hsh.
  destruct (boot_run start rs E geo add es0 es {| d_mem := m; d_log := [] |} p L avail)
    as (c & _ & Hb); try done.
  apply wp_run in Hb as (r & s' & Eb & -> & _). unfold powered_off. by rewrite Eb.
Qed.

(** The saves of a running device, one after the other. *)
Fixpoint save_all (add : bool) (l : list (list element)) : M wl_byte unit :=
  match l with
  | [] => mret tt
  | es :: l => save start add es;;; save_all add l
  end.

Definition fits (add : bool) (es : list element) : Prop :=
  Zlen (stream add es) = E /\ Forall reads_back es /\ distinct_channels es.

Lemma last_cons {A} (x d : A) l : List.last (x :: l) d = List.last l x.
Proof.
  revert x d. induction l as [|y l IH]; intros x d; [done|].
  change (List.last (y :: l) d = List.last (y :: l) x). by rewrite !IH.
Qed.

Lemma save_all_in_service add l : forall s D D', in_service s D D' -> Forall (fits add) l ->
  wp (save_all add l) (fun _ s' => exists D'', in_service s' (List.last (map (stream add) l) D) D'') s.
Proof.
  induction l as [|es l IH]; intros s D D' Hs Hl; cbn [save_all map].
  { apply wp_ret. eauto. }
  apply List.Forall_cons_iff in Hl as [(HE & _) Hl]. apply wp_bnd.
  eapply wp_mono; [apply (save_in_service add es s D D' Hs HE)|].
  intros ? s' (D'' & Hs' & _). cbn beta in *. rewrite last_cons. by apply (IH s' _ D'').
Qed.

(** Every prefix of the writes of a save, the first copy of the address apart, leaves a
    memory that a start recovers. *)
Lemma save_crash add es s D D' : in_service s D D' -> Zlen (stream add es) = E ->
  writeCount s <> 3 ->
  save_separates E (d_mem (device s))
    (at_count start rs E (currentSlotAddress s) (writeCount s)) (stream add es) ->
  wp (save start add es) (fun _ s' => exists l, d_log (device s') = d_log (device s) ++ l /\
    forall m', crash (d_mem (device s)) l m' ->
      mread m' (start + 15) 8 = mread (d_mem (device s)) (start + 15) 8 \/
      mread m' (start + 15) 8 = mread (d_mem (device s')) (start + 15) 8 ->
      recovers start rs E m' D (stream add es)) s.
Proof.
  intros (p & v & Hr & Hk) HX H3 Hsep. pose proof (k_cur start rs E geo _ _ _ _ _ _ Hk) as Hv.
  assert (H15 : forall m, mread m (start + 15) 8 = mread m (start + 8 + 7) 8)
    by (intros; f_equal; lia).
  eapply wp_mono; [apply (save_run start rs E geo add es s _ _ v Hr Hv (k_order _ _ _ _ _ _ _ _ _ Hk) HX)|].
  intros _ s' [(Hn & Hd & Hr')|(ld & Hde & Hd & Hr')].
  - exists []. rewrite Hd, app_nil_r. split; [done|]. intros m' Hc _. rewrite (crash_nil _ _ Hc).
    by eapply (kept_recovers start rs E geo).
  - eexists. rewrite Hd. split; [reflexivity|]. intros m' Hc Hm. rewrite !H15 in Hm.
    apply (crash_save start rs E geo (d_mem (device s)) m' ld p _ _ D D' _ Hk H3 HX Hde Hsep Hc).
    destruct (save_memory start rs E geo _ ld _ _ _ Hv HX Hde) as (_ & _ & Hmain & _).
    cbn [extend d_mem] in Hm. rewrite Hmain in Hm.
    by rewrite (k_main _ _ _ _ _ _ _ _ _ Hk) in Hm.
Qed.
End Thms.

(** ** The second copy of the address *)

Section Backup.
Context {medium : Medium}.
Variables start rs E : Z.
Hypothesis geo : geometry medium start rs E.

Lemma geometry_0 : geometry medium start rs 0.
Proof. destruct geo. split; first [done|lia]. Qed.

(** With the first copy damaged, the second one is compared with an address computed with a
    state size of 0, and not used. *)
Lemma choose_entry_backup s main p : 0 < E -> valid_slot start rs E p ->
  reservedSize s = rs -> elementStateSize s = 0 ->
  choose_entry (start + 8) main (entry_for E p) false true s
  = Some (tt, set_currentSlotAddress (first_slot start) s).
Proof.
  intros HE Hp Hr Hz. pose proof (valid_first start rs 0 geometry_0) as Hv.
  pose proof (start_small start rs E geo) as (?&?&?&?&?&?).
  unfold choose_entry, mbnd, mmod, mget, mret. cbn [andb]. rewrite (first_run start rs E geo).
  rewrite (next_run start rs 0 geometry_0) by done. cbn [currentSlotAddress set_currentSlotAddress].
  rewrite (proj2 (Z.eqb_neq (first_slot start) 0)) by (unfold first_slot; lia). cbn [orb].
  change (address (entry_for E p)) with p.
  assert (Hne : WlByteFacts.nxt start rs 0 (first_slot start) <> p).
  { destruct Hp as (_ & _ & k & ->). unfold nxt, slot, first_slot.
    rewrite (proj2 (Z.ltb_ge _ _)) by lia. destruct (Z.le_gt_cases k 0); nia. }
  by rewrite (proj2 (Z.eqb_neq _ _) Hne).
Qed.

Lemma initFromStorage_backup s p : 0 < E -> valid_slot start rs E p ->
  reservedSize s = rs -> elementStateSize s = 0 ->
  entry_ok (main_entry start (d_mem (device s))) = false ->
  mread (d_mem (device s)) (start + 8 + 15) 8 = entry_bytes E p ->
  wp (initFromStorage (start + 8)) (fun _ s' => device s' = device s /\
    exists cur w v, ready rs 0 s' cur w v) s.
Proof.
  intros HE Hp Hr Hz Hmain Hb. pose proof (start_small start rs E geo) as (?&?&?&?&?&?).
  pose proof (valid_first start rs 0 geometry_0) as Hv. set (a := first_slot start) in *.
  unfold initFromStorage. apply wp_bnd, wp_mod. unfold sizeof_SectionPreamble, sizeof_StateEntryAddress.
  u32s. step (read_run start rs E geo) by lia. cbn [device set_initDone].
  cbn [default from_option id]. u32s. replace (start + 8 + 7 + 8) with (start + 8 + 15) by lia.
  step (read_run start rs E geo) by lia. cbn [device set_initDone]. rewrite Hb.
  cbn [default from_option id calculateCrc16]. rewrite (entry_of_bytes start rs E geo) by done.
  fold (main_entry start (d_mem (device s))). fold (entry_ok (main_entry start (d_mem (device s)))).
  fold (entry_ok (entry_for E p)). rewrite Hmain, entry_for_ok. cbn [negb andb].
  step choose_entry_backup by done. fold a. set (s1 := set_currentSlotAddress a _).
  apply wp_bnd, wp_get. change (currentSlotAddress s1) with a.
  step (read_slot_run start rs 0 geometry_0) by done. rewrite (next_run start rs 0 geometry_0) by done.
  step (read_slot_run start rs 0 geometry_0) by (done || by apply (valid_nxt start rs 0 geometry_0)).
  destruct (choose_slot_run start rs 0 s1 (d_mem (device s1)) a) as (s2 & Hd & Hcs & Hr2 & HE2 & Hi2 & Hc2 & _).
  apply wp_bnd. cbn [fst snd]. eapply wp_eq; [exact Hcs|]. apply wp_bnd, wp_mod.
  change (reservedSize s1) with (reservedSize s) in Hr2. change (elementStateSize s1) with (elementStateSize s) in HE2.
  change (initDone s1) with true in Hi2. change (currentSlotAddress s1) with a in Hc2.
  step (enough_run start rs 0 geometry_0) by (cbn; congruence).
  step (count_write_run start rs 0 geometry_0 (set_storageStateOk true
    (set_repeatBeforeSwitchToAnotherSlot (repeats rs 0) (set_storageStateOk false (set_crc 0 s2))))
    a (writeCount s2)) by (cbn; first [done|congruence]).
  apply wp_ret. split; [cbn; by rewrite Hd|]. do 3 eexists. split; cbn; first [congruence|done].
Qed.
End Backup.

Section Claims.
Context {medium : Medium} {rewritable : Rewritable medium}.
Variables start rs E : Z.
Hypothesis geo : geometry medium start rs E.

(** C27: the state saved last is the state of the next start.  A storage in service saves any
    states of the elements, one after the other; unless the last of them was the save with
    number 2, a start on the memory it leaves gives every element its part of the last
    state, and the storage is in service again. *)
Theorem saves_are_restored avail add l es s D D' :
  in_service start rs E s D D' -> Forall (fits E add) (l ++ [es]) ->
  exists s', save_all start add (l ++ [es]) s = Some (tt, s') /\
    (writeCount s' <> 3 -> forall es0, Forall2 same_shape es0 es -> exists s'' D'',
      boot start avail add es0 (powered_off (d_mem (device s'))) = Some (Some (restored add es), s'') /\
      in_service start rs E s'' (stream add es) D'').
Proof.
  intros Hs Hl. pose proof (save_all_in_service start rs E geo add (l ++ [es]) s D D' Hs Hl) as Hw.
  apply wp_run in Hw as ([] & s' & Hrun & D2 & Hs'). exists s'. split; [done|]. intros H3 es0 Hsh.
  rewrite map_app in Hs'. cbn [map] in Hs'. rewrite List.last_last in Hs'.
  apply Forall_app in Hl as [_ (Hfit & _)%List.Forall_cons_iff]. destruct Hfit as (_ & Hrb & Hdc).
  pose proof (boot_in_service start rs E geo add avail es0 es s' D2 Hs' H3 Hsh Hrb Hdc) as Hb.
  apply wp_run in Hb as (r & s'' & Hboot & -> & Hin & _). eauto.
Qed.

(** C29: the state saved with number 2 is lost.  When a new state is saved with number 2
    after another one, a start on the memory goes back to the state before:
    [initFromStorage] takes the number 1 in the next slot for the latest whatever the
    number in the current slot. *)
Theorem second_save_lost avail add es1 es2 s D' :
  in_service start rs E s (stream add es1) D' -> writeCount s = 2 ->
  fits E add es1 -> Zlen (stream add es2) = E -> stream add es2 <> stream add es1 ->
  exists s', save start add es2 s = Some (tt, s') /\
    restores start avail add es1 (d_mem (device s')).
Proof.
  intros Hs H2 (_ & Hrb & Hdc) HX Hne.
  pose proof (save_in_service start rs E geo add es2 s _ D' Hs HX) as Hw.
  apply wp_run in Hw as ([] & s' & Hrun & D2 & (p & v & Hr & Hk) & Hd). exists s'. split; [done|].
  destruct (Hd Hne) as [-> Hres]. pose proof (repeats_bounds start rs E geo) as Hrep.
  rewrite H2 in Hres. unfold resume in Hres. rewrite uN_small in Hres by lia.
  rewrite (proj2 (Z.ltb_ge _ _)) in Hres by lia. injection Hres as Hc Hw3. rewrite Hw3 in Hk.
  change (2 + 1) with 3 in Hk.
  destruct (latest_stale start rs E geo _ _ _ _ _ Hk) as (Hl & -> & Hat & Hdat).
  apply (restores_found start rs E geo avail add es1 _ (currentSlotAddress s')
    (WlByteFacts.nxt start rs E (currentSlotAddress s'))); try done; try apply Hk.
  - unfold backup_entry. by rewrite (k_backup _ _ _ _ _ _ _ _ _ Hk), (entry_of_bytes start rs E geo) by apply Hk.
  - rewrite (resolved_same start rs E geo) by apply Hk. unfold found. rewrite Hl. cbn [option_map].
    unfold resume. rewrite uN_small by lia. by rewrite (proj2 (Z.ltb_ge _ _)) by lia.
Qed.


(** C30: the second copy of the address is never used.  When the first copy is damaged, a
    start with the second one in order gives no element a state and leaves the memory as it
    is, whatever the slots hold: [initFromStorage] sets the address of the first slot before
    it asks whether the address is still 0, and compares the second copy with a next slot
    computed for a state size of 0.  A power loss while the first copy is written therefore
    loses the state. *)
Theorem backup_address_unused avail add es m p : 0 < E -> Zlen (stream add es) <> 0 ->
  Zlen (stream add es) < 2 ^ 32 -> in_order start rs m ->
  entry_ok (main_entry start m) = false -> valid_slot start rs E p ->
  mread m (start + 8 + 15) 8 = entry_bytes E p ->
  exists s', boot start avail add es (powered_off m) = Some (None, s') /\ d_mem (device s') = m.
Proof.
  intros HE Hz Hlim Ho Hmain Hp Hb. pose proof (start_small start rs E geo) as (?&?&?&?&?&?).
  unfold powered_off. set (d := {| d_mem := m; d_log := [] |}).
  enough (Hw : wp (boot start avail add es) (fun r s' => r = None /\ device s' = d) (new d)).
  { apply wp_run in Hw as (r & s' & Hrun & -> & Hd). exists s'. by rewrite Hd. }
  unfold boot. cbv zeta. unfold sizeof_Preamble. rewrite (uN_small 32 (start + 8)) by lia.
  apply wp_bnd, (wl_loadPreambles start rs E geo d); [done|].
  eapply wp_mono; [apply (initFromStorage_backup start rs E geo _ p); done|].
  intros ? s (Hd & cur & w & v & Hr). cbn beta in *. unfold begin_state. apply wp_bnd.
  pose proof (rd_cur _ _ _ _ _ _ Hr) as Hc. pose proof (rd_w _ _ _ _ _ _ Hr) as Hw.
  pose proof (rd_valid _ _ _ _ _ _ Hr) as Hv. rewrite <-Hc, <-Hw, <-Hv in Hr.
  eapply wp_mono; [exact (size_check_run start rs 0 add es s Hr Hlim)|].
  intros ? s' (-> & Hd' & _). cbn beta. rewrite (proj2 (Z.eqb_neq _ _)) by lia.
  apply wp_ret. split; [done|]. by rewrite Hd', Hd.
Qed.
End Claims.

(** ** An example: one element with three bytes of state on an EEPROM of 100 bytes *)

Module Example.

#[local] Instance eeprom : Medium := eeprom_medium 100.

Definition elements (x : Init.Byte.byte) : list element :=
  [{| channelNumber := 0; saves := [[x; Byte.x01]; [Byte.x07]]; loads := [2; 1] |}].

(** The device after its first start and the saves of [l]. *)
Definition after (l : list Init.Byte.byte) : wl_byte :=
  match (boot 0 100 false (elements Byte.x00);;; save_all 0 false (map elements l))
          (powered_off (fun _ => Byte.xff)) with
  | Some (_, s) => s
  | None => powered_off (fun _ => Byte.xff)
  end.

Lemma example_geo : geometry eeprom 0 92 3.
Proof. by split; vm_compute. Qed.

Lemma fits_elements x : fits 3 false (elements x).
Proof.
  split_and!; [done|by repeat constructor|]. repeat constructor. by apply not_elem_of_nil.
Qed.

Lemma shape_elements x y : Forall2 same_shape (elements x) (elements y).
Proof. by repeat constructor. Qed.

Ltac kept_by_computation :=
  exists 31, true; split; [by split; vm_compute|];
  split; try (vm_compute; done); try (vm_compute; split; congruence);
  try (intros H; exfalso; revert H; vm_compute; congruence);
  try (split_and!; [vm_compute; congruence|vm_compute; congruence|by exists 0]);
  try (left; reflexivity).

Lemma after_2 : in_service 0 92 3 (after [Byte.x11; Byte.x22])
  (stream false (elements Byte.x22)) (stream false (elements Byte.x11)).
Proof. kept_by_computation. Qed.

(** Twelve saves, and the first 14 bytes of the next one: the data, the second copy and a
    part of the first copy of the address. *)
Definition twelve : wl_byte := after
  [Byte.x11; Byte.x12; Byte.x13; Byte.x14; Byte.x15; Byte.x16;
   Byte.x17; Byte.x18; Byte.x19; Byte.x1a; Byte.x1b; Byte.x1c].
Definition next_save : list event :=
  match save 0 false (elements Byte.x33)
          (set_device {| d_mem := d_mem (device twelve); d_log := [] |} twelve) with
  | Some (_, s) => d_log (device s)
  | None => []
  end.
Definition torn_memory : mem := replay (d_mem (device twelve)) (take 14 next_save).
End Example.

#[local] Existing Instance Example.eeprom.
#[local] Instance eeprom_rw : Rewritable Example.eeprom := eeprom_rewritable 100.

Lemma saves_are_restored_witness :
  exists s', save_all 0 false (map Example.elements [Byte.x33; Byte.x44; Byte.x55])
               (Example.after [Byte.x11; Byte.x22]) = Some (tt, s') /\
    exists s'' D'', boot 0 100 false (Example.elements Byte.x00) (powered_off (d_mem (device s')))
        = Some (Some [(-1, [Some [Byte.x55; Byte.x01]; Some [Byte.x07]])], s'') /\
      in_service 0 92 3 s'' [Byte.x55; Byte.x01; Byte.x07] D''.
Proof.
  destruct (saves_are_restored 0 92 3 Example.example_geo 100 false
    (map Example.elements [Byte.x33; Byte.x44]) (Example.elements Byte.x55)
    _ _ _ Example.after_2) as (s' & Hrun & Hb).
  - repeat (apply List.Forall_cons; [apply Example.fits_elements|]). apply List.Forall_nil.
  - exists s'. split; [exact Hrun|]. apply Hb; [|apply Example.shape_elements].
    assert (Hw : option_map (fun r => writeCount (snd r))
      (save_all 0 false (map Example.elements [Byte.x33; Byte.x44] ++ [Example.elements Byte.x55])
        (Example.after [Byte.x11; Byte.x22])) = Some 5) by (vm_compute; reflexivity).
    rewrite Hrun in Hw. injection Hw as ->. discriminate.
Defined.

Lemma second_save_lost_witness :
  exists s', save 0 false (Example.elements Byte.x33) (Example.after [Byte.x11; Byte.x22])
      = Some (tt, s') /\
    option_map fst (boot 0 100 false (Example.elements Byte.x00) (powered_off (d_mem (device s'))))
      = Some (Some [(-1, [Some [Byte.x22; Byte.x01]; Some [Byte.x07]])]).
Proof.
  destruct (second_save_lost 0 92 3 Example.example_geo 100 false _ (Example.elements Byte.x33)
    _ _ Example.after_2) as (s' & Hrun & Hr).
  - vm_compute. reflexivity.
  - apply Example.fits_elements.
  - reflexivity.
  - vm_compute. discriminate.
  - exists s'. split; [exact Hrun|]. apply Hr, Example.shape_elements.
Defined.


Lemma backup_address_unused_witness : exists s',
  boot 0 100 false (Example.elements Byte.x00) (powered_off Example.torn_memory) = Some (None, s').
Proof.
  destruct (backup_address_unused 0 92 3 Example.example_geo 100 false (Example.elements Byte.x00)
    Example.torn_memory 38) as (s' & Hrun & _).
  - reflexivity.
  - discriminate.
  - reflexivity.
  - split; vm_compute; reflexivity.
  - vm_compute. reflexivity.
  - split_and!; [vm_compute; discriminate|vm_compute; discriminate|by exists 1].
  - vm_compute. reflexivity.
  - exists s'. exact Hrun.
Defined.
