(* ===== verification/SimpleThms.v ===== *)
(** * The state in one place: the theorems

    A save is restored by the next start; a power loss during a save costs the state but
    never mixes two of them. *)
From S2P Require Import Prelude Crc16 Device DeviceFacts Storage StorageFacts StateStorage StateStorageFacts SimpleState WlByteFacts WlByteRun WlByteSave.
Import Simple.

#[local] Opaque crc16_bytes.

(** The parameters of a storage: its start and the size of the state. *)
Record simple_geometry (medium : Medium) (start E : Z) : Prop := {
  sg_start : 0 <= start;
  sg_capacity : start + 15 + E <= capacity;
  sg_width : capacity <= 2 ^ 31;
  sg_state : 0 <= E <= 65535 }.

Definition powered_off (m : mem) : simple_state := new {| d_mem := m; d_log := [] |}.

Section Simple.
Context {medium : Medium}.
Variables start E : Z.
Hypothesis geo : simple_geometry medium start E.

Abbreviation so := (start + 8).
Abbreviation memory s := (d_mem (device s)).

#[local] Instance iS : StateStorageInterface simple_state := SimpleState start so.

Lemma simple_small : 0 <= start /\ start + 15 + E <= capacity /\ capacity <= 2 ^ 31 /\ 0 <= E <= 65535.
Proof. destruct geo. done. Qed.

Definition section (c1 c2 : Z) : SectionPreamble :=
  {| sp_type := STORAGE_SECTION_TYPE_ELEMENT_STATE; sp_size := E; crc1 := c1; crc2 := c2 |}.

(** The object after a start, whatever the memory held. *)
Definition at_rest (s : simple_state) : Prop :=
  (elementStateOffset s = 0 /\ elementStateSize s = 0) \/
  (elementStateOffset s = so + 7 /\ elementStateSize s = E).

(** ** A start *)

Lemma simple_read_run a n (s : simple_state) : 0 <= a -> 0 <= n -> a + n <= start + 15 + E ->
  readStorage a n s = Some (Some (mread (memory s) a n), s).
Proof.
  intros. pose proof simple_small as (?&?&?&?). apply (readStorage_run (H := simple_state_dev)); lia.
Qed.

Lemma simple_crc_loop_run n : forall a c s, 0 <= a -> a + Z.of_nat n <= start + 15 + E ->
  crc_loop a n c s = Some (crc16_bytes c (mread (memory s) a (Z.of_nat n)), s).
Proof.
  pose proof simple_small as (?&?&?&?).
  induction n as [|n IH]; intros a c s Ha Hb; [done|]. cbn [crc_loop]. unfold mbnd.
  rewrite simple_read_run by lia. cbn [default from_option id]. rewrite (uN_small 32) by lia.
  rewrite IH by lia. replace (Z.of_nat (S n)) with (1 + Z.of_nat n) by lia.
  by rewrite mread_app, crc16_app by lia.
Qed.

(** The stored checksums agree, and fit the data. *)
Definition valid (c1 c2 : Z) (D : bytes) : bool :=
  (c1 =? c2) && ((c1 =? 0) || (c1 =? crc16 D)).

Record started (d : dev) (c1 c2 : Z) (s : simple_state) : Prop := {
  st_device : device s = d;
  st_offset : elementStateOffset s = so + 7;
  st_size : elementStateSize s = E;
  st_valid : elementStateCrcCValid s = valid c1 c2 (mread (d_mem d) (so + 7) E) }.

Lemma init_run d c1 c2 :
  wp (initSectionPreamble (section c1 c2)) (fun _ => wp (initFromStorage so)
    (fun _ s' => started d c1 c2 s')) (new d).
Proof.
  pose proof simple_small as (?&?&?&?).
  unfold initSectionPreamble. apply wp_bnd, wp_mod. cbn [crc1 crc2 section].
  assert (Hgo : forall s, device s = d -> elementStateSize s = E -> (storedCrc s = if c1 =? c2 then c1 else 0) ->
    elementStateCrcCValid s = (c1 =? c2) -> wp (initFromStorage so) (fun _ s' => started d c1 c2 s') s).
  { intros s Hd HE Hsc Hv. unfold initFromStorage. apply wp_bnd, wp_mod. unfold sizeof_SectionPreamble. u32s.
    apply wp_bnd, wp_get. cbn [elementStateOffset elementStateSize set_elementStateOffset storedCrc].
    rewrite HE, Hsc. step simple_crc_loop_run by lia. cbn [device set_elementStateOffset]. rewrite Hd, Z2Nat.id by lia.
    set (D := mread (d_mem d) (so + 7) E).
    set (keep := _ && _). assert (Hk : elementStateCrcCValid s && negb keep = valid c1 c2 D).
    { unfold keep, valid. rewrite Hv, (Z.eqb_sym (crc16 D)). destruct (c1 =? c2); [|done].
      destruct (c1 =? crc16 D), (c1 =? 0); done. }
    destruct keep; cbn [negb] in Hk; apply wp_bnd; [apply wp_mod|apply wp_ret];
      apply wp_bnd, wp_mod, wp_ret; (split; [done|done|done|]);
      cbn -[valid]; fold D; by rewrite <-Hk, ?andb_false_r, ?andb_true_r. }
  destruct (c1 =? c2) eqn:Ec; [apply wp_bnd, wp_mod|]; apply wp_mod, Hgo; done.
Qed.

(** The size check: what is stored has the size of the elements' state. *)
Definition checking (s0 s : simple_state) (D : bytes) : Prop :=
  device s = device s0 /\ stateSectionNewSize s = Zlen D /\ dryRun s = true /\
  elementStateOffset s = so + 7 /\ elementStateSize s = E /\
  elementStateCrcCValid s = elementStateCrcCValid s0 /\ currentStateOffset s = so + 7 + Zlen D.

Lemma simple_checking_law s0 : writer_law E (checking s0).
Proof.
  intros s D buf (Hd & Hn & Hdry & Ho & HE & Hv & Hc) Hl. pose proof simple_small as (?&?&?&?).
  pose proof (Zlen_nonneg D). pose proof (Zlen_nonneg buf).
  change (StateStorage.writeState buf) with (writeState start so buf). unfold writeState.
  apply wp_bnd, wp_mod. apply wp_bnd, wp_get. rewrite Hn. u32s.
  assert (Hs : forall o, o = so + 7 + (Zlen D + Zlen buf) -> checking s0 (set_currentStateOffset o
    (set_stateSectionNewSize (Zlen D + Zlen buf) s)) (D ++ buf)).
  { intros o ->. unfold checking. cbn. rewrite Zlen_app. by split_and!. }
  destruct (Z.eqb_spec (Zlen buf) 0) as [E0|].
  { apply wp_ret. rewrite E0 in *. specialize (Hs (currentStateOffset s)). rewrite Hc in Hs at 1.
    specialize (Hs ltac:(lia)). by destruct s. }
  cbn [elementStateSize elementStateOffset currentStateOffset dryRun set_stateSectionNewSize].
  rewrite HE, Ho, Hc, Hdry. u32s. rewrite (proj2 (Z.ltb_ge (so + 7 + E) _)) by lia.
  rewrite andb_false_r. unfold advance. apply wp_bnd, wp_mod, wp_ret. rewrite <-Hn.
  cbn [currentStateOffset set_stateSectionNewSize]. rewrite Hc, Hn. u32s. apply Hs. lia.
Qed.

Lemma simple_size_check_run add es s : elementStateOffset s = so + 7 -> elementStateSize s = E ->
  Zlen (stream add es) = E ->
  wp (IsStateStorageValid add es) (fun b s' => b = true /\ device s' = device s /\
    elementStateOffset s' = so + 7 /\ elementStateSize s' = E /\
    elementStateCrcCValid s' = elementStateCrcCValid s) s.
Proof.
  intros Ho Hs HE. unfold IsStateStorageValid. apply wp_bnd.
  change StateStorage.prepareSizeCheck with (prepare true). unfold prepare. wp_steps.
  eapply wp_mono; [apply (wp_WriteElementsState E (checking s) (simple_checking_law s) add es _ [])|].
  - unfold checking. cbn. rewrite Ho, Hs. split_and!; try done. change (Zlen []) with 0. lia.
  - change (Zlen []) with 0. lia.
  - intros ? s' (Hd & Hn & Hdry & Ho' & HE' & Hv & Hc). cbn beta in *. cbn [app] in Hn.
    change StateStorage.finalizeSizeCheck with finalizeSizeCheck. unfold finalizeSizeCheck.
    apply wp_bnd, wp_mod. apply wp_bnd, wp_get.
    cbn [elementStateSize stateSectionNewSize set_dryRun]. rewrite HE', Hn, HE, Z.eqb_refl. cbn [negb].
    apply wp_ret. by split_and!.
Qed.

(** ** The load *)

Definition reading (s0 s : simple_state) (D : bytes) : Prop :=
  device s = device s0 /\ elementStateCrcCValid s = true /\ elementStateOffset s = so + 7 /\
  elementStateSize s = E /\ 0 <= currentStateOffset s /\
  currentStateOffset s + Zlen D <= so + 7 + E /\
  mread (memory s0) (currentStateOffset s) (Zlen D) = D.

Lemma simple_reading_law s0 : reader_law (reading s0).
Proof.
  intros s D n (Hd & Hv & Ho & HE & Hc0 & Hc & Hm) Hn. pose proof simple_small as (?&?&?&?).
  change (StateStorage.readState n) with (readState n). unfold readState.
  apply wp_bnd, wp_get. rewrite Hv, Ho, HE. cbn [negb]. u32s.
  rewrite (proj2 (Z.ltb_ge _ _)) by lia. step simple_read_run by lia. unfold advance.
  apply wp_bnd, wp_mod, wp_ret. rewrite Hd. split.
  - f_equal. rewrite <-Hm, mread_take by lia. done.
  - unfold reading. cbn [device elementStateCrcCValid elementStateOffset elementStateSize
      currentStateOffset set_currentStateOffset]. u32s. rewrite Zlen_drop, Z2Nat.id by lia.
    replace (Z.max 0 (Zlen D - n)) with (Zlen D - n) by lia. split_and!; try (done || lia).
    rewrite <-mread_drop by lia. by rewrite Hm.
Qed.

Definition refusing (d : dev) (s : simple_state) : Prop :=
  device s = d /\ elementStateCrcCValid s = false /\ elementStateOffset s = so + 7 /\
  elementStateSize s = E.

Lemma refusing_law d s n : refusing d s -> wp (StateStorage.readState n) (fun r s' => r = None /\ refusing d s') s.
Proof.
  intros (Hd & Hv & Ho & HE). change (StateStorage.readState n) with (readState n). unfold readState.
  apply wp_bnd, wp_get. rewrite Hv. by apply wp_ret.
Qed.

Lemma load_valid add es s c1 c2 d : started d c1 c2 s ->
  mread (d_mem d) (so + 7) E = stream add es -> valid c1 c2 (stream add es) = true ->
  Forall reads_back es -> distinct_channels es ->
  wp (LoadStateStorage add es) (fun r s' => r = Some (restored add es) /\ device s' = d /\ at_rest s') s.
Proof.
  intros [Hd Ho HE Hv] HD Hok Hrb Hdc. pose proof simple_small as (?&?&?&?). rewrite HD, Hok in Hv.
  assert (HX : Zlen (stream add es) = E) by (rewrite <-HD; apply Zlen_mread; lia).
  apply (wp_LoadStateStorage (reading s) (simple_reading_law s) add es s []); try done.
  - change StateStorage.prepareLoadState with prepareLoadState. unfold prepareLoadState. wp_steps.
    split; [done|]. rewrite app_nil_r. unfold reading.
    cbn [device elementStateCrcCValid elementStateOffset elementStateSize currentStateOffset
      set_currentStateOffset set_dryRun]. rewrite Ho, HX. split_and!; try (done || lia). by rewrite Hd.
  - intros s' (Hd' & _ & Ho' & HE' & _). apply wp_ret. split_and!; [done|congruence|by right].
Qed.

Lemma load_refused add es s c1 c2 d : started d c1 c2 s ->
  valid c1 c2 (mread (d_mem d) (so + 7) E) = false ->
  wp (LoadStateStorage add es) (fun r s' => (exists l, r = Some l /\ no_values l) /\
    device s' = d /\ at_rest s') s.
Proof.
  intros [Hd Ho HE Hv] Hok. rewrite Hok in Hv.
  apply (wp_LoadStateStorage_refused (refusing d) (refusing_law d) add es s
    (fun s' => device s' = d /\ at_rest s')).
  - change StateStorage.prepareLoadState with prepareLoadState. unfold prepareLoadState. by wp_steps.
  - intros s' (Hd' & _ & Ho' & HE'). apply wp_ret. split; [done|by right].
Qed.
End Simple.

(** ** The restart *)

Section Restart.
Context {medium : Medium}.
Variables start E : Z.
Hypothesis geo : simple_geometry medium start E.

Abbreviation so := (start + 8).

(** [Storage::init] and the size check, on a memory with the section in place. *)
Lemma wp_boot add es0 avail d c1 c2 (Q : option loaded -> simple_state -> Prop) :
  mread (d_mem d) start 8 = preamble_bytes ->
  SectionPreamble_of (mread (d_mem d) so 7) = section E c1 c2 -> Zlen (stream add es0) = E ->
  (forall s, started start E d c1 c2 s ->
    wp (LoadStateStorage (iS := SimpleState start so) add es0) Q s) ->
  wp (boot start avail add es0) Q (new d).
Proof.
  intros Hpre Hsec HX HQ. pose proof (simple_small start E geo) as (?&?&?&?).
  unfold boot. cbv zeta. unfold sizeof_Preamble. rewrite (uN_small 32 so) by lia.
  apply wp_bnd. apply (wp_loadPreambles (iS := SimpleState start so) start _ (section E c1 c2)); try first [lia|done].
  eapply wp_mono; [apply (init_run start E geo d c1 c2)|]. intros ? s1 H1'. cbn beta in *.
  eapply wp_mono; [exact H1'|]. intros ? s [Hd Ho HE Hv]. cbn beta. unfold begin_state. apply wp_bnd.
  eapply wp_mono; [apply (simple_size_check_run start E geo add es0 s); done|].
  intros ? s' (-> & Hd' & Ho' & HE' & Hv'). cbn beta iota. apply HQ. split; congruence.
Qed.

Lemma boot_valid add es0 es avail d c1 c2 :
  mread (d_mem d) start 8 = preamble_bytes ->
  SectionPreamble_of (mread (d_mem d) so 7) = section E c1 c2 -> Forall2 same_shape es0 es ->
  mread (d_mem d) (so + 7) E = stream add es -> valid c1 c2 (stream add es) = true ->
  Forall reads_back es -> distinct_channels es ->
  wp (boot start avail add es0) (fun r s' => r = Some (restored add es) /\ device s' = d /\
    at_rest start E s') (new d).
Proof.
  intros Hpre Hsec Hsh HD Hok Hrb Hdc. pose proof (simple_small start E geo) as (?&?&?&?).
  apply (wp_boot add es0 avail d c1 c2); try done.
  - rewrite (stream_shape add es0 es Hsh), <-HD. apply Zlen_mread. lia.
  - intros s Hs. apply (wp_shape add es0 es Hsh). by apply (load_valid start E geo add es s c1 c2).
Qed.

Lemma boot_refused add es0 avail d c1 c2 :
  mread (d_mem d) start 8 = preamble_bytes ->
  SectionPreamble_of (mread (d_mem d) so 7) = section E c1 c2 -> Zlen (stream add es0) = E ->
  valid c1 c2 (mread (d_mem d) (so + 7) E) = false ->
  wp (boot start avail add es0) (fun r s' => (exists l, r = Some l /\ no_values l) /\ device s' = d /\
    at_rest start E s') (new d).
Proof.
  intros Hpre Hsec HX Hok. apply (wp_boot add es0 avail d c1 c2); try done.
  intros s Hs. by apply (load_refused start E add es0 s c1 c2).
Qed.
End Restart.

(** ** A save *)

Section SimpleSave.
Context {medium : Medium} {rewritable : Rewritable medium}.
Variables start E : Z.
Hypothesis geo : simple_geometry medium start E.

Abbreviation so := (start + 8).
Abbreviation memory s := (d_mem (device s)).

#[local] Instance iS' : StateStorageInterface simple_state := SimpleState start so.

(** The data lies where the slot at [so + 3] would have it. *)
Lemma dat_at m : dat E m (so + 3) = mread m (so + 7) E.
Proof. unfold dat. f_equal. lia. Qed.

Lemma simple_update a bs (s : simple_state) : start <= a -> a + Zlen bs <= start + 15 + E ->
  updateStorage start a bs s
  = Some (Zlen bs, set_device (extend (device s) (update_events (memory s) a bs)) s).
Proof.
  intros Ha Hb. pose proof (simple_small start E geo) as (?&?&?&?).
  unfold updateStorage. rewrite (proj2 (Z.ltb_ge _ _)) by lia.
  unfold mbnd at 1. rewrite (memcmp_stored_run (H := simple_state_dev)) by lia.
  unfold update_events. cbn [get_dev simple_state_dev]. case_bool_decide as Ec.
  - rewrite decide_True by done. rewrite extend_nil. by destruct s.
  - rewrite decide_False by done. unfold mbnd, mmod.
    cbn [negb notifyUpdate simple_state_notify].
    by rewrite (writeStorage_run (H := simple_state_dev)) by lia.
Qed.

Record writing (s0 s : simple_state) (D : bytes) : Prop := {
  wr_events : exists l, device s = extend (device s0) l /\ data_events E (memory s0) (so + 3) l D;
  wr_new : stateSectionNewSize s = Zlen D;
  wr_crc : crc s = crc16 D;
  wr_dry : dryRun s = false;
  wr_place : (elementStateOffset s = 0 /\ elementStateSize s = 0 /\ D = []) \/
    (elementStateOffset s = so + 7 /\ currentStateOffset s = so + 7 + Zlen D /\
     (elementStateSize s = 0 \/ elementStateSize s = E)) }.

Lemma simple_writing_law s0 : writer_law E (writing s0).
Proof.
  intros s D buf [(l & Hd & Hde) Hn Hcrc Hdry Hpl] Hl. pose proof (simple_small start E geo) as (?&?&?&?).
  pose proof (Zlen_nonneg D). pose proof (Zlen_nonneg buf).
  change (StateStorage.writeState buf) with (writeState start so buf). unfold writeState.
  apply wp_bnd, wp_mod. apply wp_bnd, wp_get. rewrite Hn. u32s.
  destruct (Z.eqb_spec (Zlen buf) 0) as [E0|].
  { rewrite (Zlen_0_nil buf E0), app_nil_r. apply wp_ret. rewrite Zlen_nil, Z.add_0_r, <-Hn.
    split; try done. by exists l. }
  cbn [elementStateSize elementStateOffset currentStateOffset dryRun set_stateSectionNewSize]. rewrite Hdry.
  assert (Hok : (0 <? elementStateSize s) && (u32 (elementStateOffset s + elementStateSize s) <?
    u32 (currentStateOffset s + Zlen buf)) = false).
  { destruct Hpl as [(_ & -> & _)|(-> & -> & [->| ->])]; [done|done|]. u32s.
    rewrite (proj2 (Z.ltb_ge (so + 7 + E) _)) by lia. apply andb_false_r. }
  rewrite Hok.
  (* the place of the data, chosen at the first write *)
  set (s1 := set_stateSectionNewSize (Zlen D + Zlen buf) s).
  assert (Hgo : forall s2, device s2 = device s1 -> stateSectionNewSize s2 = Zlen D + Zlen buf ->
    crc s2 = crc16 D -> dryRun s2 = false -> elementStateOffset s2 = so + 7 ->
    currentStateOffset s2 = so + 7 + Zlen D -> (elementStateSize s2 = 0 \/ elementStateSize s2 = E) ->
    wp (mmod (fun s => set_crc (crc16_bytes (crc s) buf) s);;;
        let! s := mget in
        let! n := updateStorage start (currentStateOffset s) buf in
        advance n;;; mret true) (fun _ s' => writing s0 s' (D ++ buf)) s2).
  { intros s2 Hd2 Hn2 Hc2 Hdry2 Ho2 Hcur2 Hsz2. apply wp_bnd, wp_mod. apply wp_bnd, wp_get.
    cbn [currentStateOffset set_crc]. rewrite Hcur2. step simple_update by lia. unfold advance.
    apply wp_bnd, wp_mod, wp_ret. cbn [device set_crc]. rewrite Hd2. change (device s1) with (device s).
    split; cbn; rewrite ?Zlen_app; try done.
    - rewrite Hd. eexists. rewrite extend_app. split; [reflexivity|].
      replace (so + 7 + Zlen D) with (so + 3 + 4 + Zlen D) by lia.
      apply data_events_app; [lia|done|lia].
    - by rewrite Hc2, <-crc16_app.
    - right. split_and!; [done|rewrite Hcur2; u32s; lia|done]. }
  apply wp_bnd. destruct Hpl as [(Ho & Hs & ->)|(Ho & Hc & Hs)].
  - rewrite Ho. cbn [Z.eqb]. unfold sizeof_SectionPreamble. u32s. apply wp_bnd, wp_mod, wp_mod.
    apply Hgo; cbn; try done; [|by left]. by rewrite Zlen_nil, Z.add_0_r.
  - rewrite Ho. rewrite (proj2 (Z.eqb_neq (so + 7) 0)) by lia. apply wp_ret. by apply Hgo.
Qed.

Definition section_events (m : mem) (X : bytes) : list event :=
  update_events m so (SectionPreamble_bytes (section E (crc16 X) (crc16 X))) ++ [Commit].

(** The events of a save: the data, then the preamble with the checksum. *)
Lemma simple_save_run add es s : at_rest start E s -> Zlen (stream add es) = E ->
  wp (save start add es) (fun _ s' => at_rest start E s' /\ exists ld,
    data_events E (memory s) (so + 3) ld (stream add es) /\
    device s' = extend (device s) (ld ++ section_events (replay (memory s) ld) (stream add es))) s.
Proof.
  intros Hrest HX. pose proof (simple_small start E geo) as (?&?&?&?).
  unfold save. cbv zeta. unfold sizeof_Preamble. rewrite (uN_small 32 so) by lia.
  unfold WriteStateStorage. cbn [WriteStateStorage_loop].
  change StateStorage.prepareSaveState with (prepare false). unfold prepare at 1.
  apply wp_bnd, wp_bnd, wp_mod, wp_bnd, wp_mod, wp_bnd, wp_mod, wp_bnd, wp_mod, wp_ret.
  apply wp_bnd. set (X := stream add es) in *.
  eapply wp_mono; [apply (wp_WriteElementsState E (writing s) (simple_writing_law s) add es _ [])|].
  - split; cbn; try done.
    + exists []. rewrite extend_nil. split; [done|apply data_events_nil].
    + destruct Hrest as [[-> ->]|[-> ->]]; [by left|]. right. rewrite Zlen_nil. split_and!; [done|lia|by right].
  - change (Zlen []) with 0. fold X. lia.
  - intros ? s' [(l & Hd & Hde) Hn Hc Hdry Hpl]. cbn [app] in *. fold X in Hn, Hc, Hde, Hpl.
    change StateStorage.finalizeSaveState with (finalizeSaveState start so). unfold finalizeSaveState.
    apply wp_bnd, wp_bnd, wp_mod. unfold writeSectionPreamble. apply wp_bnd, wp_bnd, wp_get.
    rewrite (proj2 (Z.eqb_neq so 0)) by lia. cbn [stateSectionNewSize set_elementStateSize crc].
    rewrite Hn, HX, Hc, (proj2 (Z.ltb_ge 65535 E)) by lia.
    fold (section E (crc16 X) (crc16 X)). apply wp_bnd, wp_mod. apply wp_bnd.
    pose proof (length_section_bytes (section E (crc16 X) (crc16 X))) as Hl7.
    eapply wp_eq; [apply simple_update; lia|]. apply wp_ret. apply wp_bnd.
    unfold commit. eapply wp_eq; [reflexivity|]. apply wp_bnd, wp_mod. apply wp_bnd, wp_mod.
    apply wp_ret. cbn iota. apply wp_ret. split.
    + destruct Hpl as [(Ho & Hs & HD)|(Ho & _ & _)]; [left|right]; cbn; [|done].
      split; [done|]. rewrite <-HX, HD. done.
    + exists l. split; [done|]. cbn. rewrite Hd, !extend_app. done.
Qed.

Lemma simple_section_of c1 c2 : 0 <= c1 <= 65535 -> 0 <= c2 <= 65535 ->
  SectionPreamble_of (SectionPreamble_bytes (section E c1 c2)) = section E c1 c2.
Proof.
  intros. pose proof (simple_small start E geo) as (?&?&?&?).
  apply section_of_bytes; cbn; unfold STORAGE_SECTION_TYPE_ELEMENT_STATE; lia.
Qed.

Lemma crc16_small X : 0 <= crc16 X <= 65535.
Proof. pose proof (crc16_range X). lia. Qed.

(** The memory holds the state [D]. *)
Record holds (m : mem) (D : bytes) : Prop := {
  h_preamble : mread m start 8 = preamble_bytes;
  h_section : mread m so 7 = SectionPreamble_bytes (section E (crc16 D) (crc16 D));
  h_data : mread m (so + 7) E = D }.

Lemma holds_saved m0 ld X : mread m0 start 8 = preamble_bytes -> Zlen X = E ->
  data_events E m0 (so + 3) ld X -> holds (replay m0 (ld ++ section_events (replay m0 ld) X)) X.
Proof.
  intros Hpre HX Hde. pose proof (simple_small start E geo) as (?&?&?&?).
  pose proof (length_section_bytes (section E (crc16 X) (crc16 X))) as Hl7.
  unfold section_events. rewrite !replay_app. change (replay ?m [Commit]) with m. set (m1 := replay m0 ld).
  assert (Hout : forall x, x < so + 7 -> m1 x = m0 x) by (intros; apply (de_out _ _ _ _ _ Hde); lia).
  split.
  - rewrite <-Hpre. apply mread_ext. intros x Hx. rewrite update_out by lia. apply Hout. lia.
  - pose proof (update_read m1 so (SectionPreamble_bytes (section E (crc16 X) (crc16 X)))) as Hu.
    by rewrite Hl7 in Hu.
  - rewrite (mread_ext _ m1) by (intros; apply update_out; lia). rewrite <-dat_at.
    unfold m1. rewrite (de_dat _ _ _ _ _ Hde), drop_ge, app_nil_r; [done|].
    rewrite dat_length by lia. unfold Zlen in HX. lia.
Qed.

(** A start on a memory that holds a state restores it. *)
Lemma holds_boot add es0 es avail d : holds (d_mem d) (stream add es) -> Forall2 same_shape es0 es ->
  Forall reads_back es -> distinct_channels es ->
  wp (boot start avail add es0) (fun r s' => r = Some (restored add es) /\ device s' = d /\
    at_rest start E s') (new d).
Proof.
  intros [Hpre Hsec HD] Hsh Hrb Hdc. set (c := crc16 (stream add es)) in *.
  apply (boot_valid start E geo add es0 es avail d c c); try done.
  - rewrite Hsec. apply simple_section_of; apply crc16_small.
  - unfold valid. fold c. by rewrite !Z.eqb_refl, orb_true_r.
Qed.

(** ** A power loss *)

(** The half-written data does not pass for the old state. *)
Definition separates (D X : bytes) : Prop :=
  forall k, valid (crc16 D) (crc16 D) (take k X ++ drop k D) = true ->
    take k X ++ drop k D = D \/ take k X ++ drop k D = X.

(** A half-written preamble names the old or the new checksum, or two different ones. *)
Lemma torn_section k D X : exists c1 c2,
  SectionPreamble_of (torn k (SectionPreamble_bytes (section E (crc16 X) (crc16 X)))
    (SectionPreamble_bytes (section E (crc16 D) (crc16 D)))) = section E c1 c2.
Proof.
  pose proof (simple_small start E geo) as (?&?&?&?).
  unfold SectionPreamble_bytes, byte1. cbn [sp_type sp_size crc1 crc2 section].
  rewrite !torn_app, !torn_same by (by rewrite !length_le_split).
  eexists _, _. rewrite section_of_split by (rewrite ?torn_length; rewrite ?length_le_split; done).
  unfold section. rewrite !combine_split; [done|cbn; lia|done].
Qed.

Definition old_new_or_nothing (avail : Z) (add : bool) (es1 es2 es0 : list element) (m : mem) : Prop :=
  exists r s', boot start avail add es0 (powered_off m) = Some (Some r, s') /\
    (r = restored add es1 \/ r = restored add es2 \/ no_values r).

(** A memory with the section in place, one pair of checksums, and data that is one of the
    two states when the checksums accept it. *)
Lemma section_outcome add es1 es2 es0 avail m c1 c2 :
  mread m start 8 = preamble_bytes -> SectionPreamble_of (mread m so 7) = section E c1 c2 ->
  (let T := mread m (so + 7) E in
   valid c1 c2 T = true -> T = stream add es1 \/ T = stream add es2) ->
  Zlen (stream add es2) = E -> Forall2 same_shape es0 es1 -> Forall2 same_shape es0 es2 ->
  Forall reads_back es1 -> Forall reads_back es2 -> distinct_channels es1 -> distinct_channels es2 ->
  old_new_or_nothing avail add es1 es2 es0 m.
Proof.
  intros Hpm Hs HT HX Hsh1 Hsh2 Hrb1 Hrb2 Hdc1 Hdc2. cbv zeta in HT.
  unfold old_new_or_nothing, powered_off.
  set (d := {| d_mem := m; d_log := [] |}). set (T := mread m (so + 7) E) in *.
  destruct (valid c1 c2 T) eqn:Hv.
  - destruct (HT eq_refl) as [HTD|HTX].
    + rewrite HTD in Hv.
      pose proof (boot_valid start E geo add es0 es1 avail d c1 c2 Hpm Hs Hsh1 HTD Hv Hrb1 Hdc1) as Hb.
      apply wp_run in Hb as (r & s' & Hrun & -> & _). exists (restored add es1), s'. auto.
    + rewrite HTX in Hv.
      pose proof (boot_valid start E geo add es0 es2 avail d c1 c2 Hpm Hs Hsh2 HTX Hv Hrb2 Hdc2) as Hb.
      apply wp_run in Hb as (r & s' & Hrun & -> & _). exists (restored add es2), s'. auto.
  - assert (HX0 : Zlen (stream add es0) = E) by (by rewrite (stream_shape add es0 es2 Hsh2)).
    pose proof (boot_refused start E geo add es0 avail d c1 c2 Hpm Hs HX0 Hv) as Hb.
    apply wp_run in Hb as (r & s' & Hrun & (l & -> & Hl) & _). exists l, s'. auto.
Qed.

Lemma crash_simple add es1 es2 es0 avail m0 ld m : let D := stream add es1 in let X := stream add es2 in
  holds m0 D -> Zlen X = E -> data_events E m0 (so + 3) ld X -> separates D X ->
  crash m0 (ld ++ section_events (replay m0 ld) X) m ->
  Forall2 same_shape es0 es1 -> Forall2 same_shape es0 es2 ->
  Forall reads_back es1 -> Forall reads_back es2 -> distinct_channels es1 -> distinct_channels es2 ->
  old_new_or_nothing avail add es1 es2 es0 m.
Proof.
  intros D X [Hpre Hsec HD] HX Hde Hsep Hc Hsh1 Hsh2 Hrb1 Hrb2 Hdc1 Hdc2.
  pose proof (simple_small start E geo) as (?&?&?&?).
  pose proof (length_section_bytes (section E (crc16 X) (crc16 X))) as Hl7.
  enough (Hm : mread m start 8 = preamble_bytes /\ exists c1 c2,
    SectionPreamble_of (mread m so 7) = section E c1 c2 /\
    let T := mread m (so + 7) E in valid c1 c2 T = true -> T = D \/ T = X).
  { destruct Hm as (Hpm & c1 & c2 & Hs & HT). by apply (section_outcome add es1 es2 es0 avail m c1 c2). }
  apply crash_app in Hc as [Hc|Hc].
  - destruct (de_crash _ _ _ _ _ Hde m Hc) as (k & _ & Hk). rewrite !dat_at, HD in Hk.
    pose proof (de_crash_out _ _ _ _ _ Hde m Hc) as Hout.
    split; [rewrite <-Hpre; apply mread_ext; intros; apply Hout; lia|].
    exists (crc16 D), (crc16 D). split.
    + rewrite (mread_ext m m0) by (intros; apply Hout; lia). rewrite Hsec. apply simple_section_of; apply crc16_small.
    + cbv zeta. rewrite Hk. apply Hsep.
  - set (m1 := replay m0 ld) in *. pose proof (de_out _ _ _ _ _ Hde) as Hout. fold m1 in Hout.
    assert (Hsec1 : mread m1 so 7 = SectionPreamble_bytes (section E (crc16 D) (crc16 D)))
      by (rewrite <-Hsec; apply mread_ext; intros; apply Hout; lia).
    assert (Hc' : crash m1 (update_events m1 so (SectionPreamble_bytes (section E (crc16 X) (crc16 X)))) m).
    { unfold section_events in Hc. apply crash_app in Hc as [Hc|Hc]; [done|].
      rewrite (crash_commit _ _ Hc). apply crash_all. }
    apply crash_update in Hc' as [[k Hk] Ho]. rewrite Hl7, Hsec1 in Hk. rewrite Hl7 in Ho.
    split; [rewrite <-Hpre, (mread_ext m m1) by (intros; apply Ho; lia); apply mread_ext; intros; apply Hout; lia|].
    destruct (torn_section k D X) as (c1 & c2 & Ht). exists c1, c2. rewrite Hk. split; [done|].
    cbv zeta. intros _. right. rewrite (mread_ext m m1) by (intros; apply Ho; lia).
    rewrite <-dat_at. unfold m1. rewrite (de_dat _ _ _ _ _ Hde), drop_ge, app_nil_r; [done|].
    rewrite dat_length by lia. unfold Zlen in HX. lia.
Qed.
End SimpleSave.

(** ** The theorems *)

Section Claims.
Context {medium : Medium} {rewritable : Rewritable medium}.
Variables start E : Z.
Hypothesis geo : simple_geometry medium start E.

(** The sizes of the elements' states add up to [E], and every element reads what it
    writes. *)
Definition fits (add : bool) (es : list element) : Prop :=
  Zlen (stream add es) = E /\ Forall reads_back es /\ distinct_channels es.

(** C31: what was saved is restored.  Whatever the section held before, a save of the states
    of the elements and a start on the memory it leaves give every element its state back,
    and the object is as it was for the next save. *)
Theorem simple_save_is_restored avail add es s :
  at_rest start E s -> mread (d_mem (device s)) start 8 = preamble_bytes -> fits add es ->
  exists s', save start add es s = Some (tt, s') /\ at_rest start E s' /\
    mread (d_mem (device s')) start 8 = preamble_bytes /\
    forall es0, Forall2 same_shape es0 es -> exists s'',
      boot start avail add es0 (powered_off (d_mem (device s'))) = Some (Some (restored add es), s'') /\
      at_rest start E s'' /\ d_mem (device s'') = d_mem (device s').
Proof.
  intros Hrest Hpre (HX & Hrb & Hdc).
  pose proof (simple_save_run start E geo add es s Hrest HX) as Hw.
  apply wp_run in Hw as ([] & s' & Hrun & Hrest' & ld & Hde & Hd).
  pose proof (holds_saved start E geo _ ld _ Hpre HX Hde) as Hh.
  assert (Hm : d_mem (device s') = replay (d_mem (device s))
    (ld ++ section_events start E (replay (d_mem (device s)) ld) (stream add es))) by (by rewrite Hd).
  rewrite <-Hm in Hh. exists s'. split_and!; [done|done|apply Hh|]. intros es0 Hsh.
  pose proof (holds_boot start E geo add es0 es avail {| d_mem := d_mem (device s'); d_log := [] |}
    Hh Hsh Hrb Hdc) as Hb.
  apply wp_run in Hb as (r & s'' & Hboot & -> & Hd'' & Hr''). exists s''. by rewrite Hd''.
Qed.

End Claims.

(** ** An example: one element with three bytes of state on an EEPROM of 100 bytes *)

Module Example.

#[local] Instance eeprom : Medium := eeprom_medium 100.

Definition elements (x : Init.Byte.byte) : list element :=
  [{| channelNumber := 0; saves := [[x; Byte.x01]; [Byte.x07]]; loads := [2; 1] |}].

(** The device after its first start. *)
Definition first_start : simple_state :=
  match boot 0 100 false (elements Byte.x00) (powered_off (fun _ => Byte.xff)) with
  | Some (_, s) => s
  | None => powered_off (fun _ => Byte.xff)
  end.
Definition one_save : simple_state :=
  match save 0 false (elements Byte.x11) first_start with Some (_, s) => s | None => first_start end.

Lemma simple_geo : simple_geometry eeprom 0 3.
Proof. by split; vm_compute. Qed.

Lemma simple_fits_elements x : fits 3 false (elements x).
Proof. split_and!; [done|by repeat constructor|]. repeat constructor. by apply not_elem_of_nil. Qed.

Lemma simple_shape_elements x y : Forall2 same_shape (elements x) (elements y).
Proof. by repeat constructor. Qed.
End Example.

#[local] Existing Instance Example.eeprom.
#[local] Instance eeprom_rw : Rewritable Example.eeprom := eeprom_rewritable 100.

Lemma simple_save_is_restored_witness :
  exists s', save 0 false (Example.elements Byte.x11) Example.first_start = Some (tt, s') /\
    exists s'', boot 0 100 false (Example.elements Byte.x00) (powered_off (d_mem (device s')))
      = Some (Some [(-1, [Some [Byte.x11; Byte.x01]; Some [Byte.x07]])], s'').
Proof.
  destruct (simple_save_is_restored 0 3 Example.simple_geo 100 false (Example.elements Byte.x11)
    Example.first_start) as (s' & Hrun & _ & _ & Hb).
  - left. split; vm_compute; reflexivity.
  - vm_compute. reflexivity.
  - apply Example.simple_fits_elements.
  - exists s'. split; [exact Hrun|].
    destruct (Hb (Example.elements Byte.x00) (Example.simple_shape_elements _ _)) as (s'' & Hboot & _).
    exists s''. exact Hboot.
Defined.

