(* ===== verification/KeyValue.v ===== *)
(** * key_value.cpp: a list of typed values under short keys

    The linked list of [KeyValueElement] as a list, first element first.  A C string that
    is handed over is the list of its characters, without the terminating NUL; the state
    monad's [None] is undefined behaviour.  [new] is taken to succeed. *)
From S2P Require Import Prelude.

Module KeyValue.

Definition SUPLA_STORAGE_KEY_SIZE : Z := 15.

Inductive DataType :=
| DATA_TYPE_NOT_SET
| DATA_TYPE_UINT8
| DATA_TYPE_INT8
| DATA_TYPE_UINT32
| DATA_TYPE_INT32
| DATA_TYPE_BLOB
| DATA_TYPE_STRING.

#[export] Instance DataType_eq_dec : EqDecision DataType.
Proof. solve_decision. Defined.

Definition DataType_code (t : DataType) : Z :=
  match t with
  | DATA_TYPE_NOT_SET => 0
  | DATA_TYPE_UINT8 => 1
  | DATA_TYPE_INT8 => 2
  | DATA_TYPE_UINT32 => 3
  | DATA_TYPE_INT32 => 4
  | DATA_TYPE_BLOB => 5
  | DATA_TYPE_STRING => 6
  end.

(** [dataType], [size] and the union [data]: the value with its type.  The bytes of a string
    include the terminating NUL. *)
Inductive content :=
| NotSet
| UInt8 (v : Z)
| Int8 (v : Z)
| UInt32 (v : Z)
| Int32 (v : Z)
| Blob (b : bytes)
| String (b : bytes).

Definition dataType (c : content) : DataType :=
  match c with
  | NotSet => DATA_TYPE_NOT_SET
  | UInt8 _ => DATA_TYPE_UINT8
  | Int8 _ => DATA_TYPE_INT8
  | UInt32 _ => DATA_TYPE_UINT32
  | Int32 _ => DATA_TYPE_INT32
  | Blob _ => DATA_TYPE_BLOB
  | String _ => DATA_TYPE_STRING
  end.

(** [size]: set only for blob and string. *)
Definition data_size (c : content) : Z :=
  match c with Blob b | String b => Zlen b | _ => 0 end.

Record KeyValueElement := { key : bytes; data : content }.

Definition set_data (c : content) (e : KeyValueElement) : KeyValueElement :=
  {| key := key e; data := c |}.

(** ** The string functions of the C library *)

(** The characters before the first NUL; [None]: there is none. *)
Fixpoint strlen_of (b : bytes) : option bytes :=
  match b with
  | [] => None
  | Byte.x00 :: _ => Some []
  | x :: b => option_map (cons x) (strlen_of b)
  end.

(** [strncmp(a, b, n) == 0]; behind the end of a string stands its NUL. *)
Fixpoint strncmp_equal (n : nat) (a b : bytes) : bool :=
  match n with
  | O => true
  | S n =>
      let x := hd Byte.x00 a in
      let y := hd Byte.x00 b in
      if negb (bool_decide (x = y)) then false
      else if bool_decide (x = Byte.x00) then true
      else strncmp_equal n (tl a) (tl b)
  end.

(** [strncpy(buffer, s, n)]: the [n] bytes of the buffer. *)
Definition strncpy_of (n : Z) (s : bytes) : bytes :=
  take (Z.to_nat n) s ++ zeros (n - Zlen s).

(** ** [KeyValueElement] *)

Definition new_element (keyName : bytes) : KeyValueElement :=
  {| key := strncpy_of SUPLA_STORAGE_KEY_SIZE keyName; data := NotSet |}.

Definition isKeyEqual (e : KeyValueElement) (keyToCheck : bytes) : bool :=
  strncmp_equal (Z.to_nat SUPLA_STORAGE_KEY_SIZE) (key e) keyToCheck.

(** Setters: the answer and the element.  [None] is the null pointer. *)
Definition element_setString (value : option bytes) (e : KeyValueElement) : bool * KeyValueElement :=
  match value with
  | None => (false, e)
  | Some value =>
      let c := String (strncpy_of (Zlen value + 1) value) in
      match data e with
      | NotSet | String _ => (true, set_data c e)
      | _ => (false, e)
      end
  end.

Definition element_setBlob (value : bytes) (e : KeyValueElement) : bool * KeyValueElement :=
  match data e with
  | NotSet | Blob _ => (true, set_data (Blob value) e)
  | _ => (false, e)
  end.

Definition element_setInt8 (value : Z) (e : KeyValueElement) : bool * KeyValueElement :=
  match data e with
  | NotSet | Int8 _ => (true, set_data (Int8 value) e)
  | _ => (false, e)
  end.

Definition element_setUInt8 (value : Z) (e : KeyValueElement) : bool * KeyValueElement :=
  match data e with
  | NotSet | UInt8 _ => (true, set_data (UInt8 value) e)
  | _ => (false, e)
  end.

Definition element_setInt32 (value : Z) (e : KeyValueElement) : bool * KeyValueElement :=
  match data e with
  | NotSet | Int32 _ => (true, set_data (Int32 value) e)
  | _ => (false, e)
  end.

Definition element_setUInt32 (value : Z) (e : KeyValueElement) : bool * KeyValueElement :=
  match data e with
  | NotSet | UInt32 _ => (true, set_data (UInt32 value) e)
  | _ => (false, e)
  end.

(** Getters: what is stored through the pointer, [None] for the answer false.  A string
    fills the whole buffer of [maxSize] bytes. *)
Definition element_getString (maxSize : Z) (e : KeyValueElement) : option bytes :=
  match data e with
  | String b =>
      if Zlen b <=? maxSize
      then Some (take (length b - 1) (strncpy_of maxSize (default b (strlen_of b))) ++ [Byte.x00]
                 ++ drop (length b) (strncpy_of maxSize (default b (strlen_of b))))
      else None
  | _ => None
  end.

Definition element_getStringSize (e : KeyValueElement) : Z :=
  match data e with String b => Zlen b | _ => 0 end.

Definition element_getBlob (blobSize : Z) (e : KeyValueElement) : option bytes :=
  match data e with Blob b => if Zlen b =? blobSize then Some b else None | _ => None end.

Definition element_getBlobSize (e : KeyValueElement) : Z :=
  match data e with Blob b => Zlen b | _ => 0 end.

Definition element_getInt8 (e : KeyValueElement) : option Z :=
  match data e with Int8 v => Some v | _ => None end.
Definition element_getUInt8 (e : KeyValueElement) : option Z :=
  match data e with UInt8 v => Some v | _ => None end.
Definition element_getInt32 (e : KeyValueElement) : option Z :=
  match data e with Int32 v => Some v | _ => None end.
Definition element_getUInt32 (e : KeyValueElement) : option Z :=
  match data e with UInt32 v => Some v | _ => None end.

(** [serialize]: the answer and the bytes written at [destination]; an element without a
    value writes its header and answers 0. *)
Definition block_size (c : content) : Z :=
  SUPLA_STORAGE_KEY_SIZE + 1 + 2 + data_size c +
  match c with Int8 _ | UInt8 _ => 1 | Int32 _ | UInt32 _ => 4 | _ => 0 end.

Definition data_bytes (c : content) : bytes :=
  match c with
  | NotSet => []
  | UInt8 v | Int8 v => le_split 1 v
  | UInt32 v | Int32 v => le_split 4 v
  | Blob b | String b => b
  end.

Definition element_header (e : KeyValueElement) : bytes :=
  key e ++ le_split 1 (DataType_code (dataType (data e))) ++ le_split 2 (u16 (data_size (data e))).

Definition serialize (maxSize : Z) (e : KeyValueElement) : Z * bytes :=
  let blockSize := block_size (data e) in
  if maxSize <? blockSize then (0, [])
  else
    (match data e with NotSet => 0 | _ => blockSize end, element_header e ++ data_bytes (data e)).

(** ** [KeyValue] *)

Abbreviation kv := (list KeyValueElement).

Fixpoint find (k : bytes) (s : kv) : option KeyValueElement :=
  match s with
  | [] => None
  | e :: s => if isKeyEqual e k then Some e else find k s
  end.

(** [findOrCreate] followed by a setter of the element it returns. *)
Fixpoint at_found (k : bytes) (f : KeyValueElement -> bool * KeyValueElement) (s : kv) : bool * kv :=
  match s with
  | [] => (false, [])
  | e :: s =>
      if isKeyEqual e k then let (r, e) := f e in (r, e :: s)
      else let (r, s) := at_found k f s in (r, e :: s)
  end.

Definition findOrCreate (k : bytes) (f : KeyValueElement -> bool * KeyValueElement) : M kv bool :=
  let! s := mget in
  (match find k s with
   | Some _ => mret tt
   | None => mput (new_element k :: s)
   end);;;
  let! s := mget in
  let (r, s) := at_found k f s in
  mput s;;;
  mret r.

Definition setString (k : bytes) (value : option bytes) : M kv bool :=
  findOrCreate k (element_setString value).
Definition setBlob (k value : bytes) : M kv bool := findOrCreate k (element_setBlob value).
Definition setInt8 (k : bytes) (value : Z) : M kv bool := findOrCreate k (element_setInt8 value).
Definition setUInt8 (k : bytes) (value : Z) : M kv bool := findOrCreate k (element_setUInt8 value).
Definition setInt32 (k : bytes) (value : Z) : M kv bool := findOrCreate k (element_setInt32 value).
Definition setUInt32 (k : bytes) (value : Z) : M kv bool := findOrCreate k (element_setUInt32 value).

(** The answer of a getter for a missing key is [missing]. *)
Definition with_found {A} (k : bytes) (missing : A) (f : KeyValueElement -> A) : M kv A :=
  let! s := mget in
  mret (match find k s with Some e => f e | None => missing end).

Definition getString (k : bytes) (maxSize : Z) : M kv (option bytes) :=
  with_found k None (element_getString maxSize).
Definition getStringSize (k : bytes) : M kv Z := with_found k 0 element_getStringSize.
Definition getBlob (k : bytes) (blobSize : Z) : M kv (option bytes) :=
  with_found k None (element_getBlob blobSize).
Definition getBlobSize (k : bytes) : M kv Z := with_found k 0 element_getBlobSize.
Definition getInt8 (k : bytes) : M kv (option Z) := with_found k None element_getInt8.
Definition getUInt8 (k : bytes) : M kv (option Z) := with_found k None element_getUInt8.
Definition getInt32 (k : bytes) : M kv (option Z) := with_found k None element_getInt32.
Definition getUInt32 (k : bytes) : M kv (option Z) := with_found k None element_getUInt32.

(** The element found is taken out of the list. *)
Fixpoint unlink (k : bytes) (s : kv) : kv :=
  match s with
  | [] => []
  | e :: s => if isKeyEqual e k then s else e :: unlink k s
  end.

Definition eraseKey (k : bytes) : M kv bool :=
  let! s := mget in
  match find k s with
  | None => mret false
  | Some _ => mput (unlink k s);;; mret true
  end.

Definition removeAllMemory : M kv unit := mput [].

(** *** Serialization *)

(** [written] at [offset] of the buffer. *)
Definition overlay (offset : Z) (written buffer : bytes) : bytes :=
  take (Z.to_nat offset) buffer ++ written ++ drop (Z.to_nat (offset + Zlen written)) buffer.

Fixpoint serialize_loop (s : kv) (output : bytes) (outputMaxSize sizeCount : Z) : Z * bytes :=
  match s with
  | [] => (sizeCount, output)
  | e :: s =>
      let (bytesWritten, written) := serialize (outputMaxSize - sizeCount) e in
      serialize_loop s (overlay sizeCount written output) outputMaxSize (sizeCount + bytesWritten)
  end.

(** [output] is the buffer of [outputMaxSize] bytes: its size in use and its content. *)
Definition serializeToMemory (output : bytes) : M kv (Z * bytes) :=
  let! s := mget in
  mret (serialize_loop s output (Zlen output) 0).

(** *** Deserialization *)

(** The value behind key and type: [Some None] for the exit with false; [None] for a string
    without NUL, which [strlen] reads beyond its end. *)
Definition parse_value (t : Z) (k input : bytes) : option (option (KeyValueElement * bytes)) :=
  let e := new_element k in
  let size := le_combine (take 2 input) in
  let input := drop 2 input in
  if t =? DataType_code DATA_TYPE_UINT8 then
    if 0 <? Zlen input
    then Some (Some (snd (element_setUInt8 (le_combine (take 1 input)) e), drop 1 input))
    else Some None
  else if t =? DataType_code DATA_TYPE_INT8 then
    if 0 <? Zlen input
    then Some (Some (snd (element_setInt8 (i8 (le_combine (take 1 input))) e), drop 1 input))
    else Some None
  else if t =? DataType_code DATA_TYPE_UINT32 then
    if 3 <? Zlen input
    then Some (Some (snd (element_setUInt32 (le_combine (take 4 input)) e), drop 4 input))
    else Some None
  else if t =? DataType_code DATA_TYPE_INT32 then
    if 3 <? Zlen input
    then Some (Some (snd (element_setInt32 (i32 (le_combine (take 4 input))) e), drop 4 input))
    else Some None
  else if t =? DataType_code DATA_TYPE_BLOB then
    if size - 1 <? Zlen input
    then Some (Some (snd (element_setBlob (take (Z.to_nat size) input) e), drop (Z.to_nat size) input))
    else Some None
  else if t =? DataType_code DATA_TYPE_STRING then
    if size - 1 <? Zlen input
    then match strlen_of (take (Z.to_nat size) input) with
         | Some text =>
             Some (Some (snd (element_setString (Some text) e), drop (Z.to_nat size) input))
         | None => None
         end
    else Some None
  else Some None.

(** The characters of the key, which the constructor copies up to the first NUL. *)
Definition key_text (b : bytes) : bytes := default b (strlen_of b).

Definition parse_element (input : bytes) : option (option (KeyValueElement * bytes)) :=
  let k := key_text (take (Z.to_nat SUPLA_STORAGE_KEY_SIZE) input) in
  let input := drop (Z.to_nat SUPLA_STORAGE_KEY_SIZE) input in
  parse_value (le_combine (take 1 input)) k (drop 1 input).

(** Every round consumes at least 18 bytes; the fuel is the size of the input. *)
Fixpoint init_loop (fuel : nat) (input : bytes) : M kv bool :=
  match fuel with
  | O => mret false
  | S fuel =>
      if SUPLA_STORAGE_KEY_SIZE + 1 + 2 <? Zlen input then
        let! r := mopt (parse_element input) in
        match r with
        | None => mret false
        | Some (e, rest) => mmod (fun s => s ++ [e]);;; init_loop fuel rest
        end
      else mret (negb (0 <? Zlen input))
  end.

Definition initFromMemory (input : bytes) : M kv bool :=
  let! s := mget in
  match s with
  | _ :: _ => mret false
  | [] =>
      if Zlen input <? SUPLA_STORAGE_KEY_SIZE + 1 + 2 then mret false
      else init_loop (S (length input)) input
  end.
End KeyValue.
