(* ===== verification/KeyValueProps.v ===== *)
(** * The key-value store: theorems

    The list is a finite map from keys, cut to 15 characters, to typed values; what is
    serialized is read back. *)
From stdpp Require Import gmap.
From S2P Require Import Prelude KeyValue.
Import KeyValue.

#[export] Instance byte_countable : Countable Init.Byte.byte :=
  inj_countable Stdlib.Strings.Byte.to_N Stdlib.Strings.Byte.of_N Stdlib.Strings.Byte.of_to_N.

(** ** Keys *)

(** The characters of a C string. *)
Definition text (b : bytes) : Prop := Forall (fun x => x <> Byte.x00) b.

Lemma strlen_of_text a b : text a -> strlen_of (a ++ Byte.x00 :: b) = Some a.
Proof.
  induction 1 as [|x a Hx _ IH]; [done|]. cbn [app strlen_of].
  destruct x; try (by rewrite IH). done.
Qed.

Lemma strncmp_equal_spec n : forall a b m, text a -> text b ->
  strncmp_equal n (take n a ++ zeros m) b = bool_decide (take n a = take n b).
Proof.
  induction n as [|n IH]; intros a b m Ha Hb; [done|]. cbn [strncmp_equal].
  assert (Hz : hd Byte.x00 (zeros m) = Byte.x00) by (unfold zeros; by destruct (Z.to_nat m)).
  destruct a as [|x a], b as [|y b]; cbn [take hd tl app].
  - by rewrite Hz.
  - apply List.Forall_cons_iff in Hb as [Hy _]. rewrite Hz. by rewrite bool_decide_false by congruence.
  - apply List.Forall_cons_iff in Ha as [Hx _]. by rewrite bool_decide_false.
  - apply List.Forall_cons_iff in Ha as [Hx Ha]. apply List.Forall_cons_iff in Hb as [_ Hb].
    destruct (decide (x = y)) as [->|Hxy].
    + rewrite bool_decide_true by done. cbn [negb]. rewrite bool_decide_false by done.
      rewrite IH by done. apply bool_decide_ext. split; congruence.
    + rewrite bool_decide_false by done. cbn [negb]. symmetry. apply bool_decide_eq_false. congruence.
Qed.

(** The key under which a name is filed. *)
Definition short (k : bytes) : bytes := take 15 k.

Lemma isKeyEqual_new a b c : text a -> text b ->
  isKeyEqual {| key := strncpy_of 15 a; data := c |} b = bool_decide (short a = short b).
Proof. intros. by apply strncmp_equal_spec. Qed.

(** ** The abstract map *)

(** The type of a stored value cannot change. *)
Definition same_type (c c' : content) : bool :=
  bool_decide (dataType c = DATA_TYPE_NOT_SET \/ dataType c = dataType c').

Definition map_set (k : bytes) (c : content) (m : gmap bytes content) : bool * gmap bytes content :=
  if same_type (default NotSet (m !! short k)) c then (true, <[short k := c]> m) else (false, m).

(** A null pointer creates the key and sets no value. *)
Definition map_set_null (k : bytes) (m : gmap bytes content) : bool * gmap bytes content :=
  (false, <[short k := default NotSet (m !! short k)]> m).

(** The list stands for the map. *)
Definition filed (e : KeyValueElement) (k : bytes) : Prop :=
  text k /\ (length k <= 15)%nat /\ key e = strncpy_of 15 k.

(** A stored string ends with its only NUL. *)
Definition content_ok (c : content) : Prop :=
  match c with String b => exists t, text t /\ b = t ++ [Byte.x00] | _ => True end.

Inductive represents : kv -> gmap bytes content -> Prop :=
| represents_nil : represents [] ∅
| represents_cons e k s m : filed e k -> content_ok (data e) -> m !! k = None -> represents s m ->
    represents (e :: s) (<[k := data e]> m).

Lemma filed_equal e k b : filed e k -> text b -> isKeyEqual e b = bool_decide (k = short b).
Proof.
  intros (Hk & Hl & He) Hb. destruct e as [ke c]. cbn in He. subst ke. rewrite isKeyEqual_new by done.
  unfold short. by rewrite (take_ge k) by done.
Qed.

Lemma represents_find s m k : represents s m -> text k ->
  option_map data (find k s) = m !! short k.
Proof.
  intros Hr Hk. induction Hr as [|e k' s m He Hok Hn _ IH]; [done|]. cbn [find].
  rewrite (filed_equal e k') by done. case_bool_decide as E.
  - subst k'. by rewrite lookup_insert_eq.
  - by rewrite lookup_insert_ne, <-IH by done.
Qed.

(** A change of the value found. *)
Lemma represents_at_found s m k f c r c' : represents s m -> text k ->
  m !! short k = Some c -> content_ok c' ->
  (forall e, data e = c -> f e = (r, set_data c' e)) ->
  exists s', at_found k f s = (r, s') /\ represents s' (<[short k := c']> m).
Proof.
  intros Hr Hk Hc Hc' Hf. induction Hr as [|e k' s m He Hok Hn Hr IH]; [done|]. cbn [at_found].
  rewrite (filed_equal e k') by done. case_bool_decide as E.
  - subst k'. rewrite lookup_insert_eq in Hc. injection Hc as Hc. rewrite (Hf e Hc).
    eexists. split; [reflexivity|]. rewrite insert_insert_eq. by apply (represents_cons (set_data c' e)).
  - rewrite lookup_insert_ne in Hc by done. destruct (IH Hc) as (s' & -> & Hs').
    eexists. split; [reflexivity|]. rewrite insert_insert_ne by done.
    apply represents_cons; [done|done|by rewrite lookup_insert_ne|done].
Qed.

Lemma represents_ok s m k c : represents s m -> m !! k = Some c -> content_ok c.
Proof.
  induction 1 as [|e k' s m He Hok Hn _ IH]; [done|]. destruct (decide (k' = k)) as [->|Hne].
  - rewrite lookup_insert_eq. by intros [= <-].
  - by rewrite lookup_insert_ne.
Qed.

(** ** The operations *)

(** A setter that answers [ok] and stores [upd], both from the value found. *)
Lemma findOrCreate_run s m k f ok upd : represents s m -> text k ->
  (forall e, content_ok (data e) -> f e = (ok (data e), set_data (upd (data e)) e) /\
             content_ok (upd (data e))) ->
  let c := default NotSet (m !! short k) in
  exists s', findOrCreate k f s = Some (ok c, s') /\ represents s' (<[short k := upd c]> m).
Proof.
  intros Hr Hk Hf c. unfold findOrCreate, mbnd, mget, mput, mret.
  pose proof (represents_find s m k Hr Hk) as Hfind. set (s1 := match find k s with Some _ => s | None => new_element k :: s end).
  assert (H1 : (match find k s with Some _ => mret tt | None => mput (new_element k :: s) end) s
    = Some (tt, s1)) by (unfold s1; by destruct (find k s)).
  unfold mret, mput in H1. rewrite H1.
  assert (Hm1 : exists m1, represents s1 m1 /\ m1 !! short k = Some c /\
    forall x, <[short k := x]> m1 = <[short k := x]> m).
  { unfold s1, c. destruct (find k s) as [e|]; cbn [option_map] in Hfind.
    - exists m. by rewrite <-Hfind.
    - exists (<[short k := NotSet]> m). rewrite <-Hfind, lookup_insert_eq. split_and!; [|done|].
      + apply (represents_cons (new_element k) (short k)); [|done|done|done]. split_and!.
        * by apply Forall_take.
        * unfold short. rewrite length_take. lia.
        * unfold new_element, strncpy_of, short. cbn [key].
          change (Z.to_nat SUPLA_STORAGE_KEY_SIZE) with 15%nat. change (Z.to_nat 15) with 15%nat.
          rewrite take_take. f_equal. unfold zeros, Zlen, SUPLA_STORAGE_KEY_SIZE. f_equal.
          rewrite length_take. lia.
      + intros x. apply insert_insert_eq. }
  destruct Hm1 as (m1 & Hr1 & Hc1 & Heq).
  assert (Hokc : content_ok c) by (by apply (represents_ok s1 m1 (short k))).
  destruct (represents_at_found s1 m1 k f c (ok c) (upd c) Hr1 Hk Hc1) as (s' & Hs' & Hr').
  - by destruct (Hf {| key := []; data := c |} Hokc).
  - intros e <-. by apply Hf.
  - rewrite Hs'. eexists. split; [reflexivity|]. by rewrite <-Heq.
Qed.

Inductive op :=
| SetString (k : bytes) (v : option bytes)
| SetBlob (k v : bytes)
| SetInt8 (k : bytes) (v : Z)
| SetUInt8 (k : bytes) (v : Z)
| SetInt32 (k : bytes) (v : Z)
| SetUInt32 (k : bytes) (v : Z)
| GetString (k : bytes) (maxSize : Z)
| GetStringSize (k : bytes)
| GetBlob (k : bytes) (size : Z)
| GetBlobSize (k : bytes)
| GetInt8 (k : bytes)
| GetUInt8 (k : bytes)
| GetInt32 (k : bytes)
| GetUInt32 (k : bytes)
| Erase (k : bytes).

Inductive answer :=
| Done (ok : bool)
| Bytes (b : option bytes)
| Number (n : option Z)
| Size (n : Z).

Definition run_op (o : op) : M kv answer :=
  match o with
  | SetString k v => let! r := setString k v in mret (Done r)
  | SetBlob k v => let! r := setBlob k v in mret (Done r)
  | SetInt8 k v => let! r := setInt8 k v in mret (Done r)
  | SetUInt8 k v => let! r := setUInt8 k v in mret (Done r)
  | SetInt32 k v => let! r := setInt32 k v in mret (Done r)
  | SetUInt32 k v => let! r := setUInt32 k v in mret (Done r)
  | GetString k n => let! r := getString k n in mret (Bytes r)
  | GetStringSize k => let! r := getStringSize k in mret (Size r)
  | GetBlob k n => let! r := getBlob k n in mret (Bytes r)
  | GetBlobSize k => let! r := getBlobSize k in mret (Size r)
  | GetInt8 k => let! r := getInt8 k in mret (Number r)
  | GetUInt8 k => let! r := getUInt8 k in mret (Number r)
  | GetInt32 k => let! r := getInt32 k in mret (Number r)
  | GetUInt32 k => let! r := getUInt32 k in mret (Number r)
  | Erase k => let! r := eraseKey k in mret (Done r)
  end.

Fixpoint run_ops (l : list op) : M kv (list answer) :=
  match l with
  | [] => mret []
  | o :: l => let! a := run_op o in let! r := run_ops l in mret (a :: r)
  end.

(** The same operations on the map. *)
Definition map_op (o : op) (m : gmap bytes content) : answer * gmap bytes content :=
  let set k c := let (r, m) := map_set k c m in (Done r, m) in
  let get k := default NotSet (m !! short k) in
  match o with
  | SetString k (Some v) => set k (String (v ++ [Byte.x00]))
  | SetString k None => let (r, m) := map_set_null k m in (Done r, m)
  | SetBlob k v => set k (Blob v)
  | SetInt8 k v => set k (Int8 v)
  | SetUInt8 k v => set k (UInt8 v)
  | SetInt32 k v => set k (Int32 v)
  | SetUInt32 k v => set k (UInt32 v)
  | GetString k n => (Bytes match get k with
      | String b => if Zlen b <=? n then Some (b ++ zeros (n - Zlen b)) else None
      | _ => None end, m)
  | GetStringSize k => (Size match get k with String b => Zlen b | _ => 0 end, m)
  | GetBlob k n => (Bytes match get k with
      | Blob b => if Zlen b =? n then Some b else None
      | _ => None end, m)
  | GetBlobSize k => (Size match get k with Blob b => Zlen b | _ => 0 end, m)
  | GetInt8 k => (Number match get k with Int8 v => Some v | _ => None end, m)
  | GetUInt8 k => (Number match get k with UInt8 v => Some v | _ => None end, m)
  | GetInt32 k => (Number match get k with Int32 v => Some v | _ => None end, m)
  | GetUInt32 k => (Number match get k with UInt32 v => Some v | _ => None end, m)
  | Erase k => (Done (bool_decide (is_Some (m !! short k))), delete (short k) m)
  end.

Fixpoint map_ops (l : list op) (m : gmap bytes content) : list answer * gmap bytes content :=
  match l with
  | [] => ([], m)
  | o :: l => let (a, m) := map_op o m in let (r, m) := map_ops l m in (a :: r, m)
  end.

Definition op_key (o : op) : bytes :=
  match o with
  | SetString k _ | SetBlob k _ | SetInt8 k _ | SetUInt8 k _ | SetInt32 k _ | SetUInt32 k _
  | GetString k _ | GetStringSize k | GetBlob k _ | GetBlobSize k | GetInt8 k | GetUInt8 k
  | GetInt32 k | GetUInt32 k | Erase k => k
  end.

(** Keys and strings are C strings. *)
Definition op_ok (o : op) : Prop :=
  text (op_key o) /\ match o with SetString _ (Some v) => text v | _ => True end.

(** A setter with a value of one type. *)
Lemma set_run s m k f c : represents s m -> text k -> content_ok c -> dataType c <> DATA_TYPE_NOT_SET ->
  (forall e, f e = (same_type (data e) c, if same_type (data e) c then set_data c e else e)) ->
  exists s', findOrCreate k f s = Some (fst (map_set k c m), s') /\ represents s' (snd (map_set k c m)).
Proof.
  intros Hr Hk Hc Hnt Hf.
  destruct (findOrCreate_run s m k f (fun x => same_type x c) (fun x => if same_type x c then c else x) Hr Hk)
    as (s' & Hrun & Hr').
  - intros e He. rewrite Hf. destruct (same_type (data e) c); [done|]. split; [|done].
    by destruct e.
  - exists s'. rewrite Hrun. unfold map_set. cbn beta in Hr'.
    destruct (same_type (default NotSet (m !! short k)) c) eqn:E; [done|]. split; [done|].
    destruct (m !! short k) as [c0|] eqn:Em; cbn [default from_option id] in *.
    + rewrite insert_id in Hr'; done.
    + unfold same_type in E. rewrite bool_decide_true in E by (by left). done.
Qed.

Lemma with_found_run {A} s m k (missing : A) f g : represents s m -> text k ->
  g NotSet = missing -> (forall e, content_ok (data e) -> f e = g (data e)) ->
  with_found k missing f s = Some (g (default NotSet (m !! short k)), s).
Proof.
  intros Hr Hk Hm Hf. unfold with_found, mbnd, mget, mret.
  pose proof (represents_find s m k Hr Hk) as Hfind.
  destruct (find k s) as [e|]; cbn [option_map] in Hfind; rewrite <-Hfind; cbn [default from_option id].
  - rewrite Hf; [done|]. by apply (represents_ok s m (short k)).
  - by rewrite Hm.
Qed.

Lemma represents_unlink s m k : represents s m -> text k -> represents (unlink k s) (delete (short k) m).
Proof.
  intros Hr Hk. induction Hr as [|e k' s m He Hok Hn Hr IH]; cbn [unlink].
  - rewrite delete_empty. constructor.
  - rewrite (filed_equal e k') by done. case_bool_decide as E.
    + subst k'. rewrite delete_insert_eq, delete_id by done. done.
    + rewrite delete_insert_ne by done. apply represents_cons; [done|done| |done].
      by rewrite lookup_delete_ne.
Qed.

Lemma erase_run s m k : represents s m -> text k ->
  eraseKey k s = Some (bool_decide (is_Some (m !! short k)), unlink k s).
Proof.
  intros Hr Hk. unfold eraseKey, mbnd, mget, mput, mret.
  pose proof (represents_find s m k Hr Hk) as Hfind.
  destruct (find k s) as [e|] eqn:E; cbn [option_map] in Hfind; rewrite <-Hfind.
  - by rewrite bool_decide_true.
  - rewrite bool_decide_false by (by intros [? ?]). do 2 f_equal.
    clear -E. induction s as [|e s IH]; [done|]. cbn [find unlink] in *.
    destruct (isKeyEqual e k); [done|]. f_equal. by apply IH.
Qed.

Lemma strncpy_all v : strncpy_of (Zlen v + 1) v = v ++ [Byte.x00].
Proof.
  unfold strncpy_of. replace (Zlen v + 1 - Zlen v) with 1 by lia.
  rewrite take_ge by (unfold Zlen; lia). done.
Qed.

Lemma getString_value n e : content_ok (data e) ->
  element_getString n e = match data e with
    | String b => if Zlen b <=? n then Some (b ++ zeros (n - Zlen b)) else None
    | _ => None end.
Proof.
  unfold element_getString. destruct (data e) as [| | | | | |b]; try done. intros (t & Ht & ->).
  destruct (Z.leb_spec (Zlen (t ++ [Byte.x00])) n) as [Hn|]; [|done]. f_equal.
  rewrite Zlen_app in *. change (Zlen [Byte.x00]) with 1 in *.
  rewrite strlen_of_text by done. cbn [default from_option id]. unfold strncpy_of.
  rewrite (take_ge t) by (unfold Zlen in *; lia). rewrite length_app. cbn [length].
  replace (length t + 1 - 1)%nat with (length t) by lia. rewrite take_app_length.
  replace (zeros (n - Zlen t)) with (Byte.x00 :: zeros (n - (Zlen t + 1))).
  - rewrite <-drop_drop, drop_app_length. by rewrite <-app_assoc.
  - unfold zeros. replace (Z.to_nat (n - Zlen t)) with (S (Z.to_nat (n - (Zlen t + 1)))) by lia. done.
Qed.

Lemma op_run o s m : represents s m -> op_ok o ->
  exists s', run_op o s = Some (fst (map_op o m), s') /\ represents s' (snd (map_op o m)).
Proof.
  intros Hr [Hk Hv].
  assert (Hset : forall f c, content_ok c -> dataType c <> DATA_TYPE_NOT_SET ->
    (forall e, f e = (same_type (data e) c, if same_type (data e) c then set_data c e else e)) ->
    exists s', (let! r := findOrCreate (op_key o) f in mret (Done r)) s
      = Some (fst (let (r, m) := map_set (op_key o) c m in (Done r, m)), s') /\
    represents s' (snd (let (r, m) := map_set (op_key o) c m in (Done r, m)))).
  { intros f c Hc Ht Hf. destruct (set_run s m (op_key o) f c Hr Hk Hc Ht Hf) as (s' & Hrun & Hr').
    exists s'. unfold mbnd. rewrite Hrun. by destruct (map_set (op_key o) c m). }
  assert (Hget : forall A (missing : A) f g (h : A -> answer), g NotSet = missing ->
    (forall e, content_ok (data e) -> f e = g (data e)) ->
    exists s', (let! r := with_found (op_key o) missing f in mret (h r)) s
      = Some (h (g (default NotSet (m !! short (op_key o)))), s') /\ represents s' m).
  { intros A missing f g h Hm Hf. exists s. unfold mbnd.
    by rewrite (with_found_run s m (op_key o) missing f g). }
  destruct o as [k [v|]|k v|k v|k v|k v|k v|k n|k|k n|k|k|k|k|k|k]; cbn [op_key run_op map_op fst snd] in *;
    try (apply Hset; [done|discriminate|intros [ke []]; reflexivity]).
  - apply Hset; [by exists v|discriminate|]. intros [ke c]. unfold element_setString.
    rewrite strncpy_all. by destruct c.
  - destruct (findOrCreate_run s m k (element_setString None) (fun _ => false) id Hr Hk) as (s' & Hrun & Hr').
    { intros [ke c] Hc. done. }
    exists s'. unfold setString, mbnd. by rewrite Hrun.
  - apply (Hget _ None (element_getString n) (fun c => match c with
      | String b => if Zlen b <=? n then Some (b ++ zeros (n - Zlen b)) else None
      | _ => None end) Bytes); [done|]. apply getString_value.
  - by apply (Hget _ 0 element_getStringSize (fun c => match c with String b => Zlen b | _ => 0 end) Size).
  - by apply (Hget _ None (element_getBlob n) (fun c => match c with Blob b => if Zlen b =? n then Some b else None | _ => None end) Bytes).
  - by apply (Hget _ 0 element_getBlobSize (fun c => match c with Blob b => Zlen b | _ => 0 end) Size).
  - by apply (Hget _ None element_getInt8 (fun c => match c with Int8 v => Some v | _ => None end) Number).
  - by apply (Hget _ None element_getUInt8 (fun c => match c with UInt8 v => Some v | _ => None end) Number).
  - by apply (Hget _ None element_getInt32 (fun c => match c with Int32 v => Some v | _ => None end) Number).
  - by apply (Hget _ None element_getUInt32 (fun c => match c with UInt32 v => Some v | _ => None end) Number).
  - exists (unlink k s). unfold mbnd. rewrite (erase_run s m k Hr Hk). split; [done|]. by apply represents_unlink.
Qed.

(** C37: the store is a finite map from keys to typed values.  Any sequence of operations,
    on any store that represents a map, gives the answers of the map operations and leaves
    a store that represents their result.  Keys are cut to 15 characters; a setter of
    another type than the stored one is refused and changes nothing. *)
Theorem store_is_a_map l s m : represents s m -> Forall op_ok l ->
  exists s', run_ops l s = Some (fst (map_ops l m), s') /\ represents s' (snd (map_ops l m)).
Proof.
  intros Hr Hl. revert s m Hr. induction Hl as [|o l Ho _ IH]; intros s m Hr; cbn [run_ops map_ops].
  { exists s. done. }
  destruct (op_run o s m Hr Ho) as (s1 & H1 & Hr1). destruct (map_op o m) as [a m1]. cbn [fst snd] in *.
  destruct (IH s1 m1 Hr1) as (s2 & H2 & Hr2). destruct (map_ops l m1) as [r m2]. cbn [fst snd] in *.
  exists s2. unfold mbnd. by rewrite H1, H2.
Qed.

(** ** Serialization *)

Definition value_ok (c : content) : Prop :=
  match c with
  | NotSet => False
  | UInt8 v => 0 <= v < 2 ^ 8
  | Int8 v => - 2 ^ 7 <= v < 2 ^ 7
  | UInt32 v => 0 <= v < 2 ^ 32
  | Int32 v => - 2 ^ 31 <= v < 2 ^ 31
  | Blob b => Zlen b < 2 ^ 16
  | String b => content_ok c /\ Zlen b < 2 ^ 16
  end.

(** An element as the setters leave it, with a value of at most 65535 bytes. *)
Definition element_ok (e : KeyValueElement) : Prop := (exists k, filed e k) /\ value_ok (data e).

Definition encoded (e : KeyValueElement) : bytes := element_header e ++ data_bytes (data e).
Definition encoding (s : kv) : bytes := concat (map encoded s).

Lemma Zlen_strncpy n k : Zlen k <= n -> Zlen (strncpy_of n k) = n.
Proof.
  intros. unfold strncpy_of. rewrite Zlen_app, take_ge by (unfold Zlen in *; lia).
  rewrite Zlen_zeros; lia.
Qed.

Lemma filed_length e k : filed e k -> Zlen (key e) = 15.
Proof. intros (_ & Hl & ->). apply Zlen_strncpy. unfold Zlen. lia. Qed.

Lemma Zlen_encoded e : element_ok e -> Zlen (encoded e) = block_size (data e).
Proof.
  intros [[k Hk] Hv]. unfold encoded, element_header, block_size.
  rewrite !Zlen_app, !Zlen_le_split, (filed_length e k Hk). unfold SUPLA_STORAGE_KEY_SIZE.
  destruct (data e); cbn [data_bytes data_size]; rewrite ?Zlen_le_split; try done; lia.
Qed.

Lemma block_size_min c : 18 <= block_size c.
Proof.
  unfold block_size, SUPLA_STORAGE_KEY_SIZE.
  destruct c; cbn [data_size]; try lia; pose proof (Zlen_nonneg b); lia.
Qed.

Lemma serialize_run e n : element_ok e -> block_size (data e) <= n ->
  serialize n e = (block_size (data e), encoded e).
Proof.
  intros [_ Hv] Hn. unfold serialize. rewrite (proj2 (Z.ltb_ge _ _)) by done.
  unfold encoded. by destruct (data e).
Qed.

Lemma overlay_app pre w out : Zlen pre + Zlen w <= Zlen out -> take (length pre) out = pre ->
  let out' := overlay (Zlen pre) w out in
  Zlen out' = Zlen out /\ take (length (pre ++ w)) out' = pre ++ w.
Proof.
  intros Hl Hp out'. assert (E : out' = (pre ++ w) ++ drop (length (pre ++ w)) out).
  { unfold out', overlay. unfold Zlen at 1. rewrite Nat2Z.id, Hp, <-app_assoc. do 3 f_equal.
    rewrite length_app. unfold Zlen. lia. }
  split.
  - rewrite E, Zlen_app, Zlen_drop, Zlen_app. rewrite length_app. unfold Zlen in *. lia.
  - rewrite E. apply take_app_length.
Qed.

Lemma serialize_loop_run s : forall out pre, Forall element_ok s ->
  Zlen pre + Zlen (encoding s) <= Zlen out -> take (length pre) out = pre ->
  exists out', serialize_loop s out (Zlen out) (Zlen pre) = (Zlen pre + Zlen (encoding s), out') /\
    Zlen out' = Zlen out /\ take (length (pre ++ encoding s)) out' = pre ++ encoding s.
Proof.
  induction s as [|e s IH]; intros out pre Hs Hl Hp.
  { exists out. unfold encoding. cbn [map concat serialize_loop]. rewrite app_nil_r, Zlen_nil, Z.add_0_r. done. }
  apply List.Forall_cons_iff in Hs as [He Hs]. unfold encoding in *. cbn [map concat serialize_loop] in *.
  pose proof (Zlen_encoded e He) as Hen. pose proof (Zlen_nonneg (concat (map encoded s))).
  rewrite Zlen_app in Hl. rewrite (serialize_run e) by (done || lia).
  destruct (overlay_app pre (encoded e) out ltac:(lia) Hp) as [Hol Hot]. set (out1 := overlay _ _ _) in *.
  destruct (IH out1 (pre ++ encoded e) Hs) as (out' & Hrun & Hl' & Ht').
  - rewrite Zlen_app. lia.
  - done.
  - exists out'. rewrite Zlen_app, Hol, Hen in Hrun. rewrite Hrun, Zlen_app, Hen.
    split_and!; [f_equal; lia|lia|]. by rewrite <-app_assoc in Ht'.
Qed.

(** ** Deserialization *)

Lemma key_text_key k : text k -> (length k <= 15)%nat -> key_text (strncpy_of 15 k) = k.
Proof.
  intros Hk Hl. unfold key_text, strncpy_of. rewrite take_ge by lia.
  destruct (Z.eq_dec (Zlen k) 15) as [E|E].
  - replace (15 - Zlen k) with 0 by lia. change (zeros 0) with (@nil Init.Byte.byte). rewrite app_nil_r.
    clear - Hk. induction Hk as [|x k Hx Hk IH]; [done|]. cbn [strlen_of]. destruct x; try done;
      by destruct (strlen_of k); cbn [option_map default from_option id] in *; rewrite ?IH.
  - replace (zeros (15 - Zlen k)) with (Byte.x00 :: zeros (14 - Zlen k)).
    + by rewrite strlen_of_text.
    + unfold zeros. replace (Z.to_nat (15 - Zlen k)) with (S (Z.to_nat (14 - Zlen k))) by (unfold Zlen in *; lia).
      done.
Qed.

Lemma combine_take n z rest : 0 <= z < 2 ^ (Z.of_nat n * 8) ->
  le_combine (take n (le_split n z ++ rest)) = z.
Proof.
  intros Hz. rewrite take_app_le by (rewrite length_le_split; lia).
  rewrite take_ge by (rewrite length_le_split; lia). rewrite le_combine_split. by apply Z.mod_small.
Qed.

Lemma drop_split n z rest : drop n (le_split n z ++ rest) = rest.
Proof. rewrite <-(length_le_split n z) at 1. apply drop_app_length. Qed.

(** The value as [*input] delivers it: the bits of the number in two's complement. *)
Lemma combine_signed n z rest : le_combine (take n (le_split n z ++ rest)) = z mod 2 ^ (Z.of_nat n * 8).
Proof.
  rewrite take_app_le by (rewrite length_le_split; lia).
  rewrite take_ge by (rewrite length_le_split; lia). apply le_combine_split.
Qed.

Lemma sN_mod w z : 0 < w -> - 2 ^ (w - 1) <= z < 2 ^ (w - 1) -> sN w (z mod 2 ^ w) = z.
Proof.
  intros Hw Hz. unfold sN. rewrite Z.add_mod_idemp_l by (apply Z.pow_nonzero; lia).
  assert (2 ^ w = 2 * 2 ^ (w - 1)) by (rewrite <-Z.pow_succ_r by lia; f_equal; lia).
  rewrite Z.mod_small by lia. lia.
Qed.

Lemma parse_value_run c k rest : value_ok c ->
  parse_value (DataType_code (dataType c)) k
    (le_split 2 (u16 (data_size c)) ++ data_bytes c ++ rest)
  = Some (Some (set_data c (new_element k), rest)).
Proof.
  intros Hv. unfold parse_value. rewrite drop_split.
  pose proof (Zlen_nonneg rest).
  destruct c as [|v|v|v|v|b|b]; [done| | | | | |];
    cbn [dataType DataType_code Z.eqb Pos.eqb data_bytes data_size value_ok] in *.
  - rewrite Zlen_app, Zlen_le_split. rewrite (proj2 (Z.ltb_lt _ _)) by lia.
    by rewrite (combine_take 1), (drop_split 1) by (cbn; lia).
  - rewrite Zlen_app, Zlen_le_split. rewrite (proj2 (Z.ltb_lt _ _)) by lia.
    rewrite (combine_signed 1), (drop_split 1). change (2 ^ (Z.of_nat 1 * 8)) with (2 ^ 8).
    by rewrite sN_mod by (cbn; lia).
  - rewrite Zlen_app, Zlen_le_split. rewrite (proj2 (Z.ltb_lt _ _)) by lia.
    by rewrite (combine_take 4), (drop_split 4) by (cbn; lia).
  - rewrite Zlen_app, Zlen_le_split. rewrite (proj2 (Z.ltb_lt _ _)) by lia.
    rewrite (combine_signed 4), (drop_split 4). change (2 ^ (Z.of_nat 4 * 8)) with (2 ^ 32).
    by rewrite sN_mod by (cbn; lia).
  - pose proof (Zlen_nonneg b). rewrite uN_small by lia. rewrite (combine_take 2) by (cbn; lia).
    rewrite Zlen_app. rewrite (proj2 (Z.ltb_lt _ _)) by lia.
    unfold Zlen. by rewrite Nat2Z.id, take_app_length, drop_app_length.
  - destruct Hv as [(t & Ht & ->) Hl]. pose proof (Zlen_nonneg (t ++ [Byte.x00])).
    rewrite uN_small by lia. rewrite (combine_take 2) by (cbn; lia).
    rewrite (Zlen_app (t ++ [Byte.x00]) rest). rewrite (proj2 (Z.ltb_lt _ _)) by lia.
    rewrite (take_Zlen_app (t ++ [Byte.x00])), (drop_Zlen_app (t ++ [Byte.x00])) by done.
    rewrite strlen_of_text by done.
    cbn [element_setString snd new_element data]. by rewrite strncpy_all.
Qed.

Lemma parse_element_run e rest : element_ok e ->
  parse_element (encoded e ++ rest) = Some (Some (e, rest)).
Proof.
  intros [[k Hk] Hv]. unfold parse_element, encoded, element_header.
  pose proof (filed_length e k Hk) as Hl.
  change (Z.to_nat SUPLA_STORAGE_KEY_SIZE) with (Z.to_nat 15). rewrite <-!app_assoc.
  rewrite (take_Zlen_app (key e)), (drop_Zlen_app (key e)) by done.
  destruct Hk as (Ht & Hlk & He). rewrite He, key_text_key by done.
  rewrite (combine_take 1), (drop_split 1) by (destruct (data e); cbn; lia).
  rewrite parse_value_run by done. do 3 f_equal. destruct e as [ke c]. cbn in *. by subst ke.
Qed.

Lemma init_loop_run s : forall fuel tail acc, Forall element_ok s ->
  (0 < Zlen tail \/ forall s' e, s = s' ++ [e] -> 18 < block_size (data e)) ->
  (length s <= fuel)%nat ->
  init_loop fuel (encoding s ++ tail) acc = init_loop (fuel - length s) tail (acc ++ s).
Proof.
  induction s as [|e s IH]; intros fuel tail acc Hs Hlast Hf.
  { rewrite app_nil_r. cbn [length]. by rewrite Nat.sub_0_r. }
  apply List.Forall_cons_iff in Hs as [He Hs]. destruct fuel as [|fuel]; [cbn in Hf; lia|].
  unfold encoding. cbn [map concat init_loop length]. rewrite <-app_assoc. fold (encoding s).
  pose proof (Zlen_encoded e He) as Hen. pose proof (block_size_min (data e)).
  pose proof (Zlen_nonneg tail). pose proof (Zlen_nonneg (encoding s)).
  assert (Hlong : 18 < Zlen (encoded e ++ encoding s ++ tail)).
  { rewrite !Zlen_app. destruct Hlast as [?|Hlast]; [lia|]. destruct s as [|e' s].
    - specialize (Hlast [] e eq_refl). lia.
    - apply List.Forall_cons_iff in Hs as [He' _]. pose proof (Zlen_encoded e' He').
      pose proof (block_size_min (data e')). unfold encoding in *. cbn [map concat] in *.
      rewrite Zlen_app in *. pose proof (Zlen_nonneg (concat (map encoded s))). lia. }
  change (SUPLA_STORAGE_KEY_SIZE + 1 + 2) with 18. rewrite (proj2 (Z.ltb_lt _ _)) by done.
  unfold mbnd, mopt. rewrite parse_element_run by done. unfold mmod. rewrite IH.
  - rewrite <-app_assoc. done.
  - done.
  - destruct Hlast as [|Hlast]; [by left|right]. intros s' e' ->. by apply (Hlast (e :: s')).
  - cbn in Hf. lia.
Qed.

Lemma encoding_snoc s e : encoding (s ++ [e]) = encoding s ++ encoded e.
Proof. unfold encoding. rewrite map_app, concat_app. cbn [map concat]. by rewrite app_nil_r. Qed.

Lemma encoding_length s : Forall element_ok s -> (length s <= length (encoding s))%nat.
Proof.
  induction 1 as [|x l Hx _ IH]; [done|]. unfold encoding in *. cbn [map concat length].
  rewrite length_app. pose proof (Zlen_encoded x Hx). pose proof (block_size_min (data x)).
  unfold Zlen in *. lia.
Qed.

Definition is_empty_blob (c : content) : bool := match c with Blob [] => true | _ => false end.

(** The last element is a blob of no bytes. *)
Definition empty_blob_last (s : kv) : bool := is_empty_blob (data (List.last s (new_element []))).

Lemma block_size_blob c : value_ok c ->
  if is_empty_blob c then block_size c = 18 else 18 < block_size c.
Proof.
  intros Hv. unfold block_size, SUPLA_STORAGE_KEY_SIZE.
  destruct c as [|v|v|v|v|[|x b]|b]; cbn [data_size is_empty_blob value_ok] in *; rewrite ?Zlen_cons; try lia; try done.
  - pose proof (Zlen_nonneg b). lia.
  - destruct Hv as [(t & _ & ->) _]. rewrite Zlen_app. pose proof (Zlen_nonneg t).
    change (Zlen [Byte.x00]) with 1. lia.
Qed.

Lemma init_encoding s : s <> [] -> Forall element_ok s ->
  initFromMemory (encoding s) []
  = Some (negb (empty_blob_last s), if empty_blob_last s then removelast s else s).
Proof.
  intros Hne Hs. pose proof (encoding_length s Hs) as Hlen.
  destruct (List.exists_last Hne) as (s' & e & ->).
  pose proof Hs as [Hs' [He _]%List.Forall_cons_iff]%Forall_app.
  unfold empty_blob_last. rewrite List.last_last, List.removelast_last.
  pose proof (Zlen_encoded e He) as Hen. pose proof (block_size_min (data e)).
  pose proof (Zlen_nonneg (encoding s')). pose proof (block_size_blob (data e) (proj2 He)) as Hblob.
  unfold initFromMemory, mbnd, mget. change (SUPLA_STORAGE_KEY_SIZE + 1 + 2) with 18.
  rewrite (proj2 (Z.ltb_ge _ _)) by (rewrite encoding_snoc, Zlen_app; lia).
  rewrite length_app in Hlen. cbn [length] in Hlen.
  destruct (is_empty_blob (data e)); cbn [negb].
  - rewrite encoding_snoc in *. rewrite init_loop_run; [|done|left; lia|lia].
    set (fuel := (_ - _)%nat). assert (Hfuel : (0 < fuel)%nat) by (unfold fuel; rewrite length_app in *; lia).
    destruct fuel as [|fuel]; [lia|]. cbn [init_loop app].
    change (SUPLA_STORAGE_KEY_SIZE + 1 + 2) with 18. rewrite (proj2 (Z.ltb_ge _ _)) by lia.
    by rewrite (proj2 (Z.ltb_lt _ _)) by lia.
  - rewrite <-(app_nil_r (encoding (s' ++ [e]))) at 2.
    rewrite init_loop_run; [|done| |rewrite length_app; cbn; lia].
    + set (fuel := (_ - _)%nat).
      assert (Hfuel : (0 < fuel)%nat) by (unfold fuel; rewrite length_app; cbn; lia).
      by destruct fuel as [|fuel]; [lia|].
    + right. intros s2 e2 Heq. by apply app_inj_tail in Heq as [_ <-].
Qed.


(** ** Examples *)

Definition example_store : kv :=
  [{| key := strncpy_of 15 [Byte.x77; Byte.x69; Byte.x66; Byte.x69]; data := String [Byte.x61; Byte.x00] |};
   {| key := strncpy_of 15 [Byte.x69; Byte.x64]; data := Int8 (-3) |}].

Lemma store_is_a_map_witness :
  let k := [Byte.x69; Byte.x64] in
  exists s', run_ops [SetUInt32 k 7; SetInt8 k 1; GetUInt32 k; Erase k; GetUInt32 k] []
    = Some ([Done true; Done false; Number (Some 7); Done true; Number None], s') /\ represents s' ∅.
Proof.
  set (k := [Byte.x69; Byte.x64]).
  destruct (store_is_a_map [SetUInt32 k 7; SetInt8 k 1; GetUInt32 k; Erase k; GetUInt32 k] [] ∅)
    as (s' & Hrun & Hr).
  - constructor.
  - repeat (apply List.Forall_cons; [split; [unfold k; repeat constructor; discriminate|exact I]|]).
    apply List.Forall_nil.
  - exists s'. split; [exact Hrun|exact Hr].
Defined.

