(* ===== verification/Config.v ===== *)
(** * config.cpp: the parameters of a device over a key-value store

    The class [Config] calls the store through virtual functions, here the class
    [ConfigStore]; the key-value store of key_value.cpp is an instance.  The time [millis()]
    is an argument of the functions that read the clock. *)
From stdpp Require Import pretty.
From S2P Require Import Prelude ProtoConsts KeyValue.

Module Config.

(** The pure virtual functions of [Config], and [commit]. *)
Class ConfigStore (S : Type) := {
  setString : bytes -> option bytes -> M S bool;
  getString : bytes -> Z -> M S (option bytes);
  getStringSize : bytes -> M S Z;
  setBlob : bytes -> bytes -> M S bool;
  getBlob : bytes -> Z -> M S (option bytes);
  getInt8 : bytes -> M S (option Z);
  getUInt8 : bytes -> M S (option Z);
  getInt32 : bytes -> M S (option Z);
  setInt8 : bytes -> Z -> M S bool;
  setUInt8 : bytes -> Z -> M S bool;
  setInt32 : bytes -> Z -> M S bool;
  commit : M S unit }.

(** [KeyValue] as it is: [commit] of [Config] does nothing. *)
#[export] Instance KeyValue_store : ConfigStore (list KeyValue.KeyValueElement) :=
  {| setString := KeyValue.setString; getString := KeyValue.getString;
     getStringSize := KeyValue.getStringSize; setBlob := KeyValue.setBlob;
     getBlob := KeyValue.getBlob; getInt8 := KeyValue.getInt8; getUInt8 := KeyValue.getUInt8;
     getInt32 := KeyValue.getInt32; setInt8 := KeyValue.setInt8; setUInt8 := KeyValue.setUInt8;
     setInt32 := KeyValue.setInt32; commit := mret tt |}.

(** The characters of a literal. *)
Definition chars (s : string) : bytes := Stdlib.Strings.String.list_byte_of_string s.

Definition SUPLA_CONFIG_MAX_KEY_SIZE : Z := 16.
Definition MAX_SSID_SIZE : Z := 33.
Definition MAX_WIFI_PASSWORD_SIZE : Z := 64.
Definition MQTT_USERNAME_MAX_SIZE : Z := 256.
Definition MQTT_PASSWORD_MAX_SIZE : Z := 256.
Definition SUPLA_MAX_URL_LENGTH : Z := 202.
Definition SUPLA_CFG_MODE_SALT_SIZE : Z := 16.
Definition SUPLA_CFG_MODE_PASSWORD_SIZE : Z := 32.

(** Tags of config_tags.h that the functions below use. *)
Definition DeviceConfigChangeCfgTag : bytes := chars "devcfg_chng".
Definition ChannelFunctionTag : bytes := chars "fnc".
Definition ChannelConfigChangedFlagTag : bytes := chars "cfg_chng".
Definition OtaModeTag : bytes := chars "ota_mode".

(** All tags of config_tags.h, in the order of the file. *)
Definition config_tags : list string :=
  (["devcfg_chng"; "fnc"; "cfg_chng"; "bright"; "adj_auto_br"; "home_screen"; "scr_delay_t";
   "scr_delay"; "disable_ui"; "min_temp_ui"; "max_temp_ui"; "min_bright"; "pwr_led";
   "statusled"; "btn_type"; "btn_hold"; "btn_multiclick"; "btn_cfg"; "mqtt_at"; "volume";
   "em_ct"; "em_led"; "em_led_vl"; "em_led_vh"; "em_led_pl"; "em_led_ph"; "rgbw_btn";
   "lgc_mig"; "pwm_freq"; "rs_cfg"; "usd"; "bud"; "rs_margin"; "rs_ot"; "rs_ct"; "fb_tilt";
   "fb_type"; "tilt_cfg"; "oc_thr"; "hvac_cfg"; "hvac_weekly"; "hvac_aweekly"; "srv_invrt";
   "bs_cfg"; "container"; "valve_cfg"; "modbus_cfg"; "ota_mode"; "ds_sensor"])%string.

Inductive DeviceMode :=
| DEVICE_MODE_NOT_SET
| DEVICE_MODE_TEST
| DEVICE_MODE_NORMAL
| DEVICE_MODE_CONFIG
| DEVICE_MODE_SW_UPDATE
| DEVICE_MODE_OFFLINE
| DEVICE_MODE_NOT_CONFIGURED.

Inductive AutoUpdatePolicy := ForcedOff | Disabled | SecurityOnly | AllUpdates.

(** [snprintf(output, SUPLA_CONFIG_MAX_KEY_SIZE, "%d_%s", number, key)] *)
Definition generateKey (number : Z) (key : bytes) : bytes :=
  take (Z.to_nat (SUPLA_CONFIG_MAX_KEY_SIZE - 1)) (chars (pretty number) ++ chars "_" ++ key).

(** ** The salted password of the configuration mode *)

Record SaltPassword := { salt : bytes; passwordSha : bytes }.

Definition SaltPassword_bytes (p : SaltPassword) : bytes := salt p ++ passwordSha p.
Definition isSaltEmpty (p : SaltPassword) : bool := bool_decide (hd Byte.x00 (salt p) = Byte.x00).
Definition copySalt (other p : SaltPassword) : SaltPassword :=
  {| salt := salt other; passwordSha := passwordSha p |}.
Definition SaltPassword_equal (p other : SaltPassword) : bool :=
  bool_decide (salt p = salt other) && bool_decide (passwordSha p = passwordSha other).
Definition clear (p : SaltPassword) : SaltPassword :=
  {| salt := zeros SUPLA_CFG_MODE_SALT_SIZE; passwordSha := zeros SUPLA_CFG_MODE_PASSWORD_SIZE |}.

Section Store.
Context {S : Type} {store : ConfigStore S}.

(** ** Parameters *)

(** A string of at most [maxSize - 1] characters. *)
Definition set_text (key : bytes) (maxSize : Z) (value : bytes) : M S bool :=
  if maxSize - 1 <? Zlen value then mret false else setString key (Some value).

(** An int8 that is 1 for true; [dflt] is what a missing value counts as. *)
Definition get_flag (key : bytes) (dflt : Z) : M S bool :=
  let! r := getInt8 key in
  mret (default dflt r =? 1).
Definition set_flag (key : bytes) (enabled : bool) : M S bool :=
  setInt8 key (if enabled then 1 else 0).

Definition getWiFiSSID : M S (option bytes) := getString (chars "wifissid") MAX_SSID_SIZE.
Definition getWiFiPassword : M S (option bytes) := getString (chars "wifipasswd") MAX_WIFI_PASSWORD_SIZE.
Definition getAltWiFiSSID : M S (option bytes) := getString (chars "altwifissid") MAX_SSID_SIZE.
Definition getAltWiFiPassword : M S (option bytes) :=
  getString (chars "altwifipasswd") MAX_WIFI_PASSWORD_SIZE.
Definition getDeviceName : M S (option bytes) := getString (chars "devicename") SUPLA_DEVICE_NAME_MAXSIZE.
Definition getSuplaServer : M S (option bytes) := getString (chars "suplaserver") SUPLA_SERVER_NAME_MAXSIZE.
Definition getEmail : M S (option bytes) := getString (chars "email") SUPLA_EMAIL_MAXSIZE.
Definition getGUID : M S (option bytes) := getBlob (chars "guid") SUPLA_GUID_SIZE.
Definition getAuthKey : M S (option bytes) := getBlob (chars "authkey") SUPLA_AUTHKEY_SIZE.
Definition getMqttServer : M S (option bytes) := getString (chars "mqttserver") SUPLA_SERVER_NAME_MAXSIZE.
Definition getMqttUser : M S (option bytes) := getString (chars "mqttuser") MQTT_USERNAME_MAX_SIZE.
Definition getMqttPassword : M S (option bytes) := getString (chars "mqttpasswd") MQTT_PASSWORD_MAX_SIZE.
Definition getMqttPrefix : M S (option bytes) := getString (chars "mqttprefix") 49.
Definition getSwUpdateServer : M S (option bytes) := getString (chars "swupdateurl") SUPLA_MAX_URL_LENGTH.
Definition getCustomCA (size : Z) : M S (option bytes) := getString (chars "custom_ca") size.
Definition getCustomCASize : M S Z := getStringSize (chars "custom_ca").

Definition setWiFiSSID (ssid : bytes) : M S bool := set_text (chars "wifissid") MAX_SSID_SIZE ssid.
Definition setWiFiPassword (password : bytes) : M S bool :=
  set_text (chars "wifipasswd") MAX_WIFI_PASSWORD_SIZE password.
Definition setAltWiFiSSID (ssid : bytes) : M S bool := set_text (chars "altwifissid") MAX_SSID_SIZE ssid.
Definition setAltWiFiPassword (password : bytes) : M S bool :=
  set_text (chars "altwifipasswd") MAX_WIFI_PASSWORD_SIZE password.
Definition setDeviceName (name : bytes) : M S bool :=
  set_text (chars "devicename") SUPLA_DEVICE_NAME_MAXSIZE name.
Definition setSuplaServer (server : bytes) : M S bool :=
  set_text (chars "suplaserver") SUPLA_SERVER_NAME_MAXSIZE server.
Definition setEmail (email : bytes) : M S bool := set_text (chars "email") SUPLA_EMAIL_MAXSIZE email.
Definition setGUID (guid : bytes) : M S bool := setBlob (chars "guid") guid.
Definition setAuthKey (authkey : bytes) : M S bool := setBlob (chars "authkey") authkey.
Definition setMqttServer (server : bytes) : M S bool :=
  set_text (chars "mqttserver") SUPLA_SERVER_NAME_MAXSIZE server.
Definition setMqttUser (user : bytes) : M S bool := set_text (chars "mqttuser") MQTT_USERNAME_MAX_SIZE user.
Definition setMqttPassword (password : bytes) : M S bool :=
  set_text (chars "mqttpasswd") MQTT_PASSWORD_MAX_SIZE password.
Definition setMqttPrefix (prefix : bytes) : M S bool := set_text (chars "mqttprefix") 49 prefix.
Definition setSwUpdateServer (url : bytes) : M S bool := set_text (chars "swupdateurl") SUPLA_MAX_URL_LENGTH url.
Definition setCustomCA (customCA : bytes) : M S bool := setString (chars "custom_ca") (Some customCA).

(** The virtual function that a store with encryption overrides. *)
Definition isEncryptionEnabled : M S bool := mret false.

Definition isSuplaCommProtocolEnabled : M S bool := get_flag (chars "suplacommproto") 1.
Definition isMqttCommProtocolEnabled : M S bool := get_flag (chars "mqttcommproto") 0.
Definition isMqttTlsEnabled : M S bool :=
  let! e := isEncryptionEnabled in
  get_flag (chars "mqtttls") (if e then 1 else 0).
Definition isMqttAuthEnabled : M S bool := get_flag (chars "mqttauth") 1.
Definition isMqttRetainEnabled : M S bool := get_flag (chars "mqttretain") 0.
Definition isSwUpdateSkipCert : M S bool := get_flag (chars "swUpdNoCert") 0.
Definition isSwUpdateBeta : M S bool := get_flag (chars "swupdatebeta") 0.

Definition setSuplaCommProtocolEnabled (enabled : bool) : M S bool := set_flag (chars "suplacommproto") enabled.
Definition setMqttCommProtocolEnabled (enabled : bool) : M S bool := set_flag (chars "mqttcommproto") enabled.
Definition setMqttTlsEnabled (enabled : bool) : M S bool := set_flag (chars "mqtttls") enabled.
Definition setMqttAuthEnabled (enabled : bool) : M S bool := set_flag (chars "mqttauth") enabled.
Definition setMqttRetainEnabled (enabled : bool) : M S bool := set_flag (chars "mqttretain") enabled.
Definition setSwUpdateSkipCert (enabled : bool) : M S bool := set_flag (chars "swUpdNoCert") enabled.
Definition setSwUpdateBeta (enabled : bool) : M S bool := set_flag (chars "swupdatebeta") enabled.

Definition getDeviceMode : M S DeviceMode :=
  let! r := getInt32 (chars "devicemode") in
  mret (match r with
        | Some result =>
            if result =? 1 then DEVICE_MODE_TEST
            else if result =? 2 then DEVICE_MODE_NORMAL
            else if result =? 3 then DEVICE_MODE_CONFIG
            else if result =? 4 then DEVICE_MODE_SW_UPDATE
            else DEVICE_MODE_NOT_SET
        | None => DEVICE_MODE_NOT_SET
        end).

Definition setDeviceMode (mode : DeviceMode) : M S bool :=
  setInt32 (chars "devicemode")
    match mode with
    | DEVICE_MODE_TEST => 1
    | DEVICE_MODE_NORMAL => 2
    | DEVICE_MODE_CONFIG => 3
    | DEVICE_MODE_SW_UPDATE => 4
    | _ => 0
    end.

Definition getSuplaServerPort : M S Z :=
  let! r := getInt32 (chars "suplaport") in
  let result := default (-1) r in
  mret (if (result <=? 0) || (65536 <? result) then -1 else result).

Definition setSuplaServerPort (port : Z) : M S bool :=
  setInt32 (chars "suplaport") (if (port <=? 0) || (65536 <? port) then 2016 else port).

Definition getMqttServerPort : M S Z :=
  let! r := getInt32 (chars "mqttport") in
  let result := default (-1) r in
  if (result <=? 0) || (65536 <? result) then
    let! tls := isMqttTlsEnabled in
    mret (if tls then 8883 else 1883)
  else mret result.

Definition setMqttServerPort (port : Z) : M S bool :=
  setInt32 (chars "mqttport") (if (port <=? 0) || (65536 <? port) then 1883 else port).

Definition getMqttQos : M S Z :=
  let! r := getInt32 (chars "mqttqos") in
  let result := default (-1) r in
  mret (if result <? 0 then 0 else result).

Definition setMqttQos (qos : Z) : M S bool :=
  setInt32 (chars "mqttqos") (if qos <? 0 then 0 else if 2 <? qos then 2 else qos).

(** [!get(buf) || strlen(buf) == 0]: the value is missing. *)
Definition is_missing (r : option bytes) : bool :=
  match r with
  | Some (x :: _) => bool_decide (x = Byte.x00)
  | _ => true
  end.

(** [wifiConfigRequired]: there is a network interface, it is enabled and wants a WiFi
    configuration. *)
Definition isMinimalConfigReady (wifiConfigRequired : bool) : M S bool :=
  let require get next := let! r := get in if is_missing r then mret false else next in
  let mqtt_auth :=
    let! auth := isMqttAuthEnabled in
    if auth then require getMqttUser (require getMqttPassword (mret true)) else mret true in
  let mqtt :=
    let! enabled := isMqttCommProtocolEnabled in
    if enabled then require getMqttServer mqtt_auth else mret true in
  let supla :=
    let! enabled := isSuplaCommProtocolEnabled in
    if enabled then require getSuplaServer (require getEmail mqtt) else mqtt in
  if wifiConfigRequired then require getWiFiSSID (require getWiFiPassword supla) else supla.

(** ** Per channel *)

Definition setChannelConfigChangeFlag (channelNo configType : Z) : M S bool :=
  if configType =? 0 then setUInt8 (generateKey channelNo ChannelConfigChangedFlagTag) 1 else mret false.
Definition clearChannelConfigChangeFlag (channelNo configType : Z) : M S bool :=
  if configType =? 0 then setUInt8 (generateKey channelNo ChannelConfigChangedFlagTag) 0 else mret false.
Definition isChannelConfigChangeFlagSet (channelNo configType : Z) : M S bool :=
  if configType =? 0 then
    let! r := getUInt8 (generateKey channelNo ChannelConfigChangedFlagTag) in
    mret (default 0 r =? 1)
  else mret false.

Definition getChannelFunction (channelNo : Z) : M S Z :=
  if channelNo <? 0 then mret (-1)
  else
    let! r := getInt32 (generateKey channelNo ChannelFunctionTag) in
    mret (default (-1) r).
Definition setChannelFunction (channelNo channelFunction : Z) : M S bool :=
  if channelNo <? 0 then mret false
  else setInt32 (generateKey channelNo ChannelFunctionTag) channelFunction.

(** ** Firmware updates *)

Definition getAutoUpdatePolicy : M S AutoUpdatePolicy :=
  let! r := getUInt8 OtaModeTag in
  mret (match r with
        | Some otaPolicy =>
            if otaPolicy =? 0 then ForcedOff
            else if otaPolicy =? 1 then Disabled
            else if otaPolicy =? 2 then SecurityOnly
            else if otaPolicy =? 3 then AllUpdates
            else SecurityOnly
        | None => SecurityOnly
        end).

Definition setAutoUpdatePolicy (policy : AutoUpdatePolicy) : M S unit :=
  setUInt8 OtaModeTag
    match policy with SecurityOnly => 2 | AllUpdates => 3 | Disabled => 1 | ForcedOff => 0 end;;;
  mret tt.

(** ** The password of the configuration mode *)

Definition setCfgModeSaltPassword (saltPassword : SaltPassword) : M S bool :=
  setBlob (chars "cfgpass") (SaltPassword_bytes saltPassword).
Definition getCfgModeSaltPassword : M S (option bytes) :=
  getBlob (chars "cfgpass") (SUPLA_CFG_MODE_SALT_SIZE + SUPLA_CFG_MODE_PASSWORD_SIZE).
End Store.

Definition in_range (lo hi c : Z) : bool := (lo <=? c) && (c <=? hi).

Definition isPasswordStrong (password : bytes) : bool :=
  let codes := map byte.unsigned password in
  if Zlen password <? 8 then false
  else existsb (in_range 65 90) codes && existsb (in_range 97 122) codes && existsb (in_range 48 57) codes.

(** ** Delayed saves and the change flag of the device configuration *)

Record config (S : Type) := mk_config {
  cfg_store : S;
  saveDelayTimestamp : Z;
  deviceConfigUpdateDelayTimestamp : Z;
  saveDelayMs : Z;
  deviceConfigChangeFlag : Z }.
Arguments mk_config {S}.
Arguments cfg_store {S}.
Arguments saveDelayTimestamp {S}.
Arguments deviceConfigUpdateDelayTimestamp {S}.
Arguments saveDelayMs {S}.
Arguments deviceConfigChangeFlag {S}.

Section Flags.
Context {S : Type} {store : ConfigStore S}.
Abbreviation cfg := (config S).

Definition set_cfg_store (v : S) (c : cfg) : cfg :=
  mk_config v (saveDelayTimestamp c) (deviceConfigUpdateDelayTimestamp c) (saveDelayMs c)
    (deviceConfigChangeFlag c).
Definition set_saveDelay (ms timestamp : Z) (c : cfg) : cfg :=
  mk_config (cfg_store c) timestamp (deviceConfigUpdateDelayTimestamp c) ms (deviceConfigChangeFlag c).
Definition set_updateDelay (timestamp : Z) (c : cfg) : cfg :=
  mk_config (cfg_store c) (saveDelayTimestamp c) timestamp (saveDelayMs c) (deviceConfigChangeFlag c).
Definition set_changeFlag (flag : Z) (c : cfg) : cfg :=
  mk_config (cfg_store c) (saveDelayTimestamp c) (deviceConfigUpdateDelayTimestamp c) (saveDelayMs c) flag.

Definition on_store {A} (m : M S A) : M cfg A := fun c =>
  match m (cfg_store c) with
  | Some (a, s) => Some (a, set_cfg_store s c)
  | None => None
  end.

Definition saveWithDelay (millis delayMs : Z) : M cfg unit :=
  let! c := mget in
  if saveDelayMs c =? 0 then mmod (set_saveDelay delayMs millis) else mret tt.

Definition saveIfNeeded (millis : Z) : M cfg unit :=
  let! c := mget in
  (if negb (saveDelayMs c =? 0) then
     if saveDelayMs c <? u32 (millis - saveDelayTimestamp c) then
       on_store commit;;;
       mmod (set_saveDelay 0 0)
     else mret tt
   else mret tt);;;
  let! c := mget in
  if negb (deviceConfigUpdateDelayTimestamp c =? 0) then
    if 1000 <? u32 (millis - deviceConfigUpdateDelayTimestamp c) then
      (if deviceConfigChangeFlag c =? 1 then mmod (set_changeFlag 2) else mret tt);;;
      mmod (set_updateDelay 0)
    else mret tt
  else mret tt.

Definition isDeviceConfigChangeFlagSet : M cfg bool :=
  let! c := mget in
  (if deviceConfigChangeFlag c =? -1 then
     let! r := on_store (getUInt8 DeviceConfigChangeCfgTag) in
     let result := i8 (default 0 r) in
     mmod (set_changeFlag (if result =? 1 then 2 else result))
   else mret tt);;;
  let! c := mget in
  mret (negb (deviceConfigChangeFlag c =? 0)).

Definition isDeviceConfigChangeReadyToSend : M cfg bool :=
  let! set := isDeviceConfigChangeFlagSet in
  let! c := mget in
  mret (set && (deviceConfigChangeFlag c =? 2)).

Definition setDeviceConfigChangeFlag (millis : Z) : M cfg bool :=
  mmod (set_updateDelay millis);;;
  mmod (set_changeFlag 1);;;
  on_store (setUInt8 DeviceConfigChangeCfgTag 1).

Definition clearDeviceConfigChangeFlag : M cfg bool :=
  let! c := mget in
  if deviceConfigChangeFlag c =? 2 then
    mmod (set_updateDelay 0);;;
    mmod (set_changeFlag 0);;;
    on_store (setUInt8 DeviceConfigChangeCfgTag 0)
  else mret true.
End Flags.
End Config.
