(* ===== verification/ConfigProps.v ===== *)
(** * Theorems on config.cpp: keys of channels, and the change flag of the device *)
From stdpp Require Import pretty gmap.
From S2P Require Import Prelude KeyValue KeyValueProps Config.

Import Config.

(** ** Keys *)

Definition underscore : Init.Byte.byte := Byte.x5f.

(** What [Config.generateKey] writes before the underscore. *)
Definition digits (n : Z) : bytes := chars (pretty n).

Definition digits_ok (n : Z) : bool :=
  forallb (fun x => negb (bool_decide (x = underscore))) (digits n) && (Zlen (digits n) <=? 3).

Lemma small_digits_ok : forallb digits_ok (map Z.of_nat (seq 0 1000)) = true.
Proof. vm_compute. reflexivity. Qed.

Lemma digits_small n : 0 <= n < 1000 ->
  Forall (fun x => x <> underscore) (digits n) /\ (length (digits n) <= 3)%nat.
Proof.
  intros Hn. pose proof small_digits_ok as H. rewrite forallb_forall in H.
  specialize (H n). unfold digits_ok in H. rewrite andb_true_iff, forallb_forall in H.
  destruct H as [Hd Hl].
  { apply in_map_iff. exists (Z.to_nat n). split; [lia|]. apply in_seq. lia. }
  split; [|unfold Zlen in Hl; lia].
  apply List.Forall_forall. intros x Hx ->. specialize (Hd _ Hx). by rewrite bool_decide_true in Hd.
Qed.

Lemma chars_inj a b : chars a = chars b -> a = b.
Proof.
  intros H. rewrite <- (Stdlib.Strings.String.string_of_list_byte_of_string a).
  rewrite <- (Stdlib.Strings.String.string_of_list_byte_of_string b). by f_equal.
Qed.

Lemma split_at_underscore a b x y : Forall (fun c => c <> underscore) a ->
  Forall (fun c => c <> underscore) b -> a ++ underscore :: x = b ++ underscore :: y ->
  a = b /\ x = y.
Proof.
  intros Ha. revert b. induction Ha as [|c a Hc _ IH]; intros b Hb H; destruct Hb as [|d b Hd Hb].
  - by simplify_eq/=.
  - simplify_eq/=.
  - simplify_eq/=.
  - simplify_eq/=. destruct (IH b Hb) as [-> ->]; done.
Qed.

Lemma generateKey_small n tag : 0 <= n < 1000 ->
  generateKey n tag = digits n ++ underscore :: take (14 - length (digits n)) tag.
Proof.
  intros Hn. destruct (digits_small n Hn) as [_ Hl]. unfold generateKey.
  fold (digits n). change (chars "_") with [underscore]. rewrite take_app.
  change (Z.to_nat _) with 15%nat. rewrite firstn_all2 by lia.
  by replace (15 - length (digits n))%nat with (S (14 - length (digits n))) by lia.
Qed.

(** The tags stay apart when only eleven characters of each are left. *)
Definition tags_apart : bool :=
  forallb (fun a => forallb (fun b =>
    implb (bool_decide (take 11 (chars a) = take 11 (chars b))) (bool_decide (a = b))) config_tags)
    config_tags.

Lemma tags_are_apart : tags_apart = true.
Proof. vm_compute. reflexivity. Qed.

Lemma tag_of_prefix a b : In a config_tags -> In b config_tags ->
  take 11 (chars a) = take 11 (chars b) -> a = b.
Proof.
  intros Ha Hb H. pose proof tags_are_apart as T. unfold tags_apart in T.
  rewrite forallb_forall in T. specialize (T a Ha). rewrite forallb_forall in T.
  specialize (T b Hb). rewrite (bool_decide_true _ H) in T. by apply bool_decide_eq_true in T.
Qed.

(** C39: the keys of different channels or tags are different, although [generateKey] cuts
    them after 15 characters: this holds for the numbers below 1000 and all tags of
    config_tags.h, two of which are too long for three digits; and no such key is one of
    the tags that are used without a number. *)
Theorem channel_keys_distinct n1 n2 tag1 tag2 : 0 <= n1 < 1000 -> 0 <= n2 < 1000 ->
  In tag1 config_tags -> In tag2 config_tags ->
  (generateKey n1 (chars tag1) = generateKey n2 (chars tag2) -> n1 = n2 /\ tag1 = tag2) /\
  generateKey n1 (chars tag1) <> chars tag2.
Proof.
  intros Hn1 Hn2 Ht1 Ht2. rewrite !generateKey_small by done.
  destruct (digits_small n1 Hn1) as [Hd1 Hl1]. destruct (digits_small n2 Hn2) as [Hd2 Hl2]. split.
  - intros H. apply split_at_underscore in H as [Hd Ht]; [|done|done].
    apply chars_inj, (inj pretty) in Hd. subst n2. split; [done|].
    apply tag_of_prefix; [done|done|].
    apply (f_equal (take 11)) in Ht. rewrite !take_take in Ht.
    by replace (11 `min` (14 - length (digits n1)))%nat with 11%nat in Ht by lia.
  - assert (Hz : forallb (fun t => negb (byte.unsigned (hd Byte.x00 (chars t)) <=? 57)) config_tags = true)
      by (vm_compute; reflexivity).
    rewrite forallb_forall in Hz. specialize (Hz _ Ht2). intros E. rewrite <- E in Hz.
    assert (Hh : forallb (fun n => match digits n with x :: _ => byte.unsigned x <=? 57 | [] => false end)
      (map Z.of_nat (seq 0 1000)) = true) by (vm_compute; reflexivity).
    rewrite forallb_forall in Hh. specialize (Hh n1).
    assert (Hin : In n1 (map Z.of_nat (seq 0 1000)))
      by (apply in_map_iff; exists (Z.to_nat n1); split; [lia|apply in_seq; lia]).
    specialize (Hh Hin). destruct (digits n1) as [|x d]; [done|]. cbn in Hz. by rewrite Hh in Hz.
Qed.

Lemma channel_keys_distinct_witness :
  generateKey 127 (chars "hvac_aweekly") <> generateKey 127 (chars "hvac_weekly") /\
  generateKey 127 (chars "hvac_aweekly") = chars "127_hvac_aweekl".
Proof.
  split; [|vm_compute; reflexivity].
  intros H.
  destruct (channel_keys_distinct 127 127 "hvac_aweekly" "hvac_weekly") as [D _];
    [split; [discriminate|reflexivity]..| | |].
  - apply (proj1 (list_elem_of_In _ _)). apply (bool_decide_unpack _). vm_compute. exact I.
  - apply (proj1 (list_elem_of_In _ _)). apply (bool_decide_unpack _). vm_compute. exact I.
  - destruct (D H) as [_ E]. discriminate E.
Defined.

(** ** The change flag of the device configuration *)

#[local] Opaque DeviceConfigChangeCfgTag.

(** What an application does with the flag; the argument is [millis()]. *)
Inductive event :=
| Change (millis : Z)
| Tick (millis : Z)
| AskSet
| AskReady
| Clear
| Restart.

(** A restart on a store that keeps what was written. *)
Definition restarted {S} (c : config S) : config S := mk_config (cfg_store c) 0 0 0 (-1).

Definition answer {S} (m : M (config S) bool) : M (config S) (option bool) :=
  let! r := m in mret (Some r).

Definition run_event {S} {store : ConfigStore S} (e : event) : M (config S) (option bool) :=
  match e with
  | Change t => answer (setDeviceConfigChangeFlag t)
  | Tick t => saveIfNeeded t;;; mret None
  | AskSet => answer isDeviceConfigChangeFlagSet
  | AskReady => answer isDeviceConfigChangeReadyToSend
  | Clear => answer clearDeviceConfigChangeFlag
  | Restart => mmod restarted;;; mret None
  end.

Fixpoint run_events {S} {store : ConfigStore S} (l : list event) : M (config S) (list (option bool)) :=
  match l with
  | [] => mret []
  | e :: l => let! a := run_event e in let! r := run_events l in mret (a :: r)
  end.

(** The specification.  [Unread]: there is a change, recorded in the store, and nobody has
    asked since the restart. *)
Inductive change := Sent | Waiting (since : Z) | Ready | Unread.

Definition spec_event (e : event) (c : change) : option bool * change :=
  match e, c with
  | Change t, _ => (Some true, Waiting t)
  | Tick t, Waiting since =>
      (None, if negb (since =? 0) && (1000 <? u32 (t - since)) then Ready else c)
  | AskSet, Sent | AskReady, Sent => (Some false, Sent)
  | AskSet, Waiting t => (Some true, Waiting t)
  | AskReady, Waiting t => (Some false, Waiting t)
  | AskSet, _ | AskReady, _ => (Some true, Ready)
  | Clear, Ready => (Some true, Sent)
  | Clear, _ => (Some true, c)
  | Restart, Sent => (None, Sent)
  | Restart, _ => (None, Unread)
  | _, _ => (None, c)
  end.

Fixpoint spec_events (l : list event) (c : change) : list (option bool) * change :=
  match l with
  | [] => ([], c)
  | e :: l => let (a, c) := spec_event e c in let (r, c) := spec_events l c in (a :: r, c)
  end.

(** What the flag relies on: one value of eight bits is kept by the store. *)
Class FlagStore (S : Type) {store : ConfigStore S} := {
  holds : S -> option Z -> Prop;
  get_held s v : holds s v -> getUInt8 DeviceConfigChangeCfgTag s = Some (v, s);
  set_held s v x : holds s v -> 0 <= x < 256 ->
    exists s', setUInt8 DeviceConfigChangeCfgTag x s = Some (true, s') /\ holds s' (Some x);
  commit_held s v : holds s v -> exists s', commit s = Some (tt, s') /\ holds s' v }.

Section Flag.
Context {S : Type} {store : ConfigStore S} {laws : FlagStore S}.

Definition tracks (c : config S) (ch : change) : Prop :=
  match ch with
  | Sent => deviceConfigUpdateDelayTimestamp c = 0 /\
      (deviceConfigChangeFlag c = 0 \/ deviceConfigChangeFlag c = -1) /\
      exists v, holds (cfg_store c) v /\ default 0 v = 0
  | Waiting t => deviceConfigUpdateDelayTimestamp c = t /\ deviceConfigChangeFlag c = 1 /\
      holds (cfg_store c) (Some 1)
  | Ready => deviceConfigUpdateDelayTimestamp c = 0 /\ deviceConfigChangeFlag c = 2 /\
      holds (cfg_store c) (Some 1)
  | Unread => deviceConfigUpdateDelayTimestamp c = 0 /\ deviceConfigChangeFlag c = -1 /\
      holds (cfg_store c) (Some 1)
  end.

Lemma tracks_change t c ch : tracks c ch ->
  exists c', setDeviceConfigChangeFlag t c = Some (true, c') /\ tracks c' (Waiting t).
Proof.
  intros H. assert (Hv : exists v, holds (cfg_store c) v).
  { destruct ch; [destruct H as (_ & _ & v & Hv & _)|destruct H as (_ & _ & Hv)..]; eauto. }
  destruct Hv as (v & Hv). destruct (set_held _ _ 1 Hv ltac:(lia)) as (s' & Hs & Hh).
  destruct c as [s sd ts sm f]. cbn in Hs |- *.
  unfold setDeviceConfigChangeFlag, mbnd, mmod, on_store. cbn. rewrite Hs.
  eexists. split; [reflexivity|]. by split_and!.
Qed.

Lemma tracks_ask c ch : tracks c ch ->
  exists c', isDeviceConfigChangeFlagSet c = Some (default false (fst (spec_event AskSet ch)), c') /\
    tracks c' (snd (spec_event AskSet ch)).
Proof.
  destruct c as [s sd ts sm f]. unfold isDeviceConfigChangeFlagSet, mbnd, mget, on_store.
  destruct ch as [|t| |]; cbn.
  - intros (-> & [-> | ->] & v & Hv & Hd); cbn.
    + eexists. split; [reflexivity|]. split_and!; eauto.
    + rewrite (get_held _ _ Hv). cbn. rewrite Hd. eexists. split; [reflexivity|].
      split_and!; [done|by left|eauto].
  - intros (-> & -> & Hv). cbn. eexists. split; [reflexivity|]. by split_and!.
  - intros (-> & -> & Hv). cbn. eexists. split; [reflexivity|]. by split_and!.
  - intros (-> & -> & Hv). cbn. rewrite (get_held _ _ Hv). cbn.
    eexists. split; [reflexivity|]. by split_and!.
Qed.

Lemma tracks_ask_ready c ch : tracks c ch ->
  exists c', isDeviceConfigChangeReadyToSend c = Some (default false (fst (spec_event AskReady ch)), c') /\
    tracks c' (snd (spec_event AskReady ch)).
Proof.
  intros H. destruct (tracks_ask c ch H) as (c' & Hrun & Ht). exists c'.
  unfold isDeviceConfigChangeReadyToSend, mbnd, mget. rewrite Hrun. unfold mret.
  destruct ch as [|t| |]; cbn in Ht |- *; split; try done;
    destruct Ht as (_ & -> & _); reflexivity.
Qed.

Lemma tracks_clear c ch : tracks c ch ->
  exists c', clearDeviceConfigChangeFlag c = Some (true, c') /\ tracks c' (snd (spec_event Clear ch)).
Proof.
  destruct c as [s sd ts sm f]. unfold clearDeviceConfigChangeFlag, mbnd, mget, on_store.
  destruct ch as [|t| |]; cbn.
  - intros (-> & [-> | ->] & Hv); cbn; (eexists; split; [reflexivity|]; split_and!; auto).
  - intros (-> & -> & Hv). cbn. eexists. split; [reflexivity|]. by split_and!.
  - intros (-> & -> & Hv). cbn. destruct (set_held _ _ 0 Hv ltac:(lia)) as (s' & Hs & Hh).
    rewrite Hs. eexists. split; [reflexivity|]. split_and!; [done|by left|eauto].
  - intros (-> & -> & Hv). cbn. eexists. split; [reflexivity|]. by split_and!.
Qed.

Lemma tracks_saved c ch t : tracks c ch -> exists c', 
  (if negb (saveDelayMs c =? 0) then
     if saveDelayMs c <? u32 (t - saveDelayTimestamp c) then
       on_store commit;;; mmod (set_saveDelay 0 0)
     else mret tt
   else mret tt) c = Some (tt, c') /\ tracks c' ch.
Proof.
  intros H. destruct (negb _); [|by exists c]. destruct (_ <? _); [|by exists c].
  assert (Hv : exists v, holds (cfg_store c) v).
  { destruct ch; [destruct H as (_ & _ & v & Hv & _)|destruct H as (_ & _ & Hv)..]; eauto. }
  destruct Hv as (v & Hv).
  assert (Hall : forall w, holds (cfg_store c) w -> v = w).
  { intros w Hw. pose proof (get_held _ _ Hv) as E. rewrite (get_held _ _ Hw) in E. by injection E. }
  destruct (commit_held _ _ Hv) as (s' & Hs & Hh).
  unfold mbnd, on_store, mmod. rewrite Hs. eexists. split; [reflexivity|].
  destruct ch; cbn in H |- *.
  - destruct H as (? & ? & w & Hw & Hd). rewrite <-(Hall w Hw) in Hd. split_and!; eauto.
  - destruct H as (? & ? & Hw). rewrite (Hall _ Hw) in Hh. by split_and!.
  - destruct H as (? & ? & Hw). rewrite (Hall _ Hw) in Hh. by split_and!.
  - destruct H as (? & ? & Hw). rewrite (Hall _ Hw) in Hh. by split_and!.
Qed.

Lemma tracks_tick c ch t : tracks c ch ->
  exists c', saveIfNeeded t c = Some (tt, c') /\ tracks c' (snd (spec_event (Tick t) ch)).
Proof.
  intros H. destruct (tracks_saved c ch t H) as ([s sd ts sm f] & Hrun & H').
  unfold saveIfNeeded. unfold mbnd at 1. unfold mget at 1. unfold mbnd at 1. rewrite Hrun.
  unfold mbnd, mget. destruct ch as [|u| |]; cbn in H' |- *.
  - destruct H' as (-> & ? & ?). cbn. eexists. split; [reflexivity|]. by split_and!.
  - destruct H' as (-> & -> & Hv). cbn. destruct (u =? 0) eqn:E; cbn.
    + eexists. split; [reflexivity|]. by split_and!.
    + destruct (1000 <? u32 (t - u)); (eexists; split; [reflexivity|]); by split_and!.
  - destruct H' as (-> & ? & ?). cbn. eexists. split; [reflexivity|]. by split_and!.
  - destruct H' as (-> & ? & ?). cbn. eexists. split; [reflexivity|]. by split_and!.
Qed.

Lemma tracks_event e c ch : tracks c ch ->
  exists c', run_event e c = Some (fst (spec_event e ch), c') /\ tracks c' (snd (spec_event e ch)).
Proof.
  intros H. unfold run_event, answer. destruct e as [t|t| | | |]; unfold mbnd at 1.
  - destruct (tracks_change t c ch H) as (c' & -> & Ht). exists c'. by split; [|destruct ch].
  - destruct (tracks_tick c ch t H) as (c' & -> & Ht). exists c'. by split; [destruct ch|].
  - destruct (tracks_ask c ch H) as (c' & -> & Ht). exists c'. by split; [destruct ch|].
  - destruct (tracks_ask_ready c ch H) as (c' & -> & Ht). exists c'. by split; [destruct ch|].
  - destruct (tracks_clear c ch H) as (c' & -> & Ht). exists c'. by split; [destruct ch|].
  - exists (restarted c). unfold mmod, mret. split; [by destruct ch|].
    destruct ch; cbn in H |- *; destruct H as (? & ? & ?); split_and!; auto.
Qed.

End Flag.

(** The key-value store keeps the flag. *)
Definition flag_of (m : gmap bytes KeyValue.content) (v : option Z) : Prop :=
  match v with
  | Some x => m !! DeviceConfigChangeCfgTag = Some (KeyValue.UInt8 x)
  | None => m !! DeviceConfigChangeCfgTag = None
  end.

Lemma tag_text : text DeviceConfigChangeCfgTag.
Proof. by apply (bool_decide_unpack _). Qed.

Lemma tag_short : short DeviceConfigChangeCfgTag = DeviceConfigChangeCfgTag.
Proof. reflexivity. Qed.

#[export] Instance KeyValue_flag : FlagStore (list KeyValue.KeyValueElement).
Proof.
  refine {| holds s v := exists m, represents s m /\ flag_of m v |}.
  - intros s v (m & Hr & Hf). cbn [getUInt8 KeyValue_store]. unfold KeyValue.getUInt8.
    rewrite (with_found_run s m _ _ _ (fun c => match c with KeyValue.UInt8 x => Some x | _ => None end)
      Hr tag_text) by done.
    rewrite tag_short. destruct v; cbn in Hf; by rewrite Hf.
  - intros s v x (m & Hr & Hf) Hx. cbn [setUInt8 KeyValue_store]. unfold KeyValue.setUInt8.
    destruct (set_run s m DeviceConfigChangeCfgTag (KeyValue.element_setUInt8 x) (KeyValue.UInt8 x)
      Hr tag_text) as (s' & Hrun & Hr'); [done|done|by intros [k []]|].
    unfold map_set in Hrun, Hr'. rewrite tag_short in Hrun, Hr'.
    assert (E : same_type (default KeyValue.NotSet (m !! DeviceConfigChangeCfgTag)) (KeyValue.UInt8 x)
      = true) by (destruct v; cbn in Hf; by rewrite Hf).
    rewrite E in Hrun, Hr'. exists s'. split; [exact Hrun|].
    exists (<[DeviceConfigChangeCfgTag := KeyValue.UInt8 x]> m). split; [exact Hr'|].
    cbn. by rewrite lookup_insert_eq.
  - intros s v H. exists s. by split.
Defined.

(** ** Examples *)

Definition example_config : config (list KeyValue.KeyValueElement) := mk_config [] 0 0 0 (-1).


(** A change at the moment 0 of the clock never becomes ready without a restart. *)
Lemma change_at_zero_waits l : Forall (fun e => match e with Tick _ | AskSet | AskReady | Clear => True | _ => False end) l ->
  snd (spec_events l (Waiting 0)) = Waiting 0.
Proof.
  induction 1 as [|e l He _ IH]; [done|]. cbn [spec_events].
  assert (E : snd (spec_event e (Waiting 0)) = Waiting 0) by (by destruct e).
  destruct (spec_event e (Waiting 0)) as [a c]. cbn in E. subst c.
  by destruct (spec_events l (Waiting 0)).
Qed.

(** A mode that the configuration has no number for is stored as no mode. *)
Lemma offline_mode_forgotten :
  option_map fst ((setDeviceMode DEVICE_MODE_OFFLINE;;; getDeviceMode) ([] : list KeyValue.KeyValueElement))
  = Some DEVICE_MODE_NOT_SET.
Proof. vm_compute. reflexivity. Qed.
