(* ===== verification/DeviceConsts.v ===== *)
(** * Constants of proto.h that the C++ classes use

    Channel types and functions, their bits in the function list, and the flags of channels,
    values and devices, in the order of proto.h. *)
From S2P Require Import Prelude.

Definition SUPLA_CHANNELTYPE_SENSORNO : Z := 1000.
Definition SUPLA_CHANNELTYPE_BINARYSENSOR : Z := 1000.
Definition SUPLA_CHANNELTYPE_SENSORNC : Z := 1010.
Definition SUPLA_CHANNELTYPE_DISTANCESENSOR : Z := 1020.
Definition SUPLA_CHANNELTYPE_CALLBUTTON : Z := 1500.
Definition SUPLA_CHANNELTYPE_RELAYHFD4 : Z := 2000.
Definition SUPLA_CHANNELTYPE_RELAYG5LA1A : Z := 2010.
Definition SUPLA_CHANNELTYPE_2XRELAYG5LA1A : Z := 2020.
Definition SUPLA_CHANNELTYPE_RELAY : Z := 2900.
Definition SUPLA_CHANNELTYPE_THERMOMETERDS18B20 : Z := 3000.
Definition SUPLA_CHANNELTYPE_DHT11 : Z := 3010.
Definition SUPLA_CHANNELTYPE_DHT22 : Z := 3020.
Definition SUPLA_CHANNELTYPE_DHT21 : Z := 3022.
Definition SUPLA_CHANNELTYPE_AM2302 : Z := 3030.
Definition SUPLA_CHANNELTYPE_AM2301 : Z := 3032.
Definition SUPLA_CHANNELTYPE_THERMOMETER : Z := 3034.
Definition SUPLA_CHANNELTYPE_HUMIDITYSENSOR : Z := 3036.
Definition SUPLA_CHANNELTYPE_HUMIDITYANDTEMPSENSOR : Z := 3038.
Definition SUPLA_CHANNELTYPE_WINDSENSOR : Z := 3042.
Definition SUPLA_CHANNELTYPE_PRESSURESENSOR : Z := 3044.
Definition SUPLA_CHANNELTYPE_RAINSENSOR : Z := 3048.
Definition SUPLA_CHANNELTYPE_WEIGHTSENSOR : Z := 3050.
Definition SUPLA_CHANNELTYPE_WEATHER_STATION : Z := 3100.
Definition SUPLA_CHANNELTYPE_CONTAINER : Z := 3200.
Definition SUPLA_CHANNELTYPE_DIMMER : Z := 4000.
Definition SUPLA_CHANNELTYPE_RGBLEDCONTROLLER : Z := 4010.
Definition SUPLA_CHANNELTYPE_DIMMERANDRGBLED : Z := 4020.
Definition SUPLA_CHANNELTYPE_ELECTRICITY_METER : Z := 5000.
Definition SUPLA_CHANNELTYPE_IMPULSE_COUNTER : Z := 5010.
Definition SUPLA_CHANNELTYPE_THERMOSTAT : Z := 6000.
Definition SUPLA_CHANNELTYPE_THERMOSTAT_HEATPOL_HOMEPLUS : Z := 6010.
Definition SUPLA_CHANNELTYPE_HVAC : Z := 6100.
Definition SUPLA_CHANNELTYPE_VALVE_OPENCLOSE : Z := 7000.
Definition SUPLA_CHANNELTYPE_VALVE_PERCENTAGE : Z := 7010.
Definition SUPLA_CHANNELTYPE_BRIDGE : Z := 8000.
Definition SUPLA_CHANNELTYPE_GENERAL_PURPOSE_MEASUREMENT : Z := 9000.
Definition SUPLA_CHANNELTYPE_GENERAL_PURPOSE_METER : Z := 9010.
Definition SUPLA_CHANNELTYPE_ENGINE : Z := 10000.
Definition SUPLA_CHANNELTYPE_ACTIONTRIGGER : Z := 11000.
Definition SUPLA_CHANNELTYPE_DIGIGLASS : Z := 12000.
Definition SUPLA_CHANNELFNC_NONE : Z := 0.
Definition SUPLA_CHANNELFNC_CONTROLLINGTHEGATEWAYLOCK : Z := 10.
Definition SUPLA_CHANNELFNC_CONTROLLINGTHEGATE : Z := 20.
Definition SUPLA_CHANNELFNC_CONTROLLINGTHEGARAGEDOOR : Z := 30.
Definition SUPLA_CHANNELFNC_THERMOMETER : Z := 40.
Definition SUPLA_CHANNELFNC_HUMIDITY : Z := 42.
Definition SUPLA_CHANNELFNC_HUMIDITYANDTEMPERATURE : Z := 45.
Definition SUPLA_CHANNELFNC_OPENINGSENSOR_GATEWAY : Z := 50.
Definition SUPLA_CHANNELFNC_OPENINGSENSOR_GATE : Z := 60.
Definition SUPLA_CHANNELFNC_OPENINGSENSOR_GARAGEDOOR : Z := 70.
Definition SUPLA_CHANNELFNC_NOLIQUIDSENSOR : Z := 80.
Definition SUPLA_CHANNELFNC_CONTROLLINGTHEDOORLOCK : Z := 90.
Definition SUPLA_CHANNELFNC_OPENINGSENSOR_DOOR : Z := 100.
Definition SUPLA_CHANNELFNC_CONTROLLINGTHEROLLERSHUTTER : Z := 110.
Definition SUPLA_CHANNELFNC_CONTROLLINGTHEROOFWINDOW : Z := 115.
Definition SUPLA_CHANNELFNC_OPENINGSENSOR_ROLLERSHUTTER : Z := 120.
Definition SUPLA_CHANNELFNC_OPENINGSENSOR_ROOFWINDOW : Z := 125.
Definition SUPLA_CHANNELFNC_POWERSWITCH : Z := 130.
Definition SUPLA_CHANNELFNC_LIGHTSWITCH : Z := 140.
Definition SUPLA_CHANNELFNC_RING : Z := 150.
Definition SUPLA_CHANNELFNC_ALARM : Z := 160.
Definition SUPLA_CHANNELFNC_NOTIFICATION : Z := 170.
Definition SUPLA_CHANNELFNC_DIMMER : Z := 180.
Definition SUPLA_CHANNELFNC_DIMMER_CCT : Z := 185.
Definition SUPLA_CHANNELFNC_RGBLIGHTING : Z := 190.
Definition SUPLA_CHANNELFNC_DIMMERANDRGBLIGHTING : Z := 200.
Definition SUPLA_CHANNELFNC_DIMMER_CCT_AND_RGB : Z := 205.
Definition SUPLA_CHANNELFNC_DEPTHSENSOR : Z := 210.
Definition SUPLA_CHANNELFNC_DISTANCESENSOR : Z := 220.
Definition SUPLA_CHANNELFNC_OPENINGSENSOR_WINDOW : Z := 230.
Definition SUPLA_CHANNELFNC_HOTELCARDSENSOR : Z := 235.
Definition SUPLA_CHANNELFNC_ALARMARMAMENTSENSOR : Z := 236.
Definition SUPLA_CHANNELFNC_MAILSENSOR : Z := 240.
Definition SUPLA_CHANNELFNC_WINDSENSOR : Z := 250.
Definition SUPLA_CHANNELFNC_PRESSURESENSOR : Z := 260.
Definition SUPLA_CHANNELFNC_RAINSENSOR : Z := 270.
Definition SUPLA_CHANNELFNC_WEIGHTSENSOR : Z := 280.
Definition SUPLA_CHANNELFNC_WEATHER_STATION : Z := 290.
Definition SUPLA_CHANNELFNC_STAIRCASETIMER : Z := 300.
Definition SUPLA_CHANNELFNC_ELECTRICITY_METER : Z := 310.
Definition SUPLA_CHANNELFNC_IC_ELECTRICITY_METER : Z := 315.
Definition SUPLA_CHANNELFNC_IC_GAS_METER : Z := 320.
Definition SUPLA_CHANNELFNC_IC_WATER_METER : Z := 330.
Definition SUPLA_CHANNELFNC_IC_HEAT_METER : Z := 340.
Definition SUPLA_CHANNELFNC_IC_EVENTS : Z := 350.
Definition SUPLA_CHANNELFNC_IC_SECONDS : Z := 360.
Definition SUPLA_CHANNELFNC_THERMOSTAT_HEATPOL_HOMEPLUS : Z := 410.
Definition SUPLA_CHANNELFNC_HVAC_THERMOSTAT : Z := 420.
Definition SUPLA_CHANNELFNC_HVAC_THERMOSTAT_HEAT_COOL : Z := 422.
Definition SUPLA_CHANNELFNC_HVAC_DRYER : Z := 423.
Definition SUPLA_CHANNELFNC_HVAC_FAN : Z := 424.
Definition SUPLA_CHANNELFNC_HVAC_THERMOSTAT_DIFFERENTIAL : Z := 425.
Definition SUPLA_CHANNELFNC_HVAC_DOMESTIC_HOT_WATER : Z := 426.
Definition SUPLA_CHANNELFNC_VALVE_OPENCLOSE : Z := 500.
Definition SUPLA_CHANNELFNC_VALVE_PERCENTAGE : Z := 510.
Definition SUPLA_CHANNELFNC_GENERAL_PURPOSE_MEASUREMENT : Z := 520.
Definition SUPLA_CHANNELFNC_GENERAL_PURPOSE_METER : Z := 530.
Definition SUPLA_CHANNELFNC_CONTROLLINGTHEENGINESPEED : Z := 600.
Definition SUPLA_CHANNELFNC_ACTIONTRIGGER : Z := 700.
Definition SUPLA_CHANNELFNC_DIGIGLASS_HORIZONTAL : Z := 800.
Definition SUPLA_CHANNELFNC_DIGIGLASS_VERTICAL : Z := 810.
Definition SUPLA_CHANNELFNC_CONTROLLINGTHEFACADEBLIND : Z := 900.
Definition SUPLA_CHANNELFNC_TERRACE_AWNING : Z := 910.
Definition SUPLA_CHANNELFNC_PROJECTOR_SCREEN : Z := 920.
Definition SUPLA_CHANNELFNC_CURTAIN : Z := 930.
Definition SUPLA_CHANNELFNC_VERTICAL_BLIND : Z := 940.
Definition SUPLA_CHANNELFNC_ROLLER_GARAGE_DOOR : Z := 950.
Definition SUPLA_CHANNELFNC_PUMPSWITCH : Z := 960.
Definition SUPLA_CHANNELFNC_HEATORCOLDSOURCESWITCH : Z := 970.
Definition SUPLA_CHANNELFNC_CONTAINER : Z := 980.
Definition SUPLA_CHANNELFNC_SEPTIC_TANK : Z := 981.
Definition SUPLA_CHANNELFNC_WATER_TANK : Z := 982.
Definition SUPLA_CHANNELFNC_CONTAINER_LEVEL_SENSOR : Z := 990.
Definition SUPLA_CHANNELFNC_FLOOD_SENSOR : Z := 1000.
Definition SUPLA_CHANNELFNC_MOTION_SENSOR : Z := 1010.
Definition SUPLA_CHANNELFNC_BINARY_SENSOR : Z := 1020.
Definition SUPLA_BIT_FUNC_CONTROLLINGTHEGATEWAYLOCK : Z := 1.
Definition SUPLA_BIT_FUNC_CONTROLLINGTHEGATE : Z := 2.
Definition SUPLA_BIT_FUNC_CONTROLLINGTHEGARAGEDOOR : Z := 4.
Definition SUPLA_BIT_FUNC_CONTROLLINGTHEDOORLOCK : Z := 8.
Definition SUPLA_BIT_FUNC_CONTROLLINGTHEROLLERSHUTTER : Z := 16.
Definition SUPLA_BIT_FUNC_POWERSWITCH : Z := 32.
Definition SUPLA_BIT_FUNC_LIGHTSWITCH : Z := 64.
Definition SUPLA_BIT_FUNC_STAIRCASETIMER : Z := 128.
Definition SUPLA_BIT_FUNC_THERMOMETER : Z := 256.
Definition SUPLA_BIT_FUNC_HUMIDITYANDTEMPERATURE : Z := 512.
Definition SUPLA_BIT_FUNC_HUMIDITY : Z := 1024.
Definition SUPLA_BIT_FUNC_WINDSENSOR : Z := 2048.
Definition SUPLA_BIT_FUNC_PRESSURESENSOR : Z := 4096.
Definition SUPLA_BIT_FUNC_RAINSENSOR : Z := 8192.
Definition SUPLA_BIT_FUNC_WEIGHTSENSOR : Z := 16384.
Definition SUPLA_BIT_FUNC_CONTROLLINGTHEROOFWINDOW : Z := 32768.
Definition SUPLA_BIT_FUNC_CONTROLLINGTHEFACADEBLIND : Z := 65536.
Definition SUPLA_BIT_FUNC_HVAC_THERMOSTAT : Z := 131072.
Definition SUPLA_BIT_FUNC_HVAC_THERMOSTAT_HEAT_COOL : Z := 262144.
Definition SUPLA_BIT_FUNC_HVAC_THERMOSTAT_DIFFERENTIAL : Z := 524288.
Definition SUPLA_BIT_FUNC_HVAC_DOMESTIC_HOT_WATER : Z := 1048576.
Definition SUPLA_BIT_FUNC_TERRACE_AWNING : Z := 2097152.
Definition SUPLA_BIT_FUNC_PROJECTOR_SCREEN : Z := 4194304.
Definition SUPLA_BIT_FUNC_CURTAIN : Z := 8388608.
Definition SUPLA_BIT_FUNC_VERTICAL_BLIND : Z := 16777216.
Definition SUPLA_BIT_FUNC_ROLLER_GARAGE_DOOR : Z := 33554432.
Definition SUPLA_BIT_FUNC_PUMPSWITCH : Z := 67108864.
Definition SUPLA_BIT_FUNC_HEATORCOLDSOURCESWITCH : Z := 134217728.
Definition SUPLA_RGBW_BIT_FUNC_DIMMER : Z := 1.
Definition SUPLA_RGBW_BIT_FUNC_RGB_LIGHTING : Z := 2.
Definition SUPLA_RGBW_BIT_FUNC_DIMMER_AND_RGB_LIGHTING : Z := 4.
Definition SUPLA_RGBW_BIT_FUNC_DIMMER_CCT : Z := 8.
Definition SUPLA_RGBW_BIT_FUNC_DIMMER_CCT_AND_RGB : Z := 16.
Definition SUPLA_DEVICE_FLAG_CALCFG_ENTER_CFG_MODE : Z := 16.
Definition SUPLA_DEVICE_FLAG_SLEEP_MODE_ENABLED : Z := 32.
Definition SUPLA_DEVICE_FLAG_CALCFG_SET_TIME : Z := 64.
Definition SUPLA_DEVICE_FLAG_DEVICE_CONFIG_SUPPORTED : Z := 128.
Definition SUPLA_DEVICE_FLAG_DEVICE_LOCKED : Z := 256.
Definition SUPLA_DEVICE_FLAG_CALCFG_SUBDEVICE_PAIRING : Z := 512.
Definition SUPLA_DEVICE_FLAG_CALCFG_IDENTIFY_DEVICE : Z := 1024.
Definition SUPLA_DEVICE_FLAG_CALCFG_RESTART_DEVICE : Z := 2048.
Definition SUPLA_DEVICE_FLAG_ALWAYS_ALLOW_CHANNEL_DELETION : Z := 4096.
Definition SUPLA_DEVICE_FLAG_BLOCK_ADDING_CHANNELS_AFTER_DELETION : Z := 8192.
Definition SUPLA_DEVICE_FLAG_CALCFG_FACTORY_RESET_SUPPORTED : Z := 16384.
Definition SUPLA_DEVICE_FLAG_AUTOMATIC_FIRMWARE_UPDATE_SUPPORTED : Z := 32768.
Definition SUPLA_DEVICE_FLAG_CALCFG_SET_CFG_MODE_PASSWORD_SUPPORTED : Z := 65536.
Definition SUPLA_CHANNEL_FLAG_ZWAVE_BRIDGE : Z := 1.
Definition SUPLA_CHANNEL_FLAG_IR_BRIDGE : Z := 2.
Definition SUPLA_CHANNEL_FLAG_RF_BRIDGE : Z := 4.
Definition SUPLA_CHANNEL_FLAG_OCR : Z := 8.
Definition SUPLA_CHANNEL_FLAG_FLOOD_SENSORS_SUPPORTED : Z := 16.
Definition SUPLA_CHANNEL_FLAG_FILL_LEVEL_REPORTING_IN_FULL_RANGE : Z := 32.
Definition SUPLA_CHANNEL_FLAG_VALVE_MOTOR_ALARM_SUPPORTED : Z := 64.
Definition SUPLA_CHANNEL_FLAG_RS_SBS_AND_STOP_ACTIONS : Z := 128.
Definition SUPLA_CHANNEL_FLAG_RGBW_COMMANDS_SUPPORTED : Z := 256.
Definition SUPLA_CHANNEL_FLAG_ALWAYS_ALLOW_CHANNEL_DELETION : Z := 512.
Definition SUPLA_CHANNEL_FLAG_RS_AUTO_CALIBRATION : Z := 4096.
Definition SUPLA_CHANNEL_FLAG_CALCFG_RESET_COUNTERS : Z := 8192.
Definition SUPLA_CHANNEL_FLAG_CALCFG_RECALIBRATE : Z := 16384.
Definition SUPLA_CHANNEL_FLAG_CALCFG_IDENTIFY_SUBDEVICE : Z := 32768.
Definition SUPLA_CHANNEL_FLAG_CHANNELSTATE : Z := 65536.
Definition SUPLA_CHANNEL_FLAG_PHASE1_UNSUPPORTED : Z := 131072.
Definition SUPLA_CHANNEL_FLAG_PHASE2_UNSUPPORTED : Z := 262144.
Definition SUPLA_CHANNEL_FLAG_PHASE3_UNSUPPORTED : Z := 524288.
Definition SUPLA_CHANNEL_FLAG_TIME_SETTING_NOT_AVAILABLE : Z := 1048576.
Definition SUPLA_CHANNEL_FLAG_RSA_ENCRYPTED_PIN_REQUIRED : Z := 2097152.
Definition SUPLA_CHANNEL_FLAG_OFFLINE_DURING_REGISTRATION : Z := 4194304.
Definition SUPLA_CHANNEL_FLAG_ZIGBEE_BRIDGE : Z := 8388608.
Definition SUPLA_CHANNEL_FLAG_COUNTDOWN_TIMER_SUPPORTED : Z := 16777216.
Definition SUPLA_CHANNEL_FLAG_LIGHTSOURCELIFESPAN_SETTABLE : Z := 33554432.
Definition SUPLA_CHANNEL_FLAG_POSSIBLE_SLEEP_MODE_deprecated : Z := 67108864.
Definition SUPLA_CHANNEL_FLAG_RUNTIME_CHANNEL_CONFIG_UPDATE : Z := 134217728.
Definition SUPLA_CHANNEL_FLAG_WEEKLY_SCHEDULE : Z := 268435456.
Definition SUPLA_CHANNEL_FLAG_HAS_PARENT : Z := 536870912.
Definition SUPLA_CHANNEL_FLAG_CALCFG_RESTART_SUBDEVICE : Z := 1073741824.
Definition SUPLA_CHANNEL_FLAG_BATTERY_COVER_AVAILABLE : Z := 2147483648.
Definition SUPLA_HVAC_VALUE_FLAG_SETPOINT_TEMP_HEAT_SET : Z := Z.shiftl 1 0.
Definition SUPLA_HVAC_VALUE_FLAG_SETPOINT_TEMP_COOL_SET : Z := Z.shiftl 1 1.
Definition SUPLA_HVAC_VALUE_FLAG_HEATING : Z := Z.shiftl 1 2.
Definition SUPLA_HVAC_VALUE_FLAG_COOLING : Z := Z.shiftl 1 3.
Definition SUPLA_HVAC_VALUE_FLAG_WEEKLY_SCHEDULE : Z := Z.shiftl 1 4.
Definition SUPLA_HVAC_VALUE_FLAG_COUNTDOWN_TIMER : Z := Z.shiftl 1 5.
Definition SUPLA_HVAC_VALUE_FLAG_FAN_ENABLED : Z := Z.shiftl 1 6.
Definition SUPLA_HVAC_VALUE_FLAG_THERMOMETER_ERROR : Z := Z.shiftl 1 7.
Definition SUPLA_HVAC_VALUE_FLAG_CLOCK_ERROR : Z := Z.shiftl 1 8.
Definition SUPLA_HVAC_VALUE_FLAG_FORCED_OFF_BY_SENSOR : Z := Z.shiftl 1 9.
Definition SUPLA_HVAC_VALUE_FLAG_COOL : Z := Z.shiftl 1 10.
Definition SUPLA_HVAC_VALUE_FLAG_WEEKLY_SCHEDULE_TEMPORAL_OVERRIDE : Z := Z.shiftl 1 11.
Definition SUPLA_HVAC_VALUE_FLAG_BATTERY_COVER_OPEN : Z := Z.shiftl 1 12.
Definition SUPLA_HVAC_VALUE_FLAG_CALIBRATION_ERROR : Z := Z.shiftl 1 13.
Definition SUPLA_HVAC_VALUE_FLAG_ANTIFREEZE_OVERHEAT_ACTIVE : Z := Z.shiftl 1 14.
Definition SUPLA_HVAC_MODE_NOT_SET : Z := 0.
Definition SUPLA_HVAC_MODE_OFF : Z := 1.
Definition SUPLA_HVAC_MODE_HEAT : Z := 2.
Definition SUPLA_HVAC_MODE_COOL : Z := 3.
Definition SUPLA_HVAC_MODE_HEAT_COOL : Z := 4.
Definition SUPLA_HVAC_MODE_FAN_ONLY : Z := 6.
Definition SUPLA_HVAC_MODE_DRY : Z := 7.
Definition SUPLA_HVAC_MODE_CMD_TURN_ON : Z := 8.
Definition SUPLA_HVAC_MODE_CMD_WEEKLY_SCHEDULE : Z := 9.
Definition SUPLA_HVAC_MODE_CMD_SWITCH_TO_MANUAL : Z := 10.
Definition SUPLA_CHANNEL_OFFLINE_FLAG_ONLINE : Z := 0.
Definition SUPLA_CHANNEL_OFFLINE_FLAG_OFFLINE : Z := 1.
Definition SUPLA_CHANNEL_OFFLINE_FLAG_ONLINE_BUT_NOT_AVAILABLE : Z := 2.
Definition SUPLA_CHANNEL_OFFLINE_FLAG_OFFLINE_REMOTE_WAKEUP_NOT_SUPPORTED : Z := 3.
Definition SUPLA_CHANNEL_OFFLINE_FLAG_FIRMWARE_UPDATE_ONGOING : Z := 4.
Definition SUPLA_CHANNEL_OFFLINE_FLAG_MAX : Z := 4.
Definition EM_VALUE_FLAG_PHASE1_ON : Z := 1.
Definition EM_VALUE_FLAG_PHASE2_ON : Z := 2.
Definition EM_VALUE_FLAG_PHASE3_ON : Z := 4.
Definition SUPLA_RELAY_FLAG_OVERCURRENT_RELAY_OFF : Z := 1.
Definition CONTAINER_FLAG_WARNING_LEVEL : Z := Z.shiftl 1 0.
Definition CONTAINER_FLAG_ALARM_LEVEL : Z := Z.shiftl 1 1.
Definition CONTAINER_FLAG_INVALID_SENSOR_STATE : Z := Z.shiftl 1 2.
Definition CONTAINER_FLAG_SOUND_ALARM_ON : Z := Z.shiftl 1 3.
Definition SUPLA_VALVE_FLAG_FLOODING : Z := 1.
Definition SUPLA_VALVE_FLAG_MANUALLY_CLOSED : Z := 2.
Definition SUPLA_VALVE_FLAG_MOTOR_PROBLEM : Z := 4.
