(* ===== verification/Events.v ===== *)
(** * events.h: what channels and elements report to the actions of an application *)
From S2P Require Import Prelude.

Inductive Event :=
| ON_PRESS | ON_RELEASE | ON_CHANGE | ON_HOLD | ON_CLICK_1 | ON_CLICK_2 | ON_CLICK_3
| ON_CLICK_4 | ON_CLICK_5 | ON_CLICK_6 | ON_CLICK_7 | ON_CLICK_8 | ON_CLICK_9 | ON_CLICK_10
| ON_CRAZY_CLICKER | ON_SEQUENCE_MATCH | ON_SEQUENCE_DOESNT_MATCH | ON_TURN_ON | ON_TURN_OFF
| ON_SECONDARY_CHANNEL_CHANGE | ON_LONG_CLICK_0 | ON_LONG_CLICK_1 | ON_LONG_CLICK_2
| ON_LONG_CLICK_3 | ON_LONG_CLICK_4 | ON_LONG_CLICK_5 | ON_LONG_CLICK_6 | ON_LONG_CLICK_7
| ON_LONG_CLICK_8 | ON_LONG_CLICK_9 | ON_LONG_CLICK_10 | CONDITIONAL_ON_PRESS
| CONDITIONAL_ON_RELEASE | CONDITIONAL_ON_CHANGE | ON_HOLD_RELEASE | ON_DEVICE_STATUS_CHANGE
| ON_IDENTIFY | ON_EVENT_1 | ON_EVENT_2 | ON_EVENT_3 | ON_EVENT_4 | ON_EVENT_5 | ON_EVENT_6
| ON_EVENT_7 | ON_EVENT_8 | ON_EVENT_9 | ON_EVENT_10 | ON_DIMMER_TURN_ON | ON_DIMMER_TURN_OFF
| ON_DIMMER_BRIGHTNESS_CHANGE | ON_COLOR_TURN_ON | ON_COLOR_TURN_OFF
| ON_COLOR_BRIGHTNESS_CHANGE | ON_RED_TURN_ON | ON_RED_TURN_OFF | ON_RED_CHANGE
| ON_GREEN_TURN_ON | ON_GREEN_TURN_OFF | ON_GREEN_CHANGE | ON_BLUE_TURN_ON | ON_BLUE_TURN_OFF
| ON_BLUE_CHANGE | ON_WHITE_TEMPERATURE_CHANGE | ON_CHANNEL_OFFLINE | ON_CHANNEL_ONLINE
| ON_CHANNEL_FUNCTION_CHANGE | ON_HVAC_HEATING | ON_HVAC_COOLING | ON_HVAC_STANDBY
| ON_HVAC_WEEKLY_SCHEDULE_ENABLED | ON_HVAC_WEEKLY_SCHEDULE_DISABLED | ON_HVAC_MODE_OFF
| ON_HVAC_MODE_HEAT | ON_HVAC_MODE_COOL | ON_HVAC_MODE_HEAT_COOL | ON_ERROR | ON_ERROR_CLEAR
| ON_CONTAINER_ALARM_ACTIVE | ON_CONTAINER_ALARM_INACTIVE | ON_CONTAINER_WARNING_ACTIVE
| ON_CONTAINER_WARNING_INACTIVE | ON_CONTAINER_INVALID_SENSOR_STATE_ACTIVE
| ON_CONTAINER_INVALID_SENSOR_STATE_INACTIVE | ON_CONTAINER_SOUND_ALARM_ACTIVE
| ON_CONTAINER_SOUND_ALARM_INACTIVE | ON_CONTAINER_SENSOR_OFFLINE_ACTIVE
| ON_CONTAINER_SENSOR_OFFLINE_INACTIVE | ON_CONTAINER_SOUND_ALARM_MUTED | ON_OPEN | ON_CLOSE
| ON_FLOODING_ACTIVE | ON_FLOODING_INACTIVE | ON_VALVE_MANUALLY_CLOSED_ACTIVE
| ON_VALVE_MANUALLY_CLOSED_INACTIVE | ON_MOTOR_PROBLEM_ACTIVE | ON_MOTOR_PROBLEM_INACTIVE
| ON_SUBDEVICE_PAIRING_START | ON_SUBDEVICE_PAIRING_END | ON_IMPULSE | EVENT_ID_MAX.

(** All events, in the order of their numbers. *)
Definition events : list Event :=
  [ON_PRESS; ON_RELEASE; ON_CHANGE; ON_HOLD; ON_CLICK_1; ON_CLICK_2; ON_CLICK_3; ON_CLICK_4;
   ON_CLICK_5; ON_CLICK_6; ON_CLICK_7; ON_CLICK_8; ON_CLICK_9; ON_CLICK_10; ON_CRAZY_CLICKER;
   ON_SEQUENCE_MATCH; ON_SEQUENCE_DOESNT_MATCH; ON_TURN_ON; ON_TURN_OFF;
   ON_SECONDARY_CHANNEL_CHANGE; ON_LONG_CLICK_0; ON_LONG_CLICK_1; ON_LONG_CLICK_2;
   ON_LONG_CLICK_3; ON_LONG_CLICK_4; ON_LONG_CLICK_5; ON_LONG_CLICK_6; ON_LONG_CLICK_7;
   ON_LONG_CLICK_8; ON_LONG_CLICK_9; ON_LONG_CLICK_10; CONDITIONAL_ON_PRESS;
   CONDITIONAL_ON_RELEASE; CONDITIONAL_ON_CHANGE; ON_HOLD_RELEASE; ON_DEVICE_STATUS_CHANGE;
   ON_IDENTIFY; ON_EVENT_1; ON_EVENT_2; ON_EVENT_3; ON_EVENT_4; ON_EVENT_5; ON_EVENT_6;
   ON_EVENT_7; ON_EVENT_8; ON_EVENT_9; ON_EVENT_10; ON_DIMMER_TURN_ON; ON_DIMMER_TURN_OFF;
   ON_DIMMER_BRIGHTNESS_CHANGE; ON_COLOR_TURN_ON; ON_COLOR_TURN_OFF;
   ON_COLOR_BRIGHTNESS_CHANGE; ON_RED_TURN_ON; ON_RED_TURN_OFF; ON_RED_CHANGE;
   ON_GREEN_TURN_ON; ON_GREEN_TURN_OFF; ON_GREEN_CHANGE; ON_BLUE_TURN_ON; ON_BLUE_TURN_OFF;
   ON_BLUE_CHANGE; ON_WHITE_TEMPERATURE_CHANGE; ON_CHANNEL_OFFLINE; ON_CHANNEL_ONLINE;
   ON_CHANNEL_FUNCTION_CHANGE; ON_HVAC_HEATING; ON_HVAC_COOLING; ON_HVAC_STANDBY;
   ON_HVAC_WEEKLY_SCHEDULE_ENABLED; ON_HVAC_WEEKLY_SCHEDULE_DISABLED; ON_HVAC_MODE_OFF;
   ON_HVAC_MODE_HEAT; ON_HVAC_MODE_COOL; ON_HVAC_MODE_HEAT_COOL; ON_ERROR; ON_ERROR_CLEAR;
   ON_CONTAINER_ALARM_ACTIVE; ON_CONTAINER_ALARM_INACTIVE; ON_CONTAINER_WARNING_ACTIVE;
   ON_CONTAINER_WARNING_INACTIVE; ON_CONTAINER_INVALID_SENSOR_STATE_ACTIVE;
   ON_CONTAINER_INVALID_SENSOR_STATE_INACTIVE; ON_CONTAINER_SOUND_ALARM_ACTIVE;
   ON_CONTAINER_SOUND_ALARM_INACTIVE; ON_CONTAINER_SENSOR_OFFLINE_ACTIVE;
   ON_CONTAINER_SENSOR_OFFLINE_INACTIVE; ON_CONTAINER_SOUND_ALARM_MUTED; ON_OPEN; ON_CLOSE;
   ON_FLOODING_ACTIVE; ON_FLOODING_INACTIVE; ON_VALVE_MANUALLY_CLOSED_ACTIVE;
   ON_VALVE_MANUALLY_CLOSED_INACTIVE; ON_MOTOR_PROBLEM_ACTIVE; ON_MOTOR_PROBLEM_INACTIVE;
   ON_SUBDEVICE_PAIRING_START; ON_SUBDEVICE_PAIRING_END; ON_IMPULSE; EVENT_ID_MAX].

(** The number of an event. *)
Definition Event_id (e : Event) : nat :=
  match e with
  | ON_PRESS => 0
  | ON_RELEASE => 1
  | ON_CHANGE => 2
  | ON_HOLD => 3
  | ON_CLICK_1 => 4
  | ON_CLICK_2 => 5
  | ON_CLICK_3 => 6
  | ON_CLICK_4 => 7
  | ON_CLICK_5 => 8
  | ON_CLICK_6 => 9
  | ON_CLICK_7 => 10
  | ON_CLICK_8 => 11
  | ON_CLICK_9 => 12
  | ON_CLICK_10 => 13
  | ON_CRAZY_CLICKER => 14
  | ON_SEQUENCE_MATCH => 15
  | ON_SEQUENCE_DOESNT_MATCH => 16
  | ON_TURN_ON => 17
  | ON_TURN_OFF => 18
  | ON_SECONDARY_CHANNEL_CHANGE => 19
  | ON_LONG_CLICK_0 => 20
  | ON_LONG_CLICK_1 => 21
  | ON_LONG_CLICK_2 => 22
  | ON_LONG_CLICK_3 => 23
  | ON_LONG_CLICK_4 => 24
  | ON_LONG_CLICK_5 => 25
  | ON_LONG_CLICK_6 => 26
  | ON_LONG_CLICK_7 => 27
  | ON_LONG_CLICK_8 => 28
  | ON_LONG_CLICK_9 => 29
  | ON_LONG_CLICK_10 => 30
  | CONDITIONAL_ON_PRESS => 31
  | CONDITIONAL_ON_RELEASE => 32
  | CONDITIONAL_ON_CHANGE => 33
  | ON_HOLD_RELEASE => 34
  | ON_DEVICE_STATUS_CHANGE => 35
  | ON_IDENTIFY => 36
  | ON_EVENT_1 => 37
  | ON_EVENT_2 => 38
  | ON_EVENT_3 => 39
  | ON_EVENT_4 => 40
  | ON_EVENT_5 => 41
  | ON_EVENT_6 => 42
  | ON_EVENT_7 => 43
  | ON_EVENT_8 => 44
  | ON_EVENT_9 => 45
  | ON_EVENT_10 => 46
  | ON_DIMMER_TURN_ON => 47
  | ON_DIMMER_TURN_OFF => 48
  | ON_DIMMER_BRIGHTNESS_CHANGE => 49
  | ON_COLOR_TURN_ON => 50
  | ON_COLOR_TURN_OFF => 51
  | ON_COLOR_BRIGHTNESS_CHANGE => 52
  | ON_RED_TURN_ON => 53
  | ON_RED_TURN_OFF => 54
  | ON_RED_CHANGE => 55
  | ON_GREEN_TURN_ON => 56
  | ON_GREEN_TURN_OFF => 57
  | ON_GREEN_CHANGE => 58
  | ON_BLUE_TURN_ON => 59
  | ON_BLUE_TURN_OFF => 60
  | ON_BLUE_CHANGE => 61
  | ON_WHITE_TEMPERATURE_CHANGE => 62
  | ON_CHANNEL_OFFLINE => 63
  | ON_CHANNEL_ONLINE => 64
  | ON_CHANNEL_FUNCTION_CHANGE => 65
  | ON_HVAC_HEATING => 66
  | ON_HVAC_COOLING => 67
  | ON_HVAC_STANDBY => 68
  | ON_HVAC_WEEKLY_SCHEDULE_ENABLED => 69
  | ON_HVAC_WEEKLY_SCHEDULE_DISABLED => 70
  | ON_HVAC_MODE_OFF => 71
  | ON_HVAC_MODE_HEAT => 72
  | ON_HVAC_MODE_COOL => 73
  | ON_HVAC_MODE_HEAT_COOL => 74
  | ON_ERROR => 75
  | ON_ERROR_CLEAR => 76
  | ON_CONTAINER_ALARM_ACTIVE => 77
  | ON_CONTAINER_ALARM_INACTIVE => 78
  | ON_CONTAINER_WARNING_ACTIVE => 79
  | ON_CONTAINER_WARNING_INACTIVE => 80
  | ON_CONTAINER_INVALID_SENSOR_STATE_ACTIVE => 81
  | ON_CONTAINER_INVALID_SENSOR_STATE_INACTIVE => 82
  | ON_CONTAINER_SOUND_ALARM_ACTIVE => 83
  | ON_CONTAINER_SOUND_ALARM_INACTIVE => 84
  | ON_CONTAINER_SENSOR_OFFLINE_ACTIVE => 85
  | ON_CONTAINER_SENSOR_OFFLINE_INACTIVE => 86
  | ON_CONTAINER_SOUND_ALARM_MUTED => 87
  | ON_OPEN => 88
  | ON_CLOSE => 89
  | ON_FLOODING_ACTIVE => 90
  | ON_FLOODING_INACTIVE => 91
  | ON_VALVE_MANUALLY_CLOSED_ACTIVE => 92
  | ON_VALVE_MANUALLY_CLOSED_INACTIVE => 93
  | ON_MOTOR_PROBLEM_ACTIVE => 94
  | ON_MOTOR_PROBLEM_INACTIVE => 95
  | ON_SUBDEVICE_PAIRING_START => 96
  | ON_SUBDEVICE_PAIRING_END => 97
  | ON_IMPULSE => 98
  | EVENT_ID_MAX => 99
  end%nat.

Lemma events_nth e : events !! Event_id e = Some e.
Proof. by destruct e. Qed.

#[export] Instance Event_id_inj : Inj (=) (=) Event_id.
Proof.
  intros a b H. pose proof (events_nth a) as Ha. rewrite H, events_nth in Ha. by injection Ha.
Qed.

#[export] Instance Event_eq_dec : EqDecision Event.
Proof. apply (inj_eq_dec Event_id). Defined.
