(* ===== verification/Float64.v ===== *)
(** * double: the binary64 numbers of IEEE 754

    The arithmetic is that of the Standard Library's [SpecFloat] with 53 bits of mantissa,
    rounding to the nearest even number; here are the bytes of a number in memory and the
    conversion to a 32-bit integer. *)
From Stdlib Require Export SpecFloat.
From S2P Require Import Prelude.

Definition double := spec_float.

Definition double_of_Z (z : Z) : double := binary_normalize 53 1024 z 0 false.
Definition double_add : double -> double -> double := SFadd 53 1024.
Definition double_mul : double -> double -> double := SFmul 53 1024.
Definition double_div : double -> double -> double := SFdiv 53 1024.
Definition double_ltb : double -> double -> bool := SFltb.
Definition double_leb : double -> double -> bool := SFleb.

Definition double_ok (d : double) : Prop := valid_binary 53 1024 d = true.

(** The 64 bits of a number; a NaN has the pattern that arithmetic gives. *)
Definition double_bits (d : double) : Z :=
  match d with
  | S754_zero s => Z.b2z s * 2 ^ 63
  | S754_infinity s => Z.b2z s * 2 ^ 63 + 2047 * 2 ^ 52
  | S754_nan => 2047 * 2 ^ 52 + 2 ^ 51
  | S754_finite s m e =>
      Z.b2z s * 2 ^ 63 +
      (if Z.pos m <? 2 ^ 52 then Z.pos m else (e + 1075) * 2 ^ 52 + (Z.pos m - 2 ^ 52))
  end.

Definition double_of_bits (z : Z) : double :=
  let s := negb (z / 2 ^ 63 =? 0) in
  let e := (z / 2 ^ 52) mod 2048 in
  let m := z mod 2 ^ 52 in
  if e =? 2047 then if m =? 0 then S754_infinity s else S754_nan
  else if e =? 0 then
    match m with Z.pos p => S754_finite s p (-1074) | _ => S754_zero s end
  else
    match m + 2 ^ 52 with Z.pos p => S754_finite s p (e - 1075) | _ => S754_zero s end.

(** Conversion to [int32_t]: toward zero; [None] is a value the type cannot hold. *)
Definition double_to_Z (d : double) : option Z :=
  match d with
  | S754_zero _ => Some 0
  | S754_finite s m e =>
      let a := if 0 <=? e then Z.pos m * 2 ^ e else Z.pos m / 2 ^ (- e) in
      Some (if s then - a else a)
  | _ => None
  end.

Definition double_to_int32 (d : double) : option Z :=
  match double_to_Z d with
  | Some z => if (- 2 ^ 31 <=? z) && (z <? 2 ^ 31) then Some z else None
  | None => None
  end.

(** ** The bytes of a number determine it *)

Lemma digits_bounds m : 2 ^ (Z.pos (digits2_pos m) - 1) <= Z.pos m < 2 ^ Z.pos (digits2_pos m).
Proof.
  induction m as [m IH|m IH|]; cbn [digits2_pos]; [| |done];
    rewrite Pos2Z.inj_succ; rewrite <-Z.add_1_r; set (d := Z.pos (digits2_pos m)) in *;
    replace (d + 1 - 1) with ((d - 1) + 1) by lia; rewrite !Z.pow_add_r by (unfold d in *; lia);
    change (2 ^ 1) with 2; lia.
Qed.

Lemma finite_ok s m e : double_ok (S754_finite s m e) ->
  e <= 971 /\ ((Z.pos m < 2 ^ 52 /\ e = -1074) \/ (2 ^ 52 <= Z.pos m < 2 ^ 53 /\ -1074 <= e)).
Proof.
  unfold double_ok, valid_binary, bounded, canonical_mantissa, fexp, emin. intros H. bools.
  pose proof (digits_bounds m) as Hm. set (d := Z.pos (digits2_pos m)) in *.
  split; [lia|]. destruct (Z.ltb_spec d 53).
  - left. split; [|lia]. apply Z.lt_le_trans with (2 ^ d); [lia|]. apply Z.pow_le_mono_r; lia.
  - right. assert (d = 53) as E by lia. rewrite E in Hm. change (53 - 1) with 52 in Hm. lia.
Qed.

Lemma double_bits_range d : double_ok d -> 0 <= double_bits d < 2 ^ 64.
Proof.
  intros H. destruct d as [s|s| |s m e]; cbn [double_bits]; try lia; try (destruct s; cbn; lia).
  apply finite_ok in H as [He H]. destruct (Z.ltb_spec (Z.pos m) (2 ^ 52)); destruct s; cbn [Z.b2z]; lia.
Qed.

Lemma double_bits_round_trip d : double_ok d -> double_of_bits (double_bits d) = d.
Proof.
  intros H. destruct d as [s|s| |s m e]; [by destruct s|by destruct s|done|].
  apply finite_ok in H as [He H]. cbn [double_bits]. unfold double_of_bits.
  set (r := if Z.pos m <? 2 ^ 52 then Z.pos m else (e + 1075) * 2 ^ 52 + (Z.pos m - 2 ^ 52)).
  assert (Hr : 0 <= r < 2 ^ 63) by (unfold r; destruct (Z.ltb_spec (Z.pos m) (2 ^ 52)); lia).
  assert (E1 : (Z.b2z s * 2 ^ 63 + r) / 2 ^ 63 = Z.b2z s)
    by (rewrite Z.div_add_l by lia; rewrite Z.div_small by lia; lia).
  assert (E2 : (Z.b2z s * 2 ^ 63 + r) mod 2 ^ 52 = r mod 2 ^ 52).
  { replace (Z.b2z s * 2 ^ 63 + r) with (r + (Z.b2z s * 2 ^ 11) * 2 ^ 52) by lia.
    apply Z_mod_plus_full. }
  assert (E3 : (Z.b2z s * 2 ^ 63 + r) / 2 ^ 52 mod 2048 = r / 2 ^ 52).
  { replace (Z.b2z s * 2 ^ 63 + r) with (r + (Z.b2z s * 2 ^ 11) * 2 ^ 52) by lia.
    rewrite Z_div_plus_full by lia. change (2 ^ 11) with 2048. rewrite Z_mod_plus_full.
    apply Z.mod_small. split; [apply Z.div_pos; lia|apply Z.div_lt_upper_bound; lia]. }
  rewrite E1, E2, E3. replace (negb (Z.b2z s =? 0)) with s by (by destruct s).
  unfold r. destruct (Z.ltb_spec (Z.pos m) (2 ^ 52)) as [Hm|Hm].
  - destruct H as [[_ ->]|H]; [|lia]. rewrite Z.div_small, Z.mod_small by lia. done.
  - destruct H as [H|[H1 H2]]; [lia|].
    rewrite Z.div_add_l, (Z.div_small (Z.pos m - _)) by lia.
    rewrite Z.add_0_r, (Z.add_comm ((e + 1075) * 2 ^ 52)), Z_mod_plus_full, Z.mod_small by lia.
    destruct (Z.eqb_spec (e + 1075) 2047); [lia|]. destruct (Z.eqb_spec (e + 1075) 0); [lia|].
    replace (Z.pos m - 2 ^ 52 + 2 ^ 52) with (Z.pos m) by lia. f_equal. lia.
Qed.
