(* ===== verification/Correction.v ===== *)
(** * correction.cpp: what is added to the measurements of a channel

    The linked list [first] as a list in its order. *)
From S2P Require Import Prelude Float64.

Module Correction.

Record Correction := {
  correction : double; channelNumber : Z; forSecondaryValue : bool }.

Definition corr_matches (number : Z) (secondary : bool) (c : Correction) : bool :=
  (channelNumber c =? number) && eqb (forSecondaryValue c) secondary.

Definition getInstance (number : Z) (secondary : bool) (first : list Correction) : option Correction :=
  List.find (corr_matches number secondary) first.

Definition get (number : Z) (secondary : bool) (first : list Correction) : double :=
  match getInstance number secondary first with
  | Some ptr => correction ptr
  | None => S754_zero false
  end.

(** The value of the first match is set, or a new entry is appended. *)
Fixpoint add (number : Z) (value : double) (secondary : bool) (first : list Correction) : list Correction :=
  match first with
  | [] => [{| correction := value; channelNumber := number; forSecondaryValue := secondary |}]
  | c :: l =>
      if corr_matches number secondary c
      then {| correction := value; channelNumber := channelNumber c;
              forSecondaryValue := forSecondaryValue c |} :: l
      else c :: add number value secondary l
  end.

Lemma get_add n s v l m t :
  get m t (add n v s l) = if (n =? m) && eqb s t then v else get m t l.
Proof.
  induction l as [|c l IH]; cbn [add].
  - unfold get, getInstance. cbn [List.find]. unfold corr_matches. cbn [channelNumber forSecondaryValue].
    by destruct ((n =? m) && eqb s t).
  - destruct (corr_matches n s c) eqn:E; unfold get, getInstance in *; cbn [List.find].
    + unfold corr_matches in *. cbn [channelNumber forSecondaryValue]. bools.
      apply eqb_prop in H0. subst s. destruct (Z.eqb_spec (channelNumber c) n); [|done]. subst n.
      by destruct ((channelNumber c =? m) && eqb (forSecondaryValue c) t).
    + destruct (corr_matches m t c) eqn:E'; [|done].
      destruct ((n =? m) && eqb s t) eqn:E2; [|done].
      apply andb_true_iff in E2 as [E2 E3]. apply Z.eqb_eq in E2. apply eqb_prop in E3. subst.
      by rewrite E in E'.
Qed.
End Correction.
