(* ===== verification/ChannelTypes.v ===== *)
(** * channel_types.cpp: the types of channels and their numbers in the protocol *)
From S2P Require Import Prelude DeviceConsts.

Inductive ChannelType :=
| NOT_SET | BINARYSENSOR | DISTANCESENSOR | RELAY | THERMOMETER | HUMIDITYSENSOR |
HUMIDITYANDTEMPSENSOR | WINDSENSOR | PRESSURESENSOR | RAINSENSOR | WEIGHTSENSOR | DIMMER |
RGBLEDCONTROLLER | DIMMERANDRGBLED | ELECTRICITY_METER | IMPULSE_COUNTER | HVAC |
VALVE_OPENCLOSE | VALVE_PERCENTAGE | GENERAL_PURPOSE_MEASUREMENT | GENERAL_PURPOSE_METER |
ACTIONTRIGGER | CONTAINER.

(** All types, in the order of their numbers. *)
Definition channel_types : list ChannelType :=
  [NOT_SET; BINARYSENSOR; DISTANCESENSOR; RELAY; THERMOMETER; HUMIDITYSENSOR;
   HUMIDITYANDTEMPSENSOR; WINDSENSOR; PRESSURESENSOR; RAINSENSOR; WEIGHTSENSOR; DIMMER;
   RGBLEDCONTROLLER; DIMMERANDRGBLED; ELECTRICITY_METER; IMPULSE_COUNTER; HVAC;
   VALVE_OPENCLOSE; VALVE_PERCENTAGE; GENERAL_PURPOSE_MEASUREMENT; GENERAL_PURPOSE_METER;
   ACTIONTRIGGER; CONTAINER].

#[export] Instance ChannelType_eq_dec : EqDecision ChannelType.
Proof. solve_decision. Defined.

Definition channelTypeToProtoType (type : ChannelType) : Z :=
  match type with
  | BINARYSENSOR => SUPLA_CHANNELTYPE_BINARYSENSOR
  | DISTANCESENSOR => SUPLA_CHANNELTYPE_DISTANCESENSOR
  | RELAY => SUPLA_CHANNELTYPE_RELAY
  | THERMOMETER => SUPLA_CHANNELTYPE_THERMOMETER
  | HUMIDITYSENSOR => SUPLA_CHANNELTYPE_HUMIDITYSENSOR
  | HUMIDITYANDTEMPSENSOR => SUPLA_CHANNELTYPE_HUMIDITYANDTEMPSENSOR
  | WINDSENSOR => SUPLA_CHANNELTYPE_WINDSENSOR
  | PRESSURESENSOR => SUPLA_CHANNELTYPE_PRESSURESENSOR
  | RAINSENSOR => SUPLA_CHANNELTYPE_RAINSENSOR
  | WEIGHTSENSOR => SUPLA_CHANNELTYPE_WEIGHTSENSOR
  | DIMMER => SUPLA_CHANNELTYPE_DIMMER
  | RGBLEDCONTROLLER => SUPLA_CHANNELTYPE_RGBLEDCONTROLLER
  | DIMMERANDRGBLED => SUPLA_CHANNELTYPE_DIMMERANDRGBLED
  | ELECTRICITY_METER => SUPLA_CHANNELTYPE_ELECTRICITY_METER
  | IMPULSE_COUNTER => SUPLA_CHANNELTYPE_IMPULSE_COUNTER
  | HVAC => SUPLA_CHANNELTYPE_HVAC
  | VALVE_OPENCLOSE => SUPLA_CHANNELTYPE_VALVE_OPENCLOSE
  | VALVE_PERCENTAGE => SUPLA_CHANNELTYPE_VALVE_PERCENTAGE
  | GENERAL_PURPOSE_MEASUREMENT => SUPLA_CHANNELTYPE_GENERAL_PURPOSE_MEASUREMENT
  | GENERAL_PURPOSE_METER => SUPLA_CHANNELTYPE_GENERAL_PURPOSE_METER
  | ACTIONTRIGGER => SUPLA_CHANNELTYPE_ACTIONTRIGGER
  | CONTAINER => SUPLA_CHANNELTYPE_CONTAINER
  | NOT_SET => 0
  end.

(** The cases of the switch, in its order. *)
Definition proto_types : list (Z * ChannelType) :=
  [(SUPLA_CHANNELTYPE_BINARYSENSOR, BINARYSENSOR);
   (SUPLA_CHANNELTYPE_DISTANCESENSOR, DISTANCESENSOR);
   (SUPLA_CHANNELTYPE_RELAY, RELAY);
   (SUPLA_CHANNELTYPE_THERMOMETER, THERMOMETER);
   (SUPLA_CHANNELTYPE_HUMIDITYSENSOR, HUMIDITYSENSOR);
   (SUPLA_CHANNELTYPE_HUMIDITYANDTEMPSENSOR, HUMIDITYANDTEMPSENSOR);
   (SUPLA_CHANNELTYPE_WINDSENSOR, WINDSENSOR);
   (SUPLA_CHANNELTYPE_PRESSURESENSOR, PRESSURESENSOR);
   (SUPLA_CHANNELTYPE_RAINSENSOR, RAINSENSOR);
   (SUPLA_CHANNELTYPE_WEIGHTSENSOR, WEIGHTSENSOR);
   (SUPLA_CHANNELTYPE_DIMMER, DIMMER);
   (SUPLA_CHANNELTYPE_RGBLEDCONTROLLER, RGBLEDCONTROLLER);
   (SUPLA_CHANNELTYPE_DIMMERANDRGBLED, DIMMERANDRGBLED);
   (SUPLA_CHANNELTYPE_ELECTRICITY_METER, ELECTRICITY_METER);
   (SUPLA_CHANNELTYPE_IMPULSE_COUNTER, IMPULSE_COUNTER);
   (SUPLA_CHANNELTYPE_HVAC, HVAC);
   (SUPLA_CHANNELTYPE_VALVE_OPENCLOSE, VALVE_OPENCLOSE);
   (SUPLA_CHANNELTYPE_VALVE_PERCENTAGE, VALVE_PERCENTAGE);
   (SUPLA_CHANNELTYPE_GENERAL_PURPOSE_MEASUREMENT, GENERAL_PURPOSE_MEASUREMENT);
   (SUPLA_CHANNELTYPE_GENERAL_PURPOSE_METER, GENERAL_PURPOSE_METER);
   (SUPLA_CHANNELTYPE_ACTIONTRIGGER, ACTIONTRIGGER);
   (SUPLA_CHANNELTYPE_CONTAINER, CONTAINER)].

Definition protoTypeToChannelType (type : Z) : ChannelType :=
  match List.find (fun c => c.1 =? type) proto_types with
  | Some (_, t) => t
  | None => NOT_SET
  end.

(** A type survives the way through the protocol. *)
Lemma proto_type_round_trip t : protoTypeToChannelType (channelTypeToProtoType t) = t.
Proof. by destruct t. Qed.

Lemma proto_type_known z : protoTypeToChannelType z <> NOT_SET ->
  channelTypeToProtoType (protoTypeToChannelType z) = z.
Proof.
  unfold protoTypeToChannelType. destruct (List.find _ _) as [[z' t]|] eqn:E; [|done].
  apply find_some in E as [Hin Hz]. cbn in Hz. apply Z.eqb_eq in Hz. subst z'. intros _.
  unfold proto_types in Hin. cbn [In] in Hin.
  repeat (destruct Hin as [[= <- <-]|Hin]; [reflexivity|]). done.
Qed.
