(* ===== verification/Channel.v ===== *)
(** * channel.cpp: a channel, its values and what is sent to the server

    [Channel] is the record [channel]; the virtual [getExtValue] is its field [extValue],
    [None] for the class itself and the value of [ChannelExtended].  A member function is a
    function in the monad over [cworld], which adds what the channel reports: actions to the
    application and messages to the protocol layers.  The handlers of the actions belong to
    the application and are not part of the model. *)
From S2P Require Import Prelude Platform CLayout ProtoConsts ProtoTypes DeviceConsts Events Float64 Correction ChannelTypes.

Module Channel.

Definition CHANNEL_SEND_VALUE : Z := Z.shiftl 1 0.
Definition CHANNEL_SEND_GET_CONFIG : Z := Z.shiftl 1 1.
Definition CHANNEL_SEND_STATE_INFO : Z := Z.shiftl 1 2.
Definition CHANNEL_SEND_INITIAL_CAPTION : Z := Z.shiftl 1 3.

Record channel := mk_channel {
  initialCaption : option bytes;
  functionsBitmap : Z;
  channelFlags : Z;
  validityTimeSec : Z;
  channelNumber : Z;
  defaultFunction : Z;
  changedFields : Z;
  batteryLevel : Z;
  batteryPowered : Z;
  bridgeSignalStrength : Z;
  channelType : ChannelType;
  state : Z;
  defaultIcon : Z;
  subDeviceId : Z;
  value : bytes;
  extValue : option bytes }.

Definition set_initialCaption (v : option bytes) (s : channel) : channel :=
  {| initialCaption := v; functionsBitmap := functionsBitmap s; channelFlags := channelFlags s;
     validityTimeSec := validityTimeSec s; channelNumber := channelNumber s;
     defaultFunction := defaultFunction s; changedFields := changedFields s;
     batteryLevel := batteryLevel s; batteryPowered := batteryPowered s;
     bridgeSignalStrength := bridgeSignalStrength s; channelType := channelType s;
     state := state s; defaultIcon := defaultIcon s; subDeviceId := subDeviceId s;
     value := value s; extValue := extValue s |}.
Definition set_functionsBitmap (v : Z) (s : channel) : channel :=
  {| initialCaption := initialCaption s; functionsBitmap := v; channelFlags := channelFlags s;
     validityTimeSec := validityTimeSec s; channelNumber := channelNumber s;
     defaultFunction := defaultFunction s; changedFields := changedFields s;
     batteryLevel := batteryLevel s; batteryPowered := batteryPowered s;
     bridgeSignalStrength := bridgeSignalStrength s; channelType := channelType s;
     state := state s; defaultIcon := defaultIcon s; subDeviceId := subDeviceId s;
     value := value s; extValue := extValue s |}.
Definition set_channelFlags (v : Z) (s : channel) : channel :=
  {| initialCaption := initialCaption s; functionsBitmap := functionsBitmap s;
     channelFlags := v; validityTimeSec := validityTimeSec s; channelNumber := channelNumber s;
     defaultFunction := defaultFunction s; changedFields := changedFields s;
     batteryLevel := batteryLevel s; batteryPowered := batteryPowered s;
     bridgeSignalStrength := bridgeSignalStrength s; channelType := channelType s;
     state := state s; defaultIcon := defaultIcon s; subDeviceId := subDeviceId s;
     value := value s; extValue := extValue s |}.
Definition set_validityTimeSec (v : Z) (s : channel) : channel :=
  {| initialCaption := initialCaption s; functionsBitmap := functionsBitmap s;
     channelFlags := channelFlags s; validityTimeSec := v; channelNumber := channelNumber s;
     defaultFunction := defaultFunction s; changedFields := changedFields s;
     batteryLevel := batteryLevel s; batteryPowered := batteryPowered s;
     bridgeSignalStrength := bridgeSignalStrength s; channelType := channelType s;
     state := state s; defaultIcon := defaultIcon s; subDeviceId := subDeviceId s;
     value := value s; extValue := extValue s |}.
Definition set_channelNumber (v : Z) (s : channel) : channel :=
  {| initialCaption := initialCaption s; functionsBitmap := functionsBitmap s;
     channelFlags := channelFlags s; validityTimeSec := validityTimeSec s; channelNumber := v;
     defaultFunction := defaultFunction s; changedFields := changedFields s;
     batteryLevel := batteryLevel s; batteryPowered := batteryPowered s;
     bridgeSignalStrength := bridgeSignalStrength s; channelType := channelType s;
     state := state s; defaultIcon := defaultIcon s; subDeviceId := subDeviceId s;
     value := value s; extValue := extValue s |}.
Definition set_defaultFunction (v : Z) (s : channel) : channel :=
  {| initialCaption := initialCaption s; functionsBitmap := functionsBitmap s;
     channelFlags := channelFlags s; validityTimeSec := validityTimeSec s;
     channelNumber := channelNumber s; defaultFunction := v; changedFields := changedFields s;
     batteryLevel := batteryLevel s; batteryPowered := batteryPowered s;
     bridgeSignalStrength := bridgeSignalStrength s; channelType := channelType s;
     state := state s; defaultIcon := defaultIcon s; subDeviceId := subDeviceId s;
     value := value s; extValue := extValue s |}.
Definition set_changedFields (v : Z) (s : channel) : channel :=
  {| initialCaption := initialCaption s; functionsBitmap := functionsBitmap s;
     channelFlags := channelFlags s; validityTimeSec := validityTimeSec s;
     channelNumber := channelNumber s; defaultFunction := defaultFunction s;
     changedFields := v; batteryLevel := batteryLevel s; batteryPowered := batteryPowered s;
     bridgeSignalStrength := bridgeSignalStrength s; channelType := channelType s;
     state := state s; defaultIcon := defaultIcon s; subDeviceId := subDeviceId s;
     value := value s; extValue := extValue s |}.
Definition set_batteryLevel (v : Z) (s : channel) : channel :=
  {| initialCaption := initialCaption s; functionsBitmap := functionsBitmap s;
     channelFlags := channelFlags s; validityTimeSec := validityTimeSec s;
     channelNumber := channelNumber s; defaultFunction := defaultFunction s;
     changedFields := changedFields s; batteryLevel := v; batteryPowered := batteryPowered s;
     bridgeSignalStrength := bridgeSignalStrength s; channelType := channelType s;
     state := state s; defaultIcon := defaultIcon s; subDeviceId := subDeviceId s;
     value := value s; extValue := extValue s |}.
Definition set_batteryPowered (v : Z) (s : channel) : channel :=
  {| initialCaption := initialCaption s; functionsBitmap := functionsBitmap s;
     channelFlags := channelFlags s; validityTimeSec := validityTimeSec s;
     channelNumber := channelNumber s; defaultFunction := defaultFunction s;
     changedFields := changedFields s; batteryLevel := batteryLevel s; batteryPowered := v;
     bridgeSignalStrength := bridgeSignalStrength s; channelType := channelType s;
     state := state s; defaultIcon := defaultIcon s; subDeviceId := subDeviceId s;
     value := value s; extValue := extValue s |}.
Definition set_bridgeSignalStrength (v : Z) (s : channel) : channel :=
  {| initialCaption := initialCaption s; functionsBitmap := functionsBitmap s;
     channelFlags := channelFlags s; validityTimeSec := validityTimeSec s;
     channelNumber := channelNumber s; defaultFunction := defaultFunction s;
     changedFields := changedFields s; batteryLevel := batteryLevel s;
     batteryPowered := batteryPowered s; bridgeSignalStrength := v;
     channelType := channelType s; state := state s; defaultIcon := defaultIcon s;
     subDeviceId := subDeviceId s; value := value s; extValue := extValue s |}.
Definition set_channelType (v : ChannelType) (s : channel) : channel :=
  {| initialCaption := initialCaption s; functionsBitmap := functionsBitmap s;
     channelFlags := channelFlags s; validityTimeSec := validityTimeSec s;
     channelNumber := channelNumber s; defaultFunction := defaultFunction s;
     changedFields := changedFields s; batteryLevel := batteryLevel s;
     batteryPowered := batteryPowered s; bridgeSignalStrength := bridgeSignalStrength s;
     channelType := v; state := state s; defaultIcon := defaultIcon s;
     subDeviceId := subDeviceId s; value := value s; extValue := extValue s |}.
Definition set_state (v : Z) (s : channel) : channel :=
  {| initialCaption := initialCaption s; functionsBitmap := functionsBitmap s;
     channelFlags := channelFlags s; validityTimeSec := validityTimeSec s;
     channelNumber := channelNumber s; defaultFunction := defaultFunction s;
     changedFields := changedFields s; batteryLevel := batteryLevel s;
     batteryPowered := batteryPowered s; bridgeSignalStrength := bridgeSignalStrength s;
     channelType := channelType s; state := v; defaultIcon := defaultIcon s;
     subDeviceId := subDeviceId s; value := value s; extValue := extValue s |}.
Definition set_defaultIcon (v : Z) (s : channel) : channel :=
  {| initialCaption := initialCaption s; functionsBitmap := functionsBitmap s;
     channelFlags := channelFlags s; validityTimeSec := validityTimeSec s;
     channelNumber := channelNumber s; defaultFunction := defaultFunction s;
     changedFields := changedFields s; batteryLevel := batteryLevel s;
     batteryPowered := batteryPowered s; bridgeSignalStrength := bridgeSignalStrength s;
     channelType := channelType s; state := state s; defaultIcon := v;
     subDeviceId := subDeviceId s; value := value s; extValue := extValue s |}.
Definition set_subDeviceId (v : Z) (s : channel) : channel :=
  {| initialCaption := initialCaption s; functionsBitmap := functionsBitmap s;
     channelFlags := channelFlags s; validityTimeSec := validityTimeSec s;
     channelNumber := channelNumber s; defaultFunction := defaultFunction s;
     changedFields := changedFields s; batteryLevel := batteryLevel s;
     batteryPowered := batteryPowered s; bridgeSignalStrength := bridgeSignalStrength s;
     channelType := channelType s; state := state s; defaultIcon := defaultIcon s;
     subDeviceId := v; value := value s; extValue := extValue s |}.
Definition set_value (v : bytes) (s : channel) : channel :=
  {| initialCaption := initialCaption s; functionsBitmap := functionsBitmap s;
     channelFlags := channelFlags s; validityTimeSec := validityTimeSec s;
     channelNumber := channelNumber s; defaultFunction := defaultFunction s;
     changedFields := changedFields s; batteryLevel := batteryLevel s;
     batteryPowered := batteryPowered s; bridgeSignalStrength := bridgeSignalStrength s;
     channelType := channelType s; state := state s; defaultIcon := defaultIcon s;
     subDeviceId := subDeviceId s; value := v; extValue := extValue s |}.
Definition set_extValue (v : option bytes) (s : channel) : channel :=
  {| initialCaption := initialCaption s; functionsBitmap := functionsBitmap s;
     channelFlags := channelFlags s; validityTimeSec := validityTimeSec s;
     channelNumber := channelNumber s; defaultFunction := defaultFunction s;
     changedFields := changedFields s; batteryLevel := batteryLevel s;
     batteryPowered := batteryPowered s; bridgeSignalStrength := bridgeSignalStrength s;
     channelType := channelType s; state := state s; defaultIcon := defaultIcon s;
     subDeviceId := subDeviceId s; value := value s; extValue := v |}.

(** What a channel reports.  [proto] counts the protocol layers from the first. *)
Inductive report :=
| RunAction (event : Event)
| SendValue (proto : nat) (number : Z) (value : bytes) (state validity : Z)
| SendExtended (proto : nat) (number : Z) (ext : bytes)
| SendCaption (proto : nat) (number : Z) (caption : bytes)
| GetConfig (proto : nat) (number : Z)
| SendStateInfo (proto : nat) (number : Z).

Record cworld := { this : channel; reports : list report }.

Definition cm (A : Type) : Type := M cworld A.

Definition on_this (f : channel -> channel) : cm unit :=
  mmod (fun w => {| this := f (this w); reports := reports w |}).
Definition emit (r : report) : cm unit :=
  mmod (fun w => {| this := this w; reports := reports w ++ [r] |}).
Definition get_this : cm channel := fun w => Some (this w, w).
Definition runAction (e : Event) : cm unit := emit (RunAction e).
Definition when (b : bool) (m : cm unit) : cm unit := if b then m else mret tt.

(** [flags |= f] and [flags &= ~f] of an unsigned type of [w] bits. *)
Definition flag_set (f flags : Z) : Z := Z.lor flags f.
Definition flag_clear (w f flags : Z) : Z := Z.land flags (uN w (Z.lnot f)).
(** [flags & f] as a condition. *)
Definition has_flag (f flags : Z) : bool := negb (Z.land flags f =? 0).

(** ** The pending updates *)

Definition setSendValue : cm unit :=
  on_this (fun c => set_changedFields (flag_set CHANNEL_SEND_VALUE (changedFields c)) c).
Definition clearSendValue : cm unit :=
  on_this (fun c => set_changedFields (flag_clear 8 CHANNEL_SEND_VALUE (changedFields c)) c).
Definition setSendGetConfig : cm unit :=
  on_this (fun c => set_changedFields (flag_set CHANNEL_SEND_GET_CONFIG (changedFields c)) c).
Definition clearSendGetConfig : cm unit :=
  on_this (fun c => set_changedFields (flag_clear 8 CHANNEL_SEND_GET_CONFIG (changedFields c)) c).
Definition setSendInitialCaption : cm unit :=
  on_this (fun c => set_changedFields (flag_set CHANNEL_SEND_INITIAL_CAPTION (changedFields c)) c).
Definition clearSendInitialCaption : cm unit :=
  on_this (fun c => set_changedFields (flag_clear 8 CHANNEL_SEND_INITIAL_CAPTION (changedFields c)) c).
Definition setSendStateInfo : cm unit :=
  on_this (fun c => set_changedFields (flag_set CHANNEL_SEND_STATE_INFO (changedFields c)) c).
Definition clearSendStateInfo : cm unit :=
  on_this (fun c => set_changedFields (flag_clear 8 CHANNEL_SEND_STATE_INFO (changedFields c)) c).

Definition isValueUpdateReady (c : channel) : bool := has_flag CHANNEL_SEND_VALUE (changedFields c).
Definition isGetConfigRequested (c : channel) : bool := has_flag CHANNEL_SEND_GET_CONFIG (changedFields c).
Definition isInitialCaptionUpdateReady (c : channel) : bool :=
  has_flag CHANNEL_SEND_INITIAL_CAPTION (changedFields c).
Definition isStateInfoUpdateReady (c : channel) : bool := has_flag CHANNEL_SEND_STATE_INFO (changedFields c).
Definition isUpdateReady (c : channel) : bool := negb (changedFields c =? 0).

(** ** Values *)

(** [setNewValue(const char * )]: whether the value changed. *)
Definition setNewValue (newValue : bytes) : cm bool :=
  let! c := get_this in
  if negb (bool_decide (value c = newValue)) then
    on_this (set_value newValue);;;
    setSendValue;;;
    mret true
  else mret false.

Definition run_change : cm unit := runAction ON_CHANGE;;; runAction ON_SECONDARY_CHANNEL_CHANGE.

(** A value of at most eight bytes, the rest zero. *)
Definition raw_value (b : bytes) : bytes := b ++ zeros (SUPLA_CHANNELVALUE_SIZE - Zlen b).

Definition set_raw (b : bytes) : cm unit :=
  let! changed := setNewValue (raw_value b) in
  when changed run_change.

Definition setNewValue_uint64 (v : Z) : cm unit := set_raw (le_split 8 v).
Definition setNewValue_int32 (v : Z) : cm unit := set_raw (le_split 4 v).

Definition at_byte (i : nat) (v : bytes) : Z := byte.unsigned (nth i v Byte.x00).
Definition at_int8 (i : nat) (v : bytes) : Z := i8 (at_byte i v).
Definition byte1 (z : Z) : Init.Byte.byte := byte.of_Z z.

(** The virtual [getValueBool] of the class itself. *)
Definition getValueBool (c : channel) : bool := negb (at_int8 0 (value c) =? 0).

Definition setNewValue_bool (newValueState : bool) : cm unit :=
  let! c := get_this in
  let! changed := setNewValue (<[0%nat := byte1 (Z.b2z newValueState)]> (value c)) in
  when changed
    (let! c := get_this in
     runAction (if getValueBool c then ON_TURN_ON else ON_TURN_OFF);;;
     run_change).

(** The least value of a thermometer. *)
Definition absolute_zero : double := double_of_Z (-273).
Definition correct_temperature (t corr : double) : double :=
  if double_ltb absolute_zero t then
    let t := double_add t corr in if double_ltb t absolute_zero then absolute_zero else t
  else t.

(** [corrections] is the list of correction.cpp. *)
Definition setNewValue_double (corrections : list Correction.Correction) (dbl : double) : cm unit :=
  let! c := get_this in
  let corr := Correction.get (u8 (channelNumber c)) false corrections in
  let dbl :=
    if bool_decide (channelType c = THERMOMETER) then correct_temperature dbl corr
    else double_add dbl corr in
  set_raw (le_split 8 (double_bits dbl)).

(** [humiCorr > 0.01 || humiCorr < -0.01]; the literals are the nearest doubles. *)
Definition hundredth : double := double_div (double_of_Z 1) (double_of_Z 100).
Definition minus_hundredth : double := double_div (double_of_Z (-1)) (double_of_Z 100).

Definition correct_humidity (humi corr : double) : double :=
  if double_leb (double_of_Z 0) humi then
    let humi := double_add humi corr in
    if double_ltb hundredth corr || double_ltb corr minus_hundredth then
      let humi := if double_ltb humi (double_of_Z 0) then double_of_Z 0 else humi in
      if double_ltb (double_of_Z 100) humi then double_of_Z 100 else humi
    else humi
  else humi.

(** [None]: a product that [int32_t] cannot hold, whose conversion is undefined. *)
Definition setNewValue_double2 (corrections : list Correction.Correction) (temp humi : double) : cm unit :=
  let! c := get_this in
  let corrected := bool_decide (channelType c = HUMIDITYSENSOR)
                   || bool_decide (channelType c = HUMIDITYANDTEMPSENSOR) in
  let corr := Correction.get (u8 (channelNumber c)) in
  let temp := if corrected then correct_temperature temp (corr false corrections) else temp in
  let humi := if corrected then correct_humidity humi (corr true corrections) else humi in
  let! t := mopt (double_to_int32 (double_mul temp (double_of_Z 1000))) in
  let! h := mopt (double_to_int32 (double_mul humi (double_of_Z 1000))) in
  set_raw (le_split 4 t ++ le_split 4 h).

(** [getValueDouble], [getValueDoubleFirst], [getValueDoubleSecond] *)
Definition getValueDouble (c : channel) : double := double_of_bits (le_combine (take 8 (value c))).
Definition getValueInt32 (c : channel) : Z := i32 (le_combine (take 4 (value c))).
Definition getValueInt64 (c : channel) : Z := le_combine (take 8 (value c)).
Definition getValueDoubleFirst (c : channel) : double :=
  double_div (double_of_Z (i32 (le_combine (take 4 (value c))))) (double_of_Z 1000).
Definition getValueDoubleSecond (c : channel) : double :=
  double_div (double_of_Z (i32 (le_combine (take 4 (drop 4 (value c)))))) (double_of_Z 1000).

Definition getLastTemperature (c : channel) : double :=
  match channelType c with
  | THERMOMETER => getValueDouble c
  | HUMIDITYANDTEMPSENSOR => getValueDoubleFirst c
  | _ => double_of_Z (-275)
  end.

(** What [setNewValue(const TElectricityMeter_ExtendedValue_V3 &)] reads: the energy of the
    three phases, [measured_values] and the voltages of the measurements in use. *)
Record em_reading := {
  forward_energy : Z * Z * Z;
  m_count : Z;
  measured_values : Z;
  voltages : list (Z * Z * Z) }.

Definition EM_VAR_VOLTAGE : Z := 2.

Definition em_flags (v : Z * Z * Z) : Z :=
  let '(v1, v2, v3) := v in
  Z.lor (Z.lor (if 0 <? v1 then EM_VALUE_FLAG_PHASE1_ON else 0)
               (if 0 <? v2 then EM_VALUE_FLAG_PHASE2_ON else 0))
        (if 0 <? v3 then EM_VALUE_FLAG_PHASE3_ON else 0).

(** [None]: the last measurement lies outside the array. *)
Definition setNewValue_em (em : em_reading) : cm unit :=
  let '(f1, f2, f3) := forward_energy em in
  let total := u32 (u64 (f1 + f2 + f3) / 1000) in
  let! flags :=
    (if negb (m_count em =? 0) && has_flag EM_VAR_VOLTAGE (measured_values em) then
       let! v := mopt (if 0 <? m_count em then nth_error (voltages em) (Z.to_nat (m_count em - 1)) else None) in
       mret (em_flags v)
     else mret 0) in
  setNewValue (raw_value (le_split 1 flags ++ le_split 4 total));;;
  setSendValue.

(** A [TDSC_RollerShutterValue] or [TDSC_FacadeBlindValue] as its bytes. *)
Definition setNewValue_struct (v : bytes) : cm unit := set_raw v.

Definition getValueRed (c : channel) : Z := at_byte 4 (value c).
Definition getValueGreen (c : channel) : Z := at_byte 3 (value c).
Definition getValueBlue (c : channel) : Z := at_byte 2 (value c).
Definition getValueColorBrightness (c : channel) : Z := at_byte 1 (value c).
Definition getValueBrightness (c : channel) : Z := at_byte 0 (value c).
Definition getValueWhiteTemperature (c : channel) : Z := at_byte 7 (value c).
Definition getValueClosingPercentage (c : channel) : Z :=
  if 0 <=? at_int8 0 (value c) then at_int8 0 (value c) else 0.
Definition getValueIsCalibrating (c : channel) : bool := at_int8 0 (value c) =? -1.
Definition getValueTilt (c : channel) : Z :=
  if 0 <=? at_int8 1 (value c) then at_int8 1 (value c) else 0.

(** The actions that tell how the light changed from [p] to [c]. *)
Definition zero (z : Z) : bool := z =? 0.
Definition turned_on (get : channel -> Z) (p c : channel) : bool := zero (get p) && negb (zero (get c)).
Definition turned_off (get : channel -> Z) (p c : channel) : bool := negb (zero (get p)) && zero (get c).
Definition changed (get : channel -> Z) (p c : channel) : bool := negb (get p =? get c).

Definition rgbw_actions (p c : channel) : cm unit :=
  let color_stays_on := negb (zero (getValueColorBrightness p)) && negb (zero (getValueColorBrightness c)) in
  let color_on := turned_on getValueColorBrightness p c in
  let color_off := turned_off getValueColorBrightness p c in
  let channel_switched get on off :=
    when (turned_on get p c && color_stays_on) (runAction on);;;
    when (turned_off get p c && color_stays_on) (runAction off) in
  when (turned_on getValueBrightness p c) (runAction ON_DIMMER_TURN_ON);;;
  when (turned_off getValueBrightness p c) (runAction ON_DIMMER_TURN_OFF);;;
  when (changed getValueBrightness p c) (runAction ON_DIMMER_BRIGHTNESS_CHANGE);;;
  when (changed getValueWhiteTemperature p c) (runAction ON_WHITE_TEMPERATURE_CHANGE);;;
  when color_on
    (runAction ON_COLOR_TURN_ON;;;
     when (negb (zero (getValueRed c))) (runAction ON_RED_TURN_ON);;;
     when (negb (zero (getValueGreen c))) (runAction ON_GREEN_TURN_ON);;;
     when (negb (zero (getValueBlue c))) (runAction ON_BLUE_TURN_ON));;;
  when color_off
    (runAction ON_COLOR_TURN_OFF;;;
     when (negb (zero (getValueRed p))) (runAction ON_RED_TURN_OFF);;;
     when (negb (zero (getValueGreen p))) (runAction ON_GREEN_TURN_OFF);;;
     when (negb (zero (getValueBlue p))) (runAction ON_BLUE_TURN_OFF));;;
  when (changed getValueColorBrightness p c) (runAction ON_COLOR_BRIGHTNESS_CHANGE);;;
  channel_switched getValueRed ON_RED_TURN_ON ON_RED_TURN_OFF;;;
  channel_switched getValueGreen ON_GREEN_TURN_ON ON_GREEN_TURN_OFF;;;
  channel_switched getValueBlue ON_BLUE_TURN_ON ON_BLUE_TURN_OFF;;;
  when (changed getValueRed p c) (runAction ON_RED_CHANGE);;;
  when (changed getValueGreen p c) (runAction ON_GREEN_CHANGE);;;
  when (changed getValueBlue p c) (runAction ON_BLUE_CHANGE);;;
  when (turned_on getValueBrightness p c || color_on) (runAction ON_TURN_ON);;;
  when (turned_off getValueBrightness p c || color_off) (runAction ON_TURN_OFF).

Definition setNewValue_rgbw (red green blue colorBrightness brightness whiteTemperature : Z) : cm unit :=
  let newValue := map byte1 [brightness; colorBrightness; blue; green; red; 0; 0; whiteTemperature] in
  let! prev := get_this in
  let! changed := setNewValue newValue in
  when changed
    (run_change;;;
     let! c := get_this in
     rgbw_actions prev c).

(** ** Type, function and flags *)

Definition setType (type : Z) : cm unit := on_this (set_channelType (protoTypeToChannelType type)).
Definition getChannelType (c : channel) : Z := channelTypeToProtoType (channelType c).

Definition setDefault (v : Z) : cm unit :=
  let v := if 65535 <? v then 0 else v in
  let! c := get_this in
  if v =? defaultFunction c then mret tt
  else
    on_this (set_defaultFunction v);;;
    runAction ON_CHANNEL_FUNCTION_CHANGE.
Definition setDefaultFunction (function : Z) : cm unit := setDefault function.
Definition getDefaultFunction (c : channel) : Z := defaultFunction c.

Definition setFlag (flag : Z) : cm unit :=
  on_this (fun c => set_channelFlags (flag_set flag (channelFlags c)) c).
Definition unsetFlag (flag : Z) : cm unit :=
  on_this (fun c => set_channelFlags (flag_clear 64 flag (channelFlags c)) c).
Definition getFlags (c : channel) : Z := channelFlags c.

Definition setFuncList (functions : Z) : cm unit := on_this (set_functionsBitmap functions).
Definition getFuncList (c : channel) : Z := functionsBitmap c.
Definition addToFuncList (function : Z) : cm unit :=
  on_this (fun c => set_functionsBitmap (flag_set function (functionsBitmap c)) c).
Definition removeFromFuncList (function : Z) : cm unit :=
  on_this (fun c => set_functionsBitmap (flag_clear 32 function (functionsBitmap c)) c).
Definition setActionTriggerCaps (caps : Z) : cm unit := setFuncList caps.
Definition getActionTriggerCaps (c : channel) : Z := getFuncList c.
Definition getChannelNumber (c : channel) : Z := channelNumber c.

Definition setValidityTimeSec (timeSec : Z) : cm unit := on_this (set_validityTimeSec timeSec).
Definition isSleepingEnabled (c : channel) : bool := 0 <? validityTimeSec c.
Definition isWeeklyScheduleAvailable (c : channel) : bool :=
  has_flag SUPLA_CHANNEL_FLAG_WEEKLY_SCHEDULE (getFlags c).
Definition isChannelStateEnabled (c : channel) : bool := has_flag SUPLA_CHANNEL_FLAG_CHANNELSTATE (getFlags c).

Definition isRollerShutterRelayType (c : channel) : bool :=
  has_flag
    (fold_left Z.lor
       [SUPLA_BIT_FUNC_CONTROLLINGTHEROOFWINDOW; SUPLA_BIT_FUNC_TERRACE_AWNING;
        SUPLA_BIT_FUNC_ROLLER_GARAGE_DOOR; SUPLA_BIT_FUNC_CURTAIN; SUPLA_BIT_FUNC_PROJECTOR_SCREEN;
        SUPLA_BIT_FUNC_VERTICAL_BLIND; SUPLA_BIT_FUNC_CONTROLLINGTHEFACADEBLIND]
       SUPLA_BIT_FUNC_CONTROLLINGTHEROLLERSHUTTER)
    (functionsBitmap c).

(** The functions of a binary sensor, and those of a relay, in the order of the switch. *)
Definition binary_sensor_functions : list Z :=
  [SUPLA_CHANNELFNC_NOLIQUIDSENSOR; SUPLA_CHANNELFNC_OPENINGSENSOR_DOOR;
   SUPLA_CHANNELFNC_OPENINGSENSOR_WINDOW; SUPLA_CHANNELFNC_HOTELCARDSENSOR;
   SUPLA_CHANNELFNC_ALARMARMAMENTSENSOR; SUPLA_CHANNELFNC_MAILSENSOR;
   SUPLA_CHANNELFNC_OPENINGSENSOR_ROLLERSHUTTER; SUPLA_CHANNELFNC_OPENINGSENSOR_ROOFWINDOW;
   SUPLA_CHANNELFNC_OPENINGSENSOR_GARAGEDOOR; SUPLA_CHANNELFNC_OPENINGSENSOR_GATE;
   SUPLA_CHANNELFNC_OPENINGSENSOR_GATEWAY; SUPLA_CHANNELFNC_CONTAINER_LEVEL_SENSOR;
   SUPLA_CHANNELFNC_FLOOD_SENSOR; SUPLA_CHANNELFNC_BINARY_SENSOR; SUPLA_CHANNELFNC_MOTION_SENSOR].

Definition relay_functions : list Z :=
  [SUPLA_CHANNELFNC_CONTROLLINGTHEGATEWAYLOCK; SUPLA_CHANNELFNC_CONTROLLINGTHEGATE;
   SUPLA_CHANNELFNC_CONTROLLINGTHEGARAGEDOOR; SUPLA_CHANNELFNC_CONTROLLINGTHEDOORLOCK;
   SUPLA_CHANNELFNC_CONTROLLINGTHEROLLERSHUTTER; SUPLA_CHANNELFNC_CONTROLLINGTHEROOFWINDOW;
   SUPLA_CHANNELFNC_POWERSWITCH; SUPLA_CHANNELFNC_LIGHTSWITCH; SUPLA_CHANNELFNC_STAIRCASETIMER;
   SUPLA_CHANNELFNC_CONTROLLINGTHEFACADEBLIND; SUPLA_CHANNELFNC_TERRACE_AWNING;
   SUPLA_CHANNELFNC_PROJECTOR_SCREEN; SUPLA_CHANNELFNC_CURTAIN; SUPLA_CHANNELFNC_VERTICAL_BLIND;
   SUPLA_CHANNELFNC_ROLLER_GARAGE_DOOR; SUPLA_CHANNELFNC_PUMPSWITCH;
   SUPLA_CHANNELFNC_HEATORCOLDSOURCESWITCH].

(** For a relay the source tests the bits of the number of the function, not its bit. *)
Definition isFunctionValid (function : Z) (c : channel) : bool :=
  if function =? 0 then true
  else
    match channelType c with
    | BINARYSENSOR => existsb (Z.eqb function) binary_sensor_functions
    | RELAY => existsb (Z.eqb function) relay_functions && has_flag function (getFuncList c)
    | VALVE_OPENCLOSE => function =? SUPLA_CHANNELFNC_VALVE_OPENCLOSE
    | VALVE_PERCENTAGE => function =? SUPLA_CHANNELFNC_VALVE_PERCENTAGE
    | _ => true
    end.

Definition setDefaultIcon (iconId : Z) : cm unit := on_this (set_defaultIcon iconId).
Definition getDefaultIcon (c : channel) : Z := defaultIcon c.
Definition set_SubDeviceId (id : Z) : cm unit := on_this (set_subDeviceId id).
Definition getSubDeviceId (c : channel) : Z := subDeviceId c.

(** ** Battery, signal, caption *)

Definition isBatteryPowered (c : channel) : bool := batteryPowered c =? 1.
Definition isBatteryPoweredFieldEnabled (c : channel) : bool := negb (batteryPowered c =? 0).
Definition getBatteryLevel (c : channel) : Z := if batteryLevel c <=? 100 then batteryLevel c else 255.

Definition setBatteryPowered (v : bool) : cm unit :=
  let newValue := if v then 1 else 2 in
  let! c := get_this in
  when (negb (newValue =? batteryPowered c))
    (on_this (set_batteryPowered newValue);;; setSendStateInfo).

Definition setBatteryLevel (level : Z) : cm unit :=
  let! c := get_this in
  when ((0 <=? level) && (level <=? 100) && negb (level =? batteryLevel c))
    (on_this (set_batteryLevel level);;; setSendStateInfo).

Definition getBridgeSignalStrength (c : channel) : Z := bridgeSignalStrength c.
Definition setBridgeSignalStrength (strength : Z) : cm unit := on_this (set_bridgeSignalStrength strength).
Definition isBridgeSignalStrengthAvailable (c : channel) : bool := bridgeSignalStrength c <=? 100.

(** The caption is a C string: its characters. *)
Definition setInitialCaption (caption : bytes) : cm unit :=
  let text := take (Z.to_nat (SUPLA_CAPTION_MAXSIZE - 1)) caption in
  on_this (set_initialCaption (match text with [] => None | _ => Some text end)).
Definition getInitialCaption (c : channel) : option bytes := initialCaption c.
Definition isInitialCaptionSet (c : channel) : bool :=
  match initialCaption c with Some _ => true | None => false end.

(** ** The connection state *)

Definition set_state_to (flag : Z) : cm unit :=
  let! c := get_this in
  when (negb (state c =? flag)) (on_this (set_state flag);;; setSendValue).

Definition setStateOffline : cm unit := set_state_to SUPLA_CHANNEL_OFFLINE_FLAG_OFFLINE.
Definition setStateOnline : cm unit := set_state_to SUPLA_CHANNEL_OFFLINE_FLAG_ONLINE.
Definition setStateOnlineAndNotAvailable : cm unit :=
  set_state_to SUPLA_CHANNEL_OFFLINE_FLAG_ONLINE_BUT_NOT_AVAILABLE.
Definition setStateOfflineRemoteWakeupNotSupported : cm unit :=
  set_state_to SUPLA_CHANNEL_OFFLINE_FLAG_OFFLINE_REMOTE_WAKEUP_NOT_SUPPORTED.
Definition setStateFirmwareUpdateOngoing : cm unit :=
  set_state_to SUPLA_CHANNEL_OFFLINE_FLAG_FIRMWARE_UPDATE_ONGOING.

Definition isStateOnline (c : channel) : bool :=
  (state c =? SUPLA_CHANNEL_OFFLINE_FLAG_ONLINE)
  || (state c =? SUPLA_CHANNEL_OFFLINE_FLAG_ONLINE_BUT_NOT_AVAILABLE)
  || (state c =? SUPLA_CHANNEL_OFFLINE_FLAG_FIRMWARE_UPDATE_ONGOING).
Definition isStateOnlineAndNotAvailable (c : channel) : bool :=
  state c =? SUPLA_CHANNEL_OFFLINE_FLAG_ONLINE_BUT_NOT_AVAILABLE.
Definition isStateOfflineRemoteWakeupNotSupported (c : channel) : bool :=
  state c =? SUPLA_CHANNEL_OFFLINE_FLAG_OFFLINE_REMOTE_WAKEUP_NOT_SUPPORTED.
Definition isStateFirmwareUpdateOngoing (c : channel) : bool :=
  state c =? SUPLA_CHANNEL_OFFLINE_FLAG_FIRMWARE_UPDATE_ONGOING.

(** ** What is sent *)

(** [layers]: the number of protocol layers; each is told in turn. *)
Definition to_layers (layers : nat) (r : nat -> report) : cm unit :=
  fold_right (fun i k => emit (r i);;; k) (mret tt) (seq 0 layers).

Definition sendUpdate (layers : nat) : cm unit :=
  let! c := get_this in
  when (isValueUpdateReady c)
    (clearSendValue;;;
     to_layers layers (fun i => SendValue i (channelNumber c) (value c) (state c) (validityTimeSec c));;;
     match extValue c with
     | Some ext => to_layers layers (fun i => SendExtended i (channelNumber c) ext)
     | None => mret tt
     end);;;
  when (isInitialCaptionUpdateReady c)
    (clearSendInitialCaption;;;
     match initialCaption c with
     | Some text => to_layers layers (fun i => SendCaption i (u8 (channelNumber c)) text)
     | None => mret tt
     end);;;
  when (isGetConfigRequested c)
    (clearSendGetConfig;;;
     to_layers layers (fun i => GetConfig i (channelNumber c)));;;
  when (isStateInfoUpdateReady c)
    (clearSendStateInfo;;;
     to_layers layers (fun i => SendStateInfo i (u8 (channelNumber c)))).

Definition onRegistered : cm unit :=
  let! c := get_this in
  if (channelNumber c <? 0) || (255 <? channelNumber c) then mret tt
  else
    when (isInitialCaptionSet c) setSendInitialCaption;;;
    when (isSleepingEnabled c)
      (setSendValue;;;
       when (isChannelStateEnabled c) setSendStateInfo);;;
    when (isChannelStateEnabled c && isStateOnline c
          && (isBatteryPoweredFieldEnabled c || (getBatteryLevel c <=? 100)))
      setSendStateInfo.

(** [fillDeviceChannelStruct] for both types of structure; the members both have. *)
Definition fill_members (t : ctype) (c : channel) (subDevice : list (list string * Z)) : option bytes :=
  let members :=
    [(["Number"], getChannelNumber c); (["Type"], getChannelType c); ([""; "FuncList"], getFuncList c);
     (["Default"], getDefaultFunction c); (["Flags"], getFlags c); (["Offline"], state c);
     (["ValueValidityTimeSec"], validityTimeSec c); (["DefaultIcon"], getDefaultIcon c)] ++ subDevice in
  match fold_left (fun b m => match b with Some b => write_member t m.1 m.2 b | None => None end)
          members (Some (zeros (sizeof t))) with
  | Some b =>
      match member t [""; "value"] with
      | Some (off, _) => poke off (value c) b
      | None => None
      end
  | None => None
  end.

Definition fillDeviceChannelStruct_D `{Platform} : cm bytes :=
  clearSendValue;;;
  let! c := get_this in
  mopt (fill_members TDS_SuplaDeviceChannel_D c []).
Definition fillDeviceChannelStruct_E `{Platform} : cm bytes :=
  clearSendValue;;;
  let! c := get_this in
  mopt (fill_members TDS_SuplaDeviceChannel_E c [(["SubDeviceId"], getSubDeviceId c)]).

Definition fillRawValue (c : channel) : bytes := value c.
End Channel.
