(* ===== verification/ChannelValues.v ===== *)
(** * channel.cpp: values of heating, containers, valves and relays

    The union of [Channel] shares its eight bytes between the views; a member of a view is
    read and written with the layouts of proto.h, which all lie in it. *)
From S2P Require Import Prelude Platform CLayout ProtoConsts ProtoTypes DeviceConsts Events ChannelTypes Channel.

Module ChannelValues.
Import Channel.

(** [p->path] and [p->path = x] of the structure [t] at the start of the value. *)
Definition view_get (t : ctype) (path : list string) (v : bytes) : Z := default 0 (read_member t path v).
Definition view_set (t : ctype) (path : list string) (x : Z) (v : bytes) : bytes :=
  default v (write_member t path x v).

Definition set_view (t : ctype) (path : list string) (x : Z) : cm unit :=
  on_this (fun c => set_value (view_set t path x (value c)) c).
Definition this_view (t : ctype) (path : list string) : cm Z :=
  let! c := get_this in mret (view_get t path (value c)).

(** ** THVACValue *)

(** The static functions on a [THVACValue]; [None] is the null pointer. *)
Definition hvac_flag (flag : Z) (v : option bytes) : bool :=
  match v with Some v => has_flag flag (view_get THVACValue ["Flags"] v) | None => false end.
Definition isHvacFlagSetpointTemperatureCoolSet_of : option bytes -> bool :=
  hvac_flag SUPLA_HVAC_VALUE_FLAG_SETPOINT_TEMP_COOL_SET.
Definition isHvacFlagSetpointTemperatureHeatSet_of : option bytes -> bool :=
  hvac_flag SUPLA_HVAC_VALUE_FLAG_SETPOINT_TEMP_HEAT_SET.
Definition isHvacFlagHeating_of : option bytes -> bool :=
  hvac_flag SUPLA_HVAC_VALUE_FLAG_HEATING.
Definition isHvacFlagCooling_of : option bytes -> bool :=
  hvac_flag SUPLA_HVAC_VALUE_FLAG_COOLING.
Definition isHvacFlagWeeklySchedule_of : option bytes -> bool :=
  hvac_flag SUPLA_HVAC_VALUE_FLAG_WEEKLY_SCHEDULE.
Definition isHvacFlagFanEnabled_of : option bytes -> bool :=
  hvac_flag SUPLA_HVAC_VALUE_FLAG_FAN_ENABLED.
Definition isHvacFlagThermometerError_of : option bytes -> bool :=
  hvac_flag SUPLA_HVAC_VALUE_FLAG_THERMOMETER_ERROR.
Definition isHvacFlagClockError_of : option bytes -> bool :=
  hvac_flag SUPLA_HVAC_VALUE_FLAG_CLOCK_ERROR.
Definition isHvacFlagCountdownTimer_of : option bytes -> bool :=
  hvac_flag SUPLA_HVAC_VALUE_FLAG_COUNTDOWN_TIMER.
Definition isHvacFlagForcedOffBySensor_of : option bytes -> bool :=
  hvac_flag SUPLA_HVAC_VALUE_FLAG_FORCED_OFF_BY_SENSOR.
Definition isHvacFlagWeeklyScheduleTemporalOverride_of : option bytes -> bool :=
  hvac_flag SUPLA_HVAC_VALUE_FLAG_WEEKLY_SCHEDULE_TEMPORAL_OVERRIDE.
Definition isHvacFlagBatteryCoverOpen_of : option bytes -> bool :=
  hvac_flag SUPLA_HVAC_VALUE_FLAG_BATTERY_COVER_OPEN.
Definition isHvacFlagCalibrationError_of : option bytes -> bool :=
  hvac_flag SUPLA_HVAC_VALUE_FLAG_CALIBRATION_ERROR.
Definition isHvacFlagAntifreezeOverheatActive_of : option bytes -> bool :=
  hvac_flag SUPLA_HVAC_VALUE_FLAG_ANTIFREEZE_OVERHEAT_ACTIVE.

Inductive HvacCoolSubfunctionFlag := HeatSubfunctionOrNotUsed | CoolSubfunction.
#[export] Instance HvacCoolSubfunctionFlag_eq_dec : EqDecision HvacCoolSubfunctionFlag.
Proof. solve_decision. Defined.

Definition getHvacFlagCoolSubfunction_of (v : option bytes) : HvacCoolSubfunctionFlag :=
  if hvac_flag SUPLA_HVAC_VALUE_FLAG_COOL v then CoolSubfunction else HeatSubfunctionOrNotUsed.

Definition setHvacSetpoint_of (path : list string) (flag : Z) (temperature : Z) (v : bytes) : bytes :=
  if negb (view_get THVACValue path v =? temperature) || negb (hvac_flag flag (Some v)) then
    let v := view_set THVACValue path temperature v in
    view_set THVACValue ["Flags"] (flag_set flag (view_get THVACValue ["Flags"] v)) v
  else v.
Definition setHvacSetpointTemperatureHeat_of : Z -> bytes -> bytes :=
  setHvacSetpoint_of ["SetpointTemperatureHeat"] SUPLA_HVAC_VALUE_FLAG_SETPOINT_TEMP_HEAT_SET.
Definition setHvacSetpointTemperatureCool_of : Z -> bytes -> bytes :=
  setHvacSetpoint_of ["SetpointTemperatureCool"] SUPLA_HVAC_VALUE_FLAG_SETPOINT_TEMP_COOL_SET.

Definition isHvacValueValid (v : option bytes) : bool :=
  match v with
  | None => false
  | Some v =>
      let flags := view_get THVACValue ["Flags"] v in
      if 102 <? view_get THVACValue ["IsOn"] v then false
      else if SUPLA_HVAC_MODE_CMD_SWITCH_TO_MANUAL <? view_get THVACValue ["Mode"] v then false
      else if 8191 <? flags then false
      else if has_flag SUPLA_HVAC_VALUE_FLAG_COOLING flags && has_flag SUPLA_HVAC_VALUE_FLAG_HEATING flags
      then false
      else true
  end.

(** The value of a channel of type HVAC. *)
Definition getValueHvac (c : channel) : option bytes :=
  if bool_decide (channelType c = HVAC) then Some (value c) else None.

Definition isHvacFlagSetpointTemperatureCoolSet (c : channel) : bool :=
  isHvacFlagSetpointTemperatureCoolSet_of (getValueHvac c).
Definition isHvacFlagSetpointTemperatureHeatSet (c : channel) : bool :=
  isHvacFlagSetpointTemperatureHeatSet_of (getValueHvac c).
Definition isHvacFlagHeating (c : channel) : bool := isHvacFlagHeating_of (getValueHvac c).
Definition isHvacFlagCooling (c : channel) : bool := isHvacFlagCooling_of (getValueHvac c).
Definition isHvacFlagWeeklySchedule (c : channel) : bool := isHvacFlagWeeklySchedule_of (getValueHvac c).
Definition isHvacFlagFanEnabled (c : channel) : bool := isHvacFlagFanEnabled_of (getValueHvac c).
Definition isHvacFlagThermometerError (c : channel) : bool := isHvacFlagThermometerError_of (getValueHvac c).
Definition isHvacFlagClockError (c : channel) : bool := isHvacFlagClockError_of (getValueHvac c).
Definition isHvacFlagCountdownTimer (c : channel) : bool := isHvacFlagCountdownTimer_of (getValueHvac c).
Definition isHvacFlagForcedOffBySensor (c : channel) : bool := isHvacFlagForcedOffBySensor_of (getValueHvac c).
Definition isHvacFlagWeeklyScheduleTemporalOverride (c : channel) : bool :=
  isHvacFlagWeeklyScheduleTemporalOverride_of (getValueHvac c).
Definition isHvacFlagBatteryCoverOpen (c : channel) : bool := isHvacFlagBatteryCoverOpen_of (getValueHvac c).
Definition isHvacFlagCalibrationError (c : channel) : bool := isHvacFlagCalibrationError_of (getValueHvac c).
Definition isHvacFlagAntifreezeOverheatActive (c : channel) : bool :=
  isHvacFlagAntifreezeOverheatActive_of (getValueHvac c).
Definition getHvacFlagCoolSubfunction (c : channel) : HvacCoolSubfunctionFlag :=
  getHvacFlagCoolSubfunction_of (getValueHvac c).

(** The body of a member function that needs a value of type HVAC. *)
Definition with_hvac (k : bytes -> cm unit) : cm unit :=
  let! c := get_this in
  match getValueHvac c with Some v => k v | None => mret tt end.

Definition setHvacFlags (flags : Z) : cm unit :=
  with_hvac (fun v =>
    when (negb (view_get THVACValue ["Flags"] v =? flags))
      (setSendValue;;; set_view THVACValue ["Flags"] flags)).

(** The flag is set or cleared, and then [after] runs, when it was different. *)
Definition setHvacFlag (flag : Z) (v : bool) (after : cm unit) : cm unit :=
  with_hvac (fun hvacValue =>
    when (negb (eqb v (hvac_flag flag (Some hvacValue))))
      (setSendValue;;;
       let flags := view_get THVACValue ["Flags"] hvacValue in
       setHvacFlags (if v then flag_set flag flags else flag_clear 16 flag flags);;;
       after)).

Definition setHvacFlagSetpointTemperatureCoolSet (v : bool) : cm unit :=
  setHvacFlag SUPLA_HVAC_VALUE_FLAG_SETPOINT_TEMP_COOL_SET v (mret tt).
Definition setHvacFlagSetpointTemperatureHeatSet (v : bool) : cm unit :=
  setHvacFlag SUPLA_HVAC_VALUE_FLAG_SETPOINT_TEMP_HEAT_SET v (mret tt).
Definition setHvacFlagHeating (v : bool) : cm unit :=
  setHvacFlag SUPLA_HVAC_VALUE_FLAG_HEATING v (mret tt).
Definition setHvacFlagCooling (v : bool) : cm unit :=
  setHvacFlag SUPLA_HVAC_VALUE_FLAG_COOLING v (mret tt).
Definition setHvacFlagFanEnabled (v : bool) : cm unit :=
  setHvacFlag SUPLA_HVAC_VALUE_FLAG_FAN_ENABLED v (mret tt).
Definition setHvacFlagThermometerError (v : bool) : cm unit :=
  setHvacFlag SUPLA_HVAC_VALUE_FLAG_THERMOMETER_ERROR v (mret tt).
Definition setHvacFlagClockError (v : bool) : cm unit :=
  setHvacFlag SUPLA_HVAC_VALUE_FLAG_CLOCK_ERROR v (mret tt).
Definition setHvacFlagCountdownTimer (v : bool) : cm unit :=
  setHvacFlag SUPLA_HVAC_VALUE_FLAG_COUNTDOWN_TIMER v (mret tt).
Definition setHvacFlagForcedOffBySensor (v : bool) : cm unit :=
  setHvacFlag SUPLA_HVAC_VALUE_FLAG_FORCED_OFF_BY_SENSOR v (mret tt).
Definition setHvacFlagWeeklyScheduleTemporalOverride (v : bool) : cm unit :=
  setHvacFlag SUPLA_HVAC_VALUE_FLAG_WEEKLY_SCHEDULE_TEMPORAL_OVERRIDE v (mret tt).
Definition setHvacFlagBatteryCoverOpen (v : bool) : cm unit :=
  setHvacFlag SUPLA_HVAC_VALUE_FLAG_BATTERY_COVER_OPEN v (mret tt).
Definition setHvacFlagCalibrationError (v : bool) : cm unit :=
  setHvacFlag SUPLA_HVAC_VALUE_FLAG_CALIBRATION_ERROR v (mret tt).
Definition setHvacFlagAntifreezeOverheatActive (v : bool) : cm unit :=
  setHvacFlag SUPLA_HVAC_VALUE_FLAG_ANTIFREEZE_OVERHEAT_ACTIVE v (mret tt).
Definition setHvacFlagWeeklySchedule (v : bool) : cm unit :=
  setHvacFlag SUPLA_HVAC_VALUE_FLAG_WEEKLY_SCHEDULE v
    (runAction (if v then ON_HVAC_WEEKLY_SCHEDULE_ENABLED else ON_HVAC_WEEKLY_SCHEDULE_DISABLED)).
Definition setHvacFlagCoolSubfunction (flag : HvacCoolSubfunctionFlag) : cm unit :=
  setHvacFlag SUPLA_HVAC_VALUE_FLAG_COOL (bool_decide (flag = CoolSubfunction)) (mret tt).

Definition setHvacIsOn (isOn : bool) : cm unit :=
  with_hvac (fun v =>
    let was := view_get THVACValue ["IsOn"] v in
    when (negb (eqb (was =? 1) isOn))
      ((if (was =? 0) && isOn then runAction ON_TURN_ON
        else when (negb (was =? 0) && negb isOn) (runAction ON_TURN_OFF));;;
       runAction ON_CHANGE;;;
       set_view THVACValue ["IsOn"] (if isOn then 1 else 0);;;
       setSendValue)).

(** The protocol uses 2 to 102 for 0 to 100 percent. *)
Definition setHvacIsOnPercent (percent : Z) : cm unit :=
  let percent := (if 100 <? percent then 100 else percent) + 2 in
  with_hvac (fun v =>
    let was := view_get THVACValue ["IsOn"] v in
    when (negb (was =? percent))
      ((if (was =? 2) && negb (percent =? 2) then runAction ON_TURN_ON
        else when (negb (was =? 2) && (percent =? 2)) (runAction ON_TURN_OFF));;;
       runAction ON_CHANGE;;;
       set_view THVACValue ["IsOn"] percent;;;
       setSendValue)).

Definition setHvacMode (mode : Z) : cm unit :=
  with_hvac (fun v =>
    when (negb (view_get THVACValue ["Mode"] v =? mode) && (mode <=? SUPLA_HVAC_MODE_DRY))
      (setSendValue;;;
       set_view THVACValue ["Mode"] mode;;;
       (if mode =? SUPLA_HVAC_MODE_OFF then runAction ON_HVAC_MODE_OFF
        else if mode =? SUPLA_HVAC_MODE_HEAT then runAction ON_HVAC_MODE_HEAT
        else if mode =? SUPLA_HVAC_MODE_COOL then runAction ON_HVAC_MODE_COOL
        else when (mode =? SUPLA_HVAC_MODE_HEAT_COOL) (runAction ON_HVAC_MODE_HEAT_COOL)))).

(** A setpoint that is set, and one that is cleared. *)
Definition setHvacSetpoint (path : list string) (flag : Z) (temperature : Z) : cm unit :=
  with_hvac (fun v =>
    when (negb (view_get THVACValue path v =? temperature) || negb (hvac_flag flag (Some v)))
      (setSendValue;;;
       set_view THVACValue path temperature;;;
       setHvacFlag flag true (mret tt))).
Definition clearHvacSetpoint (path : list string) (flag : Z) : cm unit :=
  with_hvac (fun v =>
    when (negb (view_get THVACValue path v =? 0) || hvac_flag flag (Some v))
      (setSendValue;;;
       set_view THVACValue path 0;;;
       setHvacFlag flag false (mret tt))).

Definition setHvacSetpointTemperatureHeat : Z -> cm unit :=
  setHvacSetpoint ["SetpointTemperatureHeat"] SUPLA_HVAC_VALUE_FLAG_SETPOINT_TEMP_HEAT_SET.
Definition setHvacSetpointTemperatureCool : Z -> cm unit :=
  setHvacSetpoint ["SetpointTemperatureCool"] SUPLA_HVAC_VALUE_FLAG_SETPOINT_TEMP_COOL_SET.
Definition clearHvacSetpointTemperatureHeat : cm unit :=
  clearHvacSetpoint ["SetpointTemperatureHeat"] SUPLA_HVAC_VALUE_FLAG_SETPOINT_TEMP_HEAT_SET.
Definition clearHvacSetpointTemperatureCool : cm unit :=
  clearHvacSetpoint ["SetpointTemperatureCool"] SUPLA_HVAC_VALUE_FLAG_SETPOINT_TEMP_COOL_SET.

Definition clearHvacState : cm unit :=
  clearHvacSetpointTemperatureCool;;;
  clearHvacSetpointTemperatureHeat;;;
  setHvacMode SUPLA_HVAC_MODE_OFF;;;
  setHvacFlagWeeklySchedule false;;;
  setHvacFlagHeating false;;;
  setHvacFlagCooling false;;;
  setHvacIsOn false;;;
  setHvacFlagFanEnabled false;;;
  setHvacFlagThermometerError false;;;
  setHvacFlagClockError false;;;
  setHvacFlagCountdownTimer false.

Definition hvac_get (path : list string) (missing : Z) (c : channel) : Z :=
  match getValueHvac c with Some v => view_get THVACValue path v | None => missing end.
Definition getHvacIsOnRaw : channel -> Z := hvac_get ["IsOn"] 0.
Definition getHvacIsOnBool (c : channel) : bool :=
  (getHvacIsOnRaw c =? 1) || (2 <? getHvacIsOnRaw c).
Definition getHvacIsOnPercent (c : channel) : Z :=
  let isOn := getHvacIsOnRaw c in
  if (2 <? isOn) && (isOn <=? 102) then isOn - 2 else 0.
(** The mode is read whatever the type of the channel. *)
Definition getHvacMode (c : channel) : Z := view_get THVACValue ["Mode"] (value c).
Definition getHvacSetpointTemperatureHeat : channel -> Z := hvac_get ["SetpointTemperatureHeat"] (-32768).
Definition getHvacSetpointTemperatureCool : channel -> Z := hvac_get ["SetpointTemperatureCool"] (-32768).
Definition getHvacFlags : channel -> Z := hvac_get ["Flags"] 0.

(** ** TContainerChannel_Value *)

Definition setContainerFillValue (fillLevel : Z) : cm unit :=
  let fillLevel := if 100 <? fillLevel then -1 else fillLevel in
  let fillLevel := if fillLevel <? -1 then -1 else fillLevel in
  let fillLevel := fillLevel + 1 in
  let! level := this_view TContainerChannel_Value ["level"] in
  when (negb (level =? fillLevel))
    (set_view TContainerChannel_Value ["level"] fillLevel;;;
     runAction ON_CHANGE;;;
     setSendValue).

Definition getContainerFillValue (c : channel) : Z :=
  let level := view_get TContainerChannel_Value ["level"] (value c) in
  if (0 <? level) && (level <=? 101) then level - 1 else -1.

(** The flag is made [active] when it was not, and the change is reported. *)
Definition switch_flag (t : ctype) (w flag : Z) (active : bool) (on off : Event) : cm unit :=
  let! flags := this_view t ["flags"] in
  when (negb (eqb (has_flag flag flags) active))
    (set_view t ["flags"] (if active then flag_set flag flags else flag_clear w flag flags);;;
     setSendValue;;;
     runAction (if active then on else off)).

Definition setContainerAlarm (active : bool) : cm unit :=
  switch_flag TContainerChannel_Value 16 CONTAINER_FLAG_ALARM_LEVEL active
    ON_CONTAINER_ALARM_ACTIVE ON_CONTAINER_ALARM_INACTIVE.
Definition setContainerWarning (active : bool) : cm unit :=
  switch_flag TContainerChannel_Value 16 CONTAINER_FLAG_WARNING_LEVEL active
    ON_CONTAINER_WARNING_ACTIVE ON_CONTAINER_WARNING_INACTIVE.
Definition setContainerInvalidSensorState (invalid : bool) : cm unit :=
  switch_flag TContainerChannel_Value 16 CONTAINER_FLAG_INVALID_SENSOR_STATE invalid
    ON_CONTAINER_INVALID_SENSOR_STATE_ACTIVE ON_CONTAINER_INVALID_SENSOR_STATE_INACTIVE.
Definition setContainerSoundAlarmOn (soundAlarmOn : bool) : cm unit :=
  switch_flag TContainerChannel_Value 16 CONTAINER_FLAG_SOUND_ALARM_ON soundAlarmOn
    ON_CONTAINER_SOUND_ALARM_ACTIVE ON_CONTAINER_SOUND_ALARM_INACTIVE.

Definition view_flag (t : ctype) (flag : Z) (c : channel) : bool :=
  has_flag flag (view_get t ["flags"] (value c)).
Definition isContainerAlarmActive : channel -> bool :=
  view_flag TContainerChannel_Value CONTAINER_FLAG_ALARM_LEVEL.
Definition isContainerWarningActive : channel -> bool :=
  view_flag TContainerChannel_Value CONTAINER_FLAG_WARNING_LEVEL.
Definition isContainerInvalidSensorStateActive : channel -> bool :=
  view_flag TContainerChannel_Value CONTAINER_FLAG_INVALID_SENSOR_STATE.
Definition isContainerSoundAlarmOn : channel -> bool :=
  view_flag TContainerChannel_Value CONTAINER_FLAG_SOUND_ALARM_ON.

(** ** TValve_Value *)

(** The action that is run is chosen by the value before the change. *)
Definition setValveOpenState (openState : Z) : cm unit :=
  let openState := if 100 <? openState then 100 else openState in
  let! c := get_this in
  let newClosed :=
    if getChannelType c =? SUPLA_CHANNELTYPE_VALVE_OPENCLOSE then if 0 <? openState then 0 else 1
    else if getChannelType c =? SUPLA_CHANNELTYPE_VALVE_PERCENTAGE then 100 - openState
    else 0 in
  let! closed := this_view TValve_Value [""; "closed"] in
  if closed =? newClosed then mret tt
  else
    let runOnOpen := closed =? 0 in
    let runOnClose := negb runOnOpen && (newClosed =? 0) in
    set_view TValve_Value [""; "closed"] newClosed;;;
    setSendValue;;;
    runAction ON_CHANGE;;;
    when runOnOpen (runAction ON_OPEN);;;
    when runOnClose (runAction ON_CLOSE).

Definition setValveFloodingFlag (active : bool) : cm unit :=
  switch_flag TValve_Value 8 SUPLA_VALVE_FLAG_FLOODING active ON_FLOODING_ACTIVE ON_FLOODING_INACTIVE.
Definition setValveManuallyClosedFlag (active : bool) : cm unit :=
  switch_flag TValve_Value 8 SUPLA_VALVE_FLAG_MANUALLY_CLOSED active
    ON_VALVE_MANUALLY_CLOSED_ACTIVE ON_VALVE_MANUALLY_CLOSED_INACTIVE.
Definition setValveMotorProblemFlag (active : bool) : cm unit :=
  switch_flag TValve_Value 8 SUPLA_VALVE_FLAG_MOTOR_PROBLEM active
    ON_MOTOR_PROBLEM_ACTIVE ON_MOTOR_PROBLEM_INACTIVE.

Definition getValveOpenState (c : channel) : Z :=
  let closed := view_get TValve_Value [""; "closed"] (value c) in
  if getChannelType c =? SUPLA_CHANNELTYPE_VALVE_OPENCLOSE then if closed =? 0 then 100 else 0
  else if getChannelType c =? SUPLA_CHANNELTYPE_VALVE_PERCENTAGE then
    if closed <=? 100 then 100 - closed else 0
  else 0.
Definition isValveOpen (c : channel) : bool := 0 <? getValveOpenState c.
Definition isValveFloodingFlagActive : channel -> bool := view_flag TValve_Value SUPLA_VALVE_FLAG_FLOODING.
Definition isValveManuallyClosedFlagActive : channel -> bool :=
  view_flag TValve_Value SUPLA_VALVE_FLAG_MANUALLY_CLOSED.
Definition isValveMotorProblemFlagActive : channel -> bool :=
  view_flag TValve_Value SUPLA_VALVE_FLAG_MOTOR_PROBLEM.

(** ** TRelayChannel_Value *)

Definition setRelayOvercurrentCutOff `{Platform} (overcurrent : bool) : cm unit :=
  let! c := get_this in
  if bool_decide (channelType c = RELAY) then
    let flags := view_get TRelayChannel_Value ["flags"] (value c) in
    when (negb (Z.land flags SUPLA_RELAY_FLAG_OVERCURRENT_RELAY_OFF =? Z.b2z overcurrent))
      (set_view TRelayChannel_Value ["flags"]
         (Z.lor (flag_clear 16 SUPLA_RELAY_FLAG_OVERCURRENT_RELAY_OFF flags)
                (if overcurrent then SUPLA_RELAY_FLAG_OVERCURRENT_RELAY_OFF else 0));;;
       setSendValue)
  else mret tt.

Definition isRelayOvercurrentCutOff `{Platform} (c : channel) : bool :=
  bool_decide (channelType c = RELAY) && view_flag TRelayChannel_Value SUPLA_RELAY_FLAG_OVERCURRENT_RELAY_OFF c.
End ChannelValues.
