(* ===== verification/ToolsProps.v ===== *)
(** * tools.c: what the helpers compute

    The table-driven checksum is the CRC-32 of the polynomial 0xEDB88320 computed bit by
    bit, and detects every error that is confined to four consecutive bytes; hexadecimal
    text decodes to the bytes it was made of. *)
From S2P Require Import Prelude ProtoConsts Crc Tools.

(** ** CRC-32, bit by bit *)

Definition polynomial : Z := 0xedb88320.

Abbreviation crc_bits := (Crc.crc_bits polynomial).
Abbreviation crc_register := (Crc.crc_register polynomial).

Definition crc32_reference (data : bytes) : Z := Z.lxor (crc_register data 0xffffffff) 0xffffffff.

Lemma polynomial_range : 0 <= polynomial < 2 ^ 32.
Proof. by vm_compute. Qed.

(** The table holds the eight steps of every byte. *)
Lemma table_is_crc_bits i : (i < 256)%nat -> st_crc32_tab !! i = Some (crc_bits 8 (Z.of_nat i)).
Proof.
  intros Hi.
  assert (Hall : forallb (fun i => bool_decide (st_crc32_tab !! i = Some (crc_bits 8 (Z.of_nat i))))
    (seq 0 256) = true) by (vm_compute; reflexivity).
  rewrite forallb_forall in Hall. specialize (Hall i). apply bool_decide_eq_true in Hall; [done|].
  apply in_seq. lia.
Qed.

Lemma crc32_step_ok c b : 0 <= c -> crc32_step c b = Some (crc_bits 8 (Z.lxor c (byte.unsigned b))).
Proof.
  intros Hc. unfold crc32_step. pose proof (byte.unsigned_range b) as Hb.
  set (x := Z.lxor c (byte.unsigned b)).
  assert (Hx : 0 <= Z.land x 0xff < 256).
  { change 0xff with (Z.ones 8). rewrite Z.land_ones by lia. apply (Z.mod_pos_bound x 256). lia. }
  rewrite table_is_crc_bits, Z2Nat.id by lia. f_equal. rewrite (crc_bits_byte polynomial x). f_equal.
  unfold x. rewrite Z.shiftr_lxor. rewrite (Z.shiftr_div_pow2 (byte.unsigned b)) by lia.
  rewrite (Z.div_small (byte.unsigned b)) by (change (2 ^ 8) with 256; lia). by rewrite Z.lxor_0_r.
Qed.

(** ** The checksum *)

Lemma crc32_loop_ok data : forall c, 0 <= c < 2 ^ 32 -> crc32_loop data c = Some (crc_register data c).
Proof.
  induction data as [|b data IH]; intros c Hc; [done|]. cbn [crc32_loop crc_register].
  rewrite crc32_step_ok by lia.
  apply IH, (crc_step_range polynomial 32); [lia|apply polynomial_range|done].
Qed.

(** The table-driven checksum is the one computed bit by bit. *)
Lemma crc32_checksum_ok data : st_crc32_checksum data = Some (crc32_reference data).
Proof. unfold st_crc32_checksum. by rewrite crc32_loop_ok by (vm_compute; by split). Qed.

(** C22: the checksum detects bursts.  It is defined on all data and is the CRC-32
    computed bit by bit; and two messages that differ only within four consecutive bytes
    never have the same checksum. *)
Theorem crc32_detects_bursts p u v s :
  length u = length v -> (length u <= 4)%nat -> u <> v ->
  st_crc32_checksum (p ++ u ++ s) = Some (crc32_reference (p ++ u ++ s)) /\
  st_crc32_checksum (p ++ u ++ s) <> st_crc32_checksum (p ++ v ++ s).
Proof.
  intros Hl H4 Hne. rewrite !crc32_checksum_ok. split; [done|]. intros [= E]. apply Hne.
  apply lxor_cancel_r in E.
  apply (crc_register_burst polynomial 32 ltac:(lia) polynomial_range eq_refl p u v s 0xffffffff);
    [by vm_compute|done|unfold Zlen; lia|done].
Qed.

(** ** Hexadecimal *)

Definition hex_text (src : bytes) : bytes := concat (map (fun c => hex2 true (byte.unsigned c)) src).

(** The value of a digit, and the bytes a text stands for. *)
Definition hex_value (c : Byte.byte) : Z :=
  let n := byte.unsigned c in if n <? 58 then n - 48 else if n <? 71 then n - 55 else n - 87.
Fixpoint unhex (text : bytes) : bytes :=
  match text with
  | a :: b :: text => byte.of_Z (16 * hex_value a + hex_value b) :: unhex text
  | _ => []
  end.

Lemma hex2_value upper b : forall c d, hex2 upper (byte.unsigned b) = [c; d] ->
  byte.of_Z (16 * hex_value c + hex_value d) = b.
Proof. intros c d [= <- <-]. by destruct b, upper; vm_compute. Qed.

Lemma unhex_hex_text src : unhex (hex_text src) = src.
Proof.
  induction src as [|b src IH]; [done|]. unfold hex_text. cbn [map concat].
  destruct (hex2 true (byte.unsigned b)) as [|c [|d [|]]] eqn:E; try discriminate E.
  cbn [app unhex]. fold (hex_text src). by rewrite IH, (hex2_value _ _ _ _ E).
Qed.

Lemma bin2hex_loop_ok src : forall pre r, (2 * length src <= length r)%nat ->
  bin2hex_loop (pre ++ Byte.x00 :: r) (Zlen pre) src
  = Some (pre ++ hex_text src ++ Byte.x00 :: drop (2 * length src) r).
Proof.
  induction src as [|b src IH]; intros pre r Hr; cbn [bin2hex_loop].
  { cbn [length Nat.mul]. by rewrite drop_0. }
  destruct r as [|x [|y r]]; try (cbn in Hr; lia).
  rewrite (poke_app pre [Byte.x00; x; y] r) by done.
  set (h := hex2 true (byte.unsigned b)).
  replace (pre ++ (h ++ [Byte.x00]) ++ r) with ((pre ++ h) ++ Byte.x00 :: r)
    by (by rewrite <-!app_assoc).
  replace (Zlen pre + 2) with (Zlen (pre ++ h)) by (rewrite Zlen_app; done).
  rewrite IH by (cbn in Hr; lia). unfold hex_text at 2. cbn [map concat]. fold h (hex_text src).
  rewrite <-!app_assoc. replace (2 * length (b :: src))%nat with (S (S (2 * length src))) by (cbn; lia).
  done.
Qed.

(** In a buffer with room for two digits per byte and the terminator, [st_bin2hex] leaves
    text that decodes to the bytes it was made of. *)
Lemma bin2hex_roundtrip buffer src len : 0 <= len <= Zlen src -> 2 * len < Zlen buffer ->
  exists text, st_bin2hex (Some buffer) (Some src) len
    = Some (Some (text ++ Byte.x00 :: drop (Z.to_nat (2 * len + 1)) buffer)) /\
    Zlen text = 2 * len /\ unhex text = take (Z.to_nat len) src.
Proof.
  intros Hl Hb. set (s := take (Z.to_nat len) src).
  assert (Hs : Zlen s = len) by (unfold s; zlen).
  destruct buffer as [|x r]; [rewrite Zlen_nil in Hb; lia|]. rewrite Zlen_cons in Hb.
  exists (hex_text s). cbn [st_bin2hex]. rewrite peek_0 by done. fold s.
  rewrite (poke_app [] [x] r [Byte.x00]) by done.
  pose proof (bin2hex_loop_ok s [] r ltac:(unfold Zlen in *; lia)) as Hloop.
  cbn [app] in Hloop |- *. change (Zlen []) with 0 in Hloop. rewrite Hloop. split_and!.
  - cbn [app option_map]. do 4 f_equal. replace (Z.to_nat (2 * len + 1)) with (S (2 * length s))%nat
      by (unfold Zlen in *; lia). done.
  - rewrite <-Hs. clear. induction s as [|b s IH]; [done|]. unfold hex_text. cbn [map concat].
    rewrite Zlen_app, Zlen_cons. fold (hex_text s). rewrite IH. change (Zlen (hex2 _ _)) with 2. lia.
  - apply unhex_hex_text.
Qed.

(** ** Identifiers *)

(** The digits and dashes of an identifier of sixteen numbers below 256. *)
Definition uuid_text (r : list Z) : bytes :=
  let h l := concat (map (hex2 false) l) in
  let dash := [byte.of_Z 45] in
  h (take 4 r) ++ dash ++ h (take 2 (drop 4 r)) ++ dash ++ h (take 2 (drop 6 r)) ++ dash
  ++ h (take 2 (drop 8 r)) ++ dash ++ h (drop 10 r).

(** An identifier has its dashes where they belong and 36 characters. *)
Lemma uuid_shape random buffer : length random = 16%nat -> Zlen buffer = 37 ->
  st_uuid_v4 random buffer = Some (uuid_text (map (fun x => x mod 255) random) ++ [Byte.x00]).
Proof.
  intros Hr Hb. unfold st_uuid_v4. set (r := map _ random).
  assert (Hl : length r = 16%nat) by (unfold r; by rewrite length_map). clearbody r.
  assert (Hb' : length buffer = 37%nat) by (unfold Zlen in Hb; lia). clear Hb Hr.
  list_of_length. reflexivity.
Qed.

(** ** Witness *)

Lemma crc32_detects_bursts_witness :
  let p := [Byte.x53; Byte.x55] in
  st_crc32_checksum (p ++ [Byte.x01; Byte.x02] ++ [Byte.xff])
    = Some (crc32_reference (p ++ [Byte.x01; Byte.x02] ++ [Byte.xff])) /\
  st_crc32_checksum (p ++ [Byte.x01; Byte.x02] ++ [Byte.xff])
    <> st_crc32_checksum (p ++ [Byte.x02; Byte.x01] ++ [Byte.xff]).
Proof. apply crc32_detects_bursts; [reflexivity|vm_compute; lia|discriminate]. Defined.
